(* ===== verification/_CoqProject ===== *)
-Q . S2P
Prelude.v
GoStr.v
GoTime.v
DateOrder.v
Model.v
Chan.v
Pending.v
LogSessions.v
TerminalSessions.v
Proto.v
ConnMgr.v
RateLimiter.v
Db.v
Demo.v
Migrate.v
StoreConfig.v
StoreUsers.v
StoreServers.v
StoreAudit.v
Store.v
StoreTokens.v
Auth.v
AgentHandler.v
Http.v
AuditCatalog.v
Files.v
Streams.v
Secrets.v
Ldap.v
LdapDial.v
Flag.v
AuthHandlers.v
UserHandlers.v
AdminCli.v
ServerHandlers.v
TerminalHandlers.v
AuditLogHandlers.v
Notifier.v
NotificationHandlers.v
Router.v
WebServer.v
FileBrowser.v
LogTailer.v
Dropzone.v
AgentTerminal.v
AgentCerts.v
AgentClient.v
Hub.v
Monitor.v
Lifecycle.v
AgentMain.v
Unregister.v
