(* ===== verification/Prelude.v ===== *)
(** * Veyport hub and agent: root of the development (work in progress header) *)

From Stdlib Require Export Ascii.
From stdpp Require Export base tactics numbers option list gmap strings fin_maps sorting.
From Stdlib Require Export ZArith Lia.

#[global] Open Scope Z_scope.
#[global] Set Default Goal Selector "!".

(** ** Go outcomes: a call either returns or panics. *)
Inductive outcome (A : Type) : Type :=
  | Ret (a : A)
  | Panic.
Arguments Ret {A} _.
Arguments Panic {A}.

Definition obind {A B : Type} (m : outcome A) (f : A → outcome B) : outcome B :=
  match m with
  | Ret a => f a
  | Panic => Panic
  end.

(** ** Go errors: [(value, error)] results, an error being its message. *)
Inductive result (A : Type) : Type :=
  | Ok (a : A)
  | Err (e : string).
Arguments Ok {A} _.
Arguments Err {A} _.

Definition is_ok {A : Type} (r : result A) : bool :=
  match r with Ok _ => true | Err _ => false end.

Declare Scope veyport_scope.
Delimit Scope veyport_scope with vp.
Notation "'let!' x ':=' m 'in' k" := (obind m (λ x, k))
  (at level 10, x pattern, m at level 100, k at level 200) : veyport_scope.
#[global] Open Scope veyport_scope.

(** ** Automation *)

(** Case analysis on every boolean string test and [decide] in sight. *)
Ltac case_tests :=
  repeat match goal with
  | |- context [String.eqb ?a ?b] => destruct (String.eqb_spec a b); subst
  | H : context [String.eqb ?a ?b] |- _ => destruct (String.eqb_spec a b); subst
  | |- context [decide ?P] => destruct (decide P)
  | H : context [decide ?P] |- _ => destruct (decide P)
  | |- context [Z.eqb ?a ?b] => destruct (Z.eqb_spec a b)
  | |- context [Z.ltb ?a ?b] => destruct (Z.ltb_spec a b)
  | |- context [Z.leb ?a ?b] => destruct (Z.leb_spec a b)
  end.

(** Splits boolean conjunctions, disjunctions and negations in hypotheses. *)
Ltac bool_hyps :=
  repeat match goal with
  | H : _ && _ = true |- _ => apply andb_prop in H as [? ?]
  | H : _ || _ = false |- _ => apply orb_false_elim in H as [? ?]
  | H : negb _ = true |- _ => apply negb_true_iff in H
  | H : negb _ = false |- _ => apply negb_false_iff in H
  | H : String.eqb _ _ = true |- _ => apply String.eqb_eq in H
  | H : String.eqb _ _ = false |- _ => apply String.eqb_neq in H
  end.

Create HintDb veyport.

#[global] Arguments String.append !_ _ / : simpl nomatch.

(** ** Generic lemmas *)

Lemma Forall_filter_list {A : Type} (P Q : A → Prop) `{!∀ x, Decision (Q x)} (l : list A) :
  Forall P l → Forall P (filter Q l).
Proof. intros HP. apply Forall_forall. intros x [_ Hx]%list_elem_of_filter. by eapply Forall_forall in HP. Qed.

(** ** Record update: [r <| f := v |>]

    [eta] of a record lists its fields; [Setter] finds the one to replace. *)
Class Eta (R : Type) := eta : R → R.
Class Setter {R T : Type} (proj : R → T) := set_field : (T → T) → R → R.
Arguments set_field {R T} proj {_} _ _ /.

Ltac solve_setter :=
  lazymatch goal with
  | |- @Setter ?R ?T ?proj =>
      let e := eval hnf in (@eta R _) in
      let p := eval pattern proj in e in
      lazymatch p with
      | ?f _ => let b := eval cbv beta in (λ u : T → T, f (λ r : R, u (proj r))) in exact b
      end
  end.
#[export] Hint Extern 0 (Setter _) => solve_setter : typeclass_instances.

Notation "r <| f := v |>" := (set_field f (λ _, v) r)
  (at level 12, left associativity, format "r  <| f  :=  v |>") : veyport_scope.
Notation "r <| f ::= g |>" := (set_field f g r)
  (at level 12, left associativity, format "r  <| f  ::=  g |>") : veyport_scope.
