(* ===== verification/GoStr.v ===== *)
(** * The parts of Go's [strings] and [path/filepath] packages the hub and the agent use.

    A Go string is a byte sequence: [string] with one [ascii] per byte, [len] is
    [String.length].  [filepath] is the Unix one (separator ['/'], no volume names). *)

From S2P Require Import Prelude.

(** ** package strings *)

Definition HasPrefix (s prefix : string) : bool := String.prefix prefix s.

Fixpoint HasSuffix (s suffix : string) : bool :=
  String.eqb s suffix ||
  match s with
  | EmptyString => false
  | String _ s' => HasSuffix s' suffix
  end.

Fixpoint Contains (s sub : string) : bool :=
  String.prefix sub s ||
  match s with
  | EmptyString => false
  | String _ s' => Contains s' sub
  end.

Fixpoint drop_str (n : nat) (s : string) : string :=
  match n, s with
  | S n', String _ s' => drop_str n' s'
  | _, _ => s
  end.

Definition TrimPrefix (s prefix : string) : string :=
  if HasPrefix s prefix then drop_str (String.length prefix) s else s.

(** [strings.Split s c] for a one-byte separator. *)
Fixpoint Split (c : ascii) (s : string) : list string :=
  match s with
  | EmptyString => [""]
  | String a s' =>
      if Ascii.eqb a c then "" :: Split c s'
      else match Split c s' with
           | [] => [String a ""]
           | w :: ws => String a w :: ws
           end
  end.

Fixpoint Join (sep : string) (ws : list string) : string :=
  match ws with
  | [] => ""
  | [w] => w
  | w :: ws' => w +:+ sep +:+ Join sep ws'
  end.

(** No byte of [s] is [c]. *)
Fixpoint no_byte (c : ascii) (s : string) : bool :=
  match s with
  | EmptyString => true
  | String a s' => negb (Ascii.eqb a c) && no_byte c s'
  end.

Fixpoint all_bytes (p : ascii → bool) (s : string) : bool :=
  match s with
  | EmptyString => true
  | String a s' => p a && all_bytes p s'
  end.

Definition in_range (lo hi : ascii) (a : ascii) : bool :=
  (N_of_ascii lo <=? N_of_ascii a)%N && (N_of_ascii a <=? N_of_ascii hi)%N.

Definition is_lower (a : ascii) : bool := in_range "a" "z" a.
Definition is_upper (a : ascii) : bool := in_range "A" "Z" a.
Definition is_digit (a : ascii) : bool := in_range "0" "9" a.

(** ** package path/filepath *)

(** One path element of [filepath.Clean]: [acc] is the stack of kept elements,
    last first. *)
Definition clean_step (rooted : bool) (acc : list string) (c : string) : list string :=
  if String.eqb c "" || String.eqb c "." then acc
  else if String.eqb c ".." then
    match acc with
    | [] => if rooted then [] else [".."]
    | top :: rest => if String.eqb top ".." then ".." :: acc else rest
    end
  else c :: acc.

Definition is_rooted (p : string) : bool := HasPrefix p "/".

(** The elements of the shortest lexically equivalent path. *)
Definition clean_elems (p : string) : list string :=
  rev (fold_left (clean_step (is_rooted p)) (Split "/" p) []).

Definition render (rooted : bool) (es : list string) : string :=
  if rooted then "/" +:+ Join "/" es
  else match es with [] => "." | _ => Join "/" es end.

Definition Clean (p : string) : string := render (is_rooted p) (clean_elems p).

Definition IsAbs (p : string) : bool := is_rooted p.

(** The elements of a cleaned path, in order. *)
Definition elems (p : string) : list string :=
  filter (λ w, w ≠ "" ∧ w ≠ ".") (Split "/" p).

Fixpoint strip_common (bs ts : list string) : list string * list string :=
  match bs, ts with
  | b :: bs', t :: ts' => if String.eqb b t then strip_common bs' ts' else (bs, ts)
  | _, _ => (bs, ts)
  end.

Definition Rel (basepath targpath : string) : result string :=
  let base := Clean basepath in
  let targ := Clean targpath in
  if String.eqb targ base then Ok "."
  else if negb (Bool.eqb (is_rooted base) (is_rooted targ)) then Err "Rel: can't make path relative"
  else
    let '(bs, ts) := strip_common (elems base) (elems targ) in
    match bs with
    | ".." :: _ => Err "Rel: can't make path relative"
    | _ => Ok (Join "/" (repeat ".." (length bs) ++ ts))
    end.

Fixpoint trim_right_slash (s : string) : string :=
  match s with
  | EmptyString => ""
  | String a s' =>
      let r := trim_right_slash s' in
      if String.eqb r "" && Ascii.eqb a "/" then "" else String a r
  end.

Definition Base (p : string) : string :=
  if String.eqb p "" then "."
  else match last (Split "/" (trim_right_slash p)) with
       | Some w => if String.eqb w "" then "/" else w
       | None => "/"
       end.

(** [filepath.Join(dir, name)] for a directory and a name, both non-empty. *)
Definition JoinPath (dir name : string) : string := Clean (dir +:+ "/" +:+ name).

(** ** Lemmas: splitting and joining *)

Lemma app_empty_r (s : string) : s +:+ "" = s.
Proof. induction s as [|a s IH]; [done|]. simpl. by rewrite IH. Qed.

Lemma app_assoc_str (a b c : string) : (a +:+ b) +:+ c = a +:+ (b +:+ c).
Proof. induction a as [|x a IH]; [done|]. simpl. by rewrite IH. Qed.

Lemma prefix_app (p s : string) : String.prefix p (p +:+ s) = true.
Proof.
  induction p as [|a p IH]; [by destruct s|]. simpl.
  destruct (ascii_dec a a); [done|congruence].
Qed.
#[export] Hint Resolve prefix_app : veyport.

Lemma prefix_iff (p s : string) : String.prefix p s = true ↔ ∃ t, s = p +:+ t.
Proof.
  split.
  - revert s. induction p as [|a p IH]; intros s H; [by exists s|].
    destruct s as [|b s]; [done|]. simpl in H.
    destruct (ascii_dec a b) as [->|]; [|done].
    destruct (IH s H) as [t ->]. by exists t.
  - intros [t ->]. apply prefix_app.
Qed.

Lemma Split_ne (c : ascii) (s : string) : Split c s ≠ [].
Proof. destruct s as [|a s]; simpl; [done|]. destruct (Ascii.eqb a c); [done|]. by destruct (Split c s). Qed.

Lemma Split_no_byte (c : ascii) (s : string) : Forall (λ w, no_byte c w = true) (Split c s).
Proof.
  induction s as [|a s IH]; simpl; [by repeat constructor|].
  destruct (Ascii.eqb a c) eqn:E; [by constructor|].
  destruct (Split c s) as [|w ws]; inversion IH; subst;
    (constructor; [simpl; rewrite E; simpl; auto|done]).
Qed.

Lemma Split_no_sep (c : ascii) (w : string) : no_byte c w = true → Split c w = [w].
Proof.
  induction w as [|a w IH]; simpl; [done|].
  intros [Ha Hw]%andb_prop. apply negb_true_iff in Ha. rewrite Ha. by rewrite (IH Hw).
Qed.

Lemma Split_app (c : ascii) (w s : string) :
  no_byte c w = true → Split c (w +:+ String c s) = w :: Split c s.
Proof.
  induction w as [|a w IH]; simpl; [by rewrite Ascii.eqb_refl|].
  intros [Ha Hw]%andb_prop. apply negb_true_iff in Ha. rewrite Ha. by rewrite (IH Hw).
Qed.

Lemma Split_Join (c : ascii) (ws : list string) :
  ws ≠ [] → Forall (λ w, no_byte c w = true) ws → Split c (Join (String c "") ws) = ws.
Proof.
  intros Hne HF. induction HF as [|w ws Hw HF IH]; [done|].
  destruct ws as [|w' ws]; [by apply Split_no_sep|].
  change (Join (String c "") (w :: w' :: ws)) with (w +:+ String c (Join (String c "") (w' :: ws))).
  rewrite Split_app by done. by rewrite IH.
Qed.

(** ** Lemmas: [Clean] *)

(** An element a cleaned rooted path can hold. *)
Definition plain_elem (w : string) : Prop :=
  w ≠ "" ∧ w ≠ "." ∧ w ≠ ".." ∧ no_byte "/" w = true.

Lemma clean_step_plain (acc : list string) (w : string) :
  Forall plain_elem acc → no_byte "/" w = true → Forall plain_elem (clean_step true acc w).
Proof.
  intros Hacc Hw. unfold clean_step.
  destruct (String.eqb_spec w ""), (String.eqb_spec w "."), (String.eqb_spec w "..");
    simpl; try done.
  - destruct acc as [|top rest]; [done|]. inversion Hacc as [|? ? Htop Hrest]; subst.
    destruct (String.eqb_spec top ".."); [|done]. subst. by destruct Htop as (_ & _ & [] & _).
  - by constructor.
Qed.

Lemma clean_elems_plain (p : string) :
  is_rooted p = true → Forall plain_elem (clean_elems p).
Proof.
  intros Hr. unfold clean_elems. rewrite Hr. apply Forall_rev.
  assert (H := Split_no_byte "/" p). revert H.
  assert (Hacc : Forall plain_elem []) by constructor. revert Hacc.
  generalize (@nil string). induction (Split "/" p) as [|w ws IH]; intros acc Hacc HF; [done|].
  simpl. inversion HF; subst. apply IH; [|done]. by apply clean_step_plain.
Qed.

Lemma plain_no_byte (es : list string) :
  Forall plain_elem es → Forall (λ w, no_byte "/" w = true) es.
Proof. intros HF. eapply Forall_impl; [exact HF|]. by intros w (_ & _ & _ & H). Qed.

Lemma filter_plain (es : list string) :
  Forall plain_elem es → filter (λ w, w ≠ "" ∧ w ≠ ".") es = es.
Proof.
  induction 1 as [|w es (H1 & H2 & _) HF IH]; [done|].
  rewrite filter_cons_True by done. by rewrite IH.
Qed.

Lemma elems_render (es : list string) :
  Forall plain_elem es → elems (render true es) = es.
Proof.
  intros HF. unfold elems, render. simpl.
  destruct es as [|w es]; [done|].
  rewrite Split_Join by (done || by apply plain_no_byte).
  rewrite filter_cons_False by (by intros []). by apply filter_plain.
Qed.

Lemma rooted_Clean (p : string) : is_rooted p = true → is_rooted (Clean p) = true.
Proof. intros Hr. unfold Clean, render. rewrite Hr. apply prefix_app. Qed.

Lemma elems_Clean (p : string) : is_rooted p = true → elems (Clean p) = clean_elems p.
Proof.
  intros Hr. unfold Clean. rewrite Hr. apply elems_render. by apply clean_elems_plain.
Qed.

Lemma clean_eq_iff (p q : string) :
  is_rooted p = true → is_rooted q = true →
  Clean p = Clean q ↔ clean_elems p = clean_elems q.
Proof.
  intros Hp Hq. split; [|unfold Clean; rewrite Hp, Hq; by intros ->].
  intros H. rewrite <- (elems_Clean p), <- (elems_Clean q) by done. by rewrite H.
Qed.

Lemma fold_clean_plain (es acc : list string) :
  Forall plain_elem es → fold_left (clean_step true) es acc = rev es ++ acc.
Proof.
  intros HF. revert acc. induction HF as [|w es (H1 & H2 & H3 & _) HF IH]; intros acc; [done|].
  simpl. rewrite IH. unfold clean_step.
  destruct (String.eqb_spec w ""), (String.eqb_spec w "."), (String.eqb_spec w ".."); try done.
  simpl. by rewrite <- app_assoc.
Qed.

(** [Clean] is idempotent on rooted paths. *)
Lemma clean_idem (p : string) : is_rooted p = true → Clean (Clean p) = Clean p.
Proof.
  intros Hr. apply clean_eq_iff; [by apply rooted_Clean|done|].
  assert (HF := clean_elems_plain p Hr). assert (Hr' := rooted_Clean p Hr).
  unfold clean_elems at 1. rewrite Hr'. unfold Clean. rewrite Hr. unfold render.
  destruct (clean_elems p) as [|w es] eqn:E; [done|].
  change (Split "/" ("/" +:+ Join "/" (w :: es))) with ("" :: Split "/" (Join "/" (w :: es))).
  rewrite Split_Join by (done || by apply plain_no_byte).
  change (fold_left (clean_step true) ("" :: w :: es) [])
    with (fold_left (clean_step true) (w :: es) []).
  rewrite fold_clean_plain by done. rewrite app_nil_r. apply rev_involutive.
Qed.

(** ** Lemmas: [Rel] *)

Lemma strip_common_spec (bs ts bs' ts' : list string) :
  strip_common bs ts = (bs', ts') →
  ∃ c, bs = c ++ bs' ∧ ts = c ++ ts' ∧
       (bs' = [] ∨ ts' = [] ∨ head bs' ≠ head ts').
Proof.
  revert ts. induction bs as [|b bs IH]; intros ts H; simpl in H.
  - injection H as <- <-. exists []. auto.
  - destruct ts as [|t ts].
    + injection H as <- <-. exists []. auto.
    + destruct (String.eqb_spec b t) as [->|Hne].
      * destruct (IH ts H) as (c & -> & -> & Hc). by exists (t :: c).
      * injection H as <- <-. exists []. split_and!; auto. right. right. simpl. congruence.
Qed.

(** The test [isPathAllowed] makes on the result of [Rel]. *)
Definition rel_inside (rel : string) : bool :=
  String.eqb rel "." || (negb (HasPrefix rel "../") && negb (String.eqb rel "..")).

Lemma no_byte_app (c : ascii) (a b : string) :
  no_byte c (a +:+ b) = no_byte c a && no_byte c b.
Proof. induction a as [|x a IH]; simpl; [done|]. rewrite IH. by rewrite andb_assoc. Qed.

Lemma prefix_sep_elem (w s rest : string) :
  no_byte "/" w = true → w ≠ ".." →
  (s = w ∨ s = w +:+ "/" +:+ rest) → HasPrefix s "../" = false ∧ s ≠ "..".
Proof.
  intros Hw Hne Hs.
  assert (Hsp : head (Split "/" s) = Some w).
  { destruct Hs as [-> | ->]; [by rewrite Split_no_sep|].
    change (w +:+ "/" +:+ rest) with (w +:+ String "/" rest). by rewrite Split_app. }
  split.
  - apply not_true_is_false. intros [t ->]%prefix_iff. by injection Hsp as <-.
  - intros ->. by injection Hsp as <-.
Qed.

Lemma rel_inside_plain (ts : list string) :
  Forall plain_elem ts → rel_inside (Join "/" ts) = true.
Proof.
  intros HF. unfold rel_inside. destruct ts as [|w ts]; [done|].
  inversion HF as [|? ? (H1 & H2 & H3 & H4) _]; subst.
  assert (Hs : Join "/" (w :: ts) = w ∨ Join "/" (w :: ts) = w +:+ "/" +:+ Join "/" ts)
    by (destruct ts; auto).
  destruct (prefix_sep_elem w _ _ H4 H3 Hs) as [-> Hne].
  destruct (String.eqb_spec (Join "/" (w :: ts)) ".."); [done|]. by rewrite orb_true_r.
Qed.

Lemma rel_outside (n : nat) (ts : list string) :
  rel_inside (Join "/" (repeat ".." (S n) ++ ts)) = false.
Proof.
  simpl. destruct (repeat ".." n ++ ts); [done|].
  change (Join "/" (".." :: ?x :: ?l)) with (".." +:+ "/" +:+ Join "/" (x :: l)).
  generalize (Join "/" (s :: l)). by intros [].
Qed.

(** [Rel] between rooted paths never fails, and its result stays inside the base exactly
    when the base's elements are a prefix of the target's. *)
Lemma Rel_inside_iff (base targ : string) :
  is_rooted base = true → is_rooted targ = true →
  ∃ r, Rel base targ = Ok r ∧
       (rel_inside r = true ↔ clean_elems base `prefix_of` clean_elems targ).
Proof.
  intros Hb Ht. unfold Rel.
  destruct (String.eqb_spec (Clean targ) (Clean base)) as [Heq|Hne].
  { exists ".". split; [done|]. apply clean_eq_iff in Heq as ->; done. }
  rewrite (rooted_Clean base Hb), (rooted_Clean targ Ht). simpl.
  rewrite (elems_Clean base Hb), (elems_Clean targ Ht).
  destruct (strip_common _ _) as [bs ts] eqn:E.
  apply strip_common_spec in E as (c & Hbs & Hts & Hd).
  assert (HFb := clean_elems_plain base Hb). assert (HFt := clean_elems_plain targ Ht).
  rewrite Hbs in HFb. rewrite Hts in HFt.
  apply Forall_app in HFb as [_ HFb]. apply Forall_app in HFt as [_ HFt].
  exists (Join "/" (repeat ".." (length bs) ++ ts)). rewrite Hbs, Hts.
  destruct bs as [|b bs].
  - split; [done|]. simpl. rewrite rel_inside_plain by done.
    rewrite app_nil_r. split; [|done]. intros _. by exists ts.
  - inversion HFb as [|? ? (_ & _ & Hb' & _) _]; subst.
    assert (Hm : match b :: bs with
                 | ".." :: _ => Err "Rel: can't make path relative"
                 | _ => Ok (Join "/" (repeat ".." (length (b :: bs)) ++ ts))
                 end = Ok (Join "/" (repeat ".." (length (b :: bs)) ++ ts))).
    { by repeat case_match; subst. }
    split; [exact Hm|]. change (length (b :: bs)) with (S (length bs)).
    rewrite rel_outside. split; [done|]. intros [k Hk]. exfalso.
    rewrite <- app_assoc in Hk. apply app_inv_head in Hk.
    destruct Hd as [|[->|Hd]]; [done| done |]. by rewrite Hk in Hd.
Qed.

(** A relative path stays relative. *)
Lemma clean_step_slashless (acc : list string) (w : string) :
  Forall (λ x, x ≠ "" ∧ no_byte "/" x = true) acc → no_byte "/" w = true →
  Forall (λ x, x ≠ "" ∧ no_byte "/" x = true) (clean_step false acc w).
Proof.
  intros Hacc Hw. unfold clean_step.
  destruct (String.eqb_spec w ""), (String.eqb_spec w "."), (String.eqb_spec w "..");
    simpl; try done; [|by constructor].
  destruct acc as [|top rest]; [by repeat constructor|]. inversion Hacc; subst.
  destruct (String.eqb top ".."); [by constructor|done].
Qed.

Lemma clean_elems_slashless (p : string) :
  is_rooted p = false → Forall (λ x, x ≠ "" ∧ no_byte "/" x = true) (clean_elems p).
Proof.
  intros Hr. unfold clean_elems. rewrite Hr. apply Forall_rev.
  assert (H := Split_no_byte "/" p). revert H.
  assert (Hacc : Forall (λ x, x ≠ "" ∧ no_byte "/" x = true) []) by constructor. revert Hacc.
  generalize (@nil string). induction (Split "/" p) as [|w ws IH]; intros acc Hacc HF; [done|].
  simpl. inversion HF; subst. apply IH; [|done]. by apply clean_step_slashless.
Qed.

Lemma unrooted_Clean (p : string) : is_rooted p = false → is_rooted (Clean p) = false.
Proof.
  intros Hr. assert (HF := clean_elems_slashless p Hr). unfold Clean, render. rewrite Hr.
  destruct (clean_elems p) as [|w es]; [done|]. apply Forall_cons in HF as [[Hw Hs] _].
  destruct w as [|a w]; [done|]. simpl in Hs. apply andb_prop in Hs as [Ha _].
  apply negb_true_iff in Ha. unfold is_rooted, HasPrefix.
  assert (Hj : ∃ s, Join "/" (String a w :: es) = String a s).
  { destruct es as [|e es]; simpl; eauto. }
  destruct Hj as [s ->]. cbn [String.prefix]. destruct (ascii_dec "/" a) as [<-|]; [|done].
  by rewrite Ascii.eqb_refl in Ha.
Qed.

(** [requested] is [allowed] or below it. *)
Definition under (allowed requested : string) : Prop :=
  is_rooted allowed = true ∧ clean_elems allowed `prefix_of` clean_elems requested.

(** The test of [isPathAllowed] decides it, for an absolute request. *)
Lemma Rel_under (allowed requested : string) :
  is_rooted requested = true →
  match Rel (Clean allowed) (Clean requested) with
  | Ok rel => rel_inside rel = true ↔ under allowed requested
  | Err _ => ¬ under allowed requested
  end.
Proof.
  intros Hr. destruct (is_rooted allowed) eqn:Ha.
  - destruct (Rel_inside_iff (Clean allowed) (Clean requested)) as (rel & -> & H);
      [by apply rooted_Clean..|].
    rewrite H. unfold under. rewrite <- (elems_Clean (Clean allowed)), <- (elems_Clean (Clean requested))
      by by apply rooted_Clean.
    rewrite !clean_idem, !elems_Clean by done. tauto.
  - unfold Rel. assert (Hc := unrooted_Clean _ (unrooted_Clean _ Ha)).
    assert (Hr' := rooted_Clean _ (rooted_Clean _ Hr)).
    destruct (String.eqb_spec (Clean (Clean requested)) (Clean (Clean allowed))) as [He|_];
      [congruence|]. rewrite Hc, Hr'. simpl. unfold under. by intros [? _]; congruence.
Qed.

Lemma length_app_str (a b : string) :
  String.length (a +:+ b) = (String.length a + String.length b)%nat.
Proof. induction a as [|c a IH]; simpl; [done|]. by rewrite IH. Qed.

(** ** strconv *)

Definition digit_of (n : Z) : ascii := ascii_of_nat (Z.to_nat (48 + n)).
Definition digit_val (a : ascii) : Z := Z.of_nat (nat_of_ascii a) - 48.

(** Decimal digits of [n], most significant first, in front of [acc]. *)
Fixpoint digits (fuel : nat) (n : Z) (acc : string) : string :=
  match fuel with
  | O => acc
  | S f => if n <? 10 then String (digit_of n) acc
           else digits f (n / 10) (String (digit_of (n mod 10)) acc)
  end.

(** An [int] has at most 19 digits. *)
Definition int_digits : nat := 20.
Definition max_int : Z := 9223372036854775807.
Definition wrap_int (n : Z) : Z := (n + max_int + 1) mod (2 * max_int + 2) - max_int - 1.
Definition in_int (n : Z) : bool := (- max_int - 1 <=? n) && (n <=? max_int).

Definition Itoa (n : Z) : string :=
  if n <? 0 then "-" +:+ digits int_digits (- n) "" else digits int_digits n "".

#[global] Arguments Itoa : simpl never.

Fixpoint parse_digits (acc : Z) (s : string) : option Z :=
  match s with
  | EmptyString => Some acc
  | String a s' => if is_digit a then parse_digits (10 * acc + digit_val a) s' else None
  end.

(** [strconv.Atoi]: [None] is its error. *)
Definition atoi_unsigned (neg : bool) (s : string) : option Z :=
  if String.eqb s "" then None
  else match parse_digits 0 s with
       | Some m => let n := if neg then - m else m in if in_int n then Some n else None
       | None => None
       end.

Definition Atoi (s : string) : option Z :=
  if HasPrefix s "-" then atoi_unsigned true (drop_str 1 s)
  else if HasPrefix s "+" then atoi_unsigned false (drop_str 1 s)
  else atoi_unsigned false s.

(** [strconv.ParseBool] *)
Definition ParseBool (s : string) : option bool :=
  if existsb (String.eqb s) ["1"; "t"; "T"; "TRUE"; "true"; "True"] then Some true
  else if existsb (String.eqb s) ["0"; "f"; "F"; "FALSE"; "false"; "False"] then Some false
  else None.

(** The double quote, for [%q] and shell words. *)
Definition dquote : string := String (ascii_of_nat 34) "".

Lemma digit_of_val (n : Z) : 0 <= n < 10 → is_digit (digit_of n) = true ∧ digit_val (digit_of n) = n.
Proof.
  intros Hn. assert (n = 0 ∨ n = 1 ∨ n = 2 ∨ n = 3 ∨ n = 4 ∨ n = 5 ∨ n = 6 ∨ n = 7 ∨ n = 8 ∨ n = 9)
    as Hc by lia.
  by repeat destruct Hc as [-> | Hc]; [..|subst n].
Qed.

Lemma parse_digits_digits (f : nat) (n : Z) (acc : string) :
  0 <= n < 10 ^ Z.of_nat f → (0 < f)%nat →
  parse_digits 0 (digits f n acc) = parse_digits n acc.
Proof.
  revert n acc. induction f as [|f IH]; intros n acc Hn Hf; [lia|]. simpl.
  destruct (Z.ltb_spec n 10) as [Hl|Hl].
  - simpl. destruct (digit_of_val n) as [-> ->]; [lia|]. done.
  - rewrite Nat2Z.inj_succ, Z.pow_succ_r in Hn by lia.
    destruct f as [|f]; [simpl in Hn; lia|].
    rewrite IH; [|split; [apply Z.div_pos; lia|apply Z.div_lt_upper_bound; lia]|lia].
    simpl. assert (Hm := Z.mod_pos_bound n 10 ltac:(lia)).
    destruct (digit_of_val (n mod 10)) as [-> ->]; [lia|].
    f_equal. assert (Hd := Z.div_mod n 10). lia.
Qed.

Lemma digits_head (f : nat) (n : Z) (acc : string) :
  0 <= n → (0 < f)%nat → ∃ a s, digits f n acc = String a s ∧ is_digit a = true.
Proof.
  revert n acc. induction f as [|f IH]; intros n acc Hn Hf; [lia|]. simpl.
  destruct (Z.ltb_spec n 10) as [Hl|Hl].
  - eexists _, _. split; [done|]. by apply digit_of_val.
  - destruct f as [|f].
    + simpl. eexists _, _. split; [done|]. apply digit_of_val. by apply Z.mod_pos_bound.
    + apply IH; [by apply Z.div_pos|lia].
Qed.

(** A non-negative [int] survives [Itoa] and [Atoi]. *)
Lemma Atoi_Itoa (n : Z) : 0 <= n <= max_int → Atoi (Itoa n) = Some n.
Proof.
  intros Hn. unfold Itoa. destruct (Z.ltb_spec n 0); [lia|].
  assert (Hp := parse_digits_digits int_digits n "").
  destruct (digits_head int_digits n "") as (a & s & Hs & Ha); [lia|unfold int_digits; lia|].
  assert (Hc : ∀ c, is_digit c = false → HasPrefix (String a s) (String c "") = false).
  { intros c Hc. unfold HasPrefix. simpl. destruct (ascii_dec c a); [congruence|done]. }
  rewrite Hs in *. unfold Atoi. rewrite !Hc by done.
  unfold atoi_unsigned. rewrite Hp.
  - simpl. assert (Hr : in_int n = true); [|by rewrite Hr].
    unfold in_int. apply andb_true_intro. split; apply Z.leb_le; unfold max_int in *; lia.
  - split; [lia|]. change (10 ^ Z.of_nat int_digits) with 100000000000000000000.
    unfold max_int in Hn. lia.
  - unfold int_digits. lia.
Qed.

(** ** Strings without a given byte *)

Lemma all_bytes_no_byte (p : ascii → bool) (c : ascii) (s : string) :
  p c = false → all_bytes p s = true → no_byte c s = true.
Proof.
  intros Hc. induction s as [|a s IH]; simpl; [done|]. intros [Ha Hs]%andb_prop.
  rewrite IH, andb_true_r by done. by destruct (Ascii.eqb_spec a c) as [->|]; [congruence|].
Qed.

Lemma no_byte_substring (c : ascii) (n m : nat) (s : string) :
  no_byte c s = true → no_byte c (String.substring n m s) = true.
Proof.
  revert n m. induction s as [|a s IH]; intros n m; [by destruct n, m|].
  intros Hs. assert (Hs' := Hs). simpl in Hs'. apply andb_prop in Hs' as [Ha Hs'].
  destruct n as [|n]; [destruct m as [|m]; [done|]|by apply (IH n m)].
  cbn. by rewrite Ha, IH.
Qed.

Lemma no_byte_drop (c : ascii) (n : nat) (s : string) :
  no_byte c s = true → no_byte c (drop_str n s) = true.
Proof.
  revert s. induction n as [|n IH]; intros [|a s]; simpl; try done. intros [_ Hs]%andb_prop. by apply IH.
Qed.

(** ** Lemmas: substrings *)

Lemma length_substring (n k : nat) (s : string) :
  String.length (String.substring n k s) = Nat.min k (String.length s - n).
Proof.
  revert n k. induction s as [|a s IH]; intros [|n] [|k]; simpl; try lia.
  - by rewrite IH, Nat.sub_0_r.
  - by rewrite IH.
  - by rewrite IH.
Qed.

Lemma substring_all (n : nat) (s : string) : (String.length s <= n)%nat → String.substring 0 n s = s.
Proof.
  revert n. induction s as [|a s IH]; intros [|n] Hn; simpl in *; try done; try lia.
  f_equal. apply IH. lia.
Qed.

Lemma substring_suffix (n : nat) (s : string) :
  (n <= String.length s)%nat →
  s = String.substring 0 n s +:+ String.substring n (String.length s - n) s.
Proof.
  revert n. induction s as [|a s IH]; intros [|n] Hn; simpl in *; try done; try lia.
  - f_equal. rewrite (IH 0%nat) at 1 by lia. rewrite Nat.sub_0_r. by destruct s.
  - f_equal. apply IH. lia.
Qed.

Lemma substring_0 (n : nat) (s : string) : String.substring n 0 s = "".
Proof.
  destruct (String.substring n 0 s) eqn:E; [done|].
  apply (f_equal String.length) in E. rewrite length_substring in E. simpl in E. lia.
Qed.

Lemma substring_extend (n k j : nat) (s : string) :
  String.substring n k s +:+ String.substring (n + k) j s = String.substring n (k + j) s.
Proof.
  revert n k. induction s as [|a s IH]; intros [|n] [|k]; simpl; try done; f_equal; auto.
Qed.

Lemma substring_app_l (n k : nat) (s t : string) :
  (n + k <= String.length s)%nat → String.substring n k (s +:+ t) = String.substring n k s.
Proof.
  revert n k. induction s as [|a s IH]; intros [|n] [|k] H; simpl in *; try lia; try done.
  - destruct t; done.
  - f_equal. apply IH. lia.
  - apply IH. lia.
  - apply IH. lia.
Qed.

(** ** Lemmas: joining a name to a directory *)

Lemma Split_snoc (c : ascii) (s w : string) : Split c (s +:+ String c w) = Split c s ++ Split c w.
Proof.
  induction s as [|a s IH]; simpl; [by rewrite Ascii.eqb_refl|].
  destruct (Ascii.eqb a c); [by rewrite IH|]. rewrite IH.
  assert (H := Split_ne c s). by destruct (Split c s).
Qed.

Lemma clean_elems_join (dir name : string) :
  is_rooted dir = true → plain_elem name → clean_elems (dir +:+ "/" +:+ name) = clean_elems dir ++ [name].
Proof.
  intros Hr (H1 & H2 & H3 & H4). unfold clean_elems.
  assert (Hr' : is_rooted (dir +:+ "/" +:+ name) = true).
  { unfold is_rooted, HasPrefix in *. apply prefix_iff in Hr as [t ->]. rewrite app_assoc_str. apply prefix_app. }
  rewrite Hr, Hr'. change ("/" +:+ name) with (String "/" name). rewrite Split_snoc, fold_left_app.
  rewrite (Split_no_sep "/" name) by done. cbn [fold_left]. unfold clean_step at 1.
  by rewrite !(proj2 (String.eqb_neq name _)) by done.
Qed.

Lemma JoinPath_under (dir name : string) :
  is_rooted dir = true → plain_elem name → under dir (JoinPath dir name) ∧ is_rooted (JoinPath dir name) = true.
Proof.
  intros Hr Hn.
  assert (Hr' : is_rooted (dir +:+ "/" +:+ name) = true).
  { unfold is_rooted, HasPrefix in *. apply prefix_iff in Hr as [t ->]. rewrite app_assoc_str. apply prefix_app. }
  split; [|by apply rooted_Clean]. split; [done|]. unfold JoinPath.
  rewrite <- (elems_Clean (Clean _)) by by apply rooted_Clean. rewrite clean_idem, elems_Clean by done.
  rewrite clean_elems_join by done. by eexists.
Qed.
