(* ===== verification/GoTime.v ===== *)
(** * Package time: durations, calendar dates and the two layouts the hub formats times with. *)

From S2P Require Import Prelude GoStr.

(** Nanoseconds in a second, and the other units. *)
Definition NS : Z := 1000000000.
Definition Second : Z := NS.
Definition Minute : Z := 60 * Second.
Definition Hour : Z := 60 * Minute.

(** Seconds since the epoch, and within the day. *)
Definition unix (t : Z) : Z := t / NS.
Definition day_of (t : Z) : Z := unix t / 86400.
Definition second_of_day (t : Z) : Z := unix t mod 86400.

(** The proleptic Gregorian date of a day counted from the epoch. *)
Definition civil (day : Z) : Z * Z * Z :=
  let z := day + 719468 in
  let era := z / 146097 in
  let doe := z mod 146097 in
  let yoe := (doe - doe / 1460 + doe / 36524 - doe / 146096) / 365 in
  let doy := doe - (365 * yoe + yoe / 4 - yoe / 100) in
  let mp := (5 * doy + 2) / 153 in
  let d := doy - (153 * mp + 2) / 5 + 1 in
  let m := if mp <? 10 then mp + 3 else mp - 9 in
  let y := yoe + era * 400 + (if m <=? 2 then 1 else 0) in
  (y, m, d).

(** Decimal with at least [width] digits. *)
Fixpoint zeros (n : nat) : string := match n with O => "" | S n' => "0" +:+ zeros n' end.
Definition pad (width : nat) (n : Z) : string :=
  let s := Itoa n in zeros (width - String.length s) +:+ s.

Definition format_date (t : Z) : string :=
  let '(y, m, d) := civil (day_of t) in pad 4 y +:+ "-" +:+ pad 2 m +:+ "-" +:+ pad 2 d.
Definition format_clock (t : Z) : string :=
  let s := second_of_day t in
  pad 2 (s / 3600) +:+ ":" +:+ pad 2 (s / 60 mod 60) +:+ ":" +:+ pad 2 (s mod 60).

(** [t.UTC().Format("2006-01-02 15:04:05")] and [t.UTC().Format(time.RFC3339)] *)
Definition format_sqlite (t : Z) : string := format_date t +:+ " " +:+ format_clock t.
Definition format_rfc3339 (t : Z) : string := format_date t +:+ "T" +:+ format_clock t +:+ "Z".

Example format_sqlite_leap : format_sqlite (1709210096 * NS) = "2024-02-29 12:34:56".
Proof. reflexivity. Qed.
Example format_rfc3339_epoch : format_rfc3339 0 = "1970-01-01T00:00:00Z".
Proof. reflexivity. Qed.

(** ** Byte-wise comparison of strings *)

(** [a < b] and [a <= b] on text columns. *)
Definition text_lt (a b : string) : bool := match String.compare a b with Lt => true | _ => false end.
Definition text_le (a b : string) : bool := negb (text_lt b a).

Lemma ascii_compare_refl (a : ascii) : Ascii.compare a a = Eq.
Proof. unfold Ascii.compare. apply N.compare_refl. Qed.

Lemma compare_common_prefix (p a b : string) :
  String.compare (p +:+ a) (p +:+ b) = String.compare a b.
Proof. induction p as [|x p IH]; simpl; [done|]. by rewrite ascii_compare_refl. Qed.

(** On one day a [format_sqlite] text sorts before every [format_rfc3339] text. *)
Lemma sqlite_before_rfc3339 (t f : Z) :
  day_of t = day_of f → text_lt (format_sqlite t) (format_rfc3339 f) = true.
Proof.
  intros Hd. unfold text_lt, format_sqlite, format_rfc3339.
  assert (Heq : format_date t = format_date f) by (unfold format_date; by rewrite Hd).
  by rewrite Heq, compare_common_prefix.
Qed.
