(* ===== verification/DateOrder.v ===== *)
(** * Timestamps compare as text in the order of time.

    The store compares [DATETIME] columns with parameters as text.  Between 1970 and 9999 the
    layout of the columns sorts by time, to the second; against an RFC 3339 text it sorts by the
    day, a timestamp of the same day before the text. *)

From S2P Require Import Prelude GoStr GoTime.

(** ** Text *)

Lemma compare_refl (a : string) : String.compare a a = Eq.
Proof. induction a as [|x a IH]; simpl; [done|]. by rewrite ascii_compare_refl. Qed.

Lemma compare_app (a a' b b' : string) :
  String.length a = String.length a' →
  String.compare (a +:+ b) (a' +:+ b') =
    match String.compare a a' with Eq => String.compare b b' | c => c end.
Proof.
  revert a'. induction a as [|x a IH]; intros [|x' a'] Hl; simplify_eq/=; [done|].
  destruct (Ascii.compare x x'); [by apply IH|done..].
Qed.

Lemma compare_Lt_trans (a b c : string) :
  String.compare a b = Lt → String.compare b c = Lt → String.compare a c = Lt.
Proof.
  revert b c. induction a as [|x a IH]; intros [|y b] [|z c]; simpl; try done.
  unfold Ascii.compare.
  destruct (N.compare_spec (N_of_ascii x) (N_of_ascii y)) as [Hxy|Hxy|Hxy],
    (N.compare_spec (N_of_ascii y) (N_of_ascii z)) as [Hyz|Hyz|Hyz],
    (N.compare_spec (N_of_ascii x) (N_of_ascii z)) as [Hxz|Hxz|Hxz]; try done; try lia.
  apply IH.
Qed.

(** [f] increases from [i] on, for [n] steps. *)
Fixpoint increases (f : Z → string) (i : Z) (n : nat) : bool :=
  match n with
  | O => true
  | S n' => text_lt (f i) (f (i + 1)) && increases f (i + 1) n'
  end.

Lemma text_lt_Lt (a b : string) : text_lt a b = true ↔ String.compare a b = Lt.
Proof. unfold text_lt. by destruct (String.compare a b). Qed.

Lemma increases_step (f : Z → string) (i : Z) (n : nat) (j : Z) :
  increases f i n = true → i <= j < i + Z.of_nat n → String.compare (f j) (f (j + 1)) = Lt.
Proof.
  revert i. induction n as [|n IH]; intros i H Hj; [lia|]. simpl in H. bool_hyps.
  destruct (decide (j = i)) as [->|Hne]; [by apply text_lt_Lt|]. apply (IH (i + 1)); [done|lia].
Qed.

Lemma increases_Lt (f : Z → string) (i : Z) (n : nat) (j : Z) (d : nat) :
  increases f i n = true → i <= j → j + Z.of_nat (S d) <= i + Z.of_nat n →
  String.compare (f j) (f (j + Z.of_nat (S d))) = Lt.
Proof.
  intros H Hj. induction d as [|d IH]; intros Hd.
  - apply (increases_step f i n); [done|lia].
  - eapply compare_Lt_trans; [apply IH; lia|].
    replace (j + Z.of_nat (S (S d))) with (j + Z.of_nat (S d) + 1) by lia.
    apply (increases_step f i n); [done|lia].
Qed.

(** An increasing layout compares as the number it lays out. *)
Lemma increases_compare (f : Z → string) (n : nat) (i j : Z) :
  increases f 0 n = true → 0 <= i <= Z.of_nat n → 0 <= j <= Z.of_nat n →
  String.compare (f i) (f j) = Z.compare i j.
Proof.
  intros H Hi Hj. destruct (Z.compare_spec i j) as [->|Hlt|Hlt].
  - apply compare_refl.
  - replace j with (i + Z.of_nat (S (Z.to_nat (j - i - 1)))) by lia.
    apply (increases_Lt f 0 n); [done|lia..].
  - rewrite String.compare_antisym. replace i with (j + Z.of_nat (S (Z.to_nat (i - j - 1)))) by lia.
    rewrite (increases_Lt f 0 n); [done|done|lia..].
Qed.

Fixpoint all_below (p : Z → bool) (i : Z) (n : nat) : bool :=
  match n with O => true | S n' => p i && all_below p (i + 1) n' end.

Lemma all_below_spec (p : Z → bool) (i : Z) (n : nat) (j : Z) :
  all_below p i n = true → i <= j < i + Z.of_nat n → p j = true.
Proof.
  revert i. induction n as [|n IH]; intros i H Hj; [lia|]. simpl in H. bool_hyps.
  destruct (decide (j = i)) as [->|Hne]; [done|]. apply (IH (i + 1)); [done|lia].
Qed.

Lemma pad2_compare (i j : Z) : 0 <= i < 100 → 0 <= j < 100 →
  String.compare (pad 2 i) (pad 2 j) = Z.compare i j.
Proof. intros. apply (increases_compare (pad 2) 99); [by vm_compute|lia..]. Qed.

Lemma pad4_compare (i j : Z) : 0 <= i < 10000 → 0 <= j < 10000 →
  String.compare (pad 4 i) (pad 4 j) = Z.compare i j.
Proof. intros. apply (increases_compare (pad 4) (Z.to_nat 9999)); [by vm_compute|lia..]. Qed.

Lemma pad2_length (i : Z) : 0 <= i < 100 → String.length (pad 2 i) = 2%nat.
Proof.
  intros. apply Nat.eqb_eq.
  by apply (all_below_spec (λ i, Nat.eqb (String.length (pad 2 i)) 2) 0 100); [vm_compute|].
Qed.

Lemma pad4_length (i : Z) : 0 <= i < 10000 → String.length (pad 4 i) = 4%nat.
Proof.
  intros. apply Nat.eqb_eq.
  by apply (all_below_spec (λ i, Nat.eqb (String.length (pad 4 i)) 4) 0 (Z.to_nat 10000));
    [vm_compute|].
Qed.

(** ** The calendar *)

Definition date_key (date : Z * Z * Z) : Z := let '(y, m, d) := date in (y * 13 + m) * 32 + d.
Definition date_ok (date : Z * Z * Z) : bool :=
  let '(_, m, d) := date in (1 <=? m) && (m <=? 12) && (1 <=? d) && (d <=? 31).

(** One period of the calendar, from March of the year 0. *)
Definition era_day (z : Z) : Z := z - 719468.

Lemma era_checked : all_below (λ z, date_ok (civil (era_day z)) &&
  (date_key (civil (era_day z)) <? date_key (civil (era_day (z + 1))))) 0 (Z.to_nat 146097) = true.
Proof. by vm_compute. Qed.

Lemma civil_period (day k : Z) :
  civil (day + 146097 * k) = let '(y, m, d) := civil day in (y + 400 * k, m, d).
Proof.
  unfold civil. replace (day + 146097 * k + 719468) with (day + 719468 + k * 146097) by lia.
  rewrite Z.div_add, Z.mod_add by lia. f_equal. f_equal. lia.
Qed.

Lemma civil_step (day : Z) :
  date_ok (civil day) = true ∧ date_key (civil day) < date_key (civil (day + 1)).
Proof.
  set (k := (day + 719468) / 146097). set (z := (day + 719468) mod 146097).
  assert (Hz : 0 <= z < 146097) by (apply Z.mod_pos_bound; lia).
  assert (Hd : day = era_day z + 146097 * k) by
    (unfold era_day, z, k; rewrite Z.mod_eq by lia; lia).
  assert (Hc := all_below_spec _ 0 _ z era_checked ltac:(lia)). cbv beta in Hc.
  assert (Hn : day + 1 = era_day (z + 1) + 146097 * k) by (unfold era_day in *; lia).
  rewrite Hn, Hd, !civil_period. unfold date_key, date_ok in *.
  destruct (civil (era_day z)) as [[y m] d], (civil (era_day (z + 1))) as [[y' m'] d'].
  cbv beta iota in *. apply andb_prop in Hc as [Hc Hl]. split; [exact Hc|lia].
Qed.

Lemma date_key_lt (a : Z) (n : nat) :
  date_key (civil a) < date_key (civil (a + Z.of_nat (S n))).
Proof.
  induction n as [|n IH].
  - apply civil_step.
  - etransitivity; [exact IH|]. replace (a + Z.of_nat (S (S n))) with (a + Z.of_nat (S n) + 1) by lia.
    apply civil_step.
Qed.

Lemma date_key_compare (a b : Z) : Z.compare (date_key (civil a)) (date_key (civil b)) = Z.compare a b.
Proof.
  destruct (Z.compare_spec a b) as [->|Hlt|Hlt].
  - apply Z.compare_refl.
  - assert (H := date_key_lt a (Z.to_nat (b - a - 1))). apply Z.compare_lt_iff.
    by replace (a + Z.of_nat (S (Z.to_nat (b - a - 1)))) with b in H by lia.
  - assert (H := date_key_lt b (Z.to_nat (a - b - 1))). apply Z.compare_gt_iff.
    by replace (b + Z.of_nat (S (Z.to_nat (a - b - 1)))) with a in H by lia.
Qed.

Lemma date_key_le (a b : Z) : a <= b → date_key (civil a) <= date_key (civil b).
Proof.
  intros Hab. apply Z.nlt_ge. intros H%Z.compare_lt_iff.
  rewrite date_key_compare, Z.compare_lt_iff in H. lia.
Qed.

(** The days of the years 1970 to 9999. *)
Definition last_day : Z := 2932896.
Definition representable (t : Z) : Prop := 0 <= day_of t <= last_day.

Lemma year_range (day : Z) : 0 <= day <= last_day → 0 <= (civil day).1.1 < 10000.
Proof.
  intros Hd. destruct (civil_step day) as [Hok _].
  assert (Hlo := date_key_le 0 day ltac:(lia)). assert (Hhi := date_key_le day last_day ltac:(lia)).
  unfold date_key, date_ok in *. change (civil last_day) with (9999, 12, 31) in Hhi.
  change (civil 0) with (1970, 1, 1) in Hlo.
  destruct (civil day) as [[y m] d]. bool_hyps. simpl in *. lia.
Qed.

(** ** Layouts *)

Lemma format_date_compare (a b : Z) : representable a → representable b →
  String.compare (format_date a) (format_date b) = Z.compare (day_of a) (day_of b) ∧
  String.length (format_date a) = 10%nat.
Proof.
  unfold representable, format_date. intros Ha Hb.
  assert (Hya := year_range _ Ha). assert (Hyb := year_range _ Hb).
  destruct (civil_step (day_of a)) as [Hoa _], (civil_step (day_of b)) as [Hob _].
  rewrite <- date_key_compare. unfold date_key, date_ok in *.
  destruct (civil (day_of a)) as [[y m] d], (civil (day_of b)) as [[y' m'] d']. simpl in Hya, Hyb.
  bool_hyps. split.
  - rewrite compare_app by (rewrite !pad4_length; lia). rewrite pad4_compare by lia.
    rewrite compare_common_prefix, compare_app by (rewrite !pad2_length; lia).
    rewrite pad2_compare, compare_common_prefix, pad2_compare by lia.
    destruct (Z.compare_spec y y') as [->|Hy|Hy]; [|symmetry; apply Z.compare_lt_iff; lia
      |symmetry; apply Z.compare_gt_iff; lia].
    destruct (Z.compare_spec m m') as [->|Hm|Hm]; [|symmetry; apply Z.compare_lt_iff; lia
      |symmetry; apply Z.compare_gt_iff; lia].
    destruct (Z.compare_spec d d') as [->|Hd|Hd]; symmetry; [apply Z.compare_refl
      |apply Z.compare_lt_iff; lia|apply Z.compare_gt_iff; lia].
  - rewrite !length_app_str, pad4_length, !pad2_length by lia. done.
Qed.

Lemma format_clock_compare (a b : Z) :
  String.compare (format_clock a) (format_clock b) = Z.compare (second_of_day a) (second_of_day b).
Proof.
  unfold format_clock. set (s := second_of_day a). set (u := second_of_day b).
  assert (Hs : 0 <= s < 86400) by (apply Z.mod_pos_bound; lia).
  assert (Hu : 0 <= u < 86400) by (apply Z.mod_pos_bound; lia).
  assert (Hs2 : s = s / 3600 * 3600 + s / 60 mod 60 * 60 + s mod 60)
    by (Z.div_mod_to_equations; lia).
  assert (Hu2 : u = u / 3600 * 3600 + u / 60 mod 60 * 60 + u mod 60)
    by (Z.div_mod_to_equations; lia).
  assert (H1 : 0 <= s / 3600 < 24) by (Z.div_mod_to_equations; lia).
  assert (H2 : 0 <= u / 3600 < 24) by (Z.div_mod_to_equations; lia).
  assert (H3 := Z.mod_pos_bound (s / 60) 60 ltac:(lia)).
  assert (H4 := Z.mod_pos_bound (u / 60) 60 ltac:(lia)).
  assert (H5 := Z.mod_pos_bound s 60 ltac:(lia)). assert (H6 := Z.mod_pos_bound u 60 ltac:(lia)).
  revert Hs2 Hu2 H1 H2 H3 H4 H5 H6. generalize (s / 3600) (s / 60 mod 60) (s mod 60).
  generalize (u / 3600) (u / 60 mod 60) (u mod 60). intros h' m' r' h m r -> -> H1 H2 H3 H4 H5 H6.
  rewrite compare_app by (rewrite !pad2_length; lia). rewrite pad2_compare by lia.
  rewrite compare_common_prefix, compare_app by (rewrite !pad2_length; lia).
  rewrite pad2_compare, compare_common_prefix, pad2_compare by lia.
  destruct (Z.compare_spec h h') as [->|Hh|Hh]; [|symmetry; apply Z.compare_lt_iff; lia
    |symmetry; apply Z.compare_gt_iff; lia].
  destruct (Z.compare_spec m m') as [->|Hm|Hm]; [|symmetry; apply Z.compare_lt_iff; lia
    |symmetry; apply Z.compare_gt_iff; lia].
  destruct (Z.compare_spec r r') as [->|Hr|Hr]; symmetry; [apply Z.compare_refl
    |apply Z.compare_lt_iff; lia|apply Z.compare_gt_iff; lia].
Qed.

(** Columns compare by the second, columns with an RFC 3339 text by the day. *)
Lemma sqlite_lt_sqlite (a b : Z) : representable a → representable b →
  text_lt (format_sqlite a) (format_sqlite b) = (unix a <? unix b).
Proof.
  intros Ha Hb. destruct (format_date_compare a b Ha Hb) as [Hd Hl].
  destruct (format_date_compare b a Hb Ha) as [_ Hl'].
  unfold text_lt, format_sqlite. rewrite compare_app, Hd, compare_common_prefix, format_clock_compare
    by congruence.
  unfold day_of, second_of_day. assert (H1 := Z.div_mod (unix a) 86400 ltac:(lia)).
  assert (H2 := Z.div_mod (unix b) 86400 ltac:(lia)).
  assert (H3 := Z.mod_pos_bound (unix a) 86400 ltac:(lia)).
  assert (H4 := Z.mod_pos_bound (unix b) 86400 ltac:(lia)).
  destruct (Z.compare_spec (unix a / 86400) (unix b / 86400));
    [destruct (Z.compare_spec (unix a mod 86400) (unix b mod 86400))|..];
    destruct (Z.ltb_spec (unix a) (unix b)); try done; nia.
Qed.

Lemma sqlite_lt_rfc3339 (a b : Z) : representable a → representable b →
  text_lt (format_sqlite a) (format_rfc3339 b) = (day_of a <=? day_of b).
Proof.
  intros Ha Hb. destruct (format_date_compare a b Ha Hb) as [Hd Hl].
  destruct (format_date_compare b a Hb Ha) as [_ Hl'].
  unfold text_lt, format_sqlite, format_rfc3339. rewrite compare_app, Hd by congruence.
  destruct (Z.compare_spec (day_of a) (day_of b)), (Z.leb_spec (day_of a) (day_of b)); done || lia.
Qed.
