(* ===== verification/Model.v ===== *)
(** * Data of the hub (hub/internal/model).

    Times are nanoseconds since the Unix epoch; a nil pointer is [None]. *)

From S2P Require Import Prelude.

(** ** Roles and users (user.go) *)

Definition RoleAdmin : string := "admin".
Definition RoleAuditor : string := "auditor".
Definition RoleViewer : string := "viewer".

Definition AuthProviderLocal : string := "local".
Definition AuthProviderLDAP : string := "ldap".

Definition IsValidRole (role : string) : bool :=
  String.eqb role RoleAdmin || String.eqb role RoleAuditor || String.eqb role RoleViewer.

Record User := MkUser {
  u_ID : string;
  u_Username : string;
  u_Email : string;
  u_PasswordHash : string;
  u_Role : string;
  u_AuthProvider : string;
  u_ExternalID : string;
  u_LDAPDN : string;
  u_LDAPUsername : string;
  u_LDAPLastSyncAt : option Z;
  u_TerminalAccess : bool;
  u_TOTPSecret : option string;
  u_TOTPEnabled : bool;
  u_TokenGeneration : Z;
  u_Avatar : option string;
  u_MustChangePassword : bool;
  u_TempPasswordExpiresAt : option Z;
  u_CreatedAt : Z;
  u_UpdatedAt : Z
}.
#[export] Instance eta_User : Eta User := λ r, MkUser (u_ID r) (u_Username r) (u_Email r)
  (u_PasswordHash r) (u_Role r) (u_AuthProvider r) (u_ExternalID r) (u_LDAPDN r)
  (u_LDAPUsername r) (u_LDAPLastSyncAt r) (u_TerminalAccess r) (u_TOTPSecret r)
  (u_TOTPEnabled r) (u_TokenGeneration r) (u_Avatar r) (u_MustChangePassword r)
  (u_TempPasswordExpiresAt r) (u_CreatedAt r) (u_UpdatedAt r).

(** The zero value of Go's [model.User]. *)
Definition zeroUser : User :=
  MkUser "" "" "" "" "" "" "" "" "" None false None false 0 None false None 0 0.

(** ** Servers and permissions (server.go) *)

Record Server := MkServer {
  s_ID : string;
  s_Name : string;
  s_Hostname : option string;
  s_IPAddress : option string;
  s_OS : option string;
  s_Status : string;
  s_RegistrationToken : option string;
  s_TokenExpiresAt : option string;
  s_AgentVersion : option string;
  s_Labels : string;
  s_LastSeenAt : option Z;
  s_CreatedAt : Z;
  s_UpdatedAt : Z
}.
#[export] Instance eta_Server : Eta Server := λ r, MkServer (s_ID r) (s_Name r) (s_Hostname r)
  (s_IPAddress r) (s_OS r) (s_Status r) (s_RegistrationToken r) (s_TokenExpiresAt r)
  (s_AgentVersion r) (s_Labels r) (s_LastSeenAt r) (s_CreatedAt r) (s_UpdatedAt r).

Definition zeroServer : Server := MkServer "" "" None None None "" None None None "" None 0 0.

Record ServerFilter := MkServerFilter {
  sf_Status : option string;
  sf_Search : option string;
  sf_Limit : Z;
  sf_Offset : Z
}.

Record Permission := MkPermission {
  p_ID : string;
  p_UserID : string;
  p_Username : string;
  p_ServerID : string;
  p_Path : string;
  p_CreatedAt : Z
}.

(** ** Audit log (audit.go) *)

Record AuditEntry := MkAuditEntry {
  ae_ID : string;
  ae_UserID : option string;
  ae_Action : string;
  ae_Target : option string;
  ae_Detail : option string;
  ae_IPAddress : option string;
  ae_Outcome : string;
  ae_ActorType : string;
  ae_CorrelationID : option string;
  ae_ResourceType : option string;
  ae_PrevHash : string;
  ae_CreatedAt : Z
}.
#[export] Instance eta_AuditEntry : Eta AuditEntry := λ r, MkAuditEntry (ae_ID r) (ae_UserID r)
  (ae_Action r) (ae_Target r) (ae_Detail r) (ae_IPAddress r) (ae_Outcome r) (ae_ActorType r)
  (ae_CorrelationID r) (ae_ResourceType r) (ae_PrevHash r) (ae_CreatedAt r).

Definition AuditOutcomeSuccess : string := "success".
Definition AuditOutcomeFailure : string := "failure".
Definition AuditActorTypeUser : string := "user".
Definition AuditActorTypeDevice : string := "device".
Definition AuditActorTypeAnonymous : string := "anonymous".
Definition AuditActorTypeSystem : string := "system".

(** ** Audit controls (audit_controls.go) *)

Record AuditHealth := MkAuditHealth {
  ah_FailureCount : Z;
  ah_LastFailureAt : option string;
  ah_LastFailureReason : option string;
  ah_Degraded : bool;
  ah_LastRecoveredAt : option string
}.

Record AuditThresholds := MkAuditThresholds {
  at_LoginFailuresPerHour : Z;
  at_RegistrationFailuresPerHour : Z;
  at_PrivilegedActionsPerHour : Z
}.

Record AuditSettings := MkAuditSettings {
  as_RetentionDays : Z;
  as_ReviewReminderDays : Z;
  as_PasswordHistoryCount : Z;
  as_TemporaryPasswordTTLHours : Z;
  as_Thresholds : AuditThresholds
}.

(** ** API tokens (api_token.go) *)

Record APIToken := MkAPIToken {
  tk_ID : string;
  tk_UserID : string;
  tk_Name : string;
  tk_TokenPrefix : string;
  tk_TokenHash : string;
  tk_ExpiresAt : option Z;
  tk_LastUsedAt : option Z;
  tk_RevokedAt : option Z;
  tk_CreatedAt : Z;
  tk_UpdatedAt : Z
}.
#[export] Instance eta_APIToken : Eta APIToken := λ r, MkAPIToken (tk_ID r) (tk_UserID r)
  (tk_Name r) (tk_TokenPrefix r) (tk_TokenHash r) (tk_ExpiresAt r) (tk_LastUsedAt r)
  (tk_RevokedAt r) (tk_CreatedAt r) (tk_UpdatedAt r).

(** ** Notifications (notification.go) *)

Record NotifyEventDef := MkNotifyEventDef {
  ne_Type : string;
  ne_Label : string;
  ne_Category : string;
  ne_DefaultOn : bool
}.

Definition NotifyAgentOffline : string := "agent.offline".
Definition NotifyAgentOnline : string := "agent.online".
Definition NotifyAgentRegistered : string := "agent.registered".
Definition NotifyLoginFailed : string := "security.login_failed".
Definition NotifyUserCreated : string := "security.user_created".
Definition NotifyTOTPChanged : string := "security.totp_changed".
Definition NotifyPasswordChanged : string := "security.password_changed".
Definition NotifyFileUploaded : string := "system.file_uploaded".
Definition NotifyAuditDegraded : string := "security.audit_degraded".
Definition NotifyAuditRecovered : string := "security.audit_recovered".

Definition AllNotifyEvents : list NotifyEventDef :=
  [ MkNotifyEventDef NotifyAgentOffline "Agent went offline" "Agent" true;
    MkNotifyEventDef NotifyAgentOnline "Agent came online" "Agent" false;
    MkNotifyEventDef NotifyAgentRegistered "New agent enrolled" "Agent" true;
    MkNotifyEventDef NotifyLoginFailed "Failed login attempt" "Security" true;
    MkNotifyEventDef NotifyUserCreated "New user created" "Security" true;
    MkNotifyEventDef NotifyTOTPChanged "2FA configuration changed" "Security" true;
    MkNotifyEventDef NotifyPasswordChanged "Password changed" "Security" false;
    MkNotifyEventDef NotifyAuditDegraded "Audit pipeline degraded" "Security" true;
    MkNotifyEventDef NotifyAuditRecovered "Audit pipeline recovered" "Security" true;
    MkNotifyEventDef NotifyFileUploaded "File uploaded" "System" false ].

Record NotificationPreference := MkNotificationPreference {
  np_EventType : string;
  np_Label : string;
  np_Category : string;
  np_Enabled : bool
}.
