(* ===== verification/Chan.v ===== *)
(** * Go channels shared between a registry and its consumers.

    A buffered channel is a cell of a heap: the registry's map and the goroutine that reads the
    channel hold the same reference, so closing or filling it through one is seen by the other.
    Sending on a closed channel and closing one twice panic, as in Go. *)

From S2P Require Import Prelude.

Record chan (A : Type) := Chan { ch_buf : list A; ch_cap : nat; ch_closed : bool }.
Arguments Chan {A} _ _ _.
Arguments ch_buf {A} _.
Arguments ch_cap {A} _.
Arguments ch_closed {A} _.

Record heap (A : Type) := Heap { cells : gmap nat (chan A); next_ref : nat }.
Arguments Heap {A} _ _.
Arguments cells {A} _.
Arguments next_ref {A} _.

Definition empty_heap {A : Type} : heap A := Heap ∅ 0.

(** [make(chan A, n)] *)
Definition make_chan {A : Type} (n : nat) (h : heap A) : nat * heap A :=
  (next_ref h, Heap (<[next_ref h := Chan [] n false]> (cells h)) (S (next_ref h))).

Definition set_cell {A : Type} (c : nat) (ch : chan A) (h : heap A) : heap A :=
  Heap (<[c := ch]> (cells h)) (next_ref h).

(** [close(c)]: panics on a nil and on a closed channel. *)
Definition close_chan {A : Type} (c : nat) (h : heap A) : outcome (heap A) :=
  match cells h !! c with
  | Some (Chan b n false) => Ret (set_cell c (Chan b n true) h)
  | _ => Panic
  end.

(** [select { case c <- v: true; default: false }] *)
Definition try_send {A : Type} (c : nat) (v : A) (h : heap A) : outcome (bool * heap A) :=
  match cells h !! c with
  | None => Ret (false, h)
  | Some (Chan _ _ true) => Panic
  | Some (Chan b n false) =>
      if (length b <? n)%nat then Ret (true, set_cell c (Chan (b ++ [v]) n false) h)
      else Ret (false, h)
  end.

(** What a receive on [c] finds: a value, an open empty channel, or a closed drained one. *)
Inductive received (A : Type) : Type :=
  | Got (v : A)
  | WouldBlock
  | ClosedDrained.
Arguments Got {A} _.
Arguments WouldBlock {A}.
Arguments ClosedDrained {A}.

Definition receive {A : Type} (c : nat) (h : heap A) : received A * heap A :=
  match cells h !! c with
  | None => (WouldBlock, h)
  | Some (Chan (v :: b) n k) => (Got v, set_cell c (Chan b n k) h)
  | Some (Chan [] _ k) => (if k then ClosedDrained else WouldBlock, h)
  end.

(** References are allocated in order and buffers never exceed their capacity. *)
Definition heap_wf {A : Type} (h : heap A) : Prop :=
  ∀ c ch, cells h !! c = Some ch → (c < next_ref h)%nat ∧ (length (ch_buf ch) ≤ ch_cap ch)%nat.

(** The channel [c] of the heap is open. *)
Definition is_open {A : Type} (h : heap A) (c : nat) : Prop :=
  ∃ ch, cells h !! c = Some ch ∧ ch_closed ch = false.

Definition is_closed {A : Type} (h : heap A) (c : nat) : Prop :=
  ∃ ch, cells h !! c = Some ch ∧ ch_closed ch = true.

Section lemmas.
Context {A : Type}.
Implicit Types (h : heap A) (c : nat) (v : A).

Lemma heap_wf_empty : heap_wf (@empty_heap A).
Proof. intros c ch Hc. simpl in Hc. by rewrite lookup_empty in Hc. Qed.

Lemma heap_wf_make n h : heap_wf h → heap_wf (make_chan n h).2.
Proof.
  intros Hw c ch. simpl. rewrite lookup_insert.
  case_decide as Hd; [intros [= <-]; subst; simpl; lia|].
  intros Hc. destruct (Hw c ch Hc). simpl. lia.
Qed.

Lemma heap_wf_set c ch ch' h :
  heap_wf h → cells h !! c = Some ch → (length (ch_buf ch') ≤ ch_cap ch')%nat →
  heap_wf (set_cell c ch' h).
Proof.
  intros Hw Hc Hl d dh. simpl. rewrite lookup_insert.
  case_decide as Hd; [|apply Hw]. intros [= <-]; subst. split; [|done].
  by destruct (Hw d ch Hc).
Qed.

Lemma close_chan_open c h :
  is_open h c → ∃ ch, cells h !! c = Some ch ∧ ch_closed ch = false ∧
    close_chan c h = Ret (set_cell c (Chan (ch_buf ch) (ch_cap ch) true) h).
Proof.
  intros ([b n k] & Hc & Hk). simpl in Hk. subst k. exists (Chan b n false).
  split_and!; auto. unfold close_chan. by rewrite Hc.
Qed.

Lemma try_send_open c v h :
  is_open h c → ∃ ch, cells h !! c = Some ch ∧ ch_closed ch = false ∧
    try_send c v h =
      if (length (ch_buf ch) <? ch_cap ch)%nat
      then Ret (true, set_cell c (Chan (ch_buf ch ++ [v]) (ch_cap ch) false) h)
      else Ret (false, h).
Proof.
  intros ([b n k] & Hc & Hk). simpl in Hk. subst k. exists (Chan b n false).
  split_and!; auto. unfold try_send. by rewrite Hc.
Qed.

Lemma receive_wf c h : heap_wf h → heap_wf (receive c h).2.
Proof.
  intros Hw. unfold receive. destruct (cells h !! c) as [[[|v b] n k]|] eqn:Hc; [done| |done].
  eapply heap_wf_set; [done|exact Hc|]. destruct (Hw _ _ Hc) as [_ Hl]. simpl in *. lia.
Qed.

Lemma is_open_receive c d h : is_open (receive c h).2 d ↔ is_open h d.
Proof.
  unfold receive, is_open. destruct (cells h !! c) as [[[|v b] n k]|] eqn:Hc; [done| |done].
  simpl. destruct (decide (c = d)) as [<-|Hd].
  - rewrite lookup_insert_eq, Hc. naive_solver.
  - by rewrite lookup_insert_ne.
Qed.

Lemma is_closed_receive c d h : is_closed (receive c h).2 d ↔ is_closed h d.
Proof.
  unfold receive, is_closed. destruct (cells h !! c) as [[[|v b] n k]|] eqn:Hc; [done| |done].
  simpl. destruct (decide (c = d)) as [<-|Hd].
  - rewrite lookup_insert_eq, Hc. naive_solver.
  - by rewrite lookup_insert_ne.
Qed.
End lemmas.

#[export] Hint Resolve heap_wf_empty heap_wf_make heap_wf_set receive_wf : veyport.

Lemma is_open_set_cell {A : Type} (c d : nat) (k : chan A) (h : heap A) :
  ch_closed k = false → is_open h d → is_open (set_cell c k h) d.
Proof.
  intros Hk (q & Hq & Hc). unfold is_open. simpl. rewrite lookup_insert.
  case_decide; [by exists k|by exists q].
Qed.

Lemma is_open_set_cell_ne {A : Type} (c d : nat) (k : chan A) (h : heap A) :
  c ≠ d → is_open h d → is_open (set_cell c k h) d.
Proof. intros Hne (q & Hq & Hc). exists q. simpl. by rewrite lookup_insert_ne. Qed.

Lemma fresh_ref {A : Type} (h : heap A) : heap_wf h → cells h !! next_ref h = None.
Proof. intros Hw. destruct (cells h !! next_ref h) eqn:E; [|done]. destruct (Hw _ _ E). lia. Qed.

Lemma open_not_fresh {A : Type} (h : heap A) (c : nat) :
  heap_wf h → is_open h c → c ≠ next_ref h.
Proof. intros Hw (k & Hk & _) ->. by rewrite fresh_ref in Hk. Qed.

Lemma is_open_make {A : Type} (n c : nat) (h : heap A) :
  is_open h c → heap_wf h → is_open (make_chan n h).2 c.
Proof.
  intros Ho Hw. assert (Hne := open_not_fresh h c Hw Ho). destruct Ho as (k & Hk & Hc).
  exists k. simpl. by rewrite lookup_insert_ne.
Qed.
#[export] Hint Resolve is_open_set_cell is_open_set_cell_ne is_open_make : veyport.
