(* ===== verification/Pending.v ===== *)
(** * Request/response correlation between the HTTP handlers and the agents' streams
    (hub/internal/grpcserver/pending.go).

    [PendingRequests] maps [serverID:requestID] to a one-slot channel.  A handler registers a
    key, sends the request to the agent and waits on the channel; the agent's stream delivers
    the response under the server ID its certificate proved. *)

From S2P Require Import Prelude GoStr Chan.

(** ** Keys *)

Definition makeKey (serverID requestID : string) : string :=
  serverID +:+ ":" +:+ requestID.

(** Server IDs are UUIDs: they hold no [':']. *)
Definition colon_free (s : string) : Prop := no_byte ":" s = true.

Lemma makeKey_split (s r : string) : colon_free s → Split ":" (makeKey s r) = s :: Split ":" r.
Proof.
  intros Hs. change (makeKey s r) with (s +:+ String ":" r). by apply Split_app.
Qed.

Lemma app_str_inj_r (s a b : string) : s +:+ a = s +:+ b → a = b.
Proof. induction s as [|x s IH]; simpl; [done|]. intros [= H]. by apply IH. Qed.

(** A key determines the server and the request it was made from. *)
Lemma makeKey_inj (s1 s2 r1 r2 : string) :
  colon_free s1 → colon_free s2 → makeKey s1 r1 = makeKey s2 r2 → s1 = s2 ∧ r1 = r2.
Proof.
  intros H1 H2 Heq.
  assert (Hs : s1 :: Split ":" r1 = s2 :: Split ":" r2).
  { rewrite <- !makeKey_split by done. by rewrite Heq. }
  injection Hs as -> _. split; [done|].
  apply app_str_inj_r in Heq. by injection Heq.
Qed.

Lemma makeKey_ne (s1 s2 r1 r2 : string) :
  colon_free s1 → colon_free s2 → s1 ≠ s2 → makeKey s1 r1 ≠ makeKey s2 r2.
Proof. intros H1 H2 Hne Heq. by destruct (makeKey_inj _ _ _ _ H1 H2 Heq). Qed.
#[export] Hint Resolve makeKey_ne : veyport.

(** ** The registry *)

Section pending.
Context {Msg : Type}.

Record PendingRequests := MkPending {
  p_channels : gmap string nat;
  p_heap : heap Msg
}.

Definition NewPendingRequests : PendingRequests := MkPending ∅ empty_heap.

Definition Register (serverID requestID : string) (p : PendingRequests)
  : nat * PendingRequests :=
  let '(ch, h) := make_chan 1 (p_heap p) in
  (ch, MkPending (<[makeKey serverID requestID := ch]> (p_channels p)) h).

(** [Deliver] looks the channel up under the lock and sends outside it. *)
Definition deliver_send (ch : nat) (msg : Msg) (p : PendingRequests)
  : outcome (bool * PendingRequests) :=
  let! (sent, h) := try_send ch msg (p_heap p) in
  Ret (sent, MkPending (p_channels p) h).

Definition Deliver (serverID requestID : string) (msg : Msg) (p : PendingRequests)
  : outcome (bool * PendingRequests) :=
  match p_channels p !! makeKey serverID requestID with
  | None => Ret (false, p)
  | Some ch => deliver_send ch msg p
  end.

Definition Remove (serverID requestID : string) (p : PendingRequests) : PendingRequests :=
  MkPending (delete (makeKey serverID requestID) (p_channels p)) (p_heap p).

Definition Await (ch : nat) (p : PendingRequests) : received Msg * PendingRequests :=
  let '(r, h) := receive ch (p_heap p) in (r, MkPending (p_channels p) h).

(** ** Steps: every interleaving of handlers and agent streams.  A delivery is two steps, the
    lookup and the send: [DSend] may run after the key was removed. *)
Inductive action :=
  | ARegister (serverID requestID : string)
  | ALookup (serverID requestID : string) (msg : Msg)
  | ASend
  | ARemove (serverID requestID : string)
  | AAwait (ch : nat).

(** The registry, and the deliveries between their lookup and their send. *)
Record psys := PSys { ps_reg : PendingRequests; ps_flight : list (nat * Msg) }.

Definition step (a : action) (s : psys) : outcome psys :=
  match a with
  | ARegister srv r => Ret (PSys (Register srv r (ps_reg s)).2 (ps_flight s))
  | ALookup srv r m =>
      Ret match p_channels (ps_reg s) !! makeKey srv r with
          | None => s
          | Some ch => PSys (ps_reg s) (ps_flight s ++ [(ch, m)])
          end
  | ASend =>
      match ps_flight s with
      | [] => Ret s
      | (ch, m) :: fl =>
          let! (_, p) := deliver_send ch m (ps_reg s) in Ret (PSys p fl)
      end
  | ARemove srv r => Ret (PSys (Remove srv r (ps_reg s)) (ps_flight s))
  | AAwait ch => Ret (PSys (Await ch (ps_reg s)).2 (ps_flight s))
  end.

Fixpoint run (acts : list action) (s : psys) : outcome psys :=
  match acts with
  | [] => Ret s
  | a :: acts' => let! s' := step a s in run acts' s'
  end.

(** Channels are allocated, open, at most one slot, and one key owns each. *)
Record pending_inv (s : psys) : Prop := {
  pi_heap : heap_wf (p_heap (ps_reg s));
  pi_open : ∀ c ch, cells (p_heap (ps_reg s)) !! c = Some ch →
              ch_closed ch = false ∧ ch_cap ch = 1%nat;
  pi_keys : ∀ k c, p_channels (ps_reg s) !! k = Some c →
              is_Some (cells (p_heap (ps_reg s)) !! c);
  pi_inj : ∀ k1 k2 c, p_channels (ps_reg s) !! k1 = Some c →
              p_channels (ps_reg s) !! k2 = Some c → k1 = k2;
  pi_flight : Forall (λ d, is_Some (cells (p_heap (ps_reg s)) !! d.1)) (ps_flight s)
}.

Lemma pending_inv_init : pending_inv (PSys NewPendingRequests []).
Proof. split; simpl; intros; simplify_map_eq; auto with veyport. Qed.

Lemma deliver_send_open ch msg (p : PendingRequests) :
  is_Some (cells (p_heap p) !! ch) →
  (∀ c k, cells (p_heap p) !! c = Some k → ch_closed k = false ∧ ch_cap k = 1%nat) →
  ∃ k, cells (p_heap p) !! ch = Some k ∧
    deliver_send ch msg p =
      Ret (if decide (ch_buf k = [])
           then (true, MkPending (p_channels p) (set_cell ch (Chan [msg] 1 false) (p_heap p)))
           else (false, p)).
Proof.
  intros [k Hk] Hall. destruct (Hall _ _ Hk) as [Hc Hn]. exists k. split; [done|].
  unfold deliver_send.
  destruct (try_send_open ch msg (p_heap p)) as (k' & Hk' & _ & ->); [by exists k|].
  simplify_eq. rewrite Hn. destruct p as [chs h]. simpl in *.
  destruct (ch_buf k) as [|x l]; [rewrite decide_True by done|rewrite decide_False by done];
    reflexivity.
Qed.

Lemma pending_inv_send ch msg fl (p : PendingRequests) :
  pending_inv (PSys p ((ch, msg) :: fl)) →
  ∃ b p', deliver_send ch msg p = Ret (b, p') ∧ pending_inv (PSys p' fl).
Proof.
  intros [Hw Ho Hk Hi Hf]. simpl in *. inversion Hf as [|? ? Hc Hf']; subst. simpl in Hc.
  destruct (deliver_send_open ch msg p Hc Ho) as (k & Hck & ->).
  case_decide; (eexists _, _; split; [done|]); split; simpl; auto.
  - eapply heap_wf_set; [done|exact Hck|]. simpl. lia.
  - intros c q. rewrite lookup_insert. case_decide; [by intros [= <-]|apply Ho].
  - intros q c Hq. rewrite lookup_insert. case_decide; [done|by eapply Hk].
  - eapply Forall_impl; [exact Hf'|]. intros d Hd. simpl.
    rewrite lookup_insert. by case_decide.
Qed.

Lemma pending_inv_register srv r (s : psys) :
  pending_inv s → pending_inv (PSys (Register srv r (ps_reg s)).2 (ps_flight s)).
Proof.
  intros [Hw Ho Hk Hi Hf].
  assert (Hfresh : cells (p_heap (ps_reg s)) !! next_ref (p_heap (ps_reg s)) = None).
  { destruct (cells _ !! _) eqn:E; [|done]. destruct (Hw _ _ E); lia. }
  split; simpl.
  - by apply (heap_wf_make 1).
  - intros c q. rewrite lookup_insert. case_decide; [by intros [= <-]|apply Ho].
  - intros q c. rewrite !lookup_insert. repeat case_decide; try done; [congruence|].
    apply Hk.
  - intros k1 k2 c. rewrite !lookup_insert. repeat case_decide; try congruence.
    + intros [= <-] H2. apply Hk in H2. rewrite Hfresh in H2. by destruct H2.
    + intros H1 [= <-]. apply Hk in H1. rewrite Hfresh in H1. by destruct H1.
    + apply Hi.
  - eapply Forall_impl; [exact Hf|]. intros d Hd. simpl. rewrite lookup_insert. by case_decide.
Qed.

Lemma pending_inv_remove srv r (s : psys) :
  pending_inv s → pending_inv (PSys (Remove srv r (ps_reg s)) (ps_flight s)).
Proof.
  intros [Hw Ho Hk Hi Hf]. split; simpl; auto.
  - intros q c [_ Hc]%lookup_delete_Some. by eapply Hk.
  - intros k1 k2 c [_ H1]%lookup_delete_Some [_ H2]%lookup_delete_Some. by eapply Hi.
Qed.

Lemma pending_inv_await ch (s : psys) :
  pending_inv s → pending_inv (PSys (Await ch (ps_reg s)).2 (ps_flight s)).
Proof.
  intros [Hw Ho Hk Hi Hf]. unfold Await. destruct (receive _ _) as [v h] eqn:E. simpl.
  assert (Hh : h = (receive ch (p_heap (ps_reg s))).2) by by rewrite E.
  assert (Hd : ∀ c, is_Some (cells h !! c) ↔ is_Some (cells (p_heap (ps_reg s)) !! c)).
  { intros c. subst h. unfold receive.
    destruct (cells _ !! ch) as [[[|x l] n q]|] eqn:Hc; [done| |done]. simpl.
    rewrite lookup_insert. case_decide; [subst; rewrite Hc|]; naive_solver. }
  split; simpl.
  - subst h. by apply receive_wf.
  - subst h. unfold receive.
    destruct (cells _ !! ch) as [[[|x l] n q]|] eqn:Hc; [done| |done]. simpl. intros c k.
    rewrite lookup_insert. case_decide; [|apply Ho].
    intros [= <-]. by apply (Ho _ _ Hc).
  - intros q c Hq. apply Hd. by eapply Hk.
  - done.
  - eapply Forall_impl; [exact Hf|]. intros d. apply Hd.
Qed.

Lemma pending_step_inv a (s : psys) :
  pending_inv s → ∃ s', step a s = Ret s' ∧ pending_inv s'.
Proof.
  intros Hs. destruct a as [srv r|srv r m| |srv r|ch]; simpl.
  - eexists. split; [done|]. by apply pending_inv_register.
  - destruct (p_channels (ps_reg s) !! makeKey srv r) as [ch|] eqn:E; [|by exists s].
    eexists. split; [done|]. destruct Hs as [Hw Ho Hk Hi Hf]. split; simpl; auto.
    apply Forall_app. split; [done|]. constructor; [|done]. by eapply Hk.
  - destruct (ps_flight s) as [|[ch m] fl] eqn:E; [by exists s|].
    destruct s as [p fl']. simpl in *. subst fl'.
    destruct (pending_inv_send ch m fl p Hs) as (b & p' & -> & Hi). simpl. eauto.
  - eexists. split; [done|]. by apply pending_inv_remove.
  - eexists. split; [done|]. by apply pending_inv_await.
Qed.

(** What one agent can do to the channel [ch] another server's handler waits on. *)
Record untouched (srv r : string) (ch : nat) (s : psys) : Prop := {
  ut_inv : pending_inv s;
  ut_empty : ∃ k, cells (p_heap (ps_reg s)) !! ch = Some k ∧ ch_buf k = [];
  ut_flight : Forall (λ d, d.1 ≠ ch) (ps_flight s);
  ut_key : ∀ k, p_channels (ps_reg s) !! k = Some ch → k = makeKey srv r
}.

Definition not_from (srv : string) (a : action) : Prop :=
  match a with
  | ALookup srv' _ _ => colon_free srv' ∧ srv' ≠ srv
  | _ => True
  end.

Lemma untouched_register srv r (s : psys) :
  pending_inv s →
  untouched srv r (Register srv r (ps_reg s)).1
    (PSys (Register srv r (ps_reg s)).2 (ps_flight s)).
Proof.
  intros Hs. assert (Hs' := Hs). destruct Hs' as [Hw Ho Hk Hi Hf].
  assert (Hfresh : cells (p_heap (ps_reg s)) !! next_ref (p_heap (ps_reg s)) = None).
  { destruct (cells _ !! _) eqn:E; [|done]. destruct (Hw _ _ E); lia. }
  split; simpl.
  - by apply pending_inv_register.
  - eexists. by rewrite lookup_insert_eq.
  - eapply Forall_impl; [exact Hf|]. simpl. intros d Hd Heq. rewrite Heq, Hfresh in Hd. by destruct Hd.
  - intros k. rewrite lookup_insert. case_decide; [done|]. intros Hq. apply Hk in Hq.
    rewrite Hfresh in Hq. by destruct Hq.
Qed.

Lemma untouched_step srv r ch a (s s' : psys) :
  colon_free srv → not_from srv a → untouched srv r ch s → step a s = Ret s' →
  untouched srv r ch s'.
Proof.
  intros Hsrv Hn [Hinv (k & Hk & Hb) Hf Hkey] Hst.
  destruct (pending_step_inv a s Hinv) as (s2 & Hs2 & Hinv').
  rewrite Hst in Hs2. injection Hs2 as <-. assert (Hinv2 := Hinv).
  destruct Hinv as [Hw Ho Hks Hi Hfl].
  destruct a as [srv' r'|srv' r' m| |srv' r'|c]; simpl in Hst.
  - injection Hst as <-. split; [done| | |]; simpl.
    + exists k. split; [|done]. rewrite lookup_insert_ne; [done|].
      destruct (Hw _ _ Hk). simpl. lia.
    + done.
    + intros q. rewrite lookup_insert. case_decide; [|apply Hkey].
      intros [= Heq]. destruct (Hw _ _ Hk). lia.
  - destruct (p_channels (ps_reg s) !! makeKey srv' r') as [c|] eqn:E;
      injection Hst as <-; split; simpl; eauto.
    apply Forall_app. split; [done|]. constructor; [|done]. simpl. intros ->.
    apply Hkey in E. destruct Hn as [Hc' Hne]. by eapply makeKey_ne in E.
  - destruct s as [p fl]. destruct fl as [|[c m] fl]; simpl in *.
    { injection Hst as <-. split; simpl; eauto. }
    inversion Hf as [|? ? Hc Hf']; subst. simpl in Hc.
    inversion Hfl as [|? ? Hc2 _]; subst.
    destruct (deliver_send_open c m p Hc2 Ho) as (q & Hq & Heq). rewrite Heq in Hst.
    case_decide; injection Hst as <-; split; simpl; eauto.
    exists k. by rewrite lookup_insert_ne.
  - injection Hst as <-. split; simpl; eauto. intros q [_ Hq]%lookup_delete_Some. auto.
  - injection Hst as <-. split; [done| | |]; simpl; unfold Await.
    + destruct (receive _ _) as [v h] eqn:E. simpl. revert E. unfold receive.
      destruct (cells _ !! c) as [[[|x l] n q]|] eqn:Hc; intros [= <- <-]; eauto.
      simpl. rewrite lookup_insert_ne; [eauto|]. intros ->. by simplify_eq.
    + done.
    + by destruct (receive c (p_heap (ps_reg s))).
Qed.

Lemma untouched_run srv r ch acts (s s' : psys) :
  colon_free srv → Forall (not_from srv) acts → untouched srv r ch s → run acts s = Ret s' →
  untouched srv r ch s'.
Proof.
  intros Hsrv HF. revert s. induction HF as [|a acts Ha HF IH]; intros s Hs Hr; simpl in Hr.
  - by injection Hr as <-.
  - destruct (step a s) as [s1|] eqn:E; [|done]. simpl in Hr.
    eapply IH; [|exact Hr]. by eapply untouched_step.
Qed.
End pending.
Arguments PendingRequests : clear implicits.
Arguments psys : clear implicits.
Arguments action : clear implicits.

(** ** Properties *)

(** no interleaving of handlers registering, awaiting and removing keys with agent streams
    delivering responses (a lookup and a send that may straddle a removal) panics: every schedule
    runs to the end, and the registry stays well formed. *)
Theorem pending_no_panic {Msg : Type} (acts : list (action Msg)) (s : psys Msg) :
  pending_inv s → ∃ s', run acts s = Ret s' ∧ pending_inv s'.
Proof.
  revert s. induction acts as [|a acts IH]; intros s Hs; simpl; [by exists s|].
  destruct (pending_step_inv a s Hs) as (s1 & -> & Hs1). simpl. by apply IH.
Qed.

Lemma pending_no_panic_witness :
  ∃ s', run [ARegister "srv" "r1"; ALookup "srv" "r1" 7; ARemove "srv" "r1"; ASend; AAwait 0]
          (PSys NewPendingRequests []) = Ret s' ∧ pending_inv s'.
Proof. apply (pending_no_panic (Msg := Z)). apply pending_inv_init. Defined.

(** responses cannot cross servers.  Once a handler has registered a request for server
    [srv], no schedule in which the deliveries come from other servers' streams, whatever request
    IDs those agents choose, puts anything in the handler's channel. *)
Theorem pending_isolation {Msg : Type} (srv r : string) (acts : list (action Msg))
    (s s' : psys Msg) :
  pending_inv s → colon_free srv → Forall (not_from srv) acts →
  run acts (PSys (Register srv r (ps_reg s)).2 (ps_flight s)) = Ret s' →
  (Await (Register srv r (ps_reg s)).1 (ps_reg s')).1 = WouldBlock.
Proof.
  intros Hs Hsrv HF Hr.
  destruct (untouched_run srv r _ acts _ s' Hsrv HF (untouched_register srv r s Hs) Hr)
    as [[_ Ho _ _ _] (k & Hk & Hb) _ _].
  destruct (Ho _ _ Hk) as [Hc _]. destruct k as [b n cl]. simpl in Hb, Hc. subst.
  unfold Await, receive. by rewrite Hk.
Qed.

Lemma pending_isolation_witness :
  (Await 0 (ps_reg
     (PSys (Register "s1" "r1" (@NewPendingRequests Z)).2 []))).1 = WouldBlock.
Proof.
  apply (pending_isolation "s1" "r1"
    [ALookup "s2" "r1" 5; ASend; ALookup "s2" "s1:r1" 6; ASend]
    (PSys (@NewPendingRequests Z) [])); [apply pending_inv_init|reflexivity| |reflexivity].
  repeat constructor; discriminate.
Defined.

(** a registered request gets the first response delivered for it and only that one: the
    second delivery reports failure, and the waiting handler receives the first message. *)
Theorem pending_roundtrip {Msg : Type} (srv r : string) (m1 m2 : Msg) (s : psys Msg) :
  pending_inv s →
  let '(ch, p) := Register srv r (ps_reg s) in
  ∃ p1, Deliver srv r m1 p = Ret (true, p1) ∧ Deliver srv r m2 p1 = Ret (false, p1) ∧
        (Await ch p1).1 = Got m1.
Proof.
  intros Hs. destruct (Register srv r (ps_reg s)) as [ch p] eqn:E.
  injection E as <- <-. unfold Deliver. simpl. rewrite lookup_insert_eq.
  unfold deliver_send, try_send. simpl. rewrite lookup_insert_eq. simpl.
  eexists. split; [done|]. simpl. rewrite !lookup_insert_eq. simpl.
  split; [done|]. unfold Await, receive. simpl. by rewrite lookup_insert_eq.
Qed.

Lemma pending_roundtrip_witness :
  let '(ch, p) := Register "s" "r" (@NewPendingRequests Z) in
  ∃ p1, Deliver "s" "r" 1 p = Ret (true, p1) ∧ Deliver "s" "r" 2 p1 = Ret (false, p1) ∧
        (Await ch p1).1 = Got 1.
Proof. apply (pending_roundtrip "s" "r" 1 2 (PSys NewPendingRequests [])), pending_inv_init. Defined.
