(* ===== verification/LogSessions.v ===== *)
(** * Log tailing sessions (hub/internal/grpcserver/logsessions.go).

    A session is a 64-slot channel of chunks plus a counter of the chunks dropped because the
    channel was full; the SSE handler reads the channel and drains the counter. *)

From S2P Require Import Prelude GoStr Chan Pending.

Definition bytes : Type := string.

Record LogSessions := MkLog {
  l_channels : gmap string nat;
  l_overflow : gmap string N;
  l_heap : heap bytes
}.

Definition NewLogSessions : LogSessions := MkLog ∅ ∅ empty_heap.

Definition log_buffer : nat := 64.

(** [uint64] increment. *)
Definition incr64 (n : N) : N := ((n + 1) mod 2 ^ 64)%N.

Definition Register (serverID requestID : string) (ls : LogSessions) : nat * LogSessions :=
  let key := makeKey serverID requestID in
  let '(ch, h) := make_chan log_buffer (l_heap ls) in
  (ch, MkLog (<[key := ch]> (l_channels ls)) (<[key := 0%N]> (l_overflow ls)) h).

Definition Deliver (serverID requestID : string) (data : bytes) (ls : LogSessions)
  : outcome (bool * LogSessions) :=
  let key := makeKey serverID requestID in
  match l_channels ls !! key with
  | None => Ret (false, ls)
  | Some ch =>
      let! (sent, h) := try_send ch data (l_heap ls) in
      if sent then Ret (true, MkLog (l_channels ls) (l_overflow ls) h)
      else Ret (false, MkLog (l_channels ls)
                         (<[key := incr64 (default 0%N (l_overflow ls !! key))]> (l_overflow ls)) h)
  end.

Definition DrainOverflow (serverID requestID : string) (ls : LogSessions) : N * LogSessions :=
  let key := makeKey serverID requestID in
  let n := default 0%N (l_overflow ls !! key) in
  if (0 <? n)%N then (n, MkLog (l_channels ls) (<[key := 0%N]> (l_overflow ls)) (l_heap ls))
  else (n, ls).

Definition Remove (serverID requestID : string) (ls : LogSessions) : outcome LogSessions :=
  let key := makeKey serverID requestID in
  match l_channels ls !! key with
  | None => Ret ls
  | Some ch =>
      let! h := close_chan ch (l_heap ls) in
      Ret (MkLog (delete key (l_channels ls)) (delete key (l_overflow ls)) h)
  end.

Definition Next (ch : nat) (ls : LogSessions) : received bytes * LogSessions :=
  let '(r, h) := receive ch (l_heap ls) in (r, MkLog (l_channels ls) (l_overflow ls) h).

(** ** Steps and what they let an observer see *)

Inductive action :=
  | ARegister (serverID requestID : string)
  | ADeliver (serverID requestID : string) (data : bytes)
  | ADrain (serverID requestID : string)
  | ARemove (serverID requestID : string)
  | ANext (ch : nat).

Inductive event :=
  | EvAccepted (key : string) (data : bytes)
  | EvDropped (key : string)
  | EvUnknown (key : string)
  | EvDrained (key : string) (n : N)
  | EvGot (ch : nat) (data : bytes)
  | EvNone.

#[export] Instance event_eq_dec : EqDecision event.
Proof. solve_decision. Defined.

Definition step (a : action) (ls : LogSessions) : outcome (event * LogSessions) :=
  match a with
  | ARegister srv r => Ret (EvNone, (Register srv r ls).2)
  | ADeliver srv r d =>
      let! (b, ls') := Deliver srv r d ls in
      Ret (if b then EvAccepted (makeKey srv r) d
           else match l_channels ls !! makeKey srv r with
                | Some _ => EvDropped (makeKey srv r)
                | None => EvUnknown (makeKey srv r)
                end, ls')
  | ADrain srv r => let '(n, ls') := DrainOverflow srv r ls in Ret (EvDrained (makeKey srv r) n, ls')
  | ARemove srv r => let! ls' := Remove srv r ls in Ret (EvNone, ls')
  | ANext ch =>
      let '(v, ls') := Next ch ls in
      Ret (match v with Got d => EvGot ch d | _ => EvNone end, ls')
  end.

Fixpoint run (acts : list action) (ls : LogSessions) : outcome (list event * LogSessions) :=
  match acts with
  | [] => Ret ([], ls)
  | a :: acts' =>
      let! (e, ls1) := step a ls in
      let! (es, ls2) := run acts' ls1 in
      Ret (e :: es, ls2)
  end.

(** ** Invariant *)

(** Every registered channel is open, and keys own distinct channels. *)
Record log_inv (ls : LogSessions) : Prop := {
  li_heap : heap_wf (l_heap ls);
  li_open : ∀ k c, l_channels ls !! k = Some c → is_open (l_heap ls) c;
  li_inj : ∀ k1 k2 c, l_channels ls !! k1 = Some c → l_channels ls !! k2 = Some c → k1 = k2
}.

Lemma log_inv_init : log_inv NewLogSessions.
Proof. split; simpl; intros; simplify_map_eq; auto with veyport. Qed.

Lemma log_step_inv a ls : log_inv ls → ∃ e ls', step a ls = Ret (e, ls') ∧ log_inv ls'.
Proof.
  intros [Hw Ho Hi].
  destruct a as [srv r|srv r d|srv r|srv r|ch]; simpl.
  - eexists _, _. split; [done|]. split; simpl.
    + by apply (heap_wf_make log_buffer).
    + intros k c. rewrite lookup_insert. case_decide.
      * intros [= <-]. unfold is_open. simpl. eexists. by rewrite lookup_insert_eq.
      * intros Hk. eapply (is_open_make log_buffer); [by eapply Ho|done].
    + intros k1 k2 c. rewrite !lookup_insert. repeat case_decide; try congruence; try apply Hi.
      * intros [= <-] H2. apply Ho in H2. by eapply open_not_fresh in H2.
      * intros H1 [= <-]. apply Ho in H1. by eapply open_not_fresh in H1.
  - unfold Deliver. destruct (l_channels ls !! makeKey srv r) as [c|] eqn:E;
      [|eexists _, _; split; [done|by split]].
    destruct (try_send_open c d (l_heap ls) (Ho _ _ E)) as (k & Hk & Hc & ->).
    case_match eqn:Hl; simpl; (eexists _, _; split; [done|]); split; simpl; auto.
    + eapply heap_wf_set; [done|exact Hk|]. apply Nat.ltb_lt in Hl. simpl. rewrite length_app. simpl. lia.
    + intros q c' Hq. apply is_open_set_cell; [done|]. by eapply Ho.
  - destruct (DrainOverflow srv r ls) as [n ls'] eqn:E. eexists _, _. split; [done|].
    unfold DrainOverflow in E. case_match; injection E as <- <-; by split.
  - unfold Remove. destruct (l_channels ls !! makeKey srv r) as [c|] eqn:E;
      [|eexists _, _; split; [done|by split]].
    destruct (close_chan_open c (l_heap ls) (Ho _ _ E)) as (k & Hk & Hc & ->). simpl.
    eexists _, _. split; [done|]. split; simpl.
    + eapply heap_wf_set; [done|exact Hk|]. simpl. by destruct (Hw _ _ Hk).
    + intros q c' [Hne Hq]%lookup_delete_Some. apply is_open_set_cell_ne; [|by eapply Ho].
      intros ->. apply Hne. by eapply Hi.
    + intros k1 k2 c' [_ H1]%lookup_delete_Some [_ H2]%lookup_delete_Some. by eapply Hi.
  - unfold Next. destruct (receive ch (l_heap ls)) as [v h] eqn:E.
    assert (h = (receive ch (l_heap ls)).2) as -> by by rewrite E.
    eexists _, _. split; [done|]. split; simpl; auto with veyport.
    intros k c Hk. apply is_open_receive. by eapply Ho.
Qed.

Lemma run_cons a acts ls es ls' :
  run (a :: acts) ls = Ret (es, ls') →
  ∃ e ls1 es1, step a ls = Ret (e, ls1) ∧ run acts ls1 = Ret (es1, ls') ∧ es = e :: es1.
Proof.
  simpl. destruct (step a ls) as [[e ls1]|]; [|done]. simpl.
  destruct (run acts ls1) as [[es1 ls2]|] eqn:E; [|done]. simpl.
  intros [= <- <-]. by exists e, ls1, es1.
Qed.

(** ** Accounting for one session *)

Definition accepted (key : string) (es : list event) : list bytes :=
  omap (λ e, match e with
             | EvAccepted k d => if String.eqb k key then Some d else None
             | _ => None
             end) es.
Definition got (ch : nat) (es : list event) : list bytes :=
  omap (λ e, match e with
             | EvGot c d => if Nat.eqb c ch then Some d else None
             | _ => None
             end) es.
Definition dropped (key : string) (es : list event) : N :=
  N.of_nat (length (filter (λ e, e = EvDropped key) es)).
Definition reported (key : string) (es : list event) : N :=
  foldr (λ e n, match e with
                | EvDrained k m => if String.eqb k key then m + n else n
                | _ => n
                end)%N 0%N es.

(** The session [key] is registered on [ch], which buffers [b], with [o] drops not reported. *)
Record session_at (key : string) (ch : nat) (b : list bytes) (o : N) (ls : LogSessions) : Prop := {
  sa_inv : log_inv ls;
  sa_chan : l_channels ls !! key = Some ch;
  sa_cell : cells (l_heap ls) !! ch = Some (Chan b log_buffer false);
  sa_over : l_overflow ls !! key = Some o
}.

(** An action that neither replaces nor ends the session. *)
Definition keeps (key : string) (a : action) : Prop :=
  match a with
  | ARegister srv r | ARemove srv r => makeKey srv r ≠ key
  | _ => True
  end.

Lemma session_at_register srv r (ls : LogSessions) :
  log_inv ls →
  session_at (makeKey srv r) (Register srv r ls).1 [] 0 (Register srv r ls).2.
Proof.
  intros Hs. destruct (log_step_inv (ARegister srv r) ls Hs) as (e & ls' & [= <- <-] & Hi).
  split; [done| | |]; simpl; by rewrite lookup_insert_eq.
Qed.

Lemma deliver_here key ch b o srv r d (ls : LogSessions) :
  session_at key ch b o ls → makeKey srv r = key →
  ∃ ls', Deliver srv r d ls = Ret ((length b <? log_buffer)%nat, ls') ∧
    cells (l_heap ls') !! ch =
      Some (Chan (if (length b <? log_buffer)%nat then b ++ [d] else b) log_buffer false) ∧
    l_channels ls' = l_channels ls ∧
    l_overflow ls' !! key = Some (if (length b <? log_buffer)%nat then o else incr64 o).
Proof.
  intros [Hi Hc Hk Ho] <-. unfold Deliver. rewrite Hc. unfold try_send. rewrite Hk.
  case_match; eexists; (split; [reflexivity|]); split_and!; simpl; try done.
  - by rewrite lookup_insert_eq.
  - rewrite lookup_insert_eq. by rewrite Ho.
Qed.

Lemma dropped_one key e : dropped key [e] = if decide (e = EvDropped key) then 1%N else 0%N.
Proof. unfold dropped. rewrite filter_cons. by case_decide. Qed.

Lemma session_step key ch b o a e (ls ls' : LogSessions) :
  session_at key ch b o ls → keeps key a → step a ls = Ret (e, ls') → (o + 1 < 2 ^ 64)%N →
  ∃ b' o', session_at key ch b' o' ls' ∧
    b ++ accepted key [e] = got ch [e] ++ b' ∧
    (o + dropped key [e] = reported key [e] + o')%N ∧ (o' ≤ o + 1)%N.
Proof.
  intros Hs Hkeep Hst Hov. assert (Hs' := Hs). destruct Hs' as [Hi Hc Hk Ho].
  destruct (log_step_inv a ls Hi) as (e2 & ls2 & Heq & Hi'). rewrite Hst in Heq.
  injection Heq as <- <-.
  destruct a as [srv r|srv r d|srv r|srv r|c]; simpl in Hst.
  - injection Hst as <- <-. exists b, o. simpl in *. rewrite ?dropped_one; unfold accepted, got, reported. simpl.
    rewrite app_nil_r. split_and!; try done; try lia. split; [done| | |]; simpl.
    + by rewrite lookup_insert_ne.
    + rewrite lookup_insert_ne; [done|]. intros Hn. symmetry in Hn. revert Hn.
      eapply open_not_fresh; [apply Hi|]. by eapply li_open.
    + by rewrite lookup_insert_ne.
  - destruct (decide (makeKey srv r = key)) as [Hkey|Hne].
    + destruct (deliver_here _ _ _ _ _ _ d _ Hs Hkey) as (ls2 & Hd & Hcell & Hch & Hover).
      rewrite Hd in Hst. simpl in Hst. injection Hst as <- <-.
      rewrite Hkey, Hc. rewrite ?dropped_one; unfold accepted, got, reported.
      case_match eqn:Hl; rewrite ?decide_True by done; simpl; rewrite ?String.eqb_refl, ?app_nil_r.
      * exists (b ++ [d]), o. simpl. split_and!; try lia; [|done]. split; try done; congruence.
      * exists b, (o + 1)%N. simpl. split_and!; try done; try lia.
        split; try done; [congruence|]. unfold incr64 in Hover.
        by rewrite N.mod_small in Hover.
    + exists b, o. unfold Deliver in Hst.
      assert (Hacc : accepted key [EvAccepted (makeKey srv r) d] = []).
      { unfold accepted. simpl. by rewrite (proj2 (String.eqb_neq _ _)). }
      destruct (l_channels ls !! makeKey srv r) as [c|] eqn:E.
      * assert (Hcc : c ≠ ch) by (intros ->; apply Hne; exact (li_inj _ Hi _ _ _ E Hc)).
        destruct (try_send_open c d (l_heap ls)) as (k & Hck & Hcl & Hts); [by eapply li_open|].
        rewrite Hts in Hst. case_match; simpl in Hst; injection Hst as <- <-.
        -- rewrite Hacc, app_nil_r. rewrite ?dropped_one; unfold got, reported.
           simpl. split_and!; try done; try lia. split; simpl; try done. by rewrite lookup_insert_ne.
        -- rewrite ?dropped_one; unfold accepted, got, reported.
           rewrite decide_False by congruence. simpl. rewrite app_nil_r.
           split_and!; try done; try lia. split; simpl; try done. by rewrite lookup_insert_ne.
      * simpl in Hst. injection Hst as <- <-. rewrite ?dropped_one; unfold accepted, got, reported.
        simpl. rewrite app_nil_r. by split_and!; try lia.
  - rewrite ?dropped_one; unfold accepted, got, reported. unfold DrainOverflow in Hst.
    destruct (decide (makeKey srv r = key)) as [Hkey|Hne].
    + rewrite Hkey, Ho in Hst. simpl in Hst. exists b, 0%N.
      destruct (N.ltb_spec 0 o); injection Hst as <- <-; simpl;
        rewrite String.eqb_refl, app_nil_r; split_and!; try done; try lia.
      * split; simpl; try done. by rewrite lookup_insert_eq.
      * assert (o = 0%N) as -> by lia. done.
    + exists b, o. destruct (0 <? _)%N; injection Hst as <- <-; simpl;
        rewrite (proj2 (String.eqb_neq _ _) Hne), app_nil_r; split_and!; try done; try lia.
      split; simpl; try done. by rewrite lookup_insert_ne.
  - simpl in Hkeep. exists b, o. unfold Remove in Hst.
    destruct (l_channels ls !! makeKey srv r) as [c|] eqn:E.
    + assert (Hcc : c ≠ ch) by (intros ->; apply Hkeep; exact (li_inj _ Hi _ _ _ E Hc)).
      destruct (close_chan_open c (l_heap ls)) as (k & Hck & Hcl & Hts); [by eapply li_open|].
      rewrite Hts in Hst. simpl in Hst. injection Hst as <- <-.
      rewrite ?dropped_one; unfold accepted, got, reported. simpl. rewrite app_nil_r.
      split_and!; try done; try lia. split; simpl; try done; by rewrite ?lookup_delete_ne, ?lookup_insert_ne.
    + simpl in Hst. injection Hst as <- <-. rewrite ?dropped_one; unfold accepted, got, reported. simpl.
      rewrite app_nil_r. by split_and!; try lia.
  - unfold Next, receive in Hst. destruct (decide (c = ch)) as [->|Hne].
    + rewrite Hk in Hst. destruct b as [|x b]; injection Hst as <- <-;
        rewrite ?dropped_one; unfold accepted, got, reported; simpl.
      * exists [], o. by split_and!; try lia; destruct ls.
      * rewrite Nat.eqb_refl, app_nil_r. exists b, o. split_and!; try done; try lia.
        split; simpl; try done. by rewrite lookup_insert_eq.
    + exists b, o. destruct (cells (l_heap ls) !! c) as [[[|x l] n q]|] eqn:Hcc;
        injection Hst as <- <-; rewrite ?dropped_one; unfold accepted, got, reported;
        try destruct q; simpl; rewrite ?app_nil_r;
        try (destruct (Nat.eqb_spec c ch); [done|]); simpl;
        (split_and!; [by destruct ls| | |]; try done; try lia) ||
        (split_and!; try done; try lia; split; simpl; try done; by rewrite lookup_insert_ne).
Qed.

Lemma events_cons key ch e es :
  accepted key (e :: es) = accepted key [e] ++ accepted key es ∧
  got ch (e :: es) = got ch [e] ++ got ch es ∧
  dropped key (e :: es) = (dropped key [e] + dropped key es)%N ∧
  reported key (e :: es) = (reported key [e] + reported key es)%N.
Proof.
  split_and!.
  - unfold accepted. by rewrite <- omap_app.
  - unfold got. by rewrite <- omap_app.
  - unfold dropped. rewrite (filter_app _ [e] es). rewrite length_app. lia.
  - unfold reported. simpl. destruct e; try done. case_match; lia.
Qed.

Lemma session_run key ch acts : ∀ b o (ls ls' : LogSessions) es,
  session_at key ch b o ls → Forall (keeps key) acts → run acts ls = Ret (es, ls') →
  (o + N.of_nat (length acts) < 2 ^ 64)%N →
  ∃ b' o', session_at key ch b' o' ls' ∧ b ++ accepted key es = got ch es ++ b' ∧
    (o + dropped key es = reported key es + o')%N.
Proof.
  induction acts as [|a acts IH]; intros b o ls ls' es Hs HF Hr Hov.
  - injection Hr as <- <-. exists b, o. unfold accepted, got, dropped, reported. simpl.
    rewrite app_nil_r. by split_and!; try lia.
  - inversion HF; subst. apply run_cons in Hr as (e & ls1 & es1 & Hst & Hr & ->).
    simpl in Hov.
    destruct (session_step _ _ _ _ _ _ _ _ Hs H1 Hst) as (b1 & o1 & Hs1 & Hb1 & Ho1 & Hle); [lia|].
    destruct (IH b1 o1 ls1 ls' es1 Hs1 H2 Hr) as (b2 & o2 & Hs2 & Hb2 & Ho2); [lia|].
    exists b2, o2. destruct (events_cons key ch e es1) as (-> & -> & -> & ->).
    split_and!; [done| |lia]. by rewrite (app_assoc b), Hb1, <- app_assoc, Hb2, app_assoc.
Qed.

(** ** Properties *)

(** a log session never panics: deliveries test and send under the registry's lock, and only
    a removal closes a channel, dropping it from the map in the same critical section, so no
    schedule sends on or closes a closed channel. *)
Theorem log_no_panic (acts : list action) (ls : LogSessions) :
  log_inv ls → ∃ es ls', run acts ls = Ret (es, ls') ∧ log_inv ls'.
Proof.
  revert ls. induction acts as [|a acts IH]; intros ls Hs; simpl; [by eexists _, _|].
  destruct (log_step_inv a ls Hs) as (e & ls1 & -> & Hs1). simpl.
  destruct (IH ls1 Hs1) as (es & ls' & -> & Hs'). simpl. by eexists _, _.
Qed.

Lemma log_no_panic_witness :
  ∃ es ls', run [ARegister "s" "r"; ADeliver "s" "r" "x"; ARemove "s" "r"; ADeliver "s" "r" "y";
                 ARemove "s" "r"; ANext 0] NewLogSessions = Ret (es, ls') ∧ log_inv ls'.
Proof. apply log_no_panic. apply log_inv_init. Defined.

(** no chunk is lost without being counted.  From registration on, whatever the schedule of
    agent deliveries, reads and drains (for this session and any other), the chunks the agent
    delivered successfully are, in order, those the consumer received followed by those still
    buffered; and the number of chunks refused for lack of room is the number already reported by
    [DrainOverflow] plus the counter's current value. *)
Theorem log_accounting (srv r : string) (acts : list action) (ls ls' : LogSessions)
    (es : list event) :
  log_inv ls → Forall (keeps (makeKey srv r)) acts → (N.of_nat (length acts) < 2 ^ 64)%N →
  run acts (Register srv r ls).2 = Ret (es, ls') →
  ∃ buffered pending_drops,
    cells (l_heap ls') !! (Register srv r ls).1 = Some (Chan buffered log_buffer false) ∧
    l_overflow ls' !! makeKey srv r = Some pending_drops ∧
    accepted (makeKey srv r) es = got (Register srv r ls).1 es ++ buffered ∧
    dropped (makeKey srv r) es = (reported (makeKey srv r) es + pending_drops)%N.
Proof.
  intros Hs HF Hov Hr.
  destruct (session_run _ _ acts [] 0 _ _ _ (session_at_register srv r ls Hs) HF Hr)
    as (b & o & [_ _ Hc Ho] & Hb & Hn); [lia|].
  exists b, o. by split_and!.
Qed.

Lemma log_accounting_witness :
  match run [ADeliver "s" "r" "a"; ADeliver "t" "r" "z"; ADeliver "s" "r" "b"; ANext 0; ADrain "s" "r"]
          (Register "s" "r" NewLogSessions).2 with
  | Ret (es, ls') =>
      ∃ buffered pending_drops,
        cells (l_heap ls') !! 0%nat = Some (Chan buffered log_buffer false) ∧
        l_overflow ls' !! "s:r" = Some pending_drops ∧
        accepted "s:r" es = got 0 es ++ buffered ∧
        dropped "s:r" es = (reported "s:r" es + pending_drops)%N
  | Panic => False
  end.
Proof.
  destruct (run _ _) as [[es ls']|] eqn:E; [|vm_compute in E; discriminate].
  eapply (log_accounting "s" "r" _ NewLogSessions ls' es log_inv_init); [| |exact E]; [|reflexivity].
  repeat constructor; discriminate.
Defined.
