(* ===== verification/TerminalSessions.v ===== *)
(** * Hub-side terminal sessions (hub/internal/grpcserver/terminalsessions.go).

    A session owns a 256-slot channel of events.  The agent's stream fills it ([DeliverData],
    [End]); one SSE handler, attached once, reads it; the HTTP handlers and the unattached-session
    timer remove it.  Closing the channel and recording the closure are one critical section. *)

From S2P Require Import Prelude GoStr Chan Pending.

Definition bytes : Type := string.

Inductive TerminalEvent :=
  | TerminalEventData (data : bytes)
  | TerminalEventExit (exitCode : Z) (error : string).

Record terminalSession := MkTerm {
  userID : string;
  executionUser : string;
  ch : nat;
  streaming : bool;
  closed : bool
}.

Record TerminalSessionInfo := MkInfo {
  UserID : string;
  ExecutionUser : string;
  Ch : nat;
  Closed : bool
}.

Record TerminalSessions := MkTerminals {
  sessions : gmap string terminalSession;
  t_heap : heap TerminalEvent
}.

Definition NewTerminalSessions : TerminalSessions := MkTerminals ∅ empty_heap.

Definition term_buffer : nat := 256.

Definition info_of (s : terminalSession) : TerminalSessionInfo :=
  MkInfo (userID s) (executionUser s) (ch s) (closed s).

Definition set_closed (s : terminalSession) : terminalSession :=
  MkTerm (userID s) (executionUser s) (ch s) (streaming s) true.
Definition set_streaming (s : terminalSession) : terminalSession :=
  MkTerm (userID s) (executionUser s) (ch s) true (closed s).

Definition Register (serverID sessionID user execUser : string) (ts : TerminalSessions)
  : option nat * TerminalSessions :=
  let key := makeKey serverID sessionID in
  match sessions ts !! key with
  | Some _ => (None, ts)
  | None =>
      let '(c, h) := make_chan term_buffer (t_heap ts) in
      (Some c, MkTerminals (<[key := MkTerm user execUser c false false]> (sessions ts)) h)
  end.

Definition Get (serverID sessionID : string) (ts : TerminalSessions) : option TerminalSessionInfo :=
  info_of <$> sessions ts !! makeKey serverID sessionID.

(** [(info, exists, attached)]: [info] is meaningful only when attached. *)
Definition AttachStream (serverID sessionID user : string) (ts : TerminalSessions)
  : option TerminalSessionInfo * bool * bool * TerminalSessions :=
  let key := makeKey serverID sessionID in
  match sessions ts !! key with
  | None => (None, false, false, ts)
  | Some s =>
      if negb (String.eqb (userID s) user) then (None, false, false, ts)
      else if streaming s then (None, true, false, ts)
      else (Some (info_of s), true, true,
            MkTerminals (<[key := set_streaming s]> (sessions ts)) (t_heap ts))
  end.

Definition DeliverData (serverID sessionID : string) (data : bytes) (ts : TerminalSessions)
  : outcome (bool * TerminalSessions) :=
  match sessions ts !! makeKey serverID sessionID with
  | None => Ret (false, ts)
  | Some s =>
      if closed s then Ret (false, ts)
      else let! (sent, h) := try_send (ch s) (TerminalEventData data) (t_heap ts) in
           Ret (sent, MkTerminals (sessions ts) h)
  end.

(** The loop of [deliverExit]: evict the oldest event while the buffer is full; [None] when it
    gives up (full and nothing to evict). *)
Fixpoint evict {A : Type} (cap : nat) (b : list A) : option (list A) :=
  if (length b =? cap)%nat then
    match b with
    | [] => None
    | _ :: b' => evict cap b'
    end
  else Some b.

Definition deliverExit (c : nat) (evt : TerminalEvent) (h : heap TerminalEvent)
  : outcome (heap TerminalEvent) :=
  match cells h !! c with
  | None => Ret h
  | Some k =>
      match evict (ch_cap k) (ch_buf k) with
      | None => Ret h
      | Some b =>
          if ch_closed k then Panic
          else Ret (set_cell c (Chan (b ++ [evt]) (ch_cap k) false) h)
      end
  end.

(** The body of [End] and of each iteration of [EndAll]. *)
Definition end_session (key : string) (s : terminalSession) (exitCode : Z) (err : string)
    (ts : TerminalSessions) : outcome TerminalSessions :=
  let! h1 := deliverExit (ch s) (TerminalEventExit exitCode err) (t_heap ts) in
  let! h2 := close_chan (ch s) h1 in
  Ret (MkTerminals (<[key := set_closed s]> (sessions ts)) h2).

Definition End (serverID sessionID : string) (exitCode : Z) (err : string) (ts : TerminalSessions)
  : outcome (bool * TerminalSessions) :=
  let key := makeKey serverID sessionID in
  match sessions ts !! key with
  | None => Ret (false, ts)
  | Some s =>
      if closed s then Ret (false, ts)
      else let! ts' := end_session key s exitCode err ts in Ret (true, ts')
  end.

(** [EndAll] ranges over the map in an unspecified order: [keys] is the order it takes. *)
Fixpoint EndAll_order (keys : list string) (serverID : string) (exitCode : Z) (err : string)
    (ts : TerminalSessions) : outcome TerminalSessions :=
  match keys with
  | [] => Ret ts
  | key :: keys' =>
      let! ts1 :=
        match sessions ts !! key with
        | None => Ret ts
        | Some s =>
            if negb (HasPrefix key (serverID +:+ ":")) || closed s then Ret ts
            else end_session key s exitCode err ts
        end in
      EndAll_order keys' serverID exitCode err ts1
  end.

Definition EndAll (serverID : string) (exitCode : Z) (err : string) (ts : TerminalSessions)
  : outcome TerminalSessions :=
  EndAll_order ((map_to_list (sessions ts)).*1) serverID exitCode err ts.

(** Closes the session's channel unless it is closed already, and forgets the session. *)
Definition drop_session (key : string) (s : terminalSession) (ts : TerminalSessions)
  : outcome TerminalSessions :=
  let! h := if closed s then Ret (t_heap ts) else close_chan (ch s) (t_heap ts) in
  Ret (MkTerminals (delete key (sessions ts)) h).

(** [(alreadyClosed, removed)] *)
Definition RemoveIfHubInitiated (serverID sessionID : string) (ts : TerminalSessions)
  : outcome (bool * bool * TerminalSessions) :=
  let key := makeKey serverID sessionID in
  match sessions ts !! key with
  | None => Ret (false, false, ts)
  | Some s => let! ts' := drop_session key s ts in Ret (closed s, true, ts')
  end.

Definition RemoveUnattached (serverID sessionID : string) (ts : TerminalSessions)
  : outcome (bool * TerminalSessions) :=
  let key := makeKey serverID sessionID in
  match sessions ts !! key with
  | None => Ret (false, ts)
  | Some s =>
      if streaming s then Ret (false, ts)
      else let! ts' := drop_session key s ts in Ret (true, ts')
  end.

Definition Remove (serverID sessionID : string) (ts : TerminalSessions)
  : outcome (bool * TerminalSessions) :=
  let key := makeKey serverID sessionID in
  match sessions ts !! key with
  | None => Ret (false, ts)
  | Some s => let! ts' := drop_session key s ts in Ret (true, ts')
  end.

(** The SSE handler's receive. *)
Definition Next (c : nat) (ts : TerminalSessions) : received TerminalEvent * TerminalSessions :=
  let '(v, h) := receive c (t_heap ts) in (v, MkTerminals (sessions ts) h).

(** ** Invariant: a session's flag says exactly whether its channel is closed, and sessions do
    not share channels. *)
Record term_inv (ts : TerminalSessions) : Prop := {
  ti_heap : heap_wf (t_heap ts);
  ti_chan : ∀ k s, sessions ts !! k = Some s →
     ∃ b, cells (t_heap ts) !! ch s = Some (Chan b term_buffer (closed s));
  ti_inj : ∀ k1 k2 s1 s2, sessions ts !! k1 = Some s1 → sessions ts !! k2 = Some s2 →
     ch s1 = ch s2 → k1 = k2
}.

Lemma term_inv_init : term_inv NewTerminalSessions.
Proof. split; simpl; intros; simplify_map_eq; auto with veyport. Qed.

Lemma evict_spec {A : Type} (cap : nat) (b : list A) :
  (0 < cap)%nat → (length b ≤ cap)%nat →
  evict cap b = Some (if (length b =? cap)%nat then tail b else b).
Proof.
  intros Hc Hl. destruct b as [|x b]; simpl in *.
  - by destruct cap; [lia|].
  - destruct cap as [|cap]; [lia|]. destruct (Nat.eqb_spec (length b) cap) as [<-|Hne]; [|done].
    simpl. destruct b as [|y b]; [done|]. simpl in *.
    by rewrite (proj2 (Nat.eqb_neq (length b) (S (length b)))) by lia.
Qed.

(** ** Steps *)

Lemma term_inv_update key s s' b (ts : TerminalSessions) :
  term_inv ts → sessions ts !! key = Some s → ch s' = ch s → (length b ≤ term_buffer)%nat →
  term_inv (MkTerminals (<[key := s']> (sessions ts))
              (set_cell (ch s) (Chan b term_buffer (closed s')) (t_heap ts))).
Proof.
  intros [Hw Hc Hi] Hk Hch Hb. destruct (Hc _ _ Hk) as [b0 Hb0]. split; simpl.
  - by eapply heap_wf_set; [done|exact Hb0|].
  - intros k q. rewrite lookup_insert. case_decide as Hd.
    + intros [= <-]. exists b. by rewrite Hch, lookup_insert_eq.
    + intros Hq. destruct (Hc _ _ Hq) as [b1 Hb1]. exists b1. rewrite lookup_insert_ne; [done|].
      intros He. apply Hd. by eapply Hi.
  - intros k1 k2 s1 s2. rewrite !lookup_insert. repeat case_decide; intros; simplify_eq; eauto.
    + rewrite Hch in *. by eapply Hi.
    + rewrite Hch in *. by eapply Hi.
Qed.

Lemma term_inv_drop key s b k (ts : TerminalSessions) :
  term_inv ts → sessions ts !! key = Some s → (length b ≤ term_buffer)%nat →
  term_inv (MkTerminals (delete key (sessions ts))
              (set_cell (ch s) (Chan b term_buffer k) (t_heap ts))).
Proof.
  intros [Hw Hc Hi] Hk Hb. destruct (Hc _ _ Hk) as [b0 Hb0]. split; simpl.
  - by eapply heap_wf_set; [done|exact Hb0|].
  - intros q sq [Hne Hq]%lookup_delete_Some. destruct (Hc _ _ Hq) as [b1 Hb1]. exists b1.
    rewrite lookup_insert_ne; [done|]. intros He. apply Hne. by eapply Hi.
  - intros k1 k2 s1 s2 [_ H1]%lookup_delete_Some [_ H2]%lookup_delete_Some. by eapply Hi.
Qed.

Lemma session_open key s (ts : TerminalSessions) :
  term_inv ts → sessions ts !! key = Some s → closed s = false →
  ∃ b, cells (t_heap ts) !! ch s = Some (Chan b term_buffer false) ∧ (length b ≤ term_buffer)%nat.
Proof.
  intros [Hw Hc _] Hk Hcl. destruct (Hc _ _ Hk) as [b Hb]. rewrite Hcl in Hb. exists b.
  split; [done|]. by destruct (Hw _ _ Hb).
Qed.

(** The buffer after [deliverExit]: at most the oldest event is lost. *)
Definition with_exit (b : list TerminalEvent) (exitCode : Z) (err : string) : list TerminalEvent :=
  (if (length b =? term_buffer)%nat then tail b else b) ++ [TerminalEventExit exitCode err].

Lemma with_exit_length b exitCode err :
  (length b ≤ term_buffer)%nat → (length (with_exit b exitCode err) ≤ term_buffer)%nat.
Proof.
  intros Hb. unfold with_exit. rewrite length_app. simpl.
  destruct (Nat.eqb_spec (length b) term_buffer); [|lia]. destruct b; simpl in *; [done|lia].
Qed.

Lemma end_session_open key s exitCode err (ts : TerminalSessions) :
  term_inv ts → sessions ts !! key = Some s → closed s = false →
  ∃ b, cells (t_heap ts) !! ch s = Some (Chan b term_buffer false) ∧
    end_session key s exitCode err ts =
      Ret (MkTerminals (<[key := set_closed s]> (sessions ts))
             (set_cell (ch s) (Chan (with_exit b exitCode err) term_buffer true) (t_heap ts))) ∧
    term_inv (MkTerminals (<[key := set_closed s]> (sessions ts))
             (set_cell (ch s) (Chan (with_exit b exitCode err) term_buffer true) (t_heap ts))).
Proof.
  intros Hinv Hk Hcl. destruct (session_open _ _ _ Hinv Hk Hcl) as (b & Hb & Hl).
  exists b. split_and!; [done| |].
  - unfold end_session, deliverExit. rewrite Hb. cbn [ch_cap ch_buf ch_closed].
    rewrite evict_spec; [|unfold term_buffer; lia|done]. cbn [obind].
    unfold close_chan. simpl. rewrite lookup_insert_eq. simpl. unfold set_cell. simpl.
    by rewrite insert_insert_eq.
  - apply (term_inv_update key s (set_closed s)); try done. by apply with_exit_length.
Qed.

Lemma drop_session_inv key s (ts : TerminalSessions) :
  term_inv ts → sessions ts !! key = Some s →
  ∃ h, drop_session key s ts = Ret (MkTerminals (delete key (sessions ts)) h) ∧
       term_inv (MkTerminals (delete key (sessions ts)) h).
Proof.
  intros Hinv Hk. unfold drop_session. assert (Hinv' := Hinv). destruct Hinv' as [Hw Hc Hi].
  destruct (Hc _ _ Hk) as [b Hb]. destruct (Hw _ _ Hb) as [_ Hl]. simpl in Hl.
  destruct (closed s) eqn:Hcl.
  - eexists. split; [done|]. rewrite <- (insert_id _ _ _ Hb) in *.
    assert (Hd := term_inv_drop key s b true ts Hinv Hk Hl).
    destruct (t_heap ts) as [cs n] eqn:Ht. unfold set_cell in Hd. simpl in *.
    by rewrite (insert_id _ _ _ Hb) in Hd.
  - unfold close_chan. rewrite Hb. simpl. eexists. split; [done|]. by apply term_inv_drop.
Qed.

Inductive action :=
  | ARegister (serverID sessionID user execUser : string)
  | AAttach (serverID sessionID user : string)
  | ADeliver (serverID sessionID : string) (data : bytes)
  | AEnd (serverID sessionID : string) (exitCode : Z) (err : string)
  | AEndAll (serverID : string) (keys : list string) (exitCode : Z) (err : string)
  | AHubClose (serverID sessionID : string)
  | ARemoveUnattached (serverID sessionID : string)
  | ARemove (serverID sessionID : string)
  | ANext (c : nat).

(** [true] when the step attached a stream to the session [key]. *)
Definition attaches (key : string) (a : action) (ts : TerminalSessions) : bool :=
  match a with
  | AAttach srv sid user =>
      bool_decide (makeKey srv sid = key) && (AttachStream srv sid user ts).1.2
  | _ => false
  end.

Definition step (a : action) (ts : TerminalSessions) : outcome TerminalSessions :=
  match a with
  | ARegister srv sid u x => Ret (Register srv sid u x ts).2
  | AAttach srv sid u => Ret (AttachStream srv sid u ts).2
  | ADeliver srv sid d => let! (_, ts') := DeliverData srv sid d ts in Ret ts'
  | AEnd srv sid code err => let! (_, ts') := End srv sid code err ts in Ret ts'
  | AEndAll srv keys code err => EndAll_order keys srv code err ts
  | AHubClose srv sid => let! (_, ts') := RemoveIfHubInitiated srv sid ts in Ret ts'
  | ARemoveUnattached srv sid => let! (_, ts') := RemoveUnattached srv sid ts in Ret ts'
  | ARemove srv sid => let! (_, ts') := Remove srv sid ts in Ret ts'
  | ANext c => Ret (Next c ts).2
  end.

Lemma end_all_inv srv code err keys : ∀ ts,
  term_inv ts → ∃ ts', EndAll_order keys srv code err ts = Ret ts' ∧ term_inv ts'.
Proof.
  induction keys as [|k keys IH]; intros ts Hinv; simpl; [by exists ts|].
  destruct (sessions ts !! k) as [s|] eqn:Hk; [|by apply IH].
  destruct (negb _ || closed s) eqn:Hg; [by apply IH|]. bool_hyps.
  destruct (end_session_open k s code err ts) as (b & _ & -> & Hinv'); try done.
  simpl. by apply IH.
Qed.

Lemma term_step_inv a ts : term_inv ts → ∃ ts', step a ts = Ret ts' ∧ term_inv ts'.
Proof.
  intros Hinv. assert (Hinv' := Hinv). destruct Hinv' as [Hw Hc Hi].
  destruct a as [srv sid u x|srv sid u|srv sid d|srv sid code err|srv keys code err
                |srv sid|srv sid|srv sid|c]; simpl.
  - unfold Register. destruct (sessions ts !! makeKey srv sid) as [s|] eqn:Hk; [by exists ts|].
    eexists. split; [done|]. split; simpl.
    + by apply (heap_wf_make term_buffer).
    + intros k q. rewrite lookup_insert. case_decide.
      * intros [= <-]. exists []. by rewrite lookup_insert_eq.
      * intros Hq. destruct (Hc _ _ Hq) as [b Hb]. exists b. rewrite lookup_insert_ne; [done|].
        intros He. rewrite <- He, fresh_ref in Hb; done.
    + assert (Hf : ∀ k q, sessions ts !! k = Some q → ch q ≠ next_ref (t_heap ts)).
      { intros k q Hq He. destruct (Hc _ _ Hq) as [b Hb]. rewrite He, fresh_ref in Hb; done. }
      intros k1 k2 s1 s2. rewrite !lookup_insert. repeat case_decide; intros; simplify_eq/=; eauto.
      * exfalso. by eapply Hf.
      * exfalso. by eapply Hf.
  - unfold AttachStream. destruct (sessions ts !! makeKey srv sid) as [s|] eqn:Hk; [|by exists ts].
    destruct (negb _); [by exists ts|]. destruct (streaming s); [by exists ts|].
    eexists. split; [done|]. destruct (Hc _ _ Hk) as [b Hb]. destruct (Hw _ _ Hb) as [_ Hl].
    assert (Hu := term_inv_update _ s (set_streaming s) b ts Hinv Hk eq_refl Hl).
    destruct ts as [ss [cs n]]. unfold set_cell in Hu. simpl in *. by rewrite (insert_id _ _ _ Hb) in Hu.
  - unfold DeliverData. destruct (sessions ts !! makeKey srv sid) as [s|] eqn:Hk; [|by exists ts].
    destruct (closed s) eqn:Hcl; [by exists ts|].
    destruct (session_open _ _ _ Hinv Hk Hcl) as (b & Hb & Hl). unfold try_send. rewrite Hb.
    destruct (Nat.ltb_spec (length b) term_buffer); simpl; [|by exists (MkTerminals (sessions ts) (t_heap ts))].
    eexists. split; [done|]. rewrite <- Hcl.
    assert (Hu := term_inv_update _ s s (b ++ [TerminalEventData d]) ts Hinv Hk eq_refl).
    rewrite (insert_id _ _ _ Hk) in Hu. apply Hu. rewrite length_app. simpl. lia.
  - unfold End. destruct (sessions ts !! makeKey srv sid) as [s|] eqn:Hk; [|by exists ts].
    destruct (closed s) eqn:Hcl; [by exists ts|].
    destruct (end_session_open _ s code err ts Hinv Hk Hcl) as (b & _ & -> & Hinv'). simpl. eauto.
  - by apply end_all_inv.
  - unfold RemoveIfHubInitiated. destruct (sessions ts !! makeKey srv sid) as [s|] eqn:Hk; [|by exists ts].
    destruct (drop_session_inv _ _ _ Hinv Hk) as (h & -> & Hd). simpl. eauto.
  - unfold RemoveUnattached. destruct (sessions ts !! makeKey srv sid) as [s|] eqn:Hk; [|by exists ts].
    destruct (streaming s); [by exists ts|].
    destruct (drop_session_inv _ _ _ Hinv Hk) as (h & -> & Hd). simpl. eauto.
  - unfold Remove. destruct (sessions ts !! makeKey srv sid) as [s|] eqn:Hk; [|by exists ts].
    destruct (drop_session_inv _ _ _ Hinv Hk) as (h & -> & Hd). simpl. eauto.
  - eexists. split; [done|]. unfold Next, receive.
    destruct (cells (t_heap ts) !! c) as [[[|v b] n k]|] eqn:Hcc; simpl;
      [destruct ts; destruct k; by split| |by destruct ts].
    split; simpl; [| |done].
    + eapply heap_wf_set; [done|exact Hcc|]. destruct (Hw _ _ Hcc) as [_ Hl]. simpl in *. lia.
    + intros q s Hq. destruct (Hc _ _ Hq) as [b1 Hb1]. rewrite lookup_insert. case_decide; [|by exists b1].
      subst. simplify_eq. by exists b.
Qed.

Fixpoint run (acts : list action) (ts : TerminalSessions) : outcome TerminalSessions :=
  match acts with
  | [] => Ret ts
  | a :: acts' => let! ts' := step a ts in run acts' ts'
  end.

(** How many of the steps attached a stream to the session [key]. *)
Fixpoint attach_count (key : string) (acts : list action) (ts : TerminalSessions) : nat :=
  match acts with
  | [] => 0
  | a :: acts' =>
      ((if attaches key a ts then 1 else 0) +
       match step a ts with
       | Ret ts' => attach_count key acts' ts'
       | Panic => 0
       end)%nat
  end.

(** The SSE handler's loop: events read until the channel is closed and drained. *)
Fixpoint drain (n c : nat) (ts : TerminalSessions) : list TerminalEvent * bool :=
  match n with
  | O => ([], false)
  | S n' =>
      match Next c ts with
      | (Got e, ts') => let '(es, fin) := drain n' c ts' in (e :: es, fin)
      | (ClosedDrained, _) => ([], true)
      | (WouldBlock, _) => ([], false)
      end
  end.

Lemma drain_closed b : ∀ n c cap ts,
  cells (t_heap ts) !! c = Some (Chan b cap true) → (length b < n)%nat → drain n c ts = (b, true).
Proof.
  induction b as [|e b IH]; intros n c cap ts Hc Hn; (destruct n as [|n]; [simpl in Hn; lia|]);
    simpl; unfold Next, receive; rewrite Hc; [done|].
  rewrite (IH n c cap); [done| |simpl in Hn; lia]. simpl. by rewrite lookup_insert_eq.
Qed.

(** An action that does not end the life of the map entry [key]. *)
Definition retains (key : string) (a : action) : Prop :=
  match a with
  | AHubClose srv sid | ARemoveUnattached srv sid | ARemove srv sid => makeKey srv sid ≠ key
  | _ => True
  end.

Lemma end_all_streaming srv code err key keys : ∀ ts ts' s,
  EndAll_order keys srv code err ts = Ret ts' → sessions ts !! key = Some s →
  ∃ s', sessions ts' !! key = Some s' ∧ streaming s' = streaming s.
Proof.
  induction keys as [|k keys IH]; intros ts ts' s Hr Hk; simpl in Hr; [injection Hr as <-; eauto|].
  destruct (sessions ts !! k) as [q|] eqn:Hq; [|by eapply IH].
  destruct (negb _ || closed q); [by eapply IH|].
  destruct (end_session k q code err ts) as [ts1|] eqn:E; [|done]. simpl in Hr.
  unfold end_session in E. destruct (deliverExit _ _ _) as [h1|]; [|done]. simpl in E.
  destruct (close_chan _ _) as [h2|]; [|done]. injection E as <-.
  destruct (decide (k = key)) as [->|Hne].
  - assert (q = s) as -> by congruence. edestruct (IH _ _ (set_closed s) Hr) as (s' & Hs' & Hst); [simpl; by rewrite lookup_insert_eq|].
    exists s'. by rewrite Hst.
  - eapply IH; [exact Hr|]. simpl. by rewrite lookup_insert_ne.
Qed.

(** The life of an entry: its [streaming] flag only ever goes up, by an attach. *)
Lemma streaming_step key a (ts ts' : TerminalSessions) s :
  sessions ts !! key = Some s → retains key a → step a ts = Ret ts' →
  ∃ s', sessions ts' !! key = Some s' ∧ streaming s' = streaming s || attaches key a ts ∧
        (attaches key a ts = true → streaming s = false).
Proof.
  intros Hk Hret Hst.
  assert (Hsame : ∀ t, sessions t = sessions ts → ∃ s', sessions t !! key = Some s' ∧
    streaming s' = streaming s || false ∧ (false = true → streaming s = false)).
  { intros t ->. exists s. rewrite orb_false_r. by split_and!. }
  assert (Hother : ∀ k q h, k ≠ key → ∃ s', sessions (MkTerminals (<[k := q]> (sessions ts)) h) !! key = Some s' ∧
    streaming s' = streaming s || false ∧ (false = true → streaming s = false)).
  { intros k q h Hne. exists s. simpl. rewrite lookup_insert_ne, orb_false_r by done. by split_and!. }
  assert (Hdrop : ∀ k q t, k ≠ key → drop_session k q ts = Ret t → ∃ s', sessions t !! key = Some s' ∧
    streaming s' = streaming s || false ∧ (false = true → streaming s = false)).
  { intros k q t Hne Hd. unfold drop_session in Hd.
    destruct (if closed q then _ else _) as [h|]; [|done]. injection Hd as <-. exists s. simpl.
    rewrite lookup_delete_ne, orb_false_r by done. by split_and!. }
  destruct a as [srv sid u x|srv sid u|srv sid d|srv sid code err|srv keys code err
                |srv sid|srv sid|srv sid|c]; simpl in *.
  - injection Hst as <-. unfold Register. destruct (sessions ts !! makeKey srv sid) eqn:E; [by apply Hsame|].
    simpl. apply (Hother _ _ (t_heap ts)). congruence.
  - injection Hst as <-. unfold AttachStream.
    destruct (sessions ts !! makeKey srv sid) as [q|] eqn:E; [|rewrite andb_false_r; by apply Hsame].
    destruct (negb _); [rewrite andb_false_r; by apply Hsame|].
    destruct (streaming q) eqn:Hq; [rewrite andb_false_r; by apply Hsame|]. simpl. rewrite andb_true_r.
    case_bool_decide as Hd; [|by apply (Hother _ _ (t_heap ts))]. subst key. simplify_eq.
    exists (set_streaming s). rewrite lookup_insert_eq, Hq. by split_and!.
  - unfold DeliverData in Hst. destruct (sessions ts !! makeKey srv sid) as [q|]; [|injection Hst as <-; by apply Hsame].
    destruct (closed q); [injection Hst as <-; by apply Hsame|].
    destruct (try_send _ _ _) as [[b h]|]; [|done]. injection Hst as <-. by apply Hsame.
  - unfold End in Hst. destruct (sessions ts !! makeKey srv sid) as [q|] eqn:Hq; [|injection Hst as <-; by apply Hsame].
    destruct (closed q) eqn:Hcl; [injection Hst as <-; by apply Hsame|].
    edestruct (end_all_streaming srv code err key [makeKey srv sid] ts ts' s) as (s' & Hs' & Hss).
    + simpl. rewrite Hq, Hcl, orb_false_r.
      assert (HasPrefix (makeKey srv sid) (srv +:+ ":") = true) as ->.
      { unfold HasPrefix, makeKey. rewrite <- app_assoc_str. apply prefix_app. }
      simpl. by destruct (end_session _ _ _ _ _).
    + done.
    + exists s'. rewrite orb_false_r. by split_and!.
  - destruct (end_all_streaming _ _ _ key _ _ _ s Hst Hk) as (s' & Hs' & Hss).
    exists s'. rewrite orb_false_r. by split_and!.
  - unfold RemoveIfHubInitiated in Hst. destruct (sessions ts !! makeKey srv sid) as [q|]; [|injection Hst as <-; by apply Hsame].
    destruct (drop_session _ _ _) as [t|] eqn:Hd; [|done]. injection Hst as <-. by eapply Hdrop.
  - unfold RemoveUnattached in Hst. destruct (sessions ts !! makeKey srv sid) as [q|]; [|injection Hst as <-; by apply Hsame].
    destruct (streaming q); [injection Hst as <-; by apply Hsame|].
    destruct (drop_session _ _ _) as [t|] eqn:Hd; [|done]. injection Hst as <-. by eapply Hdrop.
  - unfold Remove in Hst. destruct (sessions ts !! makeKey srv sid) as [q|]; [|injection Hst as <-; by apply Hsame].
    destruct (drop_session _ _ _) as [t|] eqn:Hd; [|done]. injection Hst as <-. by eapply Hdrop.
  - injection Hst as <-. unfold Next. destruct (receive _ _). by apply Hsame.
Qed.

Lemma attach_count_streaming key acts : ∀ ts s,
  sessions ts !! key = Some s → Forall (retains key) acts →
  (attach_count key acts ts ≤ if streaming s then 0 else 1)%nat.
Proof.
  induction acts as [|a acts IH]; intros ts s Hk HF; simpl; [lia|].
  inversion HF as [|? ? Ha HF']; subst.
  destruct (step a ts) as [ts'|] eqn:Hst.
  - destruct (streaming_step key a ts ts' s Hk Ha Hst) as (s' & Hs' & Hss & Hup).
    specialize (IH ts' s' Hs' HF'). rewrite Hss in IH.
    destruct (attaches key a ts); [rewrite Hup in * by done; simpl in IH|rewrite orb_false_r in IH]; lia.
  - destruct a; simpl in *; try (destruct (streaming s); lia). congruence.
Qed.

Lemma key_of_server srv srv' sid :
  colon_free srv → colon_free srv' →
  HasPrefix (makeKey srv' sid) (srv +:+ ":") = true ↔ srv' = srv.
Proof.
  intros H1 H2. unfold HasPrefix. rewrite prefix_iff. split.
  - intros [t Ht]. rewrite app_assoc_str in Ht. by destruct (makeKey_inj _ _ _ _ H2 H1 Ht).
  - intros ->. exists sid. by rewrite app_assoc_str.
Qed.

(** What [EndAll] does to the entry [key] and its channel. *)
Definition ended_view (key : string) (hit : bool) (code : Z) (err : string)
    (ts ts' : TerminalSessions) : Prop :=
  match sessions ts !! key with
  | None => sessions ts' !! key = None
  | Some s =>
      ∃ b, cells (t_heap ts) !! ch s = Some (Chan b term_buffer (closed s)) ∧
      if hit && negb (closed s)
      then sessions ts' !! key = Some (set_closed s) ∧
           cells (t_heap ts') !! ch s = Some (Chan (with_exit b code err) term_buffer true)
      else sessions ts' !! key = Some s ∧
           cells (t_heap ts') !! ch s = Some (Chan b term_buffer (closed s))
  end.

Lemma ended_view_refl key code err ts : term_inv ts → ended_view key false code err ts ts.
Proof.
  intros [_ Hc _]. unfold ended_view. destruct (sessions ts !! key) as [s|] eqn:E; [|done].
  destruct (Hc _ _ E) as [b Hb]. by exists b.
Qed.

Lemma end_all_view srv code err keys : ∀ ts,
  term_inv ts → NoDup keys →
  ∃ ts', EndAll_order keys srv code err ts = Ret ts' ∧ term_inv ts' ∧
    ∀ key, ended_view key (bool_decide (key ∈ keys) && HasPrefix key (srv +:+ ":")) code err ts ts'.
Proof.
  induction keys as [|k keys IH]; intros ts Hinv Hnd; simpl.
  { exists ts. split_and!; try done. intros key. by apply ended_view_refl. }
  inversion Hnd as [|? ? Hnin Hnd']; subst.
  assert (Hskip : sessions ts !! k = None ∨
                  (∃ s, sessions ts !! k = Some s ∧ negb (HasPrefix k (srv +:+ ":")) || closed s = true) →
    ∃ ts', EndAll_order keys srv code err ts = Ret ts' ∧ term_inv ts' ∧
    ∀ key, ended_view key (bool_decide (key ∈ k :: keys) && HasPrefix key (srv +:+ ":")) code err ts ts').
  { intros Hk. destruct (IH ts Hinv Hnd') as (ts' & -> & Hinv' & Hv). exists ts'. split_and!; try done.
    intros key. specialize (Hv key). destruct (decide (key = k)) as [->|Hne].
    - rewrite (bool_decide_eq_false_2 (k ∈ keys)) in Hv by done. unfold ended_view in *.
      destruct (sessions ts !! k) as [s|]; [|done]. destruct Hv as (b & Hb & Hv). exists b.
      destruct Hk as [|(q & [= <-] & Hq)]; [done|]. split; [done|]. simpl in Hv.
      destruct (HasPrefix k _); [|by rewrite andb_false_r]. destruct (closed s); [|done].
      by rewrite andb_false_r.
    - erewrite bool_decide_ext; [exact Hv|]. rewrite elem_of_cons. naive_solver. }
  destruct (sessions ts !! k) as [s|] eqn:Hk; [|apply Hskip; by left].
  destruct (negb _ || closed s) eqn:Hg; [apply Hskip; right; by exists s|].
  clear Hskip. bool_hyps.
  destruct (end_session_open k s code err ts) as (b & Hb & -> & Hinv1); try done. simpl.
  destruct (IH _ Hinv1 Hnd') as (ts' & -> & Hinv' & Hv). exists ts'. split_and!; try done.
  intros key. specialize (Hv key). destruct (decide (key = k)) as [->|Hne].
  - rewrite (bool_decide_eq_false_2 (k ∈ keys)) in Hv by done. rewrite bool_decide_eq_true_2 by set_solver.
    unfold ended_view in *. simpl in Hv. rewrite lookup_insert_eq in Hv.
    destruct Hv as (b' & Hb' & Hv). simpl in Hb', Hv. rewrite lookup_insert_eq in Hb'. simplify_eq.
    rewrite Hk. exists b. rewrite H, H0. simpl. by split.
  - rewrite (bool_decide_ext (key ∈ k :: keys) (key ∈ keys)) by (rewrite elem_of_cons; naive_solver).
    unfold ended_view in *. simpl in Hv. rewrite lookup_insert_ne in Hv by done.
    destruct (sessions ts !! key) as [q|] eqn:Hq; [|done]. destruct Hv as (b' & Hb' & Hv).
    rewrite lookup_insert_ne in Hb'; [by exists b'|]. intros He. apply Hne. exact (ti_inj _ Hinv _ _ _ _ Hq Hk (eq_sym He)).
Qed.

(** ** Properties *)

(** the registry never panics: no schedule of registrations, attaches, deliveries, exits,
    disconnects, closes and expiries sends on a closed channel or closes one twice, and after each
    step every session's [closed] flag says whether its own channel is closed. *)
Theorem term_no_panic (acts : list action) (ts : TerminalSessions) :
  term_inv ts → ∃ ts', run acts ts = Ret ts' ∧ term_inv ts'.
Proof.
  revert ts. induction acts as [|a acts IH]; intros ts Hinv; simpl; [by exists ts|].
  destruct (term_step_inv a ts Hinv) as (ts1 & -> & Hinv1). simpl. by apply IH.
Qed.

Lemma term_no_panic_witness :
  ∃ ts', run [ARegister "s" "t" "u" ""; AAttach "s" "t" "u"; AEnd "s" "t" 0 ""; ADeliver "s" "t" "x";
              AEnd "s" "t" 1 "again"; AEndAll "s" ["s:t"] (-1) "gone"; ANext 0; AHubClose "s" "t"]
           NewTerminalSessions = Ret ts' ∧ term_inv ts'.
Proof. apply term_no_panic. apply term_inv_init. Defined.

(** an agent-reported exit always reaches the reader.  Ending an open session succeeds
    whatever its buffer holds; the SSE handler then reads every buffered event (all but the oldest
    when the buffer was full), the exit event last, and after it the end of the channel. *)
Theorem term_exit_delivered (srv sid err : string) (code : Z) (s : terminalSession)
    (ts : TerminalSessions) :
  term_inv ts → sessions ts !! makeKey srv sid = Some s → closed s = false →
  ∃ b ts', cells (t_heap ts) !! ch s = Some (Chan b term_buffer false) ∧
    End srv sid code err ts = Ret (true, ts') ∧
    drain (S term_buffer) (ch s) ts' =
      ((if (length b =? term_buffer)%nat then tail b else b) ++ [TerminalEventExit code err], true).
Proof.
  intros Hinv Hk Hcl.
  destruct (end_session_open _ s code err ts Hinv Hk Hcl) as (b & Hb & He & _).
  exists b. eexists. split_and!; [done|unfold End; by rewrite Hk, Hcl, He|].
  apply (drain_closed _ _ _ term_buffer); [simpl; by rewrite lookup_insert_eq|].
  destruct (session_open _ _ _ Hinv Hk Hcl) as (b' & Hb' & Hl). simplify_eq.
  assert (Hle := with_exit_length b code err Hl). unfold with_exit in Hle. lia.
Qed.

Lemma term_exit_delivered_witness :
  let ts := (Register "s" "t" "u" "" NewTerminalSessions).2 in
  ∃ b ts', cells (t_heap ts) !! 0%nat = Some (Chan b term_buffer false) ∧
    End "s" "t" 3 "boom" ts = Ret (true, ts') ∧
    drain (S term_buffer) 0 ts' =
      ((if (length b =? term_buffer)%nat then tail b else b) ++ [TerminalEventExit 3 "boom"], true).
Proof.
  apply (term_exit_delivered "s" "t" "boom" 3 (MkTerm "u" "" 0 false false)); [|done|done].
  destruct (term_step_inv (ARegister "s" "t" "u" "") _ term_inv_init) as (ts & [= <-] & H). exact H.
Defined.

(** a terminal session is streamed at most once.  Over any schedule that keeps the session
    registered, at most one [AttachStream] succeeds (none once it is streaming). *)
Theorem term_single_attach (srv sid : string) (acts : list action) (s : terminalSession)
    (ts : TerminalSessions) :
  sessions ts !! makeKey srv sid = Some s → Forall (retains (makeKey srv sid)) acts →
  (attach_count (makeKey srv sid) acts ts ≤ if streaming s then 0 else 1)%nat.
Proof. apply attach_count_streaming. Qed.

Lemma term_single_attach_witness :
  (attach_count (makeKey "s" "t") [AAttach "s" "t" "u"; ANext 0; AAttach "s" "t" "u"]
     (Register "s" "t" "u" "" NewTerminalSessions).2 ≤ 1)%nat.
Proof.
  apply (term_single_attach "s" "t" _ (MkTerm "u" "" 0 false false)); [done|]. repeat constructor.
Defined.

(** a disconnect ends exactly the disconnected server's sessions.  Whatever order the map
    iteration takes, [EndAll] closes every open session of [srv] with the exit event last in its
    buffer, and leaves the sessions of every other server, and their channels, as they were. *)
Theorem term_end_all (srv err : string) (code : Z) (keys : list string) (ts : TerminalSessions) :
  term_inv ts → colon_free srv → keys ≡ₚ (map_to_list (sessions ts)).*1 →
  ∃ ts', EndAll_order keys srv code err ts = Ret ts' ∧
    ∀ srv' sid, colon_free srv' →
      ended_view (makeKey srv' sid) (String.eqb srv' srv) code err ts ts'.
Proof.
  intros Hinv Hsrv Hp.
  assert (Hnd : NoDup keys) by (rewrite Hp; apply NoDup_fst_map_to_list).
  destruct (end_all_view srv code err keys ts Hinv Hnd) as (ts' & Hr & _ & Hv).
  exists ts'. split; [done|]. intros srv' sid Hsrv'. specialize (Hv (makeKey srv' sid)).
  assert (Hpre : HasPrefix (makeKey srv' sid) (srv +:+ ":") = String.eqb srv' srv).
  { apply eq_true_iff_eq. rewrite key_of_server by done. by rewrite String.eqb_eq. }
  rewrite Hpre in Hv. unfold ended_view in *.
  destruct (sessions ts !! makeKey srv' sid) as [s|] eqn:Hs; [|done].
  rewrite bool_decide_eq_true_2 in Hv; [done|]. rewrite Hp.
  apply list_elem_of_fmap. exists (makeKey srv' sid, s). split; [done|]. by apply elem_of_map_to_list.
Qed.

Lemma term_end_all_witness :
  let ts := (Register "s" "t" "u" "" NewTerminalSessions).2 in
  ∃ ts', EndAll_order ["s:t"] "s" (-1) "agent disconnected" ts = Ret ts' ∧
    ∀ srv' sid, colon_free srv' →
      ended_view (makeKey srv' sid) (String.eqb srv' "s") (-1) "agent disconnected" ts ts'.
Proof.
  apply (term_end_all "s" "agent disconnected" (-1) ["s:t"]); [|done|].
  - destruct (term_step_inv (ARegister "s" "t" "u" "") _ term_inv_init) as (ts & [= <-] & H). exact H.
  - vm_compute. reflexivity.
Defined.
