(* ===== verification/Proto.v ===== *)
(** * Messages of the agent stream (proto/veyport/v1/agent.proto). *)

From S2P Require Import Prelude.

Definition bytes : Type := string.

Record FileNode := MkFileNode {
  fn_name : string; fn_path : string; fn_is_dir : bool; fn_size : Z; fn_readable : bool }.

Record RegisterAgent := MkRegisterAgent {
  ra_Token : string; ra_Hostname : string; ra_IpAddress : string; ra_Os : string;
  ra_AgentVersion : string; ra_Csr : bytes }.

(** Responses that an HTTP handler waits for under a request (or session) identifier. *)
Inductive Response :=
  | FileListResponse (request_id : string) (files : list FileNode) (error : string)
  | FileReadResponse (request_id : string) (data : bytes) (total_size : Z) (mime error : string)
  | FileUploadAck (request_id : string) (success : bool) (error : string)
  | FileDeleteResponse (request_id : string) (success : bool) (error : string)
  | UnregisterAck (request_id : string) (success : bool) (error : string)
  | TerminalOpenAck (session_id : string) (success : bool) (error : string).

Inductive AgentMessage :=
  | Heartbeat (server_id : string) (ip_address : string)
  | Register (reg : RegisterAgent)
  | Reply (resp : Response)
  | LogStreamChunk (request_id : string) (data : bytes)
  | CertRenewRequest (csr : bytes)
  | TerminalData (session_id : string) (data : bytes)
  | TerminalExit (session_id : string) (exit_code : Z) (error : string)
  | UnknownPayload.

Inductive HubMessage :=
  | HeartbeatAck (timestamp : Z)
  | RegisterAck (success : bool) (server_id error : string) (client_cert ca_cert : bytes)
  | FileListRequest (request_id path : string)
  | LogStreamRequest (request_id path : string) (offset : Z) (grep : string)
  | FileUploadRequest (request_id filename : string) (chunk : bytes) (done : bool)
  | FileReadRequest (request_id path : string) (offset limit : Z)
  | LogStreamStop (request_id : string)
  | FileDeleteRequest (request_id path : string)
  | UnregisterRequest (request_id : string)
  | CertRenewResponse (client_cert ca_cert : bytes) (error : string)
  | TerminalOpenRequest (session_id : string) (cols rows : Z) (cwd run_as_user : string)
  | TerminalInput (session_id : string) (data : bytes)
  | TerminalResize (session_id : string) (cols rows : Z)
  | TerminalClose (session_id : string).

Definition response_id (r : Response) : string :=
  match r with
  | FileListResponse id _ _ | FileReadResponse id _ _ _ _ | FileUploadAck id _ _
  | FileDeleteResponse id _ _ | UnregisterAck id _ _ | TerminalOpenAck id _ _ => id
  end.
