(* ===== verification/ConnMgr.v ===== *)
(** * Live agent connections (hub/internal/connmgr/connmgr.go).

    A stream is an identity.  The connection objects are only reached through the manager, under
    its lock; [SendMu] serialises the sends on one stream. *)

From S2P Require Import Prelude.

Record AgentConn := MkAgentConn { ServerID : string; Stream : nat; LastSeen : Z }.

Notation ConnManager := (gmap string AgentConn).

Definition New : ConnManager := ∅.

Definition Register (now : Z) (serverID : string) (stream : nat) (cm : ConnManager) : ConnManager :=
  <[serverID := MkAgentConn serverID stream now]> cm.

Definition Unregister (serverID : string) (cm : ConnManager) : ConnManager := delete serverID cm.

Definition UnregisterIfCurrent (serverID : string) (stream : nat) (cm : ConnManager)
  : bool * ConnManager :=
  match cm !! serverID with
  | Some conn => if (Stream conn =? stream)%nat then (true, delete serverID cm) else (false, cm)
  | None => (false, cm)
  end.

Definition GetConn (serverID : string) (cm : ConnManager) : option AgentConn := cm !! serverID.

(** In the order of the iteration over the map, here that of [map_to_list]. *)
Definition ActiveServerIDs (cm : ConnManager) : list string := (map_to_list cm).*1.

Definition UpdateHeartbeat (now : Z) (serverID : string) (cm : ConnManager) : ConnManager :=
  alter (λ c, MkAgentConn (ServerID c) (Stream c) now) serverID cm.

Definition StaleConnections (now maxAge : Z) (cm : ConnManager) : list string :=
  let cutoff := now - maxAge in
  (List.filter (λ ic, LastSeen ic.2 <? cutoff) (map_to_list cm)).*1.

(** ** Lemmas *)

Lemma Stale_iff (now maxAge : Z) (id : string) (cm : ConnManager) :
  id ∈ StaleConnections now maxAge cm ↔ ∃ c, cm !! id = Some c ∧ LastSeen c < now - maxAge.
Proof.
  unfold StaleConnections. rewrite list_elem_of_fmap. split.
  - intros ([i c] & -> & Hin). apply list_elem_of_In, filter_In in Hin as [Hin Hl].
    apply list_elem_of_In, elem_of_map_to_list in Hin. apply Z.ltb_lt in Hl. by exists c.
  - intros (c & Hc & Hl). exists (id, c). split; [done|]. apply list_elem_of_In, filter_In.
    split; [|by apply Z.ltb_lt]. by apply list_elem_of_In, elem_of_map_to_list.
Qed.

Lemma Active_iff (id : string) (cm : ConnManager) : id ∈ ActiveServerIDs cm ↔ is_Some (cm !! id).
Proof.
  unfold ActiveServerIDs. rewrite list_elem_of_fmap. split.
  - intros ([i c] & -> & Hin). apply elem_of_map_to_list in Hin. by exists c.
  - intros [c Hc]. exists (id, c). split; [done|]. by apply elem_of_map_to_list.
Qed.

Lemma foldl_Unregister (ids : list string) (cm : ConnManager) (id : string) :
  foldl (λ cm id, Unregister id cm) cm ids !! id = if decide (id ∈ ids) then None else cm !! id.
Proof.
  revert cm. induction ids as [|i ids IH]; intros cm; simpl; [done|]. rewrite IH. unfold Unregister.
  destruct (decide (id ∈ ids)); [by rewrite decide_True by by right|].
  destruct (decide (i = id)) as [->|Hne].
  - rewrite lookup_delete_eq, decide_True; [done|by left].
  - rewrite lookup_delete_ne, decide_False by set_solver. done.
Qed.
