(* ===== verification/RateLimiter.v ===== *)
(** * The request rate limiter (rateLimiter of hub/internal/server/middleware.go).

    [allow] runs under the limiter's lock, so a history is a sequence of calls.  The clock of a
    call and the order in which it ranges over the map are its arguments. *)

From S2P Require Import Prelude.

(** The [attempts] map; [limit] and [window] never change after [newRateLimiter]. *)
Record rateLimiter := MkRateLimiter {
  attempts : gmap string (list Z);
  limit : Z;
  window : Z
}.

Definition maxTrackedIPs : Z := 100000.

Definition newRateLimiter (limit window : Z) : rateLimiter := MkRateLimiter ∅ limit window.

(** The loop of [evictOldest]: the key and the last attempt of the oldest entry so far ([first] is
    [None]); an entry without attempts is an index out of range. *)
Fixpoint oldest_entry (skipIP : string) (entries : list (string * list Z)) (acc : option (string * Z))
  : outcome (option (string * Z)) :=
  match entries with
  | [] => Ret acc
  | (k, ts) :: entries' =>
      if String.eqb k skipIP then oldest_entry skipIP entries' acc else
      match List.last ts 0, ts with
      | _, [] => Panic
      | last, _ =>
          oldest_entry skipIP entries'
            (match acc with
             | None => Some (k, last)
             | Some (_, t) => if last <? t then Some (k, last) else acc
             end)
      end
  end.

Definition evictOldest (range : gmap string (list Z) → list (string * list Z)) (skipIP : string)
    (m : gmap string (list Z)) : outcome (gmap string (list Z)) :=
  let! oldest := oldest_entry skipIP (range m) None in
  Ret (match oldest with
       | Some (k, _) => if String.eqb k "" then m else delete k m
       | None => m
       end).

(** The attempts [t.After(cutoff)]. *)
Definition in_window (window now : Z) (ts : list Z) : list Z := List.filter (λ t, now - window <? t) ts.

Definition allow (range : gmap string (list Z) → list (string * list Z)) (now : Z) (ip : string)
    (rl : rateLimiter) : outcome (bool * rateLimiter) :=
  let set m := MkRateLimiter m (limit rl) (window rl) in
  let valid := in_window (window rl) now (default [] (attempts rl !! ip)) in
  let m := match valid with [] => delete ip (attempts rl) | _ => <[ip := valid]> (attempts rl) end in
  if limit rl <=? Z.of_nat (length valid) then Ret (false, set m) else
  let! m := if maxTrackedIPs <=? Z.of_nat (size m) then evictOldest range ip m else Ret m in
  Ret (true, set (<[ip := valid ++ [now]]> m)).

(** ** Histories *)

Record call := MkCall {
  call_at : Z;
  call_ip : string;
  call_range : gmap string (list Z) → list (string * list Z)
}.
(** The order is one of the map's entries. *)
Definition ranges (c : call) : Prop := ∀ m, call_range c m ≡ₚ map_to_list m.

Fixpoint run (cs : list call) (rl : rateLimiter) : outcome (list bool * rateLimiter) :=
  match cs with
  | [] => Ret ([], rl)
  | c :: cs' =>
      let! (b, rl') := allow (call_range c) (call_at c) (call_ip c) rl in
      let! (bs, rl'') := run cs' rl' in
      Ret (b :: bs, rl'')
  end.

(** The specification remembers every allowed request, and allows one when fewer than [limit] of
    the same address are in the window. *)
Definition recent (window now : Z) (ip : string) (hist : list (string * Z)) : list (string * Z) :=
  List.filter (λ e, String.eqb e.1 ip && (now - window <? e.2)) hist.

Fixpoint spec_run (limit window : Z) (hist : list (string * Z)) (cs : list call) : list bool :=
  match cs with
  | [] => []
  | c :: cs' =>
      let b := Z.of_nat (length (recent window (call_at c) (call_ip c) hist)) <? limit in
      b :: spec_run limit window
             (if b then hist ++ [(call_ip c, call_at c)] else hist) cs'
  end.

(** ** The tables stay well formed and bounded *)

(** No entry is empty, the empty address has none, and there are at most [maxTrackedIPs]. *)
Record limiter_ok (rl : rateLimiter) : Prop := {
  entries_nonempty : ∀ ip ts, attempts rl !! ip = Some ts → ts ≠ [];
  address_nonempty : attempts rl !! "" = None;
  entries_bounded : Z.of_nat (size (attempts rl)) <= maxTrackedIPs;
  entry_length : ∀ ip ts, attempts rl !! ip = Some ts → Z.of_nat (length ts) <= limit rl
}.

Lemma oldest_entry_total (skipIP : string) (entries : list (string * list Z)) (acc : option (string * Z)) :
  Forall (λ e, e.2 ≠ []) entries →
  ∃ r, oldest_entry skipIP entries acc = Ret r ∧
    match r with
    | Some (k, _) => (∃ ts, (k, ts) ∈ entries) ∧ k ≠ skipIP ∨ (fst <$> acc) = Some k
    | None => acc = None ∧ Forall (λ e, e.1 = skipIP) entries
    end.
Proof.
  revert acc. induction entries as [|[k ts] entries IH]; intros acc Hne; simpl.
  { exists acc. split; [done|]. destruct acc as [[k t]|]; [by right|done]. }
  apply Forall_cons in Hne as [Hts Hne]. simpl in Hts.
  destruct (String.eqb_spec k skipIP) as [->|Hk].
  { destruct (IH acc Hne) as (r & -> & Hr). exists r. split; [done|].
    destruct r as [[k t]|]; [|destruct Hr; split; [done|by constructor]].
    destruct Hr as [[(ts' & Hin) Hk]|Hr]; [left|by right]. split; [|done]. exists ts'. by right. }
  destruct ts as [|t0 ts]; [done|]. set (last := List.last _ _). clearbody last.
  match goal with |- context [oldest_entry skipIP entries ?a] => destruct (IH a Hne) as (r & -> & Hr) end.
  exists r. split; [done|]. destruct r as [[k' t]|].
  - destruct Hr as [[(ts' & Hin) Hk']|Hr]; [left; split; [exists ts'; by right|done]|].
    destruct acc as [[ka ta]|]; [|injection Hr as <-; left; split; [exists (t0 :: ts); by left|done]].
    destruct (last <? ta); [|by right].
    injection Hr as <-. left. split; [exists (t0 :: ts); by left|done].
  - destruct Hr as [Hr _]. destruct acc as [[ka ta]|]; [|done]. by destruct (last <? ta).
Qed.

Lemma in_window_in_window (window now t : Z) (ts : list Z) :
  now <= t → in_window window t (in_window window now ts) = in_window window t ts.
Proof.
  intros Ht. induction ts as [|x ts IH]; simpl; [done|].
  destruct (Z.ltb_spec (now - window) x); simpl; rewrite IH; [done|].
  destruct (Z.ltb_spec (t - window) x); [lia|done].
Qed.

Lemma map_size_fresh_le {A : Type} (m : gmap string A) (k : string) (v : A) :
  Z.of_nat (size (<[k := v]> m)) <= Z.of_nat (size m) + 1.
Proof. rewrite map_size_insert. destruct (m !! k); simpl; lia. Qed.

(** The map after the expired attempts of [ip] are dropped. *)
Definition dropped (ip : string) (valid : list Z) (m : gmap string (list Z)) : gmap string (list Z) :=
  match valid with [] => delete ip m | _ => <[ip := valid]> m end.

Lemma dropped_lookup (ip ip' : string) (valid : list Z) (m : gmap string (list Z)) :
  default [] (dropped ip valid m !! ip') = if decide (ip = ip') then valid else default [] (m !! ip').
Proof.
  unfold dropped. destruct valid as [|t ts].
  - destruct (decide (ip = ip')) as [->|Hne]; [by rewrite lookup_delete_eq|by rewrite lookup_delete_ne].
  - destruct (decide (ip = ip')) as [->|Hne]; [by rewrite lookup_insert_eq|by rewrite lookup_insert_ne].
Qed.

Lemma dropped_size (ip : string) (window now : Z) (m : gmap string (list Z)) :
  (size (dropped ip (in_window window now (default [] (m !! ip))) m) <= size m)%nat.
Proof.
  unfold dropped. destruct (in_window _ _ _) as [|t ts] eqn:Hv.
  - rewrite map_size_delete. destruct (m !! ip); simpl; lia.
  - destruct (m !! ip) as [old|] eqn:Hm; [|done]. rewrite map_size_insert, Hm. simpl. lia.
Qed.

Lemma evictOldest_spec (c : call) (ip : string) (m : gmap string (list Z)) :
  ranges c → (∀ k ts, m !! k = Some ts → ts ≠ []) → m !! "" = None →
  ∃ m', evictOldest (call_range c) ip m = Ret m' ∧ m' ⊆ m ∧
    (2 <= size m → size m' = size m - 1)%nat.
Proof.
  intros Hr Hne Hnull. unfold evictOldest. specialize (Hr m).
  assert (Hin : ∀ k ts, (k, ts) ∈ call_range c m → m !! k = Some ts).
  { intros k ts. rewrite Hr. apply elem_of_map_to_list. }
  destruct (oldest_entry_total ip (call_range c m) None) as (r & -> & Hres).
  { apply Forall_forall. intros [k ts] Hk. simpl. by eapply Hne, Hin. }
  simpl. destruct r as [[k t]|].
  - destruct Hres as [[(ts & Hk%Hin) Hkip]|]; [|done].
    destruct (String.eqb_spec k "") as [->|_]; [congruence|].
    eexists. split; [done|]. split; [apply delete_subseteq|]. intros _.
    rewrite map_size_delete, Hk. simpl. lia.
  - eexists. split; [done|]. split; [done|]. intros Hs. exfalso. destruct Hres as [_ Hall].
    assert (Hl := length_map_to_list m). rewrite <- Hr in Hl.
    assert (Hnd : NoDup (call_range c m).*1) by (rewrite Hr; apply NoDup_fst_map_to_list).
    destruct (call_range c m) as [|[k1 t1] [|[k2 t2] es]]; simpl in *; [lia|lia|].
    apply Forall_cons in Hall as [H1 Hall]. apply Forall_cons in Hall as [H2 _]. simpl in *. subst.
    apply NoDup_cons in Hnd as [Hnd _]. apply Hnd. by left.
Qed.

Lemma allow_ok (c : call) (rl : rateLimiter) :
  ranges c → call_ip c ≠ "" → limiter_ok rl →
  ∃ b rl', allow (call_range c) (call_at c) (call_ip c) rl = Ret (b, rl') ∧ limiter_ok rl' ∧
    limit rl' = limit rl.
Proof.
  intros Hr Hip [H1 H2 H3 H4]. unfold allow.
  set (valid := in_window _ _ _). fold (dropped (call_ip c) valid (attempts rl)).
  set (m := dropped _ _ _).
  assert (Hsz : (size m <= size (attempts rl))%nat) by apply dropped_size.
  assert (Hlk : ∀ k ts, m !! k = Some ts → ts ≠ [] ∧ Z.of_nat (length ts) <= limit rl).
  { intros k ts Hk. unfold m, dropped in Hk. assert (Hv : (length valid <= length (default [] (attempts rl !! call_ip c)))%nat)
      by (unfold valid, in_window; apply filter_length_le).
    assert (Ho : Z.of_nat (length (default [] (attempts rl !! call_ip c))) <= limit rl ∨ valid = []).
    { destruct (attempts rl !! call_ip c) as [old|] eqn:E; [left; by apply (H4 _ _ E)|by right]. }
    destruct valid as [|t ts'].
    - apply lookup_delete_Some in Hk as [_ Hk]. eauto.
    - apply lookup_insert_Some in Hk as [[_ <-]|[_ Hk]]; [|eauto]. split; [done|].
      destruct Ho as [Ho|Ho]; [lia|done]. }
  assert (Hnull : m !! "" = None).
  { unfold m, dropped. destruct valid; [by rewrite lookup_delete_ne|by rewrite lookup_insert_ne]. }
  destruct (Z.leb_spec (limit rl) (Z.of_nat (length valid))) as [Hl|Hl].
  { do 2 eexists. split; [done|]. split; [|done]. split; simpl; [naive_solver|done|lia|naive_solver]. }
  assert (Hm : ∃ m', (if maxTrackedIPs <=? Z.of_nat (size m)
      then evictOldest (call_range c) (call_ip c) m else Ret m) = Ret m' ∧ m' ⊆ m ∧
      Z.of_nat (size m') + 1 <= maxTrackedIPs).
  { destruct (Z.leb_spec maxTrackedIPs (Z.of_nat (size m))) as [Hfull|]; [|exists m; split; [done|]; split; [done|lia]].
    destruct (evictOldest_spec c (call_ip c) m Hr) as (m' & He & Hsub & Hs); [naive_solver|done|].
    exists m'. unfold maxTrackedIPs in *. specialize (Hs ltac:(lia)). split; [done|]. split; [done|lia]. }
  destruct Hm as (m' & -> & Hsub & Hroom). simpl. do 2 eexists. split; [done|]. split; [|done].
  assert (Hsub' : ∀ k ts, m' !! k = Some ts → m !! k = Some ts) by (intros; by eapply lookup_weaken).
  split; simpl.
  - intros k ts [[_ <-]|[_ Hk]]%lookup_insert_Some; [|naive_solver].
    intros Hnil%app_eq_nil. by destruct Hnil.
  - rewrite lookup_insert_ne by done. destruct (m' !! "") eqn:E; [|done].
    apply Hsub' in E. congruence.
  - assert (Hi := map_size_fresh_le m' (call_ip c) (valid ++ [call_at c])). lia.
  - intros k ts [[_ <-]|[_ Hk]]%lookup_insert_Some; [rewrite length_app; simpl; lia|naive_solver].
Qed.

(** The limiter's memory is bounded.  From a new limiter, any requests at any times from
    non-empty addresses, ranging over the map in any order, run without a panic; at most
    [maxTrackedIPs] addresses are tracked and at most [limit] attempts of each. *)
Theorem limiter_bounded (cs : list call) (lim win : Z)
    (Hcs : Forall (λ c, ranges c ∧ call_ip c ≠ "") cs) :
  match run cs (newRateLimiter lim win) with
  | Ret (bs, rl) => length bs = length cs ∧ limiter_ok rl ∧ limit rl = lim
  | Panic => False
  end.
Proof.
  assert (H0 : limiter_ok (newRateLimiter lim win)) by (split; [done|done|done|done]).
  assert (Hl : limit (newRateLimiter lim win) = lim) by done. revert H0 Hl.
  generalize (newRateLimiter lim win) as rl.
  induction Hcs as [|c cs [Hr Hip] _ IH]; intros rl Hok Hl; simpl; [done|].
  destruct (allow_ok c rl Hr Hip Hok) as (b & rl' & -> & Hok' & Hl'). simpl.
  specialize (IH rl' Hok' ltac:(congruence)).
  destruct (run cs rl') as [[bs rl'']|]; [|done]. simpl. by destruct IH as [<- IH].
Qed.

(** ** The window *)

(** The limiter's attempts are the recent requests of the specification. *)
Definition agrees (last : Z) (hist : list (string * Z)) (rl : rateLimiter) : Prop :=
  ∀ t ip, last <= t →
    (recent (window rl) t ip hist).*2 = in_window (window rl) t (default [] (attempts rl !! ip)).

Definition addresses (cs : list call) : gset string := list_to_set (map call_ip cs).

Lemma recent_app (win now : Z) (ip : string) (h1 h2 : list (string * Z)) :
  recent win now ip (h1 ++ h2) = recent win now ip h1 ++ recent win now ip h2.
Proof. apply List.filter_app. Qed.

Lemma in_window_app (win now : Z) (h1 h2 : list Z) :
  in_window win now (h1 ++ h2) = in_window win now h1 ++ in_window win now h2.
Proof. apply List.filter_app. Qed.

Lemma allow_agrees (c : call) (last : Z) (hist : list (string * Z)) (rl : rateLimiter) (S : gset string) :
  agrees last hist rl → last <= call_at c → dom (attempts rl) ⊆ S → call_ip c ∈ S →
  Z.of_nat (size S) < maxTrackedIPs →
  let b := Z.of_nat (length (recent (window rl) (call_at c) (call_ip c) hist)) <? limit rl in
  ∃ rl', allow (call_range c) (call_at c) (call_ip c) rl = Ret (b, rl') ∧
    agrees (call_at c) (if b then hist ++ [(call_ip c, call_at c)] else hist) rl' ∧
    dom (attempts rl') ⊆ S ∧ limit rl' = limit rl ∧ window rl' = window rl.
Proof.
  intros Ha Hl HS Hip Hsz b. unfold allow. rewrite <- (Ha (call_at c) (call_ip c) Hl).
  set (valid := (recent _ _ _ hist).*2).
  assert (Hv : valid = in_window (window rl) (call_at c) (default [] (attempts rl !! call_ip c)))
    by by apply Ha.
  fold (dropped (call_ip c) valid (attempts rl)). set (m := dropped _ _ _).
  assert (Hd : dom m ⊆ S) by (unfold m, dropped; destruct valid; set_solver).
  assert (Hm : ∀ t ip, call_at c <= t → (recent (window rl) t ip hist).*2 =
                 in_window (window rl) t (default [] (m !! ip))).
  { intros t ip Ht. unfold m. rewrite dropped_lookup, (Ha t ip) by lia.
    case_decide as He; [|done]. subst ip. by rewrite Hv, in_window_in_window. }
  assert (Hlen : length valid = length (recent (window rl) (call_at c) (call_ip c) hist))
    by apply length_fmap.
  rewrite Hlen. unfold b. rewrite Z.ltb_antisym. destruct (limit rl <=? _); simpl.
  { eexists. split; [done|]. done. }
  assert (Hsub := subseteq_size _ _ Hd). rewrite size_dom in Hsub.
  destruct (Z.leb_spec maxTrackedIPs (Z.of_nat (size m))) as [|_]; [lia|]. simpl.
  eexists. split; [done|]. repeat split; simpl; [|set_solver].
  intros t ip Ht. simpl. rewrite recent_app, fmap_app, (Hm t ip Ht).
  destruct (decide (call_ip c = ip)) as [<-|Hne].
  - rewrite lookup_insert_eq. simpl. rewrite in_window_app. f_equal.
    + unfold m. by rewrite dropped_lookup, decide_True by done.
    + unfold recent, in_window. simpl. rewrite String.eqb_refl. simpl. by destruct (t - window rl <? call_at c).
  - rewrite lookup_insert_ne by done. unfold recent. simpl.
    destruct (String.eqb_spec (call_ip c) ip); [done|]. simpl. by rewrite app_nil_r.
Qed.

(** C19: The limiter implements a sliding window.  As long as fewer addresses than
    [maxTrackedIPs] have been seen and the clock does not go back, each request is allowed
    exactly when fewer than [limit] requests of its address were allowed in the [window] before
    it, whatever the other addresses do. *)
Theorem limiter_sliding_window (cs : list call) (lim win : Z)
    (Htimes : Sorted Z.le (map call_at cs))
    (Hfew : Z.of_nat (size (addresses cs)) < maxTrackedIPs) :
  match run cs (newRateLimiter lim win) with
  | Ret (bs, _) => bs = spec_run lim win [] cs
  | Panic => False
  end.
Proof.
  assert (H : ∀ cs' last hist rl, HdRel Z.le last (map call_at cs') → Sorted Z.le (map call_at cs') →
    agrees last hist rl → dom (attempts rl) ⊆ addresses cs →
    Forall (λ c, call_ip c ∈ addresses cs) cs' → match run cs' rl with
    | Ret (bs, _) => bs = spec_run (limit rl) (window rl) hist cs' | Panic => False end).
  { induction cs' as [|c cs' IH]; intros last hist rl Hhd Hs Ha Hd Hin; simpl; [done|].
    inversion Hhd as [|? ? Hlast]; subst. apply Sorted_inv in Hs as [Hs Hhd'].
    apply Forall_cons in Hin as [Hc Hin].
    destruct (allow_agrees c last hist rl _ Ha Hlast Hd Hc Hfew) as (rl' & -> & Ha' & Hd' & Hl & Hw).
    simpl. specialize (IH _ _ rl' Hhd' Hs Ha' Hd' Hin).
    destruct (run cs' rl') as [[bs rl'']|]; [|done]. simpl. subst bs. by rewrite Hl, Hw. }
  apply (H cs (hd 0 (map call_at cs))); [by destruct cs; constructor|done|done|set_solver|].
  apply Forall_forall. intros c Hc. unfold addresses. apply elem_of_list_to_set.
  apply list_elem_of_fmap. by exists c.
Qed.

(** ** Concrete histories *)

Definition at_time (t : Z) (ip : string) : call := MkCall t ip map_to_list.
Definition demo_calls : list call :=
  [at_time 1 "a"; at_time 2 "b"; at_time 5 "a"; at_time 9 "a"; at_time 11 "a"; at_time 12 "a"].

Lemma limiter_bounded_witness :
  match run demo_calls (newRateLimiter 2 10) with
  | Ret (bs, rl) => length bs = 6%nat ∧ limiter_ok rl
  | Panic => False
  end.
Proof.
  assert (Hc : Forall (λ c, ranges c ∧ call_ip c ≠ "") demo_calls)
    by (repeat (apply Forall_cons_2; [split; [intros m; reflexivity|discriminate]|]); apply Forall_nil_2).
  assert (H := limiter_bounded demo_calls 2 10 Hc).
  destruct (run demo_calls (newRateLimiter 2 10)) as [[bs rl]|]; [|done].
  by destruct H as (H1 & H2 & _).
Defined.

Lemma limiter_sliding_window_witness :
  match run demo_calls (newRateLimiter 2 10) with
  | Ret (bs, _) => bs = [true; true; true; false; true; false]
  | Panic => False
  end.
Proof.
  assert (Ht : Sorted Z.le (map call_at demo_calls)).
  { simpl. repeat first [apply Sorted_nil | apply Sorted_cons | apply HdRel_nil | apply HdRel_cons; lia]. }
  assert (H := limiter_sliding_window demo_calls 2 10 Ht ltac:(vm_compute; reflexivity)).
  destruct (run demo_calls (newRateLimiter 2 10)) as [[bs rl]|]; [|done].
  rewrite H. by vm_compute.
Defined.
