(* ===== verification/Db.v ===== *)
(** * The hub's database and the monad of its clients (hub/internal/migrate/migrations,
    hub/internal/store/store.go).

    A table is the list of its rows in rowid order, with the columns and constraints of the
    migrations; a SQL statement of the source is translated to a function on tables.  The engine
    itself is not modelled: every call of the driver may fail with any message, taken from the
    list [w_faults], the order of equal [ORDER BY] keys and the engine's messages are those of
    the environment [Env].  Statements are atomic; one that violates a constraint fails and
    changes nothing.  [w_fk] says whether the connection enforces foreign keys, a per-connection
    setting of SQLite. *)

From S2P Require Import Prelude GoStr GoTime Model Proto ConnMgr.
From S2P Require Chan Pending LogSessions TerminalSessions RateLimiter.

(** ** Code outside the repository *)

Record Claims := MkClaims {
  c_ID : string;
  c_Subject : string;
  c_IssuedAt : Z;
  c_ExpiresAt : Z;
  c_Role : string;
  c_TokenType : string;
  c_TokenGeneration : Z
}.

(** What the hub uses of its libraries.  Random values are indexed by the number of draws. *)
Class Env := {
  uuid : nat → string;                                (* google/uuid NewString *)
  sha256_hex : string → string;                       (* crypto/sha256, hex encoded *)
  rand_int : nat → Z → Z;                             (* crypto/rand Int *)
  rand_hex : nat → nat → result string;               (* crypto/rand Read, hex encoded *)
  bcrypt_hash : nat → string → result string;         (* bcrypt GenerateFromPassword *)
  bcrypt_match : string → string → bool;              (* bcrypt CompareHashAndPassword *)
  totp_validate : Z → string → string → bool;         (* totp.Validate: time, code, secret *)
  totp_generate : nat → string → string → result (string * string);
                                                      (* totp.Generate: issuer, account *)
  valid_ip : string → bool;                           (* net.ParseIP(s) != nil *)
  parse_sqlite : string → option Z;                   (* time.Parse("2006-01-02 15:04:05", s) *)
  check_csr : string → result string;                 (* ParseCertificateRequest, CheckSignature: its key *)
  create_certificate : nat → string → Z → Z → string → result string;
                                  (* CreateCertificate: subject CN, validity, key; the DER bytes *)
  address : nat → string;                             (* an allocated pointer, printed by %v *)
  unicode_upper : Z → bool;                           (* package unicode, above ASCII *)
  unicode_lower : Z → bool;
  unicode_digit : Z → bool;
  unicode_special : Z → bool;                         (* IsPunct or IsSymbol *)
  jwt_date : Z → Z;                                   (* jwt.NewNumericDate *)
  jwt_sign : string → Claims → result string;         (* jwt SignedString *)
  jwt_parse : Z → string → string → result Claims;    (* jwt ParseWithClaims *)
  sql_like : string → string → bool;                  (* the engine's LIKE: pattern, text *)
  syntax_error : string;                              (* the engine's message *)
  constraint_failed : string → string;                (* the engine's message *)
  order_by : ∀ {A : Type}, (A → A → bool) → list A → list A  (* rows in an order of the keys *)
}.

(** Documented behaviour of these libraries, used as named hypotheses. *)
Class UuidLaws (E : Env) := {
  uuid_inj : ∀ i j, uuid i = uuid j → i = j;
  uuid_nonempty : ∀ i, uuid i ≠ "";
  uuid_no_colon : ∀ i, no_byte ":" (uuid i) = true
}.
Class RandLaws (E : Env) := {
  rand_int_range : ∀ i m, 0 < m → 0 <= rand_int i m < m
}.
(** A signed token parses to its claims until it expires; dates are whole seconds. *)
Class JwtLaws (E : Env) := {
  jwt_date_whole : ∀ t, jwt_date t = t / NS * NS;
  jwt_roundtrip : ∀ now secret c token,
    jwt_date (c_IssuedAt c) = c_IssuedAt c → jwt_date (c_ExpiresAt c) = c_ExpiresAt c →
    jwt_sign secret c = Ok token →
    if now <? c_ExpiresAt c then jwt_parse now secret token = Ok c
    else is_ok (jwt_parse now secret token) = false
}.
Class OrderLaws (E : Env) := {
  order_by_perm : ∀ A (le : A → A → bool) (l : list A), order_by le l ≡ₚ l;
  order_by_sorted : ∀ A (le : A → A → bool) (l : list A),
    (∀ x y, le x y = true ∨ le y x = true) → (∀ x y z, le x y → le y z → le x z) →
    StronglySorted (λ x y, le x y = true) (order_by le l)
}.

(** ** Rows that have no type of their own in hub/internal/model *)

Record PermissionRow := MkPermissionRow {
  pr_id : string; pr_user_id : string; pr_server_id : string; pr_path : string; pr_created_at : Z }.
Record HistoryRow := MkHistoryRow {
  hr_id : string; hr_user_id : string; hr_password_hash : string; hr_created_at : Z }.
Record NotificationLogRow := MkNotificationLogRow {
  nl_id : string; nl_user_id : string; nl_event_type : string; nl_subject : string;
  nl_status : string; nl_error : option string; nl_created_at : Z }.
Record SavedFilterRow := MkSavedFilterRow {
  fr_id : string; fr_name : string; fr_created_by : string; fr_filters_json : string;
  fr_created_at : Z; fr_updated_at : Z }.
Record ReviewRow := MkReviewRow {
  rr_id : string; rr_reviewer_id : string; rr_filters_json : string; rr_notes : string;
  rr_from : option string; rr_to : option string; rr_completed_at : Z; rr_created_at : Z }.
Record FlagRow := MkFlagRow {
  fl_id : string; fl_entry_id : option string; fl_created_by : string; fl_filters_json : string;
  fl_note : string; fl_created_at : Z }.

Record Db := MkDb {
  d_users : list User;
  d_servers : list Server;
  d_permissions : list PermissionRow;
  d_audit_logs : list AuditEntry;
  d_config : gmap string string;
  d_api_tokens : list APIToken;
  d_password_history : list HistoryRow;
  d_notification_preferences : gmap (string * string) bool;
  d_notification_log : list NotificationLogRow;
  d_saved_filters : list SavedFilterRow;
  d_reviews : list ReviewRow;
  d_flags : list FlagRow;
  d_token_blacklist : gmap string Z;
  d_migrations : option (list string)   (* the table _migrations, once it exists *)
}.
#[export] Instance eta_Db : Eta Db := λ r, MkDb (d_users r) (d_servers r) (d_permissions r)
  (d_audit_logs r) (d_config r) (d_api_tokens r) (d_password_history r)
  (d_notification_preferences r) (d_notification_log r) (d_saved_filters r) (d_reviews r)
  (d_flags r) (d_token_blacklist r) (d_migrations r).

Definition empty_db : Db := MkDb [] [] [] [] ∅ [] [] ∅ [] [] [] [] ∅ None.

(** ** Constraints of the migrations *)

Definition distinct {A B : Type} `{EqDecision B} (key : A → option B) (l : list A) : bool :=
  bool_decide (NoDup (omap key l)).

Definition known_user (d : Db) (id : string) : bool :=
  existsb (λ u, String.eqb (u_ID u) id) (d_users d).
Definition known_server (d : Db) (id : string) : bool :=
  existsb (λ s, String.eqb (s_ID s) id) (d_servers d).
Definition opt_all (p : string → bool) (o : option string) : bool :=
  match o with Some s => p s | None => true end.

Definition unique_constraints (d : Db) : list (string * bool) :=
  [ ("users.id", distinct (λ u, Some (u_ID u)) (d_users d));
    ("users.username", distinct (λ u, Some (u_Username u)) (d_users d));
    ("users.email", distinct (λ u, Some (u_Email u)) (d_users d));
    ("users.auth_provider, users.external_id",
      distinct (λ u, if String.eqb (u_ExternalID u) "" then None
                     else Some (u_AuthProvider u, u_ExternalID u)) (d_users d));
    ("role", forallb (λ u, IsValidRole (u_Role u)) (d_users d));
    ("servers.id", distinct (λ s, Some (s_ID s)) (d_servers d));
    ("servers.name", distinct (λ s, Some (s_Name s)) (d_servers d));
    ("servers.registration_token", distinct s_RegistrationToken (d_servers d));
    ("status", forallb (λ s, existsb (String.eqb (s_Status s)) ["pending"; "online"; "offline"])
                 (d_servers d));
    ("permissions.id", distinct (λ p, Some (pr_id p)) (d_permissions d));
    ("permissions.user_id, permissions.server_id, permissions.path",
      distinct (λ p, Some (pr_user_id p, pr_server_id p, pr_path p)) (d_permissions d));
    ("audit_logs.id", distinct (λ e, Some (ae_ID e)) (d_audit_logs d));
    ("api_tokens.id", distinct (λ t, Some (tk_ID t)) (d_api_tokens d));
    ("api_tokens.token_hash", distinct (λ t, Some (tk_TokenHash t)) (d_api_tokens d));
    ("password_history.id", distinct (λ h, Some (hr_id h)) (d_password_history d));
    ("notification_log.id", distinct (λ n, Some (nl_id n)) (d_notification_log d));
    ("status", forallb (λ n, existsb (String.eqb (nl_status n)) ["sent"; "failed"])
                 (d_notification_log d));
    ("audit_saved_filters.id", distinct (λ f, Some (fr_id f)) (d_saved_filters d));
    ("audit_reviews.id", distinct (λ r, Some (rr_id r)) (d_reviews d));
    ("audit_flags.id", distinct (λ f, Some (fl_id f)) (d_flags d)) ].

(** The foreign keys that refer to a user, and the one that refers to a server. *)
Definition user_refs (d : Db) : list string :=
  map pr_user_id (d_permissions d) ++ omap ae_UserID (d_audit_logs d) ++
  map tk_UserID (d_api_tokens d) ++ map hr_user_id (d_password_history d) ++
  (map_to_list (d_notification_preferences d)).*1.*1 ++ map nl_user_id (d_notification_log d) ++
  map fr_created_by (d_saved_filters d) ++ map rr_reviewer_id (d_reviews d) ++
  map fl_created_by (d_flags d).

Definition fk_constraints (d : Db) : list (string * bool) :=
  [ ("FOREIGN KEY users", forallb (known_user d) (user_refs d));
    ("FOREIGN KEY servers", forallb (known_server d) (map pr_server_id (d_permissions d)));
    ("FOREIGN KEY audit_logs", forallb (λ f, opt_all
        (λ id, existsb (λ e, String.eqb (ae_ID e) id) (d_audit_logs d)) (fl_entry_id f))
        (d_flags d)) ].

Definition violated (cs : list (string * bool)) : option string :=
  fst <$> List.find (λ c, negb c.2) cs.

Definition db_violation (fk : bool) (d : Db) : option string :=
  violated (unique_constraints d ++ if fk then fk_constraints d else []).

(** [id] is the key of a row that [p] selects. *)
Definition gone {A : Type} (key : A → string) (p : A → bool) (l : list A) (id : string) : bool :=
  existsb (λ r, String.eqb (key r) id && p r) l.

(** [DELETE FROM users / servers / audit_logs] with the actions of the foreign keys. *)
Definition delete_users (fk : bool) (p : User → bool) (d : Db) : Db :=
  let gone := gone u_ID p (d_users d) in
  let d' := d <| d_users := List.filter (λ u, negb (p u)) (d_users d) |> in
  if negb fk then d' else
  d' <| d_permissions := List.filter (λ r, negb (gone (pr_user_id r))) (d_permissions d) |>
     <| d_audit_logs := map (λ e, match ae_UserID e with
                                  | Some u => if gone u then e <| ae_UserID := None |> else e
                                  | None => e
                                  end) (d_audit_logs d) |>
     <| d_api_tokens := List.filter (λ t, negb (gone (tk_UserID t))) (d_api_tokens d) |>
     <| d_password_history := List.filter (λ h, negb (gone (hr_user_id h))) (d_password_history d) |>
     <| d_notification_preferences :=
          filter (λ kv, gone kv.1.1 = false) (d_notification_preferences d) |>
     <| d_notification_log := List.filter (λ n, negb (gone (nl_user_id n))) (d_notification_log d) |>
     <| d_saved_filters := List.filter (λ f, negb (gone (fr_created_by f))) (d_saved_filters d) |>
     <| d_reviews := List.filter (λ r, negb (gone (rr_reviewer_id r))) (d_reviews d) |>
     <| d_flags := List.filter (λ f, negb (gone (fl_created_by f))) (d_flags d) |>.

Definition delete_servers (fk : bool) (p : Server → bool) (d : Db) : Db :=
  let gone := gone s_ID p (d_servers d) in
  let d' := d <| d_servers := List.filter (λ s, negb (p s)) (d_servers d) |> in
  if negb fk then d' else
  d' <| d_permissions := List.filter (λ r, negb (gone (pr_server_id r))) (d_permissions d) |>.

Definition delete_audit_logs (fk : bool) (p : AuditEntry → bool) (d : Db) : Db :=
  let gone := gone ae_ID p (d_audit_logs d) in
  let d' := d <| d_audit_logs := List.filter (λ e, negb (p e)) (d_audit_logs d) |> in
  if negb fk then d' else
  d' <| d_flags := map (λ f, match fl_entry_id f with
                             | Some id => if gone id
                                 then MkFlagRow (fl_id f) None (fl_created_by f)
                                        (fl_filters_json f) (fl_note f) (fl_created_at f)
                                 else f
                             | None => f
                             end) (d_flags d) |>.

(** Rows an [UPDATE ... WHERE] or a [DELETE ... WHERE] affects. *)
Definition count_rows {A : Type} (p : A → bool) (l : list A) : Z := Z.of_nat (length (List.filter p l)).
Definition update_rows {A : Type} (p : A → bool) (f : A → A) (l : list A) : list A :=
  map (λ r, if p r then f r else r) l.

(** ** The world of the store's clients *)

(** A timer of [expireUnattachedTerminalSession] and the variables of its function. *)
Record Expiry := MkExpiry {
  ex_due : Z; ex_serverID : string; ex_sessionID : string;
  ex_userID : string; ex_ip : string; ex_correlationID : string
}.

Record World := MkWorld {
  w_db : Db;
  w_now : Z;                            (* time.Now(), in nanoseconds *)
  w_draws : nat;                        (* random values drawn so far *)
  w_faults : list (option string);      (* answers of the driver to the next calls *)
  w_fk : bool;                          (* PRAGMA foreign_keys of the connection *)
  w_auditDegraded : bool;               (* Store.auditDegraded *)
  w_observers : bool * bool;            (* onAuditFailure, onAuditRecovery are set *)
  w_observed : list (bool * AuditHealth); (* calls of onAuditFailure (true) and onAuditRecovery *)
  w_blacklist : gmap string Z;          (* TokenBlacklist.entries: jti, expiry *)
  w_totp : gmap string Z;               (* TOTPUsedCodes.codes *)
  w_conns : ConnManager;                (* connmgr *)
  w_lastWritten : gmap string Z;        (* HeartbeatCoalescer.lastWritten *)
  w_sent : list (nat * HubMessage);     (* messages sent on the agents' streams *)
  w_notified : list (string * list (string * string)); (* calls of Notifier.Notify *)
  w_pending : Pending.PendingRequests Response;
  w_logs : LogSessions.LogSessions;
  w_terminals : TerminalSessions.TerminalSessions;
  w_logTail : gmap string Z;           (* Server.logTailSessions *)
  w_timers : list Expiry;              (* pending [time.AfterFunc] of terminal sessions *)
  w_limiters : gmap string RateLimiter.rateLimiter; (* the limiters of routes(), by name *)
  w_header : gmap string string        (* w.Header() of the response being written *)
}.
#[export] Instance eta_World : Eta World := λ r, MkWorld (w_db r) (w_now r) (w_draws r)
  (w_faults r) (w_fk r) (w_auditDegraded r) (w_observers r) (w_observed r)
  (w_blacklist r) (w_totp r) (w_conns r) (w_lastWritten r) (w_sent r) (w_notified r) (w_pending r)
  (w_logs r) (w_terminals r) (w_logTail r) (w_timers r) (w_limiters r) (w_header r).

(** [t.UTC().Format(sqliteTimeFormat)], read back: whole seconds. *)
Definition sqlite_time (t : Z) : Z := t / NS * NS.
Definition sqliteTimePtr (t : option Z) : option Z := sqlite_time <$> t.

(** ** The monad: state, and errors as values *)

Definition M (A : Type) : Type := World → result A * World.

Definition ret {A : Type} (a : A) : M A := λ w, (Ok a, w).
Definition fail {A : Type} (e : string) : M A := λ w, (Err e, w).
Definition bind {A B : Type} (m : M A) (k : A → M B) : M B := λ w,
  match m w with
  | (Ok a, w') => k a w'
  | (Err e, w') => (Err e, w')
  end.
Notation "'let*' x ':=' m 'in' k" := (bind m (λ x, k))
  (at level 10, x pattern, m at level 100, k at level 200) : veyport_scope.

(** The [(value, err)] pair of a call, for code that looks at [err] itself. *)
Definition try {A : Type} (m : M A) : M (result A) := λ w, let '(r, w') := m w in (Ok r, w').
(** [_ = m] *)
Definition ignore {A : Type} (m : M A) : M unit := λ w, let '(_, w') := m w in (Ok tt, w').
(** [fmt.Errorf("...: %w", err)] *)
Definition wrap {A : Type} (prefix : string) (m : M A) : M A := λ w,
  match m w with
  | (Err e, w') => (Err (prefix +:+ ": " +:+ e), w')
  | r => r
  end.

Definition get_now : M Z := λ w, (Ok (w_now w), w).
Definition draw {A : Type} (f : nat → A) : M A := λ w,
  (Ok (f (w_draws w)), w <| w_draws ::= S |>).
Definition NewString `{Env} : M string := draw uuid.

(** One call of the driver: it fails when the next fault says so. *)
Definition driver : M unit := λ w,
  match w_faults w with
  | Some e :: fs => (Err e, w <| w_faults := fs |>)
  | None :: fs => (Ok tt, w <| w_faults := fs |>)
  | [] => (Ok tt, w)
  end.

(** [db.Exec]: [f] gives the rows affected and the new tables. *)
Definition exec `{Env} (f : World → Z * Db) : M Z :=
  let* _ := driver in λ w,
    match db_violation (w_fk w) (f w).2 with
    | Some c => (Err (constraint_failed c), w)
    | None => (Ok (f w).1, w <| w_db := (f w).2 |>)
    end.

(** [result.RowsAffected()] *)
Definition RowsAffected (n : Z) : M Z := let* _ := driver in ret n.

(** [db.QueryRow(...).Scan]: [None] is [sql.ErrNoRows]. *)
Definition query_row {A : Type} (f : World → option A) : M (option A) :=
  let* _ := driver in λ w, (Ok (f w), w).

(** [rows.Next(); rows.Scan] for every row, then [rows.Err()]. *)
Fixpoint scan_rows {A : Type} (scan_err end_err : M unit → M unit) (l : list A) : M (list A) :=
  match l with
  | [] => let* _ := end_err driver in ret []
  | r :: l' =>
      let* _ := scan_err driver in
      let* rs := scan_rows scan_err end_err l' in
      ret (r :: rs)
  end.

(** An error returned as it is. *)
Definition plain {A : Type} (m : M A) : M A := m.

(** [db.Query] and the loop over its rows; the arguments wrap the three errors. *)
Definition query {A : Type} (query_err scan_err end_err : M unit → M unit) (f : World → list A)
  : M (list A) :=
  let* _ := query_err driver in λ w, scan_rows scan_err end_err (f w) w.

(** [BEGIN; body; COMMIT], with the deferred rollback: an error of the body or of the commit
    leaves the tables as they were. *)
Definition transaction {A : Type} (begin_err : M unit → M unit) (commit_err : M unit → M unit)
    (body : M A) : M A :=
  let* _ := begin_err driver in λ w,
    match body w with
    | (Err e, w') => (Err e, w' <| w_db := w_db w |>)
    | (Ok a, w') =>
        match commit_err driver w' with
        | (Err e, w'') => (Err e, w'' <| w_db := w_db w |>)
        | (Ok _, w'') => (Ok a, w'')
        end
    end.

(** No call of the driver fails. *)
Definition no_faults (w : World) : Prop := w_faults w = [].

(** ** Reasoning about clients of the driver *)

(** The wrappers of errors leave a success alone. *)
Definition wrapper (e : M unit → M unit) : Prop := e = plain ∨ ∃ s, e = wrap s.

Lemma wrapper_plain : wrapper plain.
Proof. by left. Qed.

Lemma wrapper_wrap (s : string) : wrapper (wrap s).
Proof. right. by exists s. Qed.
#[export] Hint Resolve wrapper_plain wrapper_wrap : veyport.

(** [wp m Q w]: the result and the world that [m] leaves from [w] satisfy [Q]. *)
Definition wp {A : Type} (m : M A) (Q : result A → World → Prop) (w : World) : Prop :=
  Q (m w).1 (m w).2.

Section wp_rules.
Context `{E : Env}.
Implicit Types (w : World).

Lemma wp_ret {A : Type} (a : A) (Q : result A → World → Prop) w : Q (Ok a) w → wp (ret a) Q w.
Proof. done. Qed.

Lemma wp_fail {A : Type} (e : string) (Q : result A → World → Prop) w : Q (Err e) w → wp (fail e) Q w.
Proof. done. Qed.

Lemma wp_NewString (Q : result string → World → Prop) w :
  Q (Ok (uuid (w_draws w))) (w <| w_draws ::= S |>) → wp NewString Q w.
Proof. done. Qed.

Lemma wp_get_now (Q : result Z → World → Prop) w : Q (Ok (w_now w)) w → wp get_now Q w.
Proof. done. Qed.

Lemma wp_mono {A : Type} (m : M A) (Q Q' : result A → World → Prop) w :
  wp m Q w → (∀ r w', Q r w' → Q' r w') → wp m Q' w.
Proof. unfold wp. auto. Qed.

Lemma wp_bind {A B : Type} (m : M B) (k : B → M A) (Q : result A → World → Prop) w :
  wp m (λ r w', match r with Ok b => wp (k b) Q w' | Err e => Q (Err e) w' end) w →
  wp (bind m k) Q w.
Proof. unfold wp, bind. by destruct (m w) as [[b|e] w']. Qed.

Lemma wp_wrap {A : Type} (p : string) (m : M A) (Q : result A → World → Prop) w :
  wp m (λ r w', Q (match r with Ok a => Ok a | Err e => Err (p +:+ ": " +:+ e) end) w') w →
  wp (wrap p m) Q w.
Proof. unfold wp, wrap. by destruct (m w) as [[b|e] w']. Qed.

Lemma wp_try {A : Type} (m : M A) (Q : result (result A) → World → Prop) w :
  wp m (λ r w', Q (Ok r) w') w → wp (try m) Q w.
Proof. unfold wp, try. by destruct (m w). Qed.

Lemma wp_ignore {A : Type} (m : M A) (Q : result unit → World → Prop) w :
  wp m (λ _ w', Q (Ok tt) w') w → wp (ignore m) Q w.
Proof. unfold wp, ignore. by destruct (m w). Qed.

Lemma wp_driver (Q : result unit → World → Prop) w :
  (∀ fs, Q (Ok tt) (w <| w_faults := fs |>)) →
  (∀ e fs, Q (Err e) (w <| w_faults := fs |>)) → wp driver Q w.
Proof.
  intros H1 H2. unfold wp, driver. destruct (w_faults w) as [|[e|] fs] eqn:Hf; simpl.
  - replace w with (w <| w_faults := [] |>); [apply H1|]. destruct w. simpl in *. by subst.
  - apply H2.
  - apply H1.
Qed.

(** A statement either changes nothing but the faults left, or installs its tables, which satisfy
    the constraints. *)
Lemma wp_exec (f : World → Z * Db) (Q : result Z → World → Prop) w :
  (∀ e fs, Q (Err e) (w <| w_faults := fs |>)) →
  (∀ fs, db_violation (w_fk w) (f (w <| w_faults := fs |>)).2 = None →
     Q (Ok (f (w <| w_faults := fs |>)).1)
       (w <| w_faults := fs |> <| w_db := (f (w <| w_faults := fs |>)).2 |>)) →
  wp (exec f) Q w.
Proof.
  intros H1 H2. unfold exec. apply wp_bind, wp_driver; [|done].
  intros fs. unfold wp. specialize (H2 fs). simpl in *.
  destruct (db_violation (w_fk w) _); simpl; [apply H1|by apply H2].
Qed.

Lemma wp_query_row {A : Type} (f : World → option A) (Q : result (option A) → World → Prop) w :
  (∀ e fs, Q (Err e) (w <| w_faults := fs |>)) →
  (∀ fs, Q (Ok (f (w <| w_faults := fs |>))) (w <| w_faults := fs |>)) →
  wp (query_row f) Q w.
Proof. intros H1 H2. apply wp_bind, wp_driver; [apply H2|done]. Qed.

Lemma wp_RowsAffected (n : Z) (Q : result Z → World → Prop) w :
  (∀ e fs, Q (Err e) (w <| w_faults := fs |>)) →
  (∀ fs, Q (Ok n) (w <| w_faults := fs |>)) → wp (RowsAffected n) Q w.
Proof. intros H1 H2. apply wp_bind, wp_driver; [apply H2|done]. Qed.

Lemma wp_wrapped (e : M unit → M unit) (Q : result unit → World → Prop) (w : World) :
  wrapper e → (∀ fs, Q (Ok tt) (w <| w_faults := fs |>)) →
  (∀ s fs, Q (Err s) (w <| w_faults := fs |>)) → wp (e driver) Q w.
Proof. intros [-> | [s ->]] Ha Hb; [by apply wp_driver|]. by apply wp_wrap, wp_driver. Qed.

(** A transaction that fails leaves the tables it started from. *)
Lemma wp_transaction {A : Type} (be ce : M unit → M unit) (body : M A)
    (Q : result A → World → Prop) (w : World) :
  wrapper be → wrapper ce →
  (∀ e fs, Q (Err e) (w <| w_faults := fs |>)) →
  (∀ fs, wp body (λ r w', match r with
     | Err e => Q (Err e) (w' <| w_db := w_db w |>)
     | Ok a => (∀ e fs', Q (Err e) (w' <| w_faults := fs' |> <| w_db := w_db w |>)) ∧
               ∀ fs', Q (Ok a) (w' <| w_faults := fs' |>)
     end) (w <| w_faults := fs |>)) →
  wp (transaction be ce body) Q w.
Proof.
  intros Hb Hc H1 H2. unfold transaction. apply wp_bind, wp_wrapped; [done| |apply H1].
  intros fs. specialize (H2 fs). unfold wp in *. simpl in *.
  destruct (body _) as [[a|e] w'] eqn:Hbody; simpl in *; [|done].
  destruct H2 as [H2 H3].
  assert (Hw : wp (ce driver) (λ r w'', match r with
    | Ok _ => Q (Ok a) w''
    | Err e => Q (Err e) (w'' <| w_db := w_db w |>) end) w') by by apply wp_wrapped.
  unfold wp in Hw. by destruct (ce driver w') as [[]].
Qed.

End wp_rules.

Lemma wp_scan_rows {A : Type} (se ee : M unit → M unit) (l : list A)
    (Q : result (list A) → World → Prop) (w : World) :
  wrapper se → wrapper ee → (∀ e fs, Q (Err e) (w <| w_faults := fs |>)) →
  (∀ fs, Q (Ok l) (w <| w_faults := fs |>)) → wp (scan_rows se ee l) Q w.
Proof.
  intros Hs He. revert Q w. induction l as [|r l IH]; intros Q w H1 H2; simpl.
  - apply wp_bind, wp_wrapped; [done|intros fs; apply wp_ret, H2|apply H1].
  - apply wp_bind, wp_wrapped; [done| |apply H1]. intros fs.
    apply wp_bind, IH; [intros; apply H1|]. intros fs'. apply wp_ret, H2.
Qed.

(** A query returns its rows or an error, and consumes faults. *)
Lemma wp_query {A : Type} (qe se ee : M unit → M unit) (f : World → list A)
    (Q : result (list A) → World → Prop) (w : World) :
  wrapper qe → wrapper se → wrapper ee →
  (∀ e fs, Q (Err e) (w <| w_faults := fs |>)) →
  (∀ fs fs', Q (Ok (f (w <| w_faults := fs |>))) (w <| w_faults := fs' |>)) →
  wp (query qe se ee f) Q w.
Proof.
  intros Hq Hs He H1 H2. unfold query. apply wp_bind, wp_wrapped; [done| |done].
  intros fs. unfold wp. simpl.
  change (wp (scan_rows se ee (f (w <| w_faults := fs |>))) Q (w <| w_faults := fs |>)).
  apply wp_scan_rows; [done|done|intros; apply H1|]. intros fs'. apply (H2 fs fs').
Qed.

(** Symbolic execution of a client up to its statements. *)
Ltac wp_step :=
  let err := fresh "err" in let faults := fresh "faults" in let faults' := fresh "faults'" in
  let Hok := fresh "Hok" in
  lazymatch goal with
  | |- wp (ret _) _ _ => apply wp_ret
  | |- wp (fail _) _ _ => apply wp_fail
  | |- wp NewString _ _ => apply wp_NewString
  | |- wp get_now _ _ => apply wp_get_now
  | |- wp (bind _ _) _ _ => apply wp_bind
  | |- wp (wrap _ _) _ _ => apply wp_wrap
  | |- wp (try _) _ _ => apply wp_try
  | |- wp (ignore _) _ _ => apply wp_ignore
  | |- wp (exec _) _ _ => apply wp_exec; [intros err faults|intros faults Hok]
  | |- wp (query_row _) _ _ => apply wp_query_row; [intros err faults|intros faults]
  | |- wp (query _ _ _ _) _ _ =>
      apply wp_query;
        [auto with veyport|auto with veyport|auto with veyport|intros err faults|intros faults faults']
  | |- wp (RowsAffected _) _ _ => apply wp_RowsAffected; [intros err faults|intros faults]
  | |- wp (transaction _ _ _) _ _ =>
      apply wp_transaction; [auto with veyport|auto with veyport|intros err faults|intros faults]
  | |- wp driver _ _ => apply wp_driver; [intros faults|intros err faults]
  end.

(** ** Without faults *)

Lemma driver_ok (w : World) : no_faults w → driver w = (Ok tt, w).
Proof. unfold no_faults, driver. by intros ->. Qed.

Lemma exec_ok `{Env} (f : World → Z * Db) (w : World) :
  no_faults w → db_violation (w_fk w) (f w).2 = None →
  exec f w = (Ok (f w).1, w <| w_db := (f w).2 |>).
Proof.
  intros Hw Hv. unfold exec, bind. rewrite driver_ok by done.
  by rewrite Hv.
Qed.

Lemma query_row_ok {A : Type} (f : World → option A) (w : World) :
  no_faults w → query_row f w = (Ok (f w), w).
Proof. intros Hw. unfold query_row, bind. by rewrite driver_ok. Qed.

Lemma wrapper_ok (e : M unit → M unit) (w : World) :
  wrapper e → no_faults w → e driver w = (Ok tt, w).
Proof. intros [-> | [s ->]] Hw; unfold plain, wrap; by rewrite driver_ok. Qed.

Lemma scan_rows_ok {A : Type} (se ee : M unit → M unit) (l : list A) (w : World) :
  wrapper se → wrapper ee → no_faults w → scan_rows se ee l w = (Ok l, w).
Proof.
  intros Hs He Hw. induction l as [|r l IH]; simpl; unfold bind.
  - by rewrite wrapper_ok.
  - by rewrite wrapper_ok, IH.
Qed.

Lemma query_ok {A : Type} (qe se ee : M unit → M unit) (f : World → list A) (w : World) :
  wrapper qe → wrapper se → wrapper ee → no_faults w → query qe se ee f w = (Ok (f w), w).
Proof. intros Hq Hs He Hw. unfold query, bind. rewrite wrapper_ok by done. by apply scan_rows_ok. Qed.

(** ** Constraints as an invariant *)

Lemma db_violation_None_unique (fk : bool) (d : Db) :
  db_violation fk d = None → Forall (λ c, c.2 = true) (unique_constraints d).
Proof.
  unfold db_violation, violated. rewrite fmap_None. intros Hf. apply Forall_forall.
  intros c Hc. assert (Hn := List.find_none _ _ Hf c).
  rewrite in_app_iff, <- !list_elem_of_In in Hn. specialize (Hn (or_introl Hc)).
  by apply negb_false_iff in Hn.
Qed.

Lemma omap_total {A B : Type} (f : A → B) (l : list A) : omap (λ x, Some (f x)) l = map f l.
Proof. induction l as [|x l IH]; [done|]. cbn. by f_equal. Qed.

Lemma users_id_NoDup (fk : bool) (d : Db) :
  db_violation fk d = None → NoDup (map u_ID (d_users d)).
Proof.
  intros H%db_violation_None_unique. apply Forall_cons in H as [H _]. simpl in H.
  unfold distinct in H. apply bool_decide_eq_true in H. by rewrite omap_total in H.
Qed.

(** [ORDER BY key ASC / DESC] on a time column. *)
Definition asc {A : Type} (key : A → Z) (x y : A) : bool := key x <=? key y.
Definition desc {A : Type} (key : A → Z) (x y : A) : bool := key y <=? key x.

(** The page a query with optional [LIMIT] and [OFFSET] clauses returns.  SQLite has no [OFFSET]
    without [LIMIT]: such a query does not parse. *)
Definition page {A : Type} (limit offset : Z) (l : list A) : list A :=
  let l := if 0 <? offset then drop (Z.to_nat offset) l else l in
  if 0 <? limit then take (Z.to_nat limit) l else l.
Definition page_ok (limit offset : Z) : bool := (0 <? limit) || negb (0 <? offset).

(** [LIMIT n]: a negative one is none. *)
Definition sql_limit {A : Type} (n : Z) (l : list A) : list A :=
  if n <? 0 then l else take (Z.to_nat n) l.

(** A row is found by its key. *)
Lemma find_by_key {A : Type} (key : A → string) (l : list A) (x : A) :
  NoDup (map key l) → x ∈ l → List.find (λ y, String.eqb (key y) (key x)) l = Some x.
Proof.
  induction l as [|y l IH]; intros Hnd Hx; [by inversion Hx|]. simpl in *.
  apply NoDup_cons in Hnd as [Hy Hnd]. apply elem_of_cons in Hx as [->|Hx].
  - by rewrite String.eqb_refl.
  - destruct (String.eqb_spec (key y) (key x)) as [He|He]; [|by apply IH].
    exfalso. apply Hy. rewrite He. apply list_elem_of_In, in_map. by apply list_elem_of_In.
Qed.

Lemma find_update_rows {A : Type} (p : A → bool) (f : A → A) (l : list A) :
  (∀ x, p (f x) = p x) → List.find p (update_rows p f l) = f <$> List.find p l.
Proof.
  intros Hp. induction l as [|x l IH]; simpl; [done|].
  destruct (p x) eqn:E; simpl; [by rewrite Hp, E|by rewrite E].
Qed.

Lemma update_rows_other {A : Type} (p : A → bool) (f : A → A) (l : list A) (x : A) :
  x ∈ l → p x = false → x ∈ update_rows p f l.
Proof.
  intros Hx Hp. apply list_elem_of_In, in_map_iff. exists x. rewrite Hp.
  split; [done|]. by apply list_elem_of_In.
Qed.

Lemma elem_of_find {A : Type} (p : A → bool) (l : list A) (x : A) :
  List.find p l = Some x → x ∈ l ∧ p x = true.
Proof. intros H%find_some. by rewrite list_elem_of_In. Qed.

(** ** What a client does not change

    [frame f m]: running [m] leaves [f] of the world as it was.  The store touches the tables, the
    faults, the random draws and the health of the audit pipeline.  [Beyond f] says that [f] looks
    at no more of that than the tables, [Outside f] that it does not look at the tables either;
    [tables t] is a part of the tables. *)
Definition frame {X A : Type} (f : World → X) (m : M A) : Prop := ∀ w, f (m w).2 = f w.

Class Beyond {X : Type} (f : World → X) := {
  out_faults : ∀ w fs, f (w <| w_faults := fs |>) = f w;
  out_draws : ∀ w n, f (w <| w_draws := n |>) = f w;
  out_degraded : ∀ w b, f (w <| w_auditDegraded := b |>) = f w;
  out_observed : ∀ w l, f (w <| w_observed := l |>) = f w;
  out_restore : ∀ w w', f w' = f w → f (w' <| w_db := w_db w |>) = f w
}.
Class Outside {X : Type} (f : World → X) := {
  out_beyond :: Beyond f;
  out_db : ∀ w d, f (w <| w_db := d |>) = f w
}.
#[export] Instance outside_conns : Outside w_conns. Proof. by repeat split. Qed.
#[export] Instance outside_lastWritten : Outside w_lastWritten. Proof. by repeat split. Qed.
#[export] Instance outside_sent : Outside w_sent. Proof. by repeat split. Qed.
#[export] Instance outside_terminals : Outside w_terminals. Proof. by repeat split. Qed.
#[export] Instance outside_pending : Outside w_pending. Proof. by repeat split. Qed.
#[export] Instance outside_logs : Outside w_logs. Proof. by repeat split. Qed.
#[export] Instance outside_logTail : Outside w_logTail. Proof. by repeat split. Qed.
#[export] Instance outside_timers : Outside w_timers. Proof. by repeat split. Qed.
#[export] Instance outside_now : Outside w_now. Proof. by repeat split. Qed.
#[export] Instance outside_blacklist : Outside w_blacklist. Proof. by repeat split. Qed.
#[export] Instance outside_totp : Outside w_totp. Proof. by repeat split. Qed.

Definition tables {X : Type} (t : Db → X) : World → X := λ w, t (w_db w).
#[export] Instance beyond_tables {X : Type} (t : Db → X) : Beyond (tables t). Proof. by split. Qed.

Section frames.
Context {X : Type} (f : World → X) `{!Beyond f}.

Lemma frame_ret {A : Type} (a : A) : frame f (ret a).
Proof. done. Qed.
Lemma frame_fail {A : Type} (e : string) : frame f (@fail A e).
Proof. done. Qed.
Lemma frame_bind {A B : Type} (m : M A) (k : A → M B) :
  frame f m → (∀ a, frame f (k a)) → frame f (bind m k).
Proof.
  intros Hm Hk w. unfold bind. specialize (Hm w). destruct (m w) as [[a|e] w']; simpl in *; [|done].
  by rewrite Hk.
Qed.
Lemma frame_wrap {A : Type} (p : string) (m : M A) : frame f m → frame f (wrap p m).
Proof. intros Hm w. unfold wrap. specialize (Hm w). by destruct (m w) as [[a|e] w']. Qed.
Lemma frame_try {A : Type} (m : M A) : frame f m → frame f (try m).
Proof. intros Hm w. unfold try. specialize (Hm w). by destruct (m w). Qed.
Lemma frame_ignore {A : Type} (m : M A) : frame f m → frame f (ignore m).
Proof. intros Hm w. unfold ignore. specialize (Hm w). by destruct (m w). Qed.
Lemma frame_draw {A : Type} (g : nat → A) : frame f (draw g).
Proof. intros w. apply out_draws. Qed.
Lemma frame_get_now : frame f get_now.
Proof. done. Qed.
Lemma frame_driver : frame f driver.
Proof. intros w. unfold driver. destruct (w_faults w) as [|[e|] fs]; [done|apply out_faults..]. Qed.
Lemma frame_exec `{Env} (g : World → Z * Db) :
  (∀ w, f (w <| w_db := (g w).2 |>) = f w) → frame f (exec g).
Proof.
  intros Hg. apply frame_bind; [apply frame_driver|]. intros _ w. simpl.
  destruct (db_violation _ _); [done|apply Hg].
Qed.
Lemma frame_RowsAffected (n : Z) : frame f (RowsAffected n).
Proof. apply frame_bind; [apply frame_driver|done]. Qed.
Lemma frame_query_row {A : Type} (g : World → option A) : frame f (query_row g).
Proof. apply frame_bind; [apply frame_driver|done]. Qed.
Lemma frame_wrapped (e : M unit → M unit) : wrapper e → frame f (e driver).
Proof. intros [-> | [s ->]]; [apply frame_driver|apply frame_wrap, frame_driver]. Qed.
Lemma frame_scan_rows {A : Type} (se ee : M unit → M unit) (l : list A) :
  wrapper se → wrapper ee → frame f (scan_rows se ee l).
Proof.
  intros Hs He. induction l as [|r l IH]; simpl.
  - apply frame_bind; [by apply frame_wrapped|done].
  - apply frame_bind; [by apply frame_wrapped|]. intros _. by apply frame_bind.
Qed.
Lemma frame_query {A : Type} (qe se ee : M unit → M unit) (g : World → list A) :
  wrapper qe → wrapper se → wrapper ee → frame f (query qe se ee g).
Proof.
  intros Hq Hs He. apply frame_bind; [by apply frame_wrapped|]. intros _ w. by apply frame_scan_rows.
Qed.
Lemma frame_transaction {A : Type} (be ce : M unit → M unit) (m : M A) :
  wrapper be → wrapper ce → frame f m → frame f (transaction be ce m).
Proof.
  intros Hb Hc Hm. apply frame_bind; [by apply frame_wrapped|]. intros _ w. specialize (Hm w).
  destruct (m w) as [[a|e] w1]; simpl in *; [|by apply out_restore].
  assert (Hd := frame_wrapped ce Hc w1). destruct (ce driver w1) as [[[]|e] w2]; simpl in *.
  - congruence.
  - apply out_restore. congruence.
Qed.
End frames.

(** A statement that changes other tables only. *)
Ltac frame_statement := first [apply out_db | reflexivity | solve [auto with frames] | idtac].

(** Proves [frame f m] down to operations with a lemma in the hint database. *)
Ltac frame_step :=
  lazymatch goal with
  | |- ∀ x : _, @?P x => intro
  | |- frame _ (ret _) => apply frame_ret
  | |- frame _ (fail _) => apply frame_fail
  | |- frame _ (bind _ _) => apply frame_bind
  | |- frame _ (wrap _ _) => apply frame_wrap
  | |- frame _ (try _) => apply frame_try
  | |- frame _ (ignore _) => apply frame_ignore
  | |- frame _ (draw _) => apply frame_draw
  | |- frame _ NewString => apply frame_draw
  | |- frame _ get_now => apply frame_get_now
  | |- frame _ driver => apply frame_driver
  | |- frame _ (exec _) => apply frame_exec; [typeclasses eauto|intros ?; frame_statement]
  | |- frame _ (RowsAffected _) => apply frame_RowsAffected
  | |- frame _ (query_row _) => apply frame_query_row
  | |- frame _ (query _ _ _ _) =>
      apply frame_query; [ |auto with veyport|auto with veyport|auto with veyport]
  | |- frame _ (transaction _ _ _) =>
      apply frame_transaction; [ |auto with veyport|auto with veyport|]
  | |- frame _ (match ?x with _ => _ end) => destruct x
  | |- Outside _ => typeclasses eauto
  | |- Beyond _ => typeclasses eauto
  | |- frame _ _ => solve [auto with frames]
  end.
Ltac frames := repeat frame_step.

Lemma frame_run {X A : Type} (f : World → X) (m : M A) (w w' : World) (r : result A) :
  frame f m → m w = (r, w') → f w' = f w.
Proof. intros Hf Hm. rewrite <- (Hf w), Hm. done. Qed.

Create HintDb frames.
#[export] Hint Extern 0 (Outside _) => typeclasses eauto : frames.
#[export] Hint Extern 0 (Beyond _) => typeclasses eauto : frames.

(** Proves [f w' = f w] along the runs in the context that lead from [w] to [w']. *)
Ltac frame_back f :=
  try match goal with |- ?t (w_db ?a) = ?t (w_db ?b) => change (tables t a = tables t b) end;
  repeat match goal with
  | H : ?m ?v = (_, ?v') |- f ?v' = _ =>
      transitivity (f v); [eapply (frame_run f); [|exact H]; solve [frames]|]
  end; try reflexivity.

(** Uses every run in the context that leaves [t] alone to speak of its first world instead. *)
Ltac tables_along t :=
  repeat match goal with
  | H : ?m ?v = (_, ?v') |- _ =>
      apply (frame_run (tables t)) in H; [|solve [frames]];
      change (t (w_db v') = t (w_db v)) in H; try rewrite H in *; clear H
  end.

(** ** Statements that keep the constraints *)

Lemma violated_None (cs : list (string * bool)) :
  violated cs = None ↔ Forall (λ c, c.2 = true) cs.
Proof.
  unfold violated. rewrite fmap_None. split.
  - intros Hf. apply Forall_forall. intros c Hc%list_elem_of_In.
    by apply (List.find_none _ _ Hf), negb_false_iff in Hc.
  - intros Hf. destruct (List.find _ cs) as [c|] eqn:Hc; [|done].
    apply List.find_some in Hc as [Hc%list_elem_of_In Hn].
    eapply Forall_forall in Hf; [|exact Hc]. by rewrite Hf in Hn.
Qed.

Lemma map_update_rows {A B : Type} (key : A → B) (p : A → bool) (f : A → A) (l : list A) :
  (∀ x, key (f x) = key x) → map key (update_rows p f l) = map key l.
Proof. intros Hk. induction l as [|x l IH]; simpl; [done|]. rewrite IH. f_equal. by destruct (p x). Qed.

Lemma omap_map {A B : Type} (key : A → option B) (l : list A) : omap key l = omap id (map key l).
Proof. induction l as [|x l IH]; [done|]. cbn. destruct (key x); cbn; by rewrite IH. Qed.

Lemma existsb_map {A B : Type} (g : A → B) (p : B → bool) (l : list A) :
  existsb (λ x, p (g x)) l = existsb p (map g l).
Proof. induction l as [|x l IH]; simpl; [done|]. by rewrite IH. Qed.

Lemma distinct_update_rows {A B : Type} `{EqDecision B} (key : A → option B) (p : A → bool)
    (f : A → A) (l : list A) :
  (∀ x, key (f x) = key x) → distinct key (update_rows p f l) = distinct key l.
Proof. intros Hk. unfold distinct. by rewrite !(omap_map key), map_update_rows. Qed.

Lemma forallb_update_rows {A : Type} (q p : A → bool) (f : A → A) (l : list A) :
  (∀ x, q x = true → q (f x) = true) → forallb q l = true → forallb q (update_rows p f l) = true.
Proof.
  intros Hq. induction l as [|x l IH]; simpl; [done|]. intros [Hx Hl]%andb_prop.
  rewrite IH by done. destruct (p x); [by rewrite Hq|by rewrite Hx].
Qed.

Definition valid_status (st : string) : bool :=
  existsb (String.eqb st) ["pending"; "online"; "offline"].

(** Keys may be kept or cleared. *)
Lemma distinct_update_clear {A B : Type} `{EqDecision B} (key : A → option B) (p : A → bool)
    (f : A → A) (l : list A) :
  (∀ x, key (f x) = key x ∨ key (f x) = None) → distinct key l = true →
  distinct key (update_rows p f l) = true.
Proof.
  unfold distinct. rewrite !bool_decide_eq_true. intros Hk Hd. apply (sublist_NoDup _ _ Hd). clear Hd.
  unfold update_rows. induction l as [|x l IH]; [done|]. simpl.
  destruct (p x); [destruct (Hk x) as [->| ->]|]; cbn; repeat case_match; first [exact IH|by constructor].
Qed.

(** An [UPDATE servers] that keeps the keys, or clears the token, and sets a status the schema
    knows. *)
Lemma update_servers_clear_ok (fk : bool) (d : Db) (p : Server → bool) (f : Server → Server) :
  (∀ s, s_ID (f s) = s_ID s) → (∀ s, s_Name (f s) = s_Name s) →
  (∀ s, s_RegistrationToken (f s) = s_RegistrationToken s ∨ s_RegistrationToken (f s) = None) →
  (∀ s, valid_status (s_Status s) = true → valid_status (s_Status (f s)) = true) →
  db_violation fk d = None →
  db_violation fk (d <| d_servers := update_rows p f (d_servers d) |>) = None.
Proof.
  intros Hid Hname Htok Hst. unfold db_violation. rewrite !violated_None, !Forall_app.
  intros [Hu Hf]. split.
  - unfold unique_constraints in *. rewrite !Forall_cons in *. simpl in *.
    rewrite (distinct_update_rows (λ s, Some (s_ID s))), (distinct_update_rows (λ s, Some (s_Name s)))
      by (intros; by rewrite ?Hid, ?Hname).
    rewrite distinct_update_clear, forallb_update_rows by tauto. tauto.
  - destruct fk; [|done]. unfold fk_constraints in *. rewrite !Forall_cons in *. simpl in *.
    destruct Hf as (Hf1 & Hf2 & Hf3 & Hf4). repeat split; try done.
    rewrite forallb_forall in *. intros id Hin. specialize (Hf2 id Hin). unfold known_server in *.
    simpl. rewrite (existsb_map s_ID (λ x, String.eqb x id)) in *.
    by rewrite map_update_rows by done.
Qed.

Lemma update_servers_ok (fk : bool) (d : Db) (p : Server → bool) (f : Server → Server) :
  (∀ s, s_ID (f s) = s_ID s) → (∀ s, s_Name (f s) = s_Name s) →
  (∀ s, s_RegistrationToken (f s) = s_RegistrationToken s) →
  (∀ s, valid_status (s_Status s) = true → valid_status (s_Status (f s)) = true) →
  db_violation fk d = None →
  db_violation fk (d <| d_servers := update_rows p f (d_servers d) |>) = None.
Proof. intros Hid Hname Htok. apply update_servers_clear_ok; [done|done|by left]. Qed.

(** A [DELETE FROM servers]. *)
Lemma distinct_filter {A B : Type} `{EqDecision B} (key : A → option B) (p : A → bool) (l : list A) :
  distinct key l = true → distinct key (List.filter p l) = true.
Proof.
  unfold distinct. rewrite !bool_decide_eq_true. intros Hd. apply (sublist_NoDup _ _ Hd). clear Hd.
  induction l as [|x l IH]; [done|]. simpl. destruct (p x); cbn; repeat case_match; try exact IH; by constructor.
Qed.

Lemma forallb_filter {A : Type} (q p : A → bool) (l : list A) :
  forallb q l = true → forallb q (List.filter p l) = true.
Proof. rewrite !forallb_forall. intros H x [Hx _]%filter_In. by apply H. Qed.

Lemma delete_servers_consistent (fk : bool) (p : Server → bool) (d : Db) :
  db_violation fk d = None → db_violation fk (delete_servers fk p d) = None.
Proof.
  unfold db_violation. rewrite !violated_None, !Forall_app. intros [Hu Hf]. split.
  - unfold unique_constraints, delete_servers in *. rewrite !Forall_cons in *.
    destruct fk; simpl in *; rewrite !distinct_filter, ?forallb_filter by tauto; tauto.
  - destruct fk; [|done]. unfold fk_constraints, delete_servers in *. rewrite !Forall_cons in *. simpl in *.
    destruct Hf as (Hf1 & Hf2 & Hf3 & Hf4). repeat split; try done.
    + unfold user_refs in *. simpl. rewrite forallb_app in *. apply andb_prop in Hf1 as [Ha Hb]. apply andb_true_intro. split; [|done].
      rewrite forallb_forall in *. intros x (r & <- & [Hr _]%filter_In)%in_map_iff. by apply Ha, in_map.
    + rewrite forallb_forall in *. intros x (r & <- & [Hr Hg]%filter_In)%in_map_iff.
      specialize (Hf2 _ (in_map _ _ _ Hr)). unfold known_server in *. apply existsb_exists in Hf2 as (s & Hs & He).
      apply existsb_exists. exists s. split; [|done]. simpl. apply filter_In. split; [done|].
      destruct (p s) eqn:Hp; [|done]. exfalso. apply negb_true_iff in Hg. unfold gone in Hg.
      assert (Hex : existsb (λ s, String.eqb (s_ID s) (pr_server_id r) && p s) (d_servers d) = true)
        by (apply existsb_exists; exists s; by rewrite He, Hp).
      congruence.
Qed.

(** ** Inverting a successful run *)

Lemma bind_Ok {A B : Type} (m : M A) (k : A → M B) (w w' : World) (b : B) :
  bind m k w = (Ok b, w') → ∃ a w1, m w = (Ok a, w1) ∧ k a w1 = (Ok b, w').
Proof. unfold bind. destruct (m w) as [[a|e] w1]; [by eauto|done]. Qed.

Lemma bind_run {A B : Type} (m : M A) (k : A → M B) (w w' : World) (r : result A) :
  m w = (r, w') → bind m k w = match r with Ok a => k a w' | Err e => (Err e, w') end.
Proof. unfold bind. by intros ->. Qed.

Lemma wrap_Ok {A : Type} (p : string) (m : M A) (w w' : World) (a : A) :
  wrap p m w = (Ok a, w') → m w = (Ok a, w').
Proof. unfold wrap. by destruct (m w) as [[]]. Qed.

Lemma try_Ok {A : Type} (m : M A) (w w' : World) (r : result A) :
  try m w = (Ok r, w') → m w = (r, w').
Proof. unfold try. destruct (m w). congruence. Qed.

(** Splits the runs in the hypotheses up to the operations; [ret] and [fail] are decided. *)
Ltac ok_inv_step :=
  match goal with
  | H : bind _ _ _ = (Ok _, _) |- _ => apply bind_Ok in H as (? & ? & ? & ?)
  | H : wrap _ _ _ = (Ok _, _) |- _ => apply wrap_Ok in H
  | H : try _ _ = (Ok _, _) |- _ => apply try_Ok in H
  | H : ret _ _ = (Ok _, _) |- _ => unfold ret in H; simplify_eq
  | H : get_now _ = (Ok _, _) |- _ => unfold get_now in H; simplify_eq
  | H : fail _ _ = (Ok _, _) |- _ => discriminate H
  | H : (if ?b then _ else _) _ = (Ok _, _) |- _ => destruct b eqn:?
  | H : (match ?x with _ => _ end) _ = (Ok _, _) |- _ => destruct x eqn:?
  end.
Ltac ok_inv := repeat (ok_inv_step; subst).

Lemma ignore_Ok {A : Type} (m : M A) (w w' : World) (u : unit) :
  ignore m w = (Ok u, w') → w' = (m w).2.
Proof. unfold ignore. destruct (m w). by injection 1. Qed.

Lemma driver_Ok (w w' : World) (u : unit) : driver w = (Ok u, w') → ∃ fs, w' = w <| w_faults := fs |>.
Proof.
  unfold driver. destruct (w_faults w) as [|[e|] fs] eqn:Hf; intros [= <- <-]; [|by eexists].
  exists []. destruct w. simpl in *. by subst.
Qed.

(** A statement that succeeded installed its tables, which satisfy the constraints. *)
Lemma exec_Ok `{Env} (f : World → Z * Db) (w w' : World) (n : Z) :
  exec f w = (Ok n, w') → ∃ fs, let w1 := w <| w_faults := fs |> in
    n = (f w1).1 ∧ w' = w1 <| w_db := (f w1).2 |> ∧ db_violation (w_fk w') (w_db w') = None.
Proof.
  intros ([] & w1 & [fs ->]%driver_Ok & Hx)%bind_Ok. exists fs.
  destruct (db_violation _ _) eqn:Hv; [done|]. by injection Hx as <- <-.
Qed.

Lemma query_row_Ok {A : Type} (f : World → option A) (w w' : World) (r : option A) :
  query_row f w = (Ok r, w') → ∃ fs, w' = w <| w_faults := fs |> ∧ r = f w'.
Proof. intros ([] & w1 & [fs ->]%driver_Ok & [= <- <-])%bind_Ok. by exists fs. Qed.

(** A unique key selects one row. *)
Lemma distinct_inj {A B : Type} `{EqDecision B} (key : A → option B) (l : list A) (x y : A) (k : B) :
  distinct key l = true → x ∈ l → y ∈ l → key x = Some k → key y = Some k → x = y.
Proof.
  unfold distinct. intros Hd%bool_decide_eq_true Hx Hy Hkx Hky. induction l as [|z l IH]; [by inversion Hx|].
  assert (Hin : ∀ u : A, u ∈ l → key u = Some k → k ∈ omap key l).
  { intros u Hu Hku. apply list_elem_of_omap. by exists u. }
  cbn in Hd. apply elem_of_cons in Hx as [->|Hx], Hy as [->|Hy]; [done|..].
  - rewrite Hkx in Hd. apply NoDup_cons in Hd as [Hn _]. destruct Hn. by eapply Hin.
  - rewrite Hky in Hd. apply NoDup_cons in Hd as [Hn _]. destruct Hn. by eapply Hin.
  - destruct (key z); [apply NoDup_cons in Hd as [_ Hd]|]; by apply IH.
Qed.

Lemma elem_of_update_rows {A : Type} (p : A → bool) (f : A → A) (l : list A) (x : A) :
  x ∈ update_rows p f l ↔ (∃ y, y ∈ l ∧ p y = true ∧ x = f y) ∨ (x ∈ l ∧ p x = false).
Proof.
  unfold update_rows. rewrite list_elem_of_fmap. split.
  - intros (y & -> & Hy). destruct (p y) eqn:E; [left; by exists y|by right].
  - intros [(y & Hy & Hp & ->)|[Hx Hp]]; [exists y|exists x]; by rewrite Hp.
Qed.

(** The constraints by name. *)
Lemma unique_constraint (fk : bool) (d : Db) (name : string) (b : bool) :
  db_violation fk d = None → (name, b) ∈ unique_constraints d → b = true.
Proof. intros H%db_violation_None_unique Hin. exact (proj1 (Forall_forall _ _) H _ Hin). Qed.

(** A query fails only through a fault of the driver. *)
Lemma query_cases {A : Type} (qe se ee : M unit → M unit) (f : World → list A) (w : World) :
  wrapper qe → wrapper se → wrapper ee →
  (∃ e fs, query qe se ee f w = (Err e, w <| w_faults := fs |>) ∧ ¬ no_faults w) ∨
  (∃ fs fs', query qe se ee f w = (Ok (f (w <| w_faults := fs' |>)), w <| w_faults := fs |>)).
Proof.
  intros Hq Hs He. destruct (w_faults w) as [|o fs0] eqn:Hf.
  - right. exists [], []. rewrite query_ok by done.
    replace (w <| w_faults := [] |>) with w; [done|]. destruct w. simpl in Hf. by subst.
  - assert (Hn : ¬ no_faults w) by (unfold no_faults; by rewrite Hf).
    assert (H : wp (query qe se ee f) (λ r w', (∃ e fs, r = Err e ∧ w' = w <| w_faults := fs |>) ∨
      (∃ fs fs', r = Ok (f (w <| w_faults := fs' |>)) ∧ w' = w <| w_faults := fs |>)) w).
    { apply wp_query; [done..| |]; eauto 10. }
    unfold wp in H. destruct (query qe se ee f w) as [r w']. simpl in H.
    destruct H as [(e & fs & -> & ->)|(fs & fs' & -> & ->)]; [left|right]; eauto 10.
Qed.

(** ** Clients that only read *)

Definition reads {A : Type} (m : M A) : Prop := ∀ w, ∃ fs, (m w).2 = w <| w_faults := fs |>.

Lemma faults_self (w : World) : w = w <| w_faults := w_faults w |>.
Proof. by destruct w. Qed.

Lemma reads_ret {A : Type} (a : A) : reads (ret a).
Proof. intros w. exists (w_faults w). apply faults_self. Qed.
Lemma reads_fail {A : Type} (e : string) : reads (@fail A e).
Proof. intros w. exists (w_faults w). apply faults_self. Qed.
Lemma reads_get_now : reads get_now.
Proof. intros w. exists (w_faults w). apply faults_self. Qed.
Lemma reads_bind {A B : Type} (m : M A) (k : A → M B) :
  reads m → (∀ a, reads (k a)) → reads (bind m k).
Proof.
  intros Hm Hk w. unfold bind. destruct (Hm w) as [fs Hw].
  destruct (m w) as [[a|e] w']; simpl in Hw; subst w'; [|by exists fs].
  destruct (Hk a (w <| w_faults := fs |>)) as [fs' H]. exists fs'. exact H.
Qed.
Lemma reads_wrap {A : Type} (p : string) (m : M A) : reads m → reads (wrap p m).
Proof. intros Hm w. unfold wrap. destruct (Hm w) as [fs Hw]. exists fs. by destruct (m w) as [[a|e] w']. Qed.
Lemma reads_try {A : Type} (m : M A) : reads m → reads (try m).
Proof. intros Hm w. unfold try. destruct (Hm w) as [fs Hw]. exists fs. by destruct (m w). Qed.
Lemma reads_ignore {A : Type} (m : M A) : reads m → reads (ignore m).
Proof. intros Hm w. unfold ignore. destruct (Hm w) as [fs Hw]. exists fs. by destruct (m w). Qed.
Lemma reads_driver : reads driver.
Proof.
  intros w. unfold driver. destruct (w_faults w) as [|[e|] fs] eqn:Hf; [|by exists fs..].
  exists (w_faults w). apply faults_self.
Qed.
Lemma reads_query_row {A : Type} (g : World → option A) : reads (query_row g).
Proof. apply reads_bind; [apply reads_driver|]. intros _ w. exists (w_faults w). apply faults_self. Qed.
Lemma reads_query {A : Type} (qe se ee : M unit → M unit) (g : World → list A) :
  wrapper qe → wrapper se → wrapper ee → reads (query qe se ee g).
Proof.
  intros Hq Hs He w.
  destruct (query_cases qe se ee g w Hq Hs He) as [(e & fs & -> & _)|(fs & fs' & ->)]; by exists fs.
Qed.

(** The world and the tables after a reader. *)
Lemma reads_run {A : Type} (m : M A) (w : World) :
  reads m → ∃ r fs, m w = (r, w <| w_faults := fs |>).
Proof. intros Hm. destruct (Hm w) as [fs H]. exists (m w).1, fs. rewrite <- H. by destruct (m w). Qed.

Lemma reads_tables {A : Type} (m : M A) (w : World) :
  reads m → ∃ r w', m w = (r, w') ∧ w_db w' = w_db w ∧ w_fk w' = w_fk w ∧ w_now w' = w_now w.
Proof. intros Hm. destruct (reads_run m w Hm) as (r & fs & ->). by do 2 eexists. Qed.

Create HintDb reads.
Ltac reads_step :=
  lazymatch goal with
  | |- ∀ x : _, @?P x => intro
  | |- reads (ret _) => apply reads_ret
  | |- reads (fail _) => apply reads_fail
  | |- reads (bind _ _) => apply reads_bind
  | |- reads (wrap _ _) => apply reads_wrap
  | |- reads (try _) => apply reads_try
  | |- reads (ignore _) => apply reads_ignore
  | |- reads get_now => apply reads_get_now
  | |- reads driver => apply reads_driver
  | |- reads (query_row _) => apply reads_query_row
  | |- reads (query _ _ _ _) =>
      apply reads_query; [auto with veyport|auto with veyport|auto with veyport]
  | |- reads (match ?x with _ => _ end) => destruct x
  | |- reads _ => solve [auto with reads]
  end.
Ltac readers := repeat reads_step.
