(* ===== verification/Demo.v ===== *)
(** * A concrete environment.

    [demoEnv] gives every library function of [Env] a computable body that satisfies the laws
    the properties assume, so that each property can be applied to a concrete input. *)

From S2P Require Import Prelude GoStr GoTime Model Db.
From S2P Require Pending LogSessions TerminalSessions.

Fixpoint rep (a : ascii) (n : nat) : string :=
  match n with O => "" | S n' => String a (rep a n') end.

Lemma rep_length (a : ascii) (n : nat) : String.length (rep a n) = n.
Proof. induction n as [|n IH]; simpl; congruence. Qed.

Lemma rep_no_byte (a c : ascii) (n : nat) : a ≠ c → no_byte c (rep a n) = true.
Proof.
  intros Hne. induction n as [|n IH]; simpl; [done|].
  by destruct (Ascii.eqb_spec a c).
Qed.

Fixpoint insert_by {A : Type} (le : A → A → bool) (x : A) (l : list A) : list A :=
  match l with
  | [] => [x]
  | y :: l' => if le x y then x :: y :: l' else y :: insert_by le x l'
  end.
Fixpoint sort_by {A : Type} (le : A → A → bool) (l : list A) : list A :=
  match l with [] => [] | x :: l' => insert_by le x (sort_by le l') end.

(** A signed token is its secret and its claims, separated by bars. *)
Definition token_fields (secret : string) (c : Claims) : list string :=
  [secret; c_ID c; c_Subject c; Itoa (c_IssuedAt c); Itoa (c_ExpiresAt c); c_Role c;
   c_TokenType c; Itoa (c_TokenGeneration c)].
Definition signable (secret : string) (c : Claims) : bool :=
  forallb (no_byte "|") (token_fields secret c) &&
  (0 <=? c_IssuedAt c) && (c_IssuedAt c <=? max_int) &&
  (0 <=? c_ExpiresAt c) && (c_ExpiresAt c <=? max_int) &&
  (0 <=? c_TokenGeneration c) && (c_TokenGeneration c <=? max_int).
Definition demo_sign (secret : string) (c : Claims) : result string :=
  if signable secret c then Ok (Join "|" (token_fields secret c)) else Err "key is invalid".
Definition demo_parse (now : Z) (secret token : string) : result Claims :=
  match Split "|" token with
  | [s; id; sub; iat; exp; role; type; gen] =>
      match Atoi iat, Atoi exp, Atoi gen with
      | Some iat, Some exp, Some gen =>
          if negb (String.eqb s secret) then Err "signature is invalid"
          else if now <? exp then Ok (MkClaims id sub iat exp role type gen)
          else Err "token has invalid claims: token is expired"
      | _, _, _ => Err "token is malformed"
      end
  | _ => Err "token is malformed"
  end.

(** Seconds of a date and a clock time; a plain number is itself. *)
Definition civil_day (y m d : Z) : Z :=
  let y := if m <=? 2 then y - 1 else y in
  let era := y / 400 in
  let yoe := y - era * 400 in
  let doy := (153 * (if 2 <? m then m - 3 else m + 9) + 2) / 5 + d - 1 in
  era * 146097 + yoe * 365 + yoe / 4 - yoe / 100 + doy - 719468.
Definition demo_parse_sqlite (s : string) : option Z :=
  match Atoi s with
  | Some n => Some (n * NS)
  | None =>
      match Atoi <$> (Split " " s ≫= λ f, Split "-" f ≫= Split ":") with
      | [Some y; Some m; Some d; Some h; Some mi; Some se] =>
          Some ((civil_day y m d * 86400 + h * 3600 + mi * 60 + se) * NS)
      | _ => None
      end
  end.

Definition demoEnv : Env := {|
  uuid := λ i, String "u" (rep "u" i);
  sha256_hex := λ s, "h" +:+ s;
  rand_int := λ i m, Z.of_nat i mod m;
  rand_hex := λ i n, Ok (rep "a" (i + 2 * n));
  bcrypt_hash := λ _ p, if (72 <? String.length p)%nat then Err "password too long" else Ok ("$" +:+ p);
  bcrypt_match := λ h p, String.eqb h ("$" +:+ p);
  totp_validate := λ t code secret, String.eqb code (secret +:+ Itoa (t / (30 * NS)));
  totp_generate := λ i issuer account, Ok (rep "s" (S i), issuer +:+ account);
  valid_ip := λ s, forallb (λ a, is_digit a || Ascii.eqb a ".") (String.list_ascii_of_string s) && negb (String.eqb s "");
  parse_sqlite := demo_parse_sqlite;
  check_csr := λ s, if HasPrefix s "csr:" then Ok (TrimPrefix s "csr:") else Err "asn1: syntax error";
  create_certificate := λ _ cn _ _ key, Ok ("cert:" +:+ cn +:+ ":" +:+ key);
  address := λ i, "0xc000" +:+ Itoa (Z.of_nat i);
  unicode_upper := λ _, false;
  unicode_lower := λ _, false;
  unicode_digit := λ _, false;
  unicode_special := λ _, false;
  jwt_date := sqlite_time;
  jwt_sign := demo_sign;
  jwt_parse := demo_parse;
  sql_like := λ p s, Contains s (Join "" (Split "%" p));
  syntax_error := "near OFFSET: syntax error";
  constraint_failed := λ c, "constraint failed: " +:+ c;
  order_by := @sort_by
|}.

Lemma demo_uuid : UuidLaws demoEnv.
Proof.
  split; simpl.
  - intros i j [= Hij]. rewrite <- (rep_length "u" i), Hij. apply rep_length.
  - done.
  - intros i. by apply (rep_no_byte "u" ":" (S i)).
Qed.

Lemma insert_by_perm {A : Type} (le : A → A → bool) (x : A) (l : list A) :
  insert_by le x l ≡ₚ x :: l.
Proof. induction l as [|y l IH]; simpl; [done|]. destruct (le x y); [done|]. rewrite IH. constructor. Qed.

Lemma sort_by_perm {A : Type} (le : A → A → bool) (l : list A) : sort_by le l ≡ₚ l.
Proof. induction l as [|x l IH]; simpl; [done|]. by rewrite insert_by_perm, IH. Qed.

Lemma demo_order : OrderLaws demoEnv.
Proof.
  split; simpl; [intros; apply sort_by_perm|].
  intros A le l Htot Htr. induction l as [|x l IH]; simpl; [constructor|].
  induction IH as [|y l' Hs IH' Hy]; simpl; [by repeat constructor|].
  destruct (le x y) eqn:Hxy.
  - constructor; [by constructor|]. constructor; [done|].
    eapply Forall_impl; [exact Hy|]. intros z Hz. simpl in *.
    apply Is_true_true, (Htr x y z); by apply Is_true_true.
  - constructor; [done|]. apply Forall_forall. intros z. rewrite insert_by_perm.
    intros [->|Hz]%elem_of_cons.
    + by destruct (Htot x y); [congruence|].
    + by eapply Forall_forall in Hy.
Qed.

(** A fault-free world with the given tables. *)
Definition demo_world (d : Db) : World := MkWorld d (1000 * NS) 0 [] true false (true, true) [] ∅ ∅
    ∅ ∅ [] [] Pending.NewPendingRequests LogSessions.NewLogSessions TerminalSessions.NewTerminalSessions ∅ [] ∅ ∅.

Lemma demo_rand : RandLaws demoEnv.
Proof. split. simpl. intros i m Hm. by apply Z.mod_pos_bound. Qed.

Lemma token_fields_Split (secret : string) (c : Claims) :
  forallb (no_byte "|") (token_fields secret c) = true →
  Split "|" (Join "|" (token_fields secret c)) = token_fields secret c.
Proof.
  intros H. apply (Split_Join "|"); [done|].
  apply Forall_forall. intros x Hx. rewrite forallb_forall in H. apply H. by apply list_elem_of_In.
Qed.

Lemma demo_jwt : JwtLaws demoEnv.
Proof.
  split; [done|]. simpl. intros now secret c token _ _. unfold demo_sign.
  destruct (signable secret c) eqn:Hs; [|done]. intros Ht.
  assert (token = Join "|" (token_fields secret c)) as -> by congruence. clear Ht.
  unfold signable in Hs.
  bool_hyps. repeat match goal with H : (_ <=? _) = true |- _ => apply Z.leb_le in H end.
  unfold demo_parse. rewrite token_fields_Split by done. unfold token_fields.
  rewrite !Atoi_Itoa by lia. rewrite String.eqb_refl. simpl. destruct c. simpl.
  by destruct (now <? _).
Qed.

Example demo_parse_sqlite_date :
  demo_parse_sqlite (format_sqlite (1778936461 * NS + 5)) = Some (1778936461 * NS).
Proof. reflexivity. Qed.
