(* ===== verification/Migrate.v ===== *)
(** * Schema migrations (hub/internal/migrate/migrate.go).

    SQLite is a function that runs a script on a database and may stop half-way; the embedded files
    are a list of names and scripts.  Every call of the driver takes its answer from a script of
    failures, as in the store. *)

From S2P Require Import Prelude GoStr Demo.

(** [db.Exec] of a script: the database it leaves, and the error it stopped with. *)
Class Sqlite (D : Type) := sql_exec : string → D → D * option string.

Section migrate.
Context {D : Type} `{SQ : Sqlite D}.

(** The rows of [_migrations] in order, if the table exists, and the rest of the database. *)
Record Database := MkDatabase { migrations : option (list string); data : D }.
Record State := MkState { db : Database; faults : list (option string) }.
#[local] Instance eta_State : Eta State := λ r, MkState (db r) (faults r).

Definition Mig (A : Type) : Type := State → result A * State.
Definition ret {A : Type} (a : A) : Mig A := λ st, (Ok a, st).
Definition fail {A : Type} (e : string) : Mig A := λ st, (Err e, st).
Definition bind {A B : Type} (m : Mig A) (k : A → Mig B) : Mig B := λ st,
  match m st with (Ok a, st') => k a st' | (Err e, st') => (Err e, st') end.
#[local] Notation "'let^' x ':=' m 'in' k" := (bind m (λ x, k))
  (at level 10, x pattern, m at level 100, k at level 200).
Definition wrap {A : Type} (p : string) (m : Mig A) : Mig A := λ st,
  match m st with (Ok a, st') => (Ok a, st') | (Err e, st') => (Err (p +:+ ": " +:+ e), st') end.

Definition driver : Mig unit := λ st,
  match faults st with
  | Some e :: fs => (Err e, st <| faults := fs |>)
  | None :: fs => (Ok tt, st <| faults := fs |>)
  | [] => (Ok tt, st)
  end.
Definition get_db : Mig Database := λ st, (Ok (db st), st).
Definition set_db (d : Database) : Mig unit := λ st, (Ok tt, st <| db := d |>).

(** A script either runs to its end or leaves what it did before the error. *)
Definition exec (content : string) : Mig unit :=
  let^ _ := driver in λ st,
  let '(d, e) := sql_exec content (data (db st)) in
  let st' := st <| db := MkDatabase (migrations (db st)) d |> in
  match e with None => (Ok tt, st') | Some e => (Err e, st') end.

(** [INSERT INTO _migrations (filename)]; the column is UNIQUE. *)
Definition record (filename : string) : Mig unit :=
  let^ _ := driver in
  let^ d := get_db in
  match migrations d with
  | None => fail "no such table: _migrations"
  | Some l => if bool_decide (filename ∈ l) then fail "UNIQUE constraint failed: _migrations.filename"
              else set_db (MkDatabase (Some (l ++ [filename])) (data d))
  end.

(** [rows.Next] ends the loop when it fails, and nobody asks [rows.Err]. *)
Fixpoint scan_applied (rows : list string) : Mig (list string) :=
  match rows with
  | [] => ret []
  | f :: rows' => λ st,
      match driver st with
      | (Err _, st') => (Ok [], st')
      | (Ok _, st') =>
          (let^ _ := wrap "scan migration" driver in
           let^ l := scan_applied rows' in
           ret (f :: l)) st'
      end
  end.

(** Rollback and a failed commit restore the database. *)
Definition transaction (begin_ commit : string) (body : Mig unit) : Mig unit :=
  let^ _ := wrap begin_ driver in
  let^ d0 := get_db in λ st,
  match body st with
  | (Err e, st') => (Err e, st' <| db := d0 |>)
  | (Ok _, st') =>
      match wrap commit driver st' with
      | (Err e, st'') => (Err e, st'' <| db := d0 |>)
      | r => r
      end
  end.

Definition no_transaction (content : string) : bool := HasPrefix content "-- codex: no-transaction".

Definition applyMigration (filename content : string) : Mig unit :=
  if no_transaction content then
    let^ _ := wrap ("execute " +:+ filename) (exec content) in
    wrap ("record " +:+ filename) (record filename)
  else
    transaction ("begin tx for " +:+ filename) ("commit " +:+ filename)
      (let^ _ := wrap ("execute " +:+ filename) (exec content) in
       wrap ("record " +:+ filename) (record filename)).

(** [sort.Slice] by name. *)
Fixpoint insert_entry (e : string * string) (l : list (string * string)) : list (string * string) :=
  match l with
  | [] => [e]
  | x :: l' => if String.leb e.1 x.1 then e :: x :: l' else x :: insert_entry e l'
  end.
Definition sort_entries (l : list (string * string)) : list (string * string) := foldr insert_entry [] l.

Fixpoint apply_all (applied : list string) (entries : list (string * string)) : Mig unit :=
  match entries with
  | [] => ret tt
  | (name, content) :: entries' =>
      if negb (HasSuffix name ".sql") || bool_decide (name ∈ applied) then apply_all applied entries' else
      let^ _ := applyMigration name content in apply_all applied entries'
  end.

Definition create_table : Mig unit :=
  let^ _ := driver in
  let^ d := get_db in
  set_db (MkDatabase (Some (default [] (migrations d))) (data d)).

(** [files] is the directory [migrations] of the binary. *)
Definition Run (files : list (string * string)) : Mig unit :=
  let^ _ := wrap "create _migrations table" create_table in
  let^ _ := wrap "query _migrations" driver in
  let^ d := get_db in
  let^ applied := scan_applied (default [] (migrations d)) in
  apply_all applied (sort_entries files).

(** ** Interrupted runs *)

(** The scripts a complete run executes, in order. *)
Definition plan (files : list (string * string)) : list (string * string) :=
  List.filter (λ e, HasSuffix e.1 ".sql") (sort_entries files).

Fixpoint replay (es : list (string * string)) (d : D) : option D :=
  match es with
  | [] => Some d
  | (_, content) :: es' => match sql_exec content d with (d', None) => replay es' d' | (_, Some _) => None end
  end.

(** The database is what the first [k] scripts make of [d0], and they are the ones recorded. *)
Definition at_step (files : list (string * string)) (d0 : D) (k : nat) (d : Database) : Prop :=
  (migrations d = Some (map fst (take k (plan files))) ∨ k = 0%nat ∧ migrations d = None) ∧
  replay (take k (plan files)) d0 = Some (data d).

Lemma insert_entry_perm (e : string * string) (l : list (string * string)) : insert_entry e l ≡ₚ e :: l.
Proof. induction l as [|x l IH]; simpl; [done|]. destruct (String.leb _ _); [done|]. rewrite IH. constructor. Qed.

Lemma sort_entries_perm (l : list (string * string)) : sort_entries l ≡ₚ l.
Proof. induction l as [|x l IH]; simpl; [done|]. by rewrite insert_entry_perm, IH. Qed.

Lemma plan_NoDup (files : list (string * string)) : NoDup (map fst files) → NoDup (map fst (plan files)).
Proof.
  intros H. assert (H' : NoDup (map fst (sort_entries files))) by (by rewrite sort_entries_perm).
  unfold plan. revert H'. generalize (sort_entries files). clear. induction l as [|e l IH]; simpl; [done|].
  intros [Hn Hd]%NoDup_cons. destruct (HasSuffix e.1 ".sql"); simpl; [|by apply IH].
  constructor; [|by apply IH]. intros (x & Hx & Hin)%list_elem_of_fmap. apply Hn, list_elem_of_fmap.
  exists x. split; [done|]. apply list_elem_of_In in Hin. apply List.filter_In in Hin as [Hin _]. by apply list_elem_of_In.
Qed.

(** Entries that are not scripts are passed over. *)
Lemma apply_all_plan (applied : list string) (es : list (string * string)) :
  apply_all applied es = apply_all applied (List.filter (λ e, HasSuffix e.1 ".sql") es).
Proof.
  induction es as [|[name content] es IH]; simpl; [done|]. destruct (HasSuffix name ".sql") eqn:Hs; simpl.
  - rewrite Hs. simpl. by rewrite IH.
  - done.
Qed.

Lemma replay_app (es1 es2 : list (string * string)) (d : D) :
  replay (es1 ++ es2) d = replay es1 d ≫= replay es2.
Proof.
  revert d. induction es1 as [|[n c] es1 IH]; intros d; simpl; [done|].
  destruct (sql_exec c d) as [d' [e|]]; [done|apply IH].
Qed.

Lemma take_S_plan (files : list (string * string)) (k : nat) (e : string * string) :
  plan files !! k = Some e → take (S k) (plan files) = take k (plan files) ++ [e].
Proof. apply take_S_r. Qed.

Lemma name_fresh (files : list (string * string)) (k i : nat) (e : string * string) :
  NoDup (map fst files) → plan files !! i = Some e → (e.1 ∈ map fst (take k (plan files)) ↔ (i < k)%nat).
Proof.
  intros Hn Hi. assert (Hd := plan_NoDup files Hn). split.
  - intros (e' & He & Hin)%list_elem_of_fmap. apply list_elem_of_lookup in Hin as [j Hj].
    apply lookup_take_Some in Hj as [Hj Hjk].
    assert (i = j) as ->; [|done]. eapply (NoDup_lookup _ i j e.1 Hd).
    + by rewrite list_lookup_fmap, Hi.
    + rewrite list_lookup_fmap, Hj. simpl. by rewrite He.
  - intros Hik. apply list_elem_of_fmap. exists e. split; [done|]. apply list_elem_of_lookup. exists i.
    by apply lookup_take_Some.
Qed.

(** *** One migration *)

Section one.
Context (files : list (string * string)) (d0 : D) (Hnames : NoDup (map fst files))
  (Htx : Forall (λ e, no_transaction e.2 = false) files).

Lemma plan_tx (k : nat) (e : string * string) : plan files !! k = Some e → no_transaction e.2 = false.
Proof.
  intros H%list_elem_of_lookup_2. rewrite Forall_forall in Htx. apply Htx. rewrite <- (sort_entries_perm files).
  apply list_elem_of_In in H. apply List.filter_In in H as [H _]. by apply list_elem_of_In.
Qed.

Lemma driver_cases (st : State) :
  ∃ fs, (driver st = (Ok tt, st <| faults := fs |>) ∨ (∃ e, driver st = (Err e, st <| faults := fs |>)) ∧ faults st ≠ []) ∧
    (faults st = [] → fs = []).
Proof.
  unfold driver. destruct st as [d [|[e|] fs]]; simpl.
  - exists []. split; [by left|done].
  - exists fs. split; [|done]. right. split; [by eexists|done].
  - exists fs. split; [by left|done].
Qed.

(** [record] either refuses and changes nothing, or adds the name. *)
Lemma record_cases (name : string) (st st' : State) (r : result unit) :
  record name st = (r, st') →
  (is_ok r = false ∧ db st' = db st) ∨
  (is_ok r = true ∧ ∃ l, migrations (db st) = Some l ∧ name ∉ l ∧
     db st' = MkDatabase (Some (l ++ [name])) (data (db st))).
Proof.
  unfold record, bind, get_db, set_db, fail.
  destruct (driver_cases st) as (fs & [->|[[e ->] _]] & _); [|intros [= <- <-]; by left].
  cbn [db set_field]. destruct (migrations (db st)) as [l|] eqn:Hl; [|intros [= <- <-]; by left].
  case_bool_decide as Hin; intros [= <- <-]; [by left|right]. split; [done|]. by exists l.
Qed.

Lemma exec_cases (content : string) (st st' : State) (r : result unit) :
  exec content st = (r, st') → is_ok r = true →
  sql_exec content (data (db st)) = (data (db st'), None) ∧ migrations (db st') = migrations (db st).
Proof.
  unfold exec, bind.
  destruct (driver_cases st) as (fs & [->|[[e ->] _]] & _); [|by intros [= <- <-]].
  cbn [db set_field]. destruct (sql_exec content (data (db st))) as [d' [e|]]; by intros [= <- <-].
Qed.

Lemma wrap_cases {A : Type} (p : string) (m : Mig A) (st st' : State) (r : result A) :
  wrap p m st = (r, st') → ∃ r', m st = (r', st') ∧ is_ok r' = is_ok r ∧ (∀ a, r' = Ok a → r = Ok a).
Proof. unfold wrap. destruct (m st) as [[a|e] st1]; intros [= <- <-]; by eexists. Qed.

Lemma bind_cases {A B : Type} (m : Mig A) (k : A → Mig B) (st st' : State) (r : result B) :
  bind m k st = (r, st') →
  (∃ e, m st = (Err e, st') ∧ r = Err e) ∨ (∃ a st1, m st = (Ok a, st1) ∧ k a st1 = (r, st')).
Proof. unfold bind. destruct (m st) as [[a|e] st1]; [eauto|]. intros [= <- <-]. eauto. Qed.

(** Either nothing but faults went, or the scripts advanced by one. *)
Lemma applyMigration_step (k i : nat) (name content : string) (st st' : State) (r : result unit) :
  at_step files d0 k (db st) → migrations (db st) ≠ None → plan files !! i = Some (name, content) → (i <= k)%nat →
  applyMigration name content st = (r, st') →
  (is_ok r = false ∧ db st' = db st) ∨
  (is_ok r = true ∧ i = k ∧ at_step files d0 (S k) (db st') ∧ migrations (db st') ≠ None).
Proof.
  intros [Hm Hr] Hne Hi Hik. destruct Hm as [Hm|[_ Hm]]; [|done].
  unfold applyMigration. rewrite (plan_tx i (name, content) Hi : no_transaction content = false).
  unfold transaction. intros [(e & (r1 & Hd & _)%wrap_cases & ->)|([] & st1 & (r1 & Hd & Hr1 & _)%wrap_cases & H)]%bind_cases.
  { destruct (driver_cases st) as (fs & [Hd'|[[e' Hd'] _]] & _); rewrite Hd' in Hd; injection Hd as _ <-; by left. }
  destruct (driver_cases st) as (fs & [Hd'|[[e' Hd'] _]] & _); rewrite Hd' in Hd; injection Hd as <- <-; [|done].
  unfold bind at 1, get_db in H. cbn [db set_field] in H.
  destruct (bind _ _ _) as [[[]|e] st2] eqn:Hb; [|injection H as <- <-; by left].
  destruct (wrap _ driver st2) as [[[]|e] st3] eqn:Hc; injection H as <- <-; [|by left].
  apply bind_cases in Hb as [(e & _ & ?)|([] & st4 & (r4 & He & Hr4 & _)%wrap_cases & (r5 & Hrec & Hr5 & _)%wrap_cases)]; [done|].
  apply exec_cases in He as [Hx Hmig]; [|done]. cbn [db set_field] in Hx, Hmig.
  apply record_cases in Hrec as [[Hf _]|(_ & l & Hl & Hnl & Hdb)]; [by rewrite Hf in Hr5|].
  assert (Hdb3 : db st3 = db st2).
  { apply wrap_cases in Hc as (r6 & Hc & _). destruct (driver_cases st2) as (fs2 & [Hd2|[[e2 Hd2] _]] & _);
      rewrite Hd2 in Hc; by injection Hc as _ <-. }
  rewrite Hmig, Hm in Hl. injection Hl as <-. apply (not_iff_compat (name_fresh files k i _ Hnames Hi)) in Hnl.
  assert (i = k) as -> by lia. right. rewrite Hdb3, Hdb. split_and!; [done|done| |done].
  unfold at_step. rewrite (take_S_plan _ _ _ Hi), fmap_app. split; [by left|].
  rewrite replay_app, Hr. simpl. cbn [data]. by rewrite Hx.
Qed.

Lemma applyMigration_now (k : nat) (name content : string) (d' : D) (st : State) :
  at_step files d0 k (db st) → migrations (db st) ≠ None → plan files !! k = Some (name, content) →
  faults st = [] → sql_exec content (data (db st)) = (d', None) →
  ∃ st', applyMigration name content st = (Ok tt, st') ∧ faults st' = [].
Proof.
  intros [Hm _] Hne Hk Hf Hx. destruct Hm as [Hm|[_ Hm]]; [|done].
  assert (Hfresh : name ∉ map fst (take k (plan files))).
  { intros Hin. apply (name_fresh files k k (name, content) Hnames Hk) in Hin. lia. }
  unfold applyMigration. rewrite (plan_tx k (name, content) Hk : no_transaction content = false).
  destruct st as [[m d] fs]. simpl in *. subst.
  unfold transaction, exec, record, bind, wrap, driver, get_db, set_db. cbn [faults db data migrations set_field].
  rewrite Hx. cbn. rewrite bool_decide_false by done. by eexists.
Qed.

(** What is left of the list, from any point at or before the scripts recorded. *)
Lemma apply_all_step (j : nat) (es : list (string * string)) (i k : nat) (st st' : State) (r : result unit) :
  es = drop i (plan files) → (j <= k)%nat → (i <= k)%nat →
  at_step files d0 k (db st) → migrations (db st) ≠ None →
  apply_all (map fst (take j (plan files))) es st = (r, st') →
  ∃ k', at_step files d0 k' (db st') ∧ migrations (db st') ≠ None ∧ (r = Ok tt → (length (plan files) <= k')%nat).
Proof.
  revert i k st. induction es as [|[name content] es IH]; intros i k st He Hj Hi Hs Hne; simpl.
  { intros [= <- <-]. exists k. split_and!; [done|done|]. intros _.
    assert (Hl : length (drop i (plan files)) = 0%nat) by (by rewrite <- He). rewrite length_drop in Hl. lia. }
  assert (Hpi : plan files !! i = Some (name, content)) by (rewrite <- (Nat.add_0_r i), <- lookup_drop, <- He; done).
  assert (He' : es = drop (S i) (plan files)) by (rewrite (drop_S _ _ _ Hpi) in He; congruence).
  assert (Hsql : HasSuffix name ".sql" = true).
  { apply list_elem_of_lookup_2, list_elem_of_In, List.filter_In in Hpi. by destruct Hpi. }
  rewrite Hsql. cbn [negb orb]. case_bool_decide as Hin.
  { apply (name_fresh files j i (name, content) Hnames Hpi) in Hin. apply (IH (S i) k); [done|lia|lia|done|done]. }
  intros [(e & Ha & ->)|([] & st1 & Ha & Hrest)]%bind_cases.
  - destruct (applyMigration_step k i name content st st' _ Hs Hne Hpi Hi Ha) as [[_ Hd]|[? _]]; [|done].
    exists k. by rewrite Hd.
  - destruct (applyMigration_step k i name content st st1 _ Hs Hne Hpi Hi Ha) as [[? _]|(_ & -> & Hs' & Hne')]; [done|].
    apply (IH (S k) (S k) st1); [done|lia|lia|done|done|done].
Qed.

Lemma apply_all_now (dN : D) (j : nat) (es : list (string * string)) (i : nat) (st : State) :
  replay (plan files) d0 = Some dN → es = drop i (plan files) →
  at_step files d0 (i `max` j) (db st) → migrations (db st) ≠ None → faults st = [] →
  ∃ st', apply_all (map fst (take j (plan files))) es st = (Ok tt, st').
Proof.
  intros HN. revert i st. induction es as [|[name content] es IH]; intros i st He Hs Hne Hf; simpl; [by eexists|].
  assert (Hpi : plan files !! i = Some (name, content)) by (rewrite <- (Nat.add_0_r i), <- lookup_drop, <- He; done).
  assert (He' : es = drop (S i) (plan files)) by (rewrite (drop_S _ _ _ Hpi) in He; congruence).
  assert (Hsql : HasSuffix name ".sql" = true).
  { apply list_elem_of_lookup_2, list_elem_of_In, List.filter_In in Hpi. by destruct Hpi. }
  rewrite Hsql. cbn [negb orb]. case_bool_decide as Hin.
  { apply (name_fresh files j i (name, content) Hnames Hpi) in Hin. apply (IH (S i)); [done| |done|done].
    by replace (S i `max` j)%nat with (i `max` j)%nat by lia. }
  assert (Hij : (j <= i)%nat).
  { destruct (Nat.le_gt_cases j i); [done|]. by destruct Hin; apply (name_fresh files j i (name, content)). }
  rewrite Nat.max_l in Hs by done.
  assert (Hx : ∃ d', sql_exec content (data (db st)) = (d', None)).
  { destruct Hs as [_ Hr]. rewrite <- (take_drop i (plan files)), replay_app, Hr, <- He in HN. simpl in HN.
    destruct (sql_exec content (data (db st))) as [d' [e|]]; [done|by exists d']. }
  destruct Hx as (d' & Hx).
  destruct (applyMigration_now i name content d' st Hs Hne Hpi Hf Hx) as (st1 & Ha & Hf1).
  unfold bind. rewrite Ha.
  destruct (applyMigration_step i i name content st st1 _ Hs Hne Hpi (le_n i) Ha) as [[? _]|(_ & _ & Hs' & Hne')]; [done|].
  apply (IH (S i)); [done| |done|done]. by rewrite Nat.max_l by lia.
Qed.

Lemma scan_applied_prefix (rows : list string) (st st' : State) (r : result (list string)) :
  scan_applied rows st = (r, st') → db st' = db st ∧ ∀ l, r = Ok l → ∃ j, l = take j rows.
Proof.
  revert st st' r. induction rows as [|f rows IH]; intros st st' r; simpl.
  { intros [= <- <-]. split; [done|]. intros l [= <-]. by exists 0%nat. }
  destruct (driver_cases st) as (fs & [->|[[e ->] _]] & _).
  2:{ intros [= <- <-]. split; [done|]. intros l [= <-]. by exists 0%nat. }
  intros [(e & (r1 & Hd & _)%wrap_cases & ->)|([] & st1 & (r1 & Hd & _)%wrap_cases & H)]%bind_cases;
    destruct (driver_cases (st <| faults := fs |>)) as (fs1 & [Hd'|[[e' Hd'] _]] & _); rewrite Hd' in Hd; injection Hd as <- <-; try done.
  all: apply bind_cases in H as [(e & Hs & ->)|(l & st2 & Hs & [= <- <-])]; destruct (IH _ _ _ Hs) as [-> Hl]; split; try done.
  all: intros l' [= <-]; destruct (Hl l eq_refl) as [j ->]; by exists (S j).
Qed.

Lemma scan_applied_now (rows : list string) (st : State) :
  faults st = [] → scan_applied rows st = (Ok rows, st).
Proof.
  intros Hf. assert (Hd : driver st = (Ok tt, st)) by (unfold driver; by rewrite Hf).
  induction rows as [|f rows IH]; simpl; [done|]. rewrite Hd. unfold bind, wrap. by rewrite Hd, IH.
Qed.

Lemma at_step_table (k : nat) (d : Database) :
  at_step files d0 k d → at_step files d0 k (MkDatabase (Some (default [] (migrations d))) (data d)) ∧
    default [] (migrations d) = map fst (take k (plan files)).
Proof. intros [[Hm|[-> Hm]] Hr]; rewrite Hm; (split; [split; [by left|done]|done]). Qed.

Lemma create_table_cases (st st' : State) (r : result unit) :
  create_table st = (r, st') →
  is_ok r = false ∧ db st' = db st ∨
  is_ok r = true ∧ db st' = MkDatabase (Some (default [] (migrations (db st)))) (data (db st)).
Proof.
  unfold create_table, bind, get_db, set_db.
  destruct (driver_cases st) as (fs & [->|[[e ->] _]] & _); intros [= <- <-]; auto.
Qed.

(** A call of the driver keeps the database. *)
Lemma wrapped_driver (p : string) (st st' : State) (r : result unit) :
  wrap p driver st = (r, st') → db st' = db st.
Proof.
  unfold wrap. destruct (driver_cases st) as (fs & [->|[[e ->] _]] & _); by intros [= _ <-].
Qed.

Lemma Run_step (k : nat) (st st' : State) (r : result unit) :
  at_step files d0 k (db st) → Run files st = (r, st') →
  ∃ k', at_step files d0 k' (db st') ∧
    (r = Ok tt → (length (plan files) <= k')%nat ∧ migrations (db st') ≠ None).
Proof.
  intros Hs. destruct (at_step_table k (db st) Hs) as [Hs1 Hrows]. unfold Run. intros H.
  apply bind_cases in H as [(e & (r1 & Hc & Hr1 & _)%wrap_cases & ->)|([] & st1 & (r1 & Hc & Hr1 & _)%wrap_cases & H)].
  { apply create_table_cases in Hc as [[_ Hd]|[Hf _]]; [exists k; by rewrite Hd|by rewrite Hf in Hr1]. }
  apply create_table_cases in Hc as [[Hf _]|[_ Hd]]; [by rewrite Hf in Hr1|].
  rewrite <- Hd in Hs1. assert (Hne : migrations (db st1) ≠ None) by (by rewrite Hd).
  assert (Hm1 : default [] (migrations (db st1)) = map fst (take k (plan files))) by (by rewrite Hd, Hrows).
  apply bind_cases in H as [(e & Hq%wrapped_driver & ->)|([] & st2 & Hq%wrapped_driver & H)]; [exists k; by rewrite Hq|].
  unfold bind at 1, get_db in H. rewrite <- Hq in *.
  apply bind_cases in H as [(e & Hsc & ->)|(l & st3 & Hsc & H)];
    apply scan_applied_prefix in Hsc as [Hdb Hl]; [exists k; by rewrite Hdb|].
  destruct (Hl l eq_refl) as [j ->]. rewrite Hm1, <- fmap_take, take_take, apply_all_plan in H.
  rewrite <- Hdb in Hs1, Hne.
  destruct (apply_all_step (j `min` k) (plan files) 0 k st3 st' r) as (k' & H1 & H3 & H2); [done|lia|lia|done|done|done|].
  exists k'. auto.
Qed.

Lemma Run_now (dN : D) (k : nat) (st : State) :
  replay (plan files) d0 = Some dN → at_step files d0 k (db st) → faults st = [] →
  ∃ st', Run files st = (Ok tt, st').
Proof.
  intros HN Hs Hf. destruct (at_step_table k (db st) Hs) as [Hs1 Hrows].
  assert (Hd : ∀ st, faults st = [] → driver st = (Ok tt, st)) by (intros s Hs'; unfold driver; by rewrite Hs').
  unfold Run, create_table, bind, wrap, get_db, set_db. rewrite (Hd st Hf). cbn [db set_field].
  set (d1 := MkDatabase (Some (default [] (migrations (db st)))) (data (db st))).
  destruct st as [d fs]. cbn [set_field eta_State faults] in *. subst fs.
  rewrite (Hd (MkState d1 [])) by done. cbn [db] in *.
  change (default [] (migrations d1)) with (default [] (migrations d)). rewrite Hrows, scan_applied_now by done.
  rewrite apply_all_plan. fold (plan files).
  by apply (apply_all_now dN k (plan files) 0 _ HN).
Qed.

(** Runs that end in whatever failures, one after the other. *)
Fixpoint attempts (scripts : list (list (option string))) (d : Database) : Database :=
  match scripts with
  | [] => d
  | fs :: scripts' => attempts scripts' (db (Run files (MkState d fs)).2)
  end.

Lemma attempts_step (scripts : list (list (option string))) (k : nat) (d : Database) :
  at_step files d0 k d → ∃ k', at_step files d0 k' (attempts scripts d).
Proof.
  revert k d. induction scripts as [|fs scripts IH]; intros k d Hs; simpl; [by exists k|].
  destruct (Run files (MkState d fs)) as [r st'] eqn:Hr.
  destruct (Run_step k (MkState d fs) st' r Hs Hr) as (k' & Hk' & _). by apply (IH k').
Qed.
End one.

End migrate.

(** ** Concrete scripts *)

Section witnesses.
(** A database is its tables, and a script creates the tables it lists. *)
Fixpoint create_tables (names : list string) (d : list string) : list string * option string :=
  match names with
  | [] => (d, None)
  | n :: names' => if bool_decide (n ∈ d) then (d, Some ("table " +:+ n +:+ " already exists"))
                   else create_tables names' (d ++ [n])
  end.
#[local] Instance demo_sqlite : Sqlite (list string) := λ content, create_tables (Split ";" content).
#[local] Notation demo_files := [("002_servers.sql", "servers;permissions"); ("readme.md", "?"); ("001_users.sql", "users")].
(** The first start stops inside the second script, the second at its commit. *)
#[local] Notation demo_failures := [[None; None; None; None; None; None; None; Some "disk I/O error"];
  [None; None; None; None; None; None; None; Some "database is locked"]].


(** A script marked to run without a transaction is executed again when recording it failed, and
    then it may not run to its end any more: the hub does not start until someone repairs it. *)
#[local] Notation bare_file := [("015_controls.sql", "-- codex: no-transaction;users_new")].
Example unrecorded_script_repeats :
  let st1 := (Run bare_file (MkState (MkDatabase None []) [None; None; None; Some "disk I/O error"])).2 in
  db st1 = MkDatabase (Some []) ["-- codex: no-transaction"; "users_new"] ∧
  (Run bare_file (MkState (db st1) [])).1 =
    Err "execute 015_controls.sql: table -- codex: no-transaction already exists".
Proof. by vm_compute. Qed.
End witnesses.
