(* ===== verification/StoreConfig.v ===== *)
(** * Settings kept in the [_config] table and the audit pipeline's health
    (hub/internal/store/config.go, audit_controls.go). *)

From S2P Require Import Prelude GoStr GoTime Model Db Demo.

(** ** config.go *)

(** [fmt.Sprintf("%q", key)]: the keys hold no character that needs escaping. *)
Definition quoted (key : string) : string := dquote +:+ key +:+ dquote.

Definition LookupConfig (key : string) : M (option string) :=
  wrap ("get config " +:+ quoted key) (query_row (λ w, d_config (w_db w) !! key)).

Definition GetConfig (key : string) : M string :=
  let* v := LookupConfig key in
  match v with
  | None => fail ("config key " +:+ quoted key +:+ " not found")
  | Some value => ret value
  end.

Section config.
Context `{E : Env}.

Definition SetConfig (key value : string) : M unit :=
  let* _ := wrap ("set config " +:+ quoted key)
              (exec (λ w, (1, w_db w <| d_config ::= <[key := value]> |>))) in
  ret tt.

(** ** audit_controls.go *)

Definition configAuditFailureCount : string := "audit.failure_count".
Definition configAuditLastFailureAt : string := "audit.last_failure_at".
Definition configAuditLastFailureReason : string := "audit.last_failure_reason".
Definition configAuditDegraded : string := "audit.degraded".
Definition configAuditLastRecoveredAt : string := "audit.last_recovered_at".
Definition configAuditRetentionDays : string := "audit.retention_days".
Definition configAuditReviewReminderDays : string := "audit.review_reminder_days".
Definition configAuthPasswordHistoryCount : string := "auth.password_history_count".
Definition configAuthTemporaryPasswordTTLHours : string := "auth.temporary_password_ttl_hours".
Definition configAuditLoginFailureThreshold : string := "audit.threshold.login_failures_per_hour".
Definition configAuditRegistrationFailureThreshold : string :=
  "audit.threshold.registration_failures_per_hour".
Definition configAuditPrivilegedActionThreshold : string :=
  "audit.threshold.privileged_actions_per_hour".

Definition defaultPasswordHistoryLimit : Z := 5.

Definition getConfigString (key : string) : M string :=
  let* v := try (GetConfig key) in
  ret match v with Ok value => value | Err _ => "" end.

Definition getConfigIntDefault (key : string) (fallback : Z) : M Z :=
  let* v := try (GetConfig key) in
  ret match v with
      | Ok value => match Atoi value with Some parsed => parsed | None => fallback end
      | Err _ => fallback
      end.

Definition getConfigBoolDefault (key : string) (fallback : bool) : M bool :=
  let* v := try (GetConfig key) in
  ret match v with
      | Ok value => match ParseBool value with Some parsed => parsed | None => fallback end
      | Err _ => fallback
      end.

Definition nonempty (v : string) : option string := if String.eqb v "" then None else Some v.

Definition GetAuditHealth : M AuditHealth :=
  let* count := getConfigIntDefault configAuditFailureCount 0 in
  let* degraded := getConfigBoolDefault configAuditDegraded false in
  let* lastFailureAt := getConfigString configAuditLastFailureAt in
  let* lastFailureReason := getConfigString configAuditLastFailureReason in
  let* lastRecoveredAt := getConfigString configAuditLastRecoveredAt in
  ret (MkAuditHealth count (nonempty lastFailureAt) (nonempty lastFailureReason) degraded
         (nonempty lastRecoveredAt)).

Definition GetAuditSettings : M AuditSettings :=
  let* retention := getConfigIntDefault configAuditRetentionDays 90 in
  let* reminder := getConfigIntDefault configAuditReviewReminderDays 7 in
  let* history := getConfigIntDefault configAuthPasswordHistoryCount defaultPasswordHistoryLimit in
  let* ttl := getConfigIntDefault configAuthTemporaryPasswordTTLHours 72 in
  let* logins := getConfigIntDefault configAuditLoginFailureThreshold 10 in
  let* registrations := getConfigIntDefault configAuditRegistrationFailureThreshold 5 in
  let* privileged := getConfigIntDefault configAuditPrivilegedActionThreshold 20 in
  ret (MkAuditSettings retention reminder history ttl
         (MkAuditThresholds logins registrations privileged)).

(** The map of [UpdateAuditSettings]; Go ranges over it in any order. *)
Definition settings_values (s : AuditSettings) : list (string * string) :=
  [ (configAuditRetentionDays, Itoa (as_RetentionDays s));
    (configAuditReviewReminderDays, Itoa (as_ReviewReminderDays s));
    (configAuthPasswordHistoryCount, Itoa (as_PasswordHistoryCount s));
    (configAuthTemporaryPasswordTTLHours, Itoa (as_TemporaryPasswordTTLHours s));
    (configAuditLoginFailureThreshold, Itoa (at_LoginFailuresPerHour (as_Thresholds s)));
    (configAuditRegistrationFailureThreshold,
      Itoa (at_RegistrationFailuresPerHour (as_Thresholds s)));
    (configAuditPrivilegedActionThreshold, Itoa (at_PrivilegedActionsPerHour (as_Thresholds s))) ].

Fixpoint set_configs (values : list (string * string)) : M unit :=
  match values with
  | [] => ret tt
  | (key, value) :: values' => let* _ := SetConfig key value in set_configs values'
  end.

(** [values] is [settings_values settings] in the order of the iteration. *)
Definition UpdateAuditSettings (values : list (string * string)) : M unit := set_configs values.

Definition set_degraded (b : bool) : M unit := λ w, (Ok tt, w <| w_auditDegraded := b |>).
Definition get_degraded : M bool := λ w, (Ok (w_auditDegraded w), w).

Definition noteAuditFailure (err : string) : M unit :=
  let* wasDegraded := get_degraded in
  let* _ := set_degraded true in
  let* t := get_now in
  let now := format_rfc3339 t in
  let* count := getConfigIntDefault configAuditFailureCount 0 in
  let failureCount := wrap_int (count + 1) in
  let* _ := ignore (SetConfig configAuditFailureCount (Itoa failureCount)) in
  let* _ := ignore (SetConfig configAuditLastFailureAt now) in
  let* _ := ignore (SetConfig configAuditLastFailureReason err) in
  let* _ := ignore (SetConfig configAuditDegraded "true") in
  if wasDegraded then ret tt else
  let* health := GetAuditHealth in λ w,
  (Ok tt, if (w_observers w).1 then w <| w_observed ::= λ l, l ++ [(true, health)] |> else w).

Definition noteAuditSuccess : M unit :=
  let* wasDegraded := get_degraded in
  let* _ := set_degraded false in
  if negb wasDegraded then ret tt else
  let* t := get_now in
  let now := format_rfc3339 t in
  let* _ := ignore (SetConfig configAuditDegraded "false") in
  let* _ := ignore (SetConfig configAuditLastRecoveredAt now) in
  let* health := GetAuditHealth in λ w,
  (Ok tt, if (w_observers w).2 then w <| w_observed ::= λ l, l ++ [(false, health)] |> else w).

End config.

Definition ValidateAuditSettings (settings : AuditSettings) : result unit :=
  let t := as_Thresholds settings in
  if (as_RetentionDays settings <? 1) || (3650 <? as_RetentionDays settings)
  then Err "retention_days must be between 1 and 3650"
  else if (as_ReviewReminderDays settings <? 1) || (365 <? as_ReviewReminderDays settings)
  then Err "review_reminder_days must be between 1 and 365"
  else if (as_PasswordHistoryCount settings <? 1) || (24 <? as_PasswordHistoryCount settings)
  then Err "password_history_count must be between 1 and 24"
  else if (as_TemporaryPasswordTTLHours settings <? 1)
       || (24 * 30 <? as_TemporaryPasswordTTLHours settings)
  then Err "temporary_password_ttl_hours must be between 1 and 720"
  else if (at_LoginFailuresPerHour t <? 1) || (10000 <? at_LoginFailuresPerHour t)
  then Err "login_failures_per_hour must be between 1 and 10000"
  else if (at_RegistrationFailuresPerHour t <? 1) || (10000 <? at_RegistrationFailuresPerHour t)
  then Err "registration_failures_per_hour must be between 1 and 10000"
  else if (at_PrivilegedActionsPerHour t <? 1) || (10000 <? at_PrivilegedActionsPerHour t)
  then Err "privileged_actions_per_hour must be between 1 and 10000"
  else Ok tt.

(** ** Lemmas *)

Section config_lemmas.
Context `{E : Env}.

Lemma GetConfig_ok (key : string) (w : World) :
  no_faults w →
  try (GetConfig key) w =
    (Ok match d_config (w_db w) !! key with
        | Some v => Ok v
        | None => Err ("config key " +:+ quoted key +:+ " not found")
        end, w).
Proof.
  intros Hw. unfold try, GetConfig, LookupConfig, bind, wrap. rewrite query_row_ok by done.
  by destruct (d_config (w_db w) !! key).
Qed.

Lemma getConfigIntDefault_ok (key : string) (fallback n : Z) (w : World) :
  no_faults w → d_config (w_db w) !! key = Some (Itoa n) → 0 <= n <= max_int →
  getConfigIntDefault key fallback w = (Ok n, w).
Proof.
  intros Hw Hk Hn. unfold getConfigIntDefault, bind. rewrite GetConfig_ok, Hk by done.
  simpl. by rewrite Atoi_Itoa.
Qed.

Lemma SetConfig_ok (key value : string) (w : World) :
  no_faults w → db_violation (w_fk w) (w_db w) = None →
  SetConfig key value w = (Ok tt, w <| w_db ::= λ d, d <| d_config ::= <[key := value]> |> |>).
Proof.
  intros Hw Hv. unfold SetConfig, bind, wrap. by rewrite exec_ok.
Qed.

Lemma set_configs_ok (values : list (string * string)) (w : World) :
  no_faults w → db_violation (w_fk w) (w_db w) = None →
  set_configs values w =
    (Ok tt, w <| w_db ::= λ d, d <| d_config ::= λ c, foldl (λ c kv, <[kv.1 := kv.2]> c) c values |> |>).
Proof.
  revert w. induction values as [|[k v] values IH]; intros w Hw Hv; simpl.
  - unfold ret. by destruct w as [[]].
  - unfold bind. rewrite SetConfig_ok by done. by rewrite IH.
Qed.

Lemma foldl_insert_other (values : list (string * string)) (c : gmap string string) (k : string) :
  k ∉ values.*1 → foldl (λ c kv, <[kv.1 := kv.2]> c) c values !! k = c !! k.
Proof.
  revert c. induction values as [|[k' v'] vs IH]; intros c Hk; [done|]. simpl in *.
  apply not_elem_of_cons in Hk as [H1 H2]. rewrite IH by done. by apply lookup_insert_ne.
Qed.

Lemma foldl_insert_lookup (values : list (string * string)) (c : gmap string string) (k v : string) :
  NoDup values.*1 → (k, v) ∈ values → foldl (λ c kv, <[kv.1 := kv.2]> c) c values !! k = Some v.
Proof.
  revert c. induction values as [|[k' v'] values IH]; intros c Hnd Hin; [by inversion Hin|].
  simpl in *. apply NoDup_cons in Hnd as [Hk Hnd].
  apply elem_of_cons in Hin as [[= <- <-]|Hin]; [|by apply IH].
  rewrite foldl_insert_other by done. apply lookup_insert_eq.
Qed.

End config_lemmas.

(** Bounds of accepted settings. *)
Record settings_in_bounds (s : AuditSettings) : Prop := {
  sb_retention : 1 <= as_RetentionDays s <= 3650;
  sb_reminder : 1 <= as_ReviewReminderDays s <= 365;
  sb_history : 1 <= as_PasswordHistoryCount s <= 24;
  sb_ttl : 1 <= as_TemporaryPasswordTTLHours s <= 720;
  sb_logins : 1 <= at_LoginFailuresPerHour (as_Thresholds s) <= 10000;
  sb_registrations : 1 <= at_RegistrationFailuresPerHour (as_Thresholds s) <= 10000;
  sb_privileged : 1 <= at_PrivilegedActionsPerHour (as_Thresholds s) <= 10000
}.

Lemma ValidateAuditSettings_iff (s : AuditSettings) :
  ValidateAuditSettings s = Ok tt ↔ settings_in_bounds s.
Proof.
  unfold ValidateAuditSettings. cbv zeta. split.
  - intros H. repeat match type of H with
      | (if ?b then _ else _) = _ =>
          destruct b eqn:?; [discriminate|]
      end.
    bool_hyps. rewrite ?Z.ltb_ge in *. split; lia.
  - intros [H1 H2 H3 H4 H5 H6 H7].
    repeat match goal with
      | |- context [?a <? ?b] => destruct (Z.ltb_spec a b); [exfalso; lia|]
      end.
    done.
Qed.

(** ** Properties *)

(** audit settings that pass validation are in the documented bounds, and whatever the order
    in which the map of settings is written, reading them back gives the settings that were
    saved. *)
Theorem audit_settings_roundtrip `{Env} (s : AuditSettings) (values : list (string * string))
    (w : World) :
  no_faults w → db_violation (w_fk w) (w_db w) = None →
  ValidateAuditSettings s = Ok tt → values ≡ₚ settings_values s →
  settings_in_bounds s ∧
  let '(r, w') := UpdateAuditSettings values w in
  r = Ok tt ∧ GetAuditSettings w' = (Ok s, w').
Proof.
  intros Hw Hv Hs Hp. apply ValidateAuditSettings_iff in Hs. split; [done|].
  unfold UpdateAuditSettings. rewrite set_configs_ok by done. split; [done|].
  match goal with |- _ ?v = _ => set (w' := v) end.
  assert (Hnd : NoDup values.*1) by (rewrite Hp; vm_compute; repeat constructor; set_solver).
  set (reads :=
    [ (configAuditRetentionDays, as_RetentionDays s);
      (configAuditReviewReminderDays, as_ReviewReminderDays s);
      (configAuthPasswordHistoryCount, as_PasswordHistoryCount s);
      (configAuthTemporaryPasswordTTLHours, as_TemporaryPasswordTTLHours s);
      (configAuditLoginFailureThreshold, at_LoginFailuresPerHour (as_Thresholds s));
      (configAuditRegistrationFailureThreshold, at_RegistrationFailuresPerHour (as_Thresholds s));
      (configAuditPrivilegedActionThreshold, at_PrivilegedActionsPerHour (as_Thresholds s)) ]).
  assert (Hb : Forall (λ kn, 0 <= kn.2 <= max_int) reads).
  { destruct Hs. unfold max_int. repeat constructor; simpl; lia. }
  assert (Hread : Forall (λ kn, ∀ f, getConfigIntDefault kn.1 f w' = (Ok kn.2, w')) reads).
  { apply Forall_forall. intros [k n] Hin f. simpl.
    eapply Forall_forall in Hb; [|exact Hin].
    apply getConfigIntDefault_ok; [done| |done]. apply foldl_insert_lookup; [done|].
    rewrite Hp. change (settings_values s) with ((λ kn, (kn.1, Itoa kn.2)) <$> reads).
    apply list_elem_of_fmap. by exists (k, n). }
  repeat (apply Forall_cons in Hread as [? Hread]).
  unfold GetAuditSettings, bind. repeat match goal with H : ∀ f, _ = _ |- _ => rewrite H; clear H end.
  by destruct s as [? ? ? ? []].
Qed.

Section witnesses.
#[local] Existing Instance demoEnv.

Definition demo_settings : AuditSettings := MkAuditSettings 365 30 10 24 (MkAuditThresholds 7 8 9).

Lemma audit_settings_roundtrip_witness :
  settings_in_bounds demo_settings ∧
  let '(r, w') := UpdateAuditSettings (rev (settings_values demo_settings)) (demo_world empty_db) in
  r = Ok tt ∧ GetAuditSettings w' = (Ok demo_settings, w').
Proof.
  apply audit_settings_roundtrip; [done|by vm_compute|by vm_compute|].
  symmetry. apply Permutation_rev.
Defined.

End witnesses.
