(* ===== verification/StoreUsers.v ===== *)
(** * The [users] table (hub/internal/store/users.go). *)

From S2P Require Import Prelude GoStr GoTime Model Db Demo StoreConfig.

Definition errUserNotFound : string := "user not found".
Definition errNoRows : string := "sql: no rows in result set".
Definition configInitialSetupComplete : string := "initial_setup_completed".

Definition has_id (id : string) (u : User) : bool := String.eqb (u_ID u) id.

(** The row an [INSERT INTO users] makes of [u]: whole seconds, default creation times. *)
Definition user_row (now : Z) (u : User) : User :=
  u <| u_LDAPLastSyncAt := sqliteTimePtr (u_LDAPLastSyncAt u) |>
    <| u_TempPasswordExpiresAt := sqliteTimePtr (u_TempPasswordExpiresAt u) |>
    <| u_CreatedAt := sqlite_time now |> <| u_UpdatedAt := sqlite_time now |>.

(** The defaults [CreateUser] writes into its argument. *)
Definition create_defaults (u : User) : User :=
  let u := if String.eqb (u_AuthProvider u) "" then u <| u_AuthProvider := AuthProviderLocal |> else u in
  if String.eqb (u_LDAPUsername u) "" && String.eqb (u_AuthProvider u) AuthProviderLDAP
  then u <| u_LDAPUsername := u_Username u |> else u.

(** [s.scanUser(s.db.QueryRow(...))] *)
Definition scanUser (f : World → option User) : M User :=
  let* r := wrap "scan user" (query_row f) in
  match r with
  | None => fail errUserNotFound
  | Some u => ret u
  end.

Definition find_user (p : User → bool) (w : World) : option User :=
  List.find p (d_users (w_db w)).

Definition GetUserByID (id : string) : M User := scanUser (find_user (has_id id)).

Definition GetUserByUsername (username : string) : M User :=
  scanUser (find_user (λ u, String.eqb (u_Username u) username)).

Definition GetUserByExternalIdentity (provider externalID : string) : M User :=
  if String.eqb externalID "" then fail errUserNotFound
  else scanUser (find_user (λ u, String.eqb (u_AuthProvider u) provider &&
                                 String.eqb (u_ExternalID u) externalID)).

(** The error's text is the last element of [%w]. *)
Definition isUserNotFound (err : string) : bool := Contains err errUserNotFound.

Definition UserCount : M Z :=
  let* r := query_row (λ w, Some (Z.of_nat (length (d_users (w_db w))))) in
  ret (default 0 r).

Definition InitializedUserCount : M Z :=
  let* r := query_row (λ w, Some (count_rows u_TOTPEnabled (d_users (w_db w)))) in
  ret (default 0 r).

Definition InitialSetupComplete : M bool :=
  let* v := LookupConfig configInitialSetupComplete in
  match v with
  | Some value => ret (String.eqb value "true")
  | None => let* count := InitializedUserCount in ret (0 <? count)
  end.

Section users.
Context `{E : Env}.

(** [UPDATE users SET ..., updated_at = datetime('now') WHERE id = ?] *)
Definition update_user (userID : string) (f : User → User) (w : World) : Z * Db :=
  let d := w_db w in
  (count_rows (has_id userID) (d_users d),
   d <| d_users := update_rows (has_id userID)
                     (λ u, f u <| u_UpdatedAt := sqlite_time (w_now w) |>) (d_users d) |>).

Definition MarkInitialSetupComplete : M unit := SetConfig configInitialSetupComplete "true".

(** Returns the [User] the pointer argument is left with. *)
Definition CreateUser (u : User) : M User :=
  let u := create_defaults u in
  let* _ := wrap "create user" (exec (λ w,
              (1, w_db w <| d_users ::= λ l, l ++ [user_row (w_now w) u] |>))) in
  ret u.

Definition normalizeLDAPUser (u : User) : M User :=
  let* u := if String.eqb (u_ID u) "" then let* id := NewString in ret (u <| u_ID := id |>)
            else ret u in
  if String.eqb (u_Username u) "" then fail "username is required" else
  let u := if String.eqb (u_Email u) "" then u <| u_Email := u_Username u +:+ "@ldap.local" |>
           else u in
  let u := u <| u_AuthProvider := AuthProviderLDAP |> <| u_PasswordHash := "" |> in
  let u := if String.eqb (u_LDAPUsername u) "" then u <| u_LDAPUsername := u_Username u |> else u in
  let* now := get_now in
  ret (u <| u_LDAPLastSyncAt := Some now |>).

Definition findExistingLDAPUser (u : User) : M (option User) :=
  let* found :=
    if negb (String.eqb (u_ExternalID u) "") then
      let* r := try (GetUserByExternalIdentity AuthProviderLDAP (u_ExternalID u)) in
      match r with
      | Ok user => ret (Some user)
      | Err e => if isUserNotFound e then ret None else fail e
      end
    else ret None in
  match found with
  | Some user => ret (Some user)
  | None =>
      let* r := try (GetUserByUsername (u_Username u)) in
      match r with
      | Ok user => ret (Some user)
      | Err e => if isUserNotFound e then ret None else fail e
      end
  end.

Definition prepareLDAPUserUpdate (existing u : User) : result User :=
  if negb (String.eqb (u_AuthProvider existing) AuthProviderLDAP)
  then Err "username is reserved by a local user"
  else if negb (String.eqb (u_ExternalID existing) "") && negb (String.eqb (u_ExternalID u) "")
       && negb (String.eqb (u_ExternalID existing) (u_ExternalID u))
  then Err "LDAP external identity mismatch"
  else Ok (if String.eqb (u_ExternalID u) "" then u <| u_ExternalID := u_ExternalID existing |>
           else u).

Definition updateLDAPUser (userID : string) (u : User) : M unit :=
  let* _ := wrap "update ldap user" (exec (update_user userID (λ r,
    r <| u_Username := u_Username u |> <| u_Email := u_Email u |> <| u_Role := u_Role u |>
      <| u_AuthProvider := AuthProviderLDAP |> <| u_ExternalID := u_ExternalID u |>
      <| u_LDAPDN := u_LDAPDN u |> <| u_LDAPUsername := u_LDAPUsername u |>
      <| u_LDAPLastSyncAt := sqliteTimePtr (u_LDAPLastSyncAt u) |>
      <| u_TerminalAccess := u_TerminalAccess u |>))) in
  ret tt.

(** The generation is a SQLite integer; Go scans it into an [int]. *)
Definition IncrementTokenGeneration (userID : string) : M Z :=
  let* _ := wrap "increment token generation"
              (exec (update_user userID (λ u, u <| u_TokenGeneration ::= Z.add 1 |>))) in
  wrap "read token generation"
    (let* r := query_row (find_user (has_id userID)) in
     match r with
     | None => fail errNoRows
     | Some u => ret (u_TokenGeneration u)
     end).

Definition UpsertLDAPUser (u : User) : M User :=
  let* u := normalizeLDAPUser u in
  let* existing := findExistingLDAPUser u in
  match existing with
  | None =>
      let* u := CreateUser u in
      GetUserByID (u_ID u)
  | Some existing =>
      match prepareLDAPUserUpdate existing u with
      | Err e => fail e
      | Ok u =>
          let rotateSessions := negb (String.eqb (u_Role existing) (u_Role u))
                                || negb (Bool.eqb (u_TerminalAccess existing) (u_TerminalAccess u)) in
          let* _ := updateLDAPUser (u_ID existing) u in
          let* _ := if rotateSessions then
                      wrap "invalidate sessions after ldap attribute change"
                        (IncrementTokenGeneration (u_ID existing))
                    else ret 0 in
          GetUserByID (u_ID existing)
      end
  end.

Definition DeleteIncompleteUsers : M unit :=
  let incomplete (d : Db) (id : string) :=
    existsb (λ u, String.eqb (u_ID u) id && negb (u_TOTPEnabled u)) (d_users d) in
  let* _ := wrap "delete incomplete user audit logs" (exec (λ w,
    let p e := match ae_UserID e with Some id => incomplete (w_db w) id | None => false end in
    (count_rows p (d_audit_logs (w_db w)), delete_audit_logs (w_fk w) p (w_db w)))) in
  let* _ := wrap "delete incomplete users" (exec (λ w,
    let p u := negb (u_TOTPEnabled u) in
    (count_rows p (d_users (w_db w)), delete_users (w_fk w) p (w_db w)))) in
  ret tt.

Definition UpdateUserTOTP (userID : string) (secret : option string) (enabled : bool) : M unit :=
  let* _ := wrap "update totp" (exec (update_user userID
              (λ u, u <| u_TOTPSecret := secret |> <| u_TOTPEnabled := enabled |>))) in
  ret tt.

(** The statements of [cleanupQueries]: each removes the user's rows of one table. *)
Definition owned {A : Type} (owner : A → string) (userID : string) (l : list A) : list A :=
  List.filter (λ r, negb (String.eqb (owner r) userID)) l.

Definition cleanupQueries (id : string) : list (string * (Db → Db)) :=
  [ ("DELETE FROM notification_preferences WHERE user_id = ?",
      λ d, d <| d_notification_preferences ::= filter (λ kv, kv.1.1 ≠ id) |>);
    ("DELETE FROM notification_log WHERE user_id = ?",
      λ d, d <| d_notification_log ::= owned nl_user_id id |>);
    ("DELETE FROM api_tokens WHERE user_id = ?", λ d, d <| d_api_tokens ::= owned tk_UserID id |>);
    ("DELETE FROM permissions WHERE user_id = ?", λ d, d <| d_permissions ::= owned pr_user_id id |>);
    ("DELETE FROM password_history WHERE user_id = ?",
      λ d, d <| d_password_history ::= owned hr_user_id id |>);
    ("DELETE FROM audit_saved_filters WHERE created_by = ?",
      λ d, d <| d_saved_filters ::= owned fr_created_by id |>);
    ("DELETE FROM audit_reviews WHERE reviewer_id = ?",
      λ d, d <| d_reviews ::= owned rr_reviewer_id id |>);
    ("DELETE FROM audit_flags WHERE created_by = ?",
      λ d, d <| d_flags ::= owned fl_created_by id |>) ].

Fixpoint run_cleanup (qs : list (string * (Db → Db))) : M unit :=
  match qs with
  | [] => ret tt
  | (q, f) :: qs' =>
      let* _ := wrap ("cleanup " +:+ q) (exec (λ w, (0, f (w_db w)))) in run_cleanup qs'
  end.

Definition nullify_audit (id : string) (d : Db) : Db :=
  d <| d_audit_logs ::= update_rows (λ e, bool_decide (ae_UserID e = Some id))
                          (λ e, e <| ae_UserID := None |>) |>.

Definition DeleteUser (userID : string) : M unit :=
  transaction (wrap "begin delete user tx") plain
    (let* _ := wrap "nullify audit logs" (exec (λ w, (0, nullify_audit userID (w_db w)))) in
     let* _ := run_cleanup (cleanupQueries userID) in
     let* n := wrap "delete user" (exec (λ w,
                 (count_rows (has_id userID) (d_users (w_db w)),
                  delete_users (w_fk w) (has_id userID) (w_db w)))) in
     let* rows := wrap "delete user rows" (RowsAffected n) in
     if rows =? 0 then fail errUserNotFound else ret tt).

Definition UpdateUserRole (userID role : string) : M unit :=
  let* n := wrap "update role" (exec (update_user userID (λ u, u <| u_Role := role |>))) in
  let* rows := wrap "update role rows" (RowsAffected n) in
  if rows =? 0 then fail errUserNotFound else ret tt.

Definition UpdateUserAvatar (userID : string) (avatar : option string) : M unit :=
  let* _ := wrap "update avatar" (exec (update_user userID (λ u, u <| u_Avatar := avatar |>))) in
  ret tt.

Definition UpdateUserPassword (userID passwordHash : string) : M unit :=
  let* _ := wrap "update password" (exec (update_user userID (λ u,
    u <| u_PasswordHash := passwordHash |> <| u_MustChangePassword := false |>
      <| u_TempPasswordExpiresAt := None |>))) in
  ret tt.

Definition SetTemporaryPasswordState (userID : string) (mustChange : bool) (expiresAt : option Z)
  : M unit :=
  let* _ := wrap "set temporary password state" (exec (update_user userID (λ u,
    u <| u_MustChangePassword := mustChange |>
      <| u_TempPasswordExpiresAt := sqliteTimePtr expiresAt |>))) in
  ret tt.

Definition ListUsers : M (list User) :=
  query (wrap "list users") (wrap "scan user row") plain (λ w,
    order_by (asc u_CreatedAt) (d_users (w_db w))).

End users.

(** ** Deleting a user *)

(** What [DeleteUser] promises: the user's row and every row that belongs to them are gone, their
    audit entries are kept without the reference, and no other row changes. *)
Definition forget_user (id : string) (d : Db) : Db :=
  d <| d_users ::= List.filter (λ u, negb (has_id id u)) |>
    <| d_audit_logs ::= update_rows (λ e, bool_decide (ae_UserID e = Some id))
                          (λ e, e <| ae_UserID := None |>) |>
    <| d_notification_preferences ::= filter (λ kv, kv.1.1 ≠ id) |>
    <| d_notification_log ::= owned nl_user_id id |>
    <| d_api_tokens ::= owned tk_UserID id |>
    <| d_permissions ::= owned pr_user_id id |>
    <| d_password_history ::= owned hr_user_id id |>
    <| d_saved_filters ::= owned fr_created_by id |>
    <| d_reviews ::= owned rr_reviewer_id id |>
    <| d_flags ::= owned fl_created_by id |>.

Lemma filter_id {A : Type} (p : A → bool) (l : list A) :
  Forall (λ x, p x = true) l → List.filter p l = l.
Proof. induction 1 as [|x l Hx HF IH]; simpl; [done|]. by rewrite Hx, IH. Qed.

Lemma owned_no_owner {A : Type} (owner : A → string) (id : string) (l : list A) (gone : string → bool) :
  (∀ x, gone x = true → x = id) →
  List.filter (λ r, negb (gone (owner r))) (owned owner id l) = owned owner id l.
Proof.
  intros Hg. apply filter_id. apply Forall_forall. intros x Hx%list_elem_of_In.
  apply filter_In in Hx as [_ Hx]. apply negb_true_iff, String.eqb_neq in Hx.
  apply negb_true_iff. destruct (gone (owner x)) eqn:E; [|done]. by apply Hg in E.
Qed.

Lemma gone_has_id (id x : string) (us : list User) : gone u_ID (has_id id) us x = true → x = id.
Proof.
  unfold gone. intros (u & _ & Hu)%existsb_exists. unfold has_id in Hu. bool_hyps. congruence.
Qed.

(** The cascades of the foreign keys find nothing left to do, so that the outcome does not depend
    on the connection's [foreign_keys] setting. *)
Lemma delete_users_cleaned (fk : bool) (id : string) (d : Db) :
  delete_users fk (has_id id) (foldl (λ d q, q.2 d) (nullify_audit id d) (cleanupQueries id)) =
  forget_user id d.
Proof.
  unfold delete_users. destruct fk; [|reflexivity]. cbn [negb].
  unfold cleanupQueries, forget_user, nullify_audit. simpl.
  f_equal; try (apply owned_no_owner; intros x; apply gone_has_id).
  - rewrite <- (map_id (update_rows _ _ _)) at 2. apply map_ext_in. intros e He.
    destruct (ae_UserID e) as [u|] eqn:Eu; [|done].
    destruct (gone _ _ _ u) eqn:Eg; [|done]. apply gone_has_id in Eg. subst u. exfalso.
    unfold update_rows in He. apply in_map_iff in He as (e' & He' & _).
    case_bool_decide as Hb; subst e; [discriminate Eu|congruence].
  - apply map_filter_id. intros [u ev] b Hb. apply map_lookup_filter_Some in Hb as [_ Hb].
    simpl in *. destruct (gone _ _ _ u) eqn:Eg; [|done]. by apply gone_has_id in Eg.
Qed.

Lemma not_owned {A : Type} (owner : A → string) (id : string) (l : list A) :
  id ∉ map owner (owned owner id l).
Proof.
  intros Hin%list_elem_of_In. apply in_map_iff in Hin as (x & Hx & Hin).
  apply filter_In in Hin as [_ Hn]. by apply negb_true_iff, String.eqb_neq in Hn.
Qed.

Lemma forget_user_no_refs (id : string) (d : Db) : id ∉ user_refs (forget_user id d).
Proof.
  unfold user_refs, forget_user. simpl. rewrite !not_elem_of_app.
  split_and!; try apply not_owned.
  - intros (e & He & Hu)%list_elem_of_omap. unfold update_rows in He.
    apply list_elem_of_In, in_map_iff in He as (e' & He & _).
    case_bool_decide; subst e; [discriminate Hu|congruence].
  - intros ([u ev] & -> & Hin)%list_elem_of_fmap.
    apply list_elem_of_fmap in Hin as ([[u' ev'] b'] & [= <- <-] & Hin).
    apply elem_of_map_to_list, map_lookup_filter_Some in Hin as [_ Hin]. by simpl in Hin.
Qed.

Lemma forget_user_gone (id : string) (d : Db) : known_user (forget_user id d) id = false.
Proof.
  unfold known_user, forget_user. simpl. apply not_true_iff_false.
  intros (u & Hu & He)%existsb_exists. apply filter_In in Hu as [_ Hn].
  unfold has_id in Hn. by rewrite He in Hn.
Qed.

Section delete_user.
Context `{E : Env}.

Lemma run_cleanup_wp (qs : list (string * (Db → Db))) (w : World) :
  wp (run_cleanup qs) (λ r w', match r with
    | Ok _ => ∃ fs, w' = w <| w_faults := fs |> <| w_db := foldl (λ d q, q.2 d) (w_db w) qs |>
    | Err _ => True
    end) w.
Proof.
  revert w. induction qs as [|[q f] qs IH]; intros w; simpl.
  - apply wp_ret. exists (w_faults w). by destruct w.
  - do 3 wp_step; [done|]. eapply wp_mono; [apply IH|].
    intros [[]|e] w'; simpl; [|done]. intros [fs' ->]. by exists fs'.
Qed.

Lemma count_rows_known (id : string) (us : list User) :
  count_rows (has_id id) us = 0 ↔ existsb (has_id id) us = false.
Proof.
  unfold count_rows. induction us as [|u us IH]; simpl; [done|].
  destruct (has_id id u); simpl; [split; [lia|done]|exact IH].
Qed.

End delete_user.

(** C1: deleting a user is all or nothing, whichever of its twelve statements fails and whether
    or not the connection enforces foreign keys.  On an error the database is unchanged; on
    success the user existed and the database is [forget_user] of the old one, in which the user
    is unknown and no row of any table refers to them. *)
Theorem DeleteUser_atomic `{Env} (id : string) (w : World) :
  let '(r, w') := DeleteUser id w in
  match r with
  | Err _ => w_db w' = w_db w
  | Ok _ => known_user (w_db w) id = true ∧ w_db w' = forget_user id (w_db w) ∧
            known_user (w_db w') id = false ∧ id ∉ user_refs (w_db w')
  end.
Proof.
  cut (wp (DeleteUser id) (λ r w', match r with
    | Err _ => w_db w' = w_db w
    | Ok _ => known_user (w_db w) id = true ∧ w_db w' = forget_user id (w_db w)
    end) w).
  { unfold wp. destruct (DeleteUser id w) as [[[]|e] w']; simpl; [|done].
    intros [Hk ->]. split_and!; auto using forget_user_gone, forget_user_no_refs. }
  unfold DeleteUser. apply wp_transaction; auto with veyport. intros fs.
  do 3 wp_step; [done|]. wp_step. eapply wp_mono; [apply run_cleanup_wp|].
  intros [[]|e] w1; [|done]. intros [fs1 ->]. do 3 wp_step; [done|]. do 3 wp_step; [done|].
  simpl. destruct (Z.eqb_spec (count_rows (has_id id) (d_users (w_db w))) 0) as [Hz|Hz];
    [by apply wp_fail|]. apply wp_ret. split; [done|]. intros fs4. simpl. split.
  - apply not_false_iff_true. intros Hf. apply Hz, count_rows_known.
    exact Hf.
  - apply delete_users_cleaned.
Qed.

(** ** LDAP accounts *)

Section ldap.
Context `{E : Env}.

Lemma scanUser_wp (f : World → option User) (Q : result User → World → Prop) (w : World) :
  (∀ e fs, Q (Err e) (w <| w_faults := fs |>)) →
  (∀ fs u, f (w <| w_faults := fs |>) = Some u → Q (Ok u) (w <| w_faults := fs |>)) →
  wp (scanUser f) Q w.
Proof.
  intros H1 H2. unfold scanUser. do 3 wp_step; [apply H1|].
  destruct (f _) as [u|] eqn:Ef; wp_step; [by apply H2|apply H1].
Qed.

Lemma findExistingLDAPUser_wp (u : User) (Q : result (option User) → World → Prop) (w : World) :
  (∀ e fs, Q (Err e) (w <| w_faults := fs |>)) →
  (∀ fs, Q (Ok None) (w <| w_faults := fs |>)) →
  (∀ fs v, v ∈ d_users (w_db w) → Q (Ok (Some v)) (w <| w_faults := fs |>)) →
  wp (findExistingLDAPUser u) Q w.
Proof.
  intros H1 H2 H3. unfold findExistingLDAPUser.
  assert (Hname : ∀ fs, wp (bind (try (GetUserByUsername (u_Username u))) (λ r,
      match r with
      | Ok user => ret (Some user)
      | Err e => if isUserNotFound e then ret None else fail e
      end)) Q (w <| w_faults := fs |>)).
  { intros fs. do 2 wp_step. apply scanUser_wp.
    - intros e fs'. destruct (isUserNotFound e); wp_step; [apply H2|apply H1].
    - intros fs' v [Hv _]%elem_of_find. wp_step. by apply H3. }
  wp_step. destruct (negb _).
  - do 2 wp_step. unfold GetUserByExternalIdentity.
    assert (Herr : ∀ e fs, wp (if isUserNotFound e then ret None else fail e)
      (λ r w', match r with
        | Ok b => wp match b with
            | Some user => ret (Some user)
            | None => bind (try (GetUserByUsername (u_Username u))) (λ r,
                match r with
                | Ok user => ret (Some user)
                | Err e => if isUserNotFound e then ret None else fail e
                end)
            end Q w'
        | Err e => Q (Err e) w'
        end) (w <| w_faults := fs |>)).
    { intros e fs. destruct (isUserNotFound e); wp_step; [apply Hname|apply H1]. }
    destruct (String.eqb _ _).
    + wp_step. specialize (Herr errUserNotFound (w_faults w)). by destruct w.
    + apply scanUser_wp; [exact Herr|]. intros fs v [Hv _]%elem_of_find. do 2 wp_step.
      by apply H3.
  - wp_step. specialize (Hname (w_faults w)). by destruct w.
Qed.

(** What [normalizeLDAPUser] keeps of its argument. *)
Record normalized (u u' : User) : Prop := {
  nz_provider : u_AuthProvider u' = AuthProviderLDAP;
  nz_role : u_Role u' = u_Role u;
  nz_terminal : u_TerminalAccess u' = u_TerminalAccess u;
  nz_external : u_ExternalID u' = u_ExternalID u
}.

Lemma normalizeLDAPUser_wp (u : User) (Q : result User → World → Prop) (w : World) :
  (∀ e n, Q (Err e) (w <| w_draws := n |>)) →
  (∀ u' n, normalized u u' → Q (Ok u') (w <| w_draws := n |>)) →
  wp (normalizeLDAPUser u) Q w.
Proof.
  intros H1 H2. unfold normalizeLDAPUser. wp_step.
  assert (Hrest : ∀ u1 n, normalized u (u1 <| u_AuthProvider := AuthProviderLDAP |>) →
    wp (if String.eqb (u_Username u1) "" then fail "username is required" else
      let u := if String.eqb (u_Email u1) "" then u1 <| u_Email := u_Username u1 +:+ "@ldap.local" |>
           else u1 in
      let u := u <| u_AuthProvider := AuthProviderLDAP |> <| u_PasswordHash := "" |> in
      let u := if String.eqb (u_LDAPUsername u) "" then u <| u_LDAPUsername := u_Username u |> else u in
      let* now := get_now in
      ret (u <| u_LDAPLastSyncAt := Some now |>)) Q (w <| w_draws := n |>)).
  { intros u1 n [P1 P2 P3 P4]. simpl in *. case_match; [apply wp_fail, H1|]. cbv zeta.
    unfold wp, bind, get_now, ret. simpl. apply H2. by repeat case_match; split. }
  destruct (String.eqb (u_ID u) "").
  - unfold wp, NewString, draw, bind, ret. apply (Hrest (u <| u_ID := uuid (w_draws w) |>)). by split.
  - wp_step. replace w with (w <| w_draws := w_draws w |>) by by destruct w. apply Hrest. by split.
Qed.

End ldap.

Section ldap_upsert.
Context `{E : Env}.

Lemma update_user_found (id : string) (f : User → User) (w : World) (u : User) :
  (∀ v, u_ID (f v) = u_ID v) → NoDup (map u_ID (d_users (w_db w))) → u ∈ d_users (w_db w) →
  u_ID u = id →
  List.find (has_id id) (d_users (update_user id f w).2) =
    Some (f u <| u_UpdatedAt := sqlite_time (w_now w) |>).
Proof.
  intros Hf Hnd Hu <-. unfold update_user. simpl. unfold has_id.
  rewrite (find_update_rows (λ v, String.eqb (u_ID v) (u_ID u))); simpl.
  - by rewrite (find_by_key u_ID).
  - intros v. by rewrite Hf.
Qed.

Lemma update_user_ids (id : string) (f : User → User) (w : World) :
  (∀ v, u_ID (f v) = u_ID v) →
  map u_ID (d_users (update_user id f w).2) = map u_ID (d_users (w_db w)).
Proof.
  intros Hf. simpl. unfold update_rows. rewrite map_map. apply map_ext. intros v.
  case_match; [apply Hf|done].
Qed.

(** The effect of an upsert seen from outside: rows of other accounts stay; the returned account
    has the directory's role and terminal access, and a newer generation if either changed. *)
Definition upserted (u : User) (d d' : Db) (r : result User) : Prop :=
  (∀ v, v ∈ d_users d → u_AuthProvider v ≠ AuthProviderLDAP → v ∈ d_users d') ∧
  match r with
  | Err _ => True
  | Ok v => u_AuthProvider v = AuthProviderLDAP ∧ u_Role v = u_Role u ∧
      u_TerminalAccess v = u_TerminalAccess u ∧ v ∈ d_users d' ∧
      ∀ v0, v0 ∈ d_users d → u_ID v0 = u_ID v →
        u_AuthProvider v0 = AuthProviderLDAP ∧
        (u_Role v0 ≠ u_Role u ∨ u_TerminalAccess v0 ≠ u_TerminalAccess u →
         u_TokenGeneration v0 < u_TokenGeneration v)
  end.

Lemma upsert_create_wp (u u' : User) (w : World) :
  NoDup (map u_ID (d_users (w_db w))) → normalized u u' →
  wp (bind (CreateUser u') (λ u1, GetUserByID (u_ID u1)))
    (λ r w', upserted u (w_db w) (w_db w') r) w.
Proof.
  intros Hnd [Hp Hr Ht _]. wp_step. unfold CreateUser. do 3 wp_step.
  { split; [|done]. by intros v Hv _. }
  match goal with H : db_violation _ _ = None |- _ => apply users_id_NoDup in H as Hnd' end.
  simpl in Hnd'. wp_step. set (u1 := create_defaults u') in *.
  assert (H1 : u_AuthProvider u1 = AuthProviderLDAP ∧ u_Role u1 = u_Role u ∧
               u_TerminalAccess u1 = u_TerminalAccess u).
  { unfold u1, create_defaults. rewrite Hp. simpl. by case_match. }
  clearbody u1. destruct H1 as (H1 & H2 & H3).
  apply scanUser_wp.
  - intros e fs. split; [|done]. intros v Hv _. simpl. set_solver.
  - intros fs v Hv. simpl in Hv. unfold find_user, has_id in Hv.
    assert (Hin := Hv). apply elem_of_find in Hin as [Hin Hid].
    simpl in Hin. apply String.eqb_eq in Hid.
    assert (Hrow : v = user_row (w_now w) u1).
    { assert (Hf := find_by_key u_ID _ (user_row (w_now w) u1) Hnd' ltac:(set_solver)).
      simpl in Hf, Hv. congruence. }
    subst v. split; [intros v Hv' _; simpl; set_solver|]. simpl. split_and!; auto.
    intros v0 Hv0 Hid0. exfalso. rewrite map_app in Hnd'. apply NoDup_app in Hnd' as (_ & Hd & _).
    apply (Hd (u_ID v0)); [|simpl; set_solver]. apply list_elem_of_In, in_map. by apply list_elem_of_In.
Qed.

(** Rows of the other users survive an update of [id]. *)
Definition others_kept (id : string) (d d' : Db) : Prop :=
  ∀ v, v ∈ d_users d → u_ID v ≠ id → v ∈ d_users d'.

Lemma update_user_others (id : string) (f : User → User) (w : World) (d : Db) :
  others_kept id d (w_db w) → others_kept id d (update_user id f w).2.
Proof.
  intros Ho v Hv Hid. simpl. apply update_rows_other; [by apply Ho|].
  unfold has_id. by apply String.eqb_neq.
Qed.

(** The account [id] of [d] has become [v] in [d']. *)
Record became (id : string) (d d' : Db) (v : User) : Prop := {
  bc_others : others_kept id d d';
  bc_ids : NoDup (map u_ID (d_users d'));
  bc_in : v ∈ d_users d';
  bc_id : u_ID v = id
}.

Lemma became_update (id : string) (f : User → User) (w : World) (d : Db) (v : User) :
  (∀ u, u_ID (f u) = u_ID u) → became id d (w_db w) v →
  became id d (update_user id f w).2 (f v <| u_UpdatedAt := sqlite_time (w_now w) |>).
Proof.
  intros Hf [H1 H2 H3 H4]. split.
  - by apply update_user_others.
  - by rewrite update_user_ids.
  - eapply (elem_of_find (has_id id)), update_user_found; auto.
  - simpl. by rewrite Hf.
Qed.

Lemma exec_update_user_wp (id : string) (f : User → User) (d : Db) (v : User)
    (Q : result Z → World → Prop) (w : World) :
  (∀ u, u_ID (f u) = u_ID u) → became id d (w_db w) v →
  (∀ e fs, Q (Err e) (w <| w_faults := fs |>)) →
  (∀ n w1, became id d (w_db w1) (f v <| u_UpdatedAt := sqlite_time (w_now w) |>) → Q (Ok n) w1) →
  wp (exec (update_user id f)) Q w.
Proof.
  intros Hf Hb H1 H2. wp_step; [apply H1|]. apply H2.
  pose (w1 := w <| w_faults := faults |>). exact (became_update id f w1 d v Hf Hb).
Qed.

Lemma GetUserByID_wp (id : string) (d : Db) (v : User) (Q : result User → World → Prop) (w : World) :
  became id d (w_db w) v →
  (∀ e fs, Q (Err e) (w <| w_faults := fs |>)) → (∀ fs, Q (Ok v) (w <| w_faults := fs |>)) →
  wp (GetUserByID id) Q w.
Proof.
  intros [_ H2 H3 <-] He Hq. apply scanUser_wp; [done|]. intros fs u Hu.
  unfold find_user, has_id in Hu. simpl in Hu. rewrite (find_by_key u_ID) in Hu by done.
  injection Hu as <-. apply Hq.
Qed.

Lemma same_user (us : list User) (u v : User) :
  NoDup (map u_ID us) → u ∈ us → v ∈ us → u_ID u = u_ID v → u = v.
Proof.
  intros Hnd Hu Hv Heq. assert (H1 := find_by_key u_ID us u Hnd Hu).
  rewrite Heq, (find_by_key u_ID us v) in H1 by done. by injection H1.
Qed.

(** Local accounts survive what only touches an LDAP account. *)
Lemma locals_kept (existing : User) (d d' : Db) :
  NoDup (map u_ID (d_users d)) → existing ∈ d_users d → u_AuthProvider existing = AuthProviderLDAP →
  others_kept (u_ID existing) d d' →
  ∀ v, v ∈ d_users d → u_AuthProvider v ≠ AuthProviderLDAP → v ∈ d_users d'.
Proof.
  intros Hnd Hex Hldap Ho v Hv Hl. apply Ho; [done|]. intros Heq.
  by rewrite (same_user _ v existing Hnd) in Hl.
Qed.

(** The account after the update, before the rotation of its sessions. *)
Record synced (u existing v : User) (d d' : Db) : Prop := {
  sy_ids : NoDup (map u_ID (d_users d));
  sy_in : existing ∈ d_users d;
  sy_ldap : u_AuthProvider existing = AuthProviderLDAP;
  sy_became : became (u_ID existing) d d' v;
  sy_provider : u_AuthProvider v = AuthProviderLDAP;
  sy_role : u_Role v = u_Role u;
  sy_terminal : u_TerminalAccess v = u_TerminalAccess u
}.

Lemma synced_err (u existing v : User) (d d' : Db) (e : string) :
  synced u existing v d d' → upserted u d d' (Err e).
Proof. intros [? ? ? []]. split; [|done]. by apply (locals_kept existing). Qed.

Lemma synced_ok (u existing v : User) (d d' : Db) :
  synced u existing v d d' →
  (u_Role existing ≠ u_Role u ∨ u_TerminalAccess existing ≠ u_TerminalAccess u →
   u_TokenGeneration existing < u_TokenGeneration v) →
  upserted u d d' (Ok v).
Proof.
  intros [Hnd Hin Hldap Hb ? ? ?] Hg. destruct (Hb) as [Ho _ Hv Hid].
  split; [by apply (locals_kept existing)|]. split_and!; auto.
  intros v0 Hv0 Hid0. rewrite Hid in Hid0. by rewrite (same_user _ v0 existing Hnd).
Qed.

Lemma rotate_wp (u existing v : User) (d : Db) (w : World) :
  synced u existing v d (w_db w) → u_TokenGeneration v = u_TokenGeneration existing →
  wp (let* _ := if negb (String.eqb (u_Role existing) (u_Role u))
                   || negb (Bool.eqb (u_TerminalAccess existing) (u_TerminalAccess u)) then
                  wrap "invalidate sessions after ldap attribute change"
                    (IncrementTokenGeneration (u_ID existing))
                else ret 0 in
      GetUserByID (u_ID existing)) (λ r w', upserted u d (w_db w') r) w.
Proof.
  intros Hs Hgen. wp_step. destruct (negb _ || negb _) eqn:Hrot.
  - wp_step. unfold IncrementTokenGeneration. do 2 wp_step.
    eapply exec_update_user_wp; [done|exact (sy_became _ _ _ _ _ Hs)| |].
    { intros e fs. by apply (synced_err _ _ _ _ _ _ Hs). }
    intros n w2 Hb2. match type of Hb2 with became _ _ _ ?x => set (v2 := x) in * end.
    assert (Hs2 : synced u existing v2 d (w_db w2)) by by destruct Hs; split.
    do 3 wp_step; [by apply (synced_err _ _ _ _ _ _ Hs2)|].
    destruct (find_user _ _) as [g|]; wp_step; [|by apply (synced_err _ _ _ _ _ _ Hs2)].
    eapply GetUserByID_wp; [exact Hb2| |]; intros.
    + by apply (synced_err _ _ _ _ _ _ Hs2).
    + apply (synced_ok _ _ _ _ _ Hs2). intros _. simpl. lia.
  - wp_step. eapply GetUserByID_wp; [exact (sy_became _ _ _ _ _ Hs)| |]; intros.
    + by apply (synced_err _ _ _ _ _ _ Hs).
    + apply (synced_ok _ _ _ _ _ Hs). bool_hyps. intros [Hn|Hn]; [congruence|].
      exfalso. by apply Hn, eqb_prop.
Qed.

Lemma prepareLDAPUserUpdate_ok (existing u u1 : User) :
  prepareLDAPUserUpdate existing u = Ok u1 →
  u_AuthProvider existing = AuthProviderLDAP ∧ u_Role u1 = u_Role u ∧
  u_TerminalAccess u1 = u_TerminalAccess u.
Proof.
  unfold prepareLDAPUserUpdate.
  destruct (String.eqb_spec (u_AuthProvider existing) AuthProviderLDAP); [|done]. simpl.
  intros Hp. repeat case_match; try done; injection Hp as <-; by split_and!.
Qed.

Lemma updateLDAPUser_wp (u existing u1 : User) (Q : result unit → World → Prop) (w : World) :
  NoDup (map u_ID (d_users (w_db w))) → existing ∈ d_users (w_db w) →
  u_AuthProvider existing = AuthProviderLDAP → u_Role u1 = u_Role u →
  u_TerminalAccess u1 = u_TerminalAccess u →
  (∀ e fs, Q (Err e) (w <| w_faults := fs |>)) →
  (∀ v w1, synced u existing v (w_db w) (w_db w1) →
     u_TokenGeneration v = u_TokenGeneration existing → Q (Ok tt) w1) →
  wp (updateLDAPUser (u_ID existing) u1) Q w.
Proof.
  intros Hnd Hex Hldap Hr Ht H1 H2. unfold updateLDAPUser. do 2 wp_step.
  eapply (exec_update_user_wp _ _ (w_db w) existing); [done| |intros; apply H1|].
  { split; [intros ?; done|done..]. }
  intros n w1 Hb1. wp_step. eapply H2; [split; [done|done|done|exact Hb1|..]|]; done.
Qed.

Lemma upsert_update_wp (u u' existing : User) (w : World) :
  NoDup (map u_ID (d_users (w_db w))) → normalized u u' → existing ∈ d_users (w_db w) →
  wp (match prepareLDAPUserUpdate existing u' with
      | Err e => fail e
      | Ok u =>
          let rotateSessions := negb (String.eqb (u_Role existing) (u_Role u))
                                || negb (Bool.eqb (u_TerminalAccess existing) (u_TerminalAccess u)) in
          let* _ := updateLDAPUser (u_ID existing) u in
          let* _ := if rotateSessions then
                      wrap "invalidate sessions after ldap attribute change"
                        (IncrementTokenGeneration (u_ID existing))
                    else ret 0 in
          GetUserByID (u_ID existing)
      end) (λ r w', upserted u (w_db w) (w_db w') r) w.
Proof.
  intros Hnd [Hp Hr Ht _] Hex. destruct (prepareLDAPUserUpdate existing u') as [u1|e] eqn:Hprep;
    [|by wp_step].
  apply prepareLDAPUserUpdate_ok in Hprep as (Hldap & Hr1 & Ht1). cbv zeta.
  rewrite Hr in Hr1. rewrite Ht in Ht1. wp_step.
  eapply (updateLDAPUser_wp u); [done..|by split|].
  intros v w1 Hs Hg. rewrite Hr1, Ht1. by eapply rotate_wp.
Qed.

End ldap_upsert.

Lemma UpsertLDAPUser_run `{Env} (u : User) (w : World) :
  db_violation (w_fk w) (w_db w) = None →
  wp (UpsertLDAPUser u) (λ r w', upserted u (w_db w) (w_db w') r) w.
Proof.
  intros Hnd%users_id_NoDup.
  unfold UpsertLDAPUser. wp_step. apply normalizeLDAPUser_wp; [by intros|].
  intros u' n Hu'. wp_step. apply findExistingLDAPUser_wp; [by intros|..].
  - intros fs. pose (w1 := w <| w_draws := n |> <| w_faults := fs |>).
    exact (upsert_create_wp u u' w1 Hnd Hu').
  - intros fs v Hv. pose (w1 := w <| w_draws := n |> <| w_faults := fs |>).
    exact (upsert_update_wp u u' v w1 Hnd Hu' Hv).
Qed.

(** signing in from the directory never takes over a local account: its row survives any
    [UpsertLDAPUser], which fails on a clash.  When it succeeds the returned account is an LDAP
    one with the directory's role and terminal access, and if either changed the account's
    session generation has grown, so that tokens issued before are refused. *)
Theorem UpsertLDAPUser_spec `{Env} (u : User) (w : World) :
  db_violation (w_fk w) (w_db w) = None →
  let '(r, w') := UpsertLDAPUser u w in upserted u (w_db w) (w_db w') r.
Proof.
  intros Hnd%(UpsertLDAPUser_run u). unfold wp in Hnd. by destruct (UpsertLDAPUser u w).
Qed.

Section witnesses.
#[local] Existing Instance demoEnv.

Definition demo_ldap (role : string) (gen : Z) : User :=
  zeroUser <| u_ID := "id1" |> <| u_Username := "ann" |> <| u_Email := "ann@x" |>
           <| u_Role := role |> <| u_AuthProvider := AuthProviderLDAP |>
           <| u_LDAPUsername := "ann" |> <| u_TokenGeneration := gen |>.
Definition demo_db_ldap : Db := empty_db <| d_users := [demo_ldap RoleViewer 4] |>.

Lemma UpsertLDAPUser_spec_witness :
  let '(r, w') := UpsertLDAPUser (demo_ldap RoleAdmin 0) (demo_world demo_db_ldap) in
  upserted (demo_ldap RoleAdmin 0) demo_db_ldap (w_db w') r.
Proof.
  apply (UpsertLDAPUser_spec (demo_ldap RoleAdmin 0) (demo_world demo_db_ldap)). by vm_compute.
Defined.

(** The upsert is not one transaction: when the increment fails after the update, the role has
    changed, the sign-in reports an error, and the next sign-in, which sees no change, does not
    rotate the sessions either.  The generation never grows although the role did. *)
Lemma UpsertLDAPUser_missed_rotation :
  let w := demo_world demo_db_ldap <| w_faults := [None; None; Some "database is locked"] |> in
  let u := demo_ldap RoleAdmin 0 in
  let '(r1, w1) := UpsertLDAPUser u w in
  let '(r2, w2) := UpsertLDAPUser u w1 in
  is_ok r1 = false ∧ w_faults w1 = [] ∧
  match r2 with
  | Ok v => u_Role v = RoleAdmin ∧ u_TokenGeneration v = 4
  | Err _ => False
  end.
Proof. by vm_compute. Qed.

End witnesses.

(** ** Successful calls *)

(** The row [IncrementTokenGeneration] leaves of a user. *)
Definition bump (now : Z) (u : User) : User :=
  u <| u_TokenGeneration ::= Z.add 1 |> <| u_UpdatedAt := sqlite_time now |>.

Lemma scanUser_Ok (f : World → option User) (w w' : World) (u : User) :
  scanUser f w = (Ok u, w') → ∃ fs, w' = w <| w_faults := fs |> ∧ f w' = Some u.
Proof.
  unfold scanUser. intros H. ok_inv. apply query_row_Ok in H as (fs & -> & Hf). by exists fs.
Qed.

Lemma GetUserByID_Ok (id : string) (w w' : World) (u : User) :
  GetUserByID id w = (Ok u, w') →
  u ∈ d_users (w_db w) ∧ u_ID u = id ∧ ∃ fs, w' = w <| w_faults := fs |>.
Proof.
  intros (fs & -> & [Hu Hid%String.eqb_eq]%elem_of_find)%scanUser_Ok. by eauto.
Qed.

Lemma update_user_Ok `{E : Env} (id : string) (f : User → User) (w w' : World) (n : Z) :
  exec (update_user id f) w = (Ok n, w') →
  d_users (w_db w') = update_rows (has_id id)
    (λ u, f u <| u_UpdatedAt := sqlite_time (w_now w) |>) (d_users (w_db w)) ∧
  w_now w' = w_now w ∧ NoDup (map u_ID (d_users (w_db w'))).
Proof. intros (fs & _ & -> & Hv%users_id_NoDup)%exec_Ok. done. Qed.

Lemma IncrementTokenGeneration_Ok `{E : Env} (id : string) (w w' : World) (n : Z) :
  IncrementTokenGeneration id w = (Ok n, w') →
  d_users (w_db w') = update_rows (has_id id) (bump (w_now w)) (d_users (w_db w)) ∧
  w_now w' = w_now w ∧ NoDup (map u_ID (d_users (w_db w'))) ∧
  ∃ u, u ∈ d_users (w_db w') ∧ u_ID u = id ∧ u_TokenGeneration u = n.
Proof.
  unfold IncrementTokenGeneration. intros H. ok_inv.
  apply update_user_Ok in H as (Hu & Hn & Hnd).
  match goal with H : query_row _ _ = _ |- _ => apply query_row_Ok in H as (fs & -> & Hf) end.
  symmetry in Hf.
  apply elem_of_find in Hf as [Hin Hid%String.eqb_eq]. split_and!; eauto.
Qed.

Definition set_password (hash : string) (u : User) : User :=
  u <| u_PasswordHash := hash |> <| u_MustChangePassword := false |> <| u_TempPasswordExpiresAt := None |>.
Definition set_totp (secret : option string) (enabled : bool) (u : User) : User :=
  u <| u_TOTPSecret := secret |> <| u_TOTPEnabled := enabled |>.

Lemma UpdateUserPassword_Ok `{E : Env} (id hash : string) (w w' : World) (x : unit) :
  UpdateUserPassword id hash w = (Ok x, w') →
  d_users (w_db w') = update_rows (has_id id)
    (λ u, set_password hash u <| u_UpdatedAt := sqlite_time (w_now w) |>) (d_users (w_db w)).
Proof. unfold UpdateUserPassword. intros H. ok_inv. by apply update_user_Ok in H as (? & _ & _). Qed.

Lemma UpdateUserTOTP_Ok `{E : Env} (id : string) (secret : option string) (enabled : bool)
    (w w' : World) (x : unit) :
  UpdateUserTOTP id secret enabled w = (Ok x, w') →
  d_users (w_db w') = update_rows (has_id id)
    (λ u, set_totp secret enabled u <| u_UpdatedAt := sqlite_time (w_now w) |>) (d_users (w_db w)).
Proof. unfold UpdateUserTOTP. intros H. ok_inv. by apply update_user_Ok in H as (? & _ & _). Qed.

Lemma CreateUser_Ok `{E : Env} (u u' : User) (w w' : World) :
  CreateUser u w = (Ok u', w') →
  u' = create_defaults u ∧ d_users (w_db w') = d_users (w_db w) ++ [user_row (w_now w) u'].
Proof.
  unfold CreateUser. intros H. ok_inv. by apply exec_Ok in H as (fs & _ & -> & _).
Qed.

Definition set_role (role : string) (u : User) : User := u <| u_Role := role |>.

Lemma UpdateUserRole_Ok `{E : Env} (id role : string) (w w' : World) (x : unit) :
  UpdateUserRole id role w = (Ok x, w') →
  d_users (w_db w') = update_rows (has_id id)
    (λ u, set_role role u <| u_UpdatedAt := sqlite_time (w_now w) |>) (d_users (w_db w)) ∧
  ∃ user, user ∈ d_users (w_db w) ∧ u_ID user = id.
Proof.
  unfold UpdateUserRole, RowsAffected. intros H. ok_inv.
  apply exec_Ok in H as (fs & -> & -> & _).
  match goal with H : driver _ = _ |- _ => apply driver_Ok in H as [fs2 ->] end. split; [done|].
  match goal with H : (_ =? 0) = false |- _ => apply Z.eqb_neq in H as Hc end. simpl in Hc.
  rewrite count_rows_known in Hc. apply not_false_is_true, existsb_exists in Hc as (u & Hu & Hid).
  exists u. split; [by apply list_elem_of_In|]. by apply String.eqb_eq.
Qed.

(** Every row of the user afterwards has the next generation. *)
Lemma bumped_generation (id : string) (now : Z) (us us' : list User) (user u : User) :
  us' = update_rows (has_id id) (bump now) us → NoDup (map u_ID us') →
  user ∈ us → u_ID user = id → u ∈ us' → u_ID u = id →
  u_TokenGeneration u = 1 + u_TokenGeneration user.
Proof.
  intros -> Hnd Hin <- Hu Hid. rewrite map_update_rows in Hnd by done.
  apply elem_of_update_rows in Hu as [(y & Hy & Hyid%String.eqb_eq & ->)|[_ Hn%String.eqb_neq]]; [|done].
  by rewrite (same_user us y user).
Qed.

(** ** Frames *)

Section user_frames.
Context {X : Type} (f : World → X) `{!Beyond f} `{E : Env}.

Lemma frame_scanUser (g : World → option User) : frame f (scanUser g).
Proof. unfold scanUser. frames. Qed.
Lemma frame_update_user (id : string) (g : User → User) :
  (∀ w us, f (w <| w_db := w_db w <| d_users := us |> |>) = f w) → frame f (exec (update_user id g)).
Proof. intros Hf. apply frame_exec; [typeclasses eauto|]. intros w. apply Hf. Qed.
End user_frames.
#[export] Hint Resolve frame_scanUser : frames.
#[export] Hint Extern 1 (frame _ (GetUserByID _)) => apply frame_scanUser : frames.
#[export] Hint Extern 1 (frame _ (GetUserByUsername _)) => apply frame_scanUser : frames.
