(* ===== verification/StoreServers.v ===== *)
(** * The [servers] and [permissions] tables (hub/internal/store/servers.go, permissions.go). *)

From S2P Require Import Prelude GoStr GoTime Model Db Demo.

Definition errServerNotFound : string := "server not found".

Definition server_is (id : string) (s : Server) : bool := String.eqb (s_ID s) id.

(** [s.scanServer(s.db.QueryRow(...))] *)
Definition scanServer (f : World → option Server) : M Server :=
  let* r := wrap "scan server" (query_row f) in
  match r with
  | None => fail errServerNotFound
  | Some srv => ret srv
  end.

Definition find_server (p : Server → bool) (w : World) : option Server :=
  List.find p (d_servers (w_db w)).

Definition GetServerByID (id : string) : M Server := scanServer (find_server (server_is id)).

Definition GetServerByName (name : string) : M Server :=
  scanServer (find_server (λ s, String.eqb (s_Name s) name)).

Definition GetServerByToken (tokenHash : string) : M Server :=
  scanServer (find_server (λ s, bool_decide (s_RegistrationToken s = Some tokenHash))).

Section servers.
Context `{E : Env}.

(** [UPDATE servers SET ..., updated_at = datetime('now') WHERE id = ?] *)
Definition update_server (id : string) (f : Server → Server) (w : World) : Z * Db :=
  let d := w_db w in
  (count_rows (server_is id) (d_servers d),
   d <| d_servers := update_rows (server_is id)
                       (λ s, f s <| s_UpdatedAt := sqlite_time (w_now w) |>) (d_servers d) |>).

(** [rows, _ := result.RowsAffected(); if rows == 0 { return errServerNotFound }]: an error of
    [RowsAffected] is dropped, and leaves 0. *)
Definition require_row (n : Z) (err : string) : M unit :=
  let* rows := try (RowsAffected n) in
  match rows with
  | Ok r => if r =? 0 then fail err else ret tt
  | Err _ => fail err
  end.

(** The row an [INSERT INTO servers] makes of [srv]. *)
Definition server_row (now : Z) (srv : Server) : Server :=
  srv <| s_LastSeenAt := None |> <| s_CreatedAt := sqlite_time now |> <| s_UpdatedAt := sqlite_time now |>.

Definition CreateServer (srv : Server) : M unit :=
  let* _ := wrap "create server" (exec (λ w,
    (1, w_db w <| d_servers ::= λ l, l ++ [server_row (w_now w) srv] |>))) in
  ret tt.

(** The conditions [filter] adds to the query. *)
Definition filter_matches (filter : ServerFilter) (s : Server) : bool :=
  match sf_Status filter with Some st => String.eqb (s_Status s) st | None => true end &&
  match sf_Search filter with Some q => sql_like ("%" +:+ q +:+ "%") (s_Name s) | None => true end.

(** The count and the page of the servers that satisfy [p]. *)
Definition list_servers (count_err query_err : string) (p : World → Server → bool) (limit offset : Z)
  : M (list Server * Z) :=
  let* total := wrap count_err
    (query_row (λ w, Some (count_rows (p w) (d_servers (w_db w))))) in
  let* servers :=
    if page_ok limit offset then
      query (wrap query_err) (wrap "scan server row") plain (λ w,
        page limit offset (order_by (desc s_CreatedAt) (List.filter (p w) (d_servers (w_db w)))))
    else wrap query_err (let* _ := driver in fail syntax_error) in
  ret (servers, default 0 total).

Definition ListServers (filter : ServerFilter) : M (list Server * Z) :=
  list_servers "count servers" "query servers" (λ _, filter_matches filter)
    (sf_Limit filter) (sf_Offset filter).

(** [servers INNER JOIN permissions p ON servers.id = p.server_id], [DISTINCT]. *)
Definition permitted (userID : string) (w : World) (s : Server) : bool :=
  existsb (λ p, String.eqb (pr_user_id p) userID && String.eqb (pr_server_id p) (s_ID s))
    (d_permissions (w_db w)).

Definition ListServersForUser (userID : string) (filter : ServerFilter) : M (list Server * Z) :=
  list_servers "count servers for user" "query servers for user"
    (λ w s, permitted userID w s && filter_matches filter s) (sf_Limit filter) (sf_Offset filter).

Definition UpdateServer (id name labels : string) : M unit :=
  let* n := wrap "update server"
    (exec (update_server id (λ s, s <| s_Name := name |> <| s_Labels := labels |>))) in
  require_row n errServerNotFound.

Definition DeleteServer (id : string) : M unit :=
  let* n := wrap "delete server" (exec (λ w,
    (count_rows (server_is id) (d_servers (w_db w)),
     delete_servers (w_fk w) (server_is id) (w_db w)))) in
  require_row n errServerNotFound.

Definition DeleteServers (ids : list string) : M unit :=
  match ids with
  | [] => ret tt
  | _ =>
      let* _ := wrap "batch delete servers" (exec (λ w,
        let p s := existsb (String.eqb (s_ID s)) ids in
        (count_rows p (d_servers (w_db w)), delete_servers (w_fk w) p (w_db w)))) in
      ret tt
  end.

Definition ActivateServer (id hostname ip os agentVersion : string) : M unit :=
  let* now := get_now in
  let* n := wrap "activate server" (exec (update_server id (λ s,
    s <| s_Hostname := Some hostname |> <| s_IPAddress := Some ip |> <| s_OS := Some os |>
      <| s_AgentVersion := Some agentVersion |> <| s_Status := "pending" |>
      <| s_RegistrationToken := None |> <| s_TokenExpiresAt := None |>
      <| s_LastSeenAt := Some (sqlite_time now) |>))) in
  require_row n errServerNotFound.

Definition UpdateServerStatus (id status : string) : M unit :=
  let* n := wrap "update server status"
    (exec (update_server id (λ s, s <| s_Status := status |>))) in
  require_row n errServerNotFound.

Definition UpdateServerIP (id ip : string) : M unit :=
  let* _ := wrap "update server ip"
    (exec (update_server id (λ s, s <| s_IPAddress := Some ip |>))) in
  ret tt.

Definition UpdateServerLastSeen (id : string) : M unit :=
  let* now := get_now in
  let* n := wrap "update server last seen"
    (exec (update_server id (λ s, s <| s_LastSeenAt := Some (sqlite_time now) |>))) in
  require_row n errServerNotFound.

Definition SetServerIP (id ip : string) : M unit :=
  let* _ := exec (update_server id (λ s, s <| s_IPAddress := Some ip |>)) in
  ret tt.

Definition GetOnlineServersNotIn (activeIDs : list string) : M (list Server) :=
  query (wrap "query stale servers") (wrap "scan server row") plain (λ w,
    List.filter (λ s, String.eqb (s_Status s) "online" &&
                      negb (existsb (String.eqb (s_ID s)) activeIDs)) (d_servers (w_db w))).

(** ** permissions.go *)

(** [permissions p JOIN users u ON p.user_id = u.id] *)
Definition join_permission (d : Db) (p : PermissionRow) : option Permission :=
  (λ u, MkPermission (pr_id p) (pr_user_id p) (u_Username u) (pr_server_id p) (pr_path p)
          (pr_created_at p))
  <$> List.find (λ u, String.eqb (u_ID u) (pr_user_id p)) (d_users d).

Definition GetPermissionByID (id : string) : M Permission :=
  wrap "get permission"
    (let* r := query_row (λ w,
       head (omap (join_permission (w_db w))
               (List.filter (λ p, String.eqb (pr_id p) id) (d_permissions (w_db w))))) in
     match r with
     | None => fail "sql: no rows in result set"
     | Some p => ret p
     end).

Definition CreatePermission (userID serverID path : string) : M Permission :=
  let* id := NewString in
  let* _ := wrap "create permission" (exec (λ w,
    (1, w_db w <| d_permissions ::= λ l,
          l ++ [MkPermissionRow id userID serverID path (sqlite_time (w_now w))] |>))) in
  GetPermissionByID id.

Definition by_username_path (p q : Permission) : bool :=
  match String.compare (p_Username p) (p_Username q) with
  | Lt => true
  | Gt => false
  | Eq => String.leb (p_Path p) (p_Path q)
  end.

Definition ListPermissionsForServer (serverID : string) : M (list Permission) :=
  query (wrap "list permissions") plain plain (λ w,
    order_by by_username_path (omap (join_permission (w_db w))
      (List.filter (λ p, String.eqb (pr_server_id p) serverID) (d_permissions (w_db w))))).

Definition GetUserPathsForServer (userID serverID : string) : M (list string) :=
  query (wrap "get user paths") plain plain (λ w,
    map pr_path (List.filter
      (λ p, String.eqb (pr_user_id p) userID && String.eqb (pr_server_id p) serverID)
      (d_permissions (w_db w)))).

(** [SELECT DISTINCT p1.server_id ... AND NOT EXISTS (... p2.user_id != ?)] *)
Definition GetExclusiveServerAccess (userID : string) : M (list string) :=
  query (wrap "get exclusive server access") plain plain (λ w,
    let perms := d_permissions (w_db w) in
    remove_dups (map pr_server_id (List.filter (λ p1,
      String.eqb (pr_user_id p1) userID &&
      negb (existsb (λ p2, String.eqb (pr_server_id p2) (pr_server_id p1) &&
                           negb (String.eqb (pr_user_id p2) userID)) perms)) perms))).

Definition DeletePermission (id : string) : M unit :=
  let* n := wrap "delete permission" (exec (λ w,
    let p r := String.eqb (pr_id r) id in
    (count_rows p (d_permissions (w_db w)),
     w_db w <| d_permissions ::= List.filter (λ r, negb (p r)) |>))) in
  require_row n "permission not found".

End servers.

(** ** Lemmas *)

Lemma forall_filter_all {A : Type} (p : A → bool) (l : list A) :
  (∀ x, x ∈ l → p x = true) → List.filter p l = l.
Proof.
  induction l as [|x l IH]; intros Hp; simpl; [done|].
  rewrite (Hp x) by set_solver. rewrite IH; [done|]. set_solver.
Qed.

Lemma filter_last_key {A : Type} (key : A → string) (l : list A) (x : A) :
  NoDup (map key (l ++ [x])) →
  List.filter (λ y, String.eqb (key y) (key x)) (l ++ [x]) = [x] ∧
  List.filter (λ y, negb (String.eqb (key y) (key x))) (l ++ [x]) = l.
Proof.
  rewrite map_app, NoDup_app. intros (_ & Hd & _).
  assert (Hne : ∀ y, y ∈ l → String.eqb (key y) (key x) = false).
  { intros y Hy. apply String.eqb_neq. intros Heq. apply (Hd (key y)); [|simpl; set_solver].
    apply list_elem_of_In, in_map. by apply list_elem_of_In. }
  rewrite !List.filter_app. simpl. rewrite String.eqb_refl. simpl. split.
  - replace (List.filter _ l) with (@nil A); [done|]. symmetry.
    clear Hd. induction l as [|y l IH]; simpl; [done|]. rewrite Hne by set_solver.
    apply IH. set_solver.
  - rewrite app_nil_r. apply forall_filter_all. intros y Hy. by rewrite Hne.
Qed.

(** The paths granted to a user on a server. *)
Definition granted (d : Db) (userID serverID : string) : list string :=
  map pr_path (List.filter
    (λ p, String.eqb (pr_user_id p) userID && String.eqb (pr_server_id p) serverID)
    (d_permissions d)).

Lemma permission_ids_NoDup (fk : bool) (d : Db) :
  db_violation fk d = None → NoDup (map pr_id (d_permissions d)).
Proof.
  intros H%db_violation_None_unique. rewrite Forall_forall in H.
  specialize (H ("permissions.id", distinct (λ p, Some (pr_id p)) (d_permissions d))).
  rewrite list_elem_of_In in H. specialize (H ltac:(simpl; tauto)). simpl in H.
  apply bool_decide_eq_true in H. by rewrite omap_total in H.
Qed.

Section permissions.
Context `{E : Env}.

(** What a successful grant adds. *)
Lemma CreatePermission_wp (userID serverID path : string) (w : World) :
  wp (CreatePermission userID serverID path) (λ r w', match r with
    | Err _ => True
    | Ok perm => ∃ row, w_db w' = w_db w <| d_permissions ::= λ l, l ++ [row] |> ∧
        pr_id row = p_ID perm ∧ pr_user_id row = userID ∧ pr_server_id row = serverID ∧
        pr_path row = path ∧ p_UserID perm = userID ∧ p_ServerID perm = serverID ∧
        p_Path perm = path ∧ NoDup (map pr_id (d_permissions (w_db w')))
    end) w.
Proof.
  unfold CreatePermission. do 5 wp_step; [done|]. apply permission_ids_NoDup in Hok.
  unfold GetPermissionByID. set (row := MkPermissionRow _ _ _ _ _) in *. simpl in Hok.
  do 3 wp_step; [done|]. simpl. destruct (filter_last_key pr_id _ row Hok) as [Hf _].
  change (pr_id row) with (uuid (w_draws w)) in Hf. rewrite Hf. simpl. unfold join_permission. simpl.
  destruct (List.find _ _) as [u|]; simpl; wp_step; [|done].
  exists row. by split_and!.
Qed.

End permissions.

(** ** Properties *)

(** a grant gives the user exactly the path asked for, on that server only, and revoking it
    restores the database: no grant of another user or server is affected, and the revocation
    cannot fail on a working database. *)
Theorem permission_roundtrip `{Env} (userID serverID path : string) (perm : Permission)
    (w w1 : World) :
  no_faults w1 → db_violation (w_fk w1) (w_db w) = None →
  CreatePermission userID serverID path w = (Ok perm, w1) →
  p_UserID perm = userID ∧ p_ServerID perm = serverID ∧ p_Path perm = path ∧
  (∀ u s, granted (w_db w1) u s = granted (w_db w) u s ++
     if String.eqb userID u && String.eqb serverID s then [path] else []) ∧
  DeletePermission (p_ID perm) w1 = (Ok tt, w1 <| w_db := w_db w |>).
Proof.
  intros Hnf Hv Hc. assert (Hwp := CreatePermission_wp userID serverID path w).
  unfold wp in Hwp. rewrite Hc in Hwp. simpl in Hwp.
  destruct Hwp as (row & Hdb & Hid & Hu & Hs & Hp & Hpu & Hps & Hpp & Hnd).
  split_and!; [done..| |].
  - intros u s. unfold granted. rewrite Hdb. simpl. rewrite List.filter_app, map_app. simpl.
    rewrite Hu, Hs. destruct (_ && _); simpl; [by rewrite Hp|done].
  - rewrite Hdb in Hnd. simpl in Hnd. destruct (filter_last_key pr_id _ row Hnd) as [Hf1 Hf2].
    assert (Hexec : exec (λ w,
      (count_rows (λ r, String.eqb (pr_id r) (p_ID perm)) (d_permissions (w_db w)),
       w_db w <| d_permissions ::= List.filter (λ r, negb (String.eqb (pr_id r) (p_ID perm))) |>)) w1 =
      (Ok 1, w1 <| w_db := w_db w |>)).
    { rewrite exec_ok; [|done|].
      - f_equal; [f_equal|]; simpl; rewrite Hdb, <- Hid; simpl.
        + unfold count_rows. by rewrite Hf1.
        + rewrite Hf2. by destruct (w_db w).
      - simpl. rewrite Hdb, <- Hid. simpl. rewrite Hf2. by destruct (w_db w). }
    unfold DeletePermission. cbv zeta. unfold bind at 1, wrap at 1. rewrite Hexec.
    unfold require_row, RowsAffected, try, bind. rewrite driver_ok by done. reflexivity.
Qed.

Section witnesses.
#[local] Existing Instance demoEnv.

Definition demo_user (id name role : string) : User :=
  zeroUser <| u_ID := id |> <| u_Username := name |> <| u_Email := name |> <| u_Role := role |>
           <| u_AuthProvider := AuthProviderLocal |>.
Definition demo_server (id name : string) : Server :=
  MkServer id name None None None "pending" None None None "{}" None 0 0.
Definition demo_db_servers : Db :=
  empty_db <| d_users := [demo_user "u1" "ann" RoleViewer; demo_user "u2" "bob" RoleViewer] |>
           <| d_servers := [demo_server "s1" "web"; demo_server "s2" "db"] |>
           <| d_permissions := [MkPermissionRow "p0" "u2" "s1" "/var" 0] |>.

Lemma permission_roundtrip_witness :
  match CreatePermission "u1" "s1" "/etc" (demo_world demo_db_servers) with
  | (Ok perm, w1) => DeletePermission (p_ID perm) w1 = (Ok tt, w1 <| w_db := demo_db_servers |>)
  | _ => False
  end.
Proof.
  destruct (CreatePermission "u1" "s1" "/etc" (demo_world demo_db_servers)) as [[perm|e] w1] eqn:E;
    [|by vm_compute in E].
  apply (permission_roundtrip "u1" "s1" "/etc" perm (demo_world demo_db_servers) w1); [| |exact E].
  - vm_compute in E. by injection E as _ <-.
  - vm_compute in E. by injection E as _ <-.
Defined.

End witnesses.

Lemma wp_require_row (n : Z) (e : string) (Q : result unit → World → Prop) (w : World) :
  (∀ fs, Q (Err e) (w <| w_faults := fs |>)) →
  (n ≠ 0 → ∀ fs, Q (Ok tt) (w <| w_faults := fs |>)) → wp (require_row n e) Q w.
Proof.
  intros H1 H2. unfold require_row. do 2 wp_step. wp_step; [wp_step; apply H1|].
  destruct (Z.eqb_spec n 0); wp_step; [apply H1|by apply H2].
Qed.

Lemma CreateServer_Ok `{E : Env} (srv : Server) (w w' : World) (x : unit) :
  CreateServer srv w = (Ok x, w') → d_servers (w_db w') = d_servers (w_db w) ++ [server_row (w_now w) srv].
Proof. unfold CreateServer. intros H. ok_inv. by apply exec_Ok in H as (fs & _ & -> & _). Qed.

(** On a working database a server that exists is activated. *)
Lemma ActivateServer_ok `{E : Env} (srv : Server) (host ip os ver : string) (w : World) :
  no_faults w → db_violation (w_fk w) (w_db w) = None → srv ∈ d_servers (w_db w) →
  ∃ w', ActivateServer (s_ID srv) host ip os ver w = (Ok tt, w').
Proof.
  intros Hf Hv Hin. unfold ActivateServer, bind, get_now, wrap.
  rewrite exec_ok; [|done|].
  2:{ apply update_servers_clear_ok; try done. by right. }
  unfold require_row, bind, try, RowsAffected, bind. rewrite driver_ok by done. unfold ret.
  destruct (Z.eqb_spec (count_rows (server_is (s_ID srv)) (d_servers (w_db w))) 0) as [Hc|Hc].
  - exfalso. unfold count_rows in Hc. apply list_elem_of_In in Hin.
    assert (Hl : In srv (List.filter (server_is (s_ID srv)) (d_servers (w_db w)))).
    { apply filter_In. split; [done|]. unfold server_is. by apply String.eqb_eq. }
    destruct (List.filter _ _); [done|]. simpl in Hc. lia.
  - simpl. destruct (Z.eqb_spec (count_rows (server_is (s_ID srv)) (d_servers (w_db w))) 0); [done|]. by eexists.
Qed.

(** ** Frames *)

Section server_frames.
Context {X : Type} (f : World → X) `{E : Env}.

Lemma frame_scanServer `{!Beyond f} (g : World → option Server) : frame f (scanServer g).
Proof. unfold scanServer. frames. Qed.

Context `{!Outside f}.
Lemma frame_require_row (n : Z) (e : string) : frame f (require_row n e).
Proof. unfold require_row. frames. Qed.
Lemma frame_UpdateServerStatus (id st : string) : frame f (UpdateServerStatus id st).
Proof. unfold UpdateServerStatus. frames. apply frame_require_row. Qed.
Lemma frame_UpdateServerLastSeen (id : string) : frame f (UpdateServerLastSeen id).
Proof. unfold UpdateServerLastSeen. frames. apply frame_require_row. Qed.
Lemma frame_UpdateServerIP (id ip : string) : frame f (UpdateServerIP id ip).
Proof. unfold UpdateServerIP. frames. Qed.
Lemma frame_ActivateServer (id h ip os v : string) : frame f (ActivateServer id h ip os v).
Proof. unfold ActivateServer. frames. apply frame_require_row. Qed.
Lemma frame_GetOnlineServersNotIn (ids : list string) : frame f (GetOnlineServersNotIn ids).
Proof. unfold GetOnlineServersNotIn. frames. Qed.
End server_frames.
#[export] Hint Resolve frame_scanServer frame_require_row frame_UpdateServerStatus
  frame_UpdateServerLastSeen frame_UpdateServerIP frame_ActivateServer frame_GetOnlineServersNotIn : frames.
#[export] Hint Extern 1 (frame _ (GetServerByID _)) => apply frame_scanServer : frames.
#[export] Hint Extern 1 (frame _ (GetServerByName _)) => apply frame_scanServer : frames.
#[export] Hint Extern 1 (frame _ (GetServerByToken _)) => apply frame_scanServer : frames.
