(* ===== verification/StoreAudit.v ===== *)
(** * The audit log (hub/internal/store/audit.go, audit_workflow.go). *)

From S2P Require Import Prelude GoStr GoTime Model Db Demo StoreConfig.

Definition deriveAuditResourceType (action : string) : string :=
  if HasPrefix action "user." then "user"
  else if HasPrefix action "server." then "server"
  else if HasPrefix action "file." then "file"
  else if HasPrefix action "path." then "path"
  else if HasPrefix action "log." then "log"
  else if HasPrefix action "audit." then "audit"
  else "system".

(** [normalizeAuditEntry], but for the identifier it draws. *)
Definition normalize_fields (e : AuditEntry) : AuditEntry :=
  let e := if String.eqb (ae_Outcome e) "" then
             e <| ae_Outcome := if HasSuffix (ae_Action e) "_failed" then AuditOutcomeFailure
                                else AuditOutcomeSuccess |>
           else e in
  let e := if String.eqb (ae_ActorType e) "" then
             e <| ae_ActorType :=
                    if bool_decide (is_Some (ae_UserID e)) then AuditActorTypeUser
                    else if HasPrefix (ae_Action e) "server.register"
                         || HasPrefix (ae_Action e) "server.registration"
                    then AuditActorTypeDevice else AuditActorTypeSystem |>
           else e in
  match ae_ResourceType e with
  | None => e <| ae_ResourceType := Some (deriveAuditResourceType (ae_Action e)) |>
  | Some _ => e
  end.

(** Conditions of [ListAuditLogs]; the time bounds compare texts. *)
Record AuditFilter := MkAuditFilter {
  af_UserID : option string;
  af_Action : option string;
  af_Outcome : option string;
  af_ActorType : option string;
  af_CorrelationID : option string;
  af_ResourceType : option string;
  af_From : option string;
  af_To : option string;
  af_Limit : Z;
  af_Offset : Z
}.

Definition column_is (filter column : option string) : bool :=
  match filter with Some v => bool_decide (column = Some v) | None => true end.

Definition audit_matches (f : AuditFilter) (e : AuditEntry) : bool :=
  column_is (af_UserID f) (ae_UserID e) && column_is (af_Action f) (Some (ae_Action e)) &&
  column_is (af_Outcome f) (Some (ae_Outcome e)) &&
  column_is (af_ActorType f) (Some (ae_ActorType e)) &&
  column_is (af_CorrelationID f) (ae_CorrelationID e) &&
  column_is (af_ResourceType f) (ae_ResourceType e) &&
  match af_From f with Some v => text_le v (format_sqlite (ae_CreatedAt e)) | None => true end &&
  match af_To f with Some v => text_le (format_sqlite (ae_CreatedAt e)) v | None => true end.

Section audit.
Context `{E : Env}.

Definition normalizeAuditEntry (e : AuditEntry) : M AuditEntry :=
  let* e := if String.eqb (ae_ID e) "" then let* id := NewString in ret (e <| ae_ID := id |>)
            else ret e in
  ret (normalize_fields e).

(** [%v] of a [*string]: the address of the string, not the string. *)
Definition print_ptr (p : option string) : M string :=
  match p with None => ret "<nil>" | Some _ => draw address end.

(** The hash chained to the previous entry's. *)
Definition hashInput (prevHash : string) (e : AuditEntry) : M string :=
  let* user := print_ptr (ae_UserID e) in
  let* target := print_ptr (ae_Target e) in
  let* detail := print_ptr (ae_Detail e) in
  let* ip := print_ptr (ae_IPAddress e) in
  let* correlation := print_ptr (ae_CorrelationID e) in
  let* resource := print_ptr (ae_ResourceType e) in
  ret (Join "|" [prevHash; ae_ID e; user; ae_Action e; target; detail; ip; ae_Outcome e;
                 ae_ActorType e; correlation; resource]).

(** What runs between [BEGIN IMMEDIATE] and [COMMIT]. *)
Definition chain_entry (e : AuditEntry) : M unit :=
  let* prev := wrap "query previous audit hash"
    (query_row (λ w, ae_PrevHash <$> last (d_audit_logs (w_db w)))) in
  let* input := hashInput (default "" prev) e in
  let e := e <| ae_PrevHash := sha256_hex input |> in
  let* _ := wrap "log audit" (exec (λ w,
    (1, w_db w <| d_audit_logs ::= λ l, l ++ [e <| ae_CreatedAt := sqlite_time (w_now w) |>] |>))) in
  ret tt.

Definition LogAudit (entry : AuditEntry) : M unit :=
  let* entry := normalizeAuditEntry entry in
  let* r := try (let* _ := wrap "acquire connection" driver in
                 transaction (wrap "begin immediate") (wrap "commit audit") (chain_entry entry)) in
  match r with
  | Err e => let* _ := noteAuditFailure e in fail e
  | Ok _ => noteAuditSuccess
  end.

Definition ListAuditLogs (filter : AuditFilter) : M (list AuditEntry * Z) :=
  let* total := wrap "count audit logs"
    (query_row (λ w, Some (count_rows (audit_matches filter) (d_audit_logs (w_db w))))) in
  let* entries :=
    if page_ok (af_Limit filter) (af_Offset filter) then
      query (wrap "query audit logs") (wrap "scan audit entry") plain (λ w,
        page (af_Limit filter) (af_Offset filter)
          (order_by (desc ae_CreatedAt) (List.filter (audit_matches filter) (d_audit_logs (w_db w)))))
    else wrap "query audit logs" (let* _ := driver in fail syntax_error) in
  ret (entries, default 0 total).

Definition DeleteAuditLogsBefore (cutoff : string) : M Z :=
  let* n := wrap "delete audit logs before cutoff" (exec (λ w,
    let p e := text_lt (format_sqlite (ae_CreatedAt e)) cutoff in
    (count_rows p (d_audit_logs (w_db w)), delete_audit_logs (w_fk w) p (w_db w)))) in
  wrap "delete audit logs affected rows" (RowsAffected n).

(** ** audit_workflow.go *)

Definition ListAuditSavedFilters : M (list SavedFilterRow) :=
  query (wrap "list audit saved filters") (wrap "scan audit saved filter") plain (λ w,
    order_by (desc fr_updated_at) (d_saved_filters (w_db w))).

Definition CreateAuditSavedFilter (createdBy name filtersJSON : string) : M SavedFilterRow :=
  let* id := NewString in
  let* _ := wrap "create audit saved filter" (exec (λ w,
    let now := sqlite_time (w_now w) in
    (1, w_db w <| d_saved_filters ::= λ l, l ++ [MkSavedFilterRow id name createdBy filtersJSON now now] |>))) in
  wrap "read audit saved filter"
    (let* r := query_row (λ w, List.find (λ f, String.eqb (fr_id f) id) (d_saved_filters (w_db w))) in
     match r with None => fail "sql: no rows in result set" | Some f => ret f end).

Definition DeleteAuditSavedFilter (id : string) : M unit :=
  let* n := wrap "delete audit saved filter" (exec (λ w,
    let p f := String.eqb (fr_id f) id in
    (count_rows p (d_saved_filters (w_db w)),
     w_db w <| d_saved_filters ::= List.filter (λ f, negb (p f)) |>))) in
  let* rows := wrap "delete audit saved filter rows" (RowsAffected n) in
  if rows =? 0 then fail "not found" else ret tt.

(** A review or a flag with the name of its author. *)
Definition with_username {A : Type} (author : A → string) (d : Db) (r : A) : option (A * string) :=
  (λ u, (r, u_Username u)) <$> List.find (λ u, String.eqb (u_ID u) (author r)) (d_users d).

Definition ListAuditReviews (limit : Z) : M (list (ReviewRow * string)) :=
  let limit := if limit <=? 0 then 20 else limit in
  query (wrap "list audit reviews") (wrap "scan audit review") plain (λ w,
    page limit 0 (order_by (desc (λ r, rr_completed_at r.1))
      (omap (with_username rr_reviewer_id (w_db w)) (d_reviews (w_db w))))).

Definition CreateAuditReview (reviewerID filtersJSON notes : string) (from to : option string)
  : M (ReviewRow * string) :=
  let* id := NewString in
  let* _ := wrap "create audit review" (exec (λ w,
    let now := sqlite_time (w_now w) in
    (1, w_db w <| d_reviews ::= λ l,
          l ++ [MkReviewRow id reviewerID filtersJSON notes from to now now] |>))) in
  wrap "read audit review"
    (let* r := query_row (λ w, head (omap (with_username rr_reviewer_id (w_db w))
                 (List.filter (λ r, String.eqb (rr_id r) id) (d_reviews (w_db w))))) in
     match r with None => fail "sql: no rows in result set" | Some f => ret f end).

Definition ListAuditFlags (limit : Z) : M (list (FlagRow * string)) :=
  let limit := if limit <=? 0 then 20 else limit in
  query (wrap "list audit flags") (wrap "scan audit flag") plain (λ w,
    page limit 0 (order_by (desc (λ f, fl_created_at f.1))
      (omap (with_username fl_created_by (w_db w)) (d_flags (w_db w))))).

Definition CreateAuditFlag (createdBy : string) (entryID : option string) (filtersJSON note : string)
  : M (FlagRow * string) :=
  let* id := NewString in
  let* _ := wrap "create audit flag" (exec (λ w,
    (1, w_db w <| d_flags ::= λ l,
          l ++ [MkFlagRow id entryID createdBy filtersJSON note (sqlite_time (w_now w))] |>))) in
  wrap "read audit flag"
    (let* r := query_row (λ w, head (omap (with_username fl_created_by (w_db w))
                 (List.filter (λ f, String.eqb (fl_id f) id) (d_flags (w_db w))))) in
     match r with None => fail "sql: no rows in result set" | Some f => ret f end).

End audit.

(** ** Lemmas *)

(** [w'] is [w] but for settings and faults. *)
Definition config_only (w w' : World) : Prop :=
  ∃ c fs, w' = w <| w_db := w_db w <| d_config := c |> |> <| w_faults := fs |>.

Lemma config_only_refl (w : World) : config_only w w.
Proof. exists (d_config (w_db w)), (w_faults w). by destruct w as [[]]. Qed.

Lemma config_only_faults (w w' : World) (fs : list (option string)) :
  config_only w w' → config_only w (w' <| w_faults := fs |>).
Proof. intros (c & fs' & ->). by exists c, fs. Qed.

Lemma config_only_set (w w' : World) (fs : list (option string)) (k v : string) :
  config_only w w' →
  config_only w (w' <| w_faults := fs |> <| w_db ::= λ d, d <| d_config ::= <[k := v]> |> |>).
Proof. intros (c & fs' & ->). by exists (<[k := v]> c), fs. Qed.

Section audit_lemmas.
Context `{E : Env}.

Lemma SetConfig_wp (w0 w : World) (k v : string) (Q : result unit → World → Prop) :
  config_only w0 w → (∀ r w', config_only w0 w' → Q r w') → wp (SetConfig k v) Q w.
Proof.
  intros Hc HQ. unfold SetConfig. do 3 wp_step.
  - apply HQ. by apply config_only_faults.
  - wp_step. apply HQ. exact (config_only_set _ _ faults k v Hc).
Qed.

Lemma GetConfig_wp (w0 w : World) (k : string) (Q : result string → World → Prop) :
  config_only w0 w → (∀ r w', config_only w0 w' → Q r w') → wp (GetConfig k) Q w.
Proof.
  intros Hc HQ. unfold GetConfig, LookupConfig. do 3 wp_step.
  - apply HQ. by apply config_only_faults.
  - case_match; wp_step; apply HQ; by apply config_only_faults.
Qed.

Lemma GetAuditHealth_wp (w0 w : World) (Q : result AuditHealth → World → Prop) :
  config_only w0 w → (∀ h w', config_only w0 w' → Q (Ok h) w') → wp GetAuditHealth Q w.
Proof.
  intros Hc HQ. unfold GetAuditHealth, getConfigIntDefault, getConfigBoolDefault, getConfigString.
  do 3 wp_step. eapply GetConfig_wp; [exact Hc|]. intros r1 w1 H1. do 4 wp_step.
  eapply GetConfig_wp; [exact H1|]. intros r2 w2 H2. do 4 wp_step.
  eapply GetConfig_wp; [exact H2|]. intros r3 w3 H3. do 4 wp_step.
  eapply GetConfig_wp; [exact H3|]. intros r4 w4 H4. do 4 wp_step.
  eapply GetConfig_wp; [exact H4|]. intros r5 w5 H5. do 2 wp_step. by apply HQ.
Qed.

(** The health of the pipeline after a success ([failed = false]) or a failure: the flag says so
    and the observer of that transition, and no other, has been called once. *)
Definition noted (failed : bool) (w w' : World) : Prop :=
  ∃ h, config_only (w <| w_auditDegraded := failed |>
    <| w_observed := w_observed w ++
         if negb (Bool.eqb (w_auditDegraded w) failed) &&
            (if failed then (w_observers w).1 else (w_observers w).2)
         then [(failed, h)] else [] |>) w'.

Lemma wp_get_degraded (Q : result bool → World → Prop) (w : World) :
  Q (Ok (w_auditDegraded w)) w → wp get_degraded Q w.
Proof. done. Qed.

Lemma wp_set_degraded (b : bool) (Q : result unit → World → Prop) (w : World) :
  Q (Ok tt) (w <| w_auditDegraded := b |>) → wp (set_degraded b) Q w.
Proof. done. Qed.

(** The last step of both: the observer is called with the health. *)
Lemma observe_wp (failed : bool) (observed : World → bool) (w0 w : World)
    (Q : result unit → World → Prop) :
  config_only (w0 <| w_auditDegraded := failed |>) w →
  w_auditDegraded w0 = negb failed →
  (∀ w', w_observers w' = w_observers w0 →
     observed w' = if failed then (w_observers w0).1 else (w_observers w0).2) →
  (∀ w', noted failed w0 w' → Q (Ok tt) w') →
  wp (let* health := GetAuditHealth in λ w,
      (Ok tt, if observed w then w <| w_observed ::= λ l, l ++ [(failed, health)] |> else w)) Q w.
Proof.
  intros Hc Hd Ho HQ. wp_step. eapply GetAuditHealth_wp; [exact Hc|].
  intros h w' (c & fs & ->). unfold wp. simpl. apply HQ. exists h.
  rewrite Hd, Ho by done.
  replace (negb (eqb (negb failed) failed)) with true by by destruct failed.
  simpl. exists c, fs. destruct (if failed then _ else _); [done|].
  simpl. by rewrite app_nil_r.
Qed.

Lemma noted_same (failed : bool) (w w' : World) :
  w_auditDegraded w = failed → config_only (w <| w_auditDegraded := failed |>) w' →
  noted failed w w'.
Proof.
  intros Hd Hc. exists (MkAuditHealth 0 None None false None). rewrite Hd, eqb_reflx. simpl.
  rewrite app_nil_r. destruct w. simpl in *. by subst.
Qed.

(** Four settings are written whatever happens. *)
Lemma ignore_SetConfig_wp (w0 w : World) (k v : string) (Q : result unit → World → Prop) :
  config_only w0 w → (∀ w', config_only w0 w' → Q (Ok tt) w') → wp (ignore (SetConfig k v)) Q w.
Proof. intros Hc HQ. wp_step. eapply SetConfig_wp; [exact Hc|]. intros _. exact HQ. Qed.

Lemma getConfigIntDefault_wp (w0 w : World) (k : string) (d : Z) (Q : result Z → World → Prop) :
  config_only w0 w → (∀ n w', config_only w0 w' → Q (Ok n) w') → wp (getConfigIntDefault k d) Q w.
Proof.
  intros Hc HQ. unfold getConfigIntDefault. do 2 wp_step. eapply GetConfig_wp; [exact Hc|].
  intros r w' Hw'. wp_step. by apply HQ.
Qed.

Lemma noteAuditFailure_wp (err : string) (w : World) (Q : result unit → World → Prop) :
  (∀ w', noted true w w' → Q (Ok tt) w') → wp (noteAuditFailure err) Q w.
Proof.
  intros HQ. unfold noteAuditFailure. wp_step. apply wp_get_degraded. wp_step. apply wp_set_degraded.
  do 3 wp_step. eapply getConfigIntDefault_wp; [apply config_only_refl|]. intros n w1 H1.
  wp_step. eapply ignore_SetConfig_wp; [exact H1|]. intros w2 H2.
  wp_step. eapply ignore_SetConfig_wp; [exact H2|]. intros w3 H3.
  wp_step. eapply ignore_SetConfig_wp; [exact H3|]. intros w4 H4.
  wp_step. eapply ignore_SetConfig_wp; [exact H4|]. intros w5 H5.
  destruct (w_auditDegraded w) eqn:Hd.
  - wp_step. apply HQ. by apply noted_same.
  - eapply (observe_wp true (λ w, (w_observers w).1)); [exact H5|done| |exact HQ].
    by intros w' ->.
Qed.

Lemma noteAuditSuccess_wp (w : World) (Q : result unit → World → Prop) :
  (∀ w', noted false w w' → Q (Ok tt) w') → wp noteAuditSuccess Q w.
Proof.
  intros HQ. unfold noteAuditSuccess. wp_step. apply wp_get_degraded. wp_step. apply wp_set_degraded.
  destruct (w_auditDegraded w) eqn:Hd; cbn [negb].
  - do 2 wp_step. wp_step. eapply ignore_SetConfig_wp; [apply config_only_refl|]. intros w2 H2.
    wp_step. eapply ignore_SetConfig_wp; [exact H2|]. intros w3 H3.
    eapply (observe_wp false (λ w, (w_observers w).2)); [exact H3|done| |exact HQ].
    by intros w' ->.
  - wp_step. apply HQ. apply noted_same; [done|]. apply config_only_refl.
Qed.

(** Drawing addresses changes nothing else. *)
Definition draws_only (w w' : World) : Prop := ∃ n, w' = w <| w_draws := n |>.

Lemma print_ptr_wp (p : option string) (w0 w : World) (Q : result string → World → Prop) :
  draws_only w0 w → (∀ s w', draws_only w0 w' → Q (Ok s) w') → wp (print_ptr p) Q w.
Proof.
  intros [n ->] HQ. destruct p; unfold wp; simpl; apply HQ; eexists; reflexivity.
Qed.

Lemma hashInput_wp (prev : string) (e : AuditEntry) (w : World) (Q : result string → World → Prop) :
  (∀ rest w', draws_only w w' → Q (Ok (prev +:+ "|" +:+ ae_ID e +:+ "|" +:+ rest)) w') →
  wp (hashInput prev e) Q w.
Proof.
  intros HQ. unfold hashInput.
  assert (H0 : draws_only w w) by (exists (w_draws w); by destruct w).
  wp_step. eapply print_ptr_wp; [exact H0|]. intros s1 w1 H1.
  wp_step. eapply print_ptr_wp; [exact H1|]. intros s2 w2 H2.
  wp_step. eapply print_ptr_wp; [exact H2|]. intros s3 w3 H3.
  wp_step. eapply print_ptr_wp; [exact H3|]. intros s4 w4 H4.
  wp_step. eapply print_ptr_wp; [exact H4|]. intros s5 w5 H5.
  wp_step. eapply print_ptr_wp; [exact H5|]. intros s6 w6 H6.
  wp_step. by apply HQ.
Qed.

(** The row that an entry becomes. *)
Definition logged (d : Db) (entry row : AuditEntry) : Prop :=
  ae_Action row = ae_Action entry ∧ ae_UserID row = ae_UserID entry ∧
  ae_Target row = ae_Target entry ∧ ae_Detail row = ae_Detail entry ∧
  (ae_ID entry ≠ "" → ae_ID row = ae_ID entry) ∧ ae_Outcome row ≠ "" ∧
  ∃ rest, ae_PrevHash row =
    sha256_hex (default "" (ae_PrevHash <$> last (d_audit_logs d)) +:+ "|" +:+ ae_ID row +:+ "|" +:+ rest).

Lemma normalize_fields_keeps (e : AuditEntry) :
  ae_Action (normalize_fields e) = ae_Action e ∧ ae_UserID (normalize_fields e) = ae_UserID e ∧
  ae_Target (normalize_fields e) = ae_Target e ∧ ae_Detail (normalize_fields e) = ae_Detail e ∧
  ae_ID (normalize_fields e) = ae_ID e ∧ ae_Outcome (normalize_fields e) ≠ "".
Proof.
  unfold normalize_fields.
  destruct (String.eqb_spec (ae_Outcome e) ""); destruct (String.eqb (ae_ActorType _) "");
    destruct (ae_ResourceType _); simpl; split_and!; try done; by destruct (HasSuffix _ _).
Qed.

Lemma chain_entry_wp (e : AuditEntry) (w : World) :
  wp (chain_entry e) (λ r w', match r with
    | Err _ => True
    | Ok _ => ∃ row, w_db w' = w_db w <| d_audit_logs ::= λ l, l ++ [row] |> ∧
        ae_Action row = ae_Action e ∧ ae_UserID row = ae_UserID e ∧ ae_Target row = ae_Target e ∧
        ae_Detail row = ae_Detail e ∧ ae_ID row = ae_ID e ∧ ae_Outcome row = ae_Outcome e ∧
        ∃ rest, ae_PrevHash row =
          sha256_hex (default "" (ae_PrevHash <$> last (d_audit_logs (w_db w))) +:+ "|" +:+
                      ae_ID row +:+ "|" +:+ rest)
    end ∧ w_auditDegraded w' = w_auditDegraded w ∧ w_observers w' = w_observers w ∧
    w_observed w' = w_observed w) w.
Proof.
  unfold chain_entry. do 3 wp_step; [done|]. wp_step. apply hashInput_wp.
  intros rest w1 [n ->]. do 3 wp_step; [done|]. wp_step. split; [|done].
  eexists. split; [reflexivity|]. simpl. split_and!; try done. by eexists.
Qed.

Lemma normalizeAuditEntry_wp (e : AuditEntry) (w : World) (Q : result AuditEntry → World → Prop) :
  (∀ e' w', draws_only w w' → ae_Action e' = ae_Action e → ae_UserID e' = ae_UserID e →
     ae_Target e' = ae_Target e → ae_Detail e' = ae_Detail e →
     (ae_ID e ≠ "" → ae_ID e' = ae_ID e) → ae_Outcome e' ≠ "" → Q (Ok e') w') →
  wp (normalizeAuditEntry e) Q w.
Proof.
  intros HQ. unfold normalizeAuditEntry. wp_step.
  destruct (String.eqb_spec (ae_ID e) "") as [Hid|Hid].
  - do 4 wp_step. destruct (normalize_fields_keeps (e <| ae_ID := uuid (w_draws w) |>))
      as (? & ? & ? & ? & _ & ?). apply HQ; try done. by eexists.
  - do 2 wp_step. destruct (normalize_fields_keeps e) as (? & ? & ? & ? & ? & ?).
    apply HQ; try done. exists (w_draws w). by destruct w.
Qed.

(** What [noted] says of the tables and of the observers. *)
Lemma noted_facts (failed : bool) (w w' : World) :
  noted failed w w' →
  w_db w' <| d_config := ∅ |> = w_db w <| d_config := ∅ |> ∧ w_auditDegraded w' = failed ∧
  ∃ h, w_observed w' = w_observed w ++
    if negb (Bool.eqb (w_auditDegraded w) failed) &&
       (if failed then (w_observers w).1 else (w_observers w).2) then [(failed, h)] else [].
Proof. intros (h & c & fs & ->). split_and!; [done|done|by exists h]. Qed.

End audit_lemmas.

(** The tables but for the audit log and the settings. *)
Definition other_tables (d : Db) : Db := d <| d_audit_logs := [] |> <| d_config := ∅ |>.

(** The outcomes of logging [entry]. *)
Definition audited `{Env} (entry : AuditEntry) (w : World) (r : result unit) (w' : World) : Prop :=
  other_tables (w_db w') = other_tables (w_db w) ∧
  match r with
  | Ok _ => ∃ row, d_audit_logs (w_db w') = d_audit_logs (w_db w) ++ [row] ∧ logged (w_db w) entry row
  | Err _ => d_audit_logs (w_db w') = d_audit_logs (w_db w)
  end ∧
  w_auditDegraded w' = negb (is_ok r) ∧
  ∃ h, w_observed w' = w_observed w ++
    if negb (Bool.eqb (w_auditDegraded w) (negb (is_ok r))) &&
       (if is_ok r then (w_observers w).2 else (w_observers w).1)
    then [(negb (is_ok r), h)] else [].

Lemma LogAudit_audited `{Env} (entry : AuditEntry) (w : World) :
  let '(r, w') := LogAudit entry w in audited entry w r w'.
Proof.
  set (Post := audited entry w).
  cut (wp (LogAudit entry) Post w); [unfold wp; by destruct (LogAudit entry w)|].
  assert (Hnoted : ∀ r w1 w', w_auditDegraded w1 = w_auditDegraded w →
    w_observers w1 = w_observers w → w_observed w1 = w_observed w →
    other_tables (w_db w1) = other_tables (w_db w) →
    match r with
    | Ok _ => ∃ row, d_audit_logs (w_db w1) = d_audit_logs (w_db w) ++ [row] ∧ logged (w_db w) entry row
    | Err _ => d_audit_logs (w_db w1) = d_audit_logs (w_db w)
    end → noted (negb (is_ok r)) w1 w' → Post r w').
  { intros r w1 w' Hd Ho Hs Ht Hl (H1 & H2 & h & H3)%noted_facts.
    assert (Hlogs : d_audit_logs (w_db w') = d_audit_logs (w_db w1)) by by injection H1.
    unfold Post, audited. split_and!.
    - rewrite <- Ht. exact (f_equal (λ d, d <| d_audit_logs := [] |>) H1).
    - rewrite Hlogs. exact Hl.
    - done.
    - exists h. rewrite H3, Hd, Ho, Hs. by destruct (is_ok r). }
  clearbody Post. unfold LogAudit. wp_step. apply normalizeAuditEntry_wp.
  intros e' w1 [n ->] Ha Hu Ht Hd Hid Hout. do 2 wp_step.
  assert (Hfail : ∀ err fs, wp (bind (noteAuditFailure err) (λ _, fail err)) Post
      (w <| w_draws := n |> <| w_faults := fs |>)).
  { intros err fs. wp_step. apply noteAuditFailure_wp. intros w' Hn. wp_step.
    by eapply (Hnoted (Err err)); [..|exact Hn]. }
  do 3 wp_step; [|apply Hfail]. wp_step; [apply Hfail|].
  eapply wp_mono; [apply chain_entry_wp|]. intros r w2 (Hr & H1 & H2 & H3). simpl in *.
  assert (Hroll : ∀ err fs, wp (bind (noteAuditFailure err) (λ _, fail err)) Post
      (w2 <| w_faults := fs |> <| w_db := w_db w |>)).
  { intros err fs. wp_step. apply noteAuditFailure_wp. intros w' Hn. wp_step.
    by eapply (Hnoted (Err err)); [..|exact Hn]. }
  destruct r as [[]|err].
  - split; [exact Hroll|]. intros fs. apply noteAuditSuccess_wp. intros w' Hn.
    eapply (Hnoted (Ok tt)); [..|exact Hn]; simpl; try done.
    + destruct Hr as (row & -> & _). done.
    + destruct Hr as (row & -> & R1 & R2 & R3 & R4 & R5 & R6 & R7). exists row. split; [done|].
      unfold logged.
      split_and!; [congruence..|intros Hne; rewrite R5; by apply Hid|congruence|exact R7].
  - specialize (Hroll err (w_faults w2)). by destruct w2.
Qed.

(** C2: logging is all or nothing and never silent.  Whatever the driver does, either the entry is
    appended at the end of the log, its hash taken over the previous entry's hash and its own
    identifier, and the pipeline is healthy, or the log is unchanged, the error is returned and the
    pipeline is degraded.  No other table but the settings changes, and the observers are called
    exactly at the changes of health. *)
Theorem LogAudit_atomic `{Env} (entry : AuditEntry) (w : World) :
  let '(r, w') := LogAudit entry w in audited entry w r w'.
Proof. apply LogAudit_audited. Qed.

(** the audit detections do not see the day they look at.  An entry is counted by a [From]
    bound formatted as RFC 3339, which is how [handleAuditDetections] writes "an hour ago", only if
    it was logged on a later UTC day: the space of the stored timestamps sorts before the [T] of the
    bound, so failed logins of the last hour are missed. *)
Theorem detections_blind_to_same_day (f : AuditFilter) (e : AuditEntry) (from : Z) :
  af_From f = Some (format_rfc3339 from) → day_of (ae_CreatedAt e) = day_of from →
  audit_matches f e = false.
Proof.
  intros Hf Hd. unfold audit_matches. rewrite Hf. unfold text_le at 1.
  rewrite sqlite_before_rfc3339 by done. simpl. by rewrite !andb_false_r.
Qed.

Lemma detections_blind_to_same_day_witness :
  audit_matches
    (MkAuditFilter None (Some "user.login_failed") None None None None
       (Some (format_rfc3339 (1778932800 * NS))) None 5 0)
    (MkAuditEntry "e1" None "user.login_failed" None None None "failure" "anonymous" None None ""
       (1778936000 * NS)) = false.
Proof. apply (detections_blind_to_same_day _ _ (1778932800 * NS)); reflexivity. Defined.

(** ** Frames *)

(** [f] looks neither at the audit log nor at the configuration. *)
Class Unaudited {X : Type} (f : World → X) := {
  un_beyond :: Beyond f;
  un_config : ∀ w g, f (w <| w_db := w_db w <| d_config ::= g |> |>) = f w;
  un_logs : ∀ w g, f (w <| w_db := w_db w <| d_audit_logs ::= g |> |>) = f w
}.
#[export] Instance unaudited_outside {X : Type} (f : World → X) `{!Outside f} : Unaudited f.
Proof. split; [apply _|intros; apply out_db..]. Qed.
#[export] Instance unaudited_users : Unaudited (tables d_users). Proof. by repeat split. Qed.
#[export] Instance unaudited_servers : Unaudited (tables d_servers). Proof. by repeat split. Qed.
#[export] Instance unaudited_permissions : Unaudited (tables d_permissions). Proof. by repeat split. Qed.
#[export] Instance unaudited_api_tokens : Unaudited (tables d_api_tokens). Proof. by repeat split. Qed.
#[export] Hint Extern 0 (Unaudited _) => typeclasses eauto : frames.

Section audit_frames.
Context {X : Type} (f : World → X) `{!Unaudited f} `{E : Env}.

Lemma frame_GetConfig (k : string) : frame f (GetConfig k).
Proof. unfold GetConfig, LookupConfig. frames. Qed.
Lemma frame_SetConfig (k v : string) : frame f (SetConfig k v).
Proof. unfold SetConfig. frames. apply un_config. Qed.
Hint Resolve frame_GetConfig frame_SetConfig : frames.
Lemma frame_GetAuditHealth : frame f GetAuditHealth.
Proof. unfold GetAuditHealth, getConfigIntDefault, getConfigBoolDefault, getConfigString. frames. Qed.
Hint Resolve frame_GetAuditHealth : frames.
Lemma frame_set_degraded (b : bool) : frame f (set_degraded b).
Proof. intros w. apply out_degraded. Qed.
Lemma frame_get_degraded : frame f get_degraded.
Proof. done. Qed.
Lemma frame_observe (b : bool) (o : World → bool) (h : AuditHealth) :
  frame f (λ w, (Ok tt, if o w then w <| w_observed ::= λ l, l ++ [(b, h)] |> else w)).
Proof. intros w. simpl. destruct (o w); [apply out_observed|done]. Qed.
Hint Resolve frame_set_degraded frame_get_degraded frame_observe : frames.
Lemma frame_noteAuditFailure (e : string) : frame f (noteAuditFailure e).
Proof. unfold noteAuditFailure, getConfigIntDefault. frames. Qed.
Lemma frame_noteAuditSuccess : frame f noteAuditSuccess.
Proof. unfold noteAuditSuccess. frames. Qed.
Hint Resolve frame_noteAuditSuccess frame_noteAuditFailure : frames.
Lemma frame_print_ptr (p : option string) : frame f (print_ptr p).
Proof. unfold print_ptr. frames. Qed.
Lemma frame_normalizeAuditEntry (e : AuditEntry) : frame f (normalizeAuditEntry e).
Proof. unfold normalizeAuditEntry. frames. Qed.
Hint Resolve frame_print_ptr frame_normalizeAuditEntry : frames.
Lemma frame_chain_entry (e : AuditEntry) : frame f (chain_entry e).
Proof. unfold chain_entry, hashInput. frames. apply un_logs. Qed.
Hint Resolve frame_chain_entry : frames.
Lemma frame_LogAudit (e : AuditEntry) : frame f (LogAudit e).
Proof. unfold LogAudit. frames. Qed.
End audit_frames.
#[export] Hint Resolve frame_GetConfig frame_SetConfig frame_LogAudit : frames.
