(* ===== verification/Store.v ===== *)
(** * Opening the store and building its queries (hub/internal/store/store.go, querybuilder.go).

    The driver is opened with a data source name; what it does with the pragmas of the name is its
    documented behaviour, of which the world keeps whether foreign keys are enforced. *)

From S2P Require Import Prelude GoStr GoTime Model Db Demo StoreConfig StoreAudit.
From S2P Require Migrate.

(** ** querybuilder.go *)

Definition sqlWhere : string := " WHERE ".

Section builder.
(** The values of a query. *)
Context {arg : Type} (int : Z → arg).

Record queryBuilder := MkQueryBuilder {
  base : string;
  wheres : list string;
  args : list arg;
  orderBy : string;
  limit : Z;
  offset : Z;
  hasLimit : bool;
  hasOff : bool
}.
#[local] Instance eta_qb : Eta queryBuilder := λ r, MkQueryBuilder (base r) (wheres r) (args r) (orderBy r)
  (limit r) (offset r) (hasLimit r) (hasOff r).

Definition newQueryBuilder (base : string) : queryBuilder := MkQueryBuilder base [] [] "" 0 0 false false.

Definition Where (condition : string) (vs : list arg) (qb : queryBuilder) : queryBuilder :=
  qb <| wheres ::= λ l, l ++ [condition] |> <| args ::= λ l, l ++ vs |>.

Definition WhereIn (column : string) (values : list arg) (qb : queryBuilder) : queryBuilder :=
  let placeholders := map (λ _, "?") values in
  qb <| wheres ::= λ l, l ++ [column +:+ " IN (" +:+ Join "," placeholders +:+ ")"] |>
     <| args ::= λ l, l ++ values |>.

Definition OrderBy (clause : string) (qb : queryBuilder) : queryBuilder := qb <| orderBy := clause |>.
Definition Limit (n : Z) (qb : queryBuilder) : queryBuilder := qb <| limit := n |> <| hasLimit := true |>.
Definition Offset (n : Z) (qb : queryBuilder) : queryBuilder := qb <| offset := n |> <| hasOff := true |>.

(** The clause the three queries share. *)
Definition where_clause (qb : queryBuilder) : string :=
  match wheres qb with [] => "" | ws => sqlWhere +:+ Join " AND " ws end.

Definition Build (qb : queryBuilder) : string * list arg :=
  let q := base qb +:+ where_clause qb in
  let q := if String.eqb (orderBy qb) "" then q else q +:+ " ORDER BY " +:+ orderBy qb in
  let '(q, vs) := if hasLimit qb then (q +:+ " LIMIT ?", args qb ++ [int (limit qb)]) else (q, args qb) in
  if hasOff qb then (q +:+ " OFFSET ?", vs ++ [int (offset qb)]) else (q, vs).

Definition CountQuery (table : string) (qb : queryBuilder) : string * list arg :=
  ("SELECT COUNT(*) FROM " +:+ table +:+ where_clause qb, args qb).

Definition BuildWhereClause (qb : queryBuilder) : string * list arg := (where_clause qb, args qb).

(** *** Every placeholder has its value *)

(** The number of [?] in a text. *)
Fixpoint placeholders (s : string) : nat :=
  match s with
  | EmptyString => 0
  | String a s' => (if Ascii.eqb a "?" then 1 else 0) + placeholders s'
  end.

Lemma placeholders_app (s t : string) : placeholders (s +:+ t) = (placeholders s + placeholders t)%nat.
Proof. induction s as [|a s IH]; [done|]. simpl. rewrite IH. lia. Qed.

Lemma placeholders_Join (sep : string) (l : list string) :
  placeholders sep = 0%nat → placeholders (Join sep l) = sum_list_with placeholders l.
Proof.
  intros Hs. induction l as [|x l IH]; [done|]. destruct l as [|y l]; [simpl; lia|].
  change (Join sep (x :: y :: l)) with (x +:+ sep +:+ Join sep (y :: l)).
  rewrite !placeholders_app, IH, Hs. simpl. lia.
Qed.

(** The conditions carry the values, the base and the order none. *)
Record balanced (qb : queryBuilder) : Prop := {
  bal_base : placeholders (base qb) = 0%nat;
  bal_order : placeholders (orderBy qb) = 0%nat;
  bal_wheres : sum_list_with placeholders (wheres qb) = length (args qb)
}.

Lemma sum_list_with_snoc (l : list string) (x : string) :
  sum_list_with placeholders (l ++ [x]) = (sum_list_with placeholders l + placeholders x)%nat.
Proof. induction l as [|y l IH]; simpl; [lia|]. rewrite IH. lia. Qed.

(** The steps the store builds queries with. *)
Inductive builds : queryBuilder → Prop :=
  | builds_new b : placeholders b = 0%nat → builds (newQueryBuilder b)
  | builds_Where c vs qb : placeholders c = length vs → builds qb → builds (Where c vs qb)
  | builds_WhereIn c vs qb : placeholders c = 0%nat → builds qb → builds (WhereIn c vs qb)
  | builds_OrderBy c qb : placeholders c = 0%nat → builds qb → builds (OrderBy c qb)
  | builds_Limit n qb : builds qb → builds (Limit n qb)
  | builds_Offset n qb : builds qb → builds (Offset n qb).

Lemma placeholders_marks {B : Type} (vs : list B) : sum_list_with placeholders (map (λ _, "?") vs) = length vs.
Proof. induction vs as [|v vs IH]; [done|]. simpl. by rewrite IH. Qed.

Lemma placeholders_in {B : Type} (c : string) (vs : list B) :
  placeholders c = 0%nat →
  placeholders (c +:+ " IN (" +:+ Join "," (map (λ _, "?") vs) +:+ ")") = length vs.
Proof.
  intros Hc. rewrite !placeholders_app, placeholders_Join, placeholders_marks, Hc by done. cbn. lia.
Qed.

Lemma builds_balanced (qb : queryBuilder) : builds qb → balanced qb.
Proof.
  induction 1 as [b Hb|c vs qb Hc _ [H1 H2 H3]|c vs qb Hc _ [H1 H2 H3]|c qb Hc _ [H1 H2 H3]|n qb _ [H1 H2 H3]|n qb _ [H1 H2 H3]];
    (split; [done|done|]); try done.
  - change (sum_list_with placeholders (wheres qb ++ [c]) = length (args qb ++ vs)).
    rewrite sum_list_with_snoc, length_app. lia.
  - unfold WhereIn. cbn [wheres args set_field eta_qb].
    rewrite sum_list_with_snoc, length_app, placeholders_in by done. lia.
Qed.

(** However the store puts a query together from conditions whose placeholders have their values,
    the three texts it gets have exactly as many placeholders as values. *)
Theorem queries_balanced (table : string) (qb : queryBuilder) (Hqb : builds qb) (Htable : placeholders table = 0%nat) :
  placeholders (Build qb).1 = length (Build qb).2 ∧
  placeholders (CountQuery table qb).1 = length (CountQuery table qb).2 ∧
  placeholders (BuildWhereClause qb).1 = length (BuildWhereClause qb).2.
Proof.
  destruct (builds_balanced qb Hqb) as [H1 H2 H3].
  assert (Hw : placeholders (where_clause qb) = length (args qb)).
  { rewrite <- H3. unfold where_clause. destruct (wheres qb) as [|w ws]; [done|].
    rewrite placeholders_app, placeholders_Join by done. done. }
  split_and!.
  - unfold Build. destruct (String.eqb _ ""), (hasLimit qb), (hasOff qb); cbn [fst snd];
      rewrite ?placeholders_app, ?length_app, ?H1, ?H2, ?Hw; simpl; lia.
  - simpl. by rewrite placeholders_app, Htable, Hw.
  - exact Hw.
Qed.
End builder.

(** ** store.go *)

Definition connectionPragmas : list string :=
  ["foreign_keys(1)"; "synchronous(NORMAL)"; "busy_timeout(5000)"; "cache_size(-20000)"; "mmap_size(268435456)"].

Definition appendConnectionPragmas (dsn : string) : string :=
  let sep := if Contains dsn "?" then "&" else "?" in
  dsn +:+ sep +:+ Join "&" (map (λ p, "_pragma=" +:+ p) connectionPragmas).

Section open.
Context `{E : Env}.
(** [sql.Open] fails or not; whether a data source name makes the driver enforce foreign keys. *)
Variable sql_open : string → option string.
Variable enforces : string → bool.
(** How the engine runs a script on the tables, and the scripts of hub/internal/migrate/migrations. *)
Context `{SQ : Migrate.Sqlite Db}.
Variable files : list (string * string).

(** [migrate.Run] on the database that was opened. *)
Definition migrate : M unit := λ w,
  let '(r, st) := Migrate.Run files (Migrate.MkState (Migrate.MkDatabase (d_migrations (w_db w)) (w_db w)) (w_faults w)) in
  (r, w <| w_db := Migrate.data (Migrate.db st) <| d_migrations := Migrate.migrations (Migrate.db st) |> |>
        <| w_faults := Migrate.faults st |>).

Definition data_source (now : Z) (dbPath : string) : string :=
  appendConnectionPragmas
    (if String.eqb dbPath ":memory:" then "file:veyport-" +:+ Itoa now +:+ "?mode=memory&cache=shared"
     else if negb (HasPrefix dbPath "file:") then "file:" +:+ dbPath else dbPath).

Definition New (dbPath : string) : M unit :=
  let* now := get_now in
  let dsn := data_source now dbPath in
  match sql_open dsn with
  | Some e => fail ("open database: " +:+ e)
  | None => λ w, (
      let* _ := wrap "exec PRAGMA journal_mode=WAL" driver in
      let* _ := wrap "run migrations" migrate in
      let* health := try (GetAuditHealth) in
      match health with
      | Ok h => set_degraded (ah_Degraded h)
      | Err _ => set_degraded false
      end) (w <| w_fk := enforces dsn |>)
  end.

(** Opening a store takes no time. *)
Lemma New_now (dbPath : string) (w w' : World) (r : result unit) :
  New dbPath w = (r, w') → w_now w' = w_now w.
Proof.
  assert (Hm : frame w_now migrate) by (intros v; unfold migrate; by destruct (Migrate.Run _ _)).
  unfold New, bind at 1, get_now. destruct (sql_open _); [by intros [= _ <-]|]. intros H.
  eapply (frame_run w_now) in H; [done|]. 
  repeat first [exact Hm | frame_step]; first [by apply (frame_GetAuditHealth _) | done].
Qed.
End open.

(** Every data source name asks for foreign keys, in the query part of the name. *)
Lemma data_source_enforces (now : Z) (dbPath : string) :
  ∃ pre sep, data_source now dbPath = pre +:+ sep +:+ "_pragma=foreign_keys(1)&" +:+
    "_pragma=synchronous(NORMAL)&_pragma=busy_timeout(5000)&_pragma=cache_size(-20000)&_pragma=mmap_size(268435456)" ∧
    HasPrefix pre "file:" = true ∧ (sep = "?" ∧ Contains pre "?" = false ∨ sep = "&" ∧ Contains pre "?" = true).
Proof.
  unfold data_source, appendConnectionPragmas. set (pre := if String.eqb dbPath ":memory:" then _ else _).
  exists pre, (if Contains pre "?" then "&" else "?"). split; [done|]. split.
  - unfold pre. destruct (String.eqb dbPath ":memory:"); [done|].
    destruct (HasPrefix dbPath "file:") eqn:Hp; [done|apply prefix_app].
  - destruct (Contains pre "?"); auto.
Qed.

Section witnesses.
#[local] Notation demo_query :=
  (Offset 20 (Limit 10 (OrderBy "created_at DESC" (WhereIn "id" ["a"; "b"] (Where "status = ?" ["online"]
    (newQueryBuilder "SELECT id FROM servers")))))).
Lemma queries_balanced_witness :
  (Build Itoa demo_query).1 =
    "SELECT id FROM servers WHERE status = ? AND id IN (?,?) ORDER BY created_at DESC LIMIT ? OFFSET ?" ∧
  placeholders (Build Itoa demo_query).1 = length (Build Itoa demo_query).2.
Proof.
  split; [done|]. apply (queries_balanced Itoa "servers" demo_query); [|done].
  by repeat first [apply builds_Offset | apply builds_Limit | apply builds_OrderBy; [done|] |
                   apply builds_WhereIn; [done|] | apply builds_Where; [done|] | apply builds_new].
Defined.
End witnesses.
