(* ===== verification/StoreTokens.v ===== *)
(** * API tokens, password history and notification tables (hub/internal/store/api_tokens.go,
    password_history.go, notifications.go). *)

From S2P Require Import Prelude GoStr GoTime Model Db Demo.

Definition errAPITokenNotFound : string := "api token not found".
Definition token_is (id : string) (t : APIToken) : bool := String.eqb (tk_ID t) id.

(** [token_hash = ? AND revoked_at IS NULL AND (expires_at IS NULL OR expires_at > datetime('now'))] *)
Definition token_active (tokenHash : string) (now : Z) (t : APIToken) : bool :=
  String.eqb (tk_TokenHash t) tokenHash && bool_decide (tk_RevokedAt t = None) &&
  match tk_ExpiresAt t with None => true | Some e => sqlite_time now <? e end.

Definition GetActiveAPITokenByHash (tokenHash : string) : M APIToken :=
  let* r := wrap "scan api token"
    (query_row (λ w, List.find (token_active tokenHash (w_now w)) (d_api_tokens (w_db w)))) in
  match r with
  | None => fail errAPITokenNotFound
  | Some t => ret t
  end.

(** The rows [ORDER BY created_at DESC LIMIT n] of one user's password history. *)
Definition history_of (userID : string) (w : World) : list HistoryRow :=
  List.filter (λ h, String.eqb (hr_user_id h) userID) (d_password_history (w_db w)).

Section tokens.
Context `{E : Env}.

Definition CreateAPIToken (t : APIToken) : M unit :=
  let* _ := wrap "create api token" (exec (λ w,
    (1, w_db w <| d_api_tokens ::= λ l, l ++
         [t <| tk_ExpiresAt := sqliteTimePtr (tk_ExpiresAt t) |>
            <| tk_LastUsedAt := sqliteTimePtr (tk_LastUsedAt t) |>
            <| tk_RevokedAt := sqliteTimePtr (tk_RevokedAt t) |>
            <| tk_CreatedAt := sqlite_time (w_now w) |>
            <| tk_UpdatedAt := sqlite_time (w_now w) |>] |>))) in
  ret tt.

Definition ListAPITokensByUserID (userID : string) : M (list APIToken) :=
  query (wrap "list api tokens") (wrap "scan api token row") plain (λ w,
    order_by (asc tk_CreatedAt)
      (List.filter (λ t, String.eqb (tk_UserID t) userID) (d_api_tokens (w_db w)))).

Definition update_tokens (p : APIToken → bool) (f : Z → APIToken → APIToken) (w : World) : Z * Db :=
  let now := sqlite_time (w_now w) in
  (count_rows p (d_api_tokens (w_db w)),
   w_db w <| d_api_tokens ::= update_rows p (λ t, f now t <| tk_UpdatedAt := now |>) |>).

Definition UpdateAPITokenLastUsed (tokenID : string) (usedAt : Z) : M unit :=
  let* _ := wrap "update api token last used"
    (exec (update_tokens (token_is tokenID)
       (λ _ t, t <| tk_LastUsedAt := Some (sqlite_time usedAt) |>))) in
  ret tt.

Definition revoke (now : Z) (t : APIToken) : APIToken := t <| tk_RevokedAt := Some now |>.

Definition RevokeAllAPITokensByUserID (userID : string) : M unit :=
  let* _ := wrap "revoke all api tokens"
    (exec (update_tokens
       (λ t, String.eqb (tk_UserID t) userID && bool_decide (tk_RevokedAt t = None)) revoke)) in
  ret tt.

Definition RevokeAPIToken (tokenID : string) : M unit :=
  let* n := wrap "revoke api token"
    (exec (update_tokens (λ t, token_is tokenID t && bool_decide (tk_RevokedAt t = None)) revoke)) in
  let* rows := wrap "revoke api token rows" (RowsAffected n) in
  if rows =? 0 then fail errAPITokenNotFound else ret tt.

(** ** password_history.go *)

Definition defaultPasswordHistoryLimit : Z := 5.

(** [SELECT ... WHERE user_id = ? ORDER BY created_at DESC LIMIT ?] *)
Definition recent_history (userID : string) (limit : Z) (w : World) : list HistoryRow :=
  sql_limit limit (order_by (desc hr_created_at) (history_of userID w)).

Definition TrimPasswordHistory (userID : string) (limit : Z) : M unit :=
  let* _ := wrap "trim password history" (exec (λ w,
    let keep := map hr_id (recent_history userID limit w) in
    let p h := String.eqb (hr_user_id h) userID && negb (existsb (String.eqb (hr_id h)) keep) in
    (count_rows p (d_password_history (w_db w)),
     w_db w <| d_password_history ::= List.filter (λ h, negb (p h)) |>))) in
  ret tt.

Definition AddPasswordHistory (userID passwordHash : string) : M unit :=
  let* id := NewString in
  let* _ := wrap "insert password history" (exec (λ w,
    (1, w_db w <| d_password_history ::= λ l,
          l ++ [MkHistoryRow id userID passwordHash (sqlite_time (w_now w))] |>))) in
  TrimPasswordHistory userID defaultPasswordHistoryLimit.

(** The loop over the rows, left at the first hash that matches. *)
Fixpoint match_rows (candidate : string) (rows : list HistoryRow) : M bool :=
  match rows with
  | [] => let* _ := driver in ret false
  | h :: rows' =>
      let* _ := wrap "scan password history" driver in
      if bcrypt_match (hr_password_hash h) candidate then ret true else match_rows candidate rows'
  end.

Definition PasswordMatchesRecent (userID candidate : string) (limit : Z) : M bool :=
  let* _ := wrap "query password history" driver in λ w,
  match_rows candidate (recent_history userID limit w) w.

(** ** notifications.go *)

Definition preference_rows (userID : string) (w : World) : list (string * bool) :=
  (λ kv, (kv.1.2, kv.2)) <$>
    List.filter (λ kv, String.eqb kv.1.1 userID) (map_to_list (d_notification_preferences (w_db w))).

Definition GetNotificationPreferences (userID : string) : M (list NotificationPreference) :=
  let* rows := query (wrap "query notification preferences") (wrap "scan notification preference")
                 (wrap "iterate notification preferences") (preference_rows userID) in
  let overrides := foldl (λ m kv, <[kv.1 := kv.2]> m) (∅ : gmap string bool) rows in
  ret (map (λ def, MkNotificationPreference (ne_Type def) (ne_Label def) (ne_Category def)
              (match overrides !! ne_Type def with
               | Some override => override
               | None => ne_DefaultOn def
               end)) AllNotifyEvents).

Definition SetNotificationPreference (userID eventType : string) (enabled : bool) : M unit :=
  let* _ := wrap "set notification preference" (exec (λ w,
    (1, w_db w <| d_notification_preferences ::= <[(userID, eventType) := enabled]> |>))) in
  ret tt.

Definition default_on (eventType : string) : bool :=
  match List.find (λ d, String.eqb (ne_Type d) eventType) AllNotifyEvents with
  | Some def => ne_DefaultOn def
  | None => false
  end.

Definition NotificationRecipient : Type := string * string.  (* ID, Email *)

Definition GetEnabledRecipients (eventType : string) : M (list NotificationRecipient) :=
  let defaultOn := default_on eventType in
  query (wrap "query enabled recipients") (wrap "scan notification recipient") plain (λ w,
    let pref u := d_notification_preferences (w_db w) !! (u_ID u, eventType) in
    map (λ u, (u_ID u, u_Email u)) (order_by (asc u_CreatedAt) (List.filter (λ u,
      if defaultOn then bool_decide (pref u ≠ Some false) else bool_decide (pref u = Some true))
      (d_users (w_db w))))).

Definition LogNotification (id userID eventType subject status : string) (errMsg : option string)
  : M unit :=
  let* _ := wrap "log notification" (exec (λ w,
    (1, w_db w <| d_notification_log ::= λ l, l ++
         [MkNotificationLogRow id userID eventType subject status errMsg (sqlite_time (w_now w))] |>))) in
  ret tt.

(** [notification_log nl LEFT JOIN users u]: the name, or the ID when the user is unknown. *)
Definition log_username (d : Db) (n : NotificationLogRow) : string :=
  match List.find (λ u, String.eqb (u_ID u) (nl_user_id n)) (d_users d) with
  | Some u => u_Username u
  | None => nl_user_id n
  end.

Definition ListNotificationLog (limit offset : Z) : M (list (NotificationLogRow * string) * Z) :=
  let* total := wrap "count notification log"
    (query_row (λ w, Some (Z.of_nat (length (d_notification_log (w_db w)))))) in
  let* entries := query (wrap "query notification log") (wrap "scan notification log entry") plain
    (λ w, map (λ n, (n, log_username (w_db w) n)) (sql_limit limit (drop (Z.to_nat offset)
            (order_by (desc nl_created_at) (d_notification_log (w_db w)))))) in
  ret (entries, default 0 total).

End tokens.

(** ** Lemmas *)

Lemma foldl_insert_find (rows : list (string * bool)) (m : gmap string bool) (k : string) :
  NoDup rows.*1 →
  foldl (λ m kv, <[kv.1 := kv.2]> m) m rows !! k =
    match List.find (λ kv, String.eqb kv.1 k) rows with Some kv => Some kv.2 | None => m !! k end.
Proof.
  revert m. induction rows as [|[k' v] rows IH]; intros m Hnd; simpl; [done|].
  apply NoDup_cons in Hnd as [Hk Hnd]. rewrite IH by done.
  destruct (String.eqb_spec k' k) as [->|Hne]; [|by rewrite lookup_insert_ne].
  destruct (List.find _ rows) as [kv|] eqn:Hf; [|apply lookup_insert_eq].
  exfalso. apply elem_of_find in Hf as [Hin Heq]. apply String.eqb_eq in Heq. apply Hk.
  rewrite <- Heq. apply list_elem_of_fmap. by exists kv.
Qed.

Lemma preference_rows_keys (userID : string) (w : World) : NoDup (preference_rows userID w).*1.
Proof.
  unfold preference_rows. rewrite <- list_fmap_compose.
  assert (Hnd := NoDup_fst_map_to_list (d_notification_preferences (w_db w))).
  revert Hnd. generalize (map_to_list (d_notification_preferences (w_db w))) as l.
  induction l as [|[[u e] b] l IH]; simpl; intros Hnd; [constructor|].
  apply NoDup_cons in Hnd as [Hn Hnd]. destruct (String.eqb_spec u userID) as [->|]; [|by apply IH].
  simpl. apply NoDup_cons. split; [|by apply IH].
  intros (([u' e'] & b') & Heq & Hin)%list_elem_of_fmap. simpl in Heq. subst e'. apply Hn.
  apply list_elem_of_In, filter_In in Hin as [Hin Hu]. apply String.eqb_eq in Hu. simpl in Hu. subst u'.
  apply list_elem_of_fmap. exists (userID, e, b'). split; [done|]. by apply list_elem_of_In.
Qed.

Lemma preference_rows_lookup (userID ev : string) (b : bool) (w : World) :
  (ev, b) ∈ preference_rows userID w ↔ d_notification_preferences (w_db w) !! (userID, ev) = Some b.
Proof.
  unfold preference_rows. rewrite <- elem_of_map_to_list, list_elem_of_fmap. split.
  - intros ([[u e] b'] & [= -> ->] & Hin). apply list_elem_of_In, filter_In in Hin as [Hin Hu].
    apply String.eqb_eq in Hu. simpl in Hu. subst u. by apply list_elem_of_In.
  - intros Hin. exists (userID, ev, b). split; [done|]. apply list_elem_of_In, filter_In.
    split; [by apply list_elem_of_In|]. apply String.eqb_refl.
Qed.

(** The merged map of overrides is the user's part of the table. *)
Lemma overrides_lookup (userID ev : string) (w : World) :
  foldl (λ m kv, <[kv.1 := kv.2]> m) (∅ : gmap string bool) (preference_rows userID w) !! ev =
  d_notification_preferences (w_db w) !! (userID, ev).
Proof.
  rewrite foldl_insert_find by apply preference_rows_keys.
  destruct (List.find _ _) as [[e b]|] eqn:Hf.
  - apply elem_of_find in Hf as [Hin He]. apply String.eqb_eq in He. simpl in *. subst e.
    symmetry. by apply preference_rows_lookup.
  - rewrite lookup_empty. destruct (_ !! (userID, ev)) as [b|] eqn:Hl; [|done].
    apply preference_rows_lookup, list_elem_of_In in Hl.
    apply (List.find_none _ _ Hf) in Hl. simpl in Hl. by rewrite String.eqb_refl in Hl.
Qed.

(** ** Properties *)

(** an event is mailed to exactly the users whose preferences page shows it enabled: the two
    queries, one per user with defaults merged in, one per event with the defaults turned into a set
    difference, agree for every known event. *)
Theorem recipients_agree_with_preferences `{E : Env, !OrderLaws E} (def : NotifyEventDef) (u : User)
    (w : World) :
  no_faults w → def ∈ AllNotifyEvents → u ∈ d_users (w_db w) →
  match GetEnabledRecipients (ne_Type def) w, GetNotificationPreferences (u_ID u) w with
  | (Ok recipients, _), (Ok prefs, _) =>
      (u_ID u, u_Email u) ∈ recipients ↔
      ∃ p, p ∈ prefs ∧ np_EventType p = ne_Type def ∧ np_Enabled p = true
  | _, _ => False
  end.
Proof.
  intros Hnf Hdef Hu. unfold GetEnabledRecipients, GetNotificationPreferences, bind.
  rewrite !query_ok by auto with veyport. unfold ret.
  set (pref := d_notification_preferences (w_db w) !! (u_ID u, ne_Type def)).
  assert (Hdefault : default_on (ne_Type def) = ne_DefaultOn def).
  { unfold AllNotifyEvents in Hdef.
    repeat (apply elem_of_cons in Hdef as [->|Hdef]; [reflexivity|]). by inversion Hdef. }
  trans (default (ne_DefaultOn def) pref = true).
  - rewrite Hdefault, list_elem_of_fmap.
    assert (Hp : (if ne_DefaultOn def then bool_decide (pref ≠ Some false)
                  else bool_decide (pref = Some true)) = default (ne_DefaultOn def) pref).
    { by destruct (ne_DefaultOn def), pref as [[]|]. }
    rewrite <- Hp. split.
    + intros (v & [= Hid Hem] & Hin). rewrite order_by_perm in Hin.
      apply list_elem_of_In, filter_In in Hin as [_ Hin]. by rewrite <- Hid in Hin.
    + intros Hb. exists u. split; [done|]. rewrite order_by_perm.
      apply list_elem_of_In, filter_In. split; [by apply list_elem_of_In|done].
  - setoid_rewrite list_elem_of_fmap. split.
    + intros Hb. eexists. split; [by exists def|]. simpl. split; [done|].
      rewrite overrides_lookup. fold pref. by destruct pref.
    + intros (p & (def' & -> & Hin) & Ht & He). simpl in Ht, He.
      rewrite Ht, overrides_lookup in He. fold pref in He.
      assert (Hdef' : default_on (ne_Type def') = ne_DefaultOn def').
      { unfold AllNotifyEvents in Hin.
        repeat (apply elem_of_cons in Hin as [->|Hin]; [reflexivity|]). by inversion Hin. }
      rewrite Ht, Hdefault in Hdef'. rewrite Hdef'. by destruct pref.
Qed.

Section history.
Context `{E : Env, !OrderLaws E}.

Lemma history_ids_NoDup (fk : bool) (d : Db) :
  db_violation fk d = None → NoDup (map hr_id (d_password_history d)).
Proof.
  intros H%db_violation_None_unique. rewrite Forall_forall in H.
  specialize (H ("password_history.id", distinct (λ p, Some (hr_id p)) (d_password_history d))).
  rewrite list_elem_of_In in H. specialize (H ltac:(simpl; tauto)). simpl in H.
  apply bool_decide_eq_true in H. by rewrite omap_total in H.
Qed.

Lemma NoDup_map_filter {A B : Type} (f : A → B) (p : A → bool) (l : list A) :
  NoDup (map f l) → NoDup (map f (List.filter p l)).
Proof.
  induction l as [|x l IH]; simpl; intros Hnd; [done|]. apply NoDup_cons in Hnd as [Hx Hnd].
  destruct (p x); [|by apply IH]. simpl. apply NoDup_cons. split; [|by apply IH].
  intros Hin. apply Hx. apply list_elem_of_In, in_map_iff in Hin as (y & Hy & Hin).
  apply filter_In in Hin as [Hin _]. apply list_elem_of_In, in_map_iff. by exists y.
Qed.

Lemma sorted_prefix_max {A : Type} (R : A → A → Prop) (l : list A) (n : nat) (x y : A) :
  StronglySorted R l → x ∈ take n l → y ∈ drop n l → R x y.
Proof.
  intros Hs. revert n. induction Hs as [|z l Hs IH Hz]; intros n Hx Hy.
  - rewrite take_nil in Hx. by inversion Hx.
  - destruct n as [|n]; simpl in *; [by inversion Hx|].
    apply elem_of_cons in Hx as [->|Hx]; [|by eapply IH].
    eapply Forall_forall; [exact Hz|]. rewrite <- (take_drop n l). set_solver.
Qed.

(** What trimming keeps of one user's history and of the others'. *)
Definition trimmed (userID : string) (limit : Z) (w w' : World) : Prop :=
  (∀ u, u ≠ userID → history_of u w' = history_of u w) ∧
  (0 <= limit → Z.of_nat (length (history_of userID w')) <= limit) ∧
  (∀ h, h ∈ history_of userID w' → h ∈ history_of userID w) ∧
  ∀ kept dropped, kept ∈ history_of userID w' → dropped ∈ history_of userID w →
    dropped ∉ history_of userID w' → hr_created_at dropped <= hr_created_at kept.

Lemma trim_rows (userID : string) (limit : Z) (w w' : World) :
  NoDup (map hr_id (d_password_history (w_db w))) → 0 <= limit →
  let keep := map hr_id (recent_history userID limit w) in
  let p h := String.eqb (hr_user_id h) userID && negb (existsb (String.eqb (hr_id h)) keep) in
  d_password_history (w_db w') = List.filter (λ h, negb (p h)) (d_password_history (w_db w)) →
  trimmed userID limit w w'.
Proof.
  intros Hnd Hl keep p Hw'.
  assert (Hkeep : ∀ h, h ∈ history_of userID w' ↔ h ∈ history_of userID w ∧ hr_id h ∈ keep).
  { intros h. unfold history_of. rewrite Hw', !list_elem_of_In, !filter_In. unfold p.
    rewrite negb_andb, negb_involutive. split.
    - intros [[Hin Hor] Hu]. rewrite Hu in Hor. simpl in Hor. split; [done|].
      apply existsb_exists in Hor as (i & Hi & Heq). apply String.eqb_eq in Heq. by subst i.
    - intros [[Hin Hu] Hk]. split; [|done]. split; [done|]. apply orb_true_iff. right.
      apply existsb_exists. exists (hr_id h). split; [done|]. apply String.eqb_refl. }
  assert (Hids : NoDup (map hr_id (history_of userID w))) by by apply NoDup_map_filter.
  assert (Hrec : recent_history userID limit w =
            take (Z.to_nat limit) (order_by (desc hr_created_at) (history_of userID w))).
  { unfold recent_history, sql_limit. by destruct (Z.ltb_spec limit 0); [lia|]. }
  split_and!.
  - intros u Hu. unfold history_of. rewrite Hw'. generalize (d_password_history (w_db w)).
    intros l. induction l as [|h l IH]; simpl; [done|]. unfold p at 1.
    destruct (String.eqb_spec (hr_user_id h) u) as [He|He].
    + destruct (String.eqb_spec (hr_user_id h) userID); [congruence|]. simpl.
      destruct (String.eqb_spec (hr_user_id h) u); [|congruence]. by f_equal.
    + destruct (_ && _); simpl; [done|]. by destruct (String.eqb_spec (hr_user_id h) u).
  - intros _.
    assert (Hlen : (length (map hr_id (history_of userID w')) ≤ length keep)%nat).
    { apply NoDup_incl_length.
      - apply NoDup_ListNoDup. unfold history_of. rewrite Hw'. by do 2 apply NoDup_map_filter.
      - intros i Hi. apply in_map_iff in Hi as (h & <- & Hh). apply list_elem_of_In in Hh.
        apply Hkeep in Hh as [_ Hh]. by apply list_elem_of_In. }
    rewrite length_map in Hlen. unfold keep in Hlen. rewrite length_map, Hrec, length_take in Hlen. lia.
  - intros h Hh. by apply Hkeep in Hh as [? _].
  - intros k d Hk Hd Hn. apply Hkeep in Hk as [Hk Hki].
    assert (Hdi : hr_id d ∉ keep) by (intros Hdi; apply Hn, Hkeep; done).
    unfold keep in Hki, Hdi. rewrite Hrec in Hki, Hdi.
    set (l := order_by (desc hr_created_at) (history_of userID w)) in *.
    assert (Hperm : l ≡ₚ history_of userID w) by apply order_by_perm.
    assert (Hsort : StronglySorted (λ x y, desc hr_created_at x y = true) l).
    { apply order_by_sorted; unfold desc.
      - intros x y. destruct (Z.leb_spec (hr_created_at y) (hr_created_at x)); [by left|right].
        apply Z.leb_le. lia.
      - intros x y z Hxy%Is_true_true Hyz%Is_true_true. apply Is_true_true.
        apply Z.leb_le in Hxy, Hyz. apply Z.leb_le. lia. }
    assert (Hkt : k ∈ take (Z.to_nat limit) l).
    { apply list_elem_of_fmap in Hki as (h & Hh & Hin).
      assert (Hhin : h ∈ history_of userID w).
      { rewrite <- Hperm. rewrite <- (take_drop (Z.to_nat limit) l). set_solver. }
      assert (h = k) as ->; [|done].
      assert (H1 := find_by_key hr_id _ k Hids Hk). rewrite Hh in H1.
      rewrite (find_by_key hr_id) in H1 by done. congruence. }
    assert (Hdd : d ∈ drop (Z.to_nat limit) l).
    { assert (Hdl : d ∈ l) by by rewrite Hperm.
      rewrite <- (take_drop (Z.to_nat limit) l), elem_of_app in Hdl.
      destruct Hdl as [Hdl|Hdl]; [|done]. exfalso. apply Hdi, list_elem_of_fmap. by exists d. }
    assert (H1 := sorted_prefix_max _ l _ k d Hsort Hkt Hdd). by apply Z.leb_le in H1.
Qed.

End history.

(** recording a password keeps at most five hashes of the user, the most recent ones, and
    touches nobody else's.  A configured history longer than five therefore checks no more than
    five: the limit of [TrimPasswordHistory] is a constant. *)
Theorem AddPasswordHistory_bounded `{E : Env, !OrderLaws E} (userID hash : string) (w w' : World) :
  AddPasswordHistory userID hash w = (Ok tt, w') →
  (length (history_of userID w') ≤ 5)%nat ∧
  (∀ u, u ≠ userID → history_of u w' = history_of u w) ∧
  (∀ kept dropped, kept ∈ history_of userID w' → dropped ∈ history_of userID w →
     dropped ∉ history_of userID w' → hr_created_at dropped <= hr_created_at kept) ∧
  ∀ limit, 5 <= limit → recent_history userID limit w' = recent_history userID 5 w'.
Proof.
  intros Hok.
  assert (Hwp : wp (AddPasswordHistory userID hash) (λ r w', match r with
    | Err _ => True
    | Ok _ => ∃ w1 row, d_password_history (w_db w1) = d_password_history (w_db w) ++ [row] ∧
        hr_user_id row = userID ∧ trimmed userID 5 w1 w'
    end) w).
  { unfold AddPasswordHistory, TrimPasswordHistory. do 5 wp_step; [done|].
    apply history_ids_NoDup in Hok0. simpl in Hok0. do 3 wp_step; [done|]. wp_step.
    eexists (w <| w_db ::= λ d, d <| d_password_history ::= λ l, l ++ [MkHistoryRow _ _ _ _] |> |>), _.
    split; [reflexivity|]. split; [reflexivity|]. apply trim_rows; [exact Hok0|lia|]. reflexivity. }
  unfold wp in Hwp. rewrite Hok in Hwp. simpl in Hwp. destruct Hwp as (w1 & row & Hrows & Hu & Ho & Hlen & Hin & Hmax).
  specialize (Hlen ltac:(lia)).
  assert (Hhist : ∀ u, history_of u w1 = history_of u w ++ if String.eqb userID u then [row] else []).
  { intros u. unfold history_of. rewrite Hrows, List.filter_app. simpl. rewrite Hu.
    by destruct (String.eqb userID u). }
  split_and!.
  - lia.
  - intros u Hne. rewrite Ho, Hhist by done. destruct (String.eqb_spec userID u); [congruence|].
    apply app_nil_r.
  - intros k d Hk Hd Hn. apply Hmax; [done| |done]. rewrite Hhist. set_solver.
  - intros limit Hlimit. unfold recent_history, sql_limit.
    destruct (Z.ltb_spec limit 0); [lia|]. destruct (Z.ltb_spec 5 0); [lia|].
    rewrite !take_ge; [done|..]; rewrite order_by_perm; lia.
Qed.

Section witnesses.
#[local] Existing Instance demoEnv.
#[local] Existing Instance demo_order.

Definition demo_ann : User :=
  zeroUser <| u_ID := "u1" |> <| u_Username := "ann" |> <| u_Email := "ann@x" |> <| u_Role := RoleViewer |>.
Definition demo_bob : User :=
  zeroUser <| u_ID := "u2" |> <| u_Username := "bob" |> <| u_Email := "bob@x" |> <| u_Role := RoleViewer |>.
Definition demo_two_users : Db :=
  empty_db <| d_users := [demo_ann; demo_bob] |>
           <| d_notification_preferences := {[ ("u1", NotifyAgentOffline) := false ]} |>.
Definition demo_event : NotifyEventDef :=
  MkNotifyEventDef NotifyAgentOffline "Agent went offline" "Agent" true.

Lemma recipients_agree_with_preferences_witness :
  match GetEnabledRecipients (ne_Type demo_event) (demo_world demo_two_users),
        GetNotificationPreferences (u_ID demo_bob) (demo_world demo_two_users) with
  | (Ok recipients, _), (Ok prefs, _) =>
      (u_ID demo_bob, u_Email demo_bob) ∈ recipients ↔
      ∃ p, p ∈ prefs ∧ np_EventType p = ne_Type demo_event ∧ np_Enabled p = true
  | _, _ => False
  end.
Proof.
  apply (recipients_agree_with_preferences demo_event demo_bob (demo_world demo_two_users)).
  - reflexivity.
  - left.
  - right. left.
Defined.

Lemma AddPasswordHistory_bounded_witness :
  match AddPasswordHistory "u1" "h9" (demo_world (demo_two_users <| d_password_history :=
    [MkHistoryRow "a" "u1" "h1" 0; MkHistoryRow "b" "u1" "h2" NS; MkHistoryRow "c" "u1" "h3" 0;
     MkHistoryRow "d" "u1" "h4" 0; MkHistoryRow "e" "u1" "h5" 0; MkHistoryRow "f" "u2" "h1" 0] |>)) with
  | (Ok _, w') => (length (history_of "u1" w') ≤ 5)%nat
  | _ => False
  end.
Proof.
  destruct (AddPasswordHistory "u1" "h9" _) as [[[]|e] w'] eqn:Ho; [|by vm_compute in Ho].
  by apply (AddPasswordHistory_bounded "u1" "h9" _ w' Ho).
Defined.

End witnesses.

(** ** Frames *)

Section token_frames.
Context {X : Type} (f : World → X) `{!Beyond f} `{E : Env}.

Lemma frame_match_rows (c : string) (rows : list HistoryRow) : frame f (match_rows c rows).
Proof. induction rows as [|h rows IH]; simpl; frames. Qed.

Lemma frame_PasswordMatchesRecent (u c : string) (n : Z) : frame f (PasswordMatchesRecent u c n).
Proof. unfold PasswordMatchesRecent. frames. intros w. apply frame_match_rows. Qed.

(** [f] looks neither at the password history nor at the API tokens. *)
Class Unkeyed := {
  uk_history : ∀ w g, f (w <| w_db := w_db w <| d_password_history ::= g |> |>) = f w;
  uk_tokens : ∀ w g, f (w <| w_db := w_db w <| d_api_tokens ::= g |> |>) = f w
}.
Context `{!Unkeyed}.

Lemma frame_TrimPasswordHistory (u : string) (n : Z) : frame f (TrimPasswordHistory u n).
Proof. unfold TrimPasswordHistory. frames. apply uk_history. Qed.
Lemma frame_AddPasswordHistory (u h : string) : frame f (AddPasswordHistory u h).
Proof. unfold AddPasswordHistory. frames; [apply uk_history|apply frame_TrimPasswordHistory]. Qed.
Lemma frame_RevokeAllAPITokensByUserID (u : string) : frame f (RevokeAllAPITokensByUserID u).
Proof. unfold RevokeAllAPITokensByUserID. frames. apply uk_tokens. Qed.
End token_frames.
#[export] Instance unkeyed_outside {X : Type} (f : World → X) `{!Outside f} : Unkeyed f.
Proof. split; intros; apply out_db. Qed.
#[export] Instance unkeyed_users : Unkeyed (tables d_users). Proof. by split. Qed.
#[export] Instance unkeyed_servers : Unkeyed (tables d_servers). Proof. by split. Qed.
#[export] Hint Extern 0 (Unkeyed _) => typeclasses eauto : frames.
#[export] Hint Resolve frame_PasswordMatchesRecent frame_TrimPasswordHistory frame_AddPasswordHistory
  frame_RevokeAllAPITokensByUserID : frames.

(** A candidate that matches no recent password. *)
Lemma PasswordMatchesRecent_false `{E : Env} (userID candidate : string) (limit : Z) (w w' : World) :
  PasswordMatchesRecent userID candidate limit w = (Ok false, w') →
  ∃ fs, ∀ h, h ∈ recent_history userID limit (w <| w_faults := fs |>) →
    bcrypt_match (hr_password_hash h) candidate = false.
Proof.
  unfold PasswordMatchesRecent. intros ([] & w1 & [fs ->]%wrap_Ok%driver_Ok & H)%bind_Ok. exists fs.
  revert H. generalize (w <| w_faults := fs |>) at 2. generalize (recent_history userID limit (w <| w_faults := fs |>)).
  intros rows. induction rows as [|h rows IH]; intros w1 H; [by intros h Hh; inversion Hh|].
  simpl in H. ok_inv. apply Forall_forall. constructor; [done|]. apply Forall_forall. by eapply IH.
Qed.
