(* ===== verification/Auth.v ===== *)
(** * Credentials (hub/internal/auth).

    Password policy and temporary passwords (password.go), API tokens (api_token.go), TOTP codes
    and their replay cache (totp.go, totp_cache.go), revoked JWTs (blacklist.go) and the JWTs
    themselves (jwt.go). *)

From S2P Require Import Prelude GoStr GoTime Model Db Demo.

(** ** password.go *)

(** [for _, r := range s]: the runes of a string, an invalid byte being U+FFFD. *)
Definition byte_val (a : ascii) : Z := Z.of_nat (nat_of_ascii a).
Definition in_z (lo hi n : Z) : bool := (lo <=? n) && (n <=? hi).
Definition cont (n : Z) : bool := in_z 128 191 n.
Definition low6 (n : Z) : Z := Z.land n 63.

(** The first rune of a non-empty byte sequence and the bytes after it. *)
Definition decode_rune (b0 : Z) (rest : list Z) : Z * list Z :=
  if b0 <? 128 then (b0, rest) else
  match rest with
  | b1 :: rest1 =>
      if in_z 194 223 b0 && cont b1 then (Z.land b0 31 * 64 + low6 b1, rest1) else
      match rest1 with
      | b2 :: rest2 =>
          let lo := if b0 =? 224 then 160 else 128 in
          let hi := if b0 =? 237 then 159 else 191 in
          if in_z 224 239 b0 && in_z lo hi b1 && cont b2
          then (Z.land b0 15 * 4096 + low6 b1 * 64 + low6 b2, rest2) else
          match rest2 with
          | b3 :: rest3 =>
              let lo := if b0 =? 240 then 144 else 128 in
              let hi := if b0 =? 244 then 143 else 191 in
              if in_z 240 244 b0 && in_z lo hi b1 && cont b2 && cont b3
              then (Z.land b0 7 * 262144 + low6 b1 * 4096 + low6 b2 * 64 + low6 b3, rest3)
              else (65533, rest)
          | [] => (65533, rest)
          end
      | [] => (65533, rest)
      end
  | [] => (65533, rest)
  end.

(** [fuel] bytes hold at most [fuel] runes. *)
Fixpoint runes (fuel : nat) (bytes : list Z) : list Z :=
  match fuel, bytes with
  | S f, b :: bytes' => let '(r, rest) := decode_rune b bytes' in r :: runes f rest
  | _, _ => []
  end.
Definition string_runes (s : string) : list Z :=
  runes (String.length s) (byte_val <$> String.list_ascii_of_string s).

Section password.
Context `{E : Env}.

Definition IsUpper (r : Z) : bool := if r <? 128 then in_z 65 90 r else unicode_upper r.
Definition IsLower (r : Z) : bool := if r <? 128 then in_z 97 122 r else unicode_lower r.
Definition IsDigit (r : Z) : bool := if r <? 128 then in_z 48 57 r else unicode_digit r.
(** [unicode.IsPunct(r) || unicode.IsSymbol(r)] *)
Definition IsSpecial (r : Z) : bool :=
  if r <? 128 then in_z 33 47 r || in_z 58 64 r || in_z 91 96 r || in_z 123 126 r
  else unicode_special r.

Record classes := MkClasses { hasUpper : bool; hasLower : bool; hasDigit : bool; hasSpecial : bool }.

(** The [switch] of the loop. *)
Definition classify (c : classes) (r : Z) : classes :=
  let 'MkClasses u l d s := c in
  if IsUpper r then MkClasses true l d s
  else if IsLower r then MkClasses u true d s
  else if IsDigit r then MkClasses u l true s
  else if IsSpecial r then MkClasses u l d true
  else c.

Definition ValidatePasswordPolicy (password : string) : result unit :=
  if (String.length password <? 12)%nat then Err "password must be at least 12 characters"
  else if (256 <? String.length password)%nat then Err "password must be at most 256 characters"
  else
    let c := foldl classify (MkClasses false false false false) (string_runes password) in
    if negb (hasUpper c) then Err "password must include at least one uppercase letter"
    else if negb (hasLower c) then Err "password must include at least one lowercase letter"
    else if negb (hasDigit c) then Err "password must include at least one digit"
    else if negb (hasSpecial c) then Err "password must include at least one special character"
    else Ok tt.

Definition HashPassword (password : string) : M string :=
  let* r := draw (λ i, bcrypt_hash i password) in
  match r with
  | Err e => fail ("hash password: " +:+ e)
  | Ok hash => ret hash
  end.

Definition ComparePassword (hash password : string) : bool := bcrypt_match hash password.

Definition charset_upper : string := "ABCDEFGHIJKLMNOPQRSTUVWXYZ".
Definition charset_lower : string := "abcdefghijklmnopqrstuvwxyz".
Definition charset_digits : string := "0123456789".
Definition charset_special : string := "!@#$%^&*".
Definition charset_all : string :=
  charset_upper +:+ charset_lower +:+ charset_digits +:+ charset_special.

Definition randInt (max : Z) : M Z := draw (λ i, rand_int i max).

(** [charset[n]]; [rand.Int] keeps [n] below the length. *)
Definition randChar (charset : string) : M ascii :=
  let* n := randInt (Z.of_nat (String.length charset)) in
  ret (default "000"%char (String.list_ascii_of_string charset !! Z.to_nat n)).

Fixpoint randChars (n : nat) : M (list ascii) :=
  match n with
  | O => ret []
  | S n' => let* c := randChar charset_all in let* cs := randChars n' in ret (c :: cs)
  end.

(** [pw[i], pw[j] = pw[j], pw[i]] *)
Definition swap (i j : nat) (pw : list ascii) : list ascii :=
  match pw !! i, pw !! j with
  | Some a, Some b => <[j := a]> (<[i := b]> pw)
  | _, _ => pw
  end.

(** [for i := n; i > 0; i--] *)
Fixpoint shuffle (i : nat) (pw : list ascii) : M (list ascii) :=
  match i with
  | O => ret pw
  | S i' => let* j := randInt (Z.of_nat i + 1) in shuffle i' (swap i (Z.to_nat j) pw)
  end.

Definition GenerateTemporaryPassword : M string :=
  let* a := randChar charset_upper in
  let* b := randChar charset_lower in
  let* c := randChar charset_digits in
  let* d := randChar charset_special in
  let* rest := randChars 16 in
  let* pw := shuffle 19 (a :: b :: c :: d :: rest) in
  ret (String.string_of_list_ascii pw).

(** ** api_token.go *)

Definition APITokenPrefix : string := "adt_".

Definition HashAPIToken (raw : string) : string := sha256_hex raw.

Fixpoint take_str (n : nat) (s : string) : string :=
  match n, s with
  | S n', String a s' => String a (take_str n' s')
  | _, _ => ""
  end.

(** raw, hash, display prefix *)
Definition GenerateAPIToken : M (string * string * string) :=
  let* r := draw (λ i, rand_hex i 32) in
  match r with
  | Err e => fail ("generate api token: " +:+ e)
  | Ok secret =>
      let raw := APITokenPrefix +:+ secret in
      ret (raw, HashAPIToken raw,
           if (16 <? String.length raw)%nat then take_str 16 raw else raw)
  end.

Definition LooksLikeAPIToken (raw : string) : bool := HasPrefix raw APITokenPrefix.

(** ** totp_cache.go and totp.go *)

Definition totp_key (userID code : string) : string := userID +:+ ":" +:+ code.

(** Entries older than 90 seconds are dropped. *)
Definition drop_stale (now : Z) (codes : gmap string Z) : gmap string Z :=
  filter (λ kt, ¬ 90 * Second < now - kt.2) codes.

Definition MarkUsed (now : Z) (userID code : string) (codes : gmap string Z) : gmap string Z :=
  drop_stale now (<[totp_key userID code := now]> codes).

Definition WasUsed (userID code : string) (codes : gmap string Z) : bool :=
  bool_decide (is_Some (codes !! totp_key userID code)).

Definition CheckAndMark (now : Z) (userID code : string) (codes : gmap string Z)
  : bool * gmap string Z :=
  match codes !! totp_key userID code with
  | Some _ => (false, codes)
  | None => (true, drop_stale now (<[totp_key userID code := now]> codes))
  end.

Definition GenerateTOTPSecret (username issuer : string) : M (string * string) :=
  let* r := draw (λ i, totp_generate i issuer username) in
  match r with
  | Err e => fail ("generate TOTP secret: " +:+ e)
  | Ok key => ret key
  end.

Definition ValidateTOTPCode (now : Z) (secret code : string) : bool := totp_validate now code secret.

(** With the hub's cache. *)
Definition ValidateTOTPWithReplay (userID secret code : string) : M bool := λ w,
  if negb (totp_validate (w_now w) code secret) then (Ok false, w)
  else let '(fresh, codes) := CheckAndMark (w_now w) userID code (w_totp w) in
       (Ok fresh, w <| w_totp := codes |>).

(** ** blacklist.go *)

(** [for k, exp := range b.entries { if now.After(exp) { delete } }] *)
Definition drop_expired (now : Z) (entries : gmap string Z) : gmap string Z :=
  filter (λ ke, ¬ ke.2 < now) entries.

(** [b.loadFromDB()], after a start with an empty map; [time.Parse] cannot fail on a stored time. *)
Definition load_entries (rows : list (string * Z)) (entries : gmap string Z) : gmap string Z :=
  foldl (λ m r, <[r.1 := r.2]> m) entries rows.

(** A row that fails to scan is skipped. *)
Fixpoint scan_entries (rows : list (string * Z)) : M (list (string * Z)) :=
  match rows with
  | [] => ret []
  | r :: rows' =>
      let* e := try driver in
      let* rs := scan_entries rows' in
      ret match e with Ok _ => r :: rs | Err _ => rs end
  end.

Definition loadFromDB : M unit :=
  let* q := try driver in
  match q with
  | Err _ => ret tt
  | Ok _ => λ w,
      (let* rows := scan_entries (List.filter (λ r, sqlite_time (w_now w) <? r.2)
                      (map_to_list (d_token_blacklist (w_db w)))) in λ w,
       (Ok tt, w <| w_blacklist ::= load_entries rows |>)) w
  end.

(** [NewTokenBlacklist(db)] *)
Definition NewTokenBlacklist : M unit :=
  let* _ := (λ w, (Ok tt, w <| w_blacklist := ∅ |>)) in loadFromDB.

(** A change of the map in memory, and a statement on the table whose error is only logged. *)
Definition on_entries (f : Z → gmap string Z → gmap string Z) : M unit := λ w,
  (Ok tt, w <| w_blacklist ::= f (w_now w) |>).
Definition on_table (f : Z → gmap string Z → gmap string Z) : M unit :=
  ignore (exec (λ w, (1, w_db w <| d_token_blacklist ::= f (sqlite_time (w_now w)) |>))).

Definition BlacklistCleanup : M unit :=
  let* _ := on_entries drop_expired in
  on_table (λ now, filter (λ je, ¬ je.2 <= now)).

Definition BlacklistAdd (jti : string) (expiry : Z) : M unit :=
  let* _ := on_entries (λ now m, drop_expired now (<[jti := expiry]> m)) in
  on_table (λ _, <[jti := sqlite_time expiry]>).

Definition IsBlacklisted (jti : string) : M bool := λ w,
  if bool_decide (is_Some (w_blacklist w !! jti)) then (Ok true, w) else
  (let* count := try (query_row (λ w, match d_token_blacklist (w_db w) !! jti with
                        | Some e => Some (if sqlite_time (w_now w) <? e then 1 else 0)
                        | None => Some 0
                        end)) in
   match count with
   | Ok (Some n) =>
       if 0 <? n then
         let* expiresAt := try (query_row (λ w, d_token_blacklist (w_db w) !! jti)) in
         match expiresAt with
         | Ok (Some t) => λ w, (Ok true, w <| w_blacklist ::= <[jti := t]> |>)
         | _ => ret true
         end
       else ret false
   | _ => ret false
   end) w.

(** ** jwt.go *)

Definition TokenTypeAccess : string := "access".
Definition TokenTypeRefresh : string := "refresh".
Definition TokenTypeSetup : string := "setup".
Definition TokenTypeTOTP : string := "totp".
Definition TokenTypeAPIToken : string := "api_token".

Definition AccessTokenExpiry : Z := 15 * Minute.
Definition RefreshTokenExpiry : Z := 7 * 24 * Hour.
Definition SetupTokenExpiry : Z := 10 * Minute.
Definition TOTPTokenExpiry : Z := 60 * Second.

Definition GenerateTokenWithExpiry (secret userID role tokenType : string) (expiry : Z)
    (tokenGen : option Z) : M string :=
  let* now := get_now in
  let* jti := NewString in
  let claims := MkClaims jti userID (jwt_date now) (jwt_date (now + expiry)) role tokenType
                  (default 0 tokenGen) in
  match jwt_sign secret claims with
  | Err e => fail ("sign token: " +:+ e)
  | Ok signed => ret signed
  end.

(** access token, refresh token *)
Definition GenerateTokenPair (secret userID role : string) (tokenGen : Z) : M (string * string) :=
  let* accessToken := wrap "generate access token"
    (GenerateTokenWithExpiry secret userID role TokenTypeAccess AccessTokenExpiry (Some tokenGen)) in
  let* refreshToken := wrap "generate refresh token"
    (GenerateTokenWithExpiry secret userID role TokenTypeRefresh RefreshTokenExpiry (Some tokenGen)) in
  ret (accessToken, refreshToken).

Definition GenerateSetupToken (secret userID role : string) : M string :=
  GenerateTokenWithExpiry secret userID role TokenTypeSetup SetupTokenExpiry None.

Definition GenerateTOTPToken (secret userID role : string) : M string :=
  GenerateTokenWithExpiry secret userID role TokenTypeTOTP TOTPTokenExpiry None.

Definition ValidateToken (secret tokenString : string) : M Claims := λ w,
  match jwt_parse (w_now w) secret tokenString with
  | Err e => (Err ("parse token: " +:+ e), w)
  | Ok claims => (Ok claims, w)
  end.

End password.

(** ** Lemmas on passwords *)

Section password_lemmas.
Context `{E : Env}.

Definition ascii_list (l : list ascii) : Prop := Forall (λ a, byte_val a < 128) l.

Lemma byte_val_nonneg (a : ascii) : 0 <= byte_val a.
Proof. unfold byte_val. lia. Qed.

Lemma runes_ascii (l : list ascii) : ascii_list l → runes (length l) (byte_val <$> l) = byte_val <$> l.
Proof.
  induction 1 as [|a l Ha Hl IH]; [done|]. cbn [length fmap list_fmap runes].
  unfold decode_rune. destruct (Z.ltb_spec (byte_val a) 128); [|lia]. by rewrite IH.
Qed.

Lemma string_runes_ascii (l : list ascii) :
  ascii_list l → string_runes (String.string_of_list_ascii l) = byte_val <$> l.
Proof.
  intros Hl. unfold string_runes. rewrite String.list_ascii_of_string_of_list_ascii.
  replace (String.length _) with (length l); [by apply runes_ascii|].
  clear Hl. induction l; simpl; congruence.
Qed.

Lemma string_of_list_length (l : list ascii) :
  String.length (String.string_of_list_ascii l) = length l.
Proof. induction l; simpl; congruence. Qed.

(** Classes only accumulate. *)
Lemma classify_keeps (rs : list Z) (c : classes) :
  let c' := foldl classify c rs in
  (hasUpper c = true → hasUpper c' = true) ∧ (hasLower c = true → hasLower c' = true) ∧
  (hasDigit c = true → hasDigit c' = true) ∧ (hasSpecial c = true → hasSpecial c' = true).
Proof.
  revert c. induction rs as [|r rs IH]; intros c; simpl; [done|].
  destruct (IH (classify c r)) as (H1 & H2 & H3 & H4).
  destruct c as [u l d s]. simpl in *. repeat case_match; simpl in *; split_and!; auto.
Qed.

(** A rune of a class that no earlier class of the switch claims is noticed. *)
Lemma classify_found (rs : list Z) (r : Z) (c : classes) :
  r ∈ rs →
  let c' := foldl classify c rs in
  (IsUpper r = true → hasUpper c' = true) ∧
  (IsUpper r = false → IsLower r = true → hasLower c' = true) ∧
  (IsUpper r = false → IsLower r = false → IsDigit r = true → hasDigit c' = true) ∧
  (IsUpper r = false → IsLower r = false → IsDigit r = false → IsSpecial r = true →
   hasSpecial c' = true).
Proof.
  revert c. induction rs as [|r' rs IH]; intros c Hin; [by inversion Hin|]. simpl.
  apply elem_of_cons in Hin as [<-|Hin]; [|by apply IH].
  destruct (classify_keeps rs (classify c r)) as (H1 & H2 & H3 & H4). destruct c as [u l d s].
  split_and!; intros; [apply H1|apply H2|apply H3|apply H4]; simpl;
    repeat match goal with H : _ = true |- _ => rewrite H | H : _ = false |- _ => rewrite H end; done.
Qed.

Context `{!RandLaws E}.

Lemma randInt_wp (max : Z) (Q : result Z → World → Prop) (w : World) :
  0 < max → (∀ n w', 0 <= n < max → Q (Ok n) w') → wp (randInt max) Q w.
Proof. intros Hm HQ. apply HQ. by apply rand_int_range. Qed.

Lemma randChar_wp (charset : string) (Q : result ascii → World → Prop) (w : World) :
  charset ≠ "" → (∀ a w', a ∈ String.list_ascii_of_string charset → Q (Ok a) w') →
  wp (randChar charset) Q w.
Proof.
  intros Hne HQ. unfold randChar. wp_step.
  assert (Hlen : String.length charset = length (String.list_ascii_of_string charset)).
  { clear. induction charset; simpl; congruence. }
  apply randInt_wp; [destruct charset; [done|simpl; lia]|]. intros n w' Hn. wp_step. apply HQ.
  destruct (lookup_lt_is_Some_2 (String.list_ascii_of_string charset) (Z.to_nat n)) as [a Ha];
    [lia|]. rewrite Ha. simpl. by eapply list_elem_of_lookup_2.
Qed.

Definition printable (a : ascii) : Prop := a ∈ String.list_ascii_of_string charset_all.

Lemma randChars_wp (n : nat) (Q : result (list ascii) → World → Prop) (w : World) :
  (∀ l w', length l = n → Forall printable l → Q (Ok l) w') → wp (randChars n) Q w.
Proof.
  revert Q w. induction n as [|n IH]; intros Q w HQ; simpl; [by apply wp_ret, HQ|].
  wp_step. apply randChar_wp; [done|]. intros a w1 Ha. wp_step. apply IH.
  intros l w2 Hl Hf. wp_step. apply HQ; [by rewrite <- Hl|by constructor].
Qed.

Lemma shuffle_wp (i : nat) (pw : list ascii) (Q : result (list ascii) → World → Prop) (w : World) :
  (∀ l w', l ≡ₚ pw → Q (Ok l) w') → wp (shuffle i pw) Q w.
Proof.
  revert pw Q w. induction i as [|i IH]; intros pw Q w HQ; [by apply wp_ret, HQ|].
  change (wp (let* j := randInt (Z.of_nat (S i) + 1) in shuffle i (swap (S i) (Z.to_nat j) pw)) Q w).
  wp_step. apply randInt_wp; [lia|]. intros j w' _. apply IH. intros l w'' Hl. apply HQ.
  rewrite Hl. unfold swap. repeat case_match; [|done..]. by apply Permutation_insert_swap.
Qed.

(** Every character of a charset has its class and is ASCII. *)
Definition charset_ok (charset : string) (p : Z → bool) : bool :=
  forallb (λ a, (byte_val a <? 128) && p (byte_val a)) (String.list_ascii_of_string charset).

Lemma charset_class (charset : string) (p : Z → bool) (a : ascii) :
  charset_ok charset p = true → a ∈ String.list_ascii_of_string charset → p (byte_val a) = true.
Proof.
  unfold charset_ok. rewrite forallb_forall. intros Hok Ha. apply list_elem_of_In in Ha.
  specialize (Hok a Ha).
  by apply andb_prop in Hok as [_ ?].
Qed.

Lemma printable_ascii (a : ascii) : printable a → byte_val a < 128.
Proof.
  intros Ha. apply Z.ltb_lt. apply (charset_class charset_all (λ n, n <? 128)); [done|exact Ha].
Qed.

Lemma printable_charset (charset : string) (a : ascii) :
  charset_ok charset (λ n, existsb (λ b, byte_val b =? n) (String.list_ascii_of_string charset_all)) = true →
  a ∈ String.list_ascii_of_string charset → printable a.
Proof.
  intros Hok Ha. assert (Hb := charset_class _ _ a Hok Ha). cbv beta in Hb.
  apply existsb_exists in Hb as (b & Hb & He). apply Z.eqb_eq in He.
  unfold printable. replace a with b; [by apply list_elem_of_In|].
  unfold byte_val in He. apply Nat2Z.inj in He.
  by rewrite <- (ascii_nat_embedding a), <- (ascii_nat_embedding b), He.
Qed.

End password_lemmas.

Lemma GenerateTemporaryPassword_run `{E : Env, !RandLaws E} (w : World) :
  wp GenerateTemporaryPassword (λ r _, ∃ p, r = Ok p ∧ String.length p = 20%nat ∧
    ValidatePasswordPolicy p = Ok tt) w.
Proof.
  unfold GenerateTemporaryPassword.
  wp_step. apply randChar_wp; [done|]. intros a w1 Ha.
  wp_step. apply randChar_wp; [done|]. intros b w2 Hb.
  wp_step. apply randChar_wp; [done|]. intros c w3 Hc.
  wp_step. apply randChar_wp; [done|]. intros d w4 Hd.
  wp_step. apply randChars_wp. intros rest w5 Hlen Hrest.
  wp_step. apply shuffle_wp. intros l w6 Hl. wp_step. eexists. split; [reflexivity|].
  assert (Hlen20 : length l = 20%nat) by (rewrite Hl; simpl; lia).
  rewrite string_of_list_length. split; [done|].
  assert (Hin : ∀ x, x ∈ a :: b :: c :: d :: rest → byte_val x ∈ byte_val <$> l).
  { intros x Hx. apply list_elem_of_fmap. exists x. split; [done|]. by rewrite Hl. }
  assert (Hascii : ascii_list l).
  { unfold ascii_list. rewrite Hl. repeat (apply Forall_cons; split).
    - apply printable_ascii. by eapply printable_charset; [|exact Ha].
    - apply printable_ascii. by eapply printable_charset; [|exact Hb].
    - apply printable_ascii. by eapply printable_charset; [|exact Hc].
    - apply printable_ascii. by eapply printable_charset; [|exact Hd].
    - eapply Forall_impl; [exact Hrest|]. apply printable_ascii. }
  unfold ValidatePasswordPolicy. rewrite string_of_list_length, Hlen20, string_runes_ascii by done.
  set (init := MkClasses false false false false).
  destruct (classify_found _ _ init (Hin a ltac:(left))) as (Hu & _ & _ & _).
  destruct (classify_found _ _ init (Hin b ltac:(right; left))) as (_ & Hlo & _ & _).
  destruct (classify_found _ _ init (Hin c ltac:(do 2 right; left))) as (_ & _ & Hdi & _).
  destruct (classify_found _ _ init (Hin d ltac:(do 3 right; left))) as (_ & _ & _ & Hsp).
  assert (Hcls : ∀ cs p x, charset_ok cs p = true → x ∈ String.list_ascii_of_string cs →
    p (byte_val x) = true) by (intros; by eapply charset_class).
  assert (Hcls' : ∀ cs (p : Z → bool) x, charset_ok cs (λ n, negb (p n)) = true →
    x ∈ String.list_ascii_of_string cs → p (byte_val x) = false).
  { intros cs p x Hok Hx. apply negb_true_iff. by eapply (charset_class cs (λ n, negb (p n))). }
  simpl. rewrite Hu, Hlo, Hdi, Hsp; [done|..];
    first [eapply Hcls; [|eassumption]; reflexivity | eapply Hcls'; [|eassumption]; reflexivity].
Qed.

(** a generated temporary password always satisfies the password policy, whatever the random
    draws: it has twenty characters, and the shuffle keeps the four that guarantee the classes. *)
Theorem temporary_password_meets_policy `{E : Env, !RandLaws E} (w : World) :
  ∃ p w', GenerateTemporaryPassword w = (Ok p, w') ∧ String.length p = 20%nat ∧
          ValidatePasswordPolicy p = Ok tt.
Proof.
  destruct (GenerateTemporaryPassword_run w) as (p & Hr & Hl & Hp).
  exists p, (GenerateTemporaryPassword w).2. rewrite <- Hr. split; [by apply surjective_pairing|done].
Qed.

Section password_frames.
Context {X : Type} (f : World → X) `{!Beyond f} `{E : Env}.

Lemma frame_HashPassword (p : string) : frame f (HashPassword p).
Proof. unfold HashPassword. frames. Qed.
Lemma frame_randInt (n : Z) : frame f (randInt n).
Proof. unfold randInt. frames. Qed.
Hint Resolve frame_randInt : frames.
Lemma frame_randChar (cs : string) : frame f (randChar cs).
Proof. unfold randChar. frames. Qed.
Hint Resolve frame_randChar : frames.
Lemma frame_randChars (n : nat) : frame f (randChars n).
Proof. induction n as [|n IH]; cbn [randChars]; frames. Qed.
Lemma frame_shuffle (i : nat) (pw : list ascii) : frame f (shuffle i pw).
Proof. revert pw. induction i as [|i IH]; intros pw; cbn [shuffle]; frames. Qed.
Hint Resolve frame_randChars frame_shuffle : frames.
Lemma frame_GenerateTemporaryPassword : frame f GenerateTemporaryPassword.
Proof. unfold GenerateTemporaryPassword. frames. Qed.
End password_frames.
#[export] Hint Resolve frame_HashPassword frame_GenerateTemporaryPassword : frames.

(** ** TOTP replays *)

(** What other requests do to the cache in the meantime, each at its time. *)
Inductive totp_call := CMark (userID code : string) | CCheck (userID code : string).

Definition totp_step (codes : gmap string Z) (call : Z * totp_call) : gmap string Z :=
  match call.2 with
  | CMark u c => MarkUsed call.1 u c codes
  | CCheck u c => (CheckAndMark call.1 u c codes).2
  end.

Lemma drop_stale_keeps (now t : Z) (k : string) (codes : gmap string Z) :
  codes !! k = Some t → now - t <= 90 * Second → drop_stale now codes !! k = Some t.
Proof.
  intros Hk Ht. unfold drop_stale. rewrite map_lookup_filter, Hk. simpl.
  rewrite option_guard_True; [done|]. simpl. lia.
Qed.

Lemma totp_step_keeps (codes : gmap string Z) (call : Z * totp_call) (k : string) (t1 t2 : Z) :
  t2 - t1 <= 90 * Second → t1 <= call.1 <= t2 →
  (∃ t, codes !! k = Some t ∧ t1 <= t) → ∃ t, totp_step codes call !! k = Some t ∧ t1 <= t.
Proof.
  intros Hd Hc (t & Hk & Ht).
  assert (Hins : ∀ k', ∃ t', drop_stale call.1 (<[k' := call.1]> codes) !! k = Some t' ∧ t1 <= t').
  { intros k'. destruct (decide (k' = k)) as [->|Hne].
    - exists call.1. split; [|lia]. apply drop_stale_keeps; [apply lookup_insert_eq|lia].
    - exists t. split; [|done]. apply drop_stale_keeps; [by rewrite lookup_insert_ne|lia]. }
  unfold totp_step, MarkUsed, CheckAndMark. destruct call.2 as [u c|u c]; [apply Hins|].
  destruct (codes !! totp_key u c); simpl; [by exists t|apply Hins].
Qed.

(** C20: a TOTP code is accepted once.  After a user's code has been accepted, the same code of that
    user is refused for 90 seconds, which outlives the code, whatever other codes are checked or
    marked in between. *)
Theorem totp_no_replay `{Env} (userID secret code : string) (calls : list (Z * totp_call))
    (w w1 w2 : World) :
  ValidateTOTPWithReplay userID secret code w = (Ok true, w1) →
  Forall (λ c, w_now w <= c.1 <= w_now w2) calls →
  w_totp w2 = foldl totp_step (w_totp w1) calls →
  w_now w2 - w_now w <= 90 * Second →
  (ValidateTOTPWithReplay userID secret code w2).1 = Ok false.
Proof.
  intros Hv Hcalls Hw2 Hd. unfold ValidateTOTPWithReplay in *.
  destruct (totp_validate (w_now w) code secret); [|done]. cbn [negb] in Hv.
  assert (H1 : ∃ t, w_totp w1 !! totp_key userID code = Some t ∧ w_now w <= t).
  { unfold CheckAndMark in Hv. destruct (w_totp w !! _) eqn:Hk; [done|]. injection Hv as <-. simpl.
    exists (w_now w). split; [|lia]. apply drop_stale_keeps; [apply lookup_insert_eq|].
    unfold Second, NS. lia. }
  destruct (totp_validate (w_now w2) code secret); [|done]. cbn [negb]. unfold CheckAndMark.
  assert (H2 : ∃ t, w_totp w2 !! totp_key userID code = Some t ∧ w_now w <= t).
  { rewrite Hw2. clear Hv Hw2. revert H1. generalize (w_totp w1).
    induction Hcalls as [|c calls Hc _ IH]; intros codes H1; simpl; [done|].
    apply IH. by eapply totp_step_keeps. }
  destruct H2 as (t & -> & _). done.
Qed.

(** ** Revoked tokens *)

Inductive blacklist_op :=
  | OAdd (jti : string) (expiry : Z)
  | OCleanup
  | OIsBlacklisted (jti : string)
  | ORestart                      (* the process starts again on the same database *)
  | OAdvance (d : Z).             (* time passes *)

Section blacklist.
Context `{E : Env}.

Definition blacklist_step (w : World) (op : blacklist_op) : World :=
  match op with
  | OAdd jti expiry => (BlacklistAdd jti expiry w).2
  | OCleanup => (BlacklistCleanup w).2
  | OIsBlacklisted jti => (IsBlacklisted jti w).2
  | ORestart => (NewTokenBlacklist w).2
  | OAdvance d => w <| w_now ::= Z.add d |>
  end.

(** The database knows that [jti] is revoked until [expiry]. *)
Record revoked_until (jti : string) (expiry : Z) (w : World) : Prop := {
  ru_faults : no_faults w;
  ru_db : db_violation (w_fk w) (w_db w) = None;
  ru_row : w_now w < expiry → d_token_blacklist (w_db w) !! jti = Some expiry
}.

(** Operations that only time out, and never give another expiry to the token. *)
Definition op_ok (jti : string) (expiry : Z) (op : blacklist_op) : Prop :=
  match op with
  | OAdd jti' expiry' => jti' = jti → expiry' = expiry
  | OAdvance d => 0 <= d
  | _ => True
  end.

Lemma sqlite_time_whole (t : Z) : sqlite_time (sqlite_time t) = sqlite_time t.
Proof. unfold sqlite_time. rewrite Z.div_mul; [done|]. unfold NS. lia. Qed.

Lemma sqlite_time_le (t : Z) : sqlite_time t <= t.
Proof. unfold sqlite_time. rewrite Z.mul_comm. apply Z.mul_div_le. unfold NS. lia. Qed.

Lemma scan_entries_ok (rows : list (string * Z)) (w : World) :
  no_faults w → scan_entries rows w = (Ok rows, w).
Proof.
  intros Hw. induction rows as [|r rows IH]; [done|]. simpl. unfold bind, try.
  by rewrite driver_ok, IH.
Qed.

Lemma on_table_ok (f : Z → gmap string Z → gmap string Z) (w : World) :
  no_faults w → db_violation (w_fk w) (w_db w) = None →
  on_table f w = (Ok tt, w <| w_db ::= λ d, d <| d_token_blacklist ::= f (sqlite_time (w_now w)) |> |>).
Proof. intros Hf Hv. unfold on_table, ignore. by rewrite exec_ok. Qed.

Lemma blacklist_step_keeps (jti : string) (expiry : Z) (w : World) (op : blacklist_op) :
  sqlite_time expiry = expiry → op_ok jti expiry op → revoked_until jti expiry w →
  revoked_until jti expiry (blacklist_step w op).
Proof.
  intros He Hop [Hf Hv Hr].
  destruct op as [j e| |j| |d]; simpl in *.
  - unfold BlacklistAdd, bind. simpl. rewrite on_table_ok by done. split; [done|done|].
    simpl. intros Hn. destruct (decide (j = jti)) as [->|Hne]; [|rewrite lookup_insert_ne; auto].
    by rewrite lookup_insert_eq, Hop, He.
  - unfold BlacklistCleanup, bind. simpl. rewrite on_table_ok by done. split; [done|done|].
    simpl. intros Hn. rewrite map_lookup_filter, Hr by done. simpl.
    rewrite option_guard_True; [done|]. simpl. assert (Hl := sqlite_time_le (w_now w)). lia.
  - unfold IsBlacklisted. case_bool_decide; [done|]. unfold bind, try. rewrite query_row_ok by done.
    assert (Hw : ∀ m, revoked_until jti expiry (w <| w_blacklist := m |>)) by by split.
    destruct (d_token_blacklist (w_db w) !! j) as [t|] eqn:Hj; [|done].
    destruct (sqlite_time (w_now w) <? t); [|done]. simpl. rewrite query_row_ok, Hj by done. apply Hw.
  - unfold NewTokenBlacklist, loadFromDB, bind, try. rewrite driver_ok by done.
    by rewrite scan_entries_ok.
  - split; [done|done|]. simpl. intros Hn. apply Hr. lia.
Qed.

End blacklist.

(** C21: a revoked token stays revoked until it expires.  Once [BlacklistAdd] has recorded it,
    [IsBlacklisted] says so whatever is added, cleaned up or looked up afterwards, and even when the
    process restarts in between, for a working database and an expiry in whole seconds, as the
    expiry of a JWT is. *)
Theorem blacklist_until_expiry `{Env} (jti : string) (expiry : Z) (ops : list blacklist_op)
    (w : World) :
  no_faults w → db_violation (w_fk w) (w_db w) = None → sqlite_time expiry = expiry →
  Forall (op_ok jti expiry) ops →
  let w' := foldl blacklist_step (BlacklistAdd jti expiry w).2 ops in
  w_now w' < expiry → (IsBlacklisted jti w').1 = Ok true.
Proof.
  intros Hf Hv He Hops w' Hn.
  assert (Hadd : revoked_until jti expiry (BlacklistAdd jti expiry w).2).
  { unfold BlacklistAdd, bind. simpl. rewrite on_table_ok by done. split; [done|done|]. intros _.
    simpl. by rewrite lookup_insert_eq, He. }
  assert (Hw' : revoked_until jti expiry w').
  { unfold w'. clear w' Hn. revert Hadd. generalize ((BlacklistAdd jti expiry w).2).
    induction Hops as [|op ops Hop Hops IH]; intros w0 H0; simpl; [done|].
    apply IH. by apply blacklist_step_keeps. }
  destruct Hw' as [Hf' _ Hr]. unfold IsBlacklisted. case_bool_decide; [done|].
  unfold bind, try. rewrite query_row_ok, Hr by done.
  assert (Hl := sqlite_time_le (w_now w')). destruct (Z.ltb_spec (sqlite_time (w_now w')) expiry); [|lia].
  simpl. by rewrite query_row_ok, Hr.
Qed.

(** A generated token validates to the claims it was made from, if at all. *)
Lemma generated_claims `{E : Env, !JwtLaws E} (secret userID role tokenType token : string)
    (expiry : Z) (gen : option Z) (w w1 : World) (now : Z) (claims : Claims) :
  GenerateTokenWithExpiry secret userID role tokenType expiry gen w = (Ok token, w1) →
  jwt_parse now secret token = Ok claims →
  c_Subject claims = userID ∧ c_Role claims = role ∧ c_TokenType claims = tokenType ∧
  c_TokenGeneration claims = default 0 gen.
Proof.
  intros Hg Hv. unfold GenerateTokenWithExpiry, bind, get_now, NewString, draw in Hg. simpl in Hg.
  destruct (jwt_sign _ _) as [t|] eqn:Hs; [|done]. injection Hg as -> _.
  assert (Hidem : ∀ t, jwt_date (jwt_date t) = jwt_date t).
  { intros t. rewrite !jwt_date_whole. apply sqlite_time_whole. }
  match type of Hs with jwt_sign _ ?c = _ =>
    assert (Hp := jwt_roundtrip now secret c token (Hidem _) (Hidem _) Hs) end.
  simpl in Hp. destruct (now <? _); [|by rewrite Hv in Hp].
  rewrite Hv in Hp. by injection Hp as ->.
Qed.

(** a token lives exactly until its expiry, to the second.  A generated token validates under
    its secret to the claims it was made from until the expiry rounded down to a second, and is
    refused from then on; the expiry is at most the requested one and less than a second before. *)
Theorem token_lifetime `{E : Env, !JwtLaws E} (secret userID role tokenType token : string)
    (expiry : Z) (gen : option Z) (w w1 w2 : World) :
  GenerateTokenWithExpiry secret userID role tokenType expiry gen w = (Ok token, w1) →
  ∃ exp, w_now w + expiry - NS < exp <= w_now w + expiry ∧
  if w_now w2 <? exp then
    ∃ claims, ValidateToken secret token w2 = (Ok claims, w2) ∧ c_Subject claims = userID ∧
      c_Role claims = role ∧ c_TokenType claims = tokenType ∧ c_TokenGeneration claims = default 0 gen ∧
      c_ID claims = uuid (w_draws w) ∧ c_ExpiresAt claims = exp
  else is_ok (ValidateToken secret token w2).1 = false.
Proof.
  intros Hg. unfold GenerateTokenWithExpiry, bind, get_now, NewString, draw in Hg. simpl in Hg.
  destruct (jwt_sign _ _) as [t|] eqn:Hs; [|done]. injection Hg as -> _.
  exists (jwt_date (w_now w + expiry)). split.
  { rewrite jwt_date_whole. assert (Hm := Z.mod_pos_bound (w_now w + expiry) NS ltac:(unfold NS; lia)).
    assert (Hd := Z.div_mod (w_now w + expiry) NS ltac:(unfold NS; lia)). lia. }
  assert (Hidem : ∀ t, jwt_date (jwt_date t) = jwt_date t).
  { intros t. rewrite !jwt_date_whole. apply sqlite_time_whole. }
  match type of Hs with jwt_sign _ ?c = _ =>
    assert (Hp := jwt_roundtrip (w_now w2) secret c token (Hidem _) (Hidem _) Hs) end.
  simpl in Hp.
  unfold ValidateToken. destruct (w_now w2 <? _).
  - rewrite Hp. eexists. split; [reflexivity|]. done.
  - by destruct (jwt_parse _ _ _).
Qed.

Section witnesses.
#[local] Existing Instance demoEnv.
#[local] Existing Instance demo_rand.
#[local] Existing Instance demo_jwt.

Lemma temporary_password_meets_policy_witness :
  ∃ p w', GenerateTemporaryPassword (demo_world empty_db) = (Ok p, w') ∧
          String.length p = 20%nat ∧ ValidatePasswordPolicy p = Ok tt.
Proof. apply temporary_password_meets_policy. Defined.

Definition demo_totp_world (t : Z) : World := demo_world empty_db <| w_now := t * NS |>.

Lemma totp_no_replay_witness :
  match ValidateTOTPWithReplay "u1" "key" "key33" (demo_totp_world 1000) with
  | (Ok true, w1) =>
      (ValidateTOTPWithReplay "u1" "key" "key33"
         (demo_totp_world 1019 <| w_totp := foldl totp_step (w_totp w1) [(1010 * NS, CMark "u2" "key33")] |>)).1
      = Ok false
  | _ => False
  end.
Proof.
  destruct (ValidateTOTPWithReplay "u1" "key" "key33" (demo_totp_world 1000)) as [[[]|e] w1] eqn:Hv;
    [|by vm_compute in Hv|by vm_compute in Hv].
  apply (totp_no_replay "u1" "key" "key33" [(1010 * NS, CMark "u2" "key33")] _ w1 _ Hv);
    [repeat constructor; vm_compute; discriminate|reflexivity|vm_compute; discriminate].
Defined.

Lemma blacklist_until_expiry_witness :
  (IsBlacklisted "j1" (foldl blacklist_step (BlacklistAdd "j1" (1900 * NS) (demo_world empty_db)).2
     [OAdd "j2" (1001 * NS); OAdvance (800 * NS); OCleanup; ORestart])).1 = Ok true.
Proof.
  apply blacklist_until_expiry; [done|reflexivity|reflexivity| |vm_compute; reflexivity].
  repeat constructor; vm_compute; discriminate.
Defined.

Lemma token_lifetime_witness :
  match GenerateTokenWithExpiry "s" "u1" "admin" "access" (15 * Minute) (Some 3) (demo_world empty_db) with
  | (Ok token, w1) => ∃ exp, 1000 * NS + 15 * Minute - NS < exp <= 1000 * NS + 15 * Minute ∧
      if 1000 * NS <? exp then
        ∃ claims, ValidateToken "s" token (demo_world empty_db) = (Ok claims, demo_world empty_db) ∧
          c_Subject claims = "u1" ∧ c_Role claims = "admin" ∧ c_TokenType claims = "access" ∧
          c_TokenGeneration claims = 3 ∧ c_ID claims = uuid 0 ∧ c_ExpiresAt claims = exp
      else is_ok (ValidateToken "s" token (demo_world empty_db)).1 = false
  | _ => False
  end.
Proof.
  destruct (GenerateTokenWithExpiry _ _ _ _ _ _ _) as [[token|e] w1] eqn:Hg; [|by vm_compute in Hg].
  exact (token_lifetime "s" "u1" "admin" "access" token (15 * Minute) (Some 3)
           (demo_world empty_db) w1 (demo_world empty_db) Hg).
Defined.

End witnesses.

