(* ===== verification/AgentHandler.v ===== *)
(** * The agents' gRPC endpoint (hub/internal/grpcserver/heartbeat_coalescer.go, handler.go,
    server.go, and SignCSR of hub/internal/ca/ca.go). *)

From S2P Require Import Prelude GoStr GoTime Model Proto ConnMgr Db Demo StoreConfig.
From S2P Require Import StoreServers StoreAudit.
From S2P Require Pending LogSessions TerminalSessions.

(** ** Heartbeat coalescer *)

Section coalescer.
Context `{E : Env}.

Definition set_lastWritten (f : gmap string Z → gmap string Z) : M unit := λ w,
  (Ok tt, w <| w_lastWritten ::= f |>).
Definition get_lastWritten : M (gmap string Z) := λ w, (Ok (w_lastWritten w), w).

Definition RecordHeartbeat (interval : Z) (serverID : string) : M bool :=
  let* now := get_now in
  let* lastWritten := get_lastWritten in
  let due := match lastWritten !! serverID with
             | Some last => negb (now - last <? interval)
             | None => true
             end in
  if negb due then ret false else
  let* _ := set_lastWritten <[serverID := now]> in
  let* _ := ignore (UpdateServerLastSeen serverID) in
  ret true.

Definition ForceWrite (serverID : string) : M unit :=
  let* now := get_now in
  let* _ := set_lastWritten <[serverID := now]> in
  ignore (UpdateServerLastSeen serverID).

Definition Flush (serverID : string) : M unit :=
  let* _ := set_lastWritten (delete serverID) in
  ignore (UpdateServerLastSeen serverID).

Fixpoint flush_ids (ids : list string) : M unit :=
  match ids with
  | [] => ret tt
  | id :: ids' => let* _ := ignore (UpdateServerLastSeen id) in flush_ids ids'
  end.

Definition FlushAll : M unit :=
  let* lastWritten := get_lastWritten in
  let* _ := set_lastWritten (λ _, ∅) in
  flush_ids (map_to_list lastWritten).*1.

(** ** Streams, connections, sessions and notifications *)

(** The peer of a stream, as gRPC reports it: no peer, or its address and the CN of the verified
    client certificate, if it presented one. *)
Record Peer := MkPeer { peer_host : string; peer_cn : option string }.

Record stream := MkStream { st_id : nat; st_peer : option Peer }.

(** [stream.Send]: it fails like any call outside. *)
Definition Send (s : stream) (m : HubMessage) : M unit :=
  let* _ := driver in λ w, (Ok tt, w <| w_sent ::= λ l, l ++ [(st_id s, m)] |>).

Definition on_conns (f : Z → ConnManager → ConnManager) : M unit := λ w,
  (Ok tt, w <| w_conns ::= f (w_now w) |>).
Definition get_conn (serverID : string) : M (option AgentConn) := λ w,
  (Ok (GetConn serverID (w_conns w)), w).

(** A panic in a handler is an error of the call. *)
Definition panicked : string := "panic".
Definition on_terminals {A : Type}
    (f : TerminalSessions.TerminalSessions → outcome (A * TerminalSessions.TerminalSessions)) : M A :=
  λ w, match f (w_terminals w) with
       | Ret (a, ts) => (Ok a, w <| w_terminals := ts |>)
       | Panic => (Err panicked, w)
       end.
Definition on_logs {A : Type}
    (f : LogSessions.LogSessions → outcome (A * LogSessions.LogSessions)) : M A :=
  λ w, match f (w_logs w) with
       | Ret (a, ls) => (Ok a, w <| w_logs := ls |>)
       | Panic => (Err panicked, w)
       end.
Definition on_pending {A : Type}
    (f : Pending.PendingRequests Response → outcome (A * Pending.PendingRequests Response)) : M A :=
  λ w, match f (w_pending w) with
       | Ret (a, p) => (Ok a, w <| w_pending := p |>)
       | Panic => (Err panicked, w)
       end.

(** [h.notifier.Notify(event, context)] *)
Definition Notify (event : string) (context : list (string * string)) : M unit := λ w,
  (Ok tt, w <| w_notified ::= λ l, l ++ [(event, context)] |>).

(** "2006-01-02 15:04:05 UTC" *)
Definition NotifyTimestamp (t : Z) : string := format_sqlite t +:+ " UTC".

(** An entry with the fields the caller sets; the others are zero. *)
Definition audit_entry (action : string) (user target detail ip : option string) (actor : string)
  : AuditEntry :=
  MkAuditEntry "" user action target detail ip "" actor None None "" 0.

Definition resolveServerName (serverID : string) : M string :=
  let* srv := try (GetServerByID serverID) in
  ret match srv with Ok s => s_Name s | Err _ => serverID end.

Definition notify_server (event serverName serverID : string) : M unit :=
  let* now := get_now in
  Notify event [("server_name", serverName); ("server_id", serverID);
                ("timestamp", NotifyTimestamp now)].

(** ** handler.go: authentication of a stream *)

(** The certificate a stream presented, without the messages it is refused with. *)
Definition verifyCertCN (s : stream) (serverID : string) (requireCert : bool) : result unit :=
  match st_peer s with
  | None => if requireCert then Err "missing peer info for authenticated reconnect" else Ok tt
  | Some p =>
      match peer_cn p with
      | None =>
          if requireCert
          then Err ("agent " +:+ serverID +:+ " connected without required client certificate")
          else Ok tt
      | Some certCN =>
          if String.eqb certCN serverID then Ok tt
          else Err ("cert CN " +:+ quoted certCN +:+ " does not match server ID " +:+ quoted serverID)
      end
  end.

Definition peerAddr (s : stream) : string :=
  match st_peer s with Some p => peer_host p | None => "" end.

Definition preferredAgentIP (reportedIP peerIP : string) : string :=
  if valid_ip reportedIP then reportedIP else peerIP.

Definition optionalStringPointer (value : string) : option string :=
  if String.eqb value "" then None else Some value.

Definition registrationAuditDetail (reg : RegisterAgent) (failure : string) : string :=
  let field name value := if String.eqb value "" then [] else [name +:+ value] in
  Join " " (["phase=bootstrap"; "method=registration_token"] ++
    field "hostname=" (ra_Hostname reg) ++ field "os=" (ra_Os reg) ++
    field "agent_version=" (ra_AgentVersion reg) ++
    if String.eqb failure "" then ["result=accepted"]
    else ["result=failed"; "reason=" +:+ failure]).

(** ca.SignCSR: the subject is the server's ID, whatever the request says. *)
Definition SignCSR (csrDER serverID : string) (validity : Z) : M string :=
  match check_csr csrDER with
  | Err e => fail ("parse CSR: " +:+ e)
  | Ok key =>
      let* now := get_now in
      let* r := draw (λ i, create_certificate i serverID now (now + validity) key) in
      match r with
      | Err e => fail ("sign certificate: " +:+ e)
      | Ok cert => ret cert
      end
  end.

(** The handler's configuration: the CA certificate if there is one, the notifier, the interval. *)
Record Handler := MkHandler { h_caCert : option string; h_notifier : bool; h_interval : Z }.

(** (client certificate, CA certificate) *)
Definition issueRegistrationCertificate (h : Handler) (serverID csr : string) : M (string * string) :=
  if String.eqb csr "" then fail "registration CSR required" else
  match h_caCert h with
  | None => fail "CA not configured"
  | Some caCert =>
      let* clientCert := wrap "sign client certificate" (SignCSR csr serverID (12 * Hour)) in
      ret (clientCert, caCert)
  end.

(** An expiry that does not parse is no expiry. *)
Definition token_expired (now : Z) (srv : Server) : bool :=
  match s_TokenExpiresAt srv with
  | Some t => match parse_sqlite t with Some expiresAt => expiresAt <? now | None => false end
  | None => false
  end.

Definition handleRegister (h : Handler) (rawToken hostname ip os agentVersion csr : string)
  : M (string * string * string) :=
  let tokenHash := sha256_hex rawToken in
  let* r := try (GetServerByToken tokenHash) in
  match r with
  | Err _ => fail "invalid or expired registration token"
  | Ok srv =>
      let* now := get_now in
      if token_expired now srv then fail "registration token expired" else
      let* (clientCert, caCert) := issueRegistrationCertificate h (s_ID srv) csr in
      let* _ := wrap "failed to activate server"
                  (ActivateServer (s_ID srv) hostname ip os agentVersion) in
      ret (s_ID srv, clientCert, caCert)
  end.

Definition handleHeartbeat (serverID : string) : M unit :=
  let* r := try (GetServerByID serverID) in
  match r with
  | Err _ => fail ("unknown server: " +:+ serverID)
  | Ok srv =>
      let* _ := if String.eqb (s_Status srv) "online" then ret tt
                else wrap "failed to update status" (UpdateServerStatus serverID "online") in
      ForceWrite serverID
  end.

(** A handshake ends the stream ([bootstrapOnly]) or names the server it authenticated. *)
Record handshakeResult := MkHandshake { hs_serverID : string; hs_bootstrapOnly : bool;
                                        hs_requireClientCert : bool }.

Definition performRegisterHandshake (h : Handler) (s : stream) (reg : RegisterAgent) (peerIP : string)
  : M handshakeResult :=
  let agentIP := preferredAgentIP (ra_IpAddress reg) peerIP in
  let* r := try (handleRegister h (ra_Token reg) (ra_Hostname reg) agentIP (ra_Os reg)
                   (ra_AgentVersion reg) (ra_Csr reg)) in
  match r with
  | Err e =>
      let* _ := ignore (LogAudit (audit_entry "server.registration_failed" None None
                  (Some (registrationAuditDetail reg e)) (optionalStringPointer peerIP)
                  AuditActorTypeDevice)) in
      let* _ := ignore (Send s (RegisterAck false "" e "" "")) in
      fail ("registration failed: " +:+ e)
  | Ok (serverID, clientCert, caCert) =>
      let* _ := ignore (LogAudit (audit_entry "server.registered" None (Some serverID)
                  (Some (registrationAuditDetail reg "")) (optionalStringPointer peerIP)
                  AuditActorTypeDevice)) in
      let* _ := wrap "failed to send register ack"
                  (Send s (RegisterAck true serverID "" clientCert caCert)) in
      let* _ := if h_notifier h
                then notify_server NotifyAgentRegistered
                       (if String.eqb (ra_Hostname reg) "" then serverID else ra_Hostname reg) serverID
                else ret tt in
      ret (MkHandshake serverID true false)
  end.

Definition performHeartbeatHandshake (s : stream) (serverID hbIP peerIP : string) : M handshakeResult :=
  match verifyCertCN s serverID true with
  | Err e => fail ("heartbeat authentication failed: " +:+ e)
  | Ok _ =>
      let* _ := wrap "heartbeat failed" (handleHeartbeat serverID) in
      let* now := get_now in
      let* _ := wrap "failed to send heartbeat ack" (Send s (HeartbeatAck (unix now))) in
      let ip := preferredAgentIP hbIP peerIP in
      let* _ := if String.eqb ip "" then ret tt else ignore (UpdateServerIP serverID ip) in
      ret (MkHandshake serverID false false)
  end.

(** [first] is the first message, or the error of receiving it. *)
Definition performHandshake (h : Handler) (s : stream) (first : result AgentMessage)
  : M handshakeResult :=
  let peerIP := peerAddr s in
  match first with
  | Err e => fail ("failed to receive first message: " +:+ e)
  | Ok (Proto.Register reg) => performRegisterHandshake h s reg peerIP
  | Ok (Heartbeat serverID ip) => performHeartbeatHandshake s serverID ip peerIP
  | Ok _ => fail "first message must be Register or Heartbeat"
  end.

(** ** handler.go: the life of a connection *)

Definition onAgentConnected (h : Handler) (serverID addr : string) : M unit :=
  let* _ := ignore (LogAudit (audit_entry "server.connected" None (Some serverID) None (Some addr)
              AuditActorTypeDevice)) in
  if h_notifier h then
    let* serverName := resolveServerName serverID in
    notify_server NotifyAgentOnline serverName serverID
  else ret tt.

Definition onAgentDisconnected (h : Handler) (serverID : string) (s : stream) : M unit := λ w,
  let '(current, conns) := UnregisterIfCurrent serverID (st_id s) (w_conns w) in
  if negb current then (Ok tt, w) else
  (let* _ := Flush serverID in
   let* _ := ignore (UpdateServerStatus serverID "offline") in
   let* _ := ignore (LogAudit (audit_entry "server.disconnected" None (Some serverID) None None
               AuditActorTypeDevice)) in
   let* _ := if h_notifier h then
               let* serverName := resolveServerName serverID in
               notify_server NotifyAgentOffline serverName serverID
             else ret tt in
   on_terminals (λ ts, let! ts' := TerminalSessions.EndAll serverID (-1) "agent disconnected" ts in
                       Ret (tt, ts'))) (w <| w_conns := conns |>).

Definition handleStreamHeartbeat (h : Handler) (serverID : string) (s : stream) : M unit :=
  let* _ := on_conns (λ now, UpdateHeartbeat now serverID) in
  let* _ := RecordHeartbeat (h_interval h) serverID in
  let* conn := get_conn serverID in
  match conn with
  | None => ret tt
  | Some _ => let* now := get_now in Send s (HeartbeatAck (unix now))
  end.

Definition sendCertResponse (serverID : string) (s : stream) (m : HubMessage) : M unit :=
  let* conn := get_conn serverID in
  match conn with None => ret tt | Some _ => ignore (Send s m) end.

Definition handleCertRenewal (h : Handler) (serverID : string) (s : stream) (csr : string) : M unit :=
  match h_caCert h with
  | None => sendCertResponse serverID s (CertRenewResponse "" "" "CA not configured")
  | Some caCert =>
      let* r := try (SignCSR csr serverID (12 * Hour)) in
      match r with
      | Err e => sendCertResponse serverID s (CertRenewResponse "" "" e)
      | Ok clientCert => sendCertResponse serverID s (CertRenewResponse clientCert caCert "")
      end
  end.

Definition deliverPending (serverID requestID : string) (payload : Response) : M unit :=
  let* _ := on_pending (Pending.Deliver serverID requestID payload) in ret tt.
Definition deliverLogChunk (serverID requestID data : string) : M unit :=
  let* _ := on_logs (LogSessions.Deliver serverID requestID data) in ret tt.
Definition deliverTerminalData (serverID sessionID data : string) : M unit :=
  let* _ := on_terminals (TerminalSessions.DeliverData serverID sessionID data) in ret tt.
Definition deliverTerminalExit (serverID sessionID : string) (exitCode : Z) (err : string) : M unit :=
  let* _ := on_terminals (TerminalSessions.End serverID sessionID exitCode err) in ret tt.

Definition routeAgentMessage (h : Handler) (serverID : string) (s : stream) (msg : AgentMessage)
  : M unit :=
  match msg with
  | Heartbeat _ _ => handleStreamHeartbeat h serverID s
  | Reply resp => deliverPending serverID (response_id resp) resp
  | LogStreamChunk requestID data => deliverLogChunk serverID requestID data
  | CertRenewRequest csr => handleCertRenewal h serverID s csr
  | TerminalData sessionID data => deliverTerminalData serverID sessionID data
  | TerminalExit sessionID code err => deliverTerminalExit serverID sessionID code err
  | Proto.Register _ | UnknownPayload => ret tt
  end.

(** The loop of [Connect] over the messages that arrive; the stream ends with [io.EOF] after them,
    or with an error. *)
Fixpoint serve (h : Handler) (serverID : string) (s : stream) (msgs : list AgentMessage)
    (last : option string) : M unit :=
  match msgs with
  | [] => match last with None => ret tt | Some e => fail e end
  | m :: msgs' => let* _ := routeAgentMessage h serverID s m in serve h serverID s msgs' last
  end.

(** [defer f()]: [f] runs after [m], whatever its result. *)
Definition deferred {A : Type} (m : M A) (f : M unit) : M A := λ w,
  let '(r, w1) := m w in let '(_, w2) := f w1 in (r, w2).

(** The part of [Connect] up to the registration of the stream: [None] ends the stream. *)
Definition accept (h : Handler) (s : stream) (first : result AgentMessage) : M (option string) :=
  let* handshake := performHandshake h s first in
  if hs_bootstrapOnly handshake then ret None else
  match verifyCertCN s (hs_serverID handshake) (hs_requireClientCert handshake) with
  | Err e => fail e
  | Ok _ =>
      let serverID := hs_serverID handshake in
      let* _ := on_conns (λ now, ConnMgr.Register now serverID (st_id s)) in
      ret (Some serverID)
  end.

Definition Connect (h : Handler) (s : stream) (first : result AgentMessage)
    (msgs : list AgentMessage) (last : option string) : M unit :=
  let* accepted := accept h s first in
  match accepted with
  | None => ret tt
  | Some serverID =>
      let* srv := try (GetServerByID serverID) in
      let agentIP := match srv with
                     | Ok v => match s_IPAddress v with
                               | Some ip => if String.eqb ip "" then peerAddr s else ip
                               | None => peerAddr s
                               end
                     | Err _ => peerAddr s
                     end in
      let* _ := onAgentConnected h serverID agentIP in
      deferred (serve h serverID s msgs last) (onAgentDisconnected h serverID s)
  end.

(** ** server.go: the heartbeat monitor *)

Fixpoint mark_offline (ids : list string) : M unit :=
  match ids with
  | [] => ret tt
  | id :: ids' => let* _ := ignore (UpdateServerStatus id "offline") in mark_offline ids'
  end.

(** The loop over the stale connections. *)
Fixpoint drop_stale_conns (ids : list string) : M unit :=
  match ids with
  | [] => ret tt
  | id :: ids' =>
      let* _ := on_conns (λ _, Unregister id) in
      let* _ := ignore (UpdateServerStatus id "offline") in
      drop_stale_conns ids'
  end.

Definition sweepStaleConnections : M unit := λ w,
  (let* _ := drop_stale_conns (StaleConnections (w_now w) (30 * Second) (w_conns w)) in λ w,
   (let* orphans := try (GetOnlineServersNotIn (ActiveServerIDs (w_conns w))) in
    match orphans with
    | Err _ => ret tt
    | Ok servers => mark_offline (map s_ID servers)
    end) w) w.

End coalescer.

(** ** What the handshake and its reports leave alone *)

Class Offstream {X : Type} (f : World → X) := {
  off_outside :: Outside f;
  off_sent : ∀ w g, f (w <| w_sent ::= g |>) = f w;
  off_notified : ∀ w g, f (w <| w_notified ::= g |>) = f w
}.
#[export] Instance offstream_conns : Offstream w_conns. Proof. split; [apply _|done..]. Qed.
#[export] Instance offstream_now : Offstream w_now. Proof. split; [apply _|done..]. Qed.
#[export] Instance offstream_terminals : Offstream w_terminals. Proof. split; [apply _|done..]. Qed.
#[export] Instance offstream_pending : Offstream w_pending. Proof. split; [apply _|done..]. Qed.
#[export] Hint Extern 0 (Offstream _) => typeclasses eauto : frames.

Section handler_frames.
Context {X : Type} (f : World → X) `{!Offstream f} `{E : Env}.

Lemma frame_Send (s : stream) (m : HubMessage) : frame f (Send s m).
Proof. unfold Send. frames. intros w. apply off_sent. Qed.
Lemma frame_Notify (e : string) (c : list (string * string)) : frame f (Notify e c).
Proof. intros w. apply off_notified. Qed.
Hint Resolve frame_Send frame_Notify : frames.
Lemma frame_notify_server (e n id : string) : frame f (notify_server e n id).
Proof. unfold notify_server. frames. Qed.
Lemma frame_resolveServerName (id : string) : frame f (resolveServerName id).
Proof. unfold resolveServerName. frames. Qed.
Lemma frame_SignCSR (csr id : string) (v : Z) : frame f (SignCSR csr id v).
Proof. unfold SignCSR. frames. Qed.
Hint Resolve frame_notify_server frame_resolveServerName frame_SignCSR : frames.
Lemma frame_handleRegister (h : Handler) (tok host ip os ver csr : string) :
  frame f (handleRegister h tok host ip os ver csr).
Proof. unfold handleRegister, issueRegistrationCertificate. frames. Qed.
Lemma frame_handleHeartbeat (id : string) :
  (∀ w h, f (w <| w_lastWritten ::= h |>) = f w) → frame f (handleHeartbeat id).
Proof.
  intros Hl. unfold handleHeartbeat, ForceWrite. frames. intros w. apply Hl.
Qed.
End handler_frames.
#[export] Hint Resolve frame_Send frame_Notify frame_notify_server frame_resolveServerName
  frame_SignCSR frame_handleRegister : frames.

Section handler.
Context `{E : Env}.

Lemma handshake_quiet (h : Handler) (s : stream) (first : result AgentMessage) :
  frame w_conns (performHandshake h s first) ∧ frame w_now (performHandshake h s first).
Proof.
  split; unfold performHandshake, performRegisterHandshake, performHeartbeatHandshake; frames;
    by apply (frame_handleHeartbeat _).
Qed.

(** Only a heartbeat opens a session, and a heartbeat needs the server's certificate. *)
Lemma performHandshake_cert (h : Handler) (s : stream) (first : result AgentMessage) (w w' : World)
    (hs : handshakeResult) :
  performHandshake h s first w = (Ok hs, w') → hs_bootstrapOnly hs = false →
  ∃ p ip, st_peer s = Some p ∧ peer_cn p = Some (hs_serverID hs) ∧
    first = Ok (Heartbeat (hs_serverID hs) ip).
Proof.
  intros H Hb. destruct first as [msg|e]; [|done].
  destruct msg; simpl in *; try done; [|by unfold performRegisterHandshake in H; ok_inv].
  unfold performHeartbeatHandshake, verifyCertCN in H.
  destruct (st_peer s) as [p|] eqn:Hp; [|done].
  destruct (peer_cn p) as [cn|] eqn:Hcn; [|done].
  destruct (String.eqb_spec cn server_id) as [->|]; [|done].
  ok_inv; simpl; eauto.
Qed.

Lemma accept_shape (h : Handler) (s : stream) (first : result AgentMessage) (w : World) :
  match accept h s first w with
  | (Ok (Some id), w') =>
      w_conns w' = <[id := MkAgentConn id (st_id s) (w_now w)]> (w_conns w)
  | (_, w') => w_conns w' = w_conns w
  end.
Proof.
  unfold accept, bind. destruct (handshake_quiet h s first) as [Hc Hn].
  specialize (Hc w). specialize (Hn w).
  destruct (performHandshake h s first w) as [[hs|e] w1] eqn:H; simpl in *; [|done].
  destruct (hs_bootstrapOnly hs) eqn:Hb; simpl; [done|].
  destruct (verifyCertCN s _ _); simpl; [|done]. by rewrite Hc, Hn.
Qed.

(** C4: A stream becomes the live connection of a server only after a heartbeat for that server
    from a peer whose verified client certificate names it, and then nothing else of the
    connection table changes; every refused stream and every registration leaves the table as it
    was. *)
Theorem accept_authenticated (h : Handler) (s : stream) (first : result AgentMessage) (w : World) :
  match accept h s first w with
  | (Ok (Some id), w') =>
      (∃ p ip, st_peer s = Some p ∧ peer_cn p = Some id ∧ first = Ok (Heartbeat id ip)) ∧
      w_conns w' = <[id := MkAgentConn id (st_id s) (w_now w)]> (w_conns w)
  | (_, w') => w_conns w' = w_conns w
  end.
Proof.
  assert (Hs := accept_shape h s first w).
  destruct (accept h s first w) as [[[id|]|e] w'] eqn:Ha; [|done..].
  split; [|done]. unfold accept in Ha. ok_inv.
  by eapply performHandshake_cert.
Qed.

(** When an agent reconnects, the end of its older stream changes nothing at all: the server
    stays online, the new stream stays registered and its terminals stay open. *)
Theorem old_stream_end_ignored (h : Handler) (old new : stream) (first : result AgentMessage)
    (id : string) (w w' : World) :
  st_id old ≠ st_id new → accept h new first w = (Ok (Some id), w') →
  onAgentDisconnected h id old w' = (Ok tt, w').
Proof.
  intros Hne Ha. assert (H := accept_shape h new first w). rewrite Ha in H.
  unfold onAgentDisconnected, UnregisterIfCurrent. rewrite H, lookup_insert_eq. simpl.
  by destruct (Nat.eqb_spec (st_id new) (st_id old)).
Qed.

(** ** Registration *)

(** A token is spent when no row has its hash. *)
Definition spent (tokenHash : string) (d : Db) : Prop :=
  ∀ s, s ∈ d_servers d → s_RegistrationToken s ≠ Some tokenHash.

Lemma GetServerByToken_spent (tokenHash : string) (w : World) :
  spent tokenHash (w_db w) → is_ok (GetServerByToken tokenHash w).1 = false.
Proof.
  intros Hs. change (wp (GetServerByToken tokenHash) (λ r _, is_ok r = false) w).
  unfold GetServerByToken, scanServer. repeat wp_step; simpl; try done.
  unfold find_server. simpl. destruct (List.find _ _) as [srv|] eqn:Hf; [|by wp_step].
  apply elem_of_find in Hf as [Hin H%bool_decide_eq_true]. by destruct (Hs srv Hin).
Qed.

Lemma spent_refused (h : Handler) (tok host ip os ver csr : string) (w : World) :
  spent (sha256_hex tok) (w_db w) → is_ok (handleRegister h tok host ip os ver csr w).1 = false.
Proof.
  intros Hs%GetServerByToken_spent. unfold handleRegister, bind, try.
  by destruct (GetServerByToken _ w) as [[srv|e] w1].
Qed.

Lemma ActivateServer_spends (srv : Server) (tokenHash host ip os ver : string) (w : World) :
  db_violation (w_fk w) (w_db w) = None → srv ∈ d_servers (w_db w) →
  s_RegistrationToken srv = Some tokenHash →
  wp (ActivateServer (s_ID srv) host ip os ver) (λ r w',
    if is_ok r then spent tokenHash (w_db w')
    else w_db w' = w_db w ∨ spent tokenHash (w_db w')) w.
Proof.
  intros Hv Hin Htok. unfold ActivateServer. wp_step. wp_step. wp_step. wp_step. wp_step.
  { by left. }
  assert (Hsp : spent tokenHash (update_server (s_ID srv) (λ s,
      s <| s_Hostname := Some host |> <| s_IPAddress := Some ip |> <| s_OS := Some os |>
        <| s_AgentVersion := Some ver |> <| s_Status := "pending" |>
        <| s_RegistrationToken := None |> <| s_TokenExpiresAt := None |>
        <| s_LastSeenAt := Some (sqlite_time (w_now w)) |>) w).2).
  { intros s. simpl. rewrite elem_of_update_rows. intros [(y & _ & _ & ->)|[Hs Hne]]; [done|].
    intros Ht. unfold server_is in Hne. apply String.eqb_neq in Hne. apply Hne. f_equal.
    eapply (distinct_inj s_RegistrationToken); [|exact Hs|exact Hin|exact Ht|exact Htok].
    eapply (unique_constraint _ _ "servers.registration_token"); [exact Hv|].
    unfold unique_constraints. do 7 right. left. }
  apply wp_require_row; simpl; [by right|done].
Qed.

Lemma wp_issue (h : Handler) (id csr : string) (Q : result (string * string) → World → Prop)
    (w : World) :
  (∀ e n, Q (Err e) (w <| w_draws := n |>)) →
  (∀ cert ca key i n, h_caCert h = Some ca → check_csr csr = Ok key →
     create_certificate i id (w_now w) (w_now w + 12 * Hour) key = Ok cert →
     Q (Ok (cert, ca)) (w <| w_draws := n |>)) →
  wp (issueRegistrationCertificate h id csr) Q w.
Proof.
  intros H1 H2. assert (H0 : ∀ e, Q (Err e) w).
  { intros e. specialize (H1 e (w_draws w)). by destruct w. }
  unfold issueRegistrationCertificate, SignCSR. destruct (String.eqb csr ""); [apply H0|].
  destruct (h_caCert h) as [ca|] eqn:Hca; [|apply H0].
  destruct (check_csr csr) as [key|e] eqn:Hkey; [|apply H0].
  repeat wp_step. unfold wp. simpl.
  destruct (create_certificate _ _ _ _ _) as [cert|e] eqn:Hc; simpl; [|apply H1].
  by eapply H2.
Qed.

Definition registered (h : Handler) (tok csr id clientCert caCert : string) (w : World) : Prop :=
  (∃ srv, srv ∈ d_servers (w_db w) ∧ s_ID srv = id ∧
     s_RegistrationToken srv = Some (sha256_hex tok) ∧ token_expired (w_now w) srv = false) ∧
  (∃ i key, check_csr csr = Ok key ∧
     create_certificate i id (w_now w) (w_now w + 12 * Hour) key = Ok clientCert) ∧
  h_caCert h = Some caCert.

(** C3: Registration consumes its token.  A registration that succeeds names the server whose row
    had the token, before the token's expiry, and returns a certificate whose subject is that
    server's ID and whose validity is twelve hours from now; afterwards every registration with
    the same token is refused, whatever else the request says.  One that fails leaves the tables
    alone, or has spent the token and lost only the reply. *)
Theorem registration_spec (h : Handler) (tok host ip os ver csr : string) (w : World)
    (Hv : db_violation (w_fk w) (w_db w) = None) :
  match handleRegister h tok host ip os ver csr w with
  | (Ok (id, clientCert, caCert), w') =>
      (∃ srv, srv ∈ d_servers (w_db w) ∧ s_ID srv = id ∧
         s_RegistrationToken srv = Some (sha256_hex tok) ∧ token_expired (w_now w) srv = false) ∧
      (∃ i key, check_csr csr = Ok key ∧
         create_certificate i id (w_now w) (w_now w + 12 * Hour) key = Ok clientCert) ∧
      h_caCert h = Some caCert ∧
      (∀ h' host' ip' os' ver' csr',
         is_ok (handleRegister h' tok host' ip' os' ver' csr' w').1 = false)
  | (Err _, w') => w_db w' = w_db w ∨ spent (sha256_hex tok) (w_db w')
  end.
Proof.
  enough (Hw : wp (handleRegister h tok host ip os ver csr) (λ r w', match r with
    | Ok (id, clientCert, caCert) => registered h tok csr id clientCert caCert w ∧
        spent (sha256_hex tok) (w_db w')
    | Err _ => w_db w' = w_db w ∨ spent (sha256_hex tok) (w_db w')
    end) w).
  { unfold wp in Hw. destruct (handleRegister h tok host ip os ver csr w) as [[[[id c] ca]|e] w'];
      simpl in *; [|done].
    destruct Hw as [(H1 & H2 & H3) Hs]. repeat split; auto. intros. by apply spent_refused. }
  unfold handleRegister, GetServerByToken, scanServer. do 5 wp_step; [by repeat wp_step; left|].
  simpl. destruct (find_server _ _) as [srv|] eqn:Hf; [|by wp_step; left]. repeat wp_step.
  unfold find_server in Hf. apply elem_of_find in Hf as [Hin Ht%bool_decide_eq_true].
  simpl in *. destruct (token_expired _ _) eqn:Hx; [by left|].
  wp_step. apply wp_issue; [by left|]. intros cert ca key i n Hca Hkey Hcert. repeat wp_step.
  eapply wp_mono; [by eapply ActivateServer_spends|]. simpl. intros [[]|e] w' H; simpl in *; [|done].
  apply wp_ret. split; [|done]. unfold registered. eauto 10.
Qed.

(** ** The heartbeat monitor *)

(** The rows of [d], those of [off] set offline at [now]; a row may be in the list twice. *)
Definition set_offline (now : Z) (id : string) (d : Db) : Db :=
  d <| d_servers := update_rows (server_is id)
         (λ s, s <| s_Status := "offline" |> <| s_UpdatedAt := sqlite_time now |>) (d_servers d) |>.

Lemma set_offline_ok (fk : bool) (now : Z) (id : string) (d : Db) :
  db_violation fk d = None → db_violation fk (set_offline now id d) = None.
Proof. intros Hd. by apply update_servers_ok. Qed.

Lemma offline_run (id : string) (w : World) :
  no_faults w → db_violation (w_fk w) (w_db w) = None →
  ignore (UpdateServerStatus id "offline") w = (Ok tt, w <| w_db ::= set_offline (w_now w) id |>).
Proof.
  intros Hf Hv. unfold ignore, UpdateServerStatus, bind, wrap. rewrite exec_ok; [|done|].
  - simpl. unfold require_row, RowsAffected, try, bind. rewrite driver_ok by done. simpl.
    by destruct (count_rows _ _ =? 0).
  - by apply (set_offline_ok _ (w_now w) id).
Qed.

Definition offline_all (now : Z) (ids : list string) (d : Db) : Db :=
  foldl (λ d id, set_offline now id d) d ids.

Lemma mark_offline_run (ids : list string) (w : World) :
  no_faults w → db_violation (w_fk w) (w_db w) = None →
  mark_offline ids w = (Ok tt, w <| w_db ::= offline_all (w_now w) ids |>).
Proof.
  revert w. induction ids as [|id ids IH]; intros w Hf Hv; simpl; [by destruct w|].
  unfold bind. rewrite offline_run by done. rewrite IH; [done|done|]. by apply set_offline_ok.
Qed.

Lemma drop_stale_run (ids : list string) (w : World) :
  no_faults w → db_violation (w_fk w) (w_db w) = None →
  drop_stale_conns ids w =
    (Ok tt, w <| w_conns ::= λ cm, foldl (λ cm id, Unregister id cm) cm ids |>
              <| w_db ::= offline_all (w_now w) ids |>).
Proof.
  revert w. induction ids as [|id ids IH]; intros w Hf Hv; simpl; [by destruct w|].
  unfold bind. simpl. pose (w1 := w <| w_conns ::= Unregister id |>).
  assert (H := offline_run id w1 Hf Hv). unfold w1 in H. simpl in H. rewrite H. rewrite IH; [done|done|].
  by apply set_offline_ok.
Qed.

(** A row of the tables after [offline_all]: one of [ids] is offline, another is as before. *)
Lemma offline_all_row (now : Z) (ids : list string) (d : Db) (s : Server) :
  s ∈ d_servers (offline_all now ids d) →
  if decide (s_ID s ∈ ids) then s_Status s = "offline" else s ∈ d_servers d.
Proof.
  revert d. induction ids as [|id ids IH]; intros d Hs; simpl in *; [done|].
  apply IH in Hs. destruct (decide (s_ID s ∈ ids)) as [Hin|Hin].
  { rewrite decide_True by (by right). done. }
  simpl in Hs. apply elem_of_update_rows in Hs as [(y & Hy & Hp & ->)|[Hs Hp]].
  - simpl. unfold server_is in Hp. apply String.eqb_eq in Hp.
    rewrite decide_True; [done|]. simpl. rewrite Hp. by left.
  - unfold server_is in Hp. apply String.eqb_neq in Hp.
    rewrite decide_False; [done|]. intros [?|?]%elem_of_cons; [done|by destruct Hin].
Qed.

Lemma offline_all_other (now : Z) (ids : list string) (d : Db) (s : Server) :
  s ∈ d_servers d → s_ID s ∉ ids → s ∈ d_servers (offline_all now ids d).
Proof.
  revert d. induction ids as [|id ids IH]; intros d Hs Hn; simpl; [done|].
  apply IH; [|by intros H; apply Hn; right]. simpl. apply update_rows_other; [done|].
  unfold server_is. apply String.eqb_neq. intros He. apply Hn. rewrite He. by left.
Qed.

Lemma offline_all_ok (fk : bool) (now : Z) (ids : list string) (d : Db) :
  db_violation fk d = None → db_violation fk (offline_all now ids d) = None.
Proof. revert d. induction ids; intros d Hd; simpl; [done|]. by apply IHids, set_offline_ok. Qed.

(** The servers online without a connection. *)
Definition orphans (cm : ConnManager) (d : Db) : list string :=
  map s_ID (List.filter (λ s, String.eqb (s_Status s) "online" &&
    negb (existsb (String.eqb (s_ID s)) (ActiveServerIDs cm))) (d_servers d)).

Lemma orphans_iff (cm : ConnManager) (d : Db) (id : string) :
  id ∈ orphans cm d ↔
  (∃ s, s ∈ d_servers d ∧ s_ID s = id ∧ s_Status s = "online") ∧ ¬ is_Some (cm !! id).
Proof.
  unfold orphans. rewrite list_elem_of_fmap.
  assert (Ha : existsb (String.eqb id) (ActiveServerIDs cm) = true ↔ is_Some (cm !! id)).
  { rewrite existsb_exists, <- Active_iff. split.
    - by intros (x & Hx%list_elem_of_In & ->%String.eqb_eq).
    - intros Hx. exists id. by rewrite String.eqb_refl, <- list_elem_of_In. }
  split.
  - intros (s & -> & Hs). apply list_elem_of_In, filter_In in Hs as [Hs Hb]. bool_hyps.
    rewrite <- Ha. split; [|congruence]. exists s. by rewrite list_elem_of_In.
  - intros [(s & Hs & <- & Hst) Hn]. exists s. split; [done|].
    apply list_elem_of_In, filter_In. rewrite Hst. split; [by apply list_elem_of_In|]. simpl.
    apply negb_true_iff, not_true_iff_false. by rewrite Ha.
Qed.

Lemma sweep_run (w : World) :
  no_faults w → db_violation (w_fk w) (w_db w) = None →
  let stale := StaleConnections (w_now w) (30 * Second) (w_conns w) in
  let conns := foldl (λ cm id, Unregister id cm) (w_conns w) stale in
  let d := offline_all (w_now w) stale (w_db w) in
  sweepStaleConnections w =
    (Ok tt, w <| w_conns := conns |> <| w_db := offline_all (w_now w) (orphans conns d) d |>).
Proof.
  intros Hf Hv stale conns d. unfold sweepStaleConnections. fold stale. unfold bind at 1.
  rewrite drop_stale_run by done. unfold bind, try, GetOnlineServersNotIn.
  rewrite query_ok by (auto with veyport). simpl. fold conns d.
  change (map s_ID _) with (orphans conns d).
  pose (w1 := w <| w_conns := conns |> <| w_db := d |>).
  assert (Hv1 : db_violation (w_fk w1) (w_db w1) = None) by by apply offline_all_ok.
  exact (mark_offline_run (orphans conns d) w1 Hf Hv1).
Qed.

(** C5: One pass of the monitor restores the agreement between the connections and the tables.
    The connections left are exactly those that answered in the last thirty seconds; every server
    the tables show online has one of them; servers with a live connection, and all other tables,
    are untouched.  The sessions of the connections dropped stay as they are. *)
Theorem sweep_reconciles (w : World) (Hf : no_faults w)
    (Hv : db_violation (w_fk w) (w_db w) = None) :
  let '(r, w') := sweepStaleConnections w in
  r = Ok tt ∧
  (∀ id c, w_conns w' !! id = Some c ↔
     w_conns w !! id = Some c ∧ w_now w - 30 * Second <= LastSeen c) ∧
  (∀ s, s ∈ d_servers (w_db w') → s_Status s = "online" → is_Some (w_conns w' !! s_ID s)) ∧
  (∀ s, s ∈ d_servers (w_db w) → is_Some (w_conns w' !! s_ID s) → s ∈ d_servers (w_db w')) ∧
  w_terminals w' = w_terminals w ∧ db_violation (w_fk w') (w_db w') = None.
Proof.
  rewrite sweep_run by done. simpl.
  set (stale := StaleConnections (w_now w) (30 * Second) (w_conns w)).
  set (conns := foldl _ _ _). set (d := offline_all (w_now w) stale (w_db w)).
  assert (Hc : ∀ id c, conns !! id = Some c ↔
    w_conns w !! id = Some c ∧ w_now w - 30 * Second <= LastSeen c).
  { intros id c. unfold conns. rewrite foldl_Unregister.
    destruct (decide (id ∈ stale)) as [(c' & Hc & Hl)%Stale_iff|Hs]; [naive_solver lia|].
    split; [|tauto]. intros Hc. split; [done|]. apply Z.nlt_ge. intros Hl. apply Hs, Stale_iff. eauto. }
  assert (Hlive : ∀ id, is_Some (conns !! id) → id ∉ stale).
  { intros id [c (H1 & H2)%Hc] (c' & H3 & H4)%Stale_iff. simplify_eq. lia. }
  repeat split; try done.
  - by apply Hc.
  - by apply Hc in H as [].
  - by apply Hc.
  - intros s Hs Hst. apply offline_all_row in Hs. case_decide as Ho; [congruence|].
    destruct (conns !! s_ID s) eqn:E'; [done|]. destruct Ho. apply orphans_iff.
    split; [by eauto|]. rewrite E'. by intros [].
  - intros s Hs Ha. apply offline_all_other; [|by rewrite orphans_iff; tauto].
    apply offline_all_other; [done|by apply Hlive].
  - by apply offline_all_ok, offline_all_ok.
Qed.

(** What the monitor dropped is never ended: the end of the stream finds no connection. *)
Lemma swept_stream_end_ignored (h : Handler) (id : string) (s : stream) (c : AgentConn) (w : World) :
  no_faults w → db_violation (w_fk w) (w_db w) = None →
  w_conns w !! id = Some c → LastSeen c < w_now w - 30 * Second →
  let w' := (sweepStaleConnections w).2 in onAgentDisconnected h id s w' = (Ok tt, w').
Proof.
  intros Hf Hv Hc Hl. rewrite sweep_run by done. simpl. unfold onAgentDisconnected, UnregisterIfCurrent.
  simpl. rewrite foldl_Unregister, decide_True; [done|]. apply Stale_iff. by exists c.
Qed.

(** ** Coalescing *)

(** Heartbeats at given times; the ones that reach the tables. *)
Fixpoint run_heartbeats (interval : Z) (l : list (Z * string)) : M (list (Z * string)) :=
  match l with
  | [] => ret []
  | (t, id) :: l' => λ w,
      (let* written := RecordHeartbeat interval id in
       let* rest := run_heartbeats interval l' in
       ret (if written then (t, id) :: rest else rest)) (w <| w_now := t |>)
  end.

Definition write_times (id : string) (l : list (Z * string)) : list Z :=
  omap (λ e, if String.eqb e.2 id then Some e.1 else None) l.

Lemma RecordHeartbeat_spec (interval : Z) (id : string) (w : World) :
  let due := match w_lastWritten w !! id with
             | Some last => negb (w_now w - last <? interval) | None => true end in
  ∃ w', RecordHeartbeat interval id w = (Ok due, w') ∧
    w_lastWritten w' = if due then <[id := w_now w]> (w_lastWritten w) else w_lastWritten w.
Proof.
  intros due. unfold RecordHeartbeat, get_now, get_lastWritten, set_lastWritten, bind. fold due.
  destruct due; simpl; [|by eexists].
  assert (H := frame_UpdateServerLastSeen w_lastWritten id
                 (w <| w_lastWritten ::= <[id := w_now w]> |>)).
  unfold ignore. destruct (UpdateServerLastSeen id _) as [r w']. simpl in *. by exists w'.
Qed.

Lemma run_heartbeats_total (interval : Z) (l : list (Z * string)) (w : World) :
  ∃ ws w', run_heartbeats interval l w = (Ok ws, w') ∧
    (∀ id, Sorted (λ t t', t + interval <= t') (write_times id ws)) ∧
    (∀ id last, w_lastWritten w !! id = Some last →
       HdRel (λ t t', t + interval <= t') last (write_times id ws)) ∧
    (0 < interval → ∀ t id, (t, id) ∈ l → ∃ t', t - t' < interval ∧
       ((t', id) ∈ ws ∨ w_lastWritten w !! id = Some t')).
Proof.
  revert w. induction l as [|[t id] l IH]; intros w; simpl.
  - exists [], w. repeat split; try constructor. intros _ t id Hin. by inversion Hin.
  - destruct (RecordHeartbeat_spec interval id (w <| w_now := t |>)) as (w1 & Hr & Hl).
    set (due := match _ with Some _ => _ | None => _ end) in *.
    assert (Hdue : if due then ∀ last, w_lastWritten w !! id = Some last → last + interval <= t
                   else ∃ last, w_lastWritten w !! id = Some last ∧ t - last < interval).
    { unfold due. simpl. destruct (w_lastWritten w !! id) as [last|]; [|done].
      destruct (Z.ltb_spec (t - last) interval) as [Hd|Hd]; simpl; [by exists last|].
      intros ? [= <-]. lia. }
    simpl in *. destruct (IH w1) as (ws & w2 & Hrun & Hsort & Hhd & Hcov).
    unfold bind. simpl in *. rewrite Hr, Hrun. clearbody due. simpl in Hl. clear Hr Hrun IH.
    destruct due; rewrite Hl in *; simpl; do 2 eexists; (split; [reflexivity|]).
    + repeat split.
      * intros id'. simpl. case_tests; [|done]. constructor; [done|].
        apply Hhd. apply lookup_insert_eq.
      * intros id' last Hlast. simpl. case_tests; [constructor; auto|].
        apply Hhd. by rewrite lookup_insert_ne.
      * intros Hi t' id' [[= -> ->]|Hin]%elem_of_cons.
        { exists t. split; [lia|]. left. by left. }
        destruct (Hcov Hi t' id' Hin) as (t'' & Ht & [Hw|Hw]); exists t''; (split; [done|]).
        { left. by right. }
        apply lookup_insert_Some in Hw as [[-> ->]|[_ Hw]]; [|by right]. left. by left.
    + repeat split; [done|done|]. intros Hi t' id' [[= -> ->]|Hin]%elem_of_cons; [|by apply Hcov].
      destruct Hdue as (last & Hlast & Hd). exists last. auto.
Qed.

(** Coalescing loses nothing and writes rarely.  In any run of heartbeats the writes to the
    tables for one server are at least the interval apart, also from the last write before the
    run, and every heartbeat is within the interval of a write of its server; a failed write of
    the tables counts as one. *)
Theorem heartbeats_coalesced (interval : Z) (l : list (Z * string)) (w : World) (Hi : 0 < interval) :
  match run_heartbeats interval l w with
  | (Ok ws, _) =>
      (∀ id, Sorted (λ t t', t + interval <= t') (write_times id ws)) ∧
      (∀ id last, w_lastWritten w !! id = Some last →
         HdRel (λ t t', t + interval <= t') last (write_times id ws)) ∧
      (∀ t id, (t, id) ∈ l → ∃ t', t - t' < interval ∧
         ((t', id) ∈ ws ∨ w_lastWritten w !! id = Some t'))
  | (Err _, _) => False
  end.
Proof.
  destruct (run_heartbeats_total interval l w) as (ws & w' & -> & H1 & H2 & H3). auto.
Qed.

End handler.

Section witnesses.
#[local] Existing Instance demoEnv.

Definition demo_handler : Handler := MkHandler (Some "ca") true (5 * Second).
Definition demo_db_agents : Db :=
  empty_db <| d_servers := [
    demo_server "s1" "web" <| s_RegistrationToken := Some "htok" |> <| s_TokenExpiresAt := Some "2000" |>;
    demo_server "s2" "db" <| s_Status := "online" |>;
    demo_server "s3" "cache" <| s_Status := "online" |>] |>.
Definition demo_agents : World :=
  demo_world demo_db_agents
    <| w_conns := <["s2" := MkAgentConn "s2" 7 (990 * NS)]> (<["s3" := MkAgentConn "s3" 8 (900 * NS)]> ∅) |>.
Definition demo_stream (n : nat) (cn : string) : stream := MkStream n (Some (MkPeer "10.0.0.9" (Some cn))).

Lemma registration_spec_witness :
  match handleRegister demo_handler "tok" "host" "10.0.0.9" "linux" "1.2" "csr:key" demo_agents with
  | (Ok (id, cert, _), w') => id = "s1" ∧ cert = "cert:s1:key" ∧
      is_ok (handleRegister demo_handler "tok" "other" "" "linux" "1.2" "csr:key2" w').1 = false
  | (Err _, _) => False
  end.
Proof.
  assert (H := registration_spec demo_handler "tok" "host" "10.0.0.9" "linux" "1.2" "csr:key"
                 demo_agents ltac:(vm_compute; reflexivity)).
  destruct (handleRegister demo_handler "tok" "host" "10.0.0.9" "linux" "1.2" "csr:key" demo_agents)
    as [[[[id c] ca]|e] w'] eqn:E; [|by vm_compute in E].
  destruct H as (_ & _ & _ & H). split; [|split; [|apply H]]; vm_compute in E; congruence.
Defined.

Lemma sweep_reconciles_witness :
  let '(r, w') := sweepStaleConnections demo_agents in
  r = Ok tt ∧ is_Some (w_conns w' !! "s2") ∧
  ∀ s, s ∈ d_servers (w_db w') → s_Status s = "online" → is_Some (w_conns w' !! s_ID s).
Proof.
  assert (H := sweep_reconciles demo_agents eq_refl ltac:(vm_compute; reflexivity)).
  destruct (sweepStaleConnections demo_agents) as [r w'].
  destruct H as (-> & Hc & Ho & _). repeat split; [|exact Ho].
  exists (MkAgentConn "s2" 7 (990 * NS)). apply Hc. split; [by vm_compute|by vm_compute].
Defined.

Lemma old_stream_end_ignored_witness :
  match accept demo_handler (demo_stream 9 "s2") (Ok (Heartbeat "s2" "")) demo_agents with
  | (Ok (Some "s2"), w') => onAgentDisconnected demo_handler "s2" (demo_stream 7 "s2") w' = (Ok tt, w')
  | _ => False
  end.
Proof.
  destruct (accept demo_handler (demo_stream 9 "s2") (Ok (Heartbeat "s2" "")) demo_agents)
    as [r w'] eqn:E.
  assert (r = Ok (Some "s2")) as -> by (vm_compute in E; congruence).
  by apply (old_stream_end_ignored demo_handler (demo_stream 7 "s2") (demo_stream 9 "s2")
         (Ok (Heartbeat "s2" "")) "s2" demo_agents w').
Defined.

Lemma heartbeats_coalesced_witness :
  match run_heartbeats 5 [(1, "s1"); (3, "s1"); (4, "s2"); (7, "s1")] demo_agents with
  | (Ok ws, _) => ws = [(1, "s1"); (4, "s2"); (7, "s1")] ∧
      (∀ id, Sorted (λ t t', t + 5 <= t') (write_times id ws))
  | _ => False
  end.
Proof.
  assert (H := heartbeats_coalesced 5 [(1, "s1"); (3, "s1"); (4, "s2"); (7, "s1")] demo_agents
                 ltac:(lia)).
  destruct (run_heartbeats _ _ _) as [[ws|e] w'] eqn:E; [|done].
  destruct H as [H _]. split; [|exact H]. vm_compute in E. congruence.
Defined.

End witnesses.
