(* ===== verification/Http.v ===== *)
(** * Requests and the middleware of the hub's API (hub/internal/server/middleware.go, cookies.go,
    csrf.go).

    A handler maps a request and the values its context carries to a response, in the store's
    monad; the middleware wraps handlers as the routes do.  Logging, CORS and the constant headers
    are left out. *)

From S2P Require Import Prelude GoStr GoTime Model Db Demo StoreUsers StoreTokens Auth.

(** ** Requests and responses *)

(** [PathValue], [r.URL.Query().Get], [r.Header.Get] and the value of [r.Cookie]; a parameter that
    is absent reads as empty. *)
Record Request := MkRequest {
  r_Method : string;
  r_Path : string;
  r_Host : string;
  r_RemoteAddr : string;
  r_TLS : bool;
  PathValue : string → string;
  Query : string → string;
  header : string → string;
  cookie : string → option string
}.

(** [ctxUserID], [ctxUserRole], [ctxTokenType], [ctxRequestID]; absent values read as empty. *)
Record Ctx := MkCtx { UserIDFromContext : string; UserRoleFromContext : string;
                      TokenTypeFromContext : string; RequestIDFromContext : string }.

(** [respondError(w, status, msg)] or a successful response with its payload. *)
Inductive response (A : Type) : Type :=
  | RespondError (status : Z) (msg : string)
  | RespondJSON (status : Z) (payload : A).
Arguments RespondError {A} _ _.
Arguments RespondJSON {A} _ _.

Definition StatusUnauthorized : Z := 401.
Definition StatusForbidden : Z := 403.

Definition HandlerFunc (A : Type) : Type := Request → Ctx → M (response A).

(** respond.go: the [limit] and [offset] parameters, with a default and caps. *)
Definition parsePagination (r : Request) (defaultLimit : Z) : Z * Z :=
  let limit := match Atoi (Query r "limit") with
               | Some n => if (0 <? n) && (n <=? 100) then n else defaultLimit
               | None => defaultLimit
               end in
  let offset := match Atoi (Query r "offset") with
                | Some n => if 0 <=? n then n else 0
                | None => 0
                end in
  (limit, offset).

(** A parameter that is absent or empty is no filter. *)
Definition param (r : Request) (key : string) : option string :=
  if String.eqb (Query r key) "" then None else Some (Query r key).

(** ** cookies.go *)

Definition cookieAccess : string := "veyport_access".
Definition cookieRefresh : string := "veyport_refresh".
Definition cookieCSRF : string := "veyport_csrf".
Definition bearerPrefix : string := "Bearer ".

Definition readAccessToken (r : Request) : string :=
  let bearer :=
    let auth := header r "Authorization" in
    if HasPrefix auth bearerPrefix then TrimPrefix auth bearerPrefix else "" in
  match cookie r cookieAccess with
  | Some v => if String.eqb v "" then bearer else v
  | None => bearer
  end.

Definition readCSRFToken (r : Request) : string := header r "X-CSRF-Token".
Definition readCSRFCookie (r : Request) : string := default "" (cookie r cookieCSRF).
Definition isUsingBearerAuth (r : Request) : bool := HasPrefix (header r "Authorization") bearerPrefix.

(** [generateCSRFToken]: [None] when the random source fails, a panic. *)
Definition generateCSRFToken `{Env} : M (option string) :=
  draw (λ i, match rand_hex i 32 with Ok s => Some s | Err _ => None end).

(** A cookie set on the response: name, value, path, [MaxAge], [HttpOnly]; all are [Secure] and
    [SameSite=Strict]. *)
Record SetCookie := MkSetCookie { ck_name : string; ck_value : string; ck_path : string;
                                  ck_maxAge : Z; ck_httpOnly : bool }.

Definition refreshPath : string := "/api/auth/refresh".

Definition setAuthCookies (accessToken refreshToken csrfToken : string) : list SetCookie :=
  [ MkSetCookie cookieAccess accessToken "/" 900 true;
    MkSetCookie cookieRefresh refreshToken refreshPath 604800 true;
    MkSetCookie cookieCSRF csrfToken "/" 604800 false ].

Definition clearAuthCookies : list SetCookie :=
  map (λ n, MkSetCookie n "" "/" (-1) false) [cookieAccess; "aerodocs_access"] ++
  map (λ n, MkSetCookie n "" refreshPath (-1) false) [cookieRefresh; "aerodocs_refresh"] ++
  map (λ n, MkSetCookie n "" "/" (-1) false) [cookieCSRF; "aerodocs_csrf"].

(** ** csrf.go *)

Definition csrfExemptPaths : list string :=
  ["/api/auth/login"; "/api/auth/register"; "/api/auth/refresh"; "/api/auth/logout";
   "/api/auth/login/totp"].

Definition isMutationMethod (method : string) : bool :=
  negb (String.eqb method "GET") && negb (String.eqb method "HEAD") &&
  negb (String.eqb method "OPTIONS").

Definition isCSRFExemptPath (path : string) : bool := existsb (String.eqb path) csrfExemptPaths.

Definition csrfTokensMatch (r : Request) : bool :=
  let cookie := readCSRFCookie r in
  let header := readCSRFToken r in
  negb (String.eqb cookie "") && negb (String.eqb header "") && String.eqb cookie header.

(** [strings.LastIndexByte] and [strings.IndexByte]. *)
Fixpoint index_byte (c : ascii) (s : string) : option nat :=
  match s with
  | EmptyString => None
  | String a s' => if Ascii.eqb a c then Some 0%nat else S <$> index_byte c s'
  end.
Fixpoint last_index_byte (c : ascii) (s : string) : option nat :=
  match s with
  | EmptyString => None
  | String a s' =>
      match last_index_byte c s' with
      | Some i => Some (S i)
      | None => if Ascii.eqb a c then Some 0%nat else None
      end
  end.
Definition has_byte (c : ascii) (s : string) : bool := bool_decide (is_Some (index_byte c s)).

(** net.SplitHostPort; [None] is an error. *)
Definition SplitHostPort (hostport : string) : option (string * string) :=
  match last_index_byte ":" hostport with
  | None => None
  | Some i =>
      let port := drop_str (S i) hostport in
      if HasPrefix hostport "[" then
        match index_byte "]" hostport with
        | None => None
        | Some e =>
            if (S e =? i)%nat then
              if has_byte "[" (drop_str 1 hostport) || has_byte "]" (drop_str (S e) hostport) then None
              else Some (String.substring 1 (e - 1) hostport, port)
            else None
        end
      else
        let host := String.substring 0 i hostport in
        if has_byte ":" host || has_byte "[" hostport || has_byte "]" hostport then None
        else Some (host, port)
  end.

(** net.JoinHostPort *)
Definition JoinHostPort (host port : string) : string :=
  if has_byte ":" host then "[" +:+ host +:+ "]:" +:+ port else host +:+ ":" +:+ port.

Definition normalizedOriginAuthority (hostport scheme : string) : string :=
  let '(host, port) := default (hostport, "") (SplitHostPort hostport) in
  let port := if String.eqb port "" then if String.eqb scheme "https" then "443" else "80" else port in
  JoinHostPort host port.

(** net.ParseIP(host).IsLoopback() and url.Parse, its scheme and host. *)
Class NetEnv := {
  loopback_ip : string → bool;
  url_parse : string → option (string * string)
}.

Section csrf.
Context `{NetEnv}.

Definition isLoopbackHost (hostport : string) : bool :=
  let host := match SplitHostPort hostport with Some (h, _) => h | None => hostport end in
  String.eqb host "localhost" || loopback_ip host.

Definition requestScheme (isDev : bool) (r : Request) : string :=
  if r_TLS r then "https" else
  if isLoopbackHost (r_Host r) then "http" else
  if negb isDev then "https" else "http".

Definition isValidOrigin (r : Request) (origin scheme : string) : bool :=
  match url_parse origin with
  | None => false
  | Some (uscheme, uhost) =>
      if negb (String.eqb uscheme scheme) then false
      else String.eqb (normalizedOriginAuthority uhost uscheme)
                      (normalizedOriginAuthority (r_Host r) scheme)
  end.

Definition csrfMiddleware {A : Type} (isDev : bool) (next : HandlerFunc A) : HandlerFunc A := λ r ctx,
  if negb (isMutationMethod (r_Method r)) || isUsingBearerAuth r || isCSRFExemptPath (r_Path r)
  then next r ctx else
  let origin := header r "Origin" in
  if negb (String.eqb origin "") && negb (isValidOrigin r origin (requestScheme isDev r))
  then ret (RespondError StatusForbidden "origin not allowed") else
  if String.eqb (readCSRFCookie r) "" && String.eqb (readAccessToken r) "" then next r ctx else
  if negb (csrfTokensMatch r) then ret (RespondError StatusForbidden "CSRF validation failed")
  else next r ctx.

End csrf.

(** ** middleware.go *)

Section middleware.
Context `{E : Env}.

(** (user ID, role, token type) *)
Definition authenticateRequestToken (secret tokenStr : string) : M (string * string * string) :=
  let* r := try (ValidateToken secret tokenStr) in
  match r with
  | Ok claims =>
      let* revoked := if String.eqb (c_ID claims) "" then ret false
                      else IsBlacklisted (c_ID claims) in
      if (revoked : bool) then fail "token has been revoked" else
      let* _ := if String.eqb (c_TokenType claims) TokenTypeAccess then
                  let* user := try (GetUserByID (c_Subject claims)) in
                  match user with
                  | Ok u => if c_TokenGeneration claims =? u_TokenGeneration u then ret tt
                            else fail "token has been revoked"
                  | Err _ => fail "token has been revoked"
                  end
                else ret tt in
      ret (c_Subject claims, c_Role claims, c_TokenType claims)
  | Err e =>
      if negb (LooksLikeAPIToken tokenStr) then fail e else
      let* apiToken := GetActiveAPITokenByHash (HashAPIToken tokenStr) in
      let* user := GetUserByID (tk_UserID apiToken) in
      let* now := get_now in
      let* _ := ignore (UpdateAPITokenLastUsed (tk_ID apiToken) now) in
      ret (u_ID user, u_Role user, TokenTypeAPIToken)
  end.

Definition isAllowedTokenType (requiredType tokenType : string) : bool :=
  if String.eqb requiredType TokenTypeAccess && String.eqb tokenType TokenTypeAPIToken then true
  else String.eqb requiredType tokenType.

Definition authMiddleware {A : Type} (secret requiredType : string) (next : HandlerFunc A)
  : HandlerFunc A := λ r ctx,
  let tokenStr := readAccessToken r in
  if String.eqb tokenStr "" then ret (RespondError StatusUnauthorized "missing authorization token") else
  let* auth := try (authenticateRequestToken secret tokenStr) in
  match auth with
  | Err _ => ret (RespondError StatusUnauthorized "invalid token")
  | Ok (userID, role, tokenType) =>
      if negb (isAllowedTokenType requiredType tokenType)
      then ret (RespondError StatusForbidden "invalid token type for this endpoint")
      else next r (MkCtx userID role tokenType (RequestIDFromContext ctx))
  end.

Definition interactiveOnly {A : Type} (next : HandlerFunc A) : HandlerFunc A := λ r ctx,
  if negb (String.eqb (TokenTypeFromContext ctx) TokenTypeAccess)
  then ret (RespondError StatusForbidden "interactive login required") else next r ctx.

Definition adminOnly {A : Type} (next : HandlerFunc A) : HandlerFunc A := λ r ctx,
  if negb (String.eqb (UserRoleFromContext ctx) RoleAdmin)
  then ret (RespondError StatusForbidden "admin access required") else next r ctx.

Definition auditAccessOnly {A : Type} (next : HandlerFunc A) : HandlerFunc A := λ r ctx,
  let role := UserRoleFromContext ctx in
  if negb (String.eqb role RoleAdmin) && negb (String.eqb role RoleAuditor)
  then ret (RespondError StatusForbidden "audit access required") else next r ctx.

Definition terminalAccessOnly {A : Type} (next : HandlerFunc A) : HandlerFunc A := λ r ctx,
  let* user := try (GetUserByID (UserIDFromContext ctx)) in
  match user with
  | Err _ => ret (RespondError StatusForbidden "terminal access required")
  | Ok u =>
      if String.eqb (u_Role u) RoleAdmin ||
         (String.eqb (u_AuthProvider u) AuthProviderLDAP && u_TerminalAccess u)
      then next r ctx
      else ret (RespondError StatusForbidden "terminal access required")
  end.

(** [requestIDMiddleware]: the request ID it sets. *)
Definition isValidRequestID (id : string) : bool :=
  if String.eqb id "" || (128 <? String.length id)%nat then false else
  all_bytes (λ c, is_lower c || is_upper c || is_digit c || Ascii.eqb c "-" || Ascii.eqb c "_") id.

Definition request_id (r : Request) : M string :=
  let requestID := header r "X-Request-ID" in
  if negb (isValidRequestID requestID) then NewString else ret requestID.

Definition clientIP (r : Request) : string :=
  match SplitHostPort (r_RemoteAddr r) with Some (ip, _) => ip | None => r_RemoteAddr r end.

End middleware.

(** ** Lemmas *)

(** What authentication may change: the faults left, cached revocations, and the times of use of
    API tokens. *)
Definition credential (t : APIToken) : string * string * string * option Z * option Z :=
  (tk_ID t, tk_UserID t, tk_TokenHash t, tk_ExpiresAt t, tk_RevokedAt t).
Definition touched (w w' : World) : Prop := ∃ fs bl tokens,
  w' = w <| w_faults := fs |> <| w_blacklist := bl |> <| w_db := w_db w <| d_api_tokens := tokens |> |> ∧
  map credential tokens = map credential (d_api_tokens (w_db w)).

Lemma touched_refl (w : World) : touched w w.
Proof. exists (w_faults w), (w_blacklist w), (d_api_tokens (w_db w)). split; [|done]. by destruct w as [[]]. Qed.

Lemma touched_faults (w : World) (fs : list (option string)) : touched w (w <| w_faults := fs |>).
Proof. exists fs, (w_blacklist w), (d_api_tokens (w_db w)). split; [|done]. by destruct w as [[]]. Qed.

Lemma touched_trans (w w' w'' : World) : touched w w' → touched w' w'' → touched w w''.
Proof.
  intros (fs & bl & tk & -> & H) (fs' & bl' & tk' & -> & H'). exists fs', bl', tk'. simpl in *.
  split; [done|congruence].
Qed.
#[export] Hint Resolve touched_refl touched_faults : veyport.

(** The token [tokenStr] proves the user ID, role and token type of [ctx] against the tables and the
    clock of [w]. *)
Inductive identity `{Env} (secret tokenStr : string) (w : World) : Ctx → Prop :=
  | Id_session claims rid :
      jwt_parse (w_now w) secret tokenStr = Ok claims →
      (c_ID claims ≠ "" → w_blacklist w !! c_ID claims = None) →
      (c_TokenType claims = TokenTypeAccess → ∃ u, u ∈ d_users (w_db w) ∧
         u_ID u = c_Subject claims ∧ u_TokenGeneration u = c_TokenGeneration claims) →
      identity secret tokenStr w (MkCtx (c_Subject claims) (c_Role claims) (c_TokenType claims) rid)
  | Id_api_token t u rid :
      is_ok (jwt_parse (w_now w) secret tokenStr) = false →
      t ∈ d_api_tokens (w_db w) → token_active (HashAPIToken tokenStr) (w_now w) t = true →
      u ∈ d_users (w_db w) → u_ID u = tk_UserID t →
      identity secret tokenStr w (MkCtx (u_ID u) (u_Role u) TokenTypeAPIToken rid).

Section gate_lemmas.
Context `{E : Env}.

Lemma GetUserByID_found (id : string) (Q : result User → World → Prop) (w : World) :
  (∀ e fs, Q (Err e) (w <| w_faults := fs |>)) →
  (∀ u fs, u ∈ d_users (w_db w) → u_ID u = id → Q (Ok u) (w <| w_faults := fs |>)) →
  wp (GetUserByID id) Q w.
Proof.
  intros H1 H2. apply scanUser_wp; [done|]. intros fs u Hf. apply elem_of_find in Hf as [Hin Hid].
  apply String.eqb_eq in Hid. by apply H2.
Qed.

Lemma IsBlacklisted_wp (jti : string) (Q : result bool → World → Prop) (w : World) :
  (∀ w', touched w w' → Q (Ok true) w') →
  (w_blacklist w !! jti = None → ∀ fs, Q (Ok false) (w <| w_faults := fs |>)) →
  wp (IsBlacklisted jti) Q w.
Proof.
  intros H1 H2. unfold wp, IsBlacklisted. case_bool_decide as Hb; [by apply H1, touched_refl|].
  apply eq_None_not_Some in Hb. specialize (H2 Hb).
  match goal with |- Q (?m w).1 _ => change (wp m Q w) end.
  do 3 wp_step; [apply H2|]. simpl. destruct (d_token_blacklist (w_db w) !! jti) as [t|]; [|apply H2].
  destruct (_ <? t)%Z; [|apply H2]. simpl. do 3 wp_step; [wp_step; apply H1, (touched_faults w)|]. simpl.
  destruct (d_token_blacklist (w_db w) !! jti) as [t'|]; [|wp_step; apply H1, (touched_faults w)].
  apply H1. exists faults0, (<[jti := t']> (w_blacklist w)), (d_api_tokens (w_db w)).
  split; [|done]. by destruct w as [[]].
Qed.

Lemma revoked_wp (jti : string) (Q : result bool → World → Prop) (w : World) :
  (∀ w', touched w w' → Q (Ok true) w') →
  ((jti ≠ "" → w_blacklist w !! jti = None) → ∀ fs, Q (Ok false) (w <| w_faults := fs |>)) →
  wp (if String.eqb jti "" then ret false else IsBlacklisted jti) Q w.
Proof.
  intros H1 H2. destruct (String.eqb_spec jti "") as [->|Hne].
  - assert (H := H2 ltac:(done) (w_faults w)). apply wp_ret. by destruct w.
  - apply IsBlacklisted_wp; [done|]. auto.
Qed.

Lemma UpdateAPITokenLastUsed_touches (id : string) (t : Z) (Q : result unit → World → Prop) (w : World) :
  (∀ r w', touched w w' → Q r w') → wp (UpdateAPITokenLastUsed id t) Q w.
Proof.
  intros HQ. unfold UpdateAPITokenLastUsed. do 3 wp_step; [apply HQ, (touched_faults w)|].
  wp_step. apply HQ. do 3 eexists. split; [reflexivity|]. apply map_update_rows. done.
Qed.

Lemma authenticate_wp (secret tokenStr : string) (Q : result (string * string * string) → World → Prop)
    (w : World) :
  (∀ e w', touched w w' → Q (Err e) w') →
  (∀ uid role ty w', touched w w' → (∀ rid, identity secret tokenStr w (MkCtx uid role ty rid)) →
     Q (Ok (uid, role, ty)) w') →
  wp (authenticateRequestToken secret tokenStr) Q w.
Proof.
  intros H1 H2. unfold authenticateRequestToken. do 2 wp_step. unfold wp at 1, ValidateToken.
  destruct (jwt_parse (w_now w) secret tokenStr) as [claims|e] eqn:Hj; simpl.
  - wp_step. apply revoked_wp; [intros w' Hw; wp_step; by apply H1|]. intros Hnb fs.
    wp_step. destruct (String.eqb_spec (c_TokenType claims) TokenTypeAccess) as [Hty|Hty].
    + do 2 wp_step. apply GetUserByID_found.
      { intros e fs'. apply wp_fail, H1, (touched_faults w). }
      intros u fs' Hin Hid. destruct (Z.eqb_spec (c_TokenGeneration claims) (u_TokenGeneration u));
        [|apply wp_fail, H1, (touched_faults w)].
      do 2 wp_step. apply H2; [apply (touched_faults w)|]. intros rid. apply Id_session; eauto.
    + do 2 wp_step. apply H2; [apply touched_faults|]. intros rid. by apply Id_session.
  - destruct (negb (LooksLikeAPIToken tokenStr)); [by apply wp_fail, H1, touched_refl|].
    wp_step. unfold GetActiveAPITokenByHash. do 3 wp_step; [apply H1, touched_faults|]. simpl.
    destruct (List.find _ _) as [t|] eqn:Hf; [|apply wp_fail, H1, (touched_faults w)].
    apply elem_of_find in Hf as [Hin Hact]. do 2 wp_step.
    apply GetUserByID_found; [intros; apply H1, (touched_faults w)|]. intros u fs' Hu Hid.
    do 4 wp_step. apply UpdateAPITokenLastUsed_touches. intros r w' Hw. wp_step. apply H2.
    + eapply touched_trans; [|exact Hw]. apply (touched_faults w).
    + intros rid. eapply Id_api_token; [by rewrite Hj|exact Hin|exact Hact|exact Hu|exact Hid].
Qed.

Lemma authMiddleware_split {A : Type} (secret requiredType : string) (next : HandlerFunc A)
    (r : Request) (ctx0 : Ctx) (w : World) :
  (∃ st msg w', authMiddleware secret requiredType next r ctx0 w = (Ok (RespondError st msg), w') ∧
     (st = StatusUnauthorized ∨ st = StatusForbidden) ∧ touched w w') ∨
  (∃ ctx w', authMiddleware secret requiredType next r ctx0 w = next r ctx w' ∧ touched w w' ∧
     identity secret (readAccessToken r) w ctx ∧
     isAllowedTokenType requiredType (TokenTypeFromContext ctx) = true).
Proof.
  unfold authMiddleware. destruct (String.eqb (readAccessToken r) "").
  { left. do 3 eexists. split; [done|]. split; [by left|apply touched_refl]. }
  unfold bind, try. pose proof (authenticate_wp secret (readAccessToken r) (λ res w',
    touched w w' ∧ match res with Ok (uid, role, ty) => ∀ rid, identity secret (readAccessToken r) w (MkCtx uid role ty rid)
                                | Err _ => True end) w) as H.
  unfold wp in H. destruct (authenticateRequestToken _ _ w) as [[[[uid role] ty]|e] w']; simpl in H.
  - destruct H as [Ht Hid]; [done|done|]. destruct (isAllowedTokenType requiredType ty) eqn:Hty; simpl.
    + right. do 2 eexists. eauto.
    + left. do 3 eexists. split; [done|]. split; [by right|done].
  - destruct H as [Ht _]; [done|done|]. left. do 3 eexists. split; [done|]. split; [by left|done].
Qed.

Lemma allowed_access (ty : string) :
  isAllowedTokenType TokenTypeAccess ty = true → ty ∈ [TokenTypeAccess; TokenTypeAPIToken].
Proof.
  unfold isAllowedTokenType. destruct (String.eqb_spec ty TokenTypeAPIToken) as [->|]; [by right; left|].
  rewrite andb_false_r. intros <-%String.eqb_eq. by left.
Qed.

Lemma touched_users (w w' : World) :
  touched w w' → d_users (w_db w') = d_users (w_db w) ∧ w_now w' = w_now w.
Proof. by intros (fs & bl & tk & -> & _). Qed.
End gate_lemmas.

(** ** What the gates guarantee *)

(** The request was refused with [401] or [403], and nothing but the reads of the check happened. *)
Definition refused {A : Type} (w : World) (res : result (response A) * World) : Prop :=
  ∃ st msg, res.1 = Ok (RespondError st msg) ∧ (st = StatusUnauthorized ∨ st = StatusForbidden) ∧
    touched w res.2.

(** An administrative route runs its handler only for a proven administrator: the access token
    of the request is a session that is signed, unexpired, not revoked, of an existing user whose
    token generation it carries, and names the role admin; or an active API token of a user who is
    an administrator now.  Every other request is refused and changes nothing but the time an API
    token was last used. *)
Theorem admin_route_gate `{E : Env} {A : Type} (secret : string) (next : HandlerFunc A) (r : Request)
    (ctx0 : Ctx) (w : World) :
  let res := authMiddleware secret TokenTypeAccess (adminOnly next) r ctx0 w in
  refused w res ∨
  ∃ ctx w', res = next r ctx w' ∧ touched w w' ∧ identity secret (readAccessToken r) w ctx ∧
    UserRoleFromContext ctx = RoleAdmin ∧ TokenTypeFromContext ctx ∈ [TokenTypeAccess; TokenTypeAPIToken].
Proof.
  simpl. destruct (authMiddleware_split secret TokenTypeAccess (adminOnly next) r ctx0 w)
    as [(st & msg & w' & -> & Hst & Ht)|(ctx & w' & -> & Ht & Hid & Hty)].
  { left. by exists st, msg. }
  unfold adminOnly. destruct (String.eqb_spec (UserRoleFromContext ctx) RoleAdmin) as [Hr|Hr]; simpl.
  - right. exists ctx, w'. repeat split; try done.
    by apply allowed_access in Hty.
  - left. do 2 eexists. split; [done|]. split; [by right|done].
Qed.

(** A terminal route runs its handler only in an interactive session of a user who has terminal
    access in the tables at that moment: an administrator, or a directory user with the terminal
    permission.  API tokens and the role in the session's token are not enough. *)
Theorem terminal_route_gate `{E : Env} {A : Type} (secret : string) (next : HandlerFunc A)
    (r : Request) (ctx0 : Ctx) (w : World) :
  let res := authMiddleware secret TokenTypeAccess (interactiveOnly (terminalAccessOnly next))
               r ctx0 w in
  refused w res ∨
  ∃ ctx w' u, res = next r ctx w' ∧ touched w w' ∧ identity secret (readAccessToken r) w ctx ∧
    TokenTypeFromContext ctx = TokenTypeAccess ∧
    u ∈ d_users (w_db w) ∧ u_ID u = UserIDFromContext ctx ∧
    (u_Role u = RoleAdmin ∨ u_AuthProvider u = AuthProviderLDAP ∧ u_TerminalAccess u = true).
Proof.
  simpl. destruct (authMiddleware_split secret TokenTypeAccess (interactiveOnly (terminalAccessOnly next))
      r ctx0 w) as [(st & msg & w' & -> & Hst & Ht)|(ctx & w' & -> & Ht & Hid & Hty)].
  { left. by exists st, msg. }
  destruct (touched_users w w' Ht) as [Hus _]. unfold interactiveOnly.
  destruct (String.eqb_spec (TokenTypeFromContext ctx) TokenTypeAccess) as [Hi|Hi]; simpl;
    [|left; do 2 eexists; split; [done|]; split; [by right|done]].
  unfold terminalAccessOnly, bind, try.
  assert (H : wp (GetUserByID (UserIDFromContext ctx)) (λ res w'', touched w' w'' ∧ match res with
    | Ok u => u ∈ d_users (w_db w') ∧ u_ID u = UserIDFromContext ctx | Err _ => True end) w').
  { apply GetUserByID_found; intros; (split; [apply touched_faults|done]). }
  unfold wp in H. destruct (GetUserByID _ w') as [[u|e] w'']; simpl in *; destruct H as [Ht' Hu].
  - destruct (_ || _) eqn:Ho.
    + right. exists ctx, w'', u. rewrite Hus in Hu. destruct Hu. repeat split; try done.
      { by eapply touched_trans. }
      apply orb_true_iff in Ho as [Ho|Ho]; bool_hyps; auto.
    + left. do 2 eexists. split; [done|]. split; [by right|]. by eapply touched_trans.
  - left. do 2 eexists. split; [done|]. split; [by right|]. by eapply touched_trans.
Qed.

(** Neither cookie proves anything about the browser's user. *)
Definition csrf_proof (r : Request) : Prop :=
  ∃ t, t ≠ "" ∧ cookie r cookieCSRF = Some t ∧ header r "X-CSRF-Token" = t.

Lemma csrfTokensMatch_iff (r : Request) : csrfTokensMatch r = true ↔ csrf_proof r.
Proof.
  unfold csrfTokensMatch, csrf_proof, readCSRFCookie, readCSRFToken.
  rewrite !andb_true_iff, !negb_true_iff, !String.eqb_neq, String.eqb_eq. split.
  - intros [[H1 H2] H3]. destruct (cookie r cookieCSRF) as [t|]; simpl in *; [|done].
    exists t. auto.
  - intros (t & Ht & -> & ->). auto.
Qed.

(** A state-changing request that relies on a cookie session (no bearer header, not one of the
    sign-in paths) reaches its handler only from the hub's own origin, when it names one, and with
    the CSRF cookie repeated in the header; otherwise it is refused with [403] and changes
    nothing. *)
Theorem csrf_cookie_requests `{NetEnv} {A : Type} (isDev : bool) (next : HandlerFunc A) (r : Request)
    (ctx : Ctx) (w : World)
    (Hm : isMutationMethod (r_Method r) = true) (Hp : isCSRFExemptPath (r_Path r) = false)
    (Hb : isUsingBearerAuth r = false) (Hs : readAccessToken r ≠ "" ∨ readCSRFCookie r ≠ "") :
  (csrfMiddleware isDev next r ctx w = next r ctx w ∧ csrf_proof r ∧
     (header r "Origin" = "" ∨ isValidOrigin r (header r "Origin") (requestScheme isDev r) = true)) ∨
  ((¬ csrf_proof r ∨ isValidOrigin r (header r "Origin") (requestScheme isDev r) = false) ∧
     ∃ msg, csrfMiddleware isDev next r ctx w = (Ok (RespondError StatusForbidden msg), w)).
Proof.
  unfold csrfMiddleware. rewrite Hm, Hp, Hb. simpl negb. cbn [orb].
  destruct (String.eqb_spec (header r "Origin") "") as [Ho|Ho]; cbn [negb andb].
  - replace (String.eqb (readCSRFCookie r) "" && _) with false.
    2:{ symmetry. apply andb_false_iff. rewrite !String.eqb_neq. tauto. }
    rewrite <- csrfTokensMatch_iff. destruct (csrfTokensMatch r); simpl; [left; auto|right].
    split; [by left|by eexists].
  - destruct (isValidOrigin _ _ _) eqn:Hv; cbn [negb]; [|right; split; [by right|by eexists]].
    replace (String.eqb (readCSRFCookie r) "" && _) with false.
    2:{ symmetry. apply andb_false_iff. rewrite !String.eqb_neq. tauto. }
    rewrite <- csrfTokensMatch_iff. destruct (csrfTokensMatch r); simpl; [left; auto|right].
    split; [by left|by eexists].
Qed.

(** The exemption of bearer requests looks at the header only: with a cookie as well, the request is
    the cookie's session and needs no CSRF token. *)
Lemma csrf_bearer_exemption `{NetEnv} {A : Type} (isDev : bool) (next : HandlerFunc A) (r : Request)
    (ctx : Ctx) (w : World) (session : string) :
  session ≠ "" → cookie r cookieAccess = Some session → isUsingBearerAuth r = true →
  readAccessToken r = session ∧ csrfMiddleware isDev next r ctx w = next r ctx w.
Proof.
  intros Hs Hc Hb. unfold readAccessToken, csrfMiddleware. rewrite Hc, Hb, orb_true_r.
  split; [|done]. by destruct (String.eqb_spec session "").
Qed.

Section witnesses.
#[local] Existing Instance demoEnv.
Definition demo_net : NetEnv := {| loopback_ip := String.eqb "127.0.0.1";
  url_parse := λ s, if HasPrefix s "https://" then Some ("https", TrimPrefix s "https://") else None |}.
#[local] Existing Instance demo_net.

Definition demo_request (csrf : string) : Request :=
  MkRequest "POST" "/api/servers" "hub.example" "10.0.0.1:4242" false (λ _, "") (λ _, "")
    (λ h, if String.eqb h "Origin" then "https://hub.example:443"
          else if String.eqb h "X-CSRF-Token" then csrf else "")
    (λ c, if String.eqb c cookieAccess then Some "session"
          else if String.eqb c cookieCSRF then Some "secret" else None).
Definition demo_ctx : Ctx := MkCtx "u1" RoleViewer TokenTypeAccess "req-1".
Definition demo_next : HandlerFunc unit := λ _ _, ret (RespondJSON 200 tt).

Lemma csrf_cookie_requests_witness :
  csrfMiddleware false demo_next (demo_request "secret") demo_ctx (demo_world empty_db) =
    (Ok (RespondJSON 200 tt), demo_world empty_db) ∧
  ∃ msg, csrfMiddleware false demo_next (demo_request "guess") demo_ctx (demo_world empty_db) =
    (Ok (RespondError StatusForbidden msg), demo_world empty_db).
Proof.
  split.
  - destruct (csrf_cookie_requests false demo_next (demo_request "secret") demo_ctx
      (demo_world empty_db) eq_refl eq_refl eq_refl ltac:(by right)) as [[H _]|[[H|H] _]]; [exact H| |].
    + destruct H. by exists "secret".
    + by vm_compute in H.
  - destruct (csrf_cookie_requests false demo_next (demo_request "guess") demo_ctx
      (demo_world empty_db) eq_refl eq_refl eq_refl ltac:(by right)) as [(_ & (t & _ & H1 & H2) & _)|[_ H]].
    + simpl in H1, H2. congruence.
    + exact H.
Defined.
End witnesses.
