(* ===== verification/AuditCatalog.v ===== *)
(** * The catalogue of audited actions (hub/internal/model/audit_catalog.go, handleAuditCatalog of
    hub/internal/server/handlers_audit.go).

    The actions are written as the values of the constants of audit.go. *)

From S2P Require Import Prelude GoStr GoTime Model Db Demo StoreAudit Http.

Record AuditCatalogEntry := MkAuditCatalogEntry {
  ac_Action : string;
  ac_Label : string;
  ac_Category : string;
  ac_Outcome : string;
  ac_ActorType : string;
  ac_ResourceType : string
}.

Definition AuditCatalogLastUpdated : string := "2026-05-17T00:00:00Z".
Definition auditCategoryUserManagement : string := "User Management".
Definition auditCategoryAgentLifecycle : string := "Agent Lifecycle".
Definition auditCategoryFileAccess : string := "File Access".
Definition auditCategoryAuditGovernance : string := "Audit Governance".

Definition AuditCatalog : list AuditCatalogEntry :=
  [ MkAuditCatalogEntry "user.login" "User login" "Authentication" AuditOutcomeSuccess AuditActorTypeUser "user";
    MkAuditCatalogEntry "user.login_failed" "User login failed" "Authentication" AuditOutcomeFailure AuditActorTypeAnonymous "user";
    MkAuditCatalogEntry "user.login_totp_failed" "User TOTP failed" "Authentication" AuditOutcomeFailure AuditActorTypeUser "user";
    MkAuditCatalogEntry "user.registered" "Initial admin registered" "Authentication" AuditOutcomeSuccess AuditActorTypeAnonymous "user";
    MkAuditCatalogEntry "user.totp_setup" "TOTP setup started" "Authentication" AuditOutcomeSuccess AuditActorTypeUser "user";
    MkAuditCatalogEntry "user.totp_enabled" "TOTP enabled" "Authentication" AuditOutcomeSuccess AuditActorTypeUser "user";
    MkAuditCatalogEntry "user.totp_disabled" "TOTP disabled" "Authentication" AuditOutcomeSuccess AuditActorTypeUser "user";
    MkAuditCatalogEntry "user.created" "User created" auditCategoryUserManagement AuditOutcomeSuccess AuditActorTypeUser "user";
    MkAuditCatalogEntry "user.totp_reset" "TOTP reset" auditCategoryUserManagement AuditOutcomeSuccess AuditActorTypeSystem "user";
    MkAuditCatalogEntry "user.password_changed" "Password changed" "Authentication" AuditOutcomeSuccess AuditActorTypeUser "user";
    MkAuditCatalogEntry "user.password_reuse_rejected" "Password reuse rejected" "Authentication" AuditOutcomeFailure AuditActorTypeUser "user";
    MkAuditCatalogEntry "user.role_updated" "User role updated" auditCategoryUserManagement AuditOutcomeSuccess AuditActorTypeUser "user";
    MkAuditCatalogEntry "user.deleted" "User deleted" auditCategoryUserManagement AuditOutcomeSuccess AuditActorTypeUser "user";
    MkAuditCatalogEntry "server.created" "Server created" auditCategoryAgentLifecycle AuditOutcomeSuccess AuditActorTypeUser "server";
    MkAuditCatalogEntry "server.updated" "Server updated" auditCategoryAgentLifecycle AuditOutcomeSuccess AuditActorTypeUser "server";
    MkAuditCatalogEntry "server.deleted" "Server deleted" auditCategoryAgentLifecycle AuditOutcomeSuccess AuditActorTypeUser "server";
    MkAuditCatalogEntry "server.batch_deleted" "Servers batch deleted" auditCategoryAgentLifecycle AuditOutcomeSuccess AuditActorTypeUser "server";
    MkAuditCatalogEntry "server.registered" "Server registered" auditCategoryAgentLifecycle AuditOutcomeSuccess AuditActorTypeDevice "server";
    MkAuditCatalogEntry "server.registration_failed" "Server registration failed" auditCategoryAgentLifecycle AuditOutcomeFailure AuditActorTypeDevice "server";
    MkAuditCatalogEntry "server.connected" "Server connected" auditCategoryAgentLifecycle AuditOutcomeSuccess AuditActorTypeDevice "server";
    MkAuditCatalogEntry "server.disconnected" "Server disconnected" auditCategoryAgentLifecycle AuditOutcomeSuccess AuditActorTypeDevice "server";
    MkAuditCatalogEntry "server.unregistered" "Server unregistered" auditCategoryAgentLifecycle AuditOutcomeSuccess AuditActorTypeUser "server";
    MkAuditCatalogEntry "file.read" "File read" auditCategoryFileAccess AuditOutcomeSuccess AuditActorTypeUser "file";
    MkAuditCatalogEntry "file.uploaded" "File uploaded" auditCategoryFileAccess AuditOutcomeSuccess AuditActorTypeUser "file";
    MkAuditCatalogEntry "path.granted" "Path granted" auditCategoryFileAccess AuditOutcomeSuccess AuditActorTypeUser "path";
    MkAuditCatalogEntry "path.revoked" "Path revoked" auditCategoryFileAccess AuditOutcomeSuccess AuditActorTypeUser "path";
    MkAuditCatalogEntry "log.tail_started" "Log tail started" "Log Access" AuditOutcomeSuccess AuditActorTypeUser "log";
    MkAuditCatalogEntry "terminal.opened" "Terminal session opened" "Terminal Access" AuditOutcomeSuccess AuditActorTypeUser "terminal";
    MkAuditCatalogEntry "terminal.closed" "Terminal session closed" "Terminal Access" AuditOutcomeSuccess AuditActorTypeUser "terminal";
    MkAuditCatalogEntry "audit.exported" "Audit exported" auditCategoryAuditGovernance AuditOutcomeSuccess AuditActorTypeUser "audit";
    MkAuditCatalogEntry "audit.review_completed" "Audit review completed" auditCategoryAuditGovernance AuditOutcomeSuccess AuditActorTypeUser "audit";
    MkAuditCatalogEntry "audit.filter_saved" "Audit filter saved" auditCategoryAuditGovernance AuditOutcomeSuccess AuditActorTypeUser "audit";
    MkAuditCatalogEntry "audit.filter_deleted" "Audit filter deleted" auditCategoryAuditGovernance AuditOutcomeSuccess AuditActorTypeUser "audit";
    MkAuditCatalogEntry "audit.retention_updated" "Audit retention updated" auditCategoryAuditGovernance AuditOutcomeSuccess AuditActorTypeUser "audit";
    MkAuditCatalogEntry "audit.retention_executed" "Audit retention executed" auditCategoryAuditGovernance AuditOutcomeSuccess AuditActorTypeUser "audit";
    MkAuditCatalogEntry "audit.flag_created" "Audit flag created" auditCategoryAuditGovernance AuditOutcomeSuccess AuditActorTypeUser "audit";
    MkAuditCatalogEntry "api_token.created" "API token created" auditCategoryUserManagement AuditOutcomeSuccess AuditActorTypeSystem "api_token";
    MkAuditCatalogEntry "api_token.revoked" "API token revoked" auditCategoryUserManagement AuditOutcomeSuccess AuditActorTypeSystem "api_token" ].

Definition handleAuditCatalog : HandlerFunc (list AuditCatalogEntry * string) := λ _ _,
  ret (RespondJSON 200 (AuditCatalog, AuditCatalogLastUpdated)).

#[export] Instance AuditCatalogEntry_eq_dec : EqDecision AuditCatalogEntry.
Proof. solve_decision. Defined.

(** ** The catalogue and the log *)

Definition described (c : AuditCatalogEntry) (e : AuditEntry) : bool :=
  String.eqb (ae_Outcome e) (ac_Outcome c) &&
  bool_decide (ae_ResourceType e = Some (ac_ResourceType c)).

(** The entries a handler logs with their outcome, or their resource type, given. *)
Definition given (action : string) : bool :=
  String.eqb action "user.password_reuse_rejected" || HasPrefix action "api_token.".

Lemma normalize_open (e : AuditEntry) :
  ae_Outcome e = "" → ae_ResourceType e = None →
  ae_Outcome (normalize_fields e) =
    (if HasSuffix (ae_Action e) "_failed" then AuditOutcomeFailure else AuditOutcomeSuccess) ∧
  ae_ResourceType (normalize_fields e) = Some (deriveAuditResourceType (ae_Action e)).
Proof.
  intros Ho Hr. unfold normalize_fields. rewrite Ho. cbn [String.eqb].
  cbn [set_field ae_ActorType ae_ResourceType ae_Action]. destruct (String.eqb (ae_ActorType e) ""); cbn; by rewrite Hr.
Qed.

Definition zeroAudit (action : string) : AuditEntry :=
  MkAuditEntry "" None action None None None "" "" None None "" 0.

(** The catalogue tells what the log holds.  No action is in it twice; an entry whose outcome and
    resource type its handler leaves open is stored with those the catalogue gives for its action,
    if the action is not one that is logged with them given; the actions on terminals are the
    exception, stored as [system] where the catalogue says [terminal]. *)
Theorem catalog_describes_log :
  NoDup (map ac_Action AuditCatalog) ∧
  ∀ c e, c ∈ AuditCatalog → ae_Action e = ac_Action c → ae_Outcome e = "" → ae_ResourceType e = None →
    described c (normalize_fields e) = negb (given (ac_Action c) || HasPrefix (ac_Action c) "terminal.").
Proof.
  split.
  - apply (bool_decide_eq_true_1 (NoDup (map ac_Action AuditCatalog))). by vm_compute.
  - intros c e Hc Ha Ho Hr. destruct (normalize_open e Ho Hr) as [H1 H2]. unfold described. rewrite H1, H2, Ha.
    clear - Hc. revert c Hc. apply Forall_forall.
    repeat (apply Forall_cons_2; [vm_compute; reflexivity|]). apply Forall_nil_2.
Qed.

Lemma catalog_describes_log_witness :
  ae_ResourceType (normalize_fields (zeroAudit "file.read")) = Some "file" ∧
  ae_ResourceType (normalize_fields (zeroAudit "terminal.opened")) = Some "system".
Proof.
  destruct catalog_describes_log as [_ H]. split.
  - assert (Hd : described (MkAuditCatalogEntry "file.read" "File read" auditCategoryFileAccess AuditOutcomeSuccess
        AuditActorTypeUser "file") (normalize_fields (zeroAudit "file.read")) = true).
    { rewrite H; [by vm_compute| |done|done|done]. eapply (bool_decide_eq_true_1 (_ ∈ AuditCatalog)). by vm_compute. }
    apply andb_prop in Hd as [_ Hd]. by apply bool_decide_eq_true_1 in Hd.
  - by vm_compute.
Defined.
