(* ===== verification/Files.v ===== *)
(** * File, log and upload handlers of the hub (hub/internal/server/handlers_files.go,
    handlers_paths.go, handlers_logs.go, handlers_upload.go, handlers_unregister.go,
    agent_request.go, audit_helpers.go).

    A handler that waits takes what the rest of the hub does meanwhile as an argument: any function
    on the world.  JSON decoding is left out; a handler takes the decoded body, if there is one. *)

From S2P Require Import Prelude GoStr GoTime Model Proto Chan ConnMgr Db Demo StoreConfig.
From S2P Require Import StoreUsers StoreServers StoreAudit AgentHandler Http.
From S2P Require Pending LogSessions TerminalSessions.

Definition errAgentNotConnected : string := "agent not connected".
Definition errUnexpectedResponse : string := "unexpected response type".
Definition maxFileReadSize : Z := 1048576.
Definition maxFileViewSize : Z := 10485760.

Section files.
Context `{E : Env}.

(** ** audit_helpers.go *)

Definition auditLogRequest (ctx : Ctx) (entry : AuditEntry) : M unit :=
  let* entry := if String.eqb (ae_ID entry) ""
                then let* id := NewString in ret (entry <| ae_ID := id |>) else ret entry in
  let entry := match ae_CorrelationID entry with
               | Some _ => entry
               | None => if String.eqb (RequestIDFromContext ctx) "" then entry
                         else entry <| ae_CorrelationID := Some (RequestIDFromContext ctx) |>
               end in
  ignore (LogAudit entry).

(** An entry of the signed-in user, with [uuid.NewString()] as its ID. *)
Definition audit_user (ctx : Ctx) (action : string) (target detail ip : option string) : M unit :=
  let* id := NewString in
  auditLogRequest ctx
    (audit_entry action (Some (UserIDFromContext ctx)) target detail ip "" <| ae_ID := id |>).

(** ** Access to paths: handlers_files.go *)

Definition validateRequestPath (path : string) : result unit :=
  if negb (HasPrefix path "/") then Err "path must be absolute" else
  if Contains path ".." then Err "path traversal not allowed" else Ok tt.

Definition path_inside (allowed requested : string) : bool :=
  match Rel (Clean allowed) (Clean requested) with
  | Err _ => false
  | Ok rel => rel_inside rel
  end.

Definition isPathAllowed (userID serverID requestedPath : string) : M bool :=
  let* paths := GetUserPathsForServer userID serverID in
  ret (existsb (λ allowed, path_inside allowed requestedPath) paths).

(** [None] grants access; otherwise the response. *)
Definition checkFileAccess (ctx : Ctx) (serverID path : string) : M (option (Z * string)) :=
  match validateRequestPath path with
  | Err e => ret (Some (400, e))
  | Ok _ =>
      if String.eqb (UserRoleFromContext ctx) "admin" then ret None else
      let* allowed := try (isPathAllowed (UserIDFromContext ctx) serverID path) in
      match allowed with
      | Ok true => ret None
      | _ => ret (Some (403, "access denied"))
      end
  end.

(** ** agent_request.go *)

Definition SendToAgent (serverID : string) (msg : HubMessage) : M unit :=
  let* conn := get_conn serverID in
  match conn with
  | None => fail ("agent not connected: " +:+ serverID)
  | Some c => Send (MkStream (Stream c) None) msg
  end.

(** [requireAgent]: the agent of the server is connected. *)
Definition requireAgent (serverID : string) : M bool :=
  let* conn := get_conn serverID in ret (bool_decide (is_Some conn)).

(** A [select] on a channel and a timer: what happens until it wakes up, and whether the timer has
    fired and is the case it takes. *)
Record wait := MkWait { others : World → World; fires : bool }.

Definition pause (o : World → World) : M unit := λ w, (Ok tt, o w).
Definition pending_register (serverID requestID : string) : M nat :=
  on_pending (λ p, Ret (Pending.Register serverID requestID p)).
Definition pending_remove (serverID requestID : string) : M unit :=
  on_pending (λ p, Ret (tt, Pending.Remove serverID requestID p)).
Definition pending_await (ch : nat) : M (received Response) :=
  on_pending (λ p, Ret (Pending.Await ch p)).

(** [None] when the timer fires first. *)
Definition select_response (wt : wait) (ch : nat) : M (option Response) :=
  let* _ := pause (others wt) in
  if fires wt then ret None else
  let* r := pending_await ch in
  match r with Got resp => ret (Some resp) | _ => ret None end.

Inductive answer :=
  | Answer (raw : Response)
  | Refuse (status : Z) (msg : string).

Definition sendAgentRequestWithID (wt : wait) (serverID requestID : string)
    (buildMsg : string → HubMessage) : M answer :=
  let* ch := pending_register serverID requestID in
  deferred
    (let* sent := try (SendToAgent serverID (buildMsg requestID)) in
     match sent with
     | Err _ => ret (Refuse 502 errAgentNotConnected)
     | Ok _ =>
         let* resp := select_response wt ch in
         match resp with
         | Some raw => ret (Answer raw)
         | None => ret (Refuse 504 "agent timeout")
         end
     end)
    (pending_remove serverID requestID).

Definition sendAgentRequest (wt : wait) (serverID : string) (buildMsg : string → HubMessage) : M answer :=
  let* requestID := NewString in sendAgentRequestWithID wt serverID requestID buildMsg.

(** ** handlers_files.go *)

Definition handleListFiles (wt : wait) : HandlerFunc (list FileNode) := λ r ctx,
  let path := if String.eqb (Query r "path") "" then "/" else Query r "path" in
  let serverID := PathValue r "id" in
  let* denied := checkFileAccess ctx serverID path in
  match denied with
  | Some (st, e) => ret (RespondError st e)
  | None =>
      let* connected := requireAgent serverID in
      if negb connected then ret (RespondError 502 errAgentNotConnected) else
      let* raw := sendAgentRequest wt serverID (λ id, FileListRequest id path) in
      match raw with
      | Refuse st e => ret (RespondError st e)
      | Answer (FileListResponse _ files error) =>
          if negb (String.eqb error "") then ret (RespondError 404 error)
          else ret (RespondJSON 200 files)
      | Answer _ => ret (RespondError 500 errUnexpectedResponse)
      end
  end.

(** base64.StdEncoding.EncodeToString *)
Definition base64_char (n : Z) : ascii :=
  let c := if n <? 26 then 65 + n else if n <? 52 then 71 + n else if n <? 62 then n - 4
           else if n =? 62 then 43 else 47 in
  ascii_of_nat (Z.to_nat c).
Definition byte (a : ascii) : Z := Z.of_nat (nat_of_ascii a).
Fixpoint EncodeToString (s : string) : string :=
  let top b := base64_char (Z.shiftr b 2) in
  let mid b0 b1 := base64_char (Z.lor (Z.shiftl (Z.land b0 3) 4) (Z.shiftr b1 4)) in
  let low b1 b2 := base64_char (Z.lor (Z.shiftl (Z.land b1 15) 2) (Z.shiftr b2 6)) in
  match s with
  | EmptyString => ""
  | String a EmptyString => String (top (byte a)) (String (mid (byte a) 0) "==")
  | String a (String b EmptyString) =>
      String (top (byte a)) (String (mid (byte a) (byte b)) (String (low (byte b) 0) "="))
  | String a (String b (String c s')) =>
      String (top (byte a)) (String (mid (byte a) (byte b)) (String (low (byte b) (byte c))
        (String (base64_char (Z.land (byte c) 63)) (EncodeToString s'))))
  end.

Record FileReadResult := MkFileReadResult { fr_Data : string; fr_TotalSize : Z; fr_MimeType : string }.

Definition handleReadFile (wt : wait) : HandlerFunc FileReadResult := λ r ctx,
  let path := Query r "path" in
  if String.eqb path "" then ret (RespondError 400 "path is required") else
  let serverID := PathValue r "id" in
  let* denied := checkFileAccess ctx serverID path in
  match denied with
  | Some (st, e) => ret (RespondError st e)
  | None =>
      let* connected := requireAgent serverID in
      if negb connected then ret (RespondError 502 errAgentNotConnected) else
      let* raw := sendAgentRequest wt serverID (λ id, FileReadRequest id path (-1) maxFileReadSize) in
      match raw with
      | Refuse st e => ret (RespondError st e)
      | Answer (FileReadResponse _ data total mime error) =>
          if negb (String.eqb error "") then ret (RespondError 404 error) else
          if maxFileViewSize <? total then ret (RespondError 413 "file too large for viewing") else
          let* _ := audit_user ctx "file.read" (Some serverID) (Some path) (Some (clientIP r)) in
          ret (RespondJSON 200 (MkFileReadResult (EncodeToString data) total mime))
      | Answer _ => ret (RespondError 500 errUnexpectedResponse)
      end
  end.

(** ** handlers_paths.go *)

Definition handleListPaths : HandlerFunc (list Permission) := λ r _,
  let* perms := try (ListPermissionsForServer (PathValue r "id")) in
  match perms with
  | Err _ => ret (RespondError 500 "failed to list paths")
  | Ok perms => ret (RespondJSON 200 perms)
  end.

(** [body]: (user_id, path) *)
Definition handleCreatePath (body : option (string * string)) : HandlerFunc Permission := λ r ctx,
  let serverID := PathValue r "id" in
  match body with
  | None => ret (RespondError 400 "invalid request body")
  | Some (reqUser, reqPath) =>
      if String.eqb reqUser "" || String.eqb reqPath ""
      then ret (RespondError 400 "user_id and path are required") else
      match validateRequestPath reqPath with
      | Err e => ret (RespondError 400 ("invalid path: " +:+ e))
      | Ok _ =>
          let* perm := try (CreatePermission reqUser serverID reqPath) in
          match perm with
          | Err _ => ret (RespondError 409 "permission already exists or invalid reference")
          | Ok perm =>
              let* _ := audit_user ctx "path.granted" (Some serverID)
                          (Some (reqUser +:+ ":" +:+ reqPath)) None in
              ret (RespondJSON 201 perm)
          end
      end
  end.

Definition handleDeletePath : HandlerFunc unit := λ r ctx,
  let serverID := PathValue r "id" in
  let pathID := PathValue r "pathId" in
  let* perm := try (GetPermissionByID pathID) in
  match perm with
  | Err _ => ret (RespondError 404 "permission not found")
  | Ok perm =>
      if negb (String.eqb (p_ServerID perm) serverID)
      then ret (RespondError 404 "permission not found") else
      let* deleted := try (DeletePermission pathID) in
      match deleted with
      | Err _ => ret (RespondError 500 "failed to delete permission")
      | Ok _ =>
          let* _ := audit_user ctx "path.revoked" (Some serverID)
                      (Some (p_UserID perm +:+ ":" +:+ p_Path perm)) None in
          ret (RespondJSON 204 tt)
      end
  end.

Definition handleGetUserPaths : HandlerFunc (list string) := λ r ctx,
  if String.eqb (UserRoleFromContext ctx) "admin" then ret (RespondJSON 200 ["/"]) else
  let* paths := try (GetUserPathsForServer (UserIDFromContext ctx) (PathValue r "id")) in
  match paths with
  | Err _ => ret (RespondError 500 "failed to get paths")
  | Ok paths => ret (RespondJSON 200 paths)
  end.

(** ** handlers_unregister.go *)

Definition handleUnregisterServer (wt : wait) : HandlerFunc unit := λ r ctx,
  let serverID := PathValue r "id" in
  let finish : M (response unit) :=
    let* deleted := try (DeleteServer serverID) in
    match deleted with
    | Err _ => ret (RespondError 500 "failed to delete server")
    | Ok _ =>
        let* _ := audit_user ctx "server.unregistered" (Some serverID) None (Some (clientIP r)) in
        ret (RespondJSON 200 tt)
    end in
  let* connected := requireAgent serverID in
  if negb connected then finish else
  let* requestID := NewString in
  let* ch := pending_register serverID requestID in
  deferred
    (let* sent := try (SendToAgent serverID (UnregisterRequest requestID)) in
     let* _ := match sent with
               | Ok _ => let* _ := select_response wt ch in ret tt
               | Err _ => ret tt
               end in
     finish)
    (pending_remove serverID requestID).

(** [hmac_sha256 key text], hex encoded. *)
Definition selfUnregisterToken (hmac_sha256 : string → string → string) (jwtSecret serverID : string)
  : string := hmac_sha256 jwtSecret ("self-unregister:" +:+ serverID).

Definition handleSelfUnregister (hmac_sha256 : string → string → string) (jwtSecret : string)
  : HandlerFunc unit := λ r ctx,
  let serverID := PathValue r "id" in
  let* srv := try (GetServerByID serverID) in
  match srv with
  | Err _ => ret (RespondJSON 204 tt)
  | Ok _ =>
      if negb (String.eqb (header r "X-Unregister-Token")
                          (selfUnregisterToken hmac_sha256 jwtSecret serverID))
      then ret (RespondError 403 "unauthorized") else
      let* _ := on_conns (λ _, Unregister serverID) in
      let* deleted := try (DeleteServer serverID) in
      match deleted with
      | Err _ => ret (RespondError 500 "failed to delete server")
      | Ok _ =>
          let* id := NewString in
          let* _ := auditLogRequest ctx (audit_entry "server.unregistered" None (Some serverID) None
                      (Some (clientIP r)) AuditActorTypeDevice <| ae_ID := id |>) in
          ret (RespondJSON 204 tt)
      end
  end.

End files.

(** ** What the reports of a handler leave alone *)

(** [f] looks at none of the audit log, the configuration and the notifications. *)
Class Unreported {X : Type} (f : World → X) := {
  ur_unaudited :: Unaudited f;
  ur_notified : ∀ w g, f (w <| w_notified ::= g |>) = f w
}.
#[export] Instance unreported_users : Unreported (tables d_users). Proof. by repeat split. Qed.
#[export] Instance unreported_servers : Unreported (tables d_servers). Proof. by repeat split. Qed.
#[export] Instance unreported_permissions : Unreported (tables d_permissions). Proof. by repeat split. Qed.
#[export] Instance unreported_api_tokens : Unreported (tables d_api_tokens). Proof. by repeat split. Qed.
#[export] Instance unreported_now : Unreported w_now. Proof. by repeat split. Qed.
#[export] Instance unreported_totp : Unreported w_totp. Proof. by repeat split. Qed.
#[export] Instance unreported_sent : Unreported w_sent. Proof. by repeat split. Qed.
#[export] Instance unreported_timers : Unreported w_timers. Proof. by repeat split. Qed.
#[export] Instance unreported_pending : Unreported w_pending. Proof. by repeat split. Qed.
#[export] Instance unreported_conns : Unreported w_conns. Proof. by repeat split. Qed.
#[export] Instance unreported_terminals : Unreported w_terminals. Proof. by repeat split. Qed.
#[export] Hint Extern 0 (Unreported _) => typeclasses eauto : frames.

Section report_frames.
Context {X : Type} (f : World → X) `{!Unreported f} `{E : Env}.

Lemma frame_auditLogRequest (ctx : Ctx) (e : AuditEntry) : frame f (auditLogRequest ctx e).
Proof. unfold auditLogRequest. frames. Qed.
Lemma frame_audit_user (ctx : Ctx) (a : string) (t d ip : option string) : frame f (audit_user ctx a t d ip).
Proof. unfold audit_user. frames; apply frame_auditLogRequest. Qed.
Lemma frame_Notify_report (e : string) (c : list (string * string)) : frame f (Notify e c).
Proof. intros w. apply ur_notified. Qed.
End report_frames.
#[export] Hint Resolve frame_auditLogRequest frame_audit_user frame_Notify_report : frames.

(** ** Access is confined to the granted paths *)

(** The user has access to [path] of the server: an administrator, or someone with a grant on the
    path or a directory above it. *)
Definition granted (ctx : Ctx) (serverID path : string) (d : Db) : Prop :=
  UserRoleFromContext ctx = RoleAdmin ∨
  ∃ p, p ∈ d_permissions d ∧ pr_user_id p = UserIDFromContext ctx ∧ pr_server_id p = serverID ∧
    under (pr_path p) path.

Section access.
Context `{E : Env}.

Lemma path_inside_iff (allowed requested : string) :
  is_rooted requested = true → path_inside allowed requested = true ↔ under allowed requested.
Proof.
  intros Hr. assert (H := Rel_under allowed requested Hr). unfold path_inside.
  destruct (Rel _ _); [done|]. split; [done|tauto].
Qed.

Lemma validateRequestPath_iff (path : string) :
  validateRequestPath path = Ok tt ↔ is_rooted path = true ∧ Contains path ".." = false.
Proof.
  unfold validateRequestPath, is_rooted. destruct (HasPrefix path "/"); simpl; [|naive_solver].
  destruct (Contains path ".."); naive_solver.
Qed.

Lemma any_granted (userID serverID path : string) (d : Db) :
  is_rooted path = true →
  existsb (λ allowed, path_inside allowed path) (map pr_path (List.filter
    (λ p, String.eqb (pr_user_id p) userID && String.eqb (pr_server_id p) serverID)
    (d_permissions d))) = true ↔
  ∃ p, p ∈ d_permissions d ∧ pr_user_id p = userID ∧ pr_server_id p = serverID ∧ under (pr_path p) path.
Proof.
  intros Hr. rewrite existsb_exists. split.
  - intros (x & Hx & Hin). apply in_map_iff in Hx as (p & <- & Hp).
    apply filter_In in Hp as [Hp Hb]. bool_hyps. exists p.
    rewrite list_elem_of_In, <- path_inside_iff by done. auto.
  - intros (p & Hp & Hu & Hs & Hun). exists (pr_path p). rewrite path_inside_iff by done.
    split; [|done]. apply in_map, filter_In. rewrite Hu, Hs, !String.eqb_refl.
    split; [by apply list_elem_of_In|done].
Qed.

Lemma checkFileAccess_run (ctx : Ctx) (serverID path : string) (w : World) :
  let '(res, w') := checkFileAccess ctx serverID path w in
  let pass := validateRequestPath path = Ok tt ∧ granted ctx serverID path (w_db w) in
  (∃ fs, w' = w <| w_faults := fs |>) ∧
  match res with
  | Ok None => pass
  | Ok (Some (st, _)) => (st = 400 ∨ st = 403) ∧ (no_faults w → ¬ pass)
  | Err _ => False
  end.
Proof.
  simpl. assert (H0 : ∃ fs, w = w <| w_faults := fs |>) by (exists (w_faults w); by destruct w).
  unfold checkFileAccess. destruct (validateRequestPath path) as [[]|e] eqn:Hv.
  2:{ split; [done|]. split; [by left|]. by intros _ []. }
  assert (Hr := proj1 (proj1 (validateRequestPath_iff path) Hv)).
  destruct (String.eqb_spec (UserRoleFromContext ctx) "admin") as [Hadm|Hadm].
  { split; [done|]. split; [done|]. by left. }
  unfold isPathAllowed, bind, try, GetUserPathsForServer.
  match goal with |- context [query ?qe ?se ?ee ?f w] =>
    destruct (query_cases qe se ee f w) as [(e & fs & -> & Hn)|(fs & fs' & ->)];
      [auto with veyport..| |] end; simpl.
  - split; [by exists fs|]. split; [by right|done].
  - assert (Hg := any_granted (UserIDFromContext ctx) serverID path (w_db w) Hr).
    destruct (existsb _ _) eqn:Hex; simpl; (split; [by exists fs|]).
    + split; [done|]. right. by apply Hg.
    + split; [by right|]. intros _ [_ [Ha|Hgr]]; [done|]. by apply Hg in Hgr.
Qed.

(** File access is confined to the granted directories.  The check lets a request pass only for
    an absolute path without [..] that an administrator asks for or that lies, element by element,
    at or under a path granted to the user on that server; when no query fails it lets exactly
    those pass, and in no case does it change the hub's state. *)
Theorem checkFileAccess_spec (ctx : Ctx) (serverID path : string) (w : World) :
  let '(res, w') := checkFileAccess ctx serverID path w in
  let pass := validateRequestPath path = Ok tt ∧ granted ctx serverID path (w_db w) in
  (∃ fs, w' = w <| w_faults := fs |>) ∧
  match res with
  | Ok None => pass
  | Ok (Some (st, _)) => (st = 400 ∨ st = 403) ∧ (no_faults w → ¬ pass)
  | Err _ => False
  end.
Proof. apply checkFileAccess_run. Qed.


End access.
