(* ===== verification/Streams.v ===== *)
(** * Log tailing and uploads (hub/internal/server/handlers_logs.go, handlers_upload.go).

    The loop of a log stream is driven by a list of wake-ups: what the rest of the hub did until
    the handler's next [select].  An upload reads its body in pieces. *)

From S2P Require Import Prelude GoStr GoTime Model Proto Chan ConnMgr Db Demo StoreConfig.
From S2P Require Import StoreUsers StoreServers StoreAudit AgentHandler Http Files.
From S2P Require Pending LogSessions TerminalSessions.

(** ** Slots for log streams *)

Definition maxViewerLogStreamsPerUser : Z := 5.
Definition maxAdminLogStreamsPerUser : Z := 10.
Definition maxAgentLogStreams : Z := 50.

Definition slot_key (serverID userID : string) : string := serverID +:+ ":" +:+ userID.

(** The streams of the keys that start with [serverID:], or are the key itself. *)
Definition total_for_server (serverID key : string) (m : gmap string Z) : Z :=
  map_fold (λ k count total,
    if String.eqb k key || HasPrefix k (serverID +:+ ":") then total + count else total) 0 m.

Definition tryAcquireLogTailSlot (serverID userID role : string) (m : gmap string Z)
  : bool * gmap string Z :=
  let admin := String.eqb role "admin" in
  let limit := if admin then maxAdminLogStreamsPerUser else maxViewerLogStreamsPerUser in
  let key := slot_key serverID userID in
  let totalForServer := total_for_server serverID key m in
  if (if admin then maxAgentLogStreams <=? totalForServer
      else maxAgentLogStreams - maxAdminLogStreamsPerUser <=? totalForServer) then (false, m) else
  if limit <=? default 0 (m !! key) then (false, m) else
  (true, <[key := default 0 (m !! key) + 1]> m).

Definition releaseLogTailSlot (serverID userID : string) (m : gmap string Z) : gmap string Z :=
  let key := slot_key serverID userID in
  if default 0 (m !! key) <=? 1 then delete key m else <[key := default 0 (m !! key) - 1]> m.

(** ** handleTailLog *)

Inductive sse :=
  | SseData (encoded : string)
  | SseOverflow (dropped : N).

Section streams.
Context `{E : Env}.

Definition acquire_slot (serverID userID role : string) : M bool := λ w,
  let '(ok, m) := tryAcquireLogTailSlot serverID userID role (w_logTail w) in
  (Ok ok, w <| w_logTail := m |>).
Definition release_slot (serverID userID : string) : M unit := λ w,
  (Ok tt, w <| w_logTail ::= releaseLogTailSlot serverID userID |>).

Definition log_register (serverID requestID : string) : M nat :=
  on_logs (λ ls, Ret (LogSessions.Register serverID requestID ls)).
Definition log_remove (serverID requestID : string) : M unit :=
  on_logs (λ ls, let! ls' := LogSessions.Remove serverID requestID ls in Ret (tt, ls')).
Definition log_next (ch : nat) : M (received string) :=
  on_logs (λ ls, Ret (LogSessions.Next ch ls)).
Definition drain_overflow (serverID requestID : string) : M N :=
  on_logs (λ ls, Ret (LogSessions.DrainOverflow serverID requestID ls)).

(** The stream loop; the request's context is done after the wake-ups. *)
Fixpoint stream_loop (serverID requestID : string) (ch : nat) (wakes : list (World → World))
  : M (list sse) :=
  match wakes with
  | [] => ret []
  | o :: wakes' =>
      let* _ := pause o in
      let* r := log_next ch in
      match r with
      | ClosedDrained => ret []
      | WouldBlock => stream_loop serverID requestID ch wakes'
      | Got data =>
          let* dropped := drain_overflow serverID requestID in
          let* rest := stream_loop serverID requestID ch wakes' in
          ret (SseData (EncodeToString data) ::
               (if (0 <? dropped)%N then [SseOverflow dropped] else []) ++ rest)
      end
  end.

(** [flusher]: the response writer supports streaming. *)
Definition handleTailLog (flusher : bool) (wakes : list (World → World)) : HandlerFunc (list sse) := λ r ctx,
  let serverID := PathValue r "id" in
  let path := Query r "path" in
  let grep := Query r "grep" in
  if (256 <? String.length grep)%nat
  then ret (RespondError 400 "grep filter too long (max 256 characters)") else
  if String.eqb path "" then ret (RespondError 400 "path is required") else
  let* denied := checkFileAccess ctx serverID path in
  match denied with
  | Some (st, e) => ret (RespondError st e)
  | None =>
      let* connected := requireAgent serverID in
      if negb connected then ret (RespondError 502 errAgentNotConnected) else
      if negb flusher then ret (RespondError 500 "streaming not supported") else
      let userID := UserIDFromContext ctx in
      let* acquired := acquire_slot serverID userID (UserRoleFromContext ctx) in
      if negb acquired then ret (RespondError 429 "too many active log streams") else
      let* requestID := NewString in
      let* ch := log_register serverID requestID in
      let* sent := try (SendToAgent serverID (LogStreamRequest requestID path 0 grep)) in
      match sent with
      | Err _ =>
          let* _ := release_slot serverID userID in
          let* _ := log_remove serverID requestID in
          ret (RespondError 502 "failed to send request to agent")
      | Ok _ =>
          let* _ := audit_user ctx "log.tail_started" (Some serverID)
                      (Some (if String.eqb grep "" then path else path +:+ " grep=" +:+ grep))
                      (Some (clientIP r)) in
          deferred
            (let* events := stream_loop serverID requestID ch wakes in ret (RespondJSON 200 events))
            (let* _ := release_slot serverID userID in
             let* _ := log_remove serverID requestID in
             ignore (SendToAgent serverID (LogStreamStop requestID)))
      end
  end.

End streams.

(** ** The streams a server carries are bounded *)

Inductive slot_op :=
  | Acquire (serverID userID role : string)
  | Release (serverID userID : string).

(** The table, and the streams that hold a slot; only they release. *)
Definition slot_state : Type := gmap string Z * list (string * string).

Fixpoint drop_one {A : Type} `{EqDecision A} (x : A) (l : list A) : list A :=
  match l with
  | [] => []
  | y :: l' => if decide (x = y) then l' else y :: drop_one x l'
  end.

Definition slot_step (s : slot_state) (op : slot_op) : slot_state :=
  match op with
  | Acquire srv usr role =>
      let '(ok, m) := tryAcquireLogTailSlot srv usr role s.1 in
      (m, if ok then (srv, usr) :: s.2 else s.2)
  | Release srv usr =>
      if decide ((srv, usr) ∈ s.2) then (releaseLogTailSlot srv usr s.1, drop_one (srv, usr) s.2) else s
  end.

(** Live streams of a server, and of a user on it. *)
Definition live_server (srv : string) (l : list (string * string)) : Z :=
  Z.of_nat (length (filter (λ x, x.1 = srv) l)).
Definition live (srv usr : string) (l : list (string * string)) : Z :=
  Z.of_nat (length (filter (λ x, x = (srv, usr)) l)).

Definition op_server (op : slot_op) : string :=
  match op with Acquire srv _ _ | Release srv _ => srv end.

Lemma slot_key_prefix (srv srv' usr : string) :
  Pending.colon_free srv → Pending.colon_free srv' →
  HasPrefix (slot_key srv' usr) (srv +:+ ":") = true ↔ srv = srv'.
Proof.
  intros H H'. unfold HasPrefix. split.
  - intros (t & Ht)%prefix_iff. symmetry. rewrite app_assoc_str in Ht.
    by apply (Pending.makeKey_inj srv' srv usr t) in Ht as [].
  - intros ->. apply prefix_iff. exists usr. unfold slot_key. by rewrite app_assoc_str.
Qed.

Section totals.
Context (srv key : string).

Definition weight (k : string) (c : Z) : Z :=
  if String.eqb k key || HasPrefix k (srv +:+ ":") then c else 0.

Lemma total_delete (k : string) (m : gmap string Z) :
  total_for_server srv key m = total_for_server srv key (delete k m) + weight k (default 0 (m !! k)).
Proof.
  unfold total_for_server, weight. destruct (m !! k) as [c|] eqn:Hk; simpl.
  - rewrite (map_fold_delete_L _ _ k c m); [|intros; repeat case_match; lia|done].
    case_match; lia.
  - rewrite delete_id by done. case_match; lia.
Qed.

Lemma total_insert (k : string) (c : Z) (m : gmap string Z) :
  total_for_server srv key (<[k := c]> m) =
    total_for_server srv key m - weight k (default 0 (m !! k)) + weight k c.
Proof.
  rewrite (total_delete k (<[k := c]> m)), (total_delete k m), lookup_insert_eq, delete_insert_eq.
  simpl. lia.
Qed.
End totals.

Lemma weight_key (srv usr srv' usr' : string) (c : Z) :
  Pending.colon_free srv → Pending.colon_free srv' →
  weight srv (slot_key srv usr) (slot_key srv' usr') c = if decide (srv = srv') then c else 0.
Proof.
  intros H H'. assert (Hp := slot_key_prefix srv srv' usr' H H'). unfold weight.
  destruct (String.eqb_spec (slot_key srv' usr') (slot_key srv usr)) as [He|_]; simpl.
  - apply (Pending.makeKey_inj srv' srv usr' usr) in He as [-> _]; [|done..]. by rewrite decide_True.
  - destruct (HasPrefix _ _); case_decide; tauto || (exfalso; tauto || (destruct Hp as [_ Hp]; by specialize (Hp ltac:(done)))).
Qed.

(** The table counts the live streams, and they stay within the limits. *)
Record slots_ok (s : slot_state) : Prop := {
  slots_user : ∀ srv usr, Pending.colon_free srv → default 0 (s.1 !! slot_key srv usr) = live srv usr s.2;
  slots_server : ∀ srv usr, Pending.colon_free srv →
    total_for_server srv (slot_key srv usr) s.1 = live_server srv s.2;
  user_cap : ∀ srv usr, live srv usr s.2 <= maxAdminLogStreamsPerUser;
  server_cap : ∀ srv, live_server srv s.2 <= maxAgentLogStreams;
  all_free : Forall (λ x, Pending.colon_free x.1) s.2
}.

Lemma slot_key_ne (srv usr srv' usr' : string) :
  Pending.colon_free srv → Pending.colon_free srv' → (srv, usr) ≠ (srv', usr') →
  slot_key srv usr ≠ slot_key srv' usr'.
Proof. intros H H' Hne He. apply Hne. by apply (Pending.makeKey_inj srv srv' usr usr') in He as [-> ->]. Qed.

Lemma live_cons (srv usr : string) (x : string * string) (l : list (string * string)) :
  live srv usr (x :: l) = live srv usr l + (if decide (x = (srv, usr)) then 1 else 0) ∧
  live_server srv (x :: l) = live_server srv l + (if decide (x.1 = srv) then 1 else 0).
Proof.
  unfold live, live_server. rewrite !filter_cons. repeat case_decide; simpl; split; try lia.
Qed.

Lemma drop_one_perm {A : Type} `{EqDecision A} (x : A) (l : list A) :
  x ∈ l → l ≡ₚ x :: drop_one x l.
Proof.
  induction l as [|y l IH]; intros Hx; [by inversion Hx|]. simpl. case_decide as Hy; [by subst|].
  apply elem_of_cons in Hx as [?|Hx]; [done|]. rewrite (IH Hx) at 1. constructor.
Qed.

Lemma live_drop_one (srv usr : string) (x : string * string) (l : list (string * string)) :
  x ∈ l →
  live srv usr (drop_one x l) = live srv usr l - (if decide (x = (srv, usr)) then 1 else 0) ∧
  live_server srv (drop_one x l) = live_server srv l - (if decide (x.1 = srv) then 1 else 0).
Proof.
  intros Hx%drop_one_perm. destruct (live_cons srv usr x (drop_one x l)) as [H1 H2].
  assert (Hp : ∀ P `{!∀ y : string * string, Decision (P y)},
    length (filter P l) = length (filter P (x :: drop_one x l))) by (intros; by rewrite <- Hx).
  unfold live, live_server in *. rewrite (Hp (λ y, y = (srv, usr))), (Hp (λ y, y.1 = srv)). lia.
Qed.

Lemma add_stream_ok (srv usr : string) (m : gmap string Z) (l : list (string * string)) :
  Pending.colon_free srv → slots_ok (m, l) →
  live_server srv l < maxAgentLogStreams → live srv usr l < maxAdminLogStreamsPerUser →
  slots_ok (<[slot_key srv usr := live srv usr l + 1]> m, (srv, usr) :: l).
Proof.
  intros Hfree [H1 H2 H3 H4 H5] Hs Hu. simpl in *. split; simpl.
  - intros srv' usr' Hf. rewrite (proj1 (live_cons srv' usr' (srv, usr) l)).
    case_decide as He.
    + injection He as <- <-. by rewrite lookup_insert_eq.
    + rewrite lookup_insert_ne by by apply slot_key_ne. rewrite H1 by done. lia.
  - intros srv' usr' Hf. rewrite (proj2 (live_cons srv' usr' (srv, usr) l)), total_insert, H2 by done.
    rewrite !weight_key, (H1 srv usr) by done. simpl. repeat case_decide; congruence || lia.
  - intros srv' usr'. rewrite (proj1 (live_cons srv' usr' (srv, usr) l)).
    case_decide as He; [injection He as <- <-; lia|]. specialize (H3 srv' usr'). lia.
  - intros srv'. rewrite (proj2 (live_cons srv' "" (srv, usr) l)). simpl.
    case_decide; [subst srv'; lia|]. specialize (H4 srv'). lia.
  - by constructor.
Qed.

Lemma acquire_ok (srv usr role : string) (s : slot_state) :
  Pending.colon_free srv → slots_ok s → slots_ok (slot_step s (Acquire srv usr role)).
Proof.
  intros Hfree Hok. destruct s as [m l]. simpl. unfold tryAcquireLogTailSlot.
  assert (H2 := slots_server _ Hok srv usr Hfree). assert (H1 := slots_user _ Hok srv usr Hfree).
  simpl in *. rewrite H1, H2. assert (Hadd := add_stream_ok srv usr m l Hfree Hok).
  unfold maxAgentLogStreams, maxAdminLogStreamsPerUser, maxViewerLogStreamsPerUser in *.
  destruct (String.eqb role "admin"); repeat case_match; simplify_eq/=; try done; apply Hadd;
    repeat match goal with H : (_ <=? _) = false |- _ => apply Z.leb_gt in H end; lia.
Qed.

Lemma release_ok (srv usr : string) (s : slot_state) :
  slots_ok s → slots_ok (slot_step s (Release srv usr)).
Proof.
  intros Hs. simpl. case_decide as Hin; [|done]. destruct Hs as [H1 H2 H3 H4 H5].
  destruct s as [m l]. simpl in *.
  assert (Hfree : Pending.colon_free srv).
  { eapply (proj1 (Forall_forall _ _)) in H5; [|exact Hin]. done. }
  assert (Hd := λ srv' usr', live_drop_one srv' usr' (srv, usr) l Hin).
  assert (Hpos : 1 <= live srv usr l).
  { destruct (Hd srv usr) as [Hl _]. rewrite decide_True in Hl by done. unfold live in *. lia. }
  assert (Hperm := drop_one_perm _ _ Hin).
  unfold releaseLogTailSlot. rewrite (H1 srv usr Hfree).
  set (m' := if live srv usr l <=? 1 then _ else _).
  assert (Hm : ∀ k, default 0 (m' !! k) = if decide (slot_key srv usr = k) then live srv usr l - 1
                                         else default 0 (m !! k)).
  { intros k. unfold m'. destruct (Z.leb_spec (live srv usr l) 1).
    - case_decide; [subst k; rewrite lookup_delete_eq; simpl; lia|by rewrite lookup_delete_ne].
    - case_decide; [subst k; by rewrite lookup_insert_eq|by rewrite lookup_insert_ne]. }
  assert (Ht : ∀ srv' usr', Pending.colon_free srv' → total_for_server srv' (slot_key srv' usr') m' =
    total_for_server srv' (slot_key srv' usr') m - (if decide (srv = srv') then 1 else 0)).
  { intros srv' usr' Hf. rewrite (total_delete srv' (slot_key srv' usr') (slot_key srv usr) m').
    rewrite (total_delete srv' (slot_key srv' usr') (slot_key srv usr) m), Hm, decide_True, (H1 srv usr) by done.
    rewrite !weight_key by done.
    assert (delete (slot_key srv usr) m' = delete (slot_key srv usr) m) as ->.
    { unfold m'. destruct (_ <=? 1); [by rewrite delete_delete_eq|by rewrite delete_insert_eq]. }
    repeat case_decide; congruence || lia. }
  split; simpl.
  - intros srv' usr' Hf. rewrite Hm, (proj1 (Hd srv' usr')).
    destruct (decide ((srv, usr) = (srv', usr'))) as [[= <- <-]|Hne]; [by rewrite decide_True|].
    rewrite decide_False by by apply slot_key_ne. rewrite H1 by done. lia.
  - intros srv' usr' Hf. by rewrite Ht, H2, (proj2 (Hd srv' usr')).
  - intros srv' usr'. rewrite (proj1 (Hd srv' usr')). specialize (H3 srv' usr'). case_decide; lia.
  - intros srv'. rewrite (proj2 (Hd srv' usr)). specialize (H4 srv'). case_decide; lia.
  - rewrite Hperm in H5. by apply Forall_cons in H5 as [].
Qed.

(** A server carries a bounded number of log streams.  Whatever sequence of streams starts and
    ends, the table of slots counts exactly the live streams; there are never more than fifty on
    one server, nor more than ten of one user on it, and no slot is leaked or freed twice. *)
Theorem log_stream_caps (ops : list slot_op) (Hops : Forall (λ op, Pending.colon_free (op_server op)) ops) :
  let s := fold_left slot_step ops (∅, []) in
  (∀ srv usr, Pending.colon_free srv → default 0 (s.1 !! slot_key srv usr) = live srv usr s.2) ∧
  (∀ srv usr, live srv usr s.2 <= 10) ∧ (∀ srv, live_server srv s.2 <= 50).
Proof.
  enough (H : slots_ok (fold_left slot_step ops (∅, []))) by by destruct H.
  assert (H0 : slots_ok (∅, [])) by by split. revert H0. generalize ((∅, []) : slot_state).
  induction Hops as [|op ops Hop _ IH]; intros s Hs; simpl; [done|]. apply IH.
  destruct op; [by apply acquire_ok|by apply release_ok].
Qed.

(** ** handlers_upload.go *)

Definition maxUploadSize : Z := 100 * 1024 * 1024.
Definition agentDropzonePath : string := "veyport://dropzone".

(** The results of reading a part: [End] comes with [io.EOF] or another error. *)
Inductive body :=
  | More (data : bytes) (rest : body)
  | End (data : bytes) (err : option string).

Inductive upload_result :=
  | Sent (totalSize : Z)
  | uploadStreamError (statusCode : Z) (message : string).

Definition len (s : string) : Z := Z.of_nat (String.length s).

Section upload.
Context `{E : Env}.

Definition sendChunkToAgent (serverID requestID filename : string) (data : bytes)
  : M (option upload_result) :=
  let* sent := try (SendToAgent serverID (FileUploadRequest requestID filename data false)) in
  ret match sent with
      | Err _ => Some (uploadStreamError 502 "failed to send to agent")
      | Ok _ => None
      end.

Definition sendFinalChunk (serverID requestID : string) : M (option upload_result) :=
  let* sent := try (SendToAgent serverID (FileUploadRequest requestID "" "" true)) in
  ret match sent with
      | Err _ => Some (uploadStreamError 502 "failed to send to agent")
      | Ok _ => None
      end.

Definition chunkFilename (filename : string) (isFirst : bool) : string :=
  if negb isFirst then "" else filename.

(** One [Read] that returned [data]: the new flag and total, or the error that ends the upload. *)
Definition stream_read (serverID requestID filename : string) (data : bytes) (isFirst : bool)
    (totalSize : Z) : M (upload_result + bool * Z) :=
  if String.eqb data "" then ret (inr (isFirst, totalSize)) else
  let totalSize := totalSize + len data in
  if maxUploadSize <? totalSize
  then ret (inl (uploadStreamError 413 "file too large (max 100MB)")) else
  let* err := sendChunkToAgent serverID requestID (chunkFilename filename isFirst) data in
  ret match err with Some e => inl e | None => inr (false, totalSize) end.

Fixpoint stream_loop_file (serverID requestID filename : string) (file : body) (isFirst : bool)
    (totalSize : Z) : M upload_result :=
  match file with
  | More data rest =>
      let* r := stream_read serverID requestID filename data isFirst totalSize in
      match r with
      | inl e => ret e
      | inr (isFirst, totalSize) =>
          stream_loop_file serverID requestID filename rest isFirst totalSize
      end
  | End data err =>
      let* r := stream_read serverID requestID filename data isFirst totalSize in
      match r with
      | inl e => ret e
      | inr (_, totalSize) =>
          match err with
          | Some _ => ret (uploadStreamError 500 "failed to read file")
          | None =>
              let* final := sendFinalChunk serverID requestID in
              ret (default (Sent totalSize) final)
          end
      end
  end.

Definition streamFileToAgent (serverID requestID filename : string) (file : body) : M upload_result :=
  stream_loop_file serverID requestID filename file true 0.

(** A part of the multipart body; [mime.ParseMediaType] gives the media type and the boundary. *)
Record part := MkPart { FormName : string; FileName : string; pt_body : body }.

(** [bad_end]: reading the parts ends with an error other than [io.EOF]. *)
Fixpoint find_file (parts : list part) (bad_end : bool) : (Z * string) + (body * string) :=
  match parts with
  | [] => inl (400, if bad_end then "invalid multipart body" else "no file provided")
  | p :: parts' =>
      if negb (String.eqb (FormName p) "file") then find_file parts' bad_end else
      let filename := Base (FileName p) in
      if String.eqb filename "" || String.eqb filename "." || String.eqb filename "/"
      then inl (400, "filename is required") else inr (pt_body p, filename)
  end.

Definition parseMultipartFileStream (parse_media : string → option (string * string)) (r : Request)
    (parts : list part) (bad_end : bool) : (Z * string) + (body * string) :=
  let ct := header r "Content-Type" in
  if String.eqb ct "" then inl (400, "missing Content-Type header") else
  match parse_media ct with
  | None => inl (400, "expected multipart/form-data")
  | Some (mediaType, boundary) =>
      if negb (HasPrefix mediaType "multipart/") then inl (400, "expected multipart/form-data") else
      if String.eqb boundary "" then inl (400, "missing multipart boundary") else
      find_file parts bad_end
  end.

(** (filename, size) *)
Definition handleUploadFile (notifier : bool) (parse_media : string → option (string * string))
    (parts : list part) (bad_end : bool) (wt : wait) : HandlerFunc (string * Z) := λ r ctx,
  let serverID := PathValue r "id" in
  match parseMultipartFileStream parse_media r parts bad_end with
  | inl (st, e) => ret (RespondError st e)
  | inr (file, filename) =>
      let* connected := requireAgent serverID in
      if negb connected then ret (RespondError 502 errAgentNotConnected) else
      let* requestID := NewString in
      let* ch := pending_register serverID requestID in
      deferred
        (let* streamed := streamFileToAgent serverID requestID filename file in
         match streamed with
         | uploadStreamError st e => ret (RespondError st e)
         | Sent totalSize =>
             let* resp := select_response wt ch in
             match resp with
             | None => ret (RespondError 504 "upload timeout")
             | Some (FileUploadAck _ success error) =>
                 if negb success then ret (RespondError 500 ("upload failed: " +:+ error)) else
                 let userID := UserIDFromContext ctx in
                 let* _ := audit_user ctx "file.uploaded" (Some serverID) (Some filename)
                             (Some (clientIP r)) in
                 let* _ := if notifier then
                     let* u := try (GetUserByID userID) in
                     let uploaderName := match u with Ok u => u_Username u | Err _ => userID end in
                     let* now := get_now in
                     Notify NotifyFileUploaded [("filename", filename); ("server_name", serverID);
                       ("server_id", serverID); ("username", uploaderName);
                       ("timestamp", NotifyTimestamp now)]
                   else ret tt in
                 ret (RespondJSON 200 (filename, totalSize))
             | Some _ => ret (RespondError 500 errUnexpectedResponse)
             end
         end)
        (pending_remove serverID requestID)
  end.

Definition handleDeleteDropzoneFile (wt : wait) : HandlerFunc unit := λ r ctx,
  if String.eqb (Query r "filename") "" then ret (RespondError 400 "filename is required") else
  let filename := Base (Query r "filename") in
  if String.eqb filename "." || String.eqb filename "/"
  then ret (RespondError 400 "invalid filename") else
  let serverID := PathValue r "id" in
  let* connected := requireAgent serverID in
  if negb connected then ret (RespondError 502 errAgentNotConnected) else
  let* raw := sendAgentRequest wt serverID (λ id,
                FileDeleteRequest id (agentDropzonePath +:+ "/" +:+ filename)) in
  match raw with
  | Refuse st e => ret (RespondError st e)
  | Answer (FileDeleteResponse _ success error) =>
      if negb success then ret (RespondError 500 error) else ret (RespondJSON 204 tt)
  | Answer _ => ret (RespondError 500 errUnexpectedResponse)
  end.

Definition handleListDropzone (wt : wait) : HandlerFunc (list FileNode) := λ r ctx,
  let serverID := PathValue r "id" in
  let* connected := requireAgent serverID in
  if negb connected then ret (RespondError 502 errAgentNotConnected) else
  let* raw := sendAgentRequest wt serverID (λ id, FileListRequest id agentDropzonePath) in
  match raw with
  | Refuse st e => ret (RespondError st e)
  | Answer (FileListResponse _ files error) =>
      if negb (String.eqb error "") then ret (RespondJSON 200 []) else ret (RespondJSON 200 files)
  | Answer _ => ret (RespondError 500 errUnexpectedResponse)
  end.

End upload.

(** ** What an upload sends *)

(** The pieces a body is read in, the empty ones aside, and the error it ends with. *)
Fixpoint reads (b : body) : list bytes :=
  match b with More d rest => d :: reads rest | End d _ => [d] end.
Definition pieces (b : body) : list bytes := List.filter (λ d, negb (String.eqb d "")) (reads b).
Fixpoint read_error (b : body) : option string :=
  match b with More _ rest => read_error rest | End _ err => err end.
Definition total_size (ds : list bytes) : Z := foldr (λ d n, len d + n) 0 ds.

Definition chunk_messages (requestID filename : string) (isFirst : bool) (ds : list bytes)
  : list HubMessage :=
  match ds with
  | [] => []
  | d :: ds' => FileUploadRequest requestID (chunkFilename filename isFirst) d false ::
                map (λ d, FileUploadRequest requestID "" d false) ds'
  end.
Definition done_message (requestID : string) : HubMessage := FileUploadRequest requestID "" "" true.

Lemma total_size_nonneg (ds : list bytes) : 0 <= total_size ds.
Proof. induction ds as [|d ds IH]; simpl; unfold len in *; lia. Qed.

Lemma chunk_messages_cons (requestID filename d : string) (isFirst : bool) (ds : list bytes) :
  chunk_messages requestID filename isFirst (d :: ds) =
  FileUploadRequest requestID (chunkFilename filename isFirst) d false ::
    chunk_messages requestID filename false ds.
Proof. by destruct ds. Qed.

Section upload_spec.
Context `{E : Env}.

(** The messages went to the stream of the server's connection, after those sent before. *)
Definition sends (c : AgentConn) (ms : list HubMessage) (w w' : World) : Prop :=
  w_sent w' = w_sent w ++ map (pair (Stream c)) ms ∧ w_conns w' = w_conns w ∧
  (no_faults w → no_faults w').

Lemma sends_nil (c : AgentConn) (w : World) : sends c [] w w.
Proof. split; [|by split]. simpl. by rewrite app_nil_r. Qed.

Lemma sends_trans (c : AgentConn) (ms ms' : list HubMessage) (w w1 w2 : World) :
  sends c ms w w1 → sends c ms' w1 w2 → sends c (ms ++ ms') w w2.
Proof.
  intros (H1 & H2 & H3) (H4 & H5 & H6). split; [|split; [congruence|auto]].
  by rewrite H4, H1, map_app, app_assoc.
Qed.

Lemma SendToAgent_run (serverID : string) (c : AgentConn) (m : HubMessage) (w : World) :
  w_conns w !! serverID = Some c →
  (∃ w', SendToAgent serverID m w = (Ok tt, w') ∧ sends c [m] w w') ∨
  (¬ no_faults w ∧ ∃ e w', SendToAgent serverID m w = (Err e, w') ∧ sends c [] w w').
Proof.
  intros Hc. unfold SendToAgent, get_conn, GetConn, bind. rewrite Hc.
  unfold Send, bind, driver. cbv beta. destruct (w_faults w) as [|[e|] fs] eqn:Hf.
  - left. eexists. split; [done|]. by split.
  - right. split; [unfold no_faults; by rewrite Hf|]. do 2 eexists. split; [done|].
    split; [by rewrite app_nil_r|]. split; [done|]. unfold no_faults. by rewrite Hf.
  - left. eexists. split; [done|]. split; [done|]. split; [done|]. unfold no_faults. by rewrite Hf.
Qed.

(** What an upload of the pieces [ds] that starts with [total] bytes sent does. *)
Definition streamed (c : AgentConn) (requestID filename : string) (isFirst : bool) (ds : list bytes)
    (err : option string) (total : Z) (w : World) (r : result upload_result) (w' : World) : Prop :=
  ∃ ms, sends c ms w w' ∧ match r with
  | Ok (Sent t) => err = None ∧ t = total + total_size ds ∧ t <= maxUploadSize ∧
      ms = chunk_messages requestID filename isFirst ds ++ [done_message requestID]
  | Ok (uploadStreamError _ _) =>
      ms `prefix_of` chunk_messages requestID filename isFirst ds ∧
      (no_faults w → err ≠ None ∨ maxUploadSize < total + total_size ds)
  | Err _ => False
  end.

Lemma sendFinal_run (serverID requestID : string) (c : AgentConn) (w : World) :
  w_conns w !! serverID = Some c →
  (∃ w', sendFinalChunk serverID requestID w = (Ok None, w') ∧ sends c [done_message requestID] w w') ∨
  (¬ no_faults w ∧ ∃ w', sendFinalChunk serverID requestID w =
     (Ok (Some (uploadStreamError 502 "failed to send to agent")), w') ∧ sends c [] w w').
Proof.
  intros Hc. unfold sendFinalChunk, bind, try.
  destruct (SendToAgent_run serverID c (done_message requestID) w Hc)
    as [(w' & H & Hs)|(Hn & e & w' & H & Hs)]; unfold done_message in H; rewrite H; eauto 10.
Qed.

(** One read: it ends the upload, or sends its piece if it has one. *)
Lemma stream_read_run (serverID requestID filename d : string) (isFirst : bool) (total : Z)
    (c : AgentConn) (w : World) :
  w_conns w !! serverID = Some c → total <= maxUploadSize →
  ∃ r w', stream_read serverID requestID filename d isFirst total w = (Ok r, w') ∧
    match r with
    | inl e => (∃ st msg, e = uploadStreamError st msg) ∧ d ≠ "" ∧ sends c [] w w' ∧
        (no_faults w → maxUploadSize < total + len d)
    | inr (isFirst', total') => total' = total + len d ∧ total' <= maxUploadSize ∧
        sends c (if String.eqb d "" then [] else [FileUploadRequest requestID (chunkFilename filename isFirst) d false]) w w' ∧
        isFirst' = if String.eqb d "" then isFirst else false
    end.
Proof.
  intros Hc Ht. unfold stream_read. destruct (String.eqb_spec d "") as [->|Hd].
  { do 2 eexists. split; [done|]. unfold len. simpl. split_and!; [lia|lia|apply sends_nil|done]. }
  destruct (Z.ltb_spec maxUploadSize (total + len d)) as [Hbig|Hfit].
  { do 2 eexists. split; [done|]. split_and!; [eauto|done|apply sends_nil|done]. }
  unfold sendChunkToAgent, bind, try.
  destruct (SendToAgent_run serverID c (FileUploadRequest requestID (chunkFilename filename isFirst) d false)
    w Hc) as [(w' & -> & Hs)|(Hn & e & w' & -> & Hs)]; do 2 eexists; (split; [done|]).
  - split_and!; [done|done|done|done].
  - split_and!; [eauto|done|done|done].
Qed.

Lemma streamed_step (c : AgentConn) (requestID filename d : string) (isFirst : bool) (ds : list bytes)
    (err : option string) (total : Z) (w w1 w2 : World) (r : result upload_result) :
  sends c (if String.eqb d "" then [] else [FileUploadRequest requestID (chunkFilename filename isFirst) d false]) w w1 →
  streamed c requestID filename (if String.eqb d "" then isFirst else false) ds err (total + len d) w1 r w2 →
  streamed c requestID filename isFirst (if String.eqb d "" then ds else d :: ds) err total w r w2.
Proof.
  intros Hs (ms & Hms & Hr). eexists. split; [by eapply sends_trans|].
  assert (Hnf : no_faults w → no_faults w1) by by destruct Hs as (_ & _ & ?).
  destruct (String.eqb_spec d "") as [->|Hd]; simpl app.
  - replace (total + len "") with total in Hr by (unfold len; simpl; lia).
    destruct r as [[t|st e]|e]; [done| |done]. destruct Hr. auto.
  - rewrite chunk_messages_cons. simpl total_size.
    destruct r as [[t|st e]|e]; [| |done].
    + destruct Hr as (-> & -> & Hmax & ->). split_and!; [done|lia|lia|by destruct ds].
    + destruct Hr as [Hp Hf]. split; [by apply prefix_cons|].
      intros Hw. destruct (Hf (Hnf Hw)); [by left|right; lia].
Qed.

Lemma streamed_refused (c : AgentConn) (requestID filename d : string) (isFirst : bool)
    (ds : list bytes) (err : option string) (total st : Z) (msg : string) (w w' : World) :
  d ≠ "" → sends c [] w w' → (no_faults w → maxUploadSize < total + len d) →
  streamed c requestID filename isFirst (if String.eqb d "" then ds else d :: ds) err total w
    (Ok (uploadStreamError st msg)) w'.
Proof.
  intros Hd Hs Hbig. exists []. split; [done|]. split; [apply prefix_nil|]. intros Hw.
  destruct (String.eqb_spec d ""); [done|]. right. simpl. specialize (Hbig Hw).
  assert (H := total_size_nonneg ds). lia.
Qed.

Lemma pieces_More (d : bytes) (rest : body) :
  pieces (More d rest) = if String.eqb d "" then pieces rest else d :: pieces rest.
Proof. unfold pieces. simpl. by destruct (String.eqb d ""). Qed.

Lemma stream_loop_run (serverID requestID filename : string) (file : body) (isFirst : bool) (total : Z)
    (c : AgentConn) (w : World) :
  w_conns w !! serverID = Some c → total <= maxUploadSize →
  let '(r, w') := stream_loop_file serverID requestID filename file isFirst total w in
  streamed c requestID filename isFirst (pieces file) (read_error file) total w r w'.
Proof.
  revert isFirst total w. induction file as [d rest IH|d err]; intros isFirst total w Hc Ht; simpl.
  - unfold bind. destruct (stream_read_run serverID requestID filename d isFirst total c w Hc Ht)
      as (r & w1 & -> & Hr). rewrite pieces_More. destruct r as [e|[f t]].
    + destruct Hr as ((st & msg & ->) & Hd & Hs & Hbig). simpl. by apply streamed_refused.
    + destruct Hr as (-> & Hmax & Hs & ->).
      assert (Hc1 : w_conns w1 !! serverID = Some c) by (destruct Hs as (_ & -> & _); done).
      specialize (IH (if String.eqb d "" then isFirst else false) (total + len d) w1 Hc1 Hmax).
      destruct (stream_loop_file _ _ _ rest _ _ w1) as [r w2]. by eapply streamed_step.
  - unfold bind. destruct (stream_read_run serverID requestID filename d isFirst total c w Hc Ht)
      as (r & w1 & -> & Hr).
    assert (Hp : pieces (End d err) = if String.eqb d "" then [] else d :: [])
      by (unfold pieces; simpl; by destruct (String.eqb d "")).
    rewrite Hp. destruct r as [e|[f t]].
    + destruct Hr as ((st & msg & ->) & Hd & Hs & Hbig). simpl. by apply streamed_refused.
    + destruct Hr as (-> & Hmax & Hs & ->).
      assert (Hc1 : w_conns w1 !! serverID = Some c) by (destruct Hs as (_ & -> & _); done).
      destruct err as [err|]; simpl.
      * eapply streamed_step; [exact Hs|]. exists []. split; [apply sends_nil|].
        split; [apply prefix_nil|]. intros _. by left.
      * destruct (sendFinal_run serverID requestID c w1 Hc1) as [(w2 & -> & Hf)|(Hn & w2 & -> & Hf)];
          (eapply streamed_step; [exact Hs|]); simpl.
        -- eexists. split; [exact Hf|]. simpl. split_and!; [done|lia|done|done].
        -- eexists. split; [exact Hf|]. split; [apply prefix_nil|done].
Qed.
End upload_spec.

(** C18: An upload reaches the agent whole or is never completed.  On success the agent's stream
    carried, in order, the non-empty pieces of the file, the first under the file's name and the
    others under none, and then the end marker; the size reported is the file's and at most
    100 MB.  On any error only a prefix of the pieces was sent and no end marker; when no send
    fails, the only errors are a failed read and a file that is too large. *)
Theorem upload_stream_spec `{E : Env} (serverID requestID filename : string) (file : body)
    (c : AgentConn) (w : World) (Hc : w_conns w !! serverID = Some c) :
  let '(r, w') := streamFileToAgent serverID requestID filename file w in
  ∃ ms, w_sent w' = w_sent w ++ map (pair (Stream c)) ms ∧ match r with
  | Ok (Sent total) => read_error file = None ∧ total = total_size (pieces file) ∧ total <= maxUploadSize ∧
      ms = chunk_messages requestID filename true (pieces file) ++ [done_message requestID]
  | Ok (uploadStreamError _ _) =>
      ms `prefix_of` chunk_messages requestID filename true (pieces file) ∧
      (no_faults w → read_error file ≠ None ∨ maxUploadSize < total_size (pieces file))
  | Err _ => False
  end.
Proof.
  assert (H := stream_loop_run serverID requestID filename file true 0 c w Hc ltac:(done)).
  unfold streamFileToAgent. destruct (stream_loop_file _ _ _ _ _ _ w) as [r w'].
  destruct H as (ms & (Hs & _) & Hr). exists ms. split; [done|]. by destruct r as [[]|].
Qed.

Section witnesses.
#[local] Existing Instance demoEnv.

Definition demo_slot_ops : list slot_op :=
  [Acquire "s1" "u1" "viewer"; Acquire "s1" "u2" "admin"; Release "s1" "u1"; Release "s1" "u1"].

Lemma log_stream_caps_witness :
  let s := fold_left slot_step demo_slot_ops (∅, []) in
  s.2 = [("s1", "u2")] ∧ default 0 (s.1 !! slot_key "s1" "u2") = live "s1" "u2" s.2.
Proof.
  destruct (log_stream_caps demo_slot_ops) as (H & _ & _).
  { repeat (apply Forall_cons_2; [reflexivity|]). apply Forall_nil_2. }
  split; [by vm_compute|]. by apply H.
Defined.

Definition demo_body : body := More "ab" (More "" (End "c" None)).

Lemma upload_stream_spec_witness :
  match streamFileToAgent "s2" "r1" "f.txt" demo_body demo_agents with
  | (Ok (Sent total), w') => total = 3 ∧ w_sent w' = map (pair 7%nat)
      [FileUploadRequest "r1" "f.txt" "ab" false; FileUploadRequest "r1" "" "c" false;
       FileUploadRequest "r1" "" "" true]
  | _ => False
  end.
Proof.
  assert (H := upload_stream_spec "s2" "r1" "f.txt" demo_body (MkAgentConn "s2" 7 (990 * NS))
                 demo_agents ltac:(by vm_compute)).
  destruct (streamFileToAgent "s2" "r1" "f.txt" demo_body demo_agents) as [[[total|st e]|e] w'] eqn:E';
    [|by vm_compute in E'..].
  destruct H as (ms & -> & _ & -> & _ & ->). split; by vm_compute.
Defined.
End witnesses.
