(* ===== verification/Secrets.v ===== *)
(** * Secrets at rest (hub/internal/auth/encrypt.go; encryptTOTPSecret and decryptTOTPSecret of
    hub/internal/server/handlers_auth.go, encryptConfigSecret and decryptConfigSecret of
    ldap_auth.go). *)

From S2P Require Import Prelude GoStr GoTime Model Db Demo.

(** ** AES-GCM and the random source *)

Class Crypto := {
  sha256_sum : string → string;                        (* sha256.Sum256 *)
  gcm_seal : string → string → string → string;        (* key, nonce, plaintext *)
  gcm_open : string → string → string → result string; (* key, nonce, ciphertext *)
  rand_bytes : nat → nat → result string               (* io.ReadFull(rand.Reader) *)
}.
(** Opening what was sealed with the same key and nonce gives the plaintext back. *)
Class CryptoLaws (C : Crypto) := {
  gcm_roundtrip : ∀ key nonce p, gcm_open key nonce (gcm_seal key nonce p) = Ok p;
  rand_bytes_length : ∀ i n s, rand_bytes i n = Ok s → String.length s = n
}.

(** ** encoding/hex *)

Definition hex_digit (n : Z) : ascii := ascii_of_nat (Z.to_nat (if n <? 10 then 48 + n else 87 + n)).
Definition hex_val (a : ascii) : option Z :=
  let c := Z.of_nat (nat_of_ascii a) in
  if (48 <=? c) && (c <=? 57) then Some (c - 48)
  else if (97 <=? c) && (c <=? 102) then Some (c - 87)
  else if (65 <=? c) && (c <=? 70) then Some (c - 55) else None.

Fixpoint hex_encode (s : string) : string :=
  match s with
  | EmptyString => ""
  | String a s' =>
      let c := Z.of_nat (nat_of_ascii a) in
      String (hex_digit (Z.shiftr c 4)) (String (hex_digit (Z.land c 15)) (hex_encode s'))
  end.
(** hex.DecodeString; [None] for a byte that is no digit and for an odd length. *)
Fixpoint hex_decode (s : string) : option string :=
  match s with
  | EmptyString => Some ""
  | String a (String b s') =>
      match hex_val a, hex_val b, hex_decode s' with
      | Some h, Some l, Some r =>
          Some (String (ascii_of_nat (Z.to_nat (Z.lor (Z.shiftl h 4) l))) r)
      | _, _, _ => None
      end
  | String _ EmptyString => None
  end.

Section secrets.
Context `{C : Crypto}.

(** ** encrypt.go *)

Definition NonceSize : nat := 12.

Definition DeriveKey (secret : string) : string := sha256_sum secret.

(** The 256-bit keys of [DeriveKey] are valid AES keys. *)
Definition Encrypt (plaintext key : string) : M string :=
  let* r := draw (λ i, rand_bytes i NonceSize) in
  match r with
  | Err e => fail e
  | Ok nonce => ret (nonce +:+ gcm_seal key nonce plaintext)
  end.

Definition Decrypt (ciphertext key : string) : result string :=
  if (String.length ciphertext <? NonceSize)%nat then Err "ciphertext too short" else
  gcm_open key (String.substring 0 NonceSize ciphertext) (drop_str NonceSize ciphertext).

(** ** Stored secrets *)

Definition encPrefix : string := "enc:".

Definition encryptConfigSecret (jwtSecret secret : string) : M string :=
  let* encrypted := Encrypt secret (DeriveKey jwtSecret) in
  ret (encPrefix +:+ hex_encode encrypted).

(** A value without the prefix is plaintext. *)
Definition decryptConfigSecret (jwtSecret stored : string) : result string :=
  if negb (HasPrefix stored encPrefix) then Ok stored else
  match hex_decode (drop_str 4 stored) with
  | None => Err "invalid encrypted secret format"
  | Some data => Decrypt data (DeriveKey jwtSecret)
  end.

(** The TOTP secrets are stored the same way. *)
Definition encryptTOTPSecret (jwtSecret secret : string) : M string :=
  let* encrypted := Encrypt secret (DeriveKey jwtSecret) in
  ret (encPrefix +:+ hex_encode encrypted).
Definition decryptTOTPSecret (jwtSecret encrypted : string) : result string :=
  if negb (HasPrefix encrypted encPrefix) then Ok encrypted else
  match hex_decode (drop_str 4 encrypted) with
  | None => Err "invalid encrypted TOTP secret format"
  | Some data => Decrypt data (DeriveKey jwtSecret)
  end.

End secrets.

(** ** Round trip *)

Lemma hex_byte (a : ascii) :
  let c := Z.of_nat (nat_of_ascii a) in
  hex_val (hex_digit (Z.shiftr c 4)) = Some (Z.shiftr c 4) ∧
  hex_val (hex_digit (Z.land c 15)) = Some (Z.land c 15) ∧
  ascii_of_nat (Z.to_nat (Z.lor (Z.shiftl (Z.shiftr c 4) 4) (Z.land c 15))) = a.
Proof. by destruct a as [[] [] [] [] [] [] [] []]; vm_compute. Qed.

Lemma hex_roundtrip (s : string) : hex_decode (hex_encode s) = Some s.
Proof.
  induction s as [|a s IH]; [done|]. cbn [hex_encode hex_decode].
  destruct (hex_byte a) as (H1 & H2 & H3). rewrite H1, H2, IH. by rewrite H3.
Qed.

Lemma substring_app (a b : string) : String.substring 0 (String.length a) (a +:+ b) = a.
Proof. induction a as [|c a IH]; [by destruct b|]. simpl. by rewrite IH. Qed.

Lemma drop_str_app (a b : string) : drop_str (String.length a) (a +:+ b) = b.
Proof. induction a as [|c a IH]; [by destruct b|]. simpl. done. Qed.

Lemma Decrypt_sealed `{C : Crypto, !CryptoLaws C} (key nonce p : string) :
  String.length nonce = NonceSize → Decrypt (nonce +:+ gcm_seal key nonce p) key = Ok p.
Proof.
  intros Hn. unfold Decrypt. rewrite length_app_str, Hn.
  destruct (Nat.ltb_spec (NonceSize + String.length (gcm_seal key nonce p)) NonceSize); [lia|].
  rewrite <- Hn, substring_app, drop_str_app. apply gcm_roundtrip.
Qed.

Lemma stored_secret_run `{C : Crypto, !CryptoLaws C} (jwtSecret secret : string) (w : World) :
  match encryptConfigSecret jwtSecret secret w with
  | (Ok stored, w') => HasPrefix stored encPrefix = true ∧
      decryptConfigSecret jwtSecret stored = Ok secret ∧
      decryptTOTPSecret jwtSecret stored = Ok secret ∧
      encryptTOTPSecret jwtSecret secret w = (Ok stored, w') ∧ w' = w <| w_draws ::= S |>
  | (Err _, w') => ∃ e, rand_bytes (w_draws w) NonceSize = Err e
  end.
Proof.
  unfold encryptConfigSecret, encryptTOTPSecret, Encrypt, bind, draw.
  destruct (rand_bytes (w_draws w) NonceSize) as [nonce|e] eqn:Hr; unfold ret; cbv beta iota; [|by exists e].
  apply rand_bytes_length in Hr. set (ct := gcm_seal _ _ _).
  assert (Hp : HasPrefix (encPrefix +:+ hex_encode (nonce +:+ ct)) encPrefix = true) by apply prefix_app.
  assert (Hd : drop_str 4 (encPrefix +:+ hex_encode (nonce +:+ ct)) = hex_encode (nonce +:+ ct))
    by apply (drop_str_app encPrefix).
  assert (Hdec : Decrypt (nonce +:+ ct) (DeriveKey jwtSecret) = Ok secret).
  { by apply Decrypt_sealed. }
  unfold decryptConfigSecret, decryptTOTPSecret. rewrite Hp, Hd, hex_roundtrip, Hdec. done.
Qed.

(** A secret the hub encrypts for storage is recovered exactly, with the prefix that marks it
    and whatever bytes it has; encryption only fails with the random source, and changes nothing
    but the draw. *)
Theorem stored_secret_roundtrip `{C : Crypto, !CryptoLaws C} (jwtSecret secret : string) (w : World) :
  match encryptConfigSecret jwtSecret secret w with
  | (Ok stored, w') => HasPrefix stored encPrefix = true ∧
      decryptConfigSecret jwtSecret stored = Ok secret ∧
      decryptTOTPSecret jwtSecret stored = Ok secret ∧
      encryptTOTPSecret jwtSecret secret w = (Ok stored, w') ∧ w' = w <| w_draws ::= S |>
  | (Err _, w') => ∃ e, rand_bytes (w_draws w) NonceSize = Err e
  end.
Proof. apply stored_secret_run. Qed.

(** ** A toy cipher *)

Section witnesses.
Definition demo_crypto : Crypto := {|
  sha256_sum := λ s, "k" +:+ s;
  gcm_seal := λ key nonce p, String.substring 0 (String.length p) p;
  gcm_open := λ key nonce c, Ok c;
  rand_bytes := λ i n, Ok (Demo.rep "r" n)
|}.
Lemma demo_crypto_laws : CryptoLaws demo_crypto.
Proof.
  split; simpl.
  - intros _ _ p. f_equal. induction p as [|a p IH]; simpl; [done|by rewrite IH].
  - intros i n s [= <-]. apply rep_length.
Qed.

Lemma stored_secret_roundtrip_witness :
  match @encryptConfigSecret demo_crypto "jwt" "pass" (demo_world empty_db) with
  | (Ok stored, _) => stored = "enc:72727272727272727272727270617373" ∧
      @decryptConfigSecret demo_crypto "jwt" stored = Ok "pass"
  | _ => False
  end.
Proof.
  assert (H := @stored_secret_roundtrip demo_crypto demo_crypto_laws "jwt" "pass" (demo_world empty_db)).
  destruct (@encryptConfigSecret demo_crypto "jwt" "pass" (demo_world empty_db)) as [[stored|e] w'] eqn:E;
    [|by vm_compute in E].
  destruct H as (_ & H & _). split; [|exact H]. vm_compute in E. congruence.
Defined.
End witnesses.
