(* ===== verification/Ldap.v ===== *)
(** * Directory sign-in (hub/internal/server/ldap_auth.go).

    A directory answers binds and searches; a connection remembers who it is bound as.  Dialling
    and TLS are the caller's [connect]. *)

From S2P Require Import Prelude GoStr GoTime Model Db Demo StoreConfig StoreUsers Auth Secrets Http.

(** ** strings *)

(** unicode.IsSpace *)
Definition IsSpace (r : Z) : bool :=
  in_z 9 13 r || (r =? 32) || (r =? 133) || (r =? 160) || (r =? 5760) || in_z 8192 8202 r ||
  (r =? 8232) || (r =? 8233) || (r =? 8239) || (r =? 8287) || (r =? 12288).

(** The runes of a string, each with its bytes. *)
Fixpoint segments (fuel : nat) (s : string) : list (Z * string) :=
  match fuel, s with
  | S f, String a s' =>
      let '(r, rest) := decode_rune (byte_val a) (byte_val <$> String.list_ascii_of_string s') in
      let n := (String.length s - length rest)%nat in
      (r, String.substring 0 n s) :: segments f (drop_str n s)
  | _, _ => []
  end.

Fixpoint drop_spaces (l : list (Z * string)) : list (Z * string) :=
  match l with
  | (r, b) :: l' => if IsSpace r then drop_spaces l' else l
  | [] => []
  end.

Definition TrimSpace (s : string) : string :=
  Join "" (rev (drop_spaces (rev (drop_spaces (segments (String.length s) s))))).*2.

(** ASCII letters only: no other rune lowers to a letter of the words compared with. *)
Definition lower_ascii (a : ascii) : ascii :=
  if is_upper a then ascii_of_nat (nat_of_ascii a + 32) else a.
Fixpoint ToLower (s : string) : string :=
  match s with EmptyString => "" | String a s' => String (lower_ascii a) (ToLower s') end.

(** [strings.ReplaceAll(s, old, new)] for a non-empty [old]; [fuel] bounds the string. *)
Fixpoint replace_all (fuel : nat) (s old new : string) : string :=
  match fuel, s with
  | S f, String a s' =>
      if HasPrefix s old then new +:+ replace_all f (drop_str (String.length old) s) old new
      else String a (replace_all f s' old new)
  | _, _ => s
  end.
Definition ReplaceAll (s old new : string) : string := replace_all (String.length s) s old new.

Definition firstNonEmpty (values : list string) : string :=
  default "" (List.find (λ v, negb (String.eqb v "")) values).

(** ** The directory *)

Record Entry := MkEntry { DN : string; GetAttributeValue : string → string }.

(** [Bind] of a DN with a password, and [Search] as someone, under a base with a filter. *)
Record Directory := MkDirectory {
  Bind : string → string → result unit;
  Search : option string → string → string → result (list Entry)
}.

Record LDAPConfig := MkLDAPConfig {
  Enabled : bool; URL : string; BindDN : string; BindPassword : string; UserBaseDN : string;
  UserSearchFilter : string; GroupBaseDN : string; GroupSearchFilter : string;
  UsernameAttribute : string; EmailAttribute : string; ExternalIDAttribute : string;
  GroupNameAttribute : string; StartTLS : bool; TLSServerName : string; CACertPEM : string;
  AllowInsecure : bool
}.

Record LDAPIdentity := MkLDAPIdentity {
  li_Username : string; li_Email : string; li_DN : string; li_ExternalID : string;
  li_Groups : list string
}.

Definition errInvalidLDAPCredentials : string := "invalid LDAP credentials".

Section ldap.
Context (escape_filter : string → string).  (* ldap.EscapeFilter *)

(** The values in the order the map is ranged over. *)
Definition renderLDAPFilter (template : string) (values : list (string * string)) : string :=
  fold_left (λ rendered kv, ReplaceAll rendered ("{" +:+ kv.1 +:+ "}") (escape_filter kv.2))
    values template.

Definition rbind {A B : Type} (r : result A) (k : A → result B) : result B :=
  match r with Ok a => k a | Err e => Err e end.
Notation "'let?' x ':=' m 'in' k" := (rbind m (λ x, k))
  (at level 10, x pattern, m at level 100, k at level 200).
Definition wrap_err {A : Type} (prefix : string) (r : result A) : result A :=
  match r with Ok a => Ok a | Err e => Err (prefix +:+ ": " +:+ e) end.
Definition replace_err {A : Type} (msg : string) (r : result A) : result A :=
  match r with Ok a => Ok a | Err _ => Err msg end.

Definition findUser (cfg : LDAPConfig) (d : Directory) (as_ : option string) (username : string)
  : result Entry :=
  let filter := renderLDAPFilter (UserSearchFilter cfg) [("username", username)] in
  let? entries := wrap_err "search LDAP user" (Search d as_ (UserBaseDN cfg) filter) in
  match entries with
  | [e] => Ok e
  | _ => Err errInvalidLDAPCredentials
  end.

(** [values] in the order of the map. *)
Definition findGroups (order : list (string * string) → list (string * string)) (cfg : LDAPConfig)
    (d : Directory) (as_ : option string) (userDN username : string) : list string :=
  if String.eqb (GroupBaseDN cfg) "" then [] else
  let filter := renderLDAPFilter (GroupSearchFilter cfg) (order [("dn", userDN); ("username", username)]) in
  match Search d as_ (GroupBaseDN cfg) filter with
  | Err _ => []
  | Ok entries =>
      List.filter (λ g, negb (String.eqb g "")) (map (λ e, GetAttributeValue e (GroupNameAttribute cfg)) entries)
  end.

(** [connect]: dialling, with the errors of TLS. *)
Definition Authenticate (order : list (string * string) → list (string * string)) (cfg : LDAPConfig)
    (connect : result Directory) (username password : string) : result LDAPIdentity :=
  if String.eqb (TrimSpace username) "" || String.eqb password ""
  then Err errInvalidLDAPCredentials else
  let? conn := wrap_err "connect LDAP" connect in
  let service := if String.eqb (BindDN cfg) "" then None else Some (BindDN cfg) in
  let bind_service what :=
    match service with
    | None => Ok tt
    | Some dn => wrap_err (what +:+ " LDAP service account") (Bind conn dn (BindPassword cfg))
    end in
  let? _ := bind_service "bind" in
  let? userEntry := findUser cfg conn service username in
  let? _ := replace_err errInvalidLDAPCredentials (Bind conn (DN userEntry) password) in
  let? _ := bind_service "rebind" in
  let bound := match service with Some dn => Some dn | None => Some (DN userEntry) end in
  let ldapUsername := firstNonEmpty [GetAttributeValue userEntry (UsernameAttribute cfg); username] in
  Ok (MkLDAPIdentity ldapUsername (GetAttributeValue userEntry (EmailAttribute cfg)) (DN userEntry)
        (GetAttributeValue userEntry (ExternalIDAttribute cfg))
        (findGroups order cfg conn bound (DN userEntry) ldapUsername)).

(** ** Roles *)

Definition hasAnyLDAPGroup (groups allowed : list string) : bool :=
  existsb (λ g, existsb (String.eqb g) groups) allowed.

Definition defaultLDAPRoleGroups : list (string * list string) :=
  [ (RoleAdmin, ["veyport-admins"]); (RoleAuditor, ["veyport-auditors"]);
    (RoleViewer, ["veyport-viewers"]) ].
Definition defaultLDAPTerminalGroups : list string := ["veyport-terminal-users"].

(** In the order admin, auditor, viewer. *)
Definition mapLDAPRole (groups : list string) : option string :=
  fst <$> List.find (λ rg, hasAnyLDAPGroup groups rg.2) defaultLDAPRoleGroups.

(** ** Configuration *)

Context `{E : Env, C : Crypto, N : NetEnv}.

Definition configString (key : string) : M string :=
  let* v := try (LookupConfig key) in
  ret match v with Ok (Some value) => value | _ => "" end.

Definition configBool (key : string) : M bool :=
  let* v := configString key in
  let value := ToLower (TrimSpace v) in
  ret (existsb (String.eqb value) ["true"; "1"; "yes"; "on"]).

Definition config_default (key fallback : string) : M string :=
  let* v := configString key in ret (firstNonEmpty [v; fallback]).

Definition loadLDAPConfig (jwtSecret : string) : M LDAPConfig :=
  let* enabled := configBool "ldap.enabled" in
  let* url := configString "ldap.url" in
  let* bindDN := configString "ldap.bind_dn" in
  let* stored := configString "ldap.bind_password" in
  let* password := if String.eqb stored "" then ret "" else
                   match decryptConfigSecret jwtSecret stored with
                   | Ok p => ret p
                   | Err e => fail ("decrypt LDAP bind password: " +:+ e)
                   end in
  let* userBase := configString "ldap.user_base_dn" in
  let* groupBase := configString "ldap.group_base_dn" in
  let* userFilter := config_default "ldap.user_search_filter" "(uid={username})" in
  let* groupFilter := config_default "ldap.group_search_filter"
                        "(|(member={dn})(memberUid={username}))" in
  let* usernameAttr := config_default "ldap.username_attribute" "uid" in
  let* emailAttr := config_default "ldap.email_attribute" "mail" in
  let* externalAttr := config_default "ldap.external_id_attribute" "entryUUID" in
  let* groupAttr := config_default "ldap.group_name_attribute" "cn" in
  let* startTLS := configBool "ldap.start_tls" in
  let* serverName := configString "ldap.tls_server_name" in
  let* caCert := configString "ldap.ca_cert_pem" in
  let* insecure := configBool "ldap.allow_insecure_transport" in
  ret (MkLDAPConfig enabled url bindDN password userBase userFilter groupBase groupFilter
         usernameAttr emailAttr externalAttr groupAttr startTLS serverName caCert insecure).

Definition validateLDAPTransport (cfg : LDAPConfig) : result unit :=
  if AllowInsecure cfg then Ok tt else
  match url_parse (URL cfg) with
  | None => Err "invalid LDAP URL"
  | Some (scheme, _) =>
      let scheme := ToLower scheme in
      if String.eqb scheme "ldaps" then Ok tt else
      if String.eqb scheme "ldap" then
        if StartTLS cfg then Ok tt
        else Err "LDAP secure transport required: use ldaps:// or ldap.start_tls=true"
      else Err "unsupported LDAP URL scheme"
  end.

(** [None]: LDAP is not enabled. *)
Definition loadLDAPAuthenticator (jwtSecret : string) : M (option LDAPConfig) :=
  let* cfg := loadLDAPConfig jwtSecret in
  if negb (Enabled cfg) then ret None else
  if String.eqb (URL cfg) "" || String.eqb (UserBaseDN cfg) ""
  then fail "LDAP configuration is incomplete" else
  match validateLDAPTransport cfg with
  | Err e => fail e
  | Ok _ => ret (Some cfg)
  end.

(** [dial]: the directory a configuration leads to.  The server's own authenticator is not set
    outside tests. *)
Definition authenticateLDAPLogin (order : list (string * string) → list (string * string))
    (dial : LDAPConfig → result Directory) (jwtSecret username password : string) : M User :=
  let* authenticator := loadLDAPAuthenticator jwtSecret in
  match authenticator with
  | None => fail "LDAP authentication is not configured"
  | Some cfg =>
      match Authenticate order cfg (dial cfg) username password with
      | Err e => fail e
      | Ok identity =>
          match mapLDAPRole (li_Groups identity) with
          | None => fail "LDAP user is not authorized for Veyport"
          | Some role =>
              UpsertLDAPUser (zeroUser
                <| u_Username := firstNonEmpty [li_Username identity; username] |>
                <| u_Email := li_Email identity |> <| u_Role := role |>
                <| u_ExternalID := li_ExternalID identity |> <| u_LDAPDN := li_DN identity |>
                <| u_LDAPUsername := firstNonEmpty [li_Username identity; username] |>
                <| u_TerminalAccess := hasAnyLDAPGroup (li_Groups identity) defaultLDAPTerminalGroups |>)
          end
      end
  end.

(** ** Lemmas *)

Lemma reads_configString (key : string) : reads (configString key).
Proof. unfold configString, LookupConfig. readers. Qed.
Hint Resolve reads_configString : reads.
Lemma reads_loadLDAPAuthenticator (jwtSecret : string) : reads (loadLDAPAuthenticator jwtSecret).
Proof. unfold loadLDAPAuthenticator, loadLDAPConfig, configBool, config_default. readers. Qed.

(** The transport of a configuration protects the password, or the operator gave that up. *)
Definition secure_transport (cfg : LDAPConfig) : Prop :=
  AllowInsecure cfg = true ∨
  ∃ scheme host, url_parse (URL cfg) = Some (scheme, host) ∧
    (ToLower scheme = "ldaps" ∨ ToLower scheme = "ldap" ∧ StartTLS cfg = true).

Lemma loadLDAPAuthenticator_checked (jwtSecret : string) (w w' : World) (cfg : LDAPConfig) :
  loadLDAPAuthenticator jwtSecret w = (Ok (Some cfg), w') →
  Enabled cfg = true ∧ URL cfg ≠ "" ∧ UserBaseDN cfg ≠ "" ∧ secure_transport cfg.
Proof.
  unfold loadLDAPAuthenticator. intros H. apply bind_Ok in H as (c & w1 & _ & H).
  destruct (Enabled c) eqn:He; [|done]. cbn [negb] in H.
  destruct (String.eqb_spec (URL c) "") as [|Hu]; [done|].
  destruct (String.eqb_spec (UserBaseDN c) "") as [|Hb]; [done|]. cbn [orb] in H.
  destruct (validateLDAPTransport c) as [[]|e] eqn:Hv; [|done]. injection H as <- _.
  split_and!; [done..|]. unfold validateLDAPTransport in Hv. unfold secure_transport.
  destruct (AllowInsecure c); [by left|]. right.
  destruct (url_parse (URL c)) as [[scheme host]|]; [|done]. exists scheme, host. split; [done|].
  destruct (String.eqb_spec (ToLower scheme) "ldaps"); [by left|].
  destruct (String.eqb_spec (ToLower scheme) "ldap"); [|done]. right. by destruct (StartTLS c).
Qed.

(** What a successful [Authenticate] has checked. *)
Record proven (cfg : LDAPConfig) (connect : result Directory) (username password : string)
    (identity : LDAPIdentity) (conn : Directory) (e : Entry) : Prop := {
  pr_connect : connect = Ok conn;
  pr_password : password ≠ "";
  pr_username : TrimSpace username ≠ "";
  pr_service : BindDN cfg ≠ "" → Bind conn (BindDN cfg) (BindPassword cfg) = Ok tt;
  pr_unique : Search conn (if String.eqb (BindDN cfg) "" then None else Some (BindDN cfg))
    (UserBaseDN cfg) (renderLDAPFilter (UserSearchFilter cfg) [("username", username)]) = Ok [e];
  pr_bind : Bind conn (DN e) password = Ok tt;
  pr_dn : li_DN identity = DN e
}.

Lemma Authenticate_proves order (cfg : LDAPConfig) (connect : result Directory)
    (username password : string) (identity : LDAPIdentity) :
  Authenticate order cfg connect username password = Ok identity →
  ∃ conn e, proven cfg connect username password identity conn e.
Proof.
  unfold Authenticate. destruct (String.eqb_spec (TrimSpace username) "") as [|Hu]; [done|].
  destruct (String.eqb_spec password "") as [|Hp]; [done|]. cbn [orb].
  destruct connect as [conn|e]; [|done]. cbn [wrap_err rbind]. intros H. exists conn.
  assert (Hs : BindDN cfg ≠ "" → Bind conn (BindDN cfg) (BindPassword cfg) = Ok tt).
  { intros Hb. destruct (String.eqb_spec (BindDN cfg) ""); [done|]. cbn in H.
    by destruct (Bind conn (BindDN cfg) (BindPassword cfg)) as [[]|e]. }
  destruct (findUser cfg conn _ username) as [entry|e] eqn:Hf.
  2:{ exfalso. clear Hs. by destruct (match _ with Some _ => _ | None => _ end) as [[]|]. }
  exists entry. assert (Hb : Bind conn (DN entry) password = Ok tt ∧ li_DN identity = DN entry).
  { destruct (match _ with Some _ => _ | None => _ end) as [[]|]; [|done]. cbn [rbind] in H.
    destruct (Bind conn (DN entry) password) as [[]|]; [|done]. cbn [replace_err rbind] in H. split; [done|].
    destruct (match _ with Some _ => _ | None => _ end) as [[]|]; [|done]. by injection H as <-. }
  destruct Hb. split; try done. unfold findUser in Hf. destruct (Search _ _ _ _) as [es|]; [|done].
  cbn in Hf. destruct es as [|e1 [|]]; try done. by injection Hf as ->.
Qed.

End ldap.

(** A directory sign-in succeeds only for someone who proved the directory's password: over a
    protected connection, the service search found exactly one entry for the name typed, a bind as
    that entry with the non-empty password typed succeeded, and the entry's groups grant a role.
    The account returned has that role, the highest the groups grant, and the terminal access of
    the groups; no local account was touched. *)
Theorem ldap_signin_proven `{E : Env, C : Crypto, N : NetEnv} (escape : string → string)
    (order : list (string * string) → list (string * string)) (dial : LDAPConfig → result Directory)
    (jwtSecret username password : string) (w : World)
    (Hv : db_violation (w_fk w) (w_db w) = None) :
  match authenticateLDAPLogin escape order dial jwtSecret username password w with
  | (Ok user, w') => ∃ cfg conn e identity,
      secure_transport cfg ∧ proven escape cfg (dial cfg) username password identity conn e ∧
      mapLDAPRole (li_Groups identity) = Some (u_Role user) ∧
      u_TerminalAccess user = hasAnyLDAPGroup (li_Groups identity) defaultLDAPTerminalGroups ∧
      u_AuthProvider user = AuthProviderLDAP ∧
      (∀ v, v ∈ d_users (w_db w) → u_AuthProvider v ≠ AuthProviderLDAP → v ∈ d_users (w_db w'))
  | (Err _, w') => ∀ v, v ∈ d_users (w_db w) → u_AuthProvider v ≠ AuthProviderLDAP → v ∈ d_users (w_db w')
  end.
Proof.
  unfold authenticateLDAPLogin, bind.
  destruct (reads_tables (loadLDAPAuthenticator jwtSecret) w (reads_loadLDAPAuthenticator jwtSecret))
    as (r & w1 & Hl & Hdb & Hfk & _). rewrite Hl, <- Hdb in *. rewrite <- Hfk in Hv.
  destruct r as [[cfg|]|e]; [|by intros v Hin _..].
  apply loadLDAPAuthenticator_checked in Hl as (_ & _ & _ & Hsec).
  destruct (Authenticate _ order cfg _ username password) as [identity|e] eqn:Ha; [|by intros v Hin _].
  apply Authenticate_proves in Ha as (conn & e & Hp).
  destruct (mapLDAPRole (li_Groups identity)) as [role|] eqn:Hr; [|by intros v Hin _].
  match goal with |- context [UpsertLDAPUser ?u w1] => assert (H := UpsertLDAPUser_run u w1 Hv) end.
  unfold wp in H. destruct (UpsertLDAPUser _ w1) as [[v|e'] w']; destruct H as [Hloc H]; [|exact Hloc].
  destruct H as (H1 & H2 & H3 & _). exists cfg, conn, e, identity. simpl in *. rewrite H2, H3.
  split_and!; done.
Qed.

Section witnesses.
#[local] Existing Instance demoEnv.
#[local] Existing Instance demo_crypto.
Definition demo_ldap_net : NetEnv := {| loopback_ip := λ _, false;
  url_parse := λ s, if HasPrefix s "ldaps://" then Some ("ldaps", TrimPrefix s "ldaps://") else None |}.
#[local] Existing Instance demo_ldap_net.

Definition demo_entry (dn : string) (attrs : list (string * string)) : Entry :=
  MkEntry dn (λ a, default "" (snd <$> List.find (λ kv, String.eqb kv.1 a) attrs)).
Definition demo_directory : Directory := MkDirectory
  (λ dn pw, if String.eqb dn "uid=ann" && String.eqb pw "pw" then Ok tt else Err "invalid credentials")
  (λ _ base filter,
     if String.eqb filter "(uid=ann)" then Ok [demo_entry "uid=ann" [("uid", "ann"); ("mail", "ann@x")]]
     else if String.eqb base "groups" then Ok [demo_entry "cn=a" [("cn", "veyport-auditors")];
                                              demo_entry "cn=v" [("cn", "veyport-viewers")]]
     else Ok []).
Definition demo_db_directory : Db := empty_db <| d_config := list_to_map
  [("ldap.enabled", " True"); ("ldap.url", "ldaps://dir"); ("ldap.user_base_dn", "people");
   ("ldap.group_base_dn", "groups")] |>.

Lemma ldap_signin_proven_witness :
  match authenticateLDAPLogin id id (λ _, Ok demo_directory) "jwt" "ann" "pw"
          (demo_world demo_db_directory) with
  | (Ok user, _) => u_Role user = RoleAuditor ∧ u_AuthProvider user = AuthProviderLDAP
  | _ => False
  end.
Proof.
  assert (H := ldap_signin_proven id id (λ _, Ok demo_directory) "jwt" "ann" "pw"
                 (demo_world demo_db_directory) ltac:(by vm_compute)).
  destruct (authenticateLDAPLogin _ _ _ _ _ _ _) as [[user|e] w'] eqn:E'; [|by vm_compute in E'].
  destruct H as (_ & _ & _ & _ & _ & _ & _ & _ & H & _). split; [|exact H].
  vm_compute in E'. by injection E' as <- _.
Defined.

(** The order in which the map of values is ranged over matters: a name typed as a placeholder is
    expanded again when it is substituted first. *)
Lemma renderLDAPFilter_order :
  renderLDAPFilter id "(|(member={dn})(memberUid={username}))" [("dn", "cn=x"); ("username", "{dn}")]
    = "(|(member=cn=x)(memberUid={dn}))" ∧
  renderLDAPFilter id "(|(member={dn})(memberUid={username}))" [("username", "{dn}"); ("dn", "cn=x")]
    = "(|(member=cn=x)(memberUid=cn=x))".
Proof. by vm_compute. Qed.
End witnesses.
