(* ===== verification/LdapDial.v ===== *)
(** * Connecting to the directory (dialLDAP and buildLDAPTLSConfig of hub/internal/server/ldap_auth.go).

    The LDAP library is a parameter: dialling, the upgrade to TLS, and what a connection is secured
    with.  A root pool is the PEM text it was made from. *)

From S2P Require Import Prelude GoStr GoTime Model Db Demo StoreConfig StoreUsers Auth Secrets Http Ldap.

Definition VersionTLS12 : Z := 771.

(** [tls.Config]: no root pool is the system's.  InsecureSkipVerify is never set. *)
Record TlsConfig := MkTlsConfig { MinVersion : Z; ServerName : string; RootCAs : option string }.

Class LdapLib := {
  conn : Type;
  DialURL : string → TlsConfig → result conn;
  conn_StartTLS : conn → TlsConfig → result conn;
  secured : conn → option TlsConfig;        (* the configuration of its TLS, if it has TLS *)
  directory : conn → Directory;
  AppendCertsFromPEM : string → bool
}.

(** What the library documents: a connection dialled under [ldaps] has TLS with the configuration
    given, and so has one after [StartTLS]. *)
Class LdapLaws `{NetEnv} (L : LdapLib) := {
  dial_ldaps : ∀ url cfg c scheme host, DialURL url cfg = Ok c → url_parse url = Some (scheme, host) →
    ToLower scheme = "ldaps" → secured c = Some cfg;
  start_tls : ∀ c cfg c', conn_StartTLS c cfg = Ok c' → secured c' = Some cfg
}.

(** [u.Hostname()]: without the port, if what follows the last colon is digits, and the brackets. *)
Definition Hostname (host : string) : string :=
  let host := match last_index_byte ":" host with
              | Some i => if all_bytes is_digit (drop_str (S i) host) then String.substring 0 i host else host
              | None => host
              end in
  if HasPrefix host "[" && HasSuffix host "]" then String.substring 1 (String.length host - 2) host else host.

Section dial.
Context `{N : NetEnv, L : LdapLib}.

Definition buildLDAPTLSConfig (cfg : LDAPConfig) : result TlsConfig :=
  match url_parse (URL cfg) with
  | None => Err "invalid LDAP URL"
  | Some (_, host) =>
      let serverName := firstNonEmpty [TLSServerName cfg; Hostname host] in
      if String.eqb (CACertPEM cfg) "" then Ok (MkTlsConfig VersionTLS12 serverName None) else
      if negb (AppendCertsFromPEM (CACertPEM cfg)) then Err "invalid LDAP CA certificate" else
      Ok (MkTlsConfig VersionTLS12 serverName (Some (CACertPEM cfg)))
  end.

Definition dialLDAP (cfg : LDAPConfig) : result conn :=
  match buildLDAPTLSConfig cfg with
  | Err e => Err e
  | Ok tlsConfig =>
      match DialURL (URL cfg) tlsConfig with
      | Err e => Err e
      | Ok c => if StartTLS cfg then conn_StartTLS c tlsConfig else Ok c
      end
  end.

(** [connect] without a dialler of tests. *)
Definition connect (cfg : LDAPConfig) : result Directory :=
  match dialLDAP cfg with Ok c => Ok (directory c) | Err e => Err e end.

(** TLS that authenticates the directory: to the authority of the settings, if there is one, and to
    the name of the settings or of the URL. *)
Definition authenticated (cfg : LDAPConfig) (tls : TlsConfig) : Prop :=
  MinVersion tls = VersionTLS12 ∧
  RootCAs tls = (if String.eqb (CACertPEM cfg) "" then None else Some (CACertPEM cfg)) ∧
  ∃ scheme host, url_parse (URL cfg) = Some (scheme, host) ∧
    ServerName tls = firstNonEmpty [TLSServerName cfg; Hostname host].

Context `{LL : !LdapLaws L}.

Lemma buildLDAPTLSConfig_ok (cfg : LDAPConfig) (tls : TlsConfig) :
  buildLDAPTLSConfig cfg = Ok tls → authenticated cfg tls.
Proof.
  unfold buildLDAPTLSConfig, authenticated. destruct (url_parse (URL cfg)) as [[scheme host]|]; [|done].
  destruct (String.eqb (CACertPEM cfg) ""); [|destruct (AppendCertsFromPEM (CACertPEM cfg)); [|done]];
    intros [= <-]; eauto 10.
Qed.

Lemma dialLDAP_secured (cfg : LDAPConfig) (c : conn) :
  secure_transport cfg → dialLDAP cfg = Ok c →
  AllowInsecure cfg = true ∨ ∃ tls, secured c = Some tls ∧ authenticated cfg tls.
Proof.
  intros [|(scheme & host & Hu & Hs)] Hd; [by left|right]. unfold dialLDAP in Hd.
  destruct (buildLDAPTLSConfig cfg) as [tls|] eqn:Hb; [|done]. apply buildLDAPTLSConfig_ok in Hb.
  destruct (DialURL (URL cfg) tls) as [c0|] eqn:Hc; [|done]. exists tls. split; [|done].
  destruct (StartTLS cfg) eqn:Ht; [by eapply start_tls|]. injection Hd as <-.
  destruct Hs as [Hs|[_ Hs]]; [by eapply dial_ldaps|done].
Qed.
End dial.


Section witnesses.
#[local] Existing Instance demoEnv.
#[local] Existing Instance demo_crypto.
#[local] Existing Instance demo_ldap_net.

#[local] Instance demo_ldap_lib : LdapLib := {|
  conn := option TlsConfig;
  DialURL := λ url cfg, if HasPrefix url "ldaps://" then Ok (Some cfg) else Ok None;
  conn_StartTLS := λ _ cfg, Ok (Some cfg);
  secured := λ c, c;
  directory := λ _, demo_directory;
  AppendCertsFromPEM := λ _, true
|}.
#[local] Instance demo_ldap_laws : LdapLaws demo_ldap_lib.
Proof.
  split; [|by intros c cfg c' [= <-]]. intros url cfg c scheme host Hd Hu _. simpl in *.
  destruct (HasPrefix url "ldaps://"); [by injection Hd as <-|done].
Qed.

End witnesses.
