(* ===== verification/Flag.v ===== *)
(** * Command lines: what the commands use of Go's packages flag, time and strconv. *)

From S2P Require Import Prelude GoStr GoTime Ldap.

(** ** strconv.Quote, the verb [%q] *)

Section quote.
(** [unicode.IsPrint] above ASCII. *)
Variable is_print : Z → bool.

Definition backslash : string := String (ascii_of_nat 92) "".
Definition hex_digit (n : Z) : string := String.substring (Z.to_nat n) 1 "0123456789abcdef".
Fixpoint hex (width : nat) (n : Z) : string :=
  match width with O => "" | S k => hex k (n / 16) +:+ hex_digit (n mod 16) end.

(** One rune and its bytes; bytes that are no rune are written one by one. *)
Definition quote_rune (rb : Z * string) : string :=
  let '(r, b) := rb in
  if (r =? 65533) && (String.length b =? 1)%nat
  then backslash +:+ "x" +:+ match b with String a _ => hex 2 (Auth.byte_val a) | _ => "" end else
  if (r =? 34) || (r =? 92) then backslash +:+ b else
  if (if r <? 128 then (32 <=? r) && (r <? 127) else is_print r) then b else
  backslash +:+
    if r =? 7 then "a" else if r =? 8 then "b" else if r =? 12 then "f" else if r =? 10 then "n" else
    if r =? 13 then "r" else if r =? 9 then "t" else if r =? 11 then "v" else
    if (r <? 32) || (r =? 127) then "x" +:+ hex 2 r else
    if r <? 65536 then "u" +:+ hex 4 r else "U" +:+ hex 8 r.

Definition Quote (s : string) : string :=
  dquote +:+ Join "" (map quote_rune (segments (String.length s) s)) +:+ dquote.
End quote.

(** ** time.ParseDuration *)

Definition unit_of (u : string) : option Z :=
  let micro1 := String (ascii_of_nat 194) (String (ascii_of_nat 181) "s") in
  let micro2 := String (ascii_of_nat 206) (String (ascii_of_nat 188) "s") in
  if String.eqb u "ns" then Some 1 else
  if existsb (String.eqb u) ["us"; micro1; micro2] then Some 1000 else
  if String.eqb u "ms" then Some 1000000 else
  if String.eqb u "s" then Some Second else
  if String.eqb u "m" then Some Minute else
  if String.eqb u "h" then Some Hour else None.

Definition max_uint63 : Z := 2 ^ 63.

(** The longest prefix of bytes [p] holds of, and the rest. *)
Fixpoint span (p : ascii → bool) (s : string) : string * string :=
  match s with
  | String a s' => if p a then let '(l, r) := span p s' in (String a l, r) else ("", s)
  | EmptyString => ("", "")
  end.

(** [leadingInt] of the digits; [None] is overflow. *)
Fixpoint leading_int (x : Z) (s : string) : option Z :=
  match s with
  | EmptyString => Some x
  | String a s' =>
      if max_uint63 / 10 <? x then None else
      let x := x * 10 + digit_val a in
      if max_uint63 <? x then None else leading_int x s'
  end.

(** [leadingFraction] of the digits: those that overflow are dropped. *)
Fixpoint leading_fraction (x scale : Z) (s : string) : Z * Z :=
  match s with
  | EmptyString => (x, scale)
  | String a s' =>
      if (max_uint63 - 1) / 10 <? x then (x, scale) else
      let y := x * 10 + digit_val a in
      if max_uint63 <? y then (x, scale) else leading_fraction y (scale * 10) s'
  end.

(** The components of a duration; the fraction of a unit is computed exactly, where Go computes it
    in floating point. *)
Fixpoint components (fuel : nat) (d : Z) (s : string) : option Z :=
  match fuel, s with
  | _, EmptyString => Some d
  | O, _ => None
  | S fuel', _ =>
      let '(pre, s1) := span is_digit s in
      let '(dot, post, s2) := match s1 with
        | String "." s' => let '(post, s2) := span is_digit s' in (true, post, s2)
        | _ => (false, "", s1)
        end in
      if String.eqb pre "" && String.eqb post "" then None else
      match leading_int 0 pre with
      | None => None
      | Some v =>
          let '(f, scale) := leading_fraction 0 1 post in
          let '(u, s3) := span (λ c, negb (Ascii.eqb c "." || is_digit c)) s2 in
          match unit_of u with
          | None => None
          | Some unit =>
              if max_uint63 / unit <? v then None else
              let v := v * unit + f * unit / scale in
              if max_uint63 <? v then None else
              if max_uint63 <? d + v then None else components fuel' (d + v) s3
          end
      end
  end.

(** [None] is an error. *)
Definition ParseDuration (orig : string) : option Z :=
  let neg := HasPrefix orig "-" in
  let s := if neg || HasPrefix orig "+" then drop_str 1 orig else orig in
  if String.eqb s "0" then Some 0 else
  if String.eqb s "" then None else
  match components (String.length s) 0 s with
  | None => None
  | Some d => if neg then Some (- d) else if max_uint63 - 1 <? d then None else Some d
  end.

(** ** flag.FlagSet with [ContinueOnError] *)

Inductive kind := StringFlag | BoolFlag | DurationFlag.

(** The values given, the last one of a flag counting, and the arguments left. *)
Definition Parsed : Type := gmap string string * list string.

Section flagset.
Variable is_print : Z → bool.
Variable formal : list (string * kind).

Definition lookup_flag (name : string) : option kind :=
  snd <$> List.find (λ f, String.eqb f.1 name) formal.

Definition accepts (k : kind) (value : string) : bool :=
  match k with
  | StringFlag => true
  | BoolFlag => match ParseBool value with Some _ => true | None => false end
  | DurationFlag => match ParseDuration value with Some _ => true | None => false end
  end.

Definition set_flag (k : kind) (name value : string) (given : gmap string string) : result (gmap string string) :=
  if accepts k value then Ok (<[name := value]> given)
  else Err ("invalid " +:+ (match k with BoolFlag => "boolean value " | _ => "value " end) +:+
            Quote is_print value +:+ (match k with BoolFlag => " for -" | _ => " for flag -" end) +:+ name +:+ ": parse error").

(** [name=value] *)
Definition split_value (s : string) : string * option string :=
  let '(name, rest) := span (λ c, negb (Ascii.eqb c "=")) s in
  (name, match rest with String _ v => Some v | EmptyString => None end).

Fixpoint parse (args : list string) (given : gmap string string) : result Parsed :=
  match args with
  | [] => Ok (given, [])
  | s :: rest =>
      if (String.length s <? 2)%nat || negb (HasPrefix s "-") then Ok (given, args) else
      if String.eqb s "--" then Ok (given, rest) else
      let name := if HasPrefix s "--" then drop_str 2 s else drop_str 1 s in
      if HasPrefix name "-" || HasPrefix name "=" then Err ("bad flag syntax: " +:+ s) else
      let '(name, value) := split_value name in
      match lookup_flag name with
      | None => if String.eqb name "help" || String.eqb name "h" then Err "flag: help requested"
                else Err ("flag provided but not defined: -" +:+ name)
      | Some BoolFlag =>
          match set_flag BoolFlag name (default "true" value) given with
          | Ok given => parse rest given
          | Err e => Err e
          end
      | Some k =>
          match value, rest with
          | Some v, _ => match set_flag k name v given with Ok given => parse rest given | Err e => Err e end
          | None, v :: rest' => match set_flag k name v given with Ok given => parse rest' given | Err e => Err e end
          | None, [] => Err ("flag needs an argument: -" +:+ name)
          end
      end
  end.

Definition Parse (args : list string) : result (gmap string string) :=
  match parse args ∅ with Ok (given, _) => Ok given | Err e => Err e end.
End flagset.

Definition String_ (given : gmap string string) (name value : string) : string := default value (given !! name).
Definition Bool (given : gmap string string) (name : string) : bool :=
  match given !! name with Some v => default false (ParseBool v) | None => false end.
Definition Duration (given : gmap string string) (name : string) (value : Z) : Z :=
  match given !! name with Some v => default value (ParseDuration v) | None => value end.

Example parse_month : ParseDuration "720h" = Some (720 * Hour) ∧ ParseDuration "-1.5h" = Some (- 90 * Minute) ∧
  ParseDuration "1h30m" = Some (90 * Minute) ∧ ParseDuration "30d" = None ∧ ParseDuration "2562048h" = None.
Proof. by vm_compute. Qed.

Example parse_flags :
  Parse (λ _, true) [("name", StringFlag); ("dev", BoolFlag); ("for", DurationFlag)] ["--name"; "x"; "-dev"; "--for=1h"; "--"; "y"]
  = Ok (<["for" := "1h"]> (<["dev" := "true"]> {["name" := "x"]})).
Proof. by vm_compute. Qed.
