(* ===== verification/AuthHandlers.v ===== *)
(** * Sign-in, sessions and passwords (hub/internal/server/handlers_auth.go).

    The bodies of requests are decoded by the caller; [None] is a body that does not decode. *)

From S2P Require Import Prelude GoStr GoTime Model Proto ConnMgr Db Demo StoreConfig StoreUsers.
From S2P Require Import StoreServers StoreAudit StoreTokens Auth AgentHandler Http Files Secrets Ldap.

Record LoginResponse := MkLoginResponse {
  lr_TOTPToken : string; lr_SetupToken : string; lr_RequiresTOTPSetup : bool;
  lr_MustChangePassword : bool }.
(** Tokens in the body and in the cookies. *)
Record TokenResponse := MkTokenResponse {
  tr_AccessToken : string; tr_RefreshToken : string; tr_cookies : list SetCookie }.

Definition errInvalidRequestBody : string := "invalid request body".
Definition errUserNotFoundHTTP : string := "user not found".
Definition errFailedToHashPassword : string := "failed to hash password".
Definition errInvalidCredentials : string := "invalid credentials".
Definition errFailedToGenerateToken : string := "failed to generate token".
Definition errFailedToGenerateTokens : string := "failed to generate tokens".

Definition validateUsername (username : string) : result unit :=
  let n := String.length username in
  if (n <? 3)%nat || (32 <? n)%nat then Err "username must be 3-32 characters" else
  if negb (all_bytes (λ c, is_lower c || is_upper c || is_digit c || Ascii.eqb c "_") username)
  then Err "username may only contain alphanumeric characters and underscores" else Ok tt.

Definition totpEnablePasswordError (message : string) : Z * string :=
  if HasPrefix message "bad_request:" then (400, TrimPrefix message "bad_request:") else
  if HasPrefix message "internal:" then (500, TrimPrefix message "internal:") else
  (500, "failed to update password").

Section auth_handlers.
Context `{E : Env, C : Crypto, N : NetEnv}.
Context (jwtSecret : string) (notifier : bool) (Version : string).
Context (escape : string → string) (order : list (string * string) → list (string * string)).
Context (dial : LDAPConfig → result Directory).

Definition ldap_login (username password : string) : M User :=
  authenticateLDAPLogin escape order dial jwtSecret username password.

(** An entry with a fresh ID. *)
Definition audit (ctx : Ctx) (entry : AuditEntry) : M unit :=
  let* id := NewString in auditLogRequest ctx (entry <| ae_ID := id |>).

Definition notify (event : string) (fields : list (string * string)) : M unit :=
  if notifier then
    let* now := get_now in Notify event (fields ++ [("timestamp", NotifyTimestamp now)])
  else ret tt.

(** [setAuthCookies]: a failing random source panics. *)
Definition with_cookies (access refresh : string) : M TokenResponse :=
  let* csrf := generateCSRFToken in
  match csrf with
  | None => fail panicked
  | Some t => ret (MkTokenResponse access refresh (setAuthCookies access refresh t))
  end.

(** (initialized, version) *)
Definition handleAuthStatus : HandlerFunc (bool * string) := λ r _,
  let* initialized := try InitialSetupComplete in
  match initialized with
  | Err _ => ret (RespondError 500 "failed to check setup state")
  | Ok initialized =>
      let tokenStr := readAccessToken r in
      if String.eqb tokenStr "" then ret (RespondJSON 200 (initialized, "")) else
      let* claims := try (ValidateToken jwtSecret tokenStr) in
      ret (RespondJSON 200 (initialized,
        match claims with
        | Ok c => if String.eqb (c_TokenType c) TokenTypeAccess then Version else ""
        | Err _ => ""
        end))
  end.

(** body: (username, email, password); the response is the setup token and the user. *)
Definition handleRegister (body : option (string * string * string)) : HandlerFunc (string * User) := λ r ctx,
  let* initialized := try InitialSetupComplete in
  match initialized with
  | Err _ => ret (RespondError 500 "failed to check setup state")
  | Ok true => ret (RespondError 403 "registration disabled — use admin to create users")
  | Ok false =>
      let* cleaned := try DeleteIncompleteUsers in
      if negb (is_ok cleaned) then ret (RespondError 500 "failed to clean up incomplete setup") else
      match body with
      | None => ret (RespondError 400 errInvalidRequestBody)
      | Some (username, email, password) =>
          match validateUsername username, ValidatePasswordPolicy password with
          | Err e, _ => ret (RespondError 400 e)
          | Ok _, Err e => ret (RespondError 400 e)
          | Ok _, Ok _ =>
              let* hash := try (HashPassword password) in
              match hash with
              | Err _ => ret (RespondError 500 errFailedToHashPassword)
              | Ok hash =>
                  let* id := NewString in
                  let user := zeroUser <| u_ID := id |> <| u_Username := username |>
                    <| u_Email := email |> <| u_PasswordHash := hash |> <| u_Role := RoleAdmin |> in
                  let* created := try (CreateUser user) in
                  match created with
                  | Err _ => ret (RespondError 409 "setup already completed")
                  | Ok user =>
                      let* settings := GetAuditSettings in
                      let* _ := ignore (AddPasswordHistory (u_ID user) hash) in
                      let* _ := ignore (TrimPasswordHistory (u_ID user) (as_PasswordHistoryCount settings)) in
                      let* count := try UserCount in
                      let userCount := match count with Ok n => n | Err _ => 0 end in
                      if 1 <? userCount then
                        let* _ := ignore (DeleteUser (u_ID user)) in
                        ret (RespondError 409 "setup already completed")
                      else
                        let* _ := audit ctx (audit_entry "user.registered" (Some (u_ID user)) None None
                                    (Some (clientIP r)) "") in
                        let* setupToken := try (GenerateSetupToken jwtSecret (u_ID user) (u_Role user)) in
                        match setupToken with
                        | Err _ => ret (RespondError 500 errFailedToGenerateToken)
                        | Ok t => ret (RespondJSON 200 (t, user))
                        end
                  end
              end
          end
      end
  end.

Definition recordLoginFailure (r : Request) (ctx : Ctx) (userID : option string) (username : string)
    (detail : option string) (notify_ : bool) : M unit :=
  let ip := clientIP r in
  let entry := audit_entry "user.login_failed" userID None detail (Some ip)
                 (match userID with None => AuditActorTypeAnonymous | Some _ => "" end) in
  let entry := match detail with
               | Some _ => entry <| ae_Outcome := AuditOutcomeFailure |>
               | None => entry
               end in
  let* _ := audit ctx entry in
  if notify_ then notify NotifyLoginFailed [("username", username); ("ip", ip)] else ret tt.

Definition respondAfterPrimaryLogin (user : User) : M (response LoginResponse) :=
  if negb (u_TOTPEnabled user) then
    let* setupToken := try (GenerateSetupToken jwtSecret (u_ID user) (u_Role user)) in
    match setupToken with
    | Err _ => ret (RespondError 500 errFailedToGenerateToken)
    | Ok t => ret (RespondJSON 200 (MkLoginResponse "" t true (u_MustChangePassword user)))
    end
  else
    let* totpToken := try (GenerateTOTPToken jwtSecret (u_ID user) (u_Role user)) in
    match totpToken with
    | Err _ => ret (RespondError 500 errFailedToGenerateToken)
    | Ok t => ret (RespondJSON 202 (MkLoginResponse t "" false false))
    end.

Definition handleUnknownUserLogin (r : Request) (ctx : Ctx) (username password : string)
  : M (response LoginResponse) :=
  let* ldapUser := try (ldap_login username password) in
  match ldapUser with
  | Ok u => respondAfterPrimaryLogin u
  | Err _ =>
      let* _ := recordLoginFailure r ctx None username None true in
      ret (RespondError 401 errInvalidCredentials)
  end.

Definition handleLDAPUserLogin (r : Request) (ctx : Ctx) (username password : string) (user : User)
  : M (response LoginResponse) :=
  let* ldapUser := try (ldap_login username password) in
  match ldapUser with
  | Ok u => respondAfterPrimaryLogin u
  | Err _ =>
      let* _ := recordLoginFailure r ctx (Some (u_ID user)) username None true in
      ret (RespondError 401 errInvalidCredentials)
  end.

(** body: (username, password) *)
Definition handleLogin (body : option (string * string)) : HandlerFunc LoginResponse := λ r ctx,
  match body with
  | None => ret (RespondError 400 errInvalidRequestBody)
  | Some (username, password) =>
      let* user := try (GetUserByUsername username) in
      match user with
      | Err _ => handleUnknownUserLogin r ctx username password
      | Ok user =>
          if String.eqb (u_AuthProvider user) AuthProviderLDAP
          then handleLDAPUserLogin r ctx username password user else
          if negb (ComparePassword (u_PasswordHash user) password) then
            let* _ := recordLoginFailure r ctx (Some (u_ID user)) username None true in
            ret (RespondError 401 errInvalidCredentials)
          else
            let* now := get_now in
            let expired := u_MustChangePassword user &&
              match u_TempPasswordExpiresAt user with Some t => t <? now | None => false end in
            if expired then
              let* _ := recordLoginFailure r ctx (Some (u_ID user)) username
                          (Some "temporary password expired") false in
              ret (RespondError 401 "temporary password expired — contact an administrator")
            else respondAfterPrimaryLogin user
      end
  end.

(** The decrypted secret of a user, if there is one. *)
Definition totpSecretForValidation (secret : option string) : result (option string) :=
  match secret with
  | None => Ok None
  | Some s => if negb (HasPrefix s encPrefix) then Ok (Some s) else
              match decryptTOTPSecret jwtSecret s with
              | Ok d => Ok (Some d)
              | Err e => Err e
              end
  end.

(** [secret == nil || !auth.ValidateTOTPWithReplay(...)], negated. *)
Definition check_code (userID : string) (secret : option string) (code : string) : M bool :=
  match secret with
  | None => ret false
  | Some s => ValidateTOTPWithReplay userID s code
  end.

(** body: (totp_token, code) *)
Definition handleLoginTOTP (body : option (string * string)) : HandlerFunc (TokenResponse * User) := λ r ctx,
  match body with
  | None => ret (RespondError 400 errInvalidRequestBody)
  | Some (totpToken, code) =>
      let* claims := try (ValidateToken jwtSecret totpToken) in
      match claims with
      | Err _ => ret (RespondError 401 "invalid or expired TOTP token")
      | Ok claims =>
          if negb (String.eqb (c_TokenType claims) TokenTypeTOTP)
          then ret (RespondError 401 "invalid or expired TOTP token") else
          let* user := try (GetUserByID (c_Subject claims)) in
          match user with
          | Err _ => ret (RespondError 401 errUserNotFoundHTTP)
          | Ok user =>
              match totpSecretForValidation (u_TOTPSecret user) with
              | Err _ => ret (RespondError 500 "failed to decrypt TOTP secret")
              | Ok secret =>
                  let* valid := check_code (u_ID user) secret code in
                  if negb valid then
                    let* _ := audit ctx (audit_entry "user.login_totp_failed" (Some (u_ID user)) None
                                None (Some (clientIP r)) "") in
                    ret (RespondError 401 "invalid TOTP code")
                  else
                    let* tokens := try (GenerateTokenPair jwtSecret (u_ID user) (u_Role user)
                                          (u_TokenGeneration user)) in
                    match tokens with
                    | Err _ => ret (RespondError 500 errFailedToGenerateTokens)
                    | Ok (access, refresh) =>
                        let* _ := audit ctx (audit_entry "user.login" (Some (u_ID user)) None None
                                    (Some (clientIP r)) "") in
                        let* resp := with_cookies access refresh in
                        ret (RespondJSON 200 (resp, user))
                    end
              end
          end
      end
  end.

(** The refresh token is the cookie's, or the body's when there is no cookie. *)
Definition refresh_token (r : Request) (body : option string) : option string :=
  let fromCookie := default "" (cookie r cookieRefresh) in
  if String.eqb fromCookie "" then body else Some fromCookie.

Definition handleRefresh (body : option string) : HandlerFunc TokenResponse := λ r _,
  match refresh_token r body with
  | None => ret (RespondError 400 errInvalidRequestBody)
  | Some refreshTokenStr =>
      let* claims := try (ValidateToken jwtSecret refreshTokenStr) in
      match claims with
      | Err _ => ret (RespondError 401 "invalid or expired refresh token")
      | Ok claims =>
          if negb (String.eqb (c_TokenType claims) TokenTypeRefresh)
          then ret (RespondError 401 "invalid or expired refresh token") else
          let* user := try (GetUserByID (c_Subject claims)) in
          match user with
          | Err _ => ret (RespondError 401 "user no longer exists")
          | Ok user =>
              if negb (c_TokenGeneration claims =? u_TokenGeneration user)
              then ret (RespondError 401 "token has been revoked") else
              let* newGen := try (IncrementTokenGeneration (u_ID user)) in
              match newGen with
              | Err _ => ret (RespondError 500 "failed to rotate token generation")
              | Ok newGen =>
                  let* tokens := try (GenerateTokenPair jwtSecret (u_ID user) (u_Role user) newGen) in
                  match tokens with
                  | Err _ => ret (RespondError 500 errFailedToGenerateTokens)
                  | Ok (access, refresh) =>
                      let* resp := with_cookies access refresh in
                      ret (RespondJSON 200 resp)
                  end
              end
          end
      end
  end.

Definition handleLogout : HandlerFunc (list SetCookie) := λ r _,
  let tokenStr := readAccessToken r in
  let* _ := if String.eqb tokenStr "" then ret tt else
            let* claims := try (ValidateToken jwtSecret tokenStr) in
            match claims with
            | Ok c => if String.eqb (c_ID c) "" then ret tt else BlacklistAdd (c_ID c) (c_ExpiresAt c)
            | Err _ => ret tt
            end in
  ret (RespondJSON 204 clearAuthCookies).

Definition handleMe : HandlerFunc User := λ _ ctx,
  let* user := try (GetUserByID (UserIDFromContext ctx)) in
  match user with
  | Err _ => ret (RespondError 404 errUserNotFoundHTTP)
  | Ok u => ret (RespondJSON 200 u)
  end.

Definition handleUpdateAvatar (body : option string) : HandlerFunc unit := λ _ ctx,
  match body with
  | None => ret (RespondError 400 errInvalidRequestBody)
  | Some avatar =>
      if 700000 <? Z.of_nat (String.length avatar)
      then ret (RespondError 400 "avatar image too large (max 500KB)") else
      if negb (String.eqb avatar "") && negb (existsb (HasPrefix avatar)
           ["data:image/png"; "data:image/jpeg"; "data:image/gif"; "data:image/webp"])
      then ret (RespondError 400 "avatar must be a PNG, JPEG, GIF, or WebP image") else
      let* updated := try (UpdateUserAvatar (UserIDFromContext ctx)
                             (if String.eqb avatar "" then None else Some avatar)) in
      if is_ok updated then ret (RespondJSON 200 tt)
      else ret (RespondError 500 "failed to update avatar")
  end.

(** (secret, QR URL) *)
Definition handleTOTPSetup : HandlerFunc (string * string) := λ r ctx,
  let userID := UserIDFromContext ctx in
  let* user := try (GetUserByID userID) in
  match user with
  | Err _ => ret (RespondError 404 errUserNotFoundHTTP)
  | Ok user =>
      if u_TOTPEnabled user then ret (RespondError 409 "TOTP is already enabled") else
      let* key := try (GenerateTOTPSecret (u_Username user) "Veyport") in
      match key with
      | Err _ => ret (RespondError 500 "failed to generate TOTP secret")
      | Ok (plaintextSecret, qrURL) =>
          let* encrypted := try (encryptTOTPSecret jwtSecret plaintextSecret) in
          match encrypted with
          | Err _ => ret (RespondError 500 "failed to encrypt TOTP secret")
          | Ok encryptedSecret =>
              let* stored := try (UpdateUserTOTP userID (Some encryptedSecret) false) in
              if negb (is_ok stored) then ret (RespondError 500 "failed to store TOTP secret") else
              let* _ := audit ctx (audit_entry "user.totp_setup" (Some userID) None None
                          (Some (clientIP r)) "") in
              ret (RespondJSON 200 (plaintextSecret, qrURL))
          end
      end
  end.

Definition reject_reuse (r : Request) (ctx : Ctx) (userID : string) : M unit :=
  audit ctx (audit_entry "user.password_reuse_rejected" (Some userID) None None (Some (clientIP r)) ""
               <| ae_Outcome := AuditOutcomeFailure |>).

(** An error is a message with its class. *)
Definition rotateTemporaryPasswordDuringTOTPEnable (r : Request) (ctx : Ctx) (user : User)
    (newPassword : string) : M unit :=
  if negb (u_MustChangePassword user) then ret tt else
  let* settings := GetAuditSettings in
  if String.eqb newPassword ""
  then fail "bad_request:new_password is required for temporary-password users" else
  match ValidatePasswordPolicy newPassword with
  | Err e => fail ("bad_request:" +:+ e)
  | Ok _ =>
      let* matches := try (PasswordMatchesRecent (u_ID user) newPassword (as_PasswordHistoryCount settings)) in
      match matches with
      | Err _ => fail "internal:failed to validate password history"
      | Ok true =>
          let* _ := reject_reuse r ctx (u_ID user) in
          fail "bad_request:new password must not match a recent password"
      | Ok false =>
          let* hash := try (HashPassword newPassword) in
          match hash with
          | Err _ => fail ("internal:" +:+ errFailedToHashPassword)
          | Ok hash =>
              let* updated := try (UpdateUserPassword (u_ID user) hash) in
              if negb (is_ok updated) then fail "internal:failed to update password" else
              let* _ := ignore (AddPasswordHistory (u_ID user) hash) in
              ignore (TrimPasswordHistory (u_ID user) (as_PasswordHistoryCount settings))
          end
      end
  end.

(** What follows the check of the code and of a temporary password. *)
Definition enable_totp (r : Request) (ctx : Ctx) (user : User) (secret : string)
  : M (response (TokenResponse * User)) :=
  let userID := UserIDFromContext ctx in
  let* encrypted := try (encryptTOTPSecret jwtSecret secret) in
  match encrypted with
  | Err _ => ret (RespondError 500 "failed to encrypt TOTP secret")
  | Ok encryptedSecret =>
      let* enabled := try (UpdateUserTOTP userID (Some encryptedSecret) true) in
      if negb (is_ok enabled) then ret (RespondError 500 "failed to enable TOTP") else
      let* marked := try MarkInitialSetupComplete in
      if negb (is_ok marked) then ret (RespondError 500 "failed to mark setup complete") else
      let* _ := audit ctx (audit_entry "user.totp_enabled" (Some userID) None None
                  (Some (clientIP r)) "") in
      let* _ := notify NotifyTOTPChanged [("username", u_Username user); ("detail", "TOTP enabled")] in
      let* tokens := try (GenerateTokenPair jwtSecret (u_ID user) (u_Role user) (u_TokenGeneration user)) in
      match tokens with
      | Err _ => ret (RespondError 500 errFailedToGenerateTokens)
      | Ok (access, refresh) =>
          let* refreshed := try (GetUserByID userID) in
          let* resp := with_cookies access refresh in
          match refreshed with
          | Ok user => ret (RespondJSON 200 (resp, user))
          | Err _ => fail panicked
          end
      end
  end.

(** body: (code, new_password) *)
Definition handleTOTPEnable (body : option (string * string)) : HandlerFunc (TokenResponse * User) := λ r ctx,
  match body with
  | None => ret (RespondError 400 errInvalidRequestBody)
  | Some (code, newPassword) =>
      let userID := UserIDFromContext ctx in
      let* user := try (GetUserByID userID) in
      match user with
      | Err _ => ret (RespondError 404 errUserNotFoundHTTP)
      | Ok user =>
          match u_TOTPSecret user, totpSecretForValidation (u_TOTPSecret user) with
          | None, _ => ret (RespondError 400 "TOTP not set up — call /api/auth/totp/setup first")
          | Some _, Err _ => ret (RespondError 500 "failed to decrypt TOTP secret")
          | Some _, Ok None => fail panicked
          | Some _, Ok (Some secret) =>
              let* valid := ValidateTOTPWithReplay userID secret code in
              if negb valid then ret (RespondError 401 "invalid TOTP code") else
              let* rotated := try (rotateTemporaryPasswordDuringTOTPEnable r ctx user newPassword) in
              match rotated with
              | Err e => let '(status, message) := totpEnablePasswordError e in
                         ret (RespondError status message)
              | Ok _ => enable_totp r ctx user secret
              end
          end
      end
  end.

(** What follows the checks of [handleChangePassword]. *)
Definition change_password (r : Request) (ctx : Ctx) (user : User) (settings : AuditSettings)
    (newPassword : string) : M (response unit) :=
  let userID := UserIDFromContext ctx in
  let* hash := try (HashPassword newPassword) in
  match hash with
  | Err _ => ret (RespondError 500 errFailedToHashPassword)
  | Ok hash =>
      let* updated := try (UpdateUserPassword userID hash) in
      if negb (is_ok updated) then ret (RespondError 500 "failed to update password") else
      let* _ := ignore (AddPasswordHistory userID hash) in
      let* _ := ignore (TrimPasswordHistory userID (as_PasswordHistoryCount settings)) in
      let* gen := try (IncrementTokenGeneration userID) in
      if negb (is_ok gen) then ret (RespondError 500 "failed to invalidate sessions") else
      let* _ := ignore (RevokeAllAPITokensByUserID userID) in
      let* _ := audit ctx (audit_entry "user.password_changed" (Some userID) None None
                  (Some (clientIP r)) "") in
      let* _ := notify NotifyPasswordChanged [("username", u_Username user)] in
      ret (RespondJSON 200 tt)
  end.

(** body: (current_password, new_password) *)
Definition handleChangePassword (body : option (string * string)) : HandlerFunc unit := λ r ctx,
  match body with
  | None => ret (RespondError 400 errInvalidRequestBody)
  | Some (currentPassword, newPassword) =>
      let userID := UserIDFromContext ctx in
      let* user := try (GetUserByID userID) in
      match user with
      | Err _ => ret (RespondError 404 errUserNotFoundHTTP)
      | Ok user =>
          if negb (ComparePassword (u_PasswordHash user) currentPassword)
          then ret (RespondError 401 "invalid current password") else
          match ValidatePasswordPolicy newPassword with
          | Err e => ret (RespondError 400 e)
          | Ok _ =>
              let* settings := GetAuditSettings in
              let* matches := try (PasswordMatchesRecent userID newPassword (as_PasswordHistoryCount settings)) in
              match matches with
              | Err _ => ret (RespondError 500 "failed to validate password history")
              | Ok true =>
                  let* _ := reject_reuse r ctx userID in
                  ret (RespondError 400 "new password must not match a recent password")
              | Ok false => change_password r ctx user settings newPassword
              end
          end
      end
  end.

(** What follows the checks of [handleTOTPDisable]. *)
Definition disable_totp (r : Request) (ctx : Ctx) (target : string) (targetUser : User) : M (response unit) :=
  let* disabled := try (UpdateUserTOTP target None false) in
  if negb (is_ok disabled) then ret (RespondError 500 "failed to disable TOTP") else
  let* gen := try (IncrementTokenGeneration target) in
  if negb (is_ok gen) then ret (RespondError 500 "failed to invalidate sessions") else
  let* _ := ignore (RevokeAllAPITokensByUserID target) in
  let* _ := audit ctx (audit_entry "user.totp_disabled" (Some (UserIDFromContext ctx)) (Some target) None
              (Some (clientIP r)) "") in
  let* _ := notify NotifyTOTPChanged [("username", u_Username targetUser); ("detail", "TOTP disabled")] in
  ret (RespondJSON 200 tt).

(** body: (user_id, admin_totp_code) *)
Definition handleTOTPDisable (body : option (string * string)) : HandlerFunc unit := λ r ctx,
  match body with
  | None => ret (RespondError 400 errInvalidRequestBody)
  | Some (target, code) =>
      let adminID := UserIDFromContext ctx in
      if String.eqb target adminID then ret (RespondError 400 "cannot disable your own 2FA") else
      let* admin := try (GetUserByID adminID) in
      match admin with
      | Err _ => ret (RespondError 404 "admin user not found")
      | Ok admin =>
          match totpSecretForValidation (u_TOTPSecret admin) with
          | Err _ => ret (RespondError 500 "failed to decrypt admin TOTP secret")
          | Ok secret =>
              let* valid := check_code adminID secret code in
              if negb valid then ret (RespondError 401 "invalid admin TOTP code") else
              let* targetUser := try (GetUserByID target) in
              match targetUser with
              | Err _ => ret (RespondError 404 "user not found")
              | Ok targetUser => disable_totp r ctx target targetUser
              end
          end
      end
  end.

End auth_handlers.

Section frames.
Context {X : Type} (f : World → X) `{!Unreported f} `{E : Env, C : Crypto}.

Lemma frame_audit (ctx : Ctx) (e : AuditEntry) : frame f (audit ctx e).
Proof. unfold audit. frames. Qed.
Lemma frame_notify (n : bool) (e : string) (c : list (string * string)) : frame f (notify n e c).
Proof. unfold notify. frames. Qed.
Lemma frame_with_cookies (a r : string) : frame f (with_cookies a r).
Proof. unfold with_cookies, generateCSRFToken. frames. Qed.
Lemma frame_GenerateTokenWithExpiry (s u r t : string) (e : Z) (g : option Z) :
  frame f (GenerateTokenWithExpiry s u r t e g).
Proof. unfold GenerateTokenWithExpiry. frames. Qed.
Hint Resolve frame_GenerateTokenWithExpiry : frames.
Lemma frame_GenerateTokenPair (s u r : string) (g : Z) : frame f (GenerateTokenPair s u r g).
Proof. unfold GenerateTokenPair. frames. Qed.
Lemma frame_GetAuditSettings : frame f GetAuditSettings.
Proof. unfold GetAuditSettings, getConfigIntDefault, getConfigBoolDefault, getConfigString. frames. Qed.
End frames.
#[export] Hint Resolve frame_audit frame_notify frame_with_cookies frame_GenerateTokenPair
  frame_GetAuditSettings : frames.

(** ** Successful sign-ins

    A handler that answers with a payload ran through all of its checks: its run is inverted, and
    the calls it made are what the theorems speak of. *)

Ltac answer_inv :=
  repeat match goal with
  | _ => ok_inv_step; subst
  | H : negb (is_ok ?x) = false |- _ => destruct x; [clear H|discriminate H]
  | H : is_ok ?x = true |- _ => destruct x; [clear H|discriminate H]
  | H : RespondJSON _ _ = RespondError _ _ |- _ => discriminate H
  | H : RespondError _ _ = RespondJSON _ _ |- _ => discriminate H
  | H : RespondJSON _ _ = RespondJSON _ _ |- _ => injection H as ?; subst
  end.

Section login.
Context `{E : Env, C : Crypto, N : NetEnv}.
Context (jwtSecret : string) (notifier : bool).
Context (escape : string → string) (order : list (string * string) → list (string * string)).
Context (dial : LDAPConfig → result Directory).

(** What the first factor proves: the password of a local account that may still use it, or a
    successful sign-in with the directory. *)
Inductive first_factor (username password : string) (w : World) (user : User) : World → Prop :=
  | Factor_password fs :
      user ∈ d_users (w_db w) → u_Username user = username → u_AuthProvider user ≠ AuthProviderLDAP →
      ComparePassword (u_PasswordHash user) password = true →
      (∀ t, u_MustChangePassword user = true → u_TempPasswordExpiresAt user = Some t → w_now w <= t) →
      first_factor username password w user (w <| w_faults := fs |>)
  | Factor_directory fs w1 :
      ldap_login jwtSecret escape order dial username password (w <| w_faults := fs |>) = (Ok user, w1) →
      first_factor username password w user w1.

Lemma respondAfterPrimaryLogin_Ok (user : User) (st : Z) (resp : LoginResponse) (w w' : World) :
  respondAfterPrimaryLogin jwtSecret user w = (Ok (RespondJSON st resp), w') →
  ∃ t, if u_TOTPEnabled user
       then GenerateTOTPToken jwtSecret (u_ID user) (u_Role user) w = (Ok t, w') ∧ st = 202 ∧
            resp = MkLoginResponse t "" false false
       else GenerateSetupToken jwtSecret (u_ID user) (u_Role user) w = (Ok t, w') ∧ st = 200 ∧
            resp = MkLoginResponse "" t true (u_MustChangePassword user).
Proof.
  unfold respondAfterPrimaryLogin. intros H.
  destruct (u_TOTPEnabled user); cbn [negb] in H; answer_inv; by eexists.
Qed.

Lemma handleUnknownUserLogin_Ok (r : Request) (ctx : Ctx) (username password : string) (st : Z)
    (resp : LoginResponse) (w w' : World) :
  handleUnknownUserLogin jwtSecret notifier escape order dial r ctx username password w =
    (Ok (RespondJSON st resp), w') →
  ∃ user w1, ldap_login jwtSecret escape order dial username password w = (Ok user, w1) ∧
    respondAfterPrimaryLogin jwtSecret user w1 = (Ok (RespondJSON st resp), w').
Proof. unfold handleUnknownUserLogin. intros H. answer_inv. eauto. Qed.

Lemma handleLogin_Ok (username password : string) (r : Request) (ctx : Ctx) (st : Z)
    (resp : LoginResponse) (w w' : World) :
  handleLogin jwtSecret notifier escape order dial (Some (username, password)) r ctx w =
    (Ok (RespondJSON st resp), w') →
  ∃ user w1, first_factor username password w user w1 ∧
    respondAfterPrimaryLogin jwtSecret user w1 = (Ok (RespondJSON st resp), w').
Proof.
  unfold handleLogin. intros H. apply bind_Ok in H as (u & w1 & Hu%try_Ok & H).
  destruct u as [u|e].
  - apply scanUser_Ok in Hu as (fs & -> & [Hu Hn%String.eqb_eq]%elem_of_find).
    destruct (String.eqb_spec (u_AuthProvider u) AuthProviderLDAP) as [Hl|Hl].
    + unfold handleLDAPUserLogin in H. answer_inv. do 2 eexists. split; [|eassumption].
      by eapply Factor_directory.
    + destruct (ComparePassword (u_PasswordHash u) password) eqn:Hp; cbn [negb] in H; [|by answer_inv].
      answer_inv. do 2 eexists. split; [|eassumption]. apply Factor_password; try done.
      intros t Hm Ht. rewrite Hm, Ht in *. simpl in *. lia.
  - assert (Hr : reads (GetUserByUsername username)) by (unfold GetUserByUsername, scanUser; readers).
    destruct (reads_run _ w Hr) as (r' & fs & Hrun). assert (w1 = w <| w_faults := fs |>) as -> by congruence.
    apply handleUnknownUserLogin_Ok in H as (user & w2 & Hl & H). do 2 eexists. split; [|eassumption].
    by eapply Factor_directory.
Qed.

End login.

(** C22: a password is never enough to sign in.  A sign-in that is answered with a payload proved its
    first factor, with a local password or with the directory, and its only token is a setup token,
    for an account without TOTP, or a TOTP token, for an account with it: never an access token,
    whenever it is presented. *)
Theorem login_first_factor_only `{E : Env, C : Crypto, N : NetEnv, !JwtLaws E} (jwtSecret : string)
    (notifier : bool) (escape : string → string) (order : list (string * string) → list (string * string))
    (dial : LDAPConfig → result Directory) (username password : string) (r : Request) (ctx : Ctx)
    (st : Z) (resp : LoginResponse) (w w' : World) :
  handleLogin jwtSecret notifier escape order dial (Some (username, password)) r ctx w =
    (Ok (RespondJSON st resp), w') →
  ∃ user w1 t, first_factor jwtSecret escape order dial username password w user w1 ∧
    (if u_TOTPEnabled user then st = 202 ∧ resp = MkLoginResponse t "" false false
     else st = 200 ∧ resp = MkLoginResponse "" t true (u_MustChangePassword user)) ∧
    ∀ now claims, jwt_parse now jwtSecret t = Ok claims →
      c_Subject claims = u_ID user ∧
      c_TokenType claims = if u_TOTPEnabled user then TokenTypeTOTP else TokenTypeSetup.
Proof.
  intros (user & w1 & Hf & Hr)%handleLogin_Ok.
  apply respondAfterPrimaryLogin_Ok in Hr as [t Hr]. exists user, w1, t. split; [done|].
  destruct (u_TOTPEnabled user); destruct Hr as (Hg & -> & ->); (split; [done|]); intros now claims Hv;
    by destruct (generated_claims _ _ _ _ _ _ _ _ _ _ _ Hg Hv) as (? & _ & ? & _).
Qed.

(** ** The second factor *)

Section second_factor.
Context `{E : Env, C : Crypto, N : NetEnv}.
Context (jwtSecret : string).

Lemma check_code_true (userID code : string) (secret : option string) (w w' : World) :
  check_code userID secret code w = (Ok true, w') →
  ∃ s, secret = Some s ∧ totp_validate (w_now w) code s = true ∧
    w_totp w !! totp_key userID code = None ∧ w_totp w' !! totp_key userID code = Some (w_now w) ∧
    w_db w' = w_db w ∧ w_now w' = w_now w.
Proof.
  destruct secret as [s|]; [|done]. unfold check_code, ValidateTOTPWithReplay, CheckAndMark.
  destruct (totp_validate _ _ _) eqn:Hv; [|done]. cbn [negb].
  destruct (w_totp w !! totp_key userID code) eqn:Hk; [done|]. intros [= <-].
  exists s. split_and!; try done. apply drop_stale_keeps; [apply lookup_insert_eq|].
  unfold Second, NS. lia.
Qed.

Lemma handleLoginTOTP_Ok (tok code : string) (r : Request) (ctx : Ctx) (st : Z)
    (resp : TokenResponse) (user : User) (w w' : World) :
  handleLoginTOTP jwtSecret (Some (tok, code)) r ctx w = (Ok (RespondJSON st (resp, user)), w') →
  ∃ claims secret w0 w1 w2,
    jwt_parse (w_now w) jwtSecret tok = Ok claims ∧ c_TokenType claims = TokenTypeTOTP ∧
    user ∈ d_users (w_db w) ∧ u_ID user = c_Subject claims ∧
    totpSecretForValidation jwtSecret (u_TOTPSecret user) = Ok secret ∧
    check_code (u_ID user) secret code w0 = (Ok true, w1) ∧ w_totp w0 = w_totp w ∧
    w_now w0 = w_now w ∧
    GenerateTokenPair jwtSecret (u_ID user) (u_Role user) (u_TokenGeneration user) w1 =
      (Ok (tr_AccessToken resp, tr_RefreshToken resp), w2) ∧
    w_totp w' = w_totp w1 ∧ d_users (w_db w') = d_users (w_db w1) ∧ w_db w0 = w_db w.
Proof.
  unfold handleLoginTOTP, ValidateToken. intros H. answer_inv. destruct x; [|done].
  match goal with H : GetUserByID _ _ = _ |- _ => apply GetUserByID_Ok in H as (Hin & Hid & fs & ->) end.
  destruct (jwt_parse _ _ _) eqn:Hp; [|done]. simplify_eq.
  match goal with H : with_cookies _ _ _ = _ |- _ => assert (Hc := H) end.
  unfold with_cookies in Hc. answer_inv.
  do 5 eexists. bool_hyps. split_and!; try eassumption; try reflexivity; simpl.
  - frame_back w_totp.
  - frame_back (tables d_users).
Qed.

End second_factor.

(** C23: the second factor.  A TOTP sign-in that is answered with tokens presented an unexpired token
    of type TOTP and a code that is valid now for the secret stored for its user, and that the user
    had not used; it leaves the users as they were and remembers the code.  As long as the code is
    remembered, no TOTP token of this user signs in with it again. *)
Theorem login_second_factor `{E : Env, C : Crypto, N : NetEnv} (jwtSecret tok code : string)
    (r : Request) (ctx : Ctx) (st : Z) (resp : TokenResponse) (user : User) (w w' : World) :
  handleLoginTOTP jwtSecret (Some (tok, code)) r ctx w = (Ok (RespondJSON st (resp, user)), w') →
  (∃ claims secret, jwt_parse (w_now w) jwtSecret tok = Ok claims ∧
     c_TokenType claims = TokenTypeTOTP ∧ c_Subject claims = u_ID user ∧
     user ∈ d_users (w_db w) ∧ totpSecretForValidation jwtSecret (u_TOTPSecret user) = Ok (Some secret) ∧
     totp_validate (w_now w) code secret = true) ∧
  w_totp w !! totp_key (u_ID user) code = None ∧ w_totp w' !! totp_key (u_ID user) code = Some (w_now w) ∧
  d_users (w_db w') = d_users (w_db w) ∧
  ∀ tok2 r2 ctx2 w2 w3 st2 resp2 user2, is_Some (w_totp w2 !! totp_key (u_ID user) code) →
    handleLoginTOTP jwtSecret (Some (tok2, code)) r2 ctx2 w2 = (Ok (RespondJSON st2 (resp2, user2)), w3) →
    u_ID user2 ≠ u_ID user.
Proof.
  intros (claims & secret & w0 & w1 & w2 & Hp & Hty & Hin & Hid & Hs & Hc & Ht & Hn & _ & Ht' & Hu & Hdb)
    %handleLoginTOTP_Ok.
  apply check_code_true in Hc as (s & -> & Hv & Hfresh & Hused & Hdb1 & _).
  rewrite Hn, Ht, Ht' in *. split; [by exists claims, s|]. rewrite Hu, Hdb1, Hdb. split_and!; try done.
  intros tok2 r2 ctx2 w3 w4 st2 resp2 user2 [t Hk] H2.
  apply handleLoginTOTP_Ok in H2 as (? & ? & w5 & ? & ? & _ & _ & _ & _ & _ & Hc & Ht2 & _).
  apply check_code_true in Hc as (? & _ & _ & Hf & _). congruence.
Qed.

(** ** Rotation of sessions *)

Section rotation.
Context `{E : Env, C : Crypto, N : NetEnv}.
Context (jwtSecret : string).

(** The claims of [tok], if it validates, are a session of [userID] of generation [gen]. *)
Definition session_of (userID : string) (gen : Z) (tok : string) (now : Z) : Prop :=
  ∀ claims, jwt_parse now jwtSecret tok = Ok claims → c_Subject claims = userID ∧ c_TokenGeneration claims = gen.

(** Sessions of another generation than the user's are worth nothing. *)
Definition dead_session (tok : string) (w : World) : Prop :=
  (∀ ctx, identity jwtSecret tok w ctx → TokenTypeFromContext ctx ≠ TokenTypeAccess) ∧
  ∀ r body ctx, refresh_token r body = Some tok →
    ∃ msg w', handleRefresh jwtSecret body r ctx w = (Ok (RespondError 401 msg), w').

Lemma session_dead (userID tok : string) (gen : Z) (w : World) :
  session_of userID gen tok (w_now w) →
  (∀ u, u ∈ d_users (w_db w) → u_ID u = userID → u_TokenGeneration u ≠ gen) →
  dead_session tok w.
Proof.
  intros Hs Hg. split.
  - intros ctx Hi Hty. destruct Hi as [claims rid Hp _ Ha|t u rid]; [|done]. simpl in Hty.
    destruct (Ha Hty) as (u & Hu & Hid & Hgen). destruct (Hs claims Hp) as [Hsub Hg'].
    apply (Hg u Hu); congruence.
  - intros r body ctx Ht. unfold handleRefresh. rewrite Ht. unfold ValidateToken, bind, try.
    destruct (jwt_parse _ _ _) as [claims|e] eqn:Hp; [|by do 2 eexists].
    destruct (Hs claims Hp) as [Hsub Hg']. destruct (negb _); [by do 2 eexists|].
    destruct (GetUserByID (c_Subject claims) w) as [[u|e] w1] eqn:Hu; [|by do 2 eexists].
    apply GetUserByID_Ok in Hu as (Hin & Hid & _).
    destruct (Z.eqb_spec (c_TokenGeneration claims) (u_TokenGeneration u)) as [Heq|]; [|by do 2 eexists].
    exfalso. apply (Hg u Hin); congruence.
Qed.

Lemma handleRefresh_Ok (body : option string) (r : Request) (ctx : Ctx) (st : Z)
    (resp : TokenResponse) (w w' : World) :
  handleRefresh jwtSecret body r ctx w = (Ok (RespondJSON st resp), w') →
  ∃ tok claims user w1 w2 gen, refresh_token r body = Some tok ∧
    jwt_parse (w_now w) jwtSecret tok = Ok claims ∧ c_TokenType claims = TokenTypeRefresh ∧
    user ∈ d_users (w_db w) ∧ u_ID user = c_Subject claims ∧
    u_TokenGeneration user = c_TokenGeneration claims ∧
    d_users (w_db w') = update_rows (has_id (u_ID user)) (bump (w_now w)) (d_users (w_db w)) ∧
    NoDup (map u_ID (d_users (w_db w'))) ∧
    (∃ u, u ∈ d_users (w_db w') ∧ u_ID u = u_ID user ∧ u_TokenGeneration u = gen) ∧
    GenerateTokenPair jwtSecret (u_ID user) (u_Role user) gen w1 =
      (Ok (tr_AccessToken resp, tr_RefreshToken resp), w2).
Proof.
  unfold handleRefresh, ValidateToken. intros H. answer_inv.
  destruct (jwt_parse _ _ _) eqn:Hp; [|done]. simplify_eq.
  match goal with H : GetUserByID _ _ = _ |- _ => apply GetUserByID_Ok in H as (Hin & Hid & fs & ->) end.
  match goal with H : IncrementTokenGeneration _ _ = _ |- _ =>
    apply IncrementTokenGeneration_Ok in H as (Hus & _ & Hnd & Hex) end.
  match goal with H : with_cookies _ _ _ = _ |- _ => assert (Hc := H) end.
  unfold with_cookies in Hc. answer_inv. bool_hyps.
  assert (Hu : tables d_users w' = d_users (w_db x2)) by frame_back (tables d_users).
  unfold tables in Hu. rewrite Hu.
  do 6 eexists. split_and!; try eassumption; try reflexivity. lia.
Qed.

End rotation.

Lemma pair_claims `{E : Env, !JwtLaws E} (s userID role access refresh : string) (gen : Z) (w w' : World) :
  GenerateTokenPair s userID role gen w = (Ok (access, refresh), w') →
  ∀ now claims,
    (jwt_parse now s access = Ok claims → c_Subject claims = userID ∧
       c_TokenType claims = TokenTypeAccess ∧ c_TokenGeneration claims = gen) ∧
    (jwt_parse now s refresh = Ok claims → c_Subject claims = userID ∧
       c_TokenType claims = TokenTypeRefresh ∧ c_TokenGeneration claims = gen).
Proof.
  unfold GenerateTokenPair. intros H now claims. ok_inv.
  split; intros Hp; (eapply generated_claims in Hp; [|eassumption]); by destruct Hp as (? & _ & ? & ?).
Qed.

(** C24: refreshing rotates the session.  A refresh that is answered presented an unexpired token of
    type refresh that carries the generation of its user; the new tokens carry the next generation,
    and every token of the old one is worth nothing from then on, for as long as the users stay as
    they are: it authenticates no request as a session and refreshes nothing, the presented token
    included. *)
Theorem refresh_rotates `{E : Env, C : Crypto, N : NetEnv, !JwtLaws E} (jwtSecret : string)
    (body : option string) (r : Request) (ctx : Ctx) (st : Z) (resp : TokenResponse) (w w' : World) :
  handleRefresh jwtSecret body r ctx w = (Ok (RespondJSON st resp), w') →
  ∃ tok claims user, refresh_token r body = Some tok ∧ jwt_parse (w_now w) jwtSecret tok = Ok claims ∧
    c_TokenType claims = TokenTypeRefresh ∧ user ∈ d_users (w_db w) ∧ c_Subject claims = u_ID user ∧
    c_TokenGeneration claims = u_TokenGeneration user ∧
    (∀ now, session_of jwtSecret (u_ID user) (1 + u_TokenGeneration user) (tr_AccessToken resp) now ∧
            session_of jwtSecret (u_ID user) (1 + u_TokenGeneration user) (tr_RefreshToken resp) now) ∧
    ∀ w2 tok2, d_users (w_db w2) = d_users (w_db w') →
      session_of jwtSecret (u_ID user) (u_TokenGeneration user) tok2 (w_now w2) →
      dead_session jwtSecret tok2 w2.
Proof.
  intros (tok & claims & user & w1 & w2 & gen & Ht & Hp & Hty & Hin & Hid & Hg & Hus & Hnd &
    (u & Hu & Huid & <-) & Hpair)%handleRefresh_Ok.
  exists tok, claims, user. split_and!; try done.
  - intros now. rewrite <- (bumped_generation _ _ _ _ user u Hus) by done.
    assert (Hc := pair_claims _ _ _ _ _ _ _ _ Hpair now).
    split; intros c Hcl; destruct (Hc c) as [Ha Hr]; [apply Ha in Hcl|apply Hr in Hcl]; tauto.
  - intros w3 tok2 Hw3 Hs. eapply session_dead; [exact Hs|]. rewrite Hw3. intros v Hv Hvid.
    rewrite (bumped_generation _ _ _ _ user v Hus) by done. lia.
Qed.

(** ** Changes of credentials *)

(** The row of [user] has changed by [f] and its sessions have ended; no other row has changed. *)
Definition renewed (f : User → User) (user : User) (us us' : list User) : Prop :=
  (∀ v, v ∈ us' → u_ID v = u_ID user →
     ∃ t, v = f user <| u_TokenGeneration := 1 + u_TokenGeneration user |> <| u_UpdatedAt := t |>) ∧
  ∀ v, u_ID v ≠ u_ID user → v ∈ us ↔ v ∈ us'.

Lemma elem_of_update_other (id : string) (g : User → User) (us : list User) (v : User) :
  (∀ u, u_ID (g u) = u_ID u) → u_ID v ≠ id → v ∈ update_rows (has_id id) g us ↔ v ∈ us.
Proof.
  intros Hg Hv. rewrite elem_of_update_rows. unfold has_id. split.
  - intros [(y & _ & Hy%String.eqb_eq & ->)|[? _]]; [|done]. by rewrite Hg in Hv.
  - intros Hin. right. split; [done|]. by apply String.eqb_neq.
Qed.

Lemma renewed_run (f : User → User) (t1 t2 : Z) (user : User) (us us2 : list User) :
  (∀ u, u_ID (f u) = u_ID u) → (∀ u, u_TokenGeneration (f u) = u_TokenGeneration u) →
  us2 = update_rows (has_id (u_ID user)) (bump t2)
          (update_rows (has_id (u_ID user)) (λ u, f u <| u_UpdatedAt := t1 |>) us) →
  NoDup (map u_ID us2) → user ∈ us → renewed f user us us2.
Proof.
  intros Hid Hgen -> Hnd Hin. rewrite !map_update_rows in Hnd by done. split.
  - intros v Hv Hvid. apply elem_of_update_rows in Hv as [(y & Hy & Hy'%String.eqb_eq & ->)|[_ Hn%String.eqb_neq]];
      [|done]. apply elem_of_update_rows in Hy as [(z & Hz & Hz'%String.eqb_eq & ->)|[_ Hn%String.eqb_neq]];
      [|done]. rewrite (same_user us z user) by done. eexists. unfold bump. simpl.
    by rewrite Hgen.
  - intros v Hv. by rewrite !elem_of_update_other.
Qed.

(** The old sessions of a renewed user have ended. *)
Lemma renewed_ends_sessions `{E : Env, C : Crypto, N : NetEnv} (jwtSecret : string) (f : User → User)
    (user : User) (us us' : list User) (w : World) (tok : string) :
  renewed f user us us' → d_users (w_db w) = us' →
  session_of jwtSecret (u_ID user) (u_TokenGeneration user) tok (w_now w) → dead_session jwtSecret tok w.
Proof.
  intros [Hr _] Hw Hs. eapply session_dead; [exact Hs|]. rewrite Hw. intros v Hv Hid.
  destruct (Hr v Hv Hid) as [t ->]. simpl. lia.
Qed.

Section credentials.
Context `{E : Env, C : Crypto, N : NetEnv}.
Context (jwtSecret : string) (notifier : bool).

Lemma HashPassword_Ok (p hash : string) (w w' : World) :
  HashPassword p w = (Ok hash, w') → ∃ i, bcrypt_hash i p = Ok hash.
Proof.
  unfold HashPassword, draw, bind. intros H. simpl in H.
  destruct (bcrypt_hash _ p) eqn:Hb; [|done]. injection H as -> _. by eexists.
Qed.

Lemma change_password_Ok (r : Request) (ctx : Ctx) (user : User) (s : AuditSettings) (new : string)
    (st : Z) (w w' : World) :
  change_password notifier r ctx user s new w = (Ok (RespondJSON st tt), w') →
  u_ID user = UserIDFromContext ctx → user ∈ d_users (w_db w) →
  ∃ i hash, bcrypt_hash i new = Ok hash ∧
    renewed (set_password hash) user (d_users (w_db w)) (d_users (w_db w')).
Proof.
  unfold change_password. intros H Hid Hin. rewrite <- Hid in H. answer_inv.
  match goal with H : HashPassword _ _ = _ |- _ => destruct (HashPassword_Ok _ _ _ _ H) as [i Hh] end.
  match goal with H : UpdateUserPassword _ _ _ = _ |- _ => apply UpdateUserPassword_Ok in H as Hpw end.
  match goal with H : IncrementTokenGeneration _ _ = _ |- _ =>
    apply IncrementTokenGeneration_Ok in H as (Hgen & _ & Hnd & _) end.
  exists i. eexists. split; [exact Hh|]. tables_along d_users.
  eapply renewed_run; [done|done|by rewrite Hgen, Hpw|done|done].
Qed.

Lemma disable_totp_Ok (r : Request) (ctx : Ctx) (target : string) (user : User) (st : Z) (w w' : World) :
  disable_totp notifier r ctx target user w = (Ok (RespondJSON st tt), w') →
  u_ID user = target → user ∈ d_users (w_db w) →
  renewed (set_totp None false) user (d_users (w_db w)) (d_users (w_db w')).
Proof.
  unfold disable_totp. intros H <- Hin. answer_inv.
  match goal with H : UpdateUserTOTP _ _ _ _ = _ |- _ => apply UpdateUserTOTP_Ok in H as Hpw end.
  match goal with H : IncrementTokenGeneration _ _ = _ |- _ =>
    apply IncrementTokenGeneration_Ok in H as (Hgen & _ & Hnd & _) end.
  tables_along d_users. eapply renewed_run; [done|done|by rewrite Hgen, Hpw|done|done].
Qed.

Lemma frame_disable_totp (r : Request) (ctx : Ctx) (target : string) (user : User) :
  frame w_totp (disable_totp notifier r ctx target user).
Proof. unfold disable_totp, UpdateUserTOTP, IncrementTokenGeneration. frames. Qed.

End credentials.


(** an administrator resets the TOTP of someone else only with a fresh code of their own.  A
    reset that is answered is for another account than the caller's and came with a code valid now
    for the caller's secret and not used before; it removes the target's secret, changes no other
    row of a user, and ends the target's sessions. *)
Theorem totp_reset_guarded `{E : Env, C : Crypto, N : NetEnv} (jwtSecret : string)
    (notifier : bool) (target code : string) (r : Request) (ctx : Ctx) (st : Z) (w w' : World) :
  handleTOTPDisable jwtSecret notifier (Some (target, code)) r ctx w = (Ok (RespondJSON st tt), w') →
  target ≠ UserIDFromContext ctx ∧
  ∃ admin user secret, admin ∈ d_users (w_db w) ∧ u_ID admin = UserIDFromContext ctx ∧
    totpSecretForValidation jwtSecret (u_TOTPSecret admin) = Ok (Some secret) ∧
    totp_validate (w_now w) code secret = true ∧
    w_totp w !! totp_key (u_ID admin) code = None ∧ is_Some (w_totp w' !! totp_key (u_ID admin) code) ∧
    user ∈ d_users (w_db w) ∧ u_ID user = target ∧
    renewed (set_totp None false) user (d_users (w_db w)) (d_users (w_db w')) ∧
    ∀ w2 tok, d_users (w_db w2) = d_users (w_db w') →
      session_of jwtSecret (u_ID user) (u_TokenGeneration user) tok (w_now w2) → dead_session jwtSecret tok w2.
Proof.
  unfold handleTOTPDisable. intros H. answer_inv. bool_hyps. split; [done|].
  match goal with H : GetUserByID (UserIDFromContext ctx) _ = _ |- _ =>
    apply GetUserByID_Ok in H as (Hin & Hid & fs & ->) end.
  match goal with H : GetUserByID target _ = _ |- _ => apply GetUserByID_Ok in H as (Hin2 & Hid2 & fs2 & ->) end.
  match goal with H : check_code _ _ _ _ = _ |- _ =>
    subst; apply check_code_true in H as (secret & -> & Hv & Hfresh & Hused & Hdb & _) end.
  match goal with H : disable_totp _ _ _ _ _ _ = _ |- _ => rename H into Hd end.
  assert (Ht := frame_run _ _ _ _ _ (frame_disable_totp notifier r ctx _ _) Hd). simpl in *. rewrite Hdb in *.
  apply disable_totp_Ok in Hd; [|done|done]. simpl in Hd.
  exists a, a1, secret. rewrite Hid, Ht, Hused. split_and!; try done.
  intros w2 tok Hw2 Hs. by eapply renewed_ends_sessions.
Qed.

Section witnesses.
#[local] Existing Instance demoEnv.
#[local] Existing Instance demo_jwt.
#[local] Existing Instance demo_net.
#[local] Existing Instance demo_crypto.

Definition demo_account (id name : string) (gen : Z) : User :=
  zeroUser <| u_ID := id |> <| u_Username := name |> <| u_Email := name +:+ "@x" |> <| u_Role := RoleAdmin |>
           <| u_PasswordHash := "$Old-pass1!old" |> <| u_AuthProvider := AuthProviderLocal |>
           <| u_TOTPSecret := Some (id +:+ "key") |> <| u_TOTPEnabled := true |> <| u_TokenGeneration := gen |>.
Definition demo_accounts : World :=
  demo_world (empty_db <| d_users := [demo_account "u1" "ann" 4; demo_account "u2" "bob" 0] |>).
Definition demo_dial : LDAPConfig → result Directory := λ _, Err "no directory".

Lemma login_first_factor_only_witness :
  match handleLogin "s" false id id demo_dial (Some ("ann", "Old-pass1!old")) (demo_request "") demo_ctx demo_accounts with
  | (Ok (RespondJSON st resp), w') => ∃ user w1 t,
      first_factor "s" id id demo_dial "ann" "Old-pass1!old" demo_accounts user w1 ∧
      (if u_TOTPEnabled user then st = 202 ∧ resp = MkLoginResponse t "" false false
       else st = 200 ∧ resp = MkLoginResponse "" t true (u_MustChangePassword user)) ∧
      ∀ now claims, jwt_parse now "s" t = Ok claims →
        c_Subject claims = u_ID user ∧
        c_TokenType claims = if u_TOTPEnabled user then TokenTypeTOTP else TokenTypeSetup
  | _ => False
  end.
Proof.
  destruct (handleLogin _ _ _ _ _ _ _ _ _) as [[[st msg|st resp]|e] w'] eqn:H;
    [by vm_compute in H| |by vm_compute in H].
  exact (login_first_factor_only "s" false id id demo_dial _ _ _ _ st resp _ w' H).
Defined.

Definition token_of (m : M string) : string := match m demo_accounts with (Ok t, _) => t | _ => "" end.
Definition demo_totp_token : string := token_of (GenerateTOTPToken "s" "u1" RoleAdmin).
Definition demo_refresh_token : string :=
  token_of (let* p := GenerateTokenPair "s" "u1" RoleAdmin 4 in ret p.2).
Definition demo_admin_ctx : Ctx := MkCtx "u1" RoleAdmin TokenTypeAccess "req-1".

Lemma login_second_factor_witness :
  match handleLoginTOTP "s" (Some (demo_totp_token, "u1key33")) (demo_request "") demo_ctx demo_accounts with
  | (Ok (RespondJSON st (resp, user)), w') =>
      w_totp w' !! totp_key (u_ID user) "u1key33" = Some (1000 * NS)
  | _ => False
  end.
Proof.
  destruct (handleLoginTOTP _ _ _ _ _) as [[[st msg|st [resp user]]|e] w'] eqn:H;
    [by vm_compute in H| |by vm_compute in H].
  destruct (login_second_factor "s" _ _ _ _ st resp user _ w' H) as (_ & _ & Hk & _). exact Hk.
Defined.

Lemma refresh_rotates_witness :
  match handleRefresh "s" (Some demo_refresh_token) (demo_request "") demo_ctx demo_accounts with
  | (Ok (RespondJSON st resp), w') => dead_session "s" demo_refresh_token w'
  | _ => False
  end.
Proof.
  destruct (handleRefresh _ _ _ _ _) as [[[st msg|st resp]|e] w'] eqn:H;
    [by vm_compute in H| |by vm_compute in H].
  destruct (refresh_rotates "s" _ _ _ st resp _ w' H)
    as (tok & claims & user & Ht & Hp & Hty & Hin & Hid & Hg & _ & Hdead).
  apply Hdead; [done|]. vm_compute in Ht. injection Ht as <-. 
  replace (w_now w') with (w_now demo_accounts) by (vm_compute in H; injection H as _ _ <-; reflexivity).
  intros c Hc. vm_compute in Hc, Hp. rewrite <- Hid, <- Hg. split; congruence.
Defined.


Lemma totp_reset_guarded_witness :
  match handleTOTPDisable "s" false (Some ("u2", "u1key33")) (demo_request "") demo_admin_ctx demo_accounts with
  | (Ok (RespondJSON st tt), w') => ∃ user, u_ID user = "u2" ∧
      renewed (set_totp None false) user (d_users (w_db demo_accounts)) (d_users (w_db w'))
  | _ => False
  end.
Proof.
  destruct (handleTOTPDisable _ _ _ _ _ _) as [[[st msg|st []]|e] w'] eqn:H;
    [by vm_compute in H| |by vm_compute in H].
  destruct (totp_reset_guarded "s" false _ _ _ _ st _ w' H)
    as (_ & admin & user & secret & _ & _ & _ & _ & _ & _ & _ & Hid & Hr & _).
  exists user. split; [exact Hid|exact Hr].
Defined.
End witnesses.
