(* ===== verification/UserHandlers.v ===== *)
(** * Administration of users (hub/internal/server/handlers_users.go). *)

From S2P Require Import Prelude GoStr GoTime Model Proto ConnMgr Db Demo StoreConfig StoreUsers.
From S2P Require Import StoreServers StoreAudit StoreTokens Auth AgentHandler Http Files Secrets Ldap.
From S2P Require Import AuthHandlers.

Section user_handlers.
Context `{E : Env, C : Crypto, N : NetEnv}.
Context (notifier : bool).

Definition handleListUsers : HandlerFunc (list User) := λ _ _,
  let* users := try ListUsers in
  match users with
  | Err _ => ret (RespondError 500 "failed to list users")
  | Ok users => ret (RespondJSON 200 users)
  end.

(** body: the role *)
Definition handleUpdateUserRole (body : option string) : HandlerFunc User := λ r ctx,
  let targetID := PathValue r "id" in
  if String.eqb targetID "" then ret (RespondError 400 "missing user id") else
  match body with
  | None => ret (RespondError 400 "invalid request body")
  | Some role =>
      if negb (IsValidRole role)
      then ret (RespondError 400 "role must be 'admin', 'auditor', or 'viewer'") else
      let adminID := UserIDFromContext ctx in
      if String.eqb adminID targetID then ret (RespondError 400 "cannot change your own role") else
      let* updated := try (UpdateUserRole targetID role) in
      if negb (is_ok updated) then ret (RespondError 404 "user not found") else
      let* gen := try (IncrementTokenGeneration targetID) in
      if negb (is_ok gen) then ret (RespondError 500 "failed to invalidate sessions") else
      let* user := try (GetUserByID targetID) in
      match user with
      | Err _ => ret (RespondError 500 "failed to fetch updated user")
      | Ok user =>
          let* _ := audit ctx (audit_entry "user.role_updated" (Some adminID) (Some targetID) None
                      (Some (clientIP r)) "") in
          ret (RespondJSON 200 user)
      end
  end.

(** The payload of a conflict is the servers the user has exclusive access to. *)
Definition handleDeleteUser : HandlerFunc (list string) := λ r ctx,
  let targetID := PathValue r "id" in
  if String.eqb targetID "" then ret (RespondError 400 "missing user id") else
  let adminID := UserIDFromContext ctx in
  if String.eqb adminID targetID then ret (RespondError 400 "cannot delete your own account") else
  let force := String.eqb (Query r "force") "true" in
  let* exclusive := if force then ret (Ok []) else try (GetExclusiveServerAccess targetID) in
  match exclusive with
  | Ok (s :: servers) => ret (RespondJSON 409 (s :: servers))
  | _ =>
      let* deleted := try (DeleteUser targetID) in
      if negb (is_ok deleted) then ret (RespondError 404 "user not found") else
      let* _ := audit ctx (audit_entry "user.deleted" (Some adminID) (Some targetID) None
                  (Some (clientIP r)) "") in
      ret (RespondJSON 200 [])
  end.

(** [time.Duration(hours) * time.Hour] is a 64-bit product. *)
Definition temporary_expiry (now : Z) (settings : AuditSettings) : Z :=
  now + wrap_int (as_TemporaryPasswordTTLHours settings * Hour).

(** body: (username, email, role); the response is the user and the temporary password. *)
Definition handleCreateUser (body : option (string * string * string)) : HandlerFunc (User * string) := λ r ctx,
  match body with
  | None => ret (RespondError 400 "invalid request body")
  | Some (username, email, role) =>
      match validateUsername username with
      | Err e => ret (RespondError 400 e)
      | Ok _ =>
          if negb (IsValidRole role)
          then ret (RespondError 400 "role must be 'admin', 'auditor', or 'viewer'") else
          let* tempPassword := GenerateTemporaryPassword in
          let* hash := try (HashPassword tempPassword) in
          match hash with
          | Err _ => ret (RespondError 500 "failed to hash password")
          | Ok hash =>
              let* id := NewString in
              let* settings := GetAuditSettings in
              let* now := get_now in
              let user := zeroUser <| u_ID := id |> <| u_Username := username |> <| u_Email := email |>
                <| u_PasswordHash := hash |> <| u_Role := role |> <| u_MustChangePassword := true |>
                <| u_TempPasswordExpiresAt := Some (temporary_expiry now settings) |> in
              let* created := try (CreateUser user) in
              match created with
              | Err _ => ret (RespondError 409 "user already exists")
              | Ok user =>
                  let* _ := ignore (AddPasswordHistory (u_ID user) hash) in
                  let* _ := ignore (TrimPasswordHistory (u_ID user) (as_PasswordHistoryCount settings)) in
                  let* _ := audit ctx (audit_entry "user.created" (Some (UserIDFromContext ctx))
                              (Some (u_ID user)) None (Some (clientIP r)) "") in
                  let* _ := notify notifier NotifyUserCreated [("username", username)] in
                  ret (RespondJSON 201 (user, tempPassword))
              end
          end
      end
  end.

End user_handlers.

(** a changed role takes effect at once.  A role change that is answered is by someone else than
    its target and to a known role; afterwards the target's row has the new role, no other row of a
    user has changed, and no session of the target from before authenticates a request or
    refreshes. *)
Theorem role_change_ends_sessions `{E : Env, C : Crypto, N : NetEnv} (jwtSecret role : string)
    (r : Request) (ctx : Ctx) (st : Z) (resp : User) (w w' : World) :
  handleUpdateUserRole (Some role) r ctx w = (Ok (RespondJSON st resp), w') →
  PathValue r "id" ≠ UserIDFromContext ctx ∧ IsValidRole role = true ∧
  ∃ user, user ∈ d_users (w_db w) ∧ u_ID user = PathValue r "id" ∧
    renewed (set_role role) user (d_users (w_db w)) (d_users (w_db w')) ∧
    ∀ w2 tok, d_users (w_db w2) = d_users (w_db w') →
      session_of jwtSecret (u_ID user) (u_TokenGeneration user) tok (w_now w2) →
      dead_session jwtSecret tok w2.
Proof.
  unfold handleUpdateUserRole. intros H. answer_inv. bool_hyps. split_and!; [congruence|done|].
  match goal with H : UpdateUserRole _ _ _ = _ |- _ => apply UpdateUserRole_Ok in H as (Hrole & user & Hin & Hid) end.
  match goal with H : IncrementTokenGeneration _ _ = _ |- _ =>
    apply IncrementTokenGeneration_Ok in H as (Hgen & _ & Hnd & _) end.
  tables_along d_users. rewrite <- Hid in *.
  assert (Hr : renewed (set_role role) user (d_users (w_db w)) (d_users (w_db x2))).
  { eapply renewed_run; [done|done|by rewrite Hgen, Hrole|done|done]. }
  exists user. split_and!; [done|done|done|]. intros w3 tok Hw3 Hs. by eapply renewed_ends_sessions.
Qed.

(** a created account starts with a temporary password.  A creation that is answered adds one row
    to the users and changes no other; the account is local, with the requested name and role and
    without a second factor, and must change its password before the settings' delay has passed; the
    password in the answer meets the policy and the row holds its hash. *)
Theorem created_account_is_temporary `{E : Env, C : Crypto, N : NetEnv, !RandLaws E} (notifier : bool)
    (username email role : string) (r : Request) (ctx : Ctx) (st : Z) (user : User) (temp : string)
    (w w' : World) :
  handleCreateUser notifier (Some (username, email, role)) r ctx w = (Ok (RespondJSON st (user, temp)), w') →
  ValidatePasswordPolicy temp = Ok tt ∧ IsValidRole role = true ∧
  d_users (w_db w') = d_users (w_db w) ++ [user_row (w_now w) user] ∧
  u_Username user = username ∧ u_Role user = role ∧ u_AuthProvider user = AuthProviderLocal ∧
  u_TOTPEnabled user = false ∧ u_MustChangePassword user = true ∧
  (∃ i, bcrypt_hash i temp = Ok (u_PasswordHash user)) ∧
  ∃ settings w1 w2, d_config (w_db w1) = d_config (w_db w) ∧ GetAuditSettings w1 = (Ok settings, w2) ∧
    u_TempPasswordExpiresAt user = Some (temporary_expiry (w_now w) settings).
Proof.
  unfold handleCreateUser. intros H. answer_inv.
  match goal with H : GenerateTemporaryPassword _ = _ |- _ =>
    assert (Hpol := GenerateTemporaryPassword_run w); unfold wp in Hpol; rewrite H in Hpol;
    destruct Hpol as (p & [= <-] & _ & Hpol) end.
  match goal with H : HashPassword _ _ = _ |- _ => destruct (HashPassword_Ok _ _ _ _ H) as [i Hh] end.
  match goal with H : CreateUser _ _ = _ |- _ => apply CreateUser_Ok in H as [-> Hus] end.
  match goal with H : GetAuditSettings ?v = (Ok ?s, ?v') |- _ =>
    assert (Hset : ∃ w1 w2, d_config (w_db w1) = d_config (w_db w) ∧ GetAuditSettings w1 = (Ok s, w2))
      by (exists v, v'; split; [frame_back (tables d_config)|done]);
    assert (Hnow : w_now v' = w_now w) by frame_back w_now end.
  bool_hyps. tables_along d_users. rewrite Hnow in *.
  split_and!; try done; [by exists i|].
  destruct Hset as (w1 & w2 & Hcfg & Hset). by exists x4, w1, w2.
Qed.

Section witnesses.
#[local] Existing Instance demoEnv.
#[local] Existing Instance demo_rand.
#[local] Existing Instance demo_net.
#[local] Existing Instance demo_crypto.

Definition demo_request_for (id : string) : Request :=
  MkRequest "PUT" "/api/users" "hub.example" "10.0.0.1:4242" false
    (λ k, if String.eqb k "id" then id else "") (λ _, "") (λ _, "") (λ _, None).

Lemma role_change_ends_sessions_witness :
  match handleUpdateUserRole (Some RoleViewer) (demo_request_for "u2") demo_admin_ctx demo_accounts with
  | (Ok (RespondJSON st resp), w') => ∃ user, u_ID user = "u2" ∧
      renewed (set_role RoleViewer) user (d_users (w_db demo_accounts)) (d_users (w_db w'))
  | _ => False
  end.
Proof.
  destruct (handleUpdateUserRole _ _ _ _) as [[[st msg|st resp]|e] w'] eqn:H;
    [by vm_compute in H| |by vm_compute in H].
  destruct (role_change_ends_sessions "s" _ _ _ st resp _ w' H) as (_ & _ & user & _ & Hid & Hr & _).
  exists user. split; [exact Hid|exact Hr].
Defined.

Lemma created_account_is_temporary_witness :
  match handleCreateUser true (Some ("carl_1", "carl@x", RoleAuditor)) (demo_request_for "") demo_admin_ctx
          demo_accounts with
  | (Ok (RespondJSON st (user, temp)), w') => ValidatePasswordPolicy temp = Ok tt ∧
      d_users (w_db w') = d_users (w_db demo_accounts) ++ [user_row (1000 * NS) user]
  | _ => False
  end.
Proof.
  destruct (handleCreateUser _ _ _ _ _) as [[[st msg|st [user temp]]|e] w'] eqn:H;
    [by vm_compute in H| |by vm_compute in H].
  destruct (created_account_is_temporary true _ _ _ _ _ st user temp _ w' H) as (Hp & _ & Hu & _).
  split; [exact Hp|exact Hu].
Defined.
End witnesses.
