(* ===== verification/AdminCli.v ===== *)
(** * The operator's commands (hub/cmd/veyport/admin.go, main of main.go).

    A command runs in a process of its own on the same database: it opens the store, whose world is
    this file's, and what the hub sees of it afterwards are the tables.  A command answers with the
    lines it prints. *)

From S2P Require Import Prelude GoStr GoTime Model Db Demo StoreConfig StoreUsers StoreAudit Store StoreTokens.
From S2P Require Import Auth Http Secrets AuthHandlers.
From S2P Require Migrate Ldap.
From S2P Require Import Flag.

Definition adminUsage : string :=
  "usage: veyport admin <command>" +:+ String "010" "commands: reset-totp, create-api-token, list-api-tokens, revoke-api-token".
Definition defaultAdminDBPath : string := "veyport.db".

Definition requireValue (value name : string) : M string :=
  let trimmed := Ldap.TrimSpace value in
  if String.eqb trimmed "" then fail ("--" +:+ name +:+ " is required") else ret trimmed.

(** A time the driver read or [UTC] made. *)
Definition formatOptionalTime (value : option Z) : string :=
  match value with None => "never" | Some t => format_rfc3339 t end.

Definition apiTokenStatus (token : APIToken) (now : Z) : string :=
  match tk_RevokedAt token, tk_ExpiresAt token with
  | Some _, _ => "revoked"
  | None, Some e => if e <? now then "expired" else "active"
  | None, None => "active"
  end.

Section admin.
Context `{E : Env} {SQ : Migrate.Sqlite Db}.
Context (sql_open : string → option string) (enforces : string → bool) (files : list (string * string)).
Context (is_print : Z → bool).

(** The flags of [fs] given in [args]. *)
Definition parse_flags (fs : list (string * kind)) (args : list string) : M (gmap string string) :=
  match Parse is_print fs args with Ok given => ret given | Err e => fail e end.

Definition openAdminStore (dbPath : string) : M unit :=
  wrap "open database" (New sql_open enforces files dbPath).

Definition openStoreAndLookupUser (dbPath username : string) : M User :=
  let* _ := openAdminStore dbPath in
  let* user := try (GetUserByUsername username) in
  match user with
  | Err _ => fail ("user " +:+ Quote is_print username +:+ " not found")
  | Ok user => ret user
  end.

(** The entry of a command, with an identifier of its own. *)
Definition log_command (userID : option string) (action : string) (target detail : option string)
    (resourceType : string) : M unit :=
  let* id := NewString in
  ignore (LogAudit (MkAuditEntry id userID action target detail None AuditOutcomeSuccess AuditActorTypeSystem
                      None (Some resourceType) "" 0)).

(** What [runResetTOTP] does to the account; the temporary password is its answer. *)
Definition reset_account (userID : string) : M string :=
  let* tempPassword := GenerateTemporaryPassword in
  let* hash := wrap "hash password" (HashPassword tempPassword) in
  let* _ := wrap "reset TOTP" (UpdateUserTOTP userID None false) in
  let* _ := wrap "update password" (UpdateUserPassword userID hash) in
  let* _ := wrap "mark setup complete" MarkInitialSetupComplete in
  let* _ := wrap "invalidate sessions" (IncrementTokenGeneration userID) in
  let* _ := wrap "revoke api tokens" (RevokeAllAPITokensByUserID userID) in
  let* _ := log_command (Some userID) "user.totp_reset" (Some userID) None "user" in
  ret tempPassword.

Definition runResetTOTP (args : list string) : M (list string) :=
  let* given := parse_flags [("username", StringFlag); ("db", StringFlag)] args in
  let* username := requireValue (String_ given "username" "") "username" in
  let* user := openStoreAndLookupUser (String_ given "db" defaultAdminDBPath) username in
  let* tempPassword := reset_account (u_ID user) in
  ret ["TOTP reset for user " +:+ Quote is_print username;
       "Temporary password: " +:+ tempPassword;
       "User must set up TOTP again on next login.";
       "All existing sessions and API tokens for this user have been invalidated."].

(** What [runCreateAPIToken] does for an account: the token and its secret. *)
Definition create_token (userID name : string) (expiresIn : Z) : M (APIToken * string) :=
  let* (raw, hash, prefix) := GenerateAPIToken in
  let* id := NewString in
  let* now := get_now in
  let token := MkAPIToken id userID name prefix hash
                 (if 0 <? expiresIn then Some (now + expiresIn) else None) None None 0 0 in
  let* _ := CreateAPIToken token in
  let* _ := log_command (Some userID) "api_token.created" (Some id) (Some name) "api_token" in
  ret (token, raw).

Definition runCreateAPIToken (args : list string) : M (list string) :=
  let* given := parse_flags [("username", StringFlag); ("name", StringFlag); ("db", StringFlag);
                             ("expires-in", DurationFlag)] args in
  let* username := requireValue (String_ given "username" "") "username" in
  let* name := requireValue (String_ given "name" "") "name" in
  let* user := openStoreAndLookupUser (String_ given "db" defaultAdminDBPath) username in
  let* (token, raw) := create_token (u_ID user) name (Duration given "expires-in" (30 * 24 * Hour)) in
  ret ["API token created for " +:+ Quote is_print (u_Username user);
       "Token ID: " +:+ tk_ID token;
       "Name: " +:+ tk_Name token;
       "Prefix: " +:+ tk_TokenPrefix token;
       "Expires At: " +:+ formatOptionalTime (tk_ExpiresAt token);
       "Token: " +:+ raw;
       "Store the token securely. It will not be shown again."].

Definition tab : string := String "009" "".

Definition token_line (now : Z) (token : APIToken) : string :=
  Join tab [tk_ID token; tk_Name token; tk_TokenPrefix token; formatOptionalTime (tk_ExpiresAt token);
            formatOptionalTime (tk_LastUsedAt token); apiTokenStatus token now].

Definition runListAPITokens (args : list string) : M (list string) :=
  let* given := parse_flags [("username", StringFlag); ("db", StringFlag)] args in
  let* username := requireValue (String_ given "username" "") "username" in
  let* user := openStoreAndLookupUser (String_ given "db" defaultAdminDBPath) username in
  let* tokens := ListAPITokensByUserID (u_ID user) in
  match tokens with
  | [] => ret ["No API tokens found for " +:+ Quote is_print (u_Username user)]
  | _ =>
      let* now := get_now in
      ret (Join tab ["ID"; "NAME"; "PREFIX"; "EXPIRES_AT"; "LAST_USED_AT"; "STATUS"] :: map (token_line now) tokens)
  end.

Definition runRevokeAPIToken (args : list string) : M (list string) :=
  let* given := parse_flags [("id", StringFlag); ("db", StringFlag)] args in
  let* tokenID := requireValue (String_ given "id" "") "id" in
  let* _ := openAdminStore (String_ given "db" defaultAdminDBPath) in
  let* _ := RevokeAPIToken tokenID in
  let* _ := log_command None "api_token.revoked" (Some tokenID) None "api_token" in
  ret ["API token " +:+ tokenID +:+ " revoked"].

Definition runAdmin (args : list string) : M (list string) :=
  match args with
  | [] => fail adminUsage
  | command :: args =>
      if String.eqb command "reset-totp" then runResetTOTP args else
      if String.eqb command "create-api-token" then runCreateAPIToken args else
      if String.eqb command "list-api-tokens" then runListAPITokens args else
      if String.eqb command "revoke-api-token" then runRevokeAPIToken args else
      fail ("unknown admin command: " +:+ command)
  end.
End admin.

(** ** Account recovery *)

Section admin_proofs.
Context `{E : Env} {SQ : Migrate.Sqlite Db} {C : Crypto} {N : NetEnv}.
Context (sql_open : string → option string) (enforces : string → bool) (files : list (string * string)).
Context (is_print : Z → bool).

Lemma update_rows_twice {A : Type} (p : A → bool) (f g : A → A) (l : list A) :
  (∀ x, p (f x) = p x) → update_rows p g (update_rows p f l) = update_rows p (λ x, g (f x)) l.
Proof.
  intros Hp. unfold update_rows. rewrite map_map. apply map_ext. intros x.
  destruct (p x) eqn:Hx; [by rewrite Hp, Hx|by rewrite Hx].
Qed.

Lemma frame_log_command {X : Type} (f : World → X) `{!Unaudited f}
    (userID : option string) (action : string) (target detail : option string) (ty : string) :
  frame f (log_command userID action target detail ty).
Proof. unfold log_command. frames. Qed.
Hint Resolve frame_log_command : frames.

(** The entry of a command touches neither accounts nor tokens. *)
Lemma log_command_tables (userID : option string) (action : string) (target detail : option string) (ty : string)
    (w w' : World) (r : result unit) :
  log_command userID action target detail ty w = (r, w') →
  d_users (w_db w') = d_users (w_db w) ∧ d_api_tokens (w_db w') = d_api_tokens (w_db w).
Proof.
  intros H. split; [apply (frame_run (tables d_users)) in H|apply (frame_run (tables d_api_tokens)) in H]; done || frames.
Qed.

Lemma update_tokens_Ok (p : APIToken → bool) (g : Z → APIToken → APIToken) (n : Z) (w w' : World) :
  exec (update_tokens p g) w = (Ok n, w') →
  n = count_rows p (d_api_tokens (w_db w)) ∧
  d_api_tokens (w_db w') = update_rows p
    (λ t, g (sqlite_time (w_now w)) t <| tk_UpdatedAt := sqlite_time (w_now w) |>) (d_api_tokens (w_db w)) ∧
  d_users (w_db w') = d_users (w_db w).
Proof. by intros (fs & -> & -> & _)%exec_Ok. Qed.

(** Rows that an update made revoked are not active. *)
Lemma revoked_rows (sel : APIToken → bool) (now : Z) (l : list APIToken) (t : APIToken) :
  (∀ x g, sel (x <| tk_UpdatedAt := g |>) = sel x) → (∀ x, sel (revoke now x) = sel x) →
  t ∈ update_rows (λ t, sel t && bool_decide (tk_RevokedAt t = None))
        (λ t, revoke now t <| tk_UpdatedAt := now |>) l →
  sel t = true → tk_RevokedAt t ≠ None.
Proof.
  intros H1 H2 Ht Hs. apply elem_of_update_rows in Ht as [(y & _ & _ & ->)|[_ Hp]]; [done|].
  rewrite Hs in Hp. by case_bool_decide.
Qed.

Lemma revoked_inactive (t : APIToken) (hash : string) (now : Z) :
  tk_RevokedAt t ≠ None → token_active hash now t = false.
Proof. intros Hr. unfold token_active. rewrite (bool_decide_false _ Hr), andb_false_r. done. Qed.

Definition reset_credentials (hash : string) (u : User) : User := set_password hash (set_totp None false u).

Lemma reset_account_Ok (userID password : string) (user : User) (w w' : World) :
  reset_account userID w = (Ok password, w') → user ∈ d_users (w_db w) → u_ID user = userID →
  (∃ i hash w1, GenerateTemporaryPassword w = (Ok password, w1) ∧ bcrypt_hash i password = Ok hash ∧
    renewed (reset_credentials hash) user (d_users (w_db w)) (d_users (w_db w'))) ∧
  ∀ t, t ∈ d_api_tokens (w_db w') → tk_UserID t = userID → tk_RevokedAt t ≠ None.
Proof.
  unfold reset_account. intros H Hin <-. ok_inv.
  match goal with H : GenerateTemporaryPassword _ = _ |- _ => pose proof H as Hpw end.
  match goal with H : HashPassword _ _ = _ |- _ => destruct (HashPassword_Ok _ _ _ _ H) as [i Hh] end.
  match goal with H : UpdateUserTOTP _ _ _ _ = _ |- _ => apply UpdateUserTOTP_Ok in H as Ht end.
  match goal with H : UpdateUserPassword _ _ _ = _ |- _ => apply UpdateUserPassword_Ok in H as Hp end.
  match goal with H : IncrementTokenGeneration _ _ = _ |- _ => apply IncrementTokenGeneration_Ok in H as (Hg & _ & Hnd & _) end.
  unfold RevokeAllAPITokensByUserID, MarkInitialSetupComplete in *. ok_inv.
  match goal with H : exec (update_tokens _ _) _ = _ |- _ => apply update_tokens_Ok in H as (_ & Hk & Hu) end.
  match goal with H : log_command _ _ _ _ _ _ = _ |- _ => apply log_command_tables in H as [Hlu Hlk] end.
  split.
  - exists i. do 2 eexists. split; [exact Hpw|]. clear Hpw. split; [exact Hh|]. rewrite Hlu, Hu.
    tables_along d_users. rewrite Ht, update_rows_twice in Hp by done. rewrite Hp in Hg.
    eapply renewed_run; [done|done|exact Hg|done|done].
  - intros t Ht' Hid. rewrite Hlk, Hk in Ht'. eapply (revoked_rows (λ t, String.eqb (tk_UserID t) (u_ID user)));
      [done|done|exact Ht'|by apply String.eqb_eq].
Qed.

Lemma parse_flags_same (fs : list (string * kind)) (args : list string) (w w' : World) (m : gmap string string) :
  parse_flags is_print fs args w = (Ok m, w') → w' = w.
Proof. unfold parse_flags. destruct (Parse _ _ _); [by intros [= _ <-]|done]. Qed.

Lemma requireValue_Ok (value name v : string) (w w' : World) :
  requireValue value name w = (Ok v, w') → w' = w ∧ v = Ldap.TrimSpace value.
Proof. unfold requireValue. destruct (String.eqb _ ""); [done|]. by intros [= <- <-]. Qed.

(** Takes apart the runs of a command up to the store it opens. *)
Ltac command_inv :=
  repeat match goal with H : requireValue _ _ _ = _ |- _ => apply requireValue_Ok in H as [-> ->] end;
  match goal with H : parse_flags _ ?fs ?args _ = (Ok ?g, _) |- _ =>
    rename g into given; unfold parse_flags in H;
    destruct (Parse _ fs args) eqn:Hp in H; [injection H as -> <-|discriminate H] end.

(** The account a command is about, in the store [w1] it opened. *)
Record opened (username : string) (user : User) (w w1 w' : World) : Prop := {
  op_found : user ∈ d_users (w_db w1);
  op_name : u_Username user = username;
  op_clock : w_now w1 = w_now w;
  op_same : ∃ fs, w' = w1 <| w_faults := fs |>
}.

Lemma openStore_Ok (dbPath username : string) (user : User) (w w' : World) :
  openStoreAndLookupUser sql_open enforces files is_print dbPath username w = (Ok user, w') →
  ∃ w1, New sql_open enforces files dbPath w = (Ok tt, w1) ∧ opened username user w w1 w'.
Proof.
  unfold openStoreAndLookupUser, openAdminStore. intros H. ok_inv.
  match goal with H : New _ _ _ _ _ = (Ok ?u, ?v) |- _ => destruct u; exists v; split; [exact H|]; apply New_now in H as Hn end.
  match goal with H : GetUserByUsername _ _ = _ |- _ => apply scanUser_Ok in H as (fs & -> & Hf) end.
  unfold find_user in Hf. apply elem_of_find in Hf as [Hin Hn2%String.eqb_eq]. split; try done. by exists fs.
Qed.

(** ** API tokens *)

(** What the tables must have for [raw] to be the secret of row [t] of account [user]. *)
Record holds_token (raw : string) (t : APIToken) (user : User) (w : World) : Prop := {
  ht_row : t ∈ d_api_tokens (w_db w);
  ht_hash : tk_TokenHash t = HashAPIToken raw;
  ht_unique : distinct (λ t, Some (tk_TokenHash t)) (d_api_tokens (w_db w)) = true;
  ht_user : user ∈ d_users (w_db w);
  ht_owner : u_ID user = tk_UserID t;
  ht_users : NoDup (map u_ID (d_users (w_db w)))
}.

Lemma authenticate_api_token (secret raw : string) (t : APIToken) (user : User) (w : World) :
  holds_token raw t user w → LooksLikeAPIToken raw = true → w_faults w = [] →
  is_ok (jwt_parse (w_now w) secret raw) = false →
  if token_active (HashAPIToken raw) (w_now w) t
  then (authenticateRequestToken secret raw w).1 = Ok (u_ID user, u_Role user, TokenTypeAPIToken)
  else is_ok (authenticateRequestToken secret raw w).1 = false.
Proof.
  intros [Hrow Hhash Huniq Huser Howner Husers] Hlooks Hf Hj.
  assert (Hfind : List.find (token_active (HashAPIToken raw) (w_now w)) (d_api_tokens (w_db w)) =
    if token_active (HashAPIToken raw) (w_now w) t then Some t else None).
  { destruct (List.find _ _) as [x|] eqn:Hx.
    - apply elem_of_find in Hx as [Hin Ha]. assert (t = x) as ->; [|by rewrite Ha].
      eapply (distinct_inj _ _ _ _ (HashAPIToken raw)); [exact Huniq|exact Hrow|exact Hin|simpl; congruence|].
      unfold token_active in Ha. bool_hyps. congruence.
    - destruct (token_active _ _ t) eqn:Ha; [|done].
      eapply List.find_none in Hx; [|by apply list_elem_of_In]. congruence. }
  assert (Hrow1 := λ A g, query_row_ok (A := A) g w Hf).
  assert (Hactive : GetActiveAPITokenByHash (HashAPIToken raw) w =
    (if token_active (HashAPIToken raw) (w_now w) t then Ok t else Err errAPITokenNotFound, w)).
  { unfold GetActiveAPITokenByHash. erewrite bind_run by (unfold wrap; rewrite Hrow1; done).
    rewrite Hfind. by destruct (token_active _ _ t). }
  assert (Huser' : GetUserByID (tk_UserID t) w = (Ok user, w)).
  { unfold GetUserByID, scanUser. erewrite bind_run by (unfold wrap; rewrite Hrow1; done).
    unfold find_user, has_id. by rewrite <- Howner, (find_by_key u_ID). }
  destruct (jwt_parse _ _ _) as [c|e] eqn:Hp; [done|]. unfold authenticateRequestToken.
  erewrite bind_run by (unfold try, ValidateToken; rewrite Hp; done). cbn iota beta.
  rewrite Hlooks. cbn [negb]. erewrite bind_run by exact Hactive. destruct (token_active _ _ t); [|done].
  erewrite bind_run by exact Huser'. unfold bind, get_now, ignore, ret.
  by destruct (UpdateAPITokenLastUsed _ _ _).
Qed.

(** When a token whose lifetime was given expires. *)
Definition token_expiry (now expiresIn : Z) : option Z := if 0 <? expiresIn then Some (now + expiresIn) else None.

Lemma GenerateAPIToken_Ok (raw hash prefix : string) (w w' : World) :
  GenerateAPIToken w = (Ok (raw, hash, prefix), w') →
  LooksLikeAPIToken raw = true ∧ hash = HashAPIToken raw ∧ w_now w' = w_now w ∧ w_db w' = w_db w.
Proof.
  unfold GenerateAPIToken, bind, draw. destruct (rand_hex _ _); [|done]. intros [= <- <- _ <-].
  split; [by destruct a|done].
Qed.

Lemma CreateAPIToken_Ok (token : APIToken) (x : unit) (w w' : World) :
  CreateAPIToken token w = (Ok x, w') →
  d_users (w_db w') = d_users (w_db w) ∧ NoDup (map u_ID (d_users (w_db w'))) ∧
  distinct (λ t, Some (tk_TokenHash t)) (d_api_tokens (w_db w')) = true ∧
  ∃ row, row ∈ d_api_tokens (w_db w') ∧ tk_TokenHash row = tk_TokenHash token ∧ tk_UserID row = tk_UserID token ∧
    tk_RevokedAt row = sqliteTimePtr (tk_RevokedAt token) ∧ tk_ExpiresAt row = sqliteTimePtr (tk_ExpiresAt token).
Proof.
  unfold CreateAPIToken. intros H. ok_inv. apply exec_Ok in H as (fs & _ & -> & Hv). split; [done|].
  split; [by eapply users_id_NoDup|]. split.
  { eapply (unique_constraint _ _ "api_tokens.token_hash"); [exact Hv|]. unfold unique_constraints. do 13 right. left. }
  eexists. split; [apply elem_of_app; right; by apply list_elem_of_singleton|done].
Qed.

Lemma create_token_Ok (userID name raw : string) (expiresIn : Z) (token : APIToken) (user : User) (w w' : World) :
  create_token userID name expiresIn w = (Ok (token, raw), w') →
  user ∈ d_users (w_db w) → u_ID user = userID →
  LooksLikeAPIToken raw = true ∧
  ∃ row, holds_token raw row user w' ∧ tk_RevokedAt row = None ∧
    tk_ExpiresAt row = sqlite_time <$> token_expiry (w_now w) expiresIn.
Proof.
  unfold create_token. intros H Hin Hid. ok_inv.
  match goal with H : GenerateAPIToken _ = _ |- _ => apply GenerateAPIToken_Ok in H as (Hl & -> & Hn & Hd) end.
  match goal with H : NewString _ = _ |- _ => injection H as _ <- end.
  match goal with H : CreateAPIToken _ _ = _ |- _ => apply CreateAPIToken_Ok in H as (Hu & Hnd & Hq & row & Hr & Hh & Ho & Hrev & He) end.
  match goal with H : log_command _ _ _ _ _ _ = _ |- _ => apply log_command_tables in H as [Hlu Hlk] end.
  split; [exact Hl|]. exists row. split; [|split; [exact Hrev|]].
  - simpl in Hu. rewrite Hd in Hu. split; rewrite ?Hlu, ?Hlk, ?Hu; try done. by rewrite <- Hu.
  - rewrite He. simpl. unfold token_expiry. by rewrite Hn.
Qed.
Definition reset_flags : list (string * kind) := [("username", StringFlag); ("db", StringFlag)].

(** The break-glass command gives an account back.  When [reset-totp] prints its lines, the user
    of the name given has no second factor, the printed password meets the policy and is the
    account's new one, every session issued before has ended and no API token of theirs is active
    any more, in the hub as in any other process on the database; other accounts are as they were. *)
Theorem reset_totp_recovers `{!RandLaws E} (jwtSecret : string) (args lines : list string) (w w' : World)
    (Hrun : runResetTOTP sql_open enforces files is_print args w = (Ok lines, w')) :
  ∃ given w1 user i hash password,
    Parse is_print reset_flags args = Ok given ∧
    New sql_open enforces files (String_ given "db" defaultAdminDBPath) w = (Ok tt, w1) ∧
    user ∈ d_users (w_db w1) ∧ u_Username user = Ldap.TrimSpace (String_ given "username" "") ∧
    ("Temporary password: " +:+ password) ∈ lines ∧
    ValidatePasswordPolicy password = Ok tt ∧ bcrypt_hash i password = Ok hash ∧
    renewed (reset_credentials hash) user (d_users (w_db w1)) (d_users (w_db w')) ∧
    ∀ w2, d_users (w_db w2) = d_users (w_db w') → d_api_tokens (w_db w2) = d_api_tokens (w_db w') →
      (∀ tok, session_of jwtSecret (u_ID user) (u_TokenGeneration user) tok (w_now w2) →
         dead_session jwtSecret tok w2) ∧
      ∀ t tokenHash, t ∈ d_api_tokens (w_db w2) → tk_UserID t = u_ID user →
        token_active tokenHash (w_now w2) t = false.
Proof.
  unfold runResetTOTP in Hrun. ok_inv. command_inv.
  match goal with H : openStoreAndLookupUser _ _ _ _ _ _ _ = _ |- _ => apply openStore_Ok in H as (w1 & Hnew & [Hin Hname _ [fs ->]]) end.
  match goal with H : reset_account (u_ID ?u) _ = (Ok ?p, _) |- _ => rename p into password, u into user;
    destruct (reset_account_Ok _ _ _ _ _ H Hin eq_refl) as [(i & hash & v & Hg & Hh & Hr) Htok] end.
  exists given, w1, user, i, hash, password. split_and!; try done.
  - right; left.
  - destruct (GenerateTemporaryPassword_run (w1 <| w_faults := fs |>)) as (p & Hp' & _ & Hpol).
    rewrite Hg in Hp'. by injection Hp' as ->.
  - intros w2 Hus Htk. split.
    + intros tok. by eapply renewed_ends_sessions.
    + intros t h Ht Hid. rewrite Htk in Ht. apply revoked_inactive. by apply Htok.
Qed.

Definition create_flags : list (string * kind) :=
  [("username", StringFlag); ("name", StringFlag); ("db", StringFlag); ("expires-in", DurationFlag)].

(** The token [create-api-token] prints is the one that works.  To the hub, on the tables the
    command left, it stands for the account whose name was given, with the role the account has,
    until the second its lifetime ends and not after; with a lifetime of zero or less it never
    ends.  (The secret is no JSON web token, which the hub tries first.) *)
Theorem created_token_authenticates (jwtSecret : string) (args lines : list string) (w w' : World)
    (Hrun : runCreateAPIToken sql_open enforces files is_print args w = (Ok lines, w')) :
  ∃ given user raw, Parse is_print create_flags args = Ok given ∧
    user ∈ d_users (w_db w') ∧ u_Username user = Ldap.TrimSpace (String_ given "username" "") ∧
    ("Token: " +:+ raw) ∈ lines ∧
    let expiresIn := Duration given "expires-in" (30 * 24 * Hour) in
    ∀ w2, d_users (w_db w2) = d_users (w_db w') → d_api_tokens (w_db w2) = d_api_tokens (w_db w') →
      w_faults w2 = [] → is_ok (jwt_parse (w_now w2) jwtSecret raw) = false →
      let answer := (authenticateRequestToken jwtSecret raw w2).1 in
      if (expiresIn <=? 0) || (unix (w_now w2) <? unix (w_now w + expiresIn))
      then answer = Ok (u_ID user, u_Role user, TokenTypeAPIToken) else is_ok answer = false.
Proof.
  unfold runCreateAPIToken in Hrun. ok_inv.
  command_inv.
  match goal with H : openStoreAndLookupUser _ _ _ _ _ _ _ = _ |- _ => apply openStore_Ok in H as (w1 & _ & [Hin Hname Hnow [fs ->]]) end.
  match goal with H : create_token (u_ID ?u) _ _ _ = (Ok (?t, ?r), _) |- _ => rename u into user; rename r into raw;
    destruct (create_token_Ok _ _ _ _ _ _ _ _ H Hin eq_refl) as (Hl & row & Ht & Hr & He) end.
  exists given, user, raw. split; [exact Hp|]. split; [by destruct Ht|]. split; [exact Hname|].
  split; [do 5 right; left|].
  intros expiresIn w2 Hus Htk Hf Hj.
  assert (Ht2 : holds_token raw row user w2) by (destruct Ht; split; rewrite ?Hus, ?Htk; done).
  assert (Ha := authenticate_api_token jwtSecret raw row user w2 Ht2 Hl Hf Hj).
  replace ((expiresIn <=? 0) || (unix (w_now w2) <? unix (w_now w + expiresIn)))
    with (token_active (HashAPIToken raw) (w_now w2) row); [exact Ha|].
  unfold token_active. rewrite (ht_hash _ _ _ _ Ht), String.eqb_refl, Hr, He, bool_decide_true by done. simpl.
  fold expiresIn. unfold token_expiry. simpl in Hnow. rewrite Hnow.
  destruct (Z.ltb_spec 0 expiresIn), (Z.leb_spec expiresIn 0); try lia; simpl; [|done].
  unfold sqlite_time, unix, NS. destruct (Z.ltb_spec (w_now w2 / 1000000000) ((w_now w + expiresIn) / 1000000000));
    [apply Z.ltb_lt|apply Z.ltb_ge]; lia.
Qed.

Definition revoke_flags : list (string * kind) := [("id", StringFlag); ("db", StringFlag)].

(** A token that was revoked by its identifier is no longer active. *)
Lemma revoked_token_refused (args lines : list string) (flags : gmap string string) (w w' : World) (t : APIToken)
    (hash : string) (now : Z) :
  runRevokeAPIToken sql_open enforces files is_print args w = (Ok lines, w') →
  Parse is_print revoke_flags args = Ok flags →
  t ∈ d_api_tokens (w_db w') → tk_ID t = Ldap.TrimSpace (String_ flags "id" "") → token_active hash now t = false.
Proof.
  unfold runRevokeAPIToken. intros H Hflags Hin Hid. ok_inv. command_inv.
  unfold revoke_flags in Hflags. rewrite Hflags in Hp. injection Hp as <-.
  match goal with H : log_command _ _ _ _ _ _ = _ |- _ => apply log_command_tables in H as [_ Hlk] end.
  unfold RevokeAPIToken, RowsAffected in *. ok_inv.
  match goal with H : driver _ = _ |- _ => apply driver_Ok in H as [fs ->] end.
  match goal with H : exec (update_tokens _ _) _ = _ |- _ => apply update_tokens_Ok in H as (_ & Hk & _) end.
  rewrite Hlk in Hin. simpl in Hin. rewrite Hk in Hin. apply revoked_inactive.
  eapply (revoked_rows (token_is (Ldap.TrimSpace (String_ flags "id" "")))); [done|done|exact Hin|].
  by apply String.eqb_eq.
Qed.
End admin_proofs.

(** ** Concrete commands *)

Section witnesses.
#[local] Existing Instance demoEnv.
#[local] Existing Instance demo_rand.
#[local] Existing Instance demo_net.
#[local] Existing Instance demo_crypto.
(** No scripts, and an engine that enforces what it is asked to. *)
#[local] Instance idle_engine : Migrate.Sqlite Db := λ _ d, (d, None).
#[local] Notation command run args := (run (λ _, None) (λ _, true) [] (λ _, true) args demo_accounts).
#[local] Notation reset_args := ["--username"; " ann "; "-db=/data/veyport.db"].
#[local] Notation create_args := ["-username=bob"; "--name"; "backup"; "--expires-in"; "1h30m"].

(** What a command prints and leaves behind. *)
Definition outcome_of (r : result (list string) * World) : list string * World :=
  match r with (Ok lines, w') => (lines, w') | (Err _, w') => ([], w') end.
Definition demo_reset : list string * World := Eval vm_compute in outcome_of (command runResetTOTP reset_args).
Definition demo_created : list string * World := Eval vm_compute in outcome_of (command runCreateAPIToken create_args).

Lemma Ok_inj {A : Type} (a b : A) : Ok a = Ok b → b = a.
Proof. by intros [= ->]. Qed.

Lemma reset_totp_recovers_witness : ∃ user, u_ID user = "u1" ∧ u_TokenGeneration user = 4 ∧
  ∀ tok, session_of "s" (u_ID user) (u_TokenGeneration user) tok (w_now demo_reset.2) → dead_session "s" tok demo_reset.2.
Proof.
  destruct (reset_totp_recovers (λ _, None) (λ _, true) [] (λ _, true) "s" reset_args demo_reset.1 demo_accounts demo_reset.2)
    as (given & w1 & user & i & hash & password & Hp & Hn & Hin & Hname & _ & _ & _ & _ & Hend); [by vm_compute|].
  apply Ok_inj in Hp. subst given. apply (f_equal (λ r, map u_ID (d_users (w_db r.2)))) in Hn as Hids.
  apply (f_equal (λ r, d_users (w_db r.2))) in Hn. change (d_users (w_db (Ok tt, w1).2)) with (d_users (w_db w1)) in Hn.
  rewrite <- Hn in Hin. clear Hn. vm_compute in Hin, Hname.
  exists user. split_and!; [..|by apply Hend].
  all: apply elem_of_cons in Hin as [->|[->|[]%elem_of_nil]%elem_of_cons]; [done|discriminate Hname].
Defined.

Lemma created_token_authenticates_witness : ∃ raw, ("Token: " +:+ raw) ∈ demo_created.1 ∧
  (authenticateRequestToken "s" raw demo_created.2).1 = Ok ("u2", RoleAdmin, TokenTypeAPIToken).
Proof.
  destruct (created_token_authenticates (λ _, None) (λ _, true) [] (λ _, true) "s" create_args demo_created.1 demo_accounts
    demo_created.2) as (given & user & raw & Hp & Hin & Hname & Hline & Hauth); [by vm_compute|].
  exists raw. split; [exact Hline|]. apply Ok_inj in Hp. subst given.
  assert (Hu : user = demo_account "u2" "bob" 0).
  { vm_compute in Hin, Hname.
    apply elem_of_cons in Hin as [->|[->|[]%elem_of_nil]%elem_of_cons]; [discriminate Hname|done]. }
  rewrite Hu in Hauth. specialize (Hauth demo_created.2 eq_refl eq_refl eq_refl).
  assert (Hraw : raw = drop_str 7 (nth 5 demo_created.1 "")).
  { vm_compute in Hline |- *.
    repeat (apply elem_of_cons in Hline as [Hline|Hline]; [first [discriminate Hline|by apply (f_equal (drop_str 7)) in Hline]|]).
    by apply elem_of_nil in Hline. }
  rewrite Hraw in Hauth |- *. apply Hauth. by vm_compute.
Defined.

(** A negative lifetime is accepted, and the token it makes never expires. *)
Example negative_lifetime :
  match command runCreateAPIToken ["-username=bob"; "--name=x"; "--expires-in=-1h"] with
  | (Ok lines, w') => "Expires At: never" ∈ lines ∧ map tk_ExpiresAt (d_api_tokens (w_db w')) = [None]
  | _ => False
  end.
Proof. vm_compute. set_solver. Qed.

(** The steps of a reset are not one transaction: when the second fails, the second factor is gone
    and the old password and the sessions are still there. *)
Example partial_reset :
  let faulty := demo_accounts <| w_faults := replicate 10 None ++ [Some "database is locked"] |> in
  match runResetTOTP (λ _, None) (λ _, true) [] (λ _, true) reset_args faulty with
  | (Err e, w') => map u_TOTPEnabled (d_users (w_db w')) = [false; true] ∧
      map u_PasswordHash (d_users (w_db w')) = map u_PasswordHash (d_users (w_db faulty)) ∧
      map u_TokenGeneration (d_users (w_db w')) = [4; 0]
  | _ => False
  end.
Proof. by vm_compute. Qed.
End witnesses.
