(* ===== verification/ServerHandlers.v ===== *)
(** * Administration of servers (hub/internal/server/handlers_servers.go, handlers_hub_config.go).

    The environment of the process, the embedded install script and the directory of the agent's
    binaries are parameters. *)

From S2P Require Import Prelude GoStr GoTime Model Proto ConnMgr Db Demo StoreConfig StoreUsers.
From S2P Require Import StoreServers StoreAudit StoreTokens Auth AgentHandler Http Files Secrets Ldap.
From S2P Require Import AuthHandlers.

(** [^[a-zA-Z0-9._:\-]+$] *)
Definition hostPattern (host : string) : bool :=
  negb (String.eqb host "") &&
  all_bytes (λ c, is_lower c || is_upper c || is_digit c || existsb (Ascii.eqb c) ["."; "_"; ":"; "-"]%char) host.

(** [^[a-zA-Z0-9._:\-\[\]]+$] *)
Definition grpcAddrPattern (addr : string) : bool :=
  negb (String.eqb addr "") &&
  all_bytes (λ c, is_lower c || is_upper c || is_digit c ||
                  existsb (Ascii.eqb c) ["."; "_"; ":"; "-"; "["; "]"]%char) addr.

Definition hostFromAddr (addr : string) : string :=
  match SplitHostPort addr with Some (h, _) => h | None => addr end.

Definition isValidGRPCAddr (addr : string) : bool :=
  if String.eqb addr "" then false else
  match SplitHostPort addr with
  | None => false
  | Some (host, port) =>
      if String.eqb host "" || String.eqb port "" then false else hostPattern host
  end.

Definition errInvalidPublicBaseURL : string := "invalid public base url".
Definition errInvalidPublicHubAddr : string := "invalid public hub address".
Definition errPublicHubNotConfigured : string := "public hub address is not configured".

(** The arguments of the installer, and the command that runs it as root. *)
Definition install_args (token grpcTarget baseURL unregisterToken caPin : string) : string :=
  "-s -- --token '" +:+ token +:+ "' --hub '" +:+ grpcTarget +:+ "' --url '" +:+ baseURL +:+
  "' --unregister-token '" +:+ unregisterToken +:+ "' --ca-pin '" +:+ caPin +:+ "'".
Definition install_command (baseURL args : string) : string :=
  "curl -sSL '" +:+ baseURL +:+ "/install.sh' | { if [ " +:+ dquote +:+ "$(id -u)" +:+ dquote +:+
  " -eq 0 ]; then bash " +:+ args +:+ "; elif command -v sudo >/dev/null 2>&1; then sudo bash " +:+ args +:+
  "; elif command -v doas >/dev/null 2>&1; then doas bash " +:+ args +:+
  "; else echo 'This installer needs root. Re-run as root or install sudo/doas.' >&2; exit 1; fi; }".

Section server_handlers.
Context `{E : Env, N : NetEnv}.
Context (isDev : bool) (grpcAddr grpcExternalAddr jwtSecret grpcCACertSHA256 : string).
Context (hmac_sha256 : string → string → string).
Context (getenv : string → string).

(** (servers, total, limit, offset) *)
Definition handleListServers : HandlerFunc (list Server * Z * Z * Z) := λ r ctx,
  let '(limit, offset) := parsePagination r 50 in
  let filter := MkServerFilter (param r "status") (param r "search") limit offset in
  let* result := try (if String.eqb (UserRoleFromContext ctx) "admin" then ListServers filter
                      else ListServersForUser (UserIDFromContext ctx) filter) in
  match result with
  | Err _ => ret (RespondError 500 "failed to list servers")
  | Ok (servers, total) => ret (RespondJSON 200 (servers, total, limit, offset))
  end.

(** The value of a configuration key, empty when it is unset or cannot be read. *)
Definition stored_config (key : string) : M string :=
  let* v := try (GetConfig key) in ret match v with Ok s => s | Err _ => "" end.

Definition resolveGRPCTarget (host : string) : M string :=
  if isDev then ret grpcAddr else
  let target := hostFromAddr host +:+ ":9443" in
  let target := if String.eqb grpcExternalAddr "" then target else grpcExternalAddr in
  let* dbAddr := stored_config "grpc_external_addr" in
  ret (if String.eqb dbAddr "" then target else dbAddr).

Definition envPublicBaseURL : string :=
  let raw := TrimSpace (getenv "VEYPORT_PUBLIC_BASE_URL") in
  if negb (String.eqb raw "") then raw else TrimSpace (getenv "AERODOCS_PUBLIC_BASE_URL").

Definition validatePublicBaseURL (raw : string) : result string :=
  match url_parse raw with
  | None => Err errInvalidPublicBaseURL
  | Some (scheme, host) =>
      if String.eqb host "" || (negb (String.eqb scheme "http") && negb (String.eqb scheme "https"))
      then Err errInvalidPublicBaseURL else Ok (trim_right_slash raw)
  end.

Definition lift {A : Type} (x : result A) : M A := match x with Ok a => ret a | Err e => fail e end.

Definition resolvePublicBaseURL (r : Request) : M string :=
  let raw := envPublicBaseURL in
  if negb (String.eqb raw "") then lift (validatePublicBaseURL raw) else
  let* stored := stored_config "public_base_url" in
  let trimmed := TrimSpace stored in
  if negb (String.eqb trimmed "") then lift (validatePublicBaseURL trimmed) else
  if negb (String.eqb (r_Host r) "") then
    if negb (hostPattern (r_Host r)) then fail errInvalidPublicHubAddr
    else ret (requestScheme isDev r +:+ "://" +:+ r_Host r)
  else if isDev then ret "http://localhost:8080" else
  let* grpcTarget := resolveGRPCTarget "" in
  if String.eqb grpcTarget "" then fail errPublicHubNotConfigured else
  let host := hostFromAddr grpcTarget in
  if String.eqb host "" || negb (hostPattern host) then fail errInvalidPublicHubAddr
  else ret ("https://" +:+ host).

(** What follows the insertion of the server. *)
Definition enrollment_answer (r : Request) (ctx : Ctx) (srv : Server) (rawToken : string)
  : M (response (Server * string * string)) :=
  let* _ := audit ctx (audit_entry "server.created" (Some (UserIDFromContext ctx)) (Some (s_ID srv)) None
              (Some (clientIP r)) "") in
  let* baseURL := try (resolvePublicBaseURL r) in
  match baseURL with
  | Err _ => ret (RespondError 500 "public hub address is not configured")
  | Ok baseURL =>
      let* grpcTarget := resolveGRPCTarget (hostFromAddr (TrimPrefix baseURL "https://")) in
      if negb isDev && negb (isValidGRPCAddr grpcTarget)
      then ret (RespondError 500 "invalid gRPC address") else
      let unregisterToken := selfUnregisterToken hmac_sha256 jwtSecret (s_ID srv) in
      let args := install_args rawToken grpcTarget baseURL unregisterToken grpcCACertSHA256 in
      ret (RespondJSON 201 (srv, rawToken, install_command baseURL args))
  end.

(** body: (name, labels); the response is the server, the token and the install command. *)
Definition handleCreateServer (body : option (string * string)) : HandlerFunc (Server * string * string) :=
  λ r ctx,
  match body with
  | None => ret (RespondError 400 errInvalidRequestBody)
  | Some (name, labels) =>
      if String.eqb name "" then ret (RespondError 400 "server name is required") else
      let* existing := try (GetServerByName name) in
      if is_ok existing then ret (RespondError 409 "a server with this name already exists") else
      let labels := if String.eqb labels "" then "{}" else labels in
      let* rawToken := NewString in
      let* now := get_now in
      let* id := NewString in
      let srv := zeroServer <| s_ID := id |> <| s_Name := name |> <| s_Status := "pending" |>
        <| s_RegistrationToken := Some (sha256_hex rawToken) |>
        <| s_TokenExpiresAt := Some (format_sqlite (now + 1 * Hour)) |> <| s_Labels := labels |> in
      let* created := try (CreateServer srv) in
      if negb (is_ok created) then ret (RespondError 500 "failed to create server")
      else enrollment_answer r ctx srv rawToken
  end.

Definition handleGetServer : HandlerFunc Server := λ r ctx,
  let id := PathValue r "id" in
  let admin := String.eqb (UserRoleFromContext ctx) "admin" in
  let* srv := try (GetServerByID id) in
  match srv with
  | Err _ => ret (if admin then RespondError 404 errServerNotFound else RespondError 403 "access denied")
  | Ok srv =>
      if admin then ret (RespondJSON 200 srv) else
      let* paths := try (GetUserPathsForServer (UserIDFromContext ctx) id) in
      match paths with
      | Err _ => ret (RespondError 500 "failed to check permissions")
      | Ok [] => ret (RespondError 403 "access denied")
      | Ok _ => ret (RespondJSON 200 srv)
      end
  end.

(** body: (name, labels); [None] in the response is a server that could not be read back. *)
Definition handleUpdateServer (body : option (string * string)) : HandlerFunc (option Server) := λ r ctx,
  let id := PathValue r "id" in
  match body with
  | None => ret (RespondError 400 errInvalidRequestBody)
  | Some (name, labels) =>
      if String.eqb name "" then ret (RespondError 400 "server name is required") else
      let* updated := try (UpdateServer id name labels) in
      if negb (is_ok updated) then ret (RespondError 404 errServerNotFound) else
      let* _ := audit ctx (audit_entry "server.updated" (Some (UserIDFromContext ctx)) (Some id) None
                  (Some (clientIP r)) "") in
      let* srv := try (GetServerByID id) in
      ret (RespondJSON 200 match srv with Ok s => Some s | Err _ => None end)
  end.

Definition handleDeleteServer : HandlerFunc unit := λ r ctx,
  let id := PathValue r "id" in
  let* deleted := try (DeleteServer id) in
  if negb (is_ok deleted) then ret (RespondError 404 errServerNotFound) else
  let* _ := on_conns (λ _, Unregister id) in
  let* _ := audit ctx (audit_entry "server.deleted" (Some (UserIDFromContext ctx)) (Some id) None
              (Some (clientIP r)) "") in
  ret (RespondJSON 200 tt).

Definition unregister_all (ids : list string) : M unit :=
  on_conns (λ _ cm, foldl (λ cm id, Unregister id cm) cm ids).

(** The response is the number of IDs. *)
Definition handleBatchDeleteServers (body : option (list string)) : HandlerFunc Z := λ r ctx,
  match body with
  | None => ret (RespondError 400 errInvalidRequestBody)
  | Some ids =>
      let n := Z.of_nat (length ids) in
      if n =? 0 then ret (RespondError 400 "ids list cannot be empty") else
      if 100 <? n then ret (RespondError 400 "maximum 100 servers per batch") else
      let* deleted := try (DeleteServers ids) in
      if negb (is_ok deleted) then ret (RespondError 500 "failed to delete servers") else
      let* _ := unregister_all ids in
      let* _ := audit ctx (audit_entry "server.batch_deleted" (Some (UserIDFromContext ctx)) None
                  (Some ("deleted " +:+ Itoa n +:+ " servers")) (Some (clientIP r)) "") in
      ret (RespondJSON 200 n)
  end.

(** ** Downloads *)

Definition handleInstallScript (InstallScript : string) : HandlerFunc string := λ _ _,
  ret (if String.eqb InstallScript "" then RespondError 404 "install script not available"
       else RespondJSON 200 InstallScript).

Definition supported_platform (r : Request) : bool :=
  String.eqb (PathValue r "os") "linux" &&
  (String.eqb (PathValue r "arch") "amd64" || String.eqb (PathValue r "arch") "arm64").
Definition agent_file (r : Request) (suffix : string) : string :=
  "veyport-agent-" +:+ PathValue r "os" +:+ "-" +:+ PathValue r "arch" +:+ suffix.

(** The response is the path of the file that is served. *)
Definition handleAgentBinary (agentBinDir : string) (exists_ : string → bool) : HandlerFunc string := λ r _,
  if negb (supported_platform r) then ret (RespondError 404 "unsupported platform") else
  let binaryPath := JoinPath agentBinDir (agent_file r "") in
  if negb (exists_ binaryPath) then ret (RespondError 404 "agent binary not found")
  else ret (RespondJSON 200 binaryPath).

Definition handleAgentBinaryChecksum (agentBinDir : string) (ReadFile : string → result string)
  : HandlerFunc string := λ r _,
  if negb (supported_platform r) then ret (RespondError 404 "unsupported platform") else
  match ReadFile (JoinPath agentBinDir (agent_file r ".sha256")) with
  | Err _ => ret (RespondError 404 "checksum not found")
  | Ok data => ret (RespondJSON 200 (TrimSpace data))
  end.

(** ** handlers_hub_config.go *)

Definition handleGetHubConfig : HandlerFunc string := λ _ _,
  let* addr := try (GetConfig "grpc_external_addr") in
  ret (RespondJSON 200 match addr with Ok a => a | Err _ => grpcExternalAddr end).

Definition handleUpdateHubConfig (body : option string) : HandlerFunc unit := λ _ _,
  match body with
  | None => ret (RespondError 400 errInvalidRequestBody)
  | Some addr =>
      if negb (String.eqb addr "") && negb (grpcAddrPattern addr)
      then ret (RespondError 400 "invalid gRPC address format") else
      let* saved := try (SetConfig "grpc_external_addr" addr) in
      if is_ok saved then ret (RespondJSON 200 tt) else ret (RespondError 500 "failed to save hub config")
  end.

End server_handlers.

(** ** Enrollment *)

Section address_frames.
Context {X : Type} (f : World → X) `{!Beyond f} `{E : Env, N : NetEnv}.

Lemma frame_stored_config (key : string) : frame f (stored_config key).
Proof. unfold stored_config, GetConfig, LookupConfig. frames. Qed.
Hint Resolve frame_stored_config : frames.
Lemma frame_resolveGRPCTarget (isDev : bool) (a x h : string) : frame f (resolveGRPCTarget isDev a x h).
Proof. unfold resolveGRPCTarget. frames. Qed.
Hint Resolve frame_resolveGRPCTarget : frames.
Lemma frame_resolvePublicBaseURL (isDev : bool) (a x : string) (g : string → string) (r : Request) :
  frame f (resolvePublicBaseURL isDev a x g r).
Proof. unfold resolvePublicBaseURL, lift. frames. Qed.
End address_frames.
#[export] Hint Resolve frame_resolveGRPCTarget frame_resolvePublicBaseURL : frames.

Section enrollment.
Context `{E : Env, N : NetEnv}.
Context (isDev : bool) (grpcAddr grpcExternalAddr jwtSecret pin : string).
Context (hmac_sha256 : string → string → string) (getenv : string → string).

(** A row that waits for the agent with the token. *)
Record awaits (now : Z) (name tok : string) (srv : Server) : Prop := {
  aw_name : s_Name srv = name;
  aw_status : s_Status srv = "pending";
  aw_token : s_RegistrationToken srv = Some (sha256_hex tok);
  aw_expiry : s_TokenExpiresAt srv = Some (format_sqlite (now + 1 * Hour))
}.

Lemma handleCreateServer_Ok (name labels : string) (r : Request) (ctx : Ctx) (st : Z) (srv : Server)
    (tok cmd : string) (w w' : World) :
  handleCreateServer isDev grpcAddr grpcExternalAddr jwtSecret pin hmac_sha256 getenv
    (Some (name, labels)) r ctx w = (Ok (RespondJSON st (srv, tok, cmd)), w') →
  awaits (w_now w) name tok srv ∧
  d_servers (w_db w') = d_servers (w_db w) ++ [server_row (w_now w) srv].
Proof.
  unfold handleCreateServer, enrollment_answer. intros H. answer_inv.
  match goal with H : NewString ?v = (_, ?v'), _ : CreateServer _ ?v' = _ |- _ =>
    assert (Ht : w_now v = w_now w) by frame_back w_now end.
  match goal with H : CreateServer _ ?v = _ |- _ => assert (Hn : w_now v = w_now w) by frame_back w_now;
    apply CreateServer_Ok in H as Hrow end.
  tables_along d_servers. rewrite Hn, Ht in *. by split.
Qed.

(** The row a token selects. *)
Lemma find_by_token (srv : Server) (tok : string) (w : World) :
  db_violation (w_fk w) (w_db w) = None → srv ∈ d_servers (w_db w) →
  s_RegistrationToken srv = Some (sha256_hex tok) →
  find_server (λ s, bool_decide (s_RegistrationToken s = Some (sha256_hex tok))) w = Some srv.
Proof.
  intros Hv Hin Htok. unfold find_server. destruct (List.find _ _) as [s|] eqn:Hfd.
  - apply elem_of_find in Hfd as [Hs Hst%bool_decide_eq_true]. f_equal.
    eapply (distinct_inj s_RegistrationToken); [|done..].
    eapply (unique_constraint _ _ "servers.registration_token"); [exact Hv|].
    unfold unique_constraints. do 7 right. left.
  - apply list_elem_of_In in Hin. apply (List.find_none _ _ Hfd) in Hin. by rewrite bool_decide_true in Hin.
Qed.

Lemma handleRegister_expired (h : Handler) (srv : Server) (tok host ip os ver csr : string) (w : World) :
  no_faults w → db_violation (w_fk w) (w_db w) = None → srv ∈ d_servers (w_db w) →
  s_RegistrationToken srv = Some (sha256_hex tok) → token_expired (w_now w) srv = true →
  is_ok (AgentHandler.handleRegister h tok host ip os ver csr w).1 = false.
Proof.
  intros Hf Hv Hin Htok Hx.
  unfold AgentHandler.handleRegister, GetServerByToken, scanServer, bind, try, wrap.
  rewrite query_row_ok, (find_by_token srv) by done. unfold ret, get_now. by rewrite Hx.
Qed.

(** A registration with a token that a server awaits, on a working database. *)
Lemma handleRegister_enrolls (h : Handler) (srv : Server) (tok host ip os ver csr key ca cert : string)
    (w : World) :
  no_faults w → db_violation (w_fk w) (w_db w) = None → srv ∈ d_servers (w_db w) →
  s_RegistrationToken srv = Some (sha256_hex tok) → token_expired (w_now w) srv = false →
  csr ≠ "" → check_csr csr = Ok key → h_caCert h = Some ca →
  create_certificate (w_draws w) (s_ID srv) (w_now w) (w_now w + 12 * Hour) key = Ok cert →
  ∃ w', AgentHandler.handleRegister h tok host ip os ver csr w = (Ok (s_ID srv, cert, ca), w').
Proof.
  intros Hf Hv Hin Htok Hx Hcsr Hkey Hca Hcert.
  unfold AgentHandler.handleRegister, GetServerByToken, scanServer, bind, try, wrap.
  rewrite query_row_ok, (find_by_token srv) by done. unfold ret, get_now. rewrite Hx.
  unfold issueRegistrationCertificate, SignCSR, bind, wrap, get_now, draw.
  destruct (String.eqb_spec csr ""); [done|]. rewrite Hca, Hkey, Hcert. unfold ret.
  destruct (ActivateServer_ok srv host ip os ver (w <| w_draws ::= S |>)) as [w' Hact]; [done..|].
  rewrite Hact. by eexists.
Qed.

End enrollment.

(** C26: a created server can be enrolled until its token expires.  A creation that is answered adds one
    pending row, with the hash of the answered token and not the token.  As long as the servers stay
    as they are and the database works, an agent that presents the token with a valid request gets a
    certificate for that server, up to the second one hour after the creation; after that second the
    token is refused. *)
Theorem created_server_enrolls `{E : Env, N : NetEnv} (isDev : bool)
    (grpcAddr grpcExternalAddr jwtSecret pin : string) (hmac_sha256 : string → string → string)
    (getenv : string → string) (name labels : string) (r : Request) (ctx : Ctx) (st : Z) (srv : Server)
    (tok cmd : string) (w w1 w2 : World)
    (Hcreate : handleCreateServer isDev grpcAddr grpcExternalAddr jwtSecret pin hmac_sha256 getenv
       (Some (name, labels)) r ctx w = (Ok (RespondJSON st (srv, tok, cmd)), w1))
    (Hdate : parse_sqlite (format_sqlite (w_now w + 1 * Hour)) = Some (sqlite_time (w_now w + 1 * Hour)))
    (Hsame : d_servers (w_db w2) = d_servers (w_db w1)) (Hf : no_faults w2)
    (Hv : db_violation (w_fk w2) (w_db w2) = None) :
  d_servers (w_db w1) = d_servers (w_db w) ++ [server_row (w_now w) srv] ∧
  s_Status srv = "pending" ∧ s_RegistrationToken srv = Some (sha256_hex tok) ∧
  ∀ h host ip os ver csr key ca cert, csr ≠ "" → check_csr csr = Ok key → h_caCert h = Some ca →
    create_certificate (w_draws w2) (s_ID srv) (w_now w2) (w_now w2 + 12 * Hour) key = Ok cert →
    if w_now w2 <=? sqlite_time (w_now w + 1 * Hour)
    then ∃ w3, AgentHandler.handleRegister h tok host ip os ver csr w2 = (Ok (s_ID srv, cert, ca), w3)
    else is_ok (AgentHandler.handleRegister h tok host ip os ver csr w2).1 = false.
Proof.
  apply handleCreateServer_Ok in Hcreate as ([_ Hst Htok Hexp] & Hrow). split_and!; [done..|].
  intros h host ip os ver csr key ca cert Hcsr Hkey Hca Hcert.
  assert (Hin : server_row (w_now w) srv ∈ d_servers (w_db w2)).
  { rewrite Hsame, Hrow. apply elem_of_app. right. left. }
  assert (Hx : token_expired (w_now w2) (server_row (w_now w) srv) =
               (sqlite_time (w_now w + 1 * Hour) <? w_now w2)).
  { unfold token_expired. simpl. by rewrite Hexp, Hdate. }
  destruct (Z.leb_spec (w_now w2) (sqlite_time (w_now w + 1 * Hour))) as [Hle|Hgt].
  - apply (handleRegister_enrolls h (server_row (w_now w) srv)) with key; try done.
    rewrite Hx. by apply Z.ltb_ge.
  - apply (handleRegister_expired h (server_row (w_now w) srv)); try done. rewrite Hx. by apply Z.ltb_lt.
Qed.

(** ** The install command *)

Section quoting.
Context `{E : Env, N : NetEnv}.
Definition quote : ascii := "039".
Definition unquoted (s : string) : Prop := no_byte quote s = true.

Lemma hostPattern_unquoted (h : string) : hostPattern h = true → unquoted h.
Proof. intros [_ H]%andb_prop. by eapply all_bytes_no_byte in H. Qed.
Lemma grpcAddrPattern_unquoted (a : string) : grpcAddrPattern a = true → unquoted a.
Proof. intros [_ H]%andb_prop. by eapply all_bytes_no_byte in H. Qed.

Lemma hostFromAddr_unquoted (a : string) : unquoted a → unquoted (hostFromAddr a).
Proof.
  intros Ha. unfold hostFromAddr, SplitHostPort. repeat case_match; simplify_eq; try done;
    by apply no_byte_substring.
Qed.

Lemma stored_config_Ok (key v : string) (w w' : World) :
  stored_config key w = (Ok v, w') → v = "" ∨ d_config (w_db w) !! key = Some v.
Proof.
  unfold stored_config, GetConfig, LookupConfig. intros H. ok_inv. destruct x as [s|e]; [|by left]. right.
  ok_inv. by match goal with H : query_row _ _ = _ |- _ => apply query_row_Ok in H as (fs & -> & ->) end.
Qed.

(** Neither the flag nor the stored address of the agents' endpoint has a quote. *)
Definition target_unquoted (grpcExternalAddr : string) (d : Db) : Prop :=
  unquoted grpcExternalAddr ∧ ∀ v, d_config d !! "grpc_external_addr" = Some v → unquoted v.

Lemma resolveGRPCTarget_unquoted (grpcAddr ext host t : string) (w w' : World) :
  resolveGRPCTarget false grpcAddr ext host w = (Ok t, w') → unquoted host →
  target_unquoted ext (w_db w) → unquoted t.
Proof.
  unfold resolveGRPCTarget. intros H Hh [Hext Hdb]. ok_inv.
  match goal with H : stored_config _ _ = _ |- _ => apply stored_config_Ok in H as [->|Hs] end; simpl.
  - destruct (String.eqb ext ""); [|done]. unfold unquoted. rewrite no_byte_app.
    by rewrite hostFromAddr_unquoted.
  - destruct (String.eqb x ""); [|by apply Hdb]. destruct (String.eqb ext ""); [|done].
    unfold unquoted. rewrite no_byte_app. by rewrite hostFromAddr_unquoted.
Qed.
End quoting.

(** the request cannot break out of the install command.  Where the operator has configured no
    public URL, the base URL of the command comes from the [Host] header; it and the address of the
    agents' endpoint, which the command has between single quotes, then contain no quote, whatever
    the request is.  Of the stored address, [handleUpdateHubConfig] makes sure of that. *)
Theorem install_command_unquoted `{E : Env, N : NetEnv} (grpcAddr ext : string) (getenv : string → string)
    (r : Request) (base target : string) (w w1 w2 w3 : World)
    (Henv : envPublicBaseURL getenv = "")
    (Hstored : d_config (w_db w) !! "public_base_url" = None)
    (Hbase : resolvePublicBaseURL false grpcAddr ext getenv r w = (Ok base, w1))
    (Htarget : resolveGRPCTarget false grpcAddr ext (hostFromAddr (TrimPrefix base "https://")) w2 = (Ok target, w3)) :
  target_unquoted ext (w_db w) → target_unquoted ext (w_db w2) →
  unquoted base ∧ unquoted target ∧
  ∀ addr ctx w4 w5, handleUpdateHubConfig (Some addr) r ctx w4 = (Ok (RespondJSON 200 tt), w5) →
    unquoted addr ∧ d_config (w_db w5) = <["grpc_external_addr" := addr]> (d_config (w_db w4)).
Proof.
  intros Hw Hw2. assert (Hb : unquoted base).
  { unfold resolvePublicBaseURL, lift in Hbase. rewrite Henv in Hbase. simpl in Hbase. ok_inv.
    - match goal with H : stored_config _ _ = _ |- _ => apply stored_config_Ok in H as [->|Hs] end;
        [done|congruence].
    - bool_hyps. unfold unquoted. rewrite no_byte_app. apply andb_true_intro. split.
      { unfold requestScheme. by repeat case_match. }
      by apply (hostPattern_unquoted (r_Host r)).
    - bool_hyps. match goal with H : hostPattern ?h = true |- _ => by apply (hostPattern_unquoted h) end. }
  split_and!; [done| |].
  - eapply resolveGRPCTarget_unquoted; [exact Htarget| |done]. apply hostFromAddr_unquoted.
    unfold TrimPrefix. destruct (HasPrefix _ _); [by apply no_byte_drop|done].
  - intros addr ctx w4 w5 H. unfold handleUpdateHubConfig, SetConfig in H. answer_inv.
    ok_inv. match goal with H : exec _ _ = _ |- _ => apply exec_Ok in H as (fs & _ & -> & _) end.
    split; [|done]. destruct (String.eqb_spec addr "") as [->|Ha]; [done|].
    apply grpcAddrPattern_unquoted. by destruct (grpcAddrPattern addr).
Qed.

Section witnesses.
#[local] Existing Instance demoEnv.
#[local] Existing Instance demo_net.

Definition demo_hmac (key text : string) : string := key +:+ "-" +:+ text.
#[local] Notation demo_create r :=
  (handleCreateServer false ":9443" "" "jwt" "pin" demo_hmac (λ _, "") (Some ("web", "")) r demo_admin_ctx).

Lemma created_server_enrolls_witness :
  match demo_create (demo_request "") demo_accounts with
  | (Ok (RespondJSON st (srv, tok, cmd)), w1) => ∃ w3,
      AgentHandler.handleRegister demo_handler tok "host" "10.0.0.9" "linux" "1.2" "csr:key"
        (w1 <| w_now := 4000 * NS |>) = (Ok (s_ID srv, "cert:" +:+ s_ID srv +:+ ":key", "ca"), w3)
  | _ => False
  end.
Proof.
  destruct (demo_create (demo_request "") demo_accounts) as [[[st msg|st [[srv tok] cmd]]|e] w1] eqn:H;
    [by vm_compute in H| |by vm_compute in H].
  assert (Hf : w_faults (demo_create (demo_request "") demo_accounts).2 = []) by (vm_compute; reflexivity).
  assert (Hv : (λ w, db_violation (w_fk w) (w_db w)) (demo_create (demo_request "") demo_accounts).2 = None)
    by (vm_compute; reflexivity).
  rewrite H in Hf, Hv.
  destruct (created_server_enrolls false ":9443" "" "jwt" "pin" demo_hmac (λ _, "") "web" ""
    (demo_request "") demo_admin_ctx st srv tok cmd demo_accounts w1 (w1 <| w_now := 4000 * NS |>) H
    ltac:(vm_compute; reflexivity) eq_refl Hf Hv) as (_ & _ & _ & Henroll).
  assert (Hcert : create_certificate (w_draws w1) (s_ID srv) (4000 * NS) (4000 * NS + 12 * Hour) "key" =
    Ok ("cert:" +:+ s_ID srv +:+ ":key")) by reflexivity.
  assert (Hreg := Henroll demo_handler "host" "10.0.0.9" "linux" "1.2" "csr:key" "key" "ca" _ ltac:(done)
    eq_refl eq_refl Hcert).
  replace (_ <=? _) with true in Hreg by (vm_compute; reflexivity). exact Hreg.
Defined.

(** A hub without TLS of its own that is reached by its loopback name has the base URL
    [http://localhost:8080], of which no agent address can be made: the answer is an error, although
    the server is in the table by then. *)
Lemma enrollment_over_http_fails :
  match demo_create (MkRequest "POST" "/api/servers" "localhost:8080" "10.0.0.1:4242" false
          (λ _, "") (λ _, "") (λ _, "") (λ _, None)) (demo_world empty_db) with
  | (Ok (RespondError st msg), w1) => st = 500 ∧ msg = "invalid gRPC address" ∧
      length (d_servers (w_db w1)) = 1%nat
  | _ => False
  end.
Proof. by vm_compute. Qed.

Lemma install_command_unquoted_witness :
  ∃ base target, base = "https://hub.example" ∧ target = "hub.example:9443" ∧
    unquoted base ∧ unquoted target.
Proof.
  destruct (resolvePublicBaseURL false ":9443" "" (λ _, "") (demo_request "") (demo_world empty_db))
    as [[base|e] w1] eqn:Hb; [|by vm_compute in Hb].
  assert (base = "https://hub.example") as -> by (vm_compute in Hb; congruence).
  destruct (resolveGRPCTarget false ":9443" "" (hostFromAddr (TrimPrefix "https://hub.example" "https://"))
    (demo_world empty_db)) as [[target|e] w3] eqn:Ht; [|by vm_compute in Ht].
  assert (target = "hub.example:9443") as -> by (vm_compute in Ht; congruence).
  destruct (install_command_unquoted ":9443" "" (λ _, "") (demo_request "") _ _
    (demo_world empty_db) w1 (demo_world empty_db) w3 ltac:(vm_compute; reflexivity) ltac:(vm_compute; reflexivity) Hb Ht) as (H1 & H2 & _);
    [split; [done|by intros v]..|].
  do 2 eexists. split; [reflexivity|]. split; [reflexivity|]. split; [exact H1|exact H2].
Defined.
End witnesses.
