(* ===== verification/TerminalHandlers.v ===== *)
(** * Terminal handlers of the hub (hub/internal/server/handlers_terminal.go).

    A handler that waits takes what the rest of the hub does meanwhile as an argument.  The timer
    of an unattached session is a value in the world; [expire] is the function it runs. *)

From S2P Require Import Prelude GoStr GoTime Model Proto Chan ConnMgr Db Demo StoreConfig.
From S2P Require Import StoreUsers StoreServers StoreAudit AgentHandler Http Files.
From S2P Require Import Auth AuthHandlers Streams.
From S2P Require Pending LogSessions TerminalSessions.

Definition maxTerminalInputBytes : nat := 8192.
Definition terminalStreamAttachDelay : Z := 30 * Second.
Definition errTerminalSessionNotFound : string := "terminal session not found".
Definition terminalSessionIDDetailPrefix : string := "session_id=".
Definition AuditTerminalOpened : string := "terminal.opened".
Definition AuditTerminalClosed : string := "terminal.closed".
Definition errTerminalAccess : string := "terminal access required".

(** What [handleTerminalStream] writes. *)
Inductive term_sse :=
  | SseTerminalData (encoded : string)
  | SseTerminalExit (exit_code : Z) (error : string).

Definition hasTerminalServerAssignment (paths : list string) : bool :=
  existsb (λ path, String.eqb path "/") paths.

Definition ldapExecutionUsername (user : User) : string :=
  if negb (String.eqb (u_AuthProvider user) AuthProviderLDAP) then "" else
  if negb (String.eqb (u_LDAPUsername user) "") then u_LDAPUsername user else u_Username user.

Section terminal_handlers.
Context `{E : Env}.
(** strconv.Quote *)
Context (quote : string → string).

Definition term_register (serverID sessionID user execUser : string) : M (option nat) :=
  on_terminals (λ ts, Ret (TerminalSessions.Register serverID sessionID user execUser ts)).
Definition term_remove (serverID sessionID : string) : M bool :=
  on_terminals (TerminalSessions.Remove serverID sessionID).
Definition term_next (ch : nat) : M (received TerminalSessions.TerminalEvent) :=
  on_terminals (λ ts, Ret (TerminalSessions.Next ch ts)).

(** The user the shell runs as, or the response. *)
Definition resolveTerminalExecutionUser (ctx : Ctx) (serverID : string) : M (string + (Z * string)) :=
  let* user := try (GetUserByID (UserIDFromContext ctx)) in
  match user with
  | Err _ => ret (inr (403, errTerminalAccess))
  | Ok user =>
      if String.eqb (u_Role user) RoleAdmin then ret (inl (ldapExecutionUsername user)) else
      if negb (String.eqb (u_AuthProvider user) AuthProviderLDAP) || negb (u_TerminalAccess user)
      then ret (inr (403, errTerminalAccess)) else
      let* paths := try (GetUserPathsForServer (u_ID user) serverID) in
      match paths with
      | Err _ => ret (inr (500, "failed to check server assignment"))
      | Ok paths =>
          if negb (hasTerminalServerAssignment paths)
          then ret (inr (403, "root server assignment required for terminal access")) else
          let executionUser := ldapExecutionUsername user in
          if String.eqb executionUser "" then ret (inr (403, "LDAP execution user not available"))
          else ret (inl executionUser)
      end
  end.

(** [time.AfterFunc(terminalStreamAttachDelay, ...)] *)
Definition expireUnattachedTerminalSession (serverID sessionID userID ip correlationID : string)
  : M unit := λ w,
  (Ok tt, w <| w_timers ::= λ l, l ++ [MkExpiry (w_now w + terminalStreamAttachDelay)
                                         serverID sessionID userID ip correlationID] |>).

Definition nonempty (s : string) : option string := if String.eqb s "" then None else Some s.

Definition audit_expired (x : Expiry) : M unit :=
  let detail := terminalSessionIDDetailPrefix +:+ ex_sessionID x +:+ " expired_unattached" in
  let* id := NewString in
  ignore (LogAudit (audit_entry AuditTerminalClosed (nonempty (ex_userID x)) (Some (ex_serverID x))
    (Some detail) (nonempty (ex_ip x)) ""
    <| ae_ID := id |> <| ae_CorrelationID := nonempty (ex_correlationID x) |>)).

(** The function of the timer. *)
Definition expire (x : Expiry) : M unit :=
  let* removed := on_terminals (TerminalSessions.RemoveUnattached (ex_serverID x) (ex_sessionID x)) in
  if negb removed then ret tt else
  let* _ := ignore (SendToAgent (ex_serverID x) (TerminalClose (ex_sessionID x))) in
  audit_expired x.

(** An audit entry of the caller without an ID of its own. *)
Definition audit_terminal (r : Request) (ctx : Ctx) (action serverID detail : string) : M unit :=
  auditLogRequest ctx (audit_entry action (Some (UserIDFromContext ctx)) (Some serverID)
    (Some detail) (Some (clientIP r)) "").

Definition open_refused (serverID sessionID : string) (st : Z) (msg : string) : M (response string) :=
  let* _ := term_remove serverID sessionID in ret (RespondError st msg).

(** From the registration of the session on. *)
Definition open_session (wt : wait) (r : Request) (ctx : Ctx) (serverID : string) (cols rows : Z)
    (cwd executionUser : string) : M (response string) :=
  let userID := UserIDFromContext ctx in
  let* sessionID := NewString in
  let* created := term_register serverID sessionID userID executionUser in
  match created with
  | None => ret (RespondError 409 "terminal session already exists")
  | Some _ =>
      let* resp := sendAgentRequestWithID wt serverID sessionID
                     (λ id, TerminalOpenRequest id cols rows cwd executionUser) in
      match resp with
      | Refuse st e => open_refused serverID sessionID st e
      | Answer (TerminalOpenAck _ success error) =>
          if negb success
          then open_refused serverID sessionID (if Contains error "cwd" then 400 else 502) error
          else
            let* _ := expireUnattachedTerminalSession serverID sessionID userID (clientIP r)
                        (RequestIDFromContext ctx) in
            let detail := terminalSessionIDDetailPrefix +:+ sessionID +:+
                          (if String.eqb cwd "" then "" else " cwd=" +:+ quote cwd) +:+
                          (if String.eqb executionUser "" then ""
                           else " execution_user=" +:+ executionUser) in
            let* _ := audit_terminal r ctx AuditTerminalOpened serverID detail in
            ret (RespondJSON 201 sessionID)
      | Answer _ => open_refused serverID sessionID 502 "unexpected terminal response"
      end
  end.

Definition handleCreateTerminalSession (wt : wait) (body : option (Z * Z * string))
  : HandlerFunc string := λ r ctx,
  let serverID := PathValue r "id" in
  let* connected := requireAgent serverID in
  if negb connected then ret (RespondError 502 errAgentNotConnected) else
  match body with
  | None => ret (RespondError 400 errInvalidRequestBody)
  | Some (cols, rows, cwd) =>
      match (if String.eqb cwd "" then Ok tt else validateRequestPath cwd) with
      | Err e => ret (RespondError 400 e)
      | Ok _ =>
          let* who := resolveTerminalExecutionUser ctx serverID in
          match who with
          | inr (st, e) => ret (RespondError st e)
          | inl executionUser => open_session wt r ctx serverID cols rows cwd executionUser
          end
      end
  end.

Definition closeTerminalSession (r : Request) (ctx : Ctx) (serverID sessionID : string) : M unit :=
  let* (alreadyClosed, removed) :=
    on_terminals (TerminalSessions.RemoveIfHubInitiated serverID sessionID) in
  if negb removed then ret tt else
  let* _ := if negb alreadyClosed
            then ignore (SendToAgent serverID (TerminalClose sessionID)) else ret tt in
  audit_terminal r ctx AuditTerminalClosed serverID
    (terminalSessionIDDetailPrefix +:+ sessionID +:+ (if alreadyClosed then " agent_initiated" else "")).

(** The loop of the stream over its wake-ups; the request's context is done after them. *)
Fixpoint terminal_loop (ch : nat) (wakes : list (World → World)) : M (list term_sse) :=
  match wakes with
  | [] => ret []
  | o :: wakes' =>
      let* _ := pause o in
      let* event := term_next ch in
      match event with
      | ClosedDrained => ret []
      | WouldBlock => terminal_loop ch wakes'
      | Got event =>
          let* rest := terminal_loop ch wakes' in
          ret (match event with
               | TerminalSessions.TerminalEventData data => SseTerminalData (EncodeToString data)
               | TerminalSessions.TerminalEventExit code err => SseTerminalExit code err
               end :: rest)
      end
  end.

Definition handleTerminalStream (flusher : bool) (wakes : list (World → World))
  : HandlerFunc (list term_sse) := λ r ctx,
  let serverID := PathValue r "id" in
  let sessionID := PathValue r "sessionId" in
  if negb flusher then ret (RespondError 500 "streaming not supported") else
  let* (info, exists_, _) := on_terminals (λ ts,
      let '(info, e, a, ts') := TerminalSessions.AttachStream serverID sessionID
                                  (UserIDFromContext ctx) ts in Ret (info, e, a, ts')) in
  if negb exists_ then ret (RespondError 404 errTerminalSessionNotFound) else
  match info with
  | None => ret (RespondError 409 "terminal session stream already attached")
  | Some info =>
      deferred (let* events := terminal_loop (TerminalSessions.Ch info) wakes in
                ret (RespondJSON 200 events))
               (closeTerminalSession r ctx serverID sessionID)
  end.

(** [None] when the session is not the caller's. *)
Definition requireTerminalSession (ctx : Ctx) (serverID sessionID : string)
  : M (option TerminalSessions.TerminalSessionInfo) := λ w,
  (Ok (match TerminalSessions.Get serverID sessionID (w_terminals w) with
       | Some info => if String.eqb (TerminalSessions.UserID info) (UserIDFromContext ctx)
                      then Some info else None
       | None => None
       end), w).

(** The checks [handleTerminalInput] and [handleTerminalResize] make first. *)
Definition with_open_session {A : Type} (r : Request) (ctx : Ctx)
    (k : string → string → M (response A)) : M (response A) :=
  let serverID := PathValue r "id" in
  let sessionID := PathValue r "sessionId" in
  let* connected := requireAgent serverID in
  if negb connected then ret (RespondError 502 errAgentNotConnected) else
  let* info := requireTerminalSession ctx serverID sessionID in
  match info with
  | None => ret (RespondError 404 errTerminalSessionNotFound)
  | Some info =>
      if TerminalSessions.Closed info then ret (RespondError 409 "terminal session is closed")
      else k serverID sessionID
  end.

Definition handleTerminalInput (body : option string) : HandlerFunc unit := λ r ctx,
  with_open_session r ctx (λ serverID sessionID,
    match body with
    | None => ret (RespondError 400 errInvalidRequestBody)
    | Some data =>
        if (maxTerminalInputBytes <? String.length data)%nat
        then ret (RespondError 400 "terminal input too large") else
        let* sent := try (SendToAgent serverID (TerminalInput sessionID data)) in
        ret match sent with
            | Err _ => RespondError 502 "failed to send terminal input"
            | Ok _ => RespondJSON 202 tt
            end
    end).

Definition handleTerminalResize (body : option (Z * Z)) : HandlerFunc unit := λ r ctx,
  with_open_session r ctx (λ serverID sessionID,
    match body with
    | None => ret (RespondError 400 errInvalidRequestBody)
    | Some (cols, rows) =>
        let* sent := try (SendToAgent serverID (TerminalResize sessionID cols rows)) in
        ret match sent with
            | Err _ => RespondError 502 "failed to resize terminal"
            | Ok _ => RespondJSON 202 tt
            end
    end).

Definition handleCloseTerminalSession : HandlerFunc unit := λ r ctx,
  let serverID := PathValue r "id" in
  let sessionID := PathValue r "sessionId" in
  let* info := requireTerminalSession ctx serverID sessionID in
  match info with
  | None => ret (RespondError 404 errTerminalSessionNotFound)
  | Some _ =>
      let* _ := closeTerminalSession r ctx serverID sessionID in
      ret (RespondJSON 204 tt)
  end.

End terminal_handlers.

(** ** What a request to an agent does *)

Section requests.
Context `{E : Env}.

(** A request that reaches the agent leaves the world [asked] while it waits. *)
Definition asked (serverID requestID : string) (c : AgentConn) (m : HubMessage)
    (fs : list (option string)) (w : World) : World :=
  w <| w_pending := (Pending.Register serverID requestID (w_pending w)).2 |> <| w_faults := fs |>
    <| w_sent := w_sent w ++ [(Stream c, m)] |>.

#[local] Opaque Pending.Register Pending.Remove.
Lemma sendAgentRequestWithID_run (wt : wait) (serverID requestID : string)
    (buildMsg : string → HubMessage) (w : World) :
  let p := Pending.Register serverID requestID (w_pending w) in
  let remove := Pending.Remove serverID requestID in
  (∃ fs, sendAgentRequestWithID wt serverID requestID buildMsg w =
     (Ok (Refuse 502 errAgentNotConnected), w <| w_pending := remove p.2 |> <| w_faults := fs |>)) ∨
  ∃ c fs, w_conns w !! serverID = Some c ∧
    sendAgentRequestWithID wt serverID requestID buildMsg w =
    let '(r, w2) := select_response wt p.1 (asked serverID requestID c (buildMsg requestID) fs w) in
    (match r with
     | Ok (Some raw) => Ok (Answer raw)
     | Ok None => Ok (Refuse 504 "agent timeout")
     | Err e => Err e
     end, w2 <| w_pending ::= remove |>).
Proof.
  intros p remove. subst p remove. unfold sendAgentRequestWithID, pending_register, on_pending, deferred, pending_remove,
    SendToAgent, get_conn, GetConn, bind, try.
  destruct (Pending.Register serverID requestID (w_pending w)) as [pch p] eqn:Hp. simpl.
  destruct (w_conns w !! serverID) as [c|] eqn:Hc.
  2:{ left. exists (w_faults w). by destruct w. }
  unfold Send, bind, driver. simpl. destruct (w_faults w) as [|[e|] fs] eqn:Hf; simpl.
  - right. exists c, []. split; [done|]. unfold asked. destruct w. simpl in *. subst. rewrite Hp.
    destruct (select_response _ _ _) as [[[raw|]|e] w2]; reflexivity.
  - left. by exists fs.
  - right. exists c, fs. split; [done|]. unfold asked. rewrite Hp. simpl.
    destruct (select_response _ _ _) as [[[raw|]|e] w2]; reflexivity.
Qed.
End requests.

(** ** Opening a session *)

(** The user may open a terminal on the server, and the shell runs as [execUser]. *)
Definition may_open (ctx : Ctx) (serverID execUser : string) (d : Db) : Prop :=
  ∃ u, u ∈ d_users d ∧ u_ID u = UserIDFromContext ctx ∧ execUser = ldapExecutionUsername u ∧
    (u_Role u = RoleAdmin ∨
     u_AuthProvider u = AuthProviderLDAP ∧ u_TerminalAccess u = true ∧ execUser ≠ "" ∧
     ∃ p, p ∈ d_permissions d ∧ pr_user_id p = u_ID u ∧ pr_server_id p = serverID ∧ pr_path p = "/").

Section opening.
Context `{E : Env}.

Lemma hasTerminalServerAssignment_iff (userID serverID : string) (d : Db) :
  hasTerminalServerAssignment (map pr_path (List.filter
    (λ p, String.eqb (pr_user_id p) userID && String.eqb (pr_server_id p) serverID)
    (d_permissions d))) = true ↔
  ∃ p, p ∈ d_permissions d ∧ pr_user_id p = userID ∧ pr_server_id p = serverID ∧ pr_path p = "/".
Proof.
  unfold hasTerminalServerAssignment. rewrite existsb_exists. setoid_rewrite list_elem_of_In. split.
  - intros (x & Hx & ->%String.eqb_eq). apply in_map_iff in Hx as (p & Hp & Hin).
    apply filter_In in Hin as [Hin Hb]. bool_hyps. by exists p.
  - intros (p & Hin & <- & <- & Hr). exists "/". split; [|done]. rewrite <- Hr.
    apply in_map, filter_In. by rewrite !String.eqb_refl.
Qed.

Lemma resolve_run (ctx : Ctx) (serverID : string) (w : World) :
  let '(res, w') := resolveTerminalExecutionUser ctx serverID w in
  (∃ fs, w' = w <| w_faults := fs |>) ∧
  match res with
  | Ok (inl execUser) => may_open ctx serverID execUser (w_db w)
  | Ok (inr (st, _)) => st = 403 ∨ st = 500
  | Err _ => False
  end.
Proof.
  unfold resolveTerminalExecutionUser, bind, try.
  assert (Hr : Db.reads (GetUserByID (UserIDFromContext ctx))) by (unfold GetUserByID, scanUser; readers).
  destruct (reads_run _ w Hr) as (u & fs & Hu). rewrite Hu.
  destruct u as [u|e]; [|split; [by exists fs|by left]].
  apply GetUserByID_Ok in Hu as (Hin & Hid & _).
  destruct (String.eqb_spec (u_Role u) RoleAdmin) as [Ha|Ha].
  { split; [by exists fs|]. exists u. by repeat split; [..|left]. }
  destruct (_ || _) eqn:Ho; [split; [by exists fs|by left]|]. bool_hyps.
  unfold GetUserPathsForServer.
  match goal with |- context [query ?qe ?se ?ee ?f ?v] =>
    destruct (query_cases qe se ee f v) as [(e & fs1 & -> & _)|(fs1 & fs2 & ->)];
      [auto with veyport..| |] end; [split; [by exists fs1|by right]|].
  simpl. destruct (negb (hasTerminalServerAssignment _)) eqn:Hg; [split; [by exists fs1|by left]|].
  apply negb_false_iff, hasTerminalServerAssignment_iff in Hg as (p & Hp).
  destruct (String.eqb_spec (ldapExecutionUsername u) "") as [He|He];
    (split; [by exists fs1|]); [by left|].
  exists u. repeat split; try done. right. repeat split; try done. by exists p.
Qed.

End opening.

Lemma Register_run (srv sid user execUser : string) (ts : TerminalSessions.TerminalSessions) :
  let key := Pending.makeKey srv sid in
  (is_Some (TerminalSessions.sessions ts !! key) ∧
   TerminalSessions.Register srv sid user execUser ts = (None, ts)) ∨
  ∃ c ts1 ts2, TerminalSessions.sessions ts !! key = None ∧
    TerminalSessions.Register srv sid user execUser ts = (Some c, ts1) ∧
    TerminalSessions.sessions ts1 =
      <[key := TerminalSessions.MkTerm user execUser c false false]> (TerminalSessions.sessions ts) ∧
    TerminalSessions.Remove srv sid ts1 = Ret (true, ts2) ∧
    TerminalSessions.sessions ts2 = TerminalSessions.sessions ts.
Proof.
  simpl. unfold TerminalSessions.Register.
  destruct (TerminalSessions.sessions ts !! Pending.makeKey srv sid) eqn:Hk; [by left; eauto|right].
  do 3 eexists. split_and!; [done..| |].
  - unfold TerminalSessions.Remove, TerminalSessions.drop_session. simpl.
    rewrite lookup_insert_eq. simpl. unfold close_chan. simpl. by rewrite lookup_insert_eq.
  - simpl. rewrite delete_insert_id; [done|]. done.
Qed.

Lemma Remove_forgets (srv sid : string) (ts ts' : TerminalSessions.TerminalSessions) (b : bool) :
  TerminalSessions.Remove srv sid ts = Ret (b, ts') →
  TerminalSessions.sessions ts' !! Pending.makeKey srv sid = None.
Proof.
  unfold TerminalSessions.Remove. destruct (_ !! _) as [s|] eqn:Hk; [|intros [= _ <-]; done].
  unfold TerminalSessions.drop_session, obind.
  destruct (if TerminalSessions.closed s then _ else _); [|done]. intros [= _ <-]. apply lookup_delete_eq.
Qed.

(** The world in which the handler waits for the agent's answer: the session is registered for the
    caller and the request is sent. *)
Record opening (ctx : Ctx) (serverID sessionID execUser : string) (cols rows : Z) (cwd : string)
    (w w1 : World) : Prop := {
  op_fresh : TerminalSessions.sessions (w_terminals w) !! Pending.makeKey serverID sessionID = None;
  op_session : ∃ ch, TerminalSessions.sessions (w_terminals w1) =
    <[Pending.makeKey serverID sessionID :=
        TerminalSessions.MkTerm (UserIDFromContext ctx) execUser ch false false]>
      (TerminalSessions.sessions (w_terminals w));
  op_sent : ∃ c, w_conns w !! serverID = Some c ∧
    w_sent w1 = w_sent w ++ [(Stream c, TerminalOpenRequest sessionID cols rows cwd execUser)];
  op_pending : w_pending w1 = (Pending.Register serverID sessionID (w_pending w)).2
}.

(** The handler has sent nothing and keeps nothing. *)
Definition no_session {A : Type} (w : World) (run : result (response A) * World) : Prop :=
  (∃ st msg, run.1 = Ok (RespondError st msg)) ∧
  w_sent run.2 = w_sent w ∧ w_timers run.2 = w_timers w ∧
  w_db run.2 = w_db w ∧
  TerminalSessions.sessions (w_terminals run.2) = TerminalSessions.sessions (w_terminals w).

(** What becomes of a session after the wait: it is closed again, or the agent has opened it. *)
Definition opened (wt : wait) (r : Request) (ctx : Ctx) (serverID sessionID : string) (w w1 : World)
    (run : result (response string) * World) : Prop :=
  run.1 = Err panicked ∨
  ((∃ st msg, run.1 = Ok (RespondError st msg)) ∧
   TerminalSessions.sessions (w_terminals run.2) !! Pending.makeKey serverID sessionID = None) ∨
  (run.1 = Ok (RespondJSON 201 sessionID) ∧
   (∃ id e w2, select_response wt (Pending.Register serverID sessionID (w_pending w)).1 w1 =
      (Ok (Some (TerminalOpenAck id true e)), w2)) ∧
   w_terminals run.2 = w_terminals (others wt w1) ∧
   w_timers run.2 = w_timers (others wt w1) ++
     [MkExpiry (w_now (others wt w1) + terminalStreamAttachDelay) serverID sessionID
        (UserIDFromContext ctx) (clientIP r) (RequestIDFromContext ctx)]).

Section open_run.
Context `{E : Env}.
Context (quote : string → string).

Lemma select_response_world (wt : wait) (ch : nat) (w w' : World) (res : result (option Response)) :
  select_response wt ch w = (res, w') →
  (res = Err panicked ∨ is_ok res = true) ∧ ∃ p, w' = others wt w <| w_pending := p |>.
Proof.
  unfold select_response, pause, pending_await, on_pending, bind. cbv beta iota.
  assert (Hw : others wt w = others wt w <| w_pending := w_pending (others wt w) |>)
    by by destruct (others wt w).
  destruct (fires wt). { intros [= <- <-]. by eauto. }
  destruct (Pending.Await ch _) as [[v| |] p] eqn:Hp; intros [= <- <-]; eauto.
Qed.

Lemma open_refused_run (serverID sessionID msg : string) (st : Z) (w : World) :
  let run := open_refused serverID sessionID st msg w in
  run.1 = Err panicked ∨
  ((∃ st msg, run.1 = Ok (RespondError st msg)) ∧
   TerminalSessions.sessions (w_terminals run.2) !! Pending.makeKey serverID sessionID = None).
Proof.
  unfold open_refused, term_remove, on_terminals, bind. cbv beta.
  destruct (TerminalSessions.Remove _ _ _) as [[b ts]|] eqn:Hr; simpl; [|by left].
  right. split; [by eauto|]. by eapply Remove_forgets.
Qed.

Lemma audit_terminal_run (r : Request) (ctx : Ctx) (action serverID detail : string) (w : World) :
  ∃ w', audit_terminal r ctx action serverID detail w = (Ok tt, w') ∧
    w_terminals w' = w_terminals w ∧ w_timers w' = w_timers w ∧ w_sent w' = w_sent w.
Proof.
  assert (Hf : ∀ {X} (f : World → X), Unreported f → frame f (audit_terminal r ctx action serverID detail)).
  { intros X f Hf. unfold audit_terminal. by apply frame_auditLogRequest. }
  assert (Hok : (audit_terminal r ctx action serverID detail w).1 = Ok tt).
  { unfold audit_terminal, auditLogRequest, bind, ignore. simpl. by destruct (LogAudit _ _). }
  destruct (audit_terminal _ _ _ _ _ w) as [res w'] eqn:Hr. simpl in Hok. subst res.
  exists w'. split; [done|]. split_and!; by eapply (frame_run _ _ w); [apply Hf, _|].
Qed.

Lemma open_session_run (wt : wait) (r : Request) (ctx : Ctx) (serverID : string) (cols rows : Z)
    (cwd execUser : string) (w : World) :
  let run := open_session quote wt r ctx serverID cols rows cwd execUser w in
  no_session w run ∨
  ∃ sessionID w1, opening ctx serverID sessionID execUser cols rows cwd w w1 ∧
    opened wt r ctx serverID sessionID w w1 run.
Proof.
  cbv zeta. unfold open_session, NewString, draw, term_register, on_terminals, bind. cbv beta iota.
  set (sid := uuid (w_draws w)).
  destruct (Register_run serverID sid (UserIDFromContext ctx) execUser (w_terminals w))
    as [[_ Hr]|(ch & ts1 & ts2 & Hf & Hr & Hs1 & Hrm & Hs2)].
  { left. change (w_terminals (w <| w_draws ::= S |>)) with (w_terminals w). rewrite Hr.
    repeat split; simpl; eauto. }
  change (w_terminals (w <| w_draws ::= S |>)) with (w_terminals w). rewrite Hr.
  set (w0 := w <| w_draws ::= S |> <| w_terminals := ts1 |>).
  destruct (sendAgentRequestWithID_run wt serverID sid
      (λ id, TerminalOpenRequest id cols rows cwd execUser) w0) as [(fs & ->)|(c & fs & Hc & ->)].
  - left. unfold open_refused, term_remove, on_terminals, bind. simpl. rewrite Hrm. simpl.
    repeat split; simpl; eauto.
  - right. set (w1 := asked _ _ _ _ _ _). exists sid, w1. split.
    { split; [done|by exists ch|by exists c|done]. }
    change (w_pending w0) with (w_pending w).
    destruct (select_response wt _ w1) as [res w2] eqn:Hsel.
    destruct (select_response_world _ _ _ _ _ Hsel) as [Hres [p ->]].
    assert (Hno : ∀ st msg v, opened wt r ctx serverID sid w w1 (open_refused serverID sid st msg v)).
    { intros st msg v. destruct (open_refused_run serverID sid msg st v); [by left|right; by left]. }
    destruct res as [[raw|]|e]; [|apply Hno|left; by destruct Hres as [[= ->]|]].
    destruct raw as [| | | | |id success error]; try apply Hno. destruct success; [|apply Hno].
    right. right. unfold expireUnattachedTerminalSession, negb.
    match goal with |- context [audit_terminal r ctx ?a ?s ?d ?v] =>
      destruct (audit_terminal_run r ctx a s d v) as (w4 & -> & Ht & Htm & _) end.
    split; [done|]. split; [by eauto|]. by split.
Qed.
End open_run.

Lemma requireAgent_run (serverID : string) (w : World) :
  requireAgent serverID w = (Ok (bool_decide (is_Some (w_conns w !! serverID))), w).
Proof. done. Qed.

(** C27: a terminal is opened only for someone who may open it, and as the right user.  A request to
    open a terminal is refused and leaves nothing behind, or comes from an administrator, or from a
    directory user with terminal access and a grant on the root of that server, for whom the shell
    runs as the directory account.  Before the agent is asked, the session is registered for the
    caller; after the wait it is forgotten, or the agent has answered that it is open and its expiry
    is scheduled. *)
Theorem terminal_open_confined `{E : Env} (quote : string → string) (wt : wait) (cols rows : Z)
    (cwd : string) (r : Request) (ctx : Ctx) (w : World) :
  let serverID := PathValue r "id" in
  let run := handleCreateTerminalSession quote wt (Some (cols, rows, cwd)) r ctx w in
  no_session w run ∨
  ∃ execUser sessionID w1,
    may_open ctx serverID execUser (w_db w) ∧ (cwd = "" ∨ validateRequestPath cwd = Ok tt) ∧
    opening ctx serverID sessionID execUser cols rows cwd w w1 ∧
    opened wt r ctx serverID sessionID w w1 run.
Proof.
  cbv zeta. unfold handleCreateTerminalSession, bind. rewrite requireAgent_run. cbv beta iota.
  destruct (negb _); [left; by repeat split; eauto|].
  destruct (if String.eqb cwd "" then Ok tt else validateRequestPath cwd) as [[]|e] eqn:Hv;
    [|left; by repeat split; eauto].
  assert (H := resolve_run ctx (PathValue r "id") w).
  destruct (resolveTerminalExecutionUser _ _ w) as [[[execUser|[st e]]|e] w1];
    destruct H as [[fs ->] H]; [|left; by repeat split; simpl; eauto|done].
  destruct (open_session_run quote wt r ctx (PathValue r "id") cols rows cwd execUser
    (w <| w_faults := fs |>)) as [Hn|(sid & w1 & Ho & Hrun)]; [by left|].
  right. exists execUser, sid, w1. split; [done|]. split; [|split; [|done]].
  - destruct (String.eqb_spec cwd ""); [by left|by right].
  - destruct Ho. by split.
Qed.

(** ** Sessions belong to their user *)

(** The caller has no session of that ID on the server. *)
Definition not_callers (ctx : Ctx) (serverID sessionID : string) (w : World) : Prop :=
  ∀ info, TerminalSessions.Get serverID sessionID (w_terminals w) = Some info →
    TerminalSessions.UserID info ≠ UserIDFromContext ctx.

(** The request is refused and nothing at all has changed. *)
Definition refused_unchanged {A : Type} (w : World) (run : result (response A) * World) : Prop :=
  ∃ st msg, run = (Ok (RespondError st msg), w).

Section ownership.
Context `{E : Env}.

Lemma requireTerminalSession_None (ctx : Ctx) (serverID sessionID : string) (w : World) :
  not_callers ctx serverID sessionID w → requireTerminalSession ctx serverID sessionID w = (Ok None, w).
Proof.
  unfold not_callers, requireTerminalSession. intros H. destruct (TerminalSessions.Get _ _ _) as [i|]; [|done].
  by rewrite (proj2 (String.eqb_neq _ _) (H i eq_refl)).
Qed.

Lemma with_open_session_refused {A : Type} (r : Request) (ctx : Ctx)
    (k : string → string → M (response A)) (w : World) :
  not_callers ctx (PathValue r "id") (PathValue r "sessionId") w →
  refused_unchanged w (with_open_session r ctx k w).
Proof.
  intros H. unfold refused_unchanged, with_open_session, bind. rewrite requireAgent_run.
  cbv beta iota. destruct (negb _); [by do 2 eexists|].
  rewrite requireTerminalSession_None by done. by do 2 eexists.
Qed.
End ownership.

(** C28: a terminal session is its user's alone.  Typing into, resizing, closing or watching a session
    that the caller did not open is refused and changes nothing, whatever the caller's role. *)
Theorem terminal_session_private `{E : Env} (r : Request) (ctx : Ctx) (w : World)
    (keys : option string) (size : option (Z * Z)) (flusher : bool) (wakes : list (World → World)) :
  not_callers ctx (PathValue r "id") (PathValue r "sessionId") w →
  refused_unchanged w (handleTerminalInput keys r ctx w) ∧
  refused_unchanged w (handleTerminalResize size r ctx w) ∧
  refused_unchanged w (handleCloseTerminalSession r ctx w) ∧
  refused_unchanged w (handleTerminalStream flusher wakes r ctx w).
Proof.
  intros H. split; [by apply with_open_session_refused|]. split; [by apply with_open_session_refused|].
  split.
  - unfold handleCloseTerminalSession, bind. rewrite requireTerminalSession_None by done.
    by do 2 eexists.
  - unfold handleTerminalStream. destruct (negb flusher); [by do 2 eexists|].
    unfold bind, on_terminals, TerminalSessions.AttachStream. cbv beta.
    unfold not_callers, TerminalSessions.Get in H. destruct (_ !! _) as [s|] eqn:Hs.
    + assert (Hu := H _ eq_refl). simpl in Hu. rewrite (proj2 (String.eqb_neq _ _) Hu). simpl.
      exists 404, errTerminalSessionNotFound. by destruct w.
    + exists 404, errTerminalSessionNotFound. by destruct w.
Qed.

(** ** Expiry *)

Lemma drop_session_run (key : string) (s : TerminalSessions.terminalSession)
    (ts : TerminalSessions.TerminalSessions) :
  TerminalSessions.term_inv ts → TerminalSessions.sessions ts !! key = Some s →
  ∃ ts', TerminalSessions.drop_session key s ts = Ret ts' ∧
    TerminalSessions.sessions ts' = delete key (TerminalSessions.sessions ts) ∧
    ∃ b, cells (TerminalSessions.t_heap ts') !! TerminalSessions.ch s =
           Some (Chan b TerminalSessions.term_buffer true).
Proof.
  intros Hi Hk. destruct (TerminalSessions.ti_chan _ Hi _ _ Hk) as [b Hb].
  unfold TerminalSessions.drop_session, close_chan.
  destruct (TerminalSessions.closed s) eqn:Hcl; [by do 2 eexists; eauto|]. rewrite Hb. simpl.
  eexists. split; [done|]. split; [done|]. exists b. simpl. by rewrite lookup_insert_eq.
Qed.

Definition session_key (x : Expiry) : string := Pending.makeKey (ex_serverID x) (ex_sessionID x).

Lemma audit_expired_run `{E : Env} (x : Expiry) (w : World) :
  ∃ w', audit_expired x w = (Ok tt, w') ∧ w_terminals w' = w_terminals w ∧ w_sent w' = w_sent w.
Proof.
  assert (Hf : ∀ {X} (f : World → X), Unreported f → frame f (audit_expired x)).
  { intros X f Hf. unfold audit_expired. frames. }
  destruct (audit_expired x w) as [res w'] eqn:Hr. exists w'.
  assert (res = Ok tt) as ->.
  { unfold audit_expired, bind, ignore, NewString, draw in Hr. by destruct (LogAudit _ _); injection Hr. }
  split; [done|]. split; by eapply (frame_run _ _ w); [apply Hf, _|].
Qed.

Lemma expire_removed `{E : Env} (x : Expiry) (w : World) (ts : TerminalSessions.TerminalSessions) :
  TerminalSessions.RemoveUnattached (ex_serverID x) (ex_sessionID x) (w_terminals w) = Ret (true, ts) →
  ∃ w', expire x w = (Ok tt, w') ∧ w_terminals w' = ts ∧
    w_sent w' = w_sent (SendToAgent (ex_serverID x) (TerminalClose (ex_sessionID x))
                          (w <| w_terminals := ts |>)).2.
Proof.
  intros Hrm. unfold expire, bind, on_terminals, ignore. rewrite Hrm. cbv beta iota. unfold negb.
  assert (Hf : w_terminals (SendToAgent (ex_serverID x) (TerminalClose (ex_sessionID x))
                          (w <| w_terminals := ts |>)).2 = ts).
  { unfold SendToAgent, get_conn, bind, Send. cbv beta iota.
    destruct (GetConn _ _); [|done]. unfold bind, driver. simpl. by destruct (w_faults w) as [|[]]. }
  destruct (SendToAgent _ _ _) as [res w2]. simpl in *.
  destruct (audit_expired_run x w2) as (w' & -> & Ht & Hs). exists w'. split; [done|].
  by rewrite Ht, Hs.
Qed.

(** a session nobody watches does not stay open.  When its timer fires, a session without a
    stream is forgotten and its channel closed, and its agent, if it is connected and can be reached,
    is told to close it; a session that is watched or gone is left alone, so a second timer of the
    same session has no effect. *)
Theorem unattached_session_expires `{E : Env} (x : Expiry) (w : World) :
  TerminalSessions.term_inv (w_terminals w) →
  let sessions := TerminalSessions.sessions (w_terminals w) in
  let w' := (expire x w).2 in
  (expire x w).1 = Ok tt ∧ (expire x w').2 = w' ∧
  match sessions !! session_key x with
  | Some s =>
      if TerminalSessions.streaming s then w' = w else
      TerminalSessions.sessions (w_terminals w') = delete (session_key x) sessions ∧
      (∃ b, cells (TerminalSessions.t_heap (w_terminals w')) !! TerminalSessions.ch s =
              Some (Chan b TerminalSessions.term_buffer true)) ∧
      ∀ c, w_conns w !! ex_serverID x = Some c → no_faults w →
        w_sent w' = w_sent w ++ [(Stream c, TerminalClose (ex_sessionID x))]
  | None => w' = w
  end.
Proof.
  intros Hi. cbv zeta.
  assert (Hid : ∀ v, (match TerminalSessions.sessions (w_terminals v) !! session_key x with
                      | Some s => TerminalSessions.streaming s = true | None => True end) →
                expire x v = (Ok tt, v)).
  { intros v Hv. unfold expire, bind, on_terminals, TerminalSessions.RemoveUnattached. cbv beta.
    fold (session_key x). destruct (_ !! _) as [s|]; [rewrite Hv|]; simpl; by destruct v. }
  destruct (TerminalSessions.sessions (w_terminals w) !! session_key x) as [s|] eqn:Hk.
  2:{ assert (Hw : expire x w = (Ok tt, w)) by (apply Hid; by rewrite Hk). rewrite Hw; simpl; by rewrite Hw. }
  destruct (TerminalSessions.streaming s) eqn:Hst.
  { assert (Hw : expire x w = (Ok tt, w)) by (apply Hid; by rewrite Hk). rewrite Hw; simpl; by rewrite Hw. }
  destruct (drop_session_run _ _ _ Hi Hk) as (ts & Hd & Hs & b & Hb).
  destruct (expire_removed x w ts) as (w' & -> & Ht & Hsent).
  { unfold TerminalSessions.RemoveUnattached. fold (session_key x). by rewrite Hk, Hst, Hd. }
  simpl. rewrite Ht, Hs. split; [done|]. split.
  { rewrite Hid; [done|]. by rewrite Ht, Hs, lookup_delete_eq. }
  split; [done|]. split; [by exists b|]. intros c Hc Hf. rewrite Hsent.
  set (w1 := w <| w_terminals := ts |>).
  destruct (SendToAgent_run (ex_serverID x) c (TerminalClose (ex_sessionID x)) w1 Hc)
    as [(w2 & Hr & Hw2 & _)|[Hn _]]; [|done].
  by rewrite Hr.
Qed.

Section witnesses.
#[local] Existing Instance demoEnv.

Definition demo_terminals : World :=
  demo_world empty_db
    <| w_terminals := (TerminalSessions.Register "s1" "t1" "u1" "" TerminalSessions.NewTerminalSessions).2 |>
    <| w_conns := ConnMgr.Register 0 "s1" 7 ∅ |>.

Definition demo_terminal_request : Request :=
  MkRequest "POST" "/api/servers/s1/terminal/sessions/t1/input" "hub" "1.2.3.4:5" true
    (λ k, if String.eqb k "id" then "s1" else "t1") (λ _, "") (λ _, "") (λ _, None).

Lemma terminal_session_private_witness :
  refused_unchanged demo_terminals
    (handleTerminalInput (Some "rm -rf /") demo_terminal_request
       (MkCtx "u2" RoleAdmin TokenTypeAccess "") demo_terminals).
Proof.
  apply (terminal_session_private demo_terminal_request (MkCtx "u2" RoleAdmin TokenTypeAccess "")
    demo_terminals (Some "rm -rf /") None true []). by intros info [= <-].
Defined.

Definition demo_expiry : Expiry := MkExpiry (30 * NS) "s1" "t1" "u1" "" "".

Lemma unattached_session_expires_witness :
  w_sent (expire demo_expiry demo_terminals).2 = [(7%nat, TerminalClose "t1")].
Proof.
  destruct (unattached_session_expires demo_expiry demo_terminals) as (_ & _ & H).
  - destruct (TerminalSessions.term_step_inv (TerminalSessions.ARegister "s1" "t1" "u1" "") _
      TerminalSessions.term_inv_init) as (ts & [= <-] & H). exact H.
  - assert (Hk : TerminalSessions.sessions (w_terminals demo_terminals) !! session_key demo_expiry =
      Some (TerminalSessions.MkTerm "u1" "" 0 false false)) by (vm_compute; reflexivity).
    rewrite Hk in H. destruct H as (_ & _ & H).
    by apply (H (ConnMgr.MkAgentConn "s1" 7 0) (ltac:(vm_compute; reflexivity))).
Defined.

End witnesses.
