(* ===== verification/AuditLogHandlers.v ===== *)
(** * Audit log handlers of the hub (hub/internal/server/handlers_audit.go).

    [encoding/json]'s validity check and the orders in which Go ranges over its maps are
    parameters. *)

From S2P Require Import Prelude GoStr GoTime DateOrder Model Proto Db Demo StoreConfig StoreUsers.
From S2P Require Import StoreAudit Auth AgentHandler Http Files Ldap AuthHandlers.

Definition errAuditFilterJSONInvalid : string := "filters_json must be valid JSON and at most 16KB".

(** [AuditManifest]; absent dates are empty. *)
Record AuditManifest := MkAuditManifest {
  am_GeneratedAt : string; am_GeneratedBy : string; am_RecordCount : Z;
  am_AppliedFilters : string; am_FirstCreatedAt : string; am_LastCreatedAt : string
}.

Record AuditDetection := MkAuditDetection {
  dt_ID : string; dt_Type : string; dt_Severity : string; dt_Title : string; dt_Description : string
}.
Definition no_detection : AuditDetection := MkAuditDetection "" "" "" "" "".

Definition compactDetections (detections : list AuditDetection) : list AuditDetection :=
  List.filter (λ d, negb (String.eqb (dt_ID d) "")) detections.

Definition auditFilterFromRequest (r : Request) : AuditFilter :=
  let '(limit, offset) := parsePagination r 50 in
  MkAuditFilter (param r "user_id") (param r "action") (param r "outcome") (param r "actor_type")
    (param r "correlation_id") (param r "resource_type") (param r "from") (param r "to") limit offset.

(** The map of [auditFilterSummary]. *)
Definition summary_values (f : AuditFilter) : list (string * option string) :=
  [("action", af_Action f); ("user_id", af_UserID f); ("outcome", af_Outcome f);
   ("actor_type", af_ActorType f); ("correlation_id", af_CorrelationID f);
   ("resource_type", af_ResourceType f); ("from", af_From f); ("to", af_To f)].

(** Over the values in the order the map is ranged over. *)
Definition auditFilterSummary (values : list (string * option string)) : string :=
  let parts := omap (λ kv, match kv.2 with
                           | Some v => if String.eqb v "" then None else Some (kv.1 +:+ "=" +:+ v)
                           | None => None
                           end) values in
  match parts with [] => "filters=none" | _ => "filters=" +:+ Join "," parts end.

Definition settings_detail (s : AuditSettings) : string :=
  "retention_days=" +:+ Itoa (as_RetentionDays s) +:+
  " review_reminder_days=" +:+ Itoa (as_ReviewReminderDays s) +:+
  " password_history_count=" +:+ Itoa (as_PasswordHistoryCount s) +:+
  " temporary_password_ttl_hours=" +:+ Itoa (as_TemporaryPasswordTTLHours s) +:+
  " login_failures_per_hour=" +:+ Itoa (at_LoginFailuresPerHour (as_Thresholds s)) +:+
  " registration_failures_per_hour=" +:+ Itoa (at_RegistrationFailuresPerHour (as_Thresholds s)) +:+
  " privileged_actions_per_hour=" +:+ Itoa (at_PrivilegedActionsPerHour (as_Thresholds s)).

(** [-time.Duration(days) * 24 * time.Hour] is a 64-bit product. *)
Definition retention_cutoff (now : Z) (s : AuditSettings) : Z :=
  now + wrap_int (- as_RetentionDays s * 24 * Hour).

Section audit_handlers.
Context `{E : Env}.
(** json.Unmarshal accepts the text. *)
Context (json_valid : string → bool).
Context (order_values : list (string * string) → list (string * string)).
Context (order_summary : list (string * option string) → list (string * option string)).

Definition validateJSONBlob (data : string) (maxBytes : nat) : bool :=
  negb (maxBytes <? String.length data)%nat && json_valid data.

(** The entry of an audit action of the caller. *)
Definition audit_action (ctx : Ctx) (action detail outcome : string) : M unit :=
  auditLogRequest ctx (audit_entry action (Some (UserIDFromContext ctx)) None (Some detail) None ""
    <| ae_Outcome := outcome |> <| ae_ResourceType := Some "audit" |>).

Definition handleHealth : HandlerFunc string := λ _ _,
  let* health := try GetAuditHealth in
  match health with
  | Err _ => ret (RespondError 500 "failed to load health state")
  | Ok health => ret (RespondJSON 200 (if ah_Degraded health then "degraded" else "ok"))
  end.

Definition handleListAuditLogs : HandlerFunc (list AuditEntry * Z * Z * Z) := λ r _,
  let filter := auditFilterFromRequest r in
  let* res := try (ListAuditLogs filter) in
  match res with
  | Err _ => ret (RespondError 500 "failed to list audit logs")
  | Ok (entries, total) => ret (RespondJSON 200 (entries, total, af_Limit filter, af_Offset filter))
  end.

Definition handleAuditHealth : HandlerFunc AuditHealth := λ _ _,
  let* health := try GetAuditHealth in
  match health with
  | Err _ => ret (RespondError 500 "failed to load audit health")
  | Ok health => ret (RespondJSON 200 health)
  end.

Definition handleGetAuditSettings : HandlerFunc AuditSettings := λ _ _,
  let* settings := GetAuditSettings in ret (RespondJSON 200 settings).

Definition handleUpdateAuditSettings (body : option AuditSettings) : HandlerFunc AuditSettings := λ _ ctx,
  match body with
  | None => ret (RespondError 400 errInvalidRequestBody)
  | Some settings =>
      match ValidateAuditSettings settings with
      | Err e => ret (RespondError 400 e)
      | Ok _ =>
          let* saved := try (UpdateAuditSettings (order_values (settings_values settings))) in
          if negb (is_ok saved) then ret (RespondError 500 "failed to update audit settings") else
          let* _ := audit_action ctx "audit.retention_updated" (settings_detail settings) "" in
          ret (RespondJSON 200 settings)
      end
  end.

Definition export_filter (r : Request) : AuditFilter :=
  let f := auditFilterFromRequest r in
  MkAuditFilter (af_UserID f) (af_Action f) (af_Outcome f) (af_ActorType f) (af_CorrelationID f)
    (af_ResourceType f) (af_From f) (af_To f) 0 0.

Definition export_manifest (now : Z) (ctx : Ctx) (filter : AuditFilter) (entries : list AuditEntry)
    (total : Z) : AuditManifest :=
  let date e := match e with Some e => format_rfc3339 (ae_CreatedAt e) | None => "" end in
  MkAuditManifest (format_rfc3339 now) (UserIDFromContext ctx) total
    (auditFilterSummary (order_summary (summary_values filter)))
    (date (last entries)) (date (head entries)).

Definition handleExportAuditLogs : HandlerFunc (AuditManifest * list AuditEntry) := λ r ctx,
  let filter := export_filter r in
  let* res := try (ListAuditLogs filter) in
  match res with
  | Err _ => ret (RespondError 500 "failed to export audit logs")
  | Ok (entries, total) =>
      let* now := get_now in
      let manifest := export_manifest now ctx filter entries total in
      let* _ := audit_action ctx "audit.exported"
                  ("record_count=" +:+ Itoa total +:+ " " +:+ am_AppliedFilters manifest) "" in
      ret (RespondJSON 200 (manifest, entries))
  end.

Definition handleListAuditExports : HandlerFunc (list AuditEntry) := λ _ _,
  let* res := try (ListAuditLogs
    (MkAuditFilter None (Some "audit.exported") None None None None None None 20 0)) in
  match res with
  | Err _ => ret (RespondError 500 "failed to list audit exports")
  | Ok (entries, _) => ret (RespondJSON 200 entries)
  end.

Definition handleRunAuditRetention : HandlerFunc (Z * string) := λ _ ctx,
  let* settings := GetAuditSettings in
  let* now := get_now in
  let cutoff := format_rfc3339 (retention_cutoff now settings) in
  let* deleted := try (DeleteAuditLogsBefore cutoff) in
  match deleted with
  | Err e =>
      let* _ := audit_action ctx "audit.retention_executed"
                  ("cutoff=" +:+ cutoff +:+ " error=" +:+ e) AuditOutcomeFailure in
      ret (RespondError 500 "failed to execute audit retention")
  | Ok deletedCount =>
      let* _ := audit_action ctx "audit.retention_executed"
                  ("cutoff=" +:+ cutoff +:+ " deleted_count=" +:+ Itoa deletedCount) "" in
      ret (RespondJSON 200 (deletedCount, cutoff))
  end.

Definition handleListAuditReviews : HandlerFunc (list (ReviewRow * string)) := λ r _,
  let '(limit, _) := parsePagination r 20 in
  let* reviews := try (ListAuditReviews limit) in
  match reviews with
  | Err _ => ret (RespondError 500 "failed to list audit reviews")
  | Ok reviews => ret (RespondJSON 200 reviews)
  end.

(** body: (filters, notes, from, to) *)
Definition handleCreateAuditReview (body : option (string * string * option string * option string))
  : HandlerFunc (ReviewRow * string) := λ _ ctx,
  match body with
  | None => ret (RespondError 400 errInvalidRequestBody)
  | Some (filtersJSON, notes, from, to) =>
      if negb (validateJSONBlob filtersJSON 16384)
      then ret (RespondError 400 errAuditFilterJSONInvalid) else
      let* review := try (CreateAuditReview (UserIDFromContext ctx) filtersJSON notes from to) in
      match review with
      | Err _ => ret (RespondError 500 "failed to create audit review")
      | Ok review =>
          let* _ := audit_action ctx "audit.review_completed" ("review_id=" +:+ rr_id review.1) "" in
          ret (RespondJSON 201 review)
      end
  end.

Definition handleListAuditSavedFilters : HandlerFunc (list SavedFilterRow) := λ _ _,
  let* filters := try ListAuditSavedFilters in
  match filters with
  | Err _ => ret (RespondError 500 "failed to list audit filters")
  | Ok filters => ret (RespondJSON 200 filters)
  end.

(** body: (name, filters) *)
Definition handleCreateAuditSavedFilter (body : option (string * string))
  : HandlerFunc SavedFilterRow := λ _ ctx,
  match body with
  | None => ret (RespondError 400 errInvalidRequestBody)
  | Some (name, filtersJSON) =>
      if String.eqb (TrimSpace name) "" then ret (RespondError 400 "name is required") else
      if negb (validateJSONBlob filtersJSON 16384)
      then ret (RespondError 400 errAuditFilterJSONInvalid) else
      let* filter := try (CreateAuditSavedFilter (UserIDFromContext ctx) name filtersJSON) in
      match filter with
      | Err _ => ret (RespondError 500 "failed to save audit filter")
      | Ok filter =>
          let* _ := audit_action ctx "audit.filter_saved"
                      ("filter_id=" +:+ fr_id filter +:+ " name=" +:+ fr_name filter) "" in
          ret (RespondJSON 201 filter)
      end
  end.

Definition handleDeleteAuditSavedFilter : HandlerFunc unit := λ r ctx,
  let id := PathValue r "id" in
  if String.eqb id "" then ret (RespondError 400 "missing filter id") else
  let* deleted := try (DeleteAuditSavedFilter id) in
  if negb (is_ok deleted) then ret (RespondError 404 "audit filter not found") else
  let* _ := audit_action ctx "audit.filter_deleted" ("filter_id=" +:+ id) "" in
  ret (RespondJSON 200 tt).

Definition handleListAuditFlags : HandlerFunc (list (FlagRow * string)) := λ _ _,
  let* flags := try (ListAuditFlags 20) in
  match flags with
  | Err _ => ret (RespondError 500 "failed to list audit flags")
  | Ok flags => ret (RespondJSON 200 flags)
  end.

(** body: (entry, filters, note); the detail prints the pointer to the entry's ID. *)
Definition handleCreateAuditFlag (body : option (option string * string * string))
  : HandlerFunc (FlagRow * string) := λ _ ctx,
  match body with
  | None => ret (RespondError 400 errInvalidRequestBody)
  | Some (entryID, filtersJSON, note) =>
      if String.eqb (TrimSpace note) "" then ret (RespondError 400 "note is required") else
      let filtersJSON := if String.eqb filtersJSON "" then "{}" else filtersJSON in
      if negb (validateJSONBlob filtersJSON 16384)
      then ret (RespondError 400 errAuditFilterJSONInvalid) else
      let* flag := try (CreateAuditFlag (UserIDFromContext ctx) entryID filtersJSON note) in
      match flag with
      | Err _ => ret (RespondError 500 "failed to create audit flag")
      | Ok flag =>
          let* entry := print_ptr (fl_entry_id flag.1) in
          let* _ := audit_action ctx "audit.flag_created"
                      ("flag_id=" +:+ fl_id flag.1 +:+ " entry_id=" +:+ entry) "" in
          ret (RespondJSON 201 flag)
      end
  end.

(** ** Detections *)

Definition auditCountSince (action from : string) : M Z :=
  let* (_, total) := ListAuditLogs (MkAuditFilter None (Some action) None None None None (Some from) None 5 0) in
  ret total.

(** The detection of more than a threshold; none when the count fails. *)
Definition over_threshold (total : result Z) (threshold : Z) (d : Z → AuditDetection) : AuditDetection :=
  match total with
  | Err _ => no_detection
  | Ok n => if n <? threshold then no_detection else d n
  end.

Definition threshold_text (n : Z) (what : string) (threshold : Z) : string :=
  Itoa n +:+ " " +:+ what +:+ " in the last hour (threshold " +:+ Itoa threshold +:+ ")".

Definition loginFailureDetection (from : string) (s : AuditSettings) : M AuditDetection :=
  let threshold := at_LoginFailuresPerHour (as_Thresholds s) in
  let* total := try (auditCountSince "user.login_failed" from) in
  ret (over_threshold total threshold (λ n,
    MkAuditDetection "login-failures" "login_failures" "medium" "Repeated failed logins"
      (threshold_text n "failed logins" threshold))).

Definition registrationFailureDetection (from : string) (s : AuditSettings) : M AuditDetection :=
  let threshold := at_RegistrationFailuresPerHour (as_Thresholds s) in
  let* total := try (auditCountSince "server.registration_failed" from) in
  ret (over_threshold total threshold (λ n,
    MkAuditDetection "registration-failures" "registration_failures" "high"
      "Repeated failed agent registrations"
      (threshold_text n "failed registration attempts" threshold))).

Fixpoint count_actions (actions : list string) (from : string) (total : Z) : M Z :=
  match actions with
  | [] => ret total
  | action :: actions' =>
      let* n := auditCountSince action from in count_actions actions' from (total + n)
  end.

Definition privilegedActionDetection (from : string) (s : AuditSettings) : M AuditDetection :=
  let threshold := at_PrivilegedActionsPerHour (as_Thresholds s) in
  let* total := try (count_actions ["user.role_updated"; "user.deleted"; "server.deleted";
                                    "server.batch_deleted"; "audit.exported"] from 0) in
  ret (over_threshold total threshold (λ n,
    MkAuditDetection "privileged-action-burst" "privileged_action_burst" "medium"
      "Burst of privileged actions" (threshold_text n "privileged actions" threshold))).

Definition reviewOverdueDetection (s : AuditSettings) : M AuditDetection :=
  let* reviews := try (ListAuditReviews 1) in
  let* now := get_now in
  ret match reviews with
      | Err _ => no_detection
      | Ok [] => MkAuditDetection "review-overdue-none" "review_overdue" "medium"
                   "No audit review completed" "No recorded audit reviews exist yet"
      | Ok ((review, _) :: _) =>
          let completedAt := rr_completed_at review in
          if now - completedAt <=? wrap_int (as_ReviewReminderDays s * 24 * Hour) then no_detection
          else MkAuditDetection "review-overdue" "review_overdue" "medium" "Audit review overdue"
                 ("Last review completed at " +:+ format_rfc3339 completedAt)
      end.

Definition handleAuditDetections : HandlerFunc (list AuditDetection) := λ _ _,
  let* settings := GetAuditSettings in
  let* now := get_now in
  let from := format_rfc3339 (now - Hour) in
  let* d1 := loginFailureDetection from settings in
  let* d2 := registrationFailureDetection from settings in
  let* d3 := privilegedActionDetection from settings in
  let* d4 := reviewOverdueDetection settings in
  ret (RespondJSON 200 (compactDetections [d1; d2; d3; d4])).

Definition handleListAuditUsers : HandlerFunc (list User) := λ _ _,
  let* users := try ListUsers in
  match users with
  | Err _ => ret (RespondError 500 "failed to list users")
  | Ok users => ret (RespondJSON 200 users)
  end.

End audit_handlers.

(** ** What the handlers leave in the log *)

(** At most the entry of the action itself is new. *)
Definition reported (action : string) (before after : list AuditEntry) : Prop :=
  after = before ∨ ∃ row, after = before ++ [row] ∧ ae_Action row = action.

Section audit_lemmas.
Context `{E : Env}.

Lemma audit_action_run (ctx : Ctx) (action detail outcome : string) (w : World) :
  ∃ w', audit_action ctx action detail outcome w = (Ok tt, w') ∧
    reported action (d_audit_logs (w_db w)) (d_audit_logs (w_db w')).
Proof.
  unfold audit_action, auditLogRequest, bind, NewString, draw, ret, ignore. simpl.
  match goal with |- context [LogAudit ?e ?v] => assert (H := LogAudit_audited e v);
    destruct (LogAudit e v) as [[[]|err] w'] end; destruct H as (_ & H & _); simpl in H;
    exists w'; (split; [done|]); [right|by left].
  destruct H as (row & H & Ha & _). exists row. split; [done|]. rewrite Ha. by destruct (String.eqb _ _).
Qed.

Lemma GetAuditSettings_reads (w : World) :
  ∃ s fs, GetAuditSettings w = (Ok s, w <| w_faults := fs |>).
Proof.
  assert (Hr : reads GetAuditSettings).
  { unfold GetAuditSettings, getConfigIntDefault, getConfigBoolDefault, getConfigString, GetConfig,
      LookupConfig. readers. }
  destruct (reads_run _ w Hr) as (r & fs & Hrun). rewrite Hrun. exists (match r with Ok s => s | Err _ =>
    MkAuditSettings 0 0 0 0 (MkAuditThresholds 0 0 0) end), fs.
  assert (H : is_ok (GetAuditSettings w).1 = true); [|rewrite Hrun in H; by destruct r].
  unfold GetAuditSettings, getConfigIntDefault, bind, try, ret.
  by repeat destruct (GetConfig _ _).
Qed.

Lemma DeleteAuditLogsBefore_Ok (cutoff : string) (n : Z) (w w' : World) :
  let old e := text_lt (format_sqlite (ae_CreatedAt e)) cutoff in
  DeleteAuditLogsBefore cutoff w = (Ok n, w') →
  n = count_rows old (d_audit_logs (w_db w)) ∧
  d_audit_logs (w_db w') = List.filter (λ e, negb (old e)) (d_audit_logs (w_db w)).
Proof.
  cbv zeta. unfold DeleteAuditLogsBefore, RowsAffected. intros H. ok_inv.
  repeat match goal with H : driver _ = _ |- _ => apply driver_Ok in H as [? ->] end.
  match goal with H : exec _ _ = _ |- _ => apply exec_Ok in H as (fs & -> & -> & _) end.
  simpl. split; [done|]. unfold delete_audit_logs. by destruct (w_fk w).
Qed.

Lemma ListAuditLogs_Ok (filter : AuditFilter) (entries : list AuditEntry) (total : Z) (w w' : World) :
  ListAuditLogs filter w = (Ok (entries, total), w') →
  total = count_rows (audit_matches filter) (d_audit_logs (w_db w)) ∧
  entries = page (af_Limit filter) (af_Offset filter)
    (order_by (desc ae_CreatedAt) (List.filter (audit_matches filter) (d_audit_logs (w_db w)))) ∧
  ∃ fs, w' = w <| w_faults := fs |>.
Proof.
  unfold ListAuditLogs. intros H. ok_inv.
  all: match goal with H : query_row _ _ = _ |- _ => apply query_row_Ok in H as (fs & -> & ->) end.
  - match goal with H : query ?qe ?se ?ee ?f ?v = _ |- _ =>
      destruct (query_cases qe se ee f v) as [(e & fs1 & Hq & _)|(fs1 & fs2 & Hq)];
        [auto with veyport..| |]; rewrite Hq in H end; [done|].
    simplify_eq. split_and!; [done|done|]. by exists fs1.
Qed.
End audit_lemmas.

(** an export is the log.  A successful export returns the entries that match the request's
    filter, all of them and no other, newest first, with their number, and its dates are those of the
    oldest and the newest entry; the log itself gains at most the entry of the export. *)
Theorem export_complete `{E : Env, !OrderLaws E}
    (order : list (string * option string) → list (string * option string))
    (r : Request) (ctx : Ctx) (w w' : World) (st : Z) (m : AuditManifest) (entries : list AuditEntry) :
  handleExportAuditLogs order r ctx w = (Ok (RespondJSON st (m, entries)), w') →
  entries ≡ₚ List.filter (audit_matches (export_filter r)) (d_audit_logs (w_db w)) ∧
  StronglySorted (λ x y, ae_CreatedAt y <= ae_CreatedAt x) entries ∧
  am_RecordCount m = Z.of_nat (length entries) ∧
  (∀ e, last entries = Some e → am_FirstCreatedAt m = format_rfc3339 (ae_CreatedAt e)) ∧
  (∀ e, head entries = Some e → am_LastCreatedAt m = format_rfc3339 (ae_CreatedAt e)) ∧
  reported "audit.exported" (d_audit_logs (w_db w)) (d_audit_logs (w_db w')).
Proof.
  unfold handleExportAuditLogs. intros H. apply bind_Ok in H as (res & w1 & Hl%try_Ok & H).
  destruct res as [[es total]|e]; [|done]. apply ListAuditLogs_Ok in Hl as (-> & -> & fs & ->).
  apply bind_Ok in H as (now & w2 & [= <- <-] & H).
  apply bind_Ok in H as ([] & w2 & Ha & H). unfold ret in H.
  match type of Ha with audit_action ?c ?a ?d ?o ?v = _ =>
    destruct (audit_action_run c a d o v) as (w3 & Hrun & Hrep) end.
  assert (w2 = w3) as -> by congruence. clear Ha Hrun.
  set (es := page _ _ _) in H. injection H as _ <- <- <-. subst es. unfold page, export_filter at 2 4 5 6.
  set (f := audit_matches _). simpl.
  set (es := order_by _ _).
  assert (Hp : es ≡ₚ List.filter f (d_audit_logs (w_db w))) by apply order_by_perm.
  split; [done|]. split; [|split; [|split_and!]].
  - assert (Hs : StronglySorted (λ x y, desc ae_CreatedAt x y = true) es).
    { apply order_by_sorted; unfold desc; [lia|]. intros x y z. rewrite !Is_true_true. lia. }
    clearbody es. clear Hp. induction Hs as [|x l Hs IH Hx]; constructor; [done|].
    eapply Forall_impl; [exact Hx|]. unfold desc. intros y Hy. simpl in Hy. lia.
  - unfold count_rows. by rewrite (Permutation_length Hp).
  - by intros e ->.
  - by intros e ->.
  - done.
Qed.

(** retention works in whole days.  A successful run deletes exactly the entries of the UTC day
    of the cutoff and of the days before, as the stored timestamps compare with the RFC 3339 text of
    the cutoff by their day: everything older than the retention period, and up to a day more.  It
    reports their number and adds at most its own entry. *)
Theorem retention_deletes_days `{E : Env} (r : Request) (ctx : Ctx) (w w1 w' : World)
    (settings : AuditSettings) (st n : Z) (cutoff : string) :
  let c := retention_cutoff (w_now w) settings in
  GetAuditSettings w = (Ok settings, w1) → representable c →
  Forall (λ e, representable (ae_CreatedAt e)) (d_audit_logs (w_db w)) →
  handleRunAuditRetention r ctx w = (Ok (RespondJSON st (n, cutoff)), w') →
  let old e := day_of (ae_CreatedAt e) <=? day_of c in
  n = count_rows old (d_audit_logs (w_db w)) ∧ cutoff = format_rfc3339 c ∧
  reported "audit.retention_executed"
    (List.filter (λ e, negb (old e)) (d_audit_logs (w_db w))) (d_audit_logs (w_db w')).
Proof.
  intros c Hs Hc Hl H old. unfold handleRunAuditRetention in H.
  apply bind_Ok in H as (s & w2 & Hs2 & H). destruct (GetAuditSettings_reads w) as (s' & fs & Hr).
  assert (s' = settings) as -> by congruence. assert (s = settings) as -> by congruence.
  assert (w2 = w <| w_faults := fs |>) as -> by congruence. clear Hs Hs2 Hr.
  apply bind_Ok in H as (now & w2 & [= <- <-] & H). apply bind_Ok in H as (res & w2 & Hd%try_Ok & H).
  change (w_now (w <| w_faults := fs |>)) with (w_now w) in *. fold c in Hd, H.
  destruct res as [k|e]; apply bind_Ok in H as ([] & w3 & Ha & H); [|done].
  match type of Ha with audit_action ?x ?a ?d ?o ?v = _ =>
    destruct (audit_action_run x a d o v) as (w4 & Hrun & Hrep) end.
  assert (w3 = w4) as -> by congruence. injection H as _ <- <- <-.
  apply DeleteAuditLogsBefore_Ok in Hd as [-> Hdb]. rewrite Hdb in Hrep. simpl in Hdb, Hrep.
  assert (Hold : ∀ e, e ∈ d_audit_logs (w_db w) →
    text_lt (format_sqlite (ae_CreatedAt e)) (format_rfc3339 c) = old e).
  { intros e He. apply sqlite_lt_rfc3339; [|done]. by apply (proj1 (Forall_forall _ _) Hl). }
  split; [|split; [done|]].
  - unfold count_rows. simpl. do 2 f_equal. apply filter_ext_in. intros e He%list_elem_of_In. by apply Hold.
  - erewrite filter_ext_in in Hrep; [exact Hrep|]. intros e He%list_elem_of_In. by rewrite Hold.
Qed.

Section witnesses.
#[local] Existing Instance demoEnv.
#[local] Existing Instance demo_order.

Definition demo_entry (id : string) (t : Z) : AuditEntry :=
  MkAuditEntry id None "user.login_failed" None None None "failure" "anonymous" None None "" t.
(** 2026-05-16, with entries of that day, of the day of 90 days before and of the day after that. *)
Definition demo_log : World :=
  demo_world (empty_db <| d_audit_logs := [demo_entry "e1" (1771167600 * NS);
     demo_entry "e2" (1771200000 * NS); demo_entry "e3" (1778936000 * NS)] |>)
    <| w_now := 1778936461 * NS |>.
Definition demo_audit_request : Request :=
  MkRequest "POST" "/api/audit-logs/retention/run" "hub" "1.2.3.4:5" true
    (λ _, "") (λ _, "") (λ _, "") (λ _, None).
Definition demo_auditor : Ctx := MkCtx "u1" RoleAdmin TokenTypeAccess "req-1".
#[local] Notation demo_export :=
  (handleExportAuditLogs id demo_audit_request demo_auditor demo_log).
#[local] Notation demo_retention := (handleRunAuditRetention demo_audit_request demo_auditor demo_log).

Lemma export_complete_witness :
  ∃ m entries w', demo_export = (Ok (RespondJSON 200 (m, entries)), w') ∧
    entries ≡ₚ d_audit_logs (w_db demo_log) ∧ am_RecordCount m = Z.of_nat (length entries).
Proof.
  destruct demo_export as [[[|st [m entries]]|] w'] eqn:Hr; [by vm_compute in Hr| |by vm_compute in Hr].
  assert (st = 200) as -> by (vm_compute in Hr; congruence).
  exists m, entries, w'. split; [done|].
  apply export_complete in Hr as (H1 & _ & H2 & _). split; [|done]. rewrite H1. by vm_compute.
Defined.

Lemma retention_deletes_days_witness :
  ∃ cutoff w', demo_retention = (Ok (RespondJSON 200 (1, cutoff)), w') ∧
    reported "audit.retention_executed" [demo_entry "e2" (1771200000 * NS); demo_entry "e3" (1778936000 * NS)]
      (d_audit_logs (w_db w')).
Proof.
  destruct demo_retention as [[[|st [n cutoff]]|] w'] eqn:Hr; [by vm_compute in Hr| |by vm_compute in Hr].
  assert (st = 200 ∧ n = 1) as [-> ->] by (vm_compute in Hr; split; congruence).
  exists cutoff, w'. split; [done|].
  destruct (GetAuditSettings demo_log) as [[s|] w1] eqn:Hs; [|by vm_compute in Hs].
  assert (s = MkAuditSettings 90 7 5 72 (MkAuditThresholds 10 5 20)) as ->
    by (vm_compute in Hs; congruence).
  apply (retention_deletes_days _ _ demo_log w1 w' _ _ _ _ Hs) in Hr as (_ & _ & H).
  - exact H.
  - vm_compute. by split.
  - repeat constructor; by vm_compute.
Defined.

End witnesses.
