(* ===== verification/Notifier.v ===== *)
(** * E-mail notifications (hub/internal/notify/notifier.go, smtp.go, templates.go).

    The notifier's state is passed explicitly: its two queues, the timers of the delayed
    notifications and the cached configuration.  A panic is an error of the call.  The mail server
    is a record of its answers.  Logging is left out. *)

From S2P Require Import Prelude GoStr GoTime Model Proto Db Demo StoreConfig StoreUsers StoreTokens.
From S2P Require Import AgentHandler Secrets Ldap.

Definition queueSize : nat := 100.
Definition DebounceDelay : Z := 60 * Second.
Definition smtpConfigCacheTTL : Z := 60 * Second.

Definition securityEvents : list string :=
  [NotifyLoginFailed; NotifyUserCreated; NotifyTOTPChanged; NotifyPasswordChanged;
   NotifyAuditDegraded; NotifyAuditRecovered].

Record emailJob := MkJob {
  To : string; job_UserID : string; EventType : string; Subject : string; Body : string
}.

Record SMTPConfig := MkSMTPConfig {
  Host : string; Port : Z; Username : string; Password : string; From : string;
  TLS : bool; Enabled : bool
}.
#[export] Instance eta_SMTPConfig : Eta SMTPConfig := λ r, MkSMTPConfig (Host r) (Port r)
  (Username r) (Password r) (From r) (TLS r) (Enabled r).

(** A timer of [scheduleDebounced]: when it fires and what its function notifies of. *)
Record Debounced := MkDebounced { db_due : Z; db_event : string; db_context : list (string * string) }.

Record Notifier := MkNotifier {
  n_queue : list emailJob;
  n_priority : list emailJob;
  n_closed : bool;
  n_debounce : gmap string Debounced;
  n_smtp : option (SMTPConfig * Z)       (* the cached configuration and its time *)
}.
#[export] Instance eta_Notifier : Eta Notifier := λ r, MkNotifier (n_queue r) (n_priority r)
  (n_closed r) (n_debounce r) (n_smtp r).

Definition New : Notifier := MkNotifier [] [] false ∅ None.

(** The timers are stopped and the queues closed; a second call closes them again. *)
Definition Close (n : Notifier) : outcome Notifier :=
  if n_closed n then Panic else Ret (n <| n_debounce := ∅ |> <| n_closed := true |>).

(** A send in a [select] with a default: on a full queue the default is taken, on a closed one the
    send panics. *)
Definition enqueueJob (job : emailJob) (n : Notifier) : outcome (bool * Notifier) :=
  if n_closed n then Panic else
  if (length (n_queue n) <? queueSize)%nat then Ret (true, n <| n_queue ::= λ q, q ++ [job] |>) else
  if negb (existsb (String.eqb (EventType job)) securityEvents) then Ret (false, n) else
  if (length (n_priority n) <? queueSize)%nat
  then Ret (true, n <| n_priority ::= λ q, q ++ [job] |>) else Ret (false, n).

(** ** templates.go *)

Definition stripCRLF (s : string) : string :=
  String.string_of_list_ascii (List.filter
    (λ a, negb (Ascii.eqb a "013" || Ascii.eqb a "010")) (String.list_ascii_of_string s)).

(** Over the entries of the map in the order it is ranged over. *)
Definition substitute (s : string) (context : list (string * string)) : string :=
  fold_left (λ s kv, ReplaceAll s ("{{" +:+ kv.1 +:+ "}}") (stripCRLF kv.2)) context s.

Definition nl : string := String "010" "".

Definition templates : list (string * (string * string)) :=
  [ (NotifyAgentOffline, ("Agent Offline: {{server_name}}",
      "Agent {{server_name}} has gone offline." +:+ nl +:+ nl +:+
      "This may indicate a network issue, reboot, or crash." +:+ nl +:+ nl +:+
      "Please investigate the agent at your earliest convenience."));
    (NotifyAgentOnline, ("Agent Online: {{server_name}}",
      "Agent {{server_name}} has connected and is now online." +:+ nl +:+ nl +:+
      "The agent is ready to receive commands."));
    (NotifyAgentRegistered, ("New Agent Enrolled: {{server_name}}",
      "A new agent has been registered." +:+ nl +:+ nl +:+
      "Agent Name: {{server_name}}" +:+ nl +:+ nl +:+
      "The agent is now enrolled and awaiting connection."));
    (NotifyLoginFailed, ("Failed Login Attempt",
      "A failed login attempt was detected." +:+ nl +:+ nl +:+
      "Username: {{username}}" +:+ nl +:+ "IP Address: {{ip}}" +:+ nl +:+ nl +:+
      "If this was not you, please review your security settings."));
    (NotifyUserCreated, ("New User Created: {{username}}",
      "A new user account has been created." +:+ nl +:+ nl +:+
      "Username: {{username}}" +:+ nl +:+ nl +:+
      "If this action was not authorized, please investigate immediately."));
    (NotifyTOTPChanged, ("2FA Configuration Changed",
      "Two-factor authentication configuration has been changed." +:+ nl +:+ nl +:+
      "Username: {{username}}" +:+ nl +:+ "Detail: {{detail}}" +:+ nl +:+ nl +:+
      "If you did not make this change, contact your administrator."));
    (NotifyPasswordChanged, ("Password Changed: {{username}}",
      "The password for user {{username}} has been changed." +:+ nl +:+ nl +:+
      "If you did not make this change, contact your administrator immediately."));
    (NotifyAuditDegraded, ("Audit Pipeline Degraded",
      "Veyport detected an audit logging failure." +:+ nl +:+ nl +:+
      "Failure Count: {{failure_count}}" +:+ nl +:+ "Last Failure: {{last_failure_at}}" +:+ nl +:+
      "Reason: {{last_failure_reason}}" +:+ nl));
    (NotifyAuditRecovered, ("Audit Pipeline Recovered",
      "Veyport audit logging has recovered." +:+ nl +:+ nl +:+
      "Last Recovery: {{last_recovered_at}}" +:+ nl +:+ "Failure Count: {{failure_count}}" +:+ nl));
    (NotifyFileUploaded, ("File Uploaded: {{filename}}",
      "A file has been uploaded." +:+ nl +:+ nl +:+
      "File: {{filename}}" +:+ nl +:+ "Server: {{server_name}}" +:+ nl +:+
      "Uploaded by: {{username}}" +:+ nl)) ].

Definition fallbackSubject : string := "Veyport Notification: {{event_type}}".
Definition fallbackBody : string :=
  "An event of type {{event_type}} occurred." +:+ nl +:+ nl +:+
  "Please check the Veyport dashboard for details.".

(** A string of a map. *)
Definition value (context : list (string * string)) (key : string) : string :=
  match List.find (λ kv, String.eqb kv.1 key) context with Some kv => kv.2 | None => "" end.

(** The two texts may range over the map in two orders. *)
Definition RenderEmail (order1 order2 : list (string * string) → list (string * string))
    (eventType : string) (context : list (string * string)) : string * string :=
  let '(subject, body, context) :=
    match List.find (λ t, String.eqb t.1 eventType) templates with
    | Some (_, (subject, body)) => (subject, body, context)
    | None => (fallbackSubject, fallbackBody,
               List.filter (λ kv, negb (String.eqb kv.1 "event_type")) context ++
               [("event_type", eventType)])
    end in
  ("[Veyport] " +:+ substitute subject (order1 context), substitute body (order2 context)).

(** ** smtp.go *)

Definition crlf : string := String "013" (String "010" "").

Definition header_line (name v : string) : string := name +:+ ": " +:+ stripCRLF v.
Definition buildMessage (from to subject body : string) : string :=
  header_line "From" from +:+ crlf +:+ header_line "To" to +:+ crlf +:+
  header_line "Subject" subject +:+ crlf +:+ "MIME-Version: 1.0" +:+ crlf +:+
  "Content-Type: text/plain; charset=UTF-8" +:+ crlf +:+ crlf +:+ body.

(** The answers of the mail server to net/smtp's calls. *)
Record SmtpPeer := MkPeer {
  sp_dial : string → result unit;                       (* tls.Dial: address *)
  sp_client : result unit;                              (* smtp.NewClient *)
  sp_auth : string → string → result unit;              (* Client.Auth: user, password *)
  sp_mail : string → result unit;                       (* Client.Mail *)
  sp_rcpt : string → result unit;                       (* Client.Rcpt *)
  sp_data : result unit;                                (* Client.Data *)
  sp_write : string → result unit;                      (* the message *)
  sp_close : result unit;                               (* the end of the data *)
  sp_quit : result unit;                                (* Client.Quit *)
  sp_SendMail : string → option (string * string) → string → string → string → result unit
                                                        (* smtp.SendMail *)
}.

Definition then_ {A B : Type} (prefix : string) (r : result A) (k : result B) : result B :=
  match r with Err e => Err (prefix +:+ ": " +:+ e) | Ok _ => k end.

Definition sendTLS (peer : SmtpPeer) (cfg : SMTPConfig) (addr : string)
    (auth : option (string * string)) (to msg : string) : result unit :=
  then_ "smtp tls dial" (sp_dial peer addr)
  (then_ "smtp new client" (sp_client peer)
  (then_ "smtp auth" (match auth with Some (u, p) => sp_auth peer u p | None => Ok tt end)
  (then_ "smtp MAIL FROM" (sp_mail peer (From cfg))
  (then_ "smtp RCPT TO" (sp_rcpt peer to)
  (then_ "smtp DATA" (sp_data peer)
  (then_ "smtp write data" (sp_write peer msg)
  (then_ "smtp close data writer" (sp_close peer)
  (sp_quit peer)))))))).

Definition SendEmail (peer : SmtpPeer) (cfg : SMTPConfig) (to subject body : string) : result unit :=
  if negb (Enabled cfg) then Ok tt else
  let addr := Host cfg +:+ ":" +:+ Itoa (Port cfg) in
  let msg := buildMessage (From cfg) to subject body in
  let auth := if String.eqb (Username cfg) "" then None else Some (Username cfg, Password cfg) in
  if TLS cfg then sendTLS peer cfg addr auth to msg
  else sp_SendMail peer addr auth (From cfg) to msg.

(** ** notifier.go *)

Definition decryptSMTPPassword `{C : Crypto} (jwtSecret stored : string) : string :=
  if negb (HasPrefix stored "enc:") then stored else
  match hex_decode (drop_str 4 stored) with
  | None => ""
  | Some data => match Decrypt data (DeriveKey jwtSecret) with Ok p => p | Err _ => "" end
  end.

Section notifier.
Context `{E : Env, C : Crypto}.
Context (jwtSecret : string) (peer : SmtpPeer).
Context (order1 order2 : list (string * string) → list (string * string)).

(** A setting, empty when it cannot be read. *)
Definition config_or_empty (key : string) : M string :=
  let* v := try (GetConfig key) in ret (match v with Ok v => v | Err _ => "" end).

Definition truthy (v : string) : bool := String.eqb v "true" || String.eqb v "1".

(** [secret]: the key of encrypted passwords, if the caller gives one. *)
Definition LoadSMTPConfig (secret : option string) : M SMTPConfig :=
  let* p := config_or_empty "smtp_port" in
  let port := match Atoi p with Some n => n | None => 587 end in
  let* tls := config_or_empty "smtp_tls" in
  let* enabled := config_or_empty "smtp_enabled" in
  let* password := config_or_empty "smtp_password" in
  let password := match secret with
                  | Some s => if String.eqb password "" || String.eqb s "" then password
                              else decryptSMTPPassword s password
                  | None => password
                  end in
  let* host := config_or_empty "smtp_host" in
  let* username := config_or_empty "smtp_username" in
  let* from := config_or_empty "smtp_from" in
  ret (MkSMTPConfig host port username password from (truthy tls) (truthy enabled)).

(** The lock is taken only to look at the cache and to fill it. *)
Definition cachedSMTPConfig (n : Notifier) : M (SMTPConfig * Notifier) :=
  let* now := get_now in
  match n_smtp n with
  | Some (cfg, t) =>
      if now - t <? smtpConfigCacheTTL then ret (cfg, n)
      else let* cfg := LoadSMTPConfig (Some jwtSecret) in
           let* now := get_now in ret (cfg, n <| n_smtp := Some (cfg, now) |>)
  | None => let* cfg := LoadSMTPConfig (Some jwtSecret) in
            let* now := get_now in ret (cfg, n <| n_smtp := Some (cfg, now) |>)
  end.

Definition InvalidateSMTPCache (n : Notifier) : Notifier := n <| n_smtp := None |>.

Fixpoint enqueue_all (eventType subject body : string) (recipients : list (string * string))
    (n : Notifier) : outcome Notifier :=
  match recipients with
  | [] => Ret n
  | (id, email) :: recipients' =>
      if String.eqb email "" then enqueue_all eventType subject body recipients' n else
      let! (_, n') := enqueueJob (MkJob email id eventType subject body) n in
      enqueue_all eventType subject body recipients' n'
  end.

Definition enqueueNotification (eventType : string) (context : list (string * string)) (n : Notifier)
  : M Notifier :=
  let* cfg := LoadSMTPConfig (Some jwtSecret) in
  if negb (Enabled cfg) || String.eqb (Host cfg) "" then ret n else
  let* recipients := try (GetEnabledRecipients eventType) in
  match recipients with
  | Err _ => ret n
  | Ok recipients =>
      let '(subject, body) := RenderEmail order1 order2 eventType context in
      match enqueue_all eventType subject body recipients n with
      | Ret n' => ret n'
      | Panic => fail panicked
      end
  end.

Definition debounce_key (eventType : string) (context : list (string * string)) : string :=
  eventType +:+ ":" +:+ value context "server_id".

(** Replaces the timer of the same server, if there is one. *)
Definition scheduleDebounced (now : Z) (eventType : string) (context : list (string * string))
    (n : Notifier) : Notifier :=
  n <| n_debounce ::= <[debounce_key eventType context :=
                          MkDebounced (now + DebounceDelay) eventType context]> |>.

Definition cancelDebounce (key : string) (n : Notifier) : bool * Notifier :=
  match n_debounce n !! key with
  | Some _ => (true, n <| n_debounce ::= delete key |>)
  | None => (false, n)
  end.

(** The function of a timer. *)
Definition fire (key : string) (n : Notifier) : M Notifier :=
  match n_debounce n !! key with
  | None => ret n
  | Some d => enqueueNotification (db_event d) (db_context d) (n <| n_debounce ::= delete key |>)
  end.

Definition Notify_ (eventType : string) (context : list (string * string)) (n : Notifier) : M Notifier :=
  let serverID := value context "server_id" in
  let '(cancelled, n) :=
    if String.eqb eventType NotifyAgentOnline && negb (String.eqb serverID "")
    then cancelDebounce (NotifyAgentOffline +:+ ":" +:+ serverID) n else (false, n) in
  if cancelled then ret n else
  if String.eqb eventType NotifyAgentOffline && negb (String.eqb serverID "")
  then let* now := get_now in ret (scheduleDebounced now eventType context n)
  else enqueueNotification eventType context n.

(** [strings.Cut(s, sep)], when [sep] occurs. *)
Fixpoint Cut (sep s : string) : option (string * string) :=
  if HasPrefix s sep then Some ("", drop_str (String.length sep) s) else
  match s with
  | EmptyString => None
  | String a s' => match Cut sep s' with Some (x, y) => Some (String a x, y) | None => None end
  end.

(** The first two of [strings.SplitN(msg, ": ", 3)], when there are two. *)
Definition sanitizeErrorForLog (msg : string) : string :=
  match Cut ": " msg with
  | Some (a, rest) =>
      a +:+ ": " +:+ match Cut ": " rest with Some (b, _) => b | None => rest end
  | None => "email delivery failed"
  end.

Definition processJob (job : emailJob) (n : Notifier) : M Notifier :=
  let* (cfg, n) := cachedSMTPConfig n in
  let sent := SendEmail peer cfg (To job) (Subject job) (Body job) in
  let* id := NewString in
  let '(status, errMsg) := match sent with
                           | Ok _ => ("sent", None)
                           | Err e => ("failed", Some (sanitizeErrorForLog e))
                           end in
  let* _ := ignore (LogNotification id (job_UserID job) (EventType job) (Subject job) status errMsg) in
  ret n.

(** The job the worker takes next.  Both queues may be ready only when a priority job arrived
    between the two polls; [raced] is the case in which the second one takes the other queue. *)
Definition take_job (raced : bool) (n : Notifier) : option (emailJob * Notifier) :=
  match n_priority n, n_queue n with
  | j :: p, k :: q => if raced then Some (k, n <| n_queue := q |>) else Some (j, n <| n_priority := p |>)
  | j :: p, [] => Some (j, n <| n_priority := p |>)
  | [], k :: q => Some (k, n <| n_queue := q |>)
  | [], [] => None
  end.

(** The worker once the queues are closed: it returns when both are drained. *)
Fixpoint worker (fuel : nat) (races : nat → bool) (n : Notifier) : M (list emailJob * Notifier) :=
  match take_job (races fuel) n with
  | None => ret ([], n)
  | Some (job, n1) =>
      match fuel with
      | O => fail "out of fuel"
      | S f =>
          let* n2 := processJob job n1 in
          let* (jobs, n3) := worker f races n2 in
          ret (job :: jobs, n3)
      end
  end.

End notifier.

(** ** The worker *)

Section worker_lemmas.
Context `{E : Env, C : Crypto}.
Context (jwtSecret : string) (peer : SmtpPeer).

Lemma config_or_empty_run (key : string) (w : World) :
  ∃ v w', config_or_empty key w = (Ok v, w').
Proof. unfold config_or_empty, bind, try, ret. destruct (GetConfig key w). eauto. Qed.

Ltac config_steps :=
  repeat match goal with
  | |- context [config_or_empty ?k ?v] =>
      let H := fresh in destruct (config_or_empty_run k v) as (? & ? & H); rewrite H; clear H
  end.

Lemma LoadSMTPConfig_run (secret : option string) (w : World) :
  ∃ cfg w', LoadSMTPConfig secret w = (Ok cfg, w').
Proof. unfold LoadSMTPConfig, bind. config_steps. unfold ret. eauto. Qed.

(** Two notifiers with the same queues. *)
Definition same_queues (n n' : Notifier) : Prop :=
  n_queue n' = n_queue n ∧ n_priority n' = n_priority n.

Lemma cachedSMTPConfig_run (n : Notifier) (w : World) :
  ∃ cfg n' w', cachedSMTPConfig jwtSecret n w = (Ok (cfg, n'), w') ∧ same_queues n n'.
Proof.
  unfold cachedSMTPConfig, bind, get_now, ret.
  destruct (LoadSMTPConfig_run (Some jwtSecret) w) as (cfg & w' & H).
  destruct (n_smtp n) as [[c t]|]; [destruct (_ <? _)|]; rewrite ?H; by do 3 eexists.
Qed.

Lemma processJob_run (job : emailJob) (n : Notifier) (w : World) :
  ∃ n' w', processJob jwtSecret peer job n w = (Ok n', w') ∧ same_queues n n'.
Proof.
  unfold processJob, bind, ignore, NewString, draw, ret.
  destruct (cachedSMTPConfig_run n w) as (cfg & n' & w' & -> & Hq).
  destruct (SendEmail _ _ _ _ _); destruct (LogNotification _ _ _ _ _ _ _); by do 2 eexists.
Qed.

Definition waiting (n : Notifier) : nat := length (n_priority n) + length (n_queue n).

(** Taking a job shortens one queue by its head. *)
Lemma take_job_inv (raced : bool) (n n' : Notifier) (j : emailJob) :
  take_job raced n = Some (j, n') →
  (n_priority n = j :: n_priority n' ∧ n_queue n' = n_queue n) ∨
  (n_queue n = j :: n_queue n' ∧ n_priority n' = n_priority n).
Proof.
  unfold take_job. destruct (n_priority n) eqn:Hp, (n_queue n) eqn:Hq; [done|..|destruct raced];
    intros [= <- <-]; simpl; rewrite ?Hp, ?Hq; auto.
Qed.

Lemma take_job_None (raced : bool) (n : Notifier) :
  take_job raced n = None → n_priority n = [] ∧ n_queue n = [].
Proof.
  unfold take_job. destruct (n_priority n), (n_queue n); [done|..|destruct raced]; done.
Qed.

Lemma worker_run (races : nat → bool) (fuel : nat) (n : Notifier) (w : World) :
  waiting n = fuel →
  ∃ jobs n' w', worker jwtSecret peer fuel races n w = (Ok (jobs, n'), w') ∧
    n_priority n' = [] ∧ n_queue n' = [] ∧ jobs ≡ₚ n_priority n ++ n_queue n ∧
    n_priority n `sublist_of` jobs ∧ n_queue n `sublist_of` jobs.
Proof.
  revert n w. induction fuel as [|fuel IH]; intros n w Hf; cbn [worker];
    destruct (take_job _ n) as [[j n1]|] eqn:Ht.
  - apply take_job_inv in Ht as [[Hp _]|[Hp _]]; unfold waiting in Hf; rewrite Hp in Hf; simpl in Hf; lia.
  - apply take_job_None in Ht as [Hp Hq]. exists [], n, w. by rewrite Hp, Hq.
  - destruct (processJob_run j n1 w) as (n2 & w2 & Hr & Hq1 & Hq2). unfold bind. rewrite Hr.
    assert (Hf2 : waiting n2 = fuel).
    { unfold waiting in *. rewrite Hq1, Hq2.
      apply take_job_inv in Ht as [[Hp Hq]|[Hp Hq]]; rewrite Hp in Hf; simpl in Hf; rewrite Hq; lia. }
    destruct (IH n2 w2 Hf2) as (jobs & n3 & w3 & -> & H1 & H2 & H3 & H4 & H5).
    exists (j :: jobs), n3, w3. rewrite Hq1, Hq2 in *. split; [done|]. split; [done|]. split; [done|].
    apply take_job_inv in Ht as [[Hp Hq]|[Hp Hq]]; rewrite Hp, Hq in *; (split; [|split]).
    + by rewrite H3.
    + by constructor.
    + by apply sublist_cons.
    + by rewrite H3, Permutation_middle.
    + by apply sublist_cons.
    + by constructor.
  - apply take_job_None in Ht as [Hp Hq]. unfold waiting in Hf. by rewrite Hp, Hq in Hf.
Qed.

End worker_lemmas.

(** closing the notifier loses no mail.  Once the queues are closed the worker terminates,
    whatever the mail server, the database and the scheduling of the two queues do: it takes every
    job that was accepted exactly once, those of each queue in their order, and leaves both queues
    empty.  Its number of turns is the number of jobs. *)
Theorem worker_drains `{E : Env, C : Crypto} (jwtSecret : string) (peer : SmtpPeer)
    (races : nat → bool) (n : Notifier) (w : World) :
  ∃ jobs n' w', worker jwtSecret peer (waiting n) races n w = (Ok (jobs, n'), w') ∧
    n_priority n' = [] ∧ n_queue n' = [] ∧ jobs ≡ₚ n_priority n ++ n_queue n ∧
    n_priority n `sublist_of` jobs ∧ n_queue n `sublist_of` jobs.
Proof. by apply worker_run. Qed.

(** a brief disconnect is silent.  An agent that goes offline only starts a timer.  If it comes
    back before the timer fires, the notifier is as it was and nobody is told of either event; if
    the timer fires first, that notifies of the disconnect, and the return is an event of its own. *)
Theorem brief_disconnect_is_silent `{E : Env, C : Crypto} (jwtSecret : string)
    (order1 order2 : list (string * string) → list (string * string))
    (off on : list (string * string)) (n : Notifier) (w : World) :
  let notify := Notify_ jwtSecret order1 order2 in
  let key := debounce_key NotifyAgentOffline off in
  value off "server_id" ≠ "" → value on "server_id" = value off "server_id" →
  n_debounce n !! key = None →
  ∃ n1, notify NotifyAgentOffline off n w = (Ok n1, w) ∧
    n_queue n1 = n_queue n ∧ n_priority n1 = n_priority n ∧
    (db_due <$> n_debounce n1 !! key) = Some (w_now w + DebounceDelay) ∧
    (∀ w', notify NotifyAgentOnline on n1 w' = (Ok n, w')) ∧
    (∀ w', fire jwtSecret order1 order2 key n1 w' =
             enqueueNotification jwtSecret order1 order2 NotifyAgentOffline off n w') ∧
    (∀ w', notify NotifyAgentOnline on n w' =
             enqueueNotification jwtSecret order1 order2 NotifyAgentOnline on n w').
Proof.
  intros notify key Hs Ho Hk. subst notify.
  exists (scheduleDebounced (w_now w) NotifyAgentOffline off n). unfold Notify_.
  assert (Hd : delete key (<[key := MkDebounced (w_now w + DebounceDelay) NotifyAgentOffline off]>
    (n_debounce n)) = n_debounce n) by (by rewrite delete_insert_id).
  assert (Hkey : NotifyAgentOffline +:+ ":" +:+ value on "server_id" = key)
    by (unfold key, debounce_key; by rewrite Ho).
  assert (Hne : String.eqb (value off "server_id") "" = false) by by apply String.eqb_neq.
  rewrite Ho, Hne. rewrite Ho in Hkey.
  change (String.eqb NotifyAgentOffline NotifyAgentOnline) with false.
  change (String.eqb NotifyAgentOnline NotifyAgentOnline) with true.
  change (String.eqb NotifyAgentOffline NotifyAgentOffline) with true.
  change (String.eqb NotifyAgentOnline NotifyAgentOffline) with false.
  cbn [andb negb]. unfold cancelDebounce. rewrite !Hkey, Hk. simpl. fold key.
  split_and!; try done.
  - by rewrite lookup_insert_eq.
  - intros w'. rewrite lookup_insert_eq. unfold ret. rewrite Hd. by destruct n.
  - intros w'. unfold fire. simpl. fold key. rewrite lookup_insert_eq. simpl. rewrite Hd. by destruct n.
Qed.

(** ** The message *)

Lemma stripCRLF_clean (s : string) :
  no_byte "013" (stripCRLF s) = true ∧ no_byte "010" (stripCRLF s) = true.
Proof.
  unfold stripCRLF. induction s as [|a s [IH1 IH2]]; [done|]. cbn [String.list_ascii_of_string List.filter].
  destruct (Ascii.eqb a "013" || Ascii.eqb a "010") eqn:Ha; cbn [negb]; [done|]. bool_hyps.
  cbn [String.string_of_list_ascii no_byte]. rewrite IH1, IH2.
  repeat match goal with H : Ascii.eqb _ _ = false |- _ => rewrite H; clear H end. done.
Qed.

Definition clean_line (l : string) : Prop := no_byte "013" l = true ∧ no_byte "010" l = true.

Lemma header_line_clean (name v : string) : clean_line name → clean_line (header_line name v).
Proof.
  intros [H1 H2]. destruct (stripCRLF_clean v) as [H3 H4]. unfold clean_line, header_line.
  rewrite !no_byte_app, H1, H2, H3, H4. done.
Qed.

Lemma Cut_skip (c : ascii) (sep a rest : string) :
  no_byte c a = true →
  Cut (String c sep) (a +:+ rest) = (λ xy, (a +:+ xy.1, xy.2)) <$> Cut (String c sep) rest.
Proof.
  induction a as [|x a IH]; intros Ha; [simpl; by destruct (Cut _ rest) as [[]|]|].
  cbn [no_byte] in Ha. bool_hyps. cbn [String.append Cut HasPrefix]. unfold HasPrefix at 1.
  cbn [String.prefix]. destruct (ascii_dec c x) as [->|Hne]; [by rewrite Ascii.eqb_refl in *|].
  rewrite IH by done. by destruct (Cut _ rest) as [[]|].
Qed.

Definition blank_line : string := crlf +:+ crlf.

(** A line is passed over up to the next one, which does not start with a line break. *)
Lemma Cut_line (l r : string) :
  clean_line l → HasPrefix r (String "013" "") = false →
  Cut blank_line (l +:+ crlf +:+ r) =
    (λ xy, (l +:+ crlf +:+ xy.1, xy.2)) <$> Cut blank_line r.
Proof.
  intros [Hl _] Hr. unfold blank_line, crlf. cbn [String.append]. rewrite Cut_skip by done.
  set (sep := String "013" _).
  assert (H : Cut sep (String "013" (String "010" r)) =
    (λ xy, (String "013" (String "010" xy.1), xy.2)) <$> Cut sep r).
  { change (Cut sep (String "013" (String "010" r))) with
      (if HasPrefix (String "013" (String "010" r)) sep
       then Some ("", drop_str (String.length sep) (String "013" (String "010" r)))
       else match Cut sep (String "010" r) with Some (x, y) => Some (String "013" x, y) | None => None end).
    assert (Hp : HasPrefix (String "013" (String "010" r)) sep = false).
    { unfold HasPrefix, sep in *. destruct r as [|a r]; [reflexivity|].
      cbn [String.prefix] in *. destruct (ascii_dec "013" "013"); [|done].
      destruct (ascii_dec "010" "010"); [|done]. destruct (ascii_dec "013" a); [|done].
      by destruct r. }
    rewrite Hp. change (String "010" r) with (String "010" "" +:+ r).
    unfold sep. rewrite Cut_skip by done. fold sep. by destruct (Cut sep r) as [[]|]. }
  rewrite H. by destruct (Cut sep r) as [[]|].
Qed.

Lemma Cut_blank (l body : string) :
  clean_line l → Cut blank_line (l +:+ crlf +:+ crlf +:+ body) = Some (l, body).
Proof.
  intros [Hl _]. change (l +:+ crlf +:+ crlf +:+ body) with (l +:+ (blank_line +:+ body)).
  unfold blank_line at 1, crlf. cbn [String.append]. rewrite Cut_skip by done.
  assert (H : Cut blank_line (blank_line +:+ body) = Some ("", body)) by by destruct body.
  match goal with |- context [Cut ?s ?x] =>
    change (Cut s x) with (Cut blank_line (blank_line +:+ body)) end. rewrite H. simpl.
  f_equal. f_equal. clear. by induction l as [|a l IH]; simpl; [|rewrite IH].
Qed.

(** no header can be injected into a mail.  Whatever the addresses and the subject contain,
    line breaks included, the message splits at its first blank line into five header lines without
    line breaks, each of them the field it is meant to be, and the body. *)
Theorem message_headers_intact (from to subject body : string) :
  let lines := [header_line "From" from; header_line "To" to; header_line "Subject" subject;
                "MIME-Version: 1.0"; "Content-Type: text/plain; charset=UTF-8"] in
  Cut blank_line (buildMessage from to subject body) = Some (Join crlf lines, body) ∧
  Forall clean_line lines.
Proof.
  intros lines. assert (Hc : Forall clean_line lines).
  { repeat constructor; by apply header_line_clean || done. }
  split; [|done]. unfold lines in Hc. rewrite !Forall_cons in Hc. destruct Hc as (H1 & H2 & H3 & H4 & H5 & _).
  unfold buildMessage.
  rewrite (Cut_line (header_line "From" from) _) by done.
  rewrite (Cut_line (header_line "To" to) _) by done.
  rewrite (Cut_line (header_line "Subject" subject) _) by done.
  rewrite (Cut_line "MIME-Version: 1.0" _) by done.
  rewrite Cut_blank by done. reflexivity.
Qed.

Section witnesses.
#[local] Existing Instance demoEnv.
#[local] Existing Instance demo_crypto.

Lemma brief_disconnect_is_silent_witness :
  let off := [("server_name", "web"); ("server_id", "s1"); ("timestamp", "now")] in
  ∃ n1, Notify_ "s" id id NotifyAgentOffline off New (demo_world empty_db) =
          (Ok n1, demo_world empty_db) ∧
    Notify_ "s" id id NotifyAgentOnline off n1 (demo_world empty_db) = (Ok New, demo_world empty_db).
Proof.
  intros off.
  destruct (brief_disconnect_is_silent "s" id id off off New (demo_world empty_db))
    as (n1 & H1 & _ & _ & _ & H2 & _); [done|done|done|].
  exists n1. split; [exact H1|apply H2].
Defined.

End witnesses.
