(* ===== verification/NotificationHandlers.v ===== *)
(** * Notification handlers of the hub (hub/internal/server/handlers_notifications.go) and the
    audit observers of server.go.

    The notifier's state is passed along; the order in which the map of settings is ranged over is
    a parameter. *)

From S2P Require Import Prelude GoStr GoTime Model Proto Db Demo StoreConfig StoreUsers StoreTokens.
From S2P Require Import Auth AgentHandler Http Secrets Ldap AuthHandlers Notifier.

Definition redactedValue : string := "********".

(** The notifications of [installAuditObservers]. *)
Definition with_field (key : string) (v : option string) (l : list (string * string)) :=
  match v with Some v => l ++ [(key, v)] | None => l end.
Definition audit_observer (failed : bool) (h : AuditHealth) : string * list (string * string) :=
  let l := [("failure_count", Itoa (ah_FailureCount h))] in
  if failed then
    (NotifyAuditDegraded,
     with_field "last_failure_reason" (ah_LastFailureReason h)
       (with_field "last_failure_at" (ah_LastFailureAt h) l))
  else (NotifyAuditRecovered, with_field "last_recovered_at" (ah_LastRecoveredAt h) l).

Definition validateSMTPConfig (req : SMTPConfig) : result unit :=
  if negb (Enabled req) then Ok tt else
  if (Port req <? 1) || (65535 <? Port req) then Err "SMTP port must be between 1 and 65535" else
  if negb (Contains (From req) "@") then Err "SMTP from address must contain @" else
  if String.eqb (Host req) "" then Err "SMTP host is required when enabled" else Ok tt.

Definition show_bool (b : bool) : string := if b then "true" else "false".

Definition smtp_values (req : SMTPConfig) : list (string * string) :=
  [("smtp_host", Host req); ("smtp_port", Itoa (Port req)); ("smtp_username", Username req);
   ("smtp_from", From req); ("smtp_tls", show_bool (TLS req));
   ("smtp_enabled", show_bool (Enabled req))].

Section notification_handlers.
Context `{E : Env, C : Crypto}.
Context (jwtSecret : string) (peer : SmtpPeer).
Context (order_values : list (string * string) → list (string * string)).

Definition encryptSMTPPassword (password : string) : M string :=
  let* encrypted := Encrypt password (DeriveKey jwtSecret) in
  ret (encPrefix +:+ hex_encode encrypted).

Definition DecryptSMTPPassword (stored : string) : result string :=
  if negb (HasPrefix stored encPrefix) then Ok stored else
  match hex_decode (drop_str 4 stored) with
  | None => Err "invalid encrypted SMTP password format"
  | Some data => Decrypt data (DeriveKey jwtSecret)
  end.

Definition handleGetSMTPConfig : HandlerFunc SMTPConfig := λ _ _,
  let* cfg := LoadSMTPConfig None in
  ret (RespondJSON 200 (if String.eqb (Password cfg) "" then cfg
                        else cfg <| Password := redactedValue |>)).

(** The loop of the transaction: the key that cannot be saved is the error. *)
Fixpoint save_configs (values : list (string * string)) : M unit :=
  match values with
  | [] => ret tt
  | (key, v) :: values' =>
      let* saved := try (exec (λ w, (1, w_db w <| d_config ::= <[key := v]> |>))) in
      match saved with
      | Err _ => fail ("failed to save " +:+ key)
      | Ok _ => save_configs values'
      end
  end.

(** The transaction; the error is the message of the response. *)
Definition save_smtp (values : list (string * string)) : M unit := λ w,
  match driver w with
  | (Err _, w1) => (Err "failed to begin transaction", w1)
  | (Ok _, w1) =>
      match save_configs values w1 with
      | (Err e, w2) => (Err e, w2 <| w_db := w_db w1 |>)
      | (Ok _, w2) =>
          match driver w2 with
          | (Err _, w3) => (Err "failed to commit config", w3 <| w_db := w_db w1 |>)
          | (Ok _, w3) => (Ok tt, w3)
          end
      end
  end.

(** The answer carries the notifier, whose cached configuration is dropped. *)
Definition handleUpdateSMTPConfig (body : option SMTPConfig) (n : Notifier) : HandlerFunc Notifier := λ _ _,
  match body with
  | None => ret (RespondError 400 errInvalidRequestBody)
  | Some req =>
      match validateSMTPConfig req with
      | Err e => ret (RespondError 400 e)
      | Ok _ =>
          let* password :=
            if negb (String.eqb (Password req) "") && negb (String.eqb (Password req) redactedValue)
            then let* encrypted := try (encryptSMTPPassword (Password req)) in
                 ret (match encrypted with
                      | Ok stored => Ok [("smtp_password", stored)]
                      | Err e => Err e
                      end)
            else ret (Ok []) in
          match password with
          | Err _ => ret (RespondError 500 "failed to encrypt SMTP password")
          | Ok password =>
              let* saved := try (save_smtp (order_values (smtp_values req ++ password))) in
              match saved with
              | Err e => ret (RespondError 500 e)
              | Ok _ => ret (RespondJSON 200 (InvalidateSMTPCache n))
              end
          end
      end
  end.

(** body: the recipient *)
Definition handleTestSMTP (body : option string) : HandlerFunc unit := λ _ _,
  match body with
  | None => ret (RespondError 400 errInvalidRequestBody)
  | Some recipient =>
      if String.eqb recipient "" then ret (RespondError 400 "recipient is required") else
      let* cfg := LoadSMTPConfig (Some jwtSecret) in
      match SendEmail peer (cfg <| Enabled := true |>) recipient "Veyport SMTP Test"
              "This is a test email from Veyport. Your SMTP configuration is working correctly." with
      | Err _ => ret (RespondError 502 "failed to send test email — check SMTP settings and server logs")
      | Ok _ => ret (RespondJSON 200 tt)
      end
  end.

Definition handleGetNotificationPreferences : HandlerFunc (list NotificationPreference) := λ _ ctx,
  let* prefs := try (GetNotificationPreferences (UserIDFromContext ctx)) in
  match prefs with
  | Err _ => ret (RespondError 500 "failed to get notification preferences")
  | Ok prefs => ret (RespondJSON 200 prefs)
  end.

(** The loop over the preferences: the ones before a refused one are saved. *)
Fixpoint update_preferences (userID : string) (prefs : list (string * bool)) : M (response unit) :=
  match prefs with
  | [] => ret (RespondJSON 200 tt)
  | (event, enabled) :: prefs' =>
      if negb (existsb (λ e, String.eqb (ne_Type e) event) AllNotifyEvents)
      then ret (RespondError 400 ("unknown event type: " +:+ event)) else
      let* saved := try (SetNotificationPreference userID event enabled) in
      match saved with
      | Err _ => ret (RespondError 500 ("failed to update preference for " +:+ event))
      | Ok _ => update_preferences userID prefs'
      end
  end.

Definition handleUpdateNotificationPreferences (body : option (list (string * bool)))
  : HandlerFunc unit := λ _ ctx,
  match body with
  | None => ret (RespondError 400 errInvalidRequestBody)
  | Some prefs => update_preferences (UserIDFromContext ctx) prefs
  end.

Definition handleListNotificationLog : HandlerFunc (list (NotificationLogRow * string) * Z) := λ r _,
  let '(limit, offset) := parsePagination r 50 in
  let* res := try (ListNotificationLog limit offset) in
  match res with
  | Err _ => ret (RespondError 500 "failed to list notification log")
  | Ok res => ret (RespondJSON 200 res)
  end.

End notification_handlers.

(** ** Lemmas *)

Section smtp_lemmas.
Context `{E : Env, C : Crypto}.

Lemma save_configs_Ok (values : list (string * string)) (w w' : World) :
  save_configs values w = (Ok tt, w') →
  d_config (w_db w') = foldl (λ c kv, <[kv.1 := kv.2]> c) (d_config (w_db w)) values.
Proof.
  revert w. induction values as [|[k v] values IH]; intros w H; simpl in *.
  - by injection H as <-.
  - apply bind_Ok in H as (r & w1 & Hs%try_Ok & H). destruct r as [n|e]; [|done].
    apply exec_Ok in Hs as (fs & _ & -> & _). apply IH in H. exact H.
Qed.

Lemma save_smtp_Ok (values : list (string * string)) (w w' : World) :
  save_smtp values w = (Ok tt, w') →
  d_config (w_db w') = foldl (λ c kv, <[kv.1 := kv.2]> c) (d_config (w_db w)) values.
Proof.
  unfold save_smtp. destruct (driver w) as [[[]|e] w1] eqn:H1; [|done].
  destruct (save_configs values w1) as [[[]|e] w2] eqn:H2; [|done].
  destruct (driver w2) as [[[]|e] w3] eqn:H3; [|done]. intros [= <-].
  apply driver_Ok in H1 as [fs ->], H3 as [fs' ->]. by apply save_configs_Ok in H2.
Qed.

(** Without faults a setting reads as it is stored, and empty when it is not. *)
Lemma config_or_empty_ok (key : string) (w : World) :
  no_faults w → config_or_empty key w = (Ok (default "" (d_config (w_db w) !! key)), w).
Proof.
  intros Hw. unfold config_or_empty, GetConfig, LookupConfig, query_row, bind, wrap, try, driver.
  rewrite Hw. simpl. by destruct (d_config (w_db w) !! key).
Qed.

(** The password of a stored value, as the notifier reads it. *)
Definition stored_password (secret : option string) (v : string) : string :=
  match secret with
  | Some s => if String.eqb v "" || String.eqb s "" then v else decryptSMTPPassword s v
  | None => v
  end.

Lemma LoadSMTPConfig_ok (secret : option string) (w : World) :
  no_faults w →
  let get key := default "" (d_config (w_db w) !! key) in
  LoadSMTPConfig secret w = (Ok (MkSMTPConfig (get "smtp_host")
    (default 587 (Atoi (get "smtp_port"))) (get "smtp_username")
    (stored_password secret (get "smtp_password")) (get "smtp_from")
    (truthy (get "smtp_tls")) (truthy (get "smtp_enabled"))), w).
Proof.
  intros Hw. cbv zeta. unfold LoadSMTPConfig, bind. rewrite !config_or_empty_ok by done.
  unfold ret. by destruct (Atoi _).
Qed.

Lemma truthy_show (b : bool) : truthy (show_bool b) = b.
Proof. by destruct b. Qed.
End smtp_lemmas.

Section roundtrip.
Context `{E : Env, C : Crypto, !CryptoLaws C}.
Context (jwtSecret : string).

(** The password a successful update stores, if it stores one. *)
Lemma new_password_Ok (req : SMTPConfig) (w w' : World) (l : list (string * string)) :
  (if negb (String.eqb (Password req) "") && negb (String.eqb (Password req) redactedValue)
   then let* encrypted := try (encryptSMTPPassword jwtSecret (Password req)) in
        ret (match encrypted with Ok stored => Ok [("smtp_password", stored)] | Err e => Err e end)
   else ret (Ok [])) w = (Ok (Ok l), w') →
  w_db w' = w_db w ∧
  ((Password req ≠ "" ∧ Password req ≠ redactedValue ∧ ∃ stored, l = [("smtp_password", stored)] ∧
    stored ≠ "" ∧ decryptSMTPPassword jwtSecret stored = Password req) ∨
   (Password req = "" ∨ Password req = redactedValue) ∧ l = []).
Proof.
  destruct (String.eqb_spec (Password req) ""); [|destruct (String.eqb_spec (Password req) redactedValue)];
    cbn [negb andb]; [intros [= <- <-]; auto..|].
  intros H. apply bind_Ok in H as (r & w1 & He%try_Ok & H). destruct r as [stored|]; [|done].
  injection H as <- <-. assert (Hs := stored_secret_run jwtSecret (Password req) w).
  change (encryptConfigSecret jwtSecret (Password req) w = (Ok stored, w1)) in He. rewrite He in Hs.
  destruct Hs as (Hp & Hd & _ & _ & ->). split; [done|]. left. split; [done|]. split; [done|].
  exists stored. split; [done|]. split; [by intros ->|]. unfold decryptSMTPPassword.
  unfold decryptConfigSecret in Hd. change "enc:" with encPrefix. rewrite Hp in *. cbn [negb] in *.
  destruct (hex_decode _) as [data|]; [|done]. by rewrite Hd.
Qed.
End roundtrip.

(** the mail settings survive storage.  What a successful update saves is what the notifier
    reads from then on, field by field and whatever the order of the writes: the password decrypts
    to the one that was given, and stays the stored one when none, or the mask, was given.  The
    cached settings are dropped, and the API shows the same settings with the password masked. *)
Theorem smtp_settings_roundtrip `{E : Env, C : Crypto, !CryptoLaws C} (jwtSecret : string)
    (order : list (string * string) → list (string * string)) (req : SMTPConfig) (n n' : Notifier)
    (r : Request) (ctx : Ctx) (st : Z) (w w' : World) :
  jwtSecret ≠ "" → 0 <= Port req <= max_int → (∀ l, order l ≡ₚ l) →
  handleUpdateSMTPConfig jwtSecret order (Some req) n r ctx w = (Ok (RespondJSON st n'), w') →
  no_faults w' →
  let given := Password req ≠ "" ∧ Password req ≠ redactedValue in
  n_smtp n' = None ∧
  ∃ password, LoadSMTPConfig (Some jwtSecret) w' = (Ok (req <| Password := password |>), w') ∧
    (given → password = Password req) ∧
    (¬ given → password = stored_password (Some jwtSecret)
                            (default "" (d_config (w_db w) !! "smtp_password"))) ∧
    ∃ masked, handleGetSMTPConfig r ctx w' = (Ok (RespondJSON 200 (req <| Password := masked |>)), w') ∧
      (masked = "" ∨ masked = redactedValue).
Proof.
  intros Hjwt Hport Hord H Hw'. cbv zeta. unfold handleUpdateSMTPConfig in H.
  destruct (validateSMTPConfig req); [|done]. apply bind_Ok in H as (pw & w1 & Hpw & H).
  destruct pw as [l|]; [|done]. apply bind_Ok in H as (saved & w2 & Hs%try_Ok & H).
  destruct saved as [[]|]; [|done]. injection H as _ <- <-.
  apply new_password_Ok in Hpw as [Hdb Hl]. apply save_smtp_Ok in Hs.
  rewrite Hdb in Hs. set (values := order _) in Hs.
  assert (Hp : values ≡ₚ smtp_values req ++ l) by apply Hord.
  assert (Hnd : NoDup values.*1).
  { rewrite Hp. destruct Hl as [(_ & _ & stored & -> & _)|[_ ->]]; vm_compute; repeat constructor; set_solver. }
  assert (Hget : Forall (λ kv, d_config (w_db w2) !! kv.1 = Some kv.2) (smtp_values req)).
  { apply Forall_forall. intros [k v] Hin. rewrite Hs. apply foldl_insert_lookup; [done|].
    rewrite Hp. apply elem_of_app. by left. }
  unfold smtp_values in Hget. rewrite !Forall_cons in Hget. simpl in Hget.
  destruct Hget as (G1 & G2 & G3 & G4 & G5 & G6 & _).
  split; [done|].
  set (pass := default "" (d_config (w_db w2) !! "smtp_password")).
  assert (Hload : ∀ secret, LoadSMTPConfig secret w2 =
    (Ok (req <| Password := stored_password secret pass |>), w2)).
  { intros secret. rewrite LoadSMTPConfig_ok by done. rewrite G1, G2, G3, G4, G5, G6. simpl.
    rewrite Atoi_Itoa, !truthy_show by done. by destruct req. }
  exists (stored_password (Some jwtSecret) pass). split; [done|].
  assert (Hpass : match l with [] => pass = default "" (d_config (w_db w) !! "smtp_password")
                          | kv :: _ => pass = kv.2 end).
  { unfold pass. rewrite Hs. destruct Hl as [(_ & _ & stored & -> & _)|[_ ->]].
    - erewrite (foldl_insert_lookup values _ "smtp_password" stored); [done|done|].
      rewrite Hp. apply elem_of_app. right. by apply list_elem_of_singleton.
    - rewrite foldl_insert_other; [done|]. rewrite Hp, app_nil_r. vm_compute. set_solver. }
  split; [|split].
  - intros [Hne Hnr]. destruct Hl as [(_ & _ & stored & -> & Hst & Hd)|[[|] _]]; [|done..].
    simpl in Hpass. rewrite Hpass. unfold stored_password.
    rewrite (proj2 (String.eqb_neq _ _) Hst), (proj2 (String.eqb_neq _ _) Hjwt). exact Hd.
  - intros Hn. destruct Hl as [(? & ? & _)|[_ ->]]; [tauto|]. by rewrite Hpass.
  - unfold handleGetSMTPConfig, bind. rewrite Hload. unfold stored_password, ret.
    destruct (String.eqb_spec pass "") as [He|He]; simpl.
    + exists pass. split; [by rewrite He|by left].
    + rewrite (proj2 (String.eqb_neq _ _) He). exists redactedValue. split; [done|by right].
Qed.

Section witnesses.
#[local] Existing Instance demoEnv.
#[local] Existing Instance demo_crypto.
#[local] Existing Instance demo_crypto_laws.

Definition demo_smtp : SMTPConfig := MkSMTPConfig "mail" 465 "hub" "hunter2" "hub@example.org" true true.
#[local] Notation demo_update :=
  (handleUpdateSMTPConfig "jwt" (@rev _) (Some demo_smtp) New (demo_request "") demo_admin_ctx
     (demo_world empty_db)).

Lemma smtp_settings_roundtrip_witness :
  ∃ n' w', demo_update = (Ok (RespondJSON 200 n'), w') ∧
    (LoadSMTPConfig (Some "jwt") w').1 = Ok demo_smtp.
Proof.
  destruct demo_update as [[[|st n']|] w'] eqn:Hr; [by vm_compute in Hr| |by vm_compute in Hr].
  assert (st = 200) as -> by (vm_compute in Hr; congruence).
  exists n', w'. split; [done|].
  assert (Hf : no_faults demo_update.2) by by vm_compute. rewrite Hr in Hf. simpl in Hf.
  apply smtp_settings_roundtrip in Hr as (_ & p & Hl & Hp & _); [|done..|symmetry; apply Permutation_rev|done].
  rewrite Hl. rewrite Hp; done.
Defined.
End witnesses.
