(* ===== verification/Router.v ===== *)
(** * The hub's routes (hub/internal/server/router.go) and the middleware around all of them
    (middleware.go).

    [routes] is the table that [routes()] registers, [Match] is [http.ServeMux] on it, and
    [ServeHTTP] is the handler the hub serves.  The handlers are an argument: what is shown here
    holds whatever they do. *)

From S2P Require Import Prelude GoStr GoTime Model Db Demo StoreUsers StoreTokens Auth Http.
From S2P Require RateLimiter Secrets AuthHandlers UserHandlers.

#[export] Instance eta_Request : Eta Request := λ r, MkRequest (r_Method r) (r_Path r) (r_Host r)
  (r_RemoteAddr r) (r_TLS r) (PathValue r) (Query r) (header r) (cookie r).
#[export] Instance eta_Ctx : Eta Ctx := λ c, MkCtx (UserIDFromContext c) (UserRoleFromContext c)
  (TokenTypeFromContext c) (RequestIDFromContext c).

(** ** net/http: patterns and paths *)

(** A segment of a pattern: literal, [{name}], or the rest of the path (the pattern ["/"]). *)
Inductive segment := Lit (s : string) | Wild (name : string) | Multi.
#[export] Instance segment_eq_dec : EqDecision segment.
Proof. solve_decision. Defined.

(** ["METHOD /a/{b}"] or ["/"]; an empty method matches every one. *)
Definition parse_segment (s : string) : segment :=
  if HasPrefix s "{" && HasSuffix s "}" then Wild (String.substring 1 (String.length s - 2) s)
  else if String.eqb s "" then Multi else Lit s.
Definition parse_pattern (p : string) : string * list segment :=
  match Split " " p with
  | [method; path] => (method, map parse_segment (Split "/" (drop_str 1 path)))
  | _ => ("", map parse_segment (Split "/" (drop_str 1 p)))
  end.

(** [url.PathUnescape]; a segment that does not unescape is left as it is. *)
Fixpoint path_unescape (s : string) : option string :=
  match s with
  | EmptyString => Some ""
  | String c s1 =>
      if Ascii.eqb c "%" then
        match s1 with
        | String a (String b s') =>
            match Secrets.hex_val a, Secrets.hex_val b with
            | Some x, Some y => String (ascii_of_nat (Z.to_nat (16 * x + y))) <$> path_unescape s'
            | _, _ => None
            end
        | _ => None
        end
      else String c <$> path_unescape s1
  end.
Definition pathUnescape (s : string) : string := default s (path_unescape s).

(** The segments of a path: unescaped, and ["/"] for a trailing slash. *)
Fixpoint mark_trailing (segs : list string) : list string :=
  match segs with
  | [] => []
  | [s] => [if String.eqb s "" then "/" else pathUnescape s]
  | s :: segs' => pathUnescape s :: mark_trailing segs'
  end.
Definition segments (path : string) : list string :=
  if String.eqb path "" then [] else mark_trailing (Split "/" (drop_str 1 path)).

Definition cleanPath (p : string) : string :=
  if String.eqb p "" then "/" else
  let p := if HasPrefix p "/" then p else "/" +:+ p in
  let np := Clean p in
  if HasSuffix p "/" && negb (String.eqb np "/") then np +:+ "/" else np.

(** [routingNode.matchPath]: literals first, then a wildcard (never for a trailing slash), then the
    pattern for the rest.  The candidates are what is left of the patterns; the result is the value
    matched and the values of its wildcards. *)
Section matching.
Context {V : Type}.
Notation candidate := (list segment * list (string * string) * V)%type.

Definition take_lit (seg : string) (c : candidate) : option candidate :=
  match c with
  | (Lit s :: ps, vs, v) => if String.eqb s seg then Some (ps, vs, v) else None
  | _ => None
  end.
Definition take_wild (seg : string) (c : candidate) : option candidate :=
  match c with (Wild n :: ps, vs, v) => Some (ps, (n, seg) :: vs, v) | _ => None end.
Definition take_multi (c : candidate) : option (list (string * string) * V) :=
  match c with (Multi :: _, vs, v) => Some (vs, v) | _ => None end.
Definition take_end (c : candidate) : option (list (string * string) * V) :=
  match c with ([], vs, v) => Some (vs, v) | _ => None end.

Fixpoint matchPath (segs : list string) (cs : list candidate) : option (list (string * string) * V) :=
  match segs with
  | [] => head (omap take_end cs)
  | seg :: segs' =>
      match matchPath segs' (omap (take_lit seg) cs) with
      | Some r => Some r
      | None =>
          match (if String.eqb seg "/" then None else matchPath segs' (omap (take_wild seg) cs)) with
          | Some r => Some r
          | None => head (omap take_multi cs)
          end
      end
  end.

(** [matchMethodAndPath]: the method, [GET] for [HEAD], no method. *)
Definition for_method (method : string) (table : list (string * V)) : list candidate :=
  omap (λ '(p, v), let '(m, ps) := parse_pattern p in
                   if String.eqb m method then Some (ps, [], v) else None) table.

Definition Match (method path : string) (table : list (string * V))
  : option (list (string * string) * V) :=
  let at_ m := matchPath (segments path) (for_method m table) in
  match at_ method with
  | Some r => Some r
  | None =>
      match (if String.eqb method "HEAD" then at_ "GET" else None) with
      | Some r => Some r
      | None => at_ ""
      end
  end.
End matching.

(** ** The request limiters *)

Definition second : Z := NS.
Definition loginLimiter : string := "loginLimiter".
Definition totpLimiter : string := "totpLimiter".
Definition refreshLimiter : string := "refreshLimiter".
Definition fileOpsLimiter : string := "fileOpsLimiter".
Definition terminalLimiter : string := "terminalLimiter".

Definition new_limiters : gmap string RateLimiter.rateLimiter := list_to_map
  [(loginLimiter, RateLimiter.newRateLimiter 10 (60 * second));
   (totpLimiter, RateLimiter.newRateLimiter 3 (60 * second));
   (refreshLimiter, RateLimiter.newRateLimiter 30 (60 * second));
   (fileOpsLimiter, RateLimiter.newRateLimiter 60 (60 * second));
   (terminalLimiter, RateLimiter.newRateLimiter 3600 (60 * second))].

(** ** Middleware *)

(** [w.Header().Set]. *)
Definition setHeader (key value : string) : M unit := λ w, (Ok tt, w <| w_header ::= <[key := value]> |>).

Definition StatusNoContent : Z := 204.
Definition StatusNotFound : Z := 404.
Definition StatusTooManyRequests : Z := 429.

Section routes.
Context `{E : Env} `{N : NetEnv} {A : Type}.
(** The server's configuration; [r.URL.EscapedPath()]; the status of ServeMux's redirect to a clean
    path; the order in which a limiter's map is ranged over. *)
Variable isDev : bool.
Variable secret : string.
Variable EscapedPath : Request → string.
Variable redirectStatus : Z.
Variable range : nat → gmap string (list Z) → list (string * list Z).

Implicit Types (next : HandlerFunc A) (r : Request) (ctx : Ctx).

Definition loggingMiddleware next : HandlerFunc A := next.

(** [rateLimiter.allow]; a panic ends the request. *)
Definition allow (limiter ip : string) : M bool := λ w,
  match w_limiters w !! limiter with
  | None => (Err "nil pointer dereference", w)
  | Some rl =>
      match RateLimiter.allow (range (w_draws w)) (w_now w) ip rl with
      | Ret (b, rl') => (Ok b, w <| w_draws ::= S |> <| w_limiters ::= <[limiter := rl']> |>)
      | Panic => (Err "index out of range", w)
      end
  end.

(** [rateLimiter.middleware] *)
Definition middleware (limiter : string) next : HandlerFunc A := λ r ctx,
  let* allowed := allow limiter (clientIP r) in
  if negb allowed then
    let* _ := setHeader "Retry-After" "60" in
    ret (RespondError StatusTooManyRequests "too many login attempts")
  else next r ctx.

Definition requestIDMiddleware next : HandlerFunc A := λ r ctx,
  let* requestID := request_id r in
  let* _ := setHeader "X-Request-ID" requestID in
  next r (ctx <| RequestIDFromContext := requestID |>).

(** A bodiless reply is a [RespondError] with an empty message. *)
Definition corsMiddleware next : HandlerFunc A := λ r ctx,
  if isDev then
    let* _ := setHeader "Access-Control-Allow-Origin" "http://localhost:5173" in
    let* _ := setHeader "Access-Control-Allow-Methods" "GET, POST, PUT, DELETE, OPTIONS" in
    let* _ := setHeader "Access-Control-Allow-Headers" "Content-Type, Authorization, X-CSRF-Token" in
    let* _ := setHeader "Access-Control-Allow-Credentials" "true" in
    if String.eqb (r_Method r) "OPTIONS" then ret (RespondError StatusNoContent "") else next r ctx
  else next r ctx.

Definition securityHeaders next : HandlerFunc A := λ r ctx,
  let* _ := setHeader "Strict-Transport-Security" "max-age=31536000; includeSubDomains" in
  let* _ := setHeader "X-Frame-Options" "DENY" in
  let* _ := setHeader "X-Content-Type-Options" "nosniff" in
  let* _ := setHeader "Referrer-Policy" "strict-origin-when-cross-origin" in
  let* _ := setHeader "Permissions-Policy" "camera=(), microphone=(), geolocation=()" in
  let* _ :=
    if String.eqb (r_Path r) "/" || negb (HasPrefix (r_Path r) "/api/") then
      setHeader "Content-Security-Policy"
        "default-src 'self'; script-src 'self'; style-src 'self' 'unsafe-inline'; img-src 'self' data:; connect-src 'self'"
    else ret tt in
  next r ctx.

Definition apiCacheControl next : HandlerFunc A := λ r ctx,
  let* _ :=
    if HasPrefix (r_Path r) "/api/" then
      let* _ := setHeader "Cache-Control" "no-store, no-cache, must-revalidate" in
      setHeader "Pragma" "no-cache"
    else ret tt in
  next r ctx.

End routes.

(** ** The table *)

(** The handlers the routes name. *)
Inductive handler :=
  | handleHealth | handleAuthStatus | handleRegister | handleLogin | handleLoginTOTP
  | handleRefresh | handleLogout | handleTOTPSetup | handleTOTPEnable | handleMe
  | handleChangePassword | handleUpdateAvatar | handleTOTPDisable | handleListUsers
  | handleCreateUser | handleUpdateUserRole | handleDeleteUser | handleListAuditLogs
  | handleAuditCatalog | handleAuditHealth | handleGetAuditSettings | handleUpdateAuditSettings
  | handleExportAuditLogs | handleListAuditExports | handleRunAuditRetention
  | handleListAuditReviews | handleCreateAuditReview | handleListAuditSavedFilters
  | handleCreateAuditSavedFilter | handleDeleteAuditSavedFilter | handleListAuditFlags
  | handleCreateAuditFlag | handleAuditDetections | handleListAuditUsers | handleGetHubConfig
  | handleUpdateHubConfig | handleGetSMTPConfig | handleUpdateSMTPConfig | handleTestSMTP
  | handleGetNotificationPreferences | handleUpdateNotificationPreferences
  | handleListNotificationLog | handleListServers | handleCreateServer | handleBatchDeleteServers
  | handleGetServer | handleUpdateServer | handleDeleteServer | handleListPaths
  | handleCreatePath | handleDeletePath | handleGetUserPaths | handleListFiles | handleReadFile
  | handleTailLog | handleCreateTerminalSession | handleTerminalStream | handleTerminalInput
  | handleTerminalResize | handleCloseTerminalSession | handleUploadFile | handleListDropzone
  | handleDeleteDropzoneFile | handleUnregisterServer | handleInstallScript | handleAgentBinary
  | handleAgentBinaryChecksum | handleSelfUnregister | spaHandler.

Section table.
Context `{E : Env} `{N : NetEnv} {A : Type}.
Variable isDev : bool.
Variable secret : string.
Variable EscapedPath : Request → string.
Variable redirectStatus : Z.
Variable range : nat → gmap string (list Z) → list (string * list Z).
Variable I : handler → HandlerFunc A.
#[local] Notation middleware := (middleware range).

Definition routes : list (string * HandlerFunc A) :=
  [ (* Public auth endpoints (rate-limited) *)
   ("GET /api/health", loggingMiddleware (I handleHealth));
   ("GET /api/auth/status", loggingMiddleware (I handleAuthStatus));
   ("POST /api/auth/register", loggingMiddleware (middleware loginLimiter (I handleRegister)));
   ("POST /api/auth/login", loggingMiddleware (middleware loginLimiter (I handleLogin)));
   ("POST /api/auth/login/totp", loggingMiddleware (middleware totpLimiter (I handleLoginTOTP)));
   ("POST /api/auth/refresh", loggingMiddleware (middleware refreshLimiter (I handleRefresh)));
   ("POST /api/auth/logout", loggingMiddleware (I handleLogout));
   ("POST /api/auth/totp/setup", loggingMiddleware (authMiddleware secret TokenTypeSetup (I handleTOTPSetup)));
   ("POST /api/auth/totp/enable", loggingMiddleware (authMiddleware secret TokenTypeSetup (I handleTOTPEnable)));
   ("GET /api/auth/me", loggingMiddleware (authMiddleware secret TokenTypeAccess (I handleMe)));
   ("PUT /api/auth/password", loggingMiddleware (authMiddleware secret TokenTypeAccess (interactiveOnly (I handleChangePassword))));
   ("PUT /api/auth/avatar", loggingMiddleware (authMiddleware secret TokenTypeAccess (interactiveOnly (I handleUpdateAvatar))));
   ("POST /api/auth/totp/disable", loggingMiddleware (authMiddleware secret TokenTypeAccess (interactiveOnly (adminOnly (I handleTOTPDisable)))));
   ("GET /api/users", loggingMiddleware (authMiddleware secret TokenTypeAccess (adminOnly (I handleListUsers))));
   ("POST /api/users", loggingMiddleware (authMiddleware secret TokenTypeAccess (adminOnly (I handleCreateUser))));
   ("PUT /api/users/{id}/role", loggingMiddleware (authMiddleware secret TokenTypeAccess (adminOnly (I handleUpdateUserRole))));
   ("DELETE /api/users/{id}", loggingMiddleware (authMiddleware secret TokenTypeAccess (adminOnly (I handleDeleteUser))));
   ("GET /api/audit-logs", loggingMiddleware (authMiddleware secret TokenTypeAccess (auditAccessOnly (I handleListAuditLogs))));
   ("GET /api/audit-logs/catalog", loggingMiddleware (authMiddleware secret TokenTypeAccess (auditAccessOnly (I handleAuditCatalog))));
   ("GET /api/audit-logs/health", loggingMiddleware (authMiddleware secret TokenTypeAccess (auditAccessOnly (I handleAuditHealth))));
   ("GET /api/audit-logs/settings", loggingMiddleware (authMiddleware secret TokenTypeAccess (auditAccessOnly (I handleGetAuditSettings))));
   ("PUT /api/audit-logs/settings", loggingMiddleware (authMiddleware secret TokenTypeAccess (adminOnly (I handleUpdateAuditSettings))));
   ("GET /api/audit-logs/export", loggingMiddleware (authMiddleware secret TokenTypeAccess (auditAccessOnly (I handleExportAuditLogs))));
   ("GET /api/audit-logs/exports", loggingMiddleware (authMiddleware secret TokenTypeAccess (auditAccessOnly (I handleListAuditExports))));
   ("POST /api/audit-logs/retention/run", loggingMiddleware (authMiddleware secret TokenTypeAccess (adminOnly (I handleRunAuditRetention))));
   ("GET /api/audit-logs/reviews", loggingMiddleware (authMiddleware secret TokenTypeAccess (auditAccessOnly (I handleListAuditReviews))));
   ("POST /api/audit-logs/reviews", loggingMiddleware (authMiddleware secret TokenTypeAccess (auditAccessOnly (I handleCreateAuditReview))));
   ("GET /api/audit-logs/filters", loggingMiddleware (authMiddleware secret TokenTypeAccess (auditAccessOnly (I handleListAuditSavedFilters))));
   ("POST /api/audit-logs/filters", loggingMiddleware (authMiddleware secret TokenTypeAccess (auditAccessOnly (I handleCreateAuditSavedFilter))));
   ("DELETE /api/audit-logs/filters/{id}", loggingMiddleware (authMiddleware secret TokenTypeAccess (auditAccessOnly (I handleDeleteAuditSavedFilter))));
   ("GET /api/audit-logs/flags", loggingMiddleware (authMiddleware secret TokenTypeAccess (auditAccessOnly (I handleListAuditFlags))));
   ("POST /api/audit-logs/flags", loggingMiddleware (authMiddleware secret TokenTypeAccess (auditAccessOnly (I handleCreateAuditFlag))));
   ("GET /api/audit-logs/detections", loggingMiddleware (authMiddleware secret TokenTypeAccess (auditAccessOnly (I handleAuditDetections))));
   ("GET /api/audit-users", loggingMiddleware (authMiddleware secret TokenTypeAccess (auditAccessOnly (I handleListAuditUsers))));
   ("GET /api/settings/hub", loggingMiddleware (authMiddleware secret TokenTypeAccess (adminOnly (I handleGetHubConfig))));
   ("PUT /api/settings/hub", loggingMiddleware (authMiddleware secret TokenTypeAccess (adminOnly (I handleUpdateHubConfig))));
   ("GET /api/settings/smtp", loggingMiddleware (authMiddleware secret TokenTypeAccess (adminOnly (I handleGetSMTPConfig))));
   ("PUT /api/settings/smtp", loggingMiddleware (authMiddleware secret TokenTypeAccess (adminOnly (I handleUpdateSMTPConfig))));
   ("POST /api/settings/smtp/test", loggingMiddleware (authMiddleware secret TokenTypeAccess (adminOnly (I handleTestSMTP))));
   ("GET /api/notifications/preferences", loggingMiddleware (authMiddleware secret TokenTypeAccess (I handleGetNotificationPreferences)));
   ("PUT /api/notifications/preferences", loggingMiddleware (authMiddleware secret TokenTypeAccess (I handleUpdateNotificationPreferences)));
   ("GET /api/notifications/log", loggingMiddleware (authMiddleware secret TokenTypeAccess (adminOnly (I handleListNotificationLog))));
   ("GET /api/servers", loggingMiddleware (authMiddleware secret TokenTypeAccess (I handleListServers)));
   ("POST /api/servers", loggingMiddleware (authMiddleware secret TokenTypeAccess (adminOnly (I handleCreateServer))));
   ("POST /api/servers/batch-delete", loggingMiddleware (authMiddleware secret TokenTypeAccess (adminOnly (I handleBatchDeleteServers))));
   ("GET /api/servers/{id}", loggingMiddleware (authMiddleware secret TokenTypeAccess (I handleGetServer)));
   ("PUT /api/servers/{id}", loggingMiddleware (authMiddleware secret TokenTypeAccess (adminOnly (I handleUpdateServer))));
   ("DELETE /api/servers/{id}", loggingMiddleware (authMiddleware secret TokenTypeAccess (adminOnly (I handleDeleteServer))));
   ("GET /api/servers/{id}/paths", loggingMiddleware (authMiddleware secret TokenTypeAccess (adminOnly (I handleListPaths))));
   ("POST /api/servers/{id}/paths", loggingMiddleware (authMiddleware secret TokenTypeAccess (adminOnly (I handleCreatePath))));
   ("DELETE /api/servers/{id}/paths/{pathId}", loggingMiddleware (authMiddleware secret TokenTypeAccess (adminOnly (I handleDeletePath))));
   ("GET /api/servers/{id}/my-paths", loggingMiddleware (authMiddleware secret TokenTypeAccess (I handleGetUserPaths)));
   ("GET /api/servers/{id}/files", loggingMiddleware (middleware fileOpsLimiter (authMiddleware secret TokenTypeAccess (I handleListFiles))));
   ("GET /api/servers/{id}/files/read", loggingMiddleware (middleware fileOpsLimiter (authMiddleware secret TokenTypeAccess (I handleReadFile))));
   ("GET /api/servers/{id}/logs/tail", loggingMiddleware (middleware fileOpsLimiter (authMiddleware secret TokenTypeAccess (I handleTailLog))));
   ("POST /api/servers/{id}/terminal/sessions", loggingMiddleware (middleware terminalLimiter (authMiddleware secret TokenTypeAccess (interactiveOnly (terminalAccessOnly (I handleCreateTerminalSession))))));
   ("GET /api/servers/{id}/terminal/sessions/{sessionId}/stream", loggingMiddleware (middleware terminalLimiter (authMiddleware secret TokenTypeAccess (interactiveOnly (terminalAccessOnly (I handleTerminalStream))))));
   ("POST /api/servers/{id}/terminal/sessions/{sessionId}/input", loggingMiddleware (middleware terminalLimiter (authMiddleware secret TokenTypeAccess (interactiveOnly (terminalAccessOnly (I handleTerminalInput))))));
   ("POST /api/servers/{id}/terminal/sessions/{sessionId}/resize", loggingMiddleware (middleware terminalLimiter (authMiddleware secret TokenTypeAccess (interactiveOnly (terminalAccessOnly (I handleTerminalResize))))));
   ("DELETE /api/servers/{id}/terminal/sessions/{sessionId}", loggingMiddleware (middleware terminalLimiter (authMiddleware secret TokenTypeAccess (interactiveOnly (terminalAccessOnly (I handleCloseTerminalSession))))));
   ("POST /api/servers/{id}/upload", loggingMiddleware (middleware fileOpsLimiter (authMiddleware secret TokenTypeAccess (adminOnly (I handleUploadFile)))));
   ("GET /api/servers/{id}/dropzone", loggingMiddleware (middleware fileOpsLimiter (authMiddleware secret TokenTypeAccess (adminOnly (I handleListDropzone)))));
   ("DELETE /api/servers/{id}/dropzone", loggingMiddleware (middleware fileOpsLimiter (authMiddleware secret TokenTypeAccess (adminOnly (I handleDeleteDropzoneFile)))));
   ("DELETE /api/servers/{id}/unregister", loggingMiddleware (authMiddleware secret TokenTypeAccess (adminOnly (I handleUnregisterServer))));
   ("GET /install.sh", loggingMiddleware (I handleInstallScript));
   ("GET /install/{os}/{arch}", loggingMiddleware (I handleAgentBinary));
   ("GET /install/{os}/{arch}/sha256", loggingMiddleware (I handleAgentBinaryChecksum));
   ("DELETE /api/servers/{id}/self-unregister", loggingMiddleware (I handleSelfUnregister));
   (* SPA catch-all *)
   ("/", I spaHandler)].

(** [ServeMux.ServeHTTP]: a path that is not clean is redirected, and the pattern's wildcards become
    the request's path values. *)
Definition mux : HandlerFunc A := λ r ctx,
  let escapedPath := EscapedPath r in
  let path := if String.eqb (r_Method r) "CONNECT" then escapedPath else cleanPath escapedPath in
  if negb (String.eqb path escapedPath) then ret (RespondError redirectStatus path) else
  match Match (r_Method r) path routes with
  | None => ret (RespondError StatusNotFound "404 page not found")
  | Some (values, next) =>
      next (r <| PathValue := λ name, default "" (list_find (λ v, v.1 = name) values ≫= λ v, Some v.2.2) |>) ctx
  end.

(** What [routes()] returns, on the empty context of a new request and the headers of a new
    response. *)
Definition ServeHTTP (r : Request) : M (response A) := λ w,
  securityHeaders (apiCacheControl (corsMiddleware isDev (csrfMiddleware isDev
    (requestIDMiddleware mux)))) r (MkCtx "" "" "" "") (w <| w_header := ∅ |>).

End table.

(** ** Access, as docs/wiki/API-Reference.md documents it *)

Inductive audience := Public | SetupToken | SignedIn | Interactive | AdminOnly | InteractiveAdmin |
  AuditAccess | TerminalAccess.

Definition documented : list (string * handler * audience) :=
  [
   ("GET /api/health", handleHealth, Public);
   ("GET /api/auth/status", handleAuthStatus, Public);
   ("POST /api/auth/register", handleRegister, Public);
   ("POST /api/auth/login", handleLogin, Public);
   ("POST /api/auth/login/totp", handleLoginTOTP, Public);
   ("POST /api/auth/refresh", handleRefresh, Public);
   ("POST /api/auth/logout", handleLogout, Public);
   ("POST /api/auth/totp/setup", handleTOTPSetup, SetupToken);
   ("POST /api/auth/totp/enable", handleTOTPEnable, SetupToken);
   ("GET /api/auth/me", handleMe, SignedIn);
   ("PUT /api/auth/password", handleChangePassword, Interactive);
   ("PUT /api/auth/avatar", handleUpdateAvatar, Interactive);
   ("POST /api/auth/totp/disable", handleTOTPDisable, InteractiveAdmin);
   ("GET /api/users", handleListUsers, AdminOnly);
   ("POST /api/users", handleCreateUser, AdminOnly);
   ("PUT /api/users/{id}/role", handleUpdateUserRole, AdminOnly);
   ("DELETE /api/users/{id}", handleDeleteUser, AdminOnly);
   ("GET /api/audit-logs", handleListAuditLogs, AuditAccess);
   ("GET /api/audit-logs/catalog", handleAuditCatalog, AuditAccess);
   ("GET /api/audit-logs/health", handleAuditHealth, AuditAccess);
   ("GET /api/audit-logs/settings", handleGetAuditSettings, AuditAccess);
   ("PUT /api/audit-logs/settings", handleUpdateAuditSettings, AdminOnly);
   ("GET /api/audit-logs/export", handleExportAuditLogs, AuditAccess);
   ("GET /api/audit-logs/exports", handleListAuditExports, AuditAccess);
   ("POST /api/audit-logs/retention/run", handleRunAuditRetention, AdminOnly);
   ("GET /api/audit-logs/reviews", handleListAuditReviews, AuditAccess);
   ("POST /api/audit-logs/reviews", handleCreateAuditReview, AuditAccess);
   ("GET /api/audit-logs/filters", handleListAuditSavedFilters, AuditAccess);
   ("POST /api/audit-logs/filters", handleCreateAuditSavedFilter, AuditAccess);
   ("DELETE /api/audit-logs/filters/{id}", handleDeleteAuditSavedFilter, AuditAccess);
   ("GET /api/audit-logs/flags", handleListAuditFlags, AuditAccess);
   ("POST /api/audit-logs/flags", handleCreateAuditFlag, AuditAccess);
   ("GET /api/audit-logs/detections", handleAuditDetections, AuditAccess);
   ("GET /api/audit-users", handleListAuditUsers, AuditAccess);
   ("GET /api/settings/hub", handleGetHubConfig, AdminOnly);
   ("PUT /api/settings/hub", handleUpdateHubConfig, AdminOnly);
   ("GET /api/settings/smtp", handleGetSMTPConfig, AdminOnly);
   ("PUT /api/settings/smtp", handleUpdateSMTPConfig, AdminOnly);
   ("POST /api/settings/smtp/test", handleTestSMTP, AdminOnly);
   ("GET /api/notifications/preferences", handleGetNotificationPreferences, SignedIn);
   ("PUT /api/notifications/preferences", handleUpdateNotificationPreferences, SignedIn);
   ("GET /api/notifications/log", handleListNotificationLog, AdminOnly);
   ("GET /api/servers", handleListServers, SignedIn);
   ("POST /api/servers", handleCreateServer, AdminOnly);
   ("POST /api/servers/batch-delete", handleBatchDeleteServers, AdminOnly);
   ("GET /api/servers/{id}", handleGetServer, SignedIn);
   ("PUT /api/servers/{id}", handleUpdateServer, AdminOnly);
   ("DELETE /api/servers/{id}", handleDeleteServer, AdminOnly);
   ("GET /api/servers/{id}/paths", handleListPaths, AdminOnly);
   ("POST /api/servers/{id}/paths", handleCreatePath, AdminOnly);
   ("DELETE /api/servers/{id}/paths/{pathId}", handleDeletePath, AdminOnly);
   ("GET /api/servers/{id}/my-paths", handleGetUserPaths, SignedIn);
   ("GET /api/servers/{id}/files", handleListFiles, SignedIn);
   ("GET /api/servers/{id}/files/read", handleReadFile, SignedIn);
   ("GET /api/servers/{id}/logs/tail", handleTailLog, SignedIn);
   ("POST /api/servers/{id}/terminal/sessions", handleCreateTerminalSession, TerminalAccess);
   ("GET /api/servers/{id}/terminal/sessions/{sessionId}/stream", handleTerminalStream, TerminalAccess);
   ("POST /api/servers/{id}/terminal/sessions/{sessionId}/input", handleTerminalInput, TerminalAccess);
   ("POST /api/servers/{id}/terminal/sessions/{sessionId}/resize", handleTerminalResize, TerminalAccess);
   ("DELETE /api/servers/{id}/terminal/sessions/{sessionId}", handleCloseTerminalSession, TerminalAccess);
   ("POST /api/servers/{id}/upload", handleUploadFile, AdminOnly);
   ("GET /api/servers/{id}/dropzone", handleListDropzone, AdminOnly);
   ("DELETE /api/servers/{id}/dropzone", handleDeleteDropzoneFile, AdminOnly);
   ("DELETE /api/servers/{id}/unregister", handleUnregisterServer, AdminOnly);
   ("GET /install.sh", handleInstallScript, Public);
   ("GET /install/{os}/{arch}", handleAgentBinary, Public);
   ("GET /install/{os}/{arch}/sha256", handleAgentBinaryChecksum, Public);
   ("DELETE /api/servers/{id}/self-unregister", handleSelfUnregister, Public);
   ("/", spaHandler, Public)].

(** What the caller with token [tok] has proved to the hub in [w], as the handler's context says. *)
Definition entitled `{Env} (a : audience) (secret tok : string) (w : World) (ctx : Ctx) : Prop :=
  let signed_in := tok ≠ "" ∧ identity secret tok w ctx ∧
                   TokenTypeFromContext ctx ∈ [TokenTypeAccess; TokenTypeAPIToken] in
  let interactive := tok ≠ "" ∧ identity secret tok w ctx ∧ TokenTypeFromContext ctx = TokenTypeAccess in
  match a with
  | Public => True
  | SetupToken => tok ≠ "" ∧ identity secret tok w ctx ∧ TokenTypeFromContext ctx = TokenTypeSetup
  | SignedIn => signed_in
  | Interactive => interactive
  | AdminOnly => signed_in ∧ UserRoleFromContext ctx = RoleAdmin
  | InteractiveAdmin => interactive ∧ UserRoleFromContext ctx = RoleAdmin
  | AuditAccess => signed_in ∧ UserRoleFromContext ctx ∈ [RoleAdmin; RoleAuditor]
  | TerminalAccess => interactive ∧ ∃ u, u ∈ d_users (w_db w) ∧ u_ID u = UserIDFromContext ctx ∧
      (u_Role u = RoleAdmin ∨ u_AuthProvider u = AuthProviderLDAP ∧ u_TerminalAccess u = true)
  end.

(** ** The limiters' tables *)

Definition limiters_ok (w : World) : Prop :=
  (∀ l, l ∈ [loginLimiter; totpLimiter; refreshLimiter; fileOpsLimiter; terminalLimiter] →
     is_Some (w_limiters w !! l)) ∧
  map_Forall (λ _ rl, RateLimiter.limiter_ok rl) (w_limiters w).

(** Only the limiters, the response's headers and the random source moved. *)
Definition quiet (w w' : World) : Prop :=
  (∃ lim hd dr, w' = w <| w_limiters := lim |> <| w_header := hd |> <| w_draws := dr |>) ∧
  (limiters_ok w → limiters_ok w').
(** So did the time of use of API tokens and the faults left, and revocations were cached. *)
Definition bystander (w w' : World) : Prop :=
  (∃ lim hd dr fs bl tokens,
     w' = w <| w_limiters := lim |> <| w_header := hd |> <| w_draws := dr |> <| w_faults := fs |>
            <| w_blacklist := bl |> <| w_db := w_db w <| d_api_tokens := tokens |> |> ∧
     map credential tokens = map credential (d_api_tokens (w_db w))) ∧
  (limiters_ok w → limiters_ok w').

Lemma quiet_refl (w : World) : quiet w w.
Proof. split; [|done]. exists (w_limiters w), (w_header w), (w_draws w). by destruct w. Qed.

Lemma quiet_trans (w w' w'' : World) : quiet w w' → quiet w' w'' → quiet w w''.
Proof.
  intros [(lim & hd & dr & ->) H] [(lim' & hd' & dr' & ->) H']. split; [|auto].
  exists lim', hd', dr'. by destruct w.
Qed.

Lemma quiet_header (w : World) (hd : gmap string string) : quiet w (w <| w_header := hd |>).
Proof. split; [|done]. exists (w_limiters w), hd, (w_draws w). by destruct w. Qed.

Lemma bystander_trans (w w' w'' : World) : bystander w w' → bystander w' w'' → bystander w w''.
Proof.
  intros [(lim & hd & dr & fs & bl & tk & -> & Hc) H] [(lim' & hd' & dr' & fs' & bl' & tk' & -> & Hc') H'].
  split; [|auto]. exists lim', hd', dr', fs', bl', tk'. simpl in *. split; [by destruct w|congruence].
Qed.

Lemma quiet_bystander (w w' : World) : quiet w w' → bystander w w'.
Proof.
  intros [(lim & hd & dr & ->) H]. split; [|done].
  exists lim, hd, dr, (w_faults w), (w_blacklist w), (d_api_tokens (w_db w)). by destruct w as [[]].
Qed.

Lemma touched_bystander (w w' : World) : touched w w' → bystander w w'.
Proof.
  intros (fs & bl & tk & -> & Hc). split; [|done].
  exists (w_limiters w), (w_header w), (w_draws w), fs, bl, tk. by destruct w.
Qed.

Lemma bystander_refl (w : World) : bystander w w.
Proof. apply touched_bystander, touched_refl. Qed.
#[export] Hint Resolve quiet_refl quiet_header bystander_refl touched_bystander quiet_bystander : veyport.

Section gates.
Context `{E : Env} {A : Type}.
Variable secret : string.
Variable redirectStatus : Z.
Implicit Types (c h : HandlerFunc A).

Lemma identity_quiet (tok : string) (w w' : World) (ctx : Ctx) :
  quiet w w' → identity secret tok w' ctx → identity secret tok w ctx.
Proof.
  intros [(lim & hd & dr & ->) _] H. inversion H; simpl in *; subst; [by apply Id_session|].
  by eapply Id_api_token.
Qed.

Lemma entitled_quiet (a : audience) (tok : string) (w w' : World) (ctx : Ctx) :
  quiet w w' → entitled a secret tok w' ctx → entitled a secret tok w ctx.
Proof.
  intros Hq. assert (Hi := identity_quiet tok w w' ctx Hq).
  assert (d_users (w_db w') = d_users (w_db w)) as Hu by (by destruct Hq as [(? & ? & ? & ->) _]).
  destruct a; simpl; rewrite ?Hu; intuition.
Qed.

Definition turned_away (w : World) (res : result (response A) * World) : Prop :=
  ∃ st msg, res.1 = Ok (RespondError st msg) ∧ st ∈ [204; redirectStatus; 401; 403; 404; 429] ∧
    bystander w res.2.

(** [c] runs [h], on a context that satisfies [Q], or turns the request away. *)
Definition gate (Q : Request → Ctx → World → Ctx → Prop) c h : Prop := ∀ r ctx w,
  limiters_ok w → clientIP r ≠ "" →
  turned_away w (c r ctx w) ∨ ∃ ctx' w', c r ctx w = h r ctx' w' ∧ bystander w w' ∧ Q r ctx w ctx'.

Definition gated (a : audience) : HandlerFunc A → HandlerFunc A → Prop :=
  gate (λ r _ w ctx, entitled a secret (readAccessToken r) w ctx).

Lemma turned_away_intro (w w' : World) (st : Z) (msg : string) :
  st ∈ [204; redirectStatus; 401; 403; 404; 429] → bystander w w' →
  turned_away w (Ok (RespondError st msg), w').
Proof. intros H1 H2. by exists st, msg. Qed.

Lemma turned_away_by (w w' : World) (res : result (response A) * World) :
  bystander w w' → turned_away w' res → turned_away w res.
Proof. intros Hq (st & msg & H1 & H2 & H3). exists st, msg. split_and!; [done|done|]. by eapply bystander_trans. Qed.

(** The gates inside [authMiddleware]: the context passed on is the one received. *)
Definition inner (P : Ctx → World → Prop) c h : Prop := gate (λ _ ctx w ctx', ctx' = ctx ∧ P ctx w) c h.

Lemma inner_handler (h : HandlerFunc A) : inner (λ _ _, True) h h.
Proof. intros r ctx w _ _. right. exists ctx, w. auto with veyport. Qed.

Lemma inner_guard (P Q : Ctx → World → Prop) (b : Ctx → bool) (st : Z) (msg : string) c c' h :
  (∀ r ctx, c' r ctx = if b ctx then ret (RespondError st msg) else c r ctx) →
  st = 403 → (∀ ctx w, b ctx = false → P ctx w → Q ctx w) → inner P c h → inner Q c' h.
Proof.
  intros Hc -> HQ Hi r ctx w Hl Hip. rewrite Hc. destruct (b ctx) eqn:Hb.
  - left. apply turned_away_intro; [set_solver|apply bystander_refl].
  - destruct (Hi r ctx w Hl Hip) as [Ht|(ctx' & w' & He & Hw & -> & HP)]; [by left|right].
    exists ctx, w'. auto.
Qed.

Lemma inner_interactive (P : Ctx → World → Prop) c h : inner P c h →
  inner (λ ctx w, TokenTypeFromContext ctx = TokenTypeAccess ∧ P ctx w) (interactiveOnly c) h.
Proof.
  apply (inner_guard _ _ (λ ctx, negb (String.eqb (TokenTypeFromContext ctx) TokenTypeAccess))
    403 "interactive login required"); [done|done|]. intros ctx w Hb HP. by bool_hyps.
Qed.

Lemma inner_admin (P : Ctx → World → Prop) c h : inner P c h →
  inner (λ ctx w, UserRoleFromContext ctx = RoleAdmin ∧ P ctx w) (adminOnly c) h.
Proof.
  apply (inner_guard _ _ (λ ctx, negb (String.eqb (UserRoleFromContext ctx) RoleAdmin))
    403 "admin access required"); [done|done|]. intros ctx w Hb HP. by bool_hyps.
Qed.

Lemma inner_audit (P : Ctx → World → Prop) c h : inner P c h →
  inner (λ ctx w, UserRoleFromContext ctx ∈ [RoleAdmin; RoleAuditor] ∧ P ctx w) (auditAccessOnly c) h.
Proof.
  apply (inner_guard _ _ (λ ctx, negb (String.eqb (UserRoleFromContext ctx) RoleAdmin) &&
    negb (String.eqb (UserRoleFromContext ctx) RoleAuditor)) 403 "audit access required"); [done|done|].
  intros ctx w Hb HP. split; [|done].
  apply andb_false_iff in Hb as [Hb|Hb]; bool_hyps; set_solver.
Qed.

Lemma inner_terminal (h : HandlerFunc A) :
  inner (λ ctx w, ∃ u, u ∈ d_users (w_db w) ∧ u_ID u = UserIDFromContext ctx ∧
    (u_Role u = RoleAdmin ∨ u_AuthProvider u = AuthProviderLDAP ∧ u_TerminalAccess u = true))
    (terminalAccessOnly h) h.
Proof.
  intros r ctx w _ _. unfold terminalAccessOnly, bind, try.
  assert (H : wp (GetUserByID (UserIDFromContext ctx)) (λ res w', touched w w' ∧ match res with
    | Ok u => u ∈ d_users (w_db w) ∧ u_ID u = UserIDFromContext ctx | Err _ => True end) w).
  { apply GetUserByID_found; intros; (split; [apply touched_faults|done]). }
  unfold wp in H. destruct (GetUserByID _ w) as [[u|e] w']; simpl in *; destruct H as [Ht Hu].
  - destruct (_ || _) eqn:Ho.
    + right. exists ctx, w'. split_and!; [done|auto with veyport|done|]. exists u. destruct Hu.
      split_and!; [done|done|]. apply orb_true_iff in Ho as [Ho|Ho]; bool_hyps; auto.
    + left. apply turned_away_intro; [set_solver|auto with veyport].
  - left. apply turned_away_intro; [set_solver|auto with veyport].
Qed.

Lemma auth_gate (a : audience) (ty : string) (P : Ctx → World → Prop) c h :
  inner P c h →
  (∀ tok w w' ctx, touched w w' → tok ≠ "" → identity secret tok w ctx →
     isAllowedTokenType ty (TokenTypeFromContext ctx) = true → P ctx w' → entitled a secret tok w ctx) →
  gated a (authMiddleware secret ty c) h.
Proof.
  intros Hi He r ctx0 w Hl Hip.
  destruct (authMiddleware_split secret ty c r ctx0 w) as [(st & msg & w' & -> & Hst & Ht)|(ctx & w' & Heq & Ht & Hid & Hty)].
  { left. apply turned_away_intro; [set_solver|auto with veyport]. }
  assert (Hl' : limiters_ok w') by (by destruct Ht as (? & ? & ? & -> & _)).
  destruct (String.eqb_spec (readAccessToken r) "") as [Hn|Hn].
  { left. unfold authMiddleware. rewrite Hn. apply turned_away_intro; [set_solver|auto with veyport]. }
  rewrite Heq. destruct (Hi r ctx w' Hl' Hip) as [Hta|(ctx' & w'' & -> & Hw & -> & HP)].
  - left. apply (turned_away_by w w'); auto with veyport.
  - right. exists ctx, w''. split_and!; [done|by eapply bystander_trans; [apply touched_bystander|]|by eapply He].
Qed.

(** *** A gate per audience *)

Ltac solve_entitled :=
  let tok := fresh "tok" in let Ht := fresh "Ht" in let Hty := fresh "Hty" in
  intros tok ? ? ? Ht ? ? Hty; destruct (touched_users _ _ Ht) as [? _];
  try apply allowed_access in Hty; simpl; naive_solver.

Lemma gate_signed_in h : gated SignedIn (authMiddleware secret TokenTypeAccess h) h.
Proof. eapply auth_gate; [apply inner_handler|solve_entitled]. Qed.

Lemma gate_setup h : gated SetupToken (authMiddleware secret TokenTypeSetup h) h.
Proof.
  eapply auth_gate; [apply inner_handler|]. intros tok w w' ctx _ Hn Hid Hty _. simpl.
  change (isAllowedTokenType TokenTypeSetup ?t) with (String.eqb TokenTypeSetup t) in Hty. by bool_hyps.
Qed.

Lemma gate_interactive h : gated Interactive (authMiddleware secret TokenTypeAccess (interactiveOnly h)) h.
Proof. eapply auth_gate; [apply inner_interactive, inner_handler|solve_entitled]. Qed.

Lemma gate_admin h : gated AdminOnly (authMiddleware secret TokenTypeAccess (adminOnly h)) h.
Proof. eapply auth_gate; [apply inner_admin, inner_handler|solve_entitled]. Qed.

Lemma gate_interactive_admin h :
  gated InteractiveAdmin (authMiddleware secret TokenTypeAccess (interactiveOnly (adminOnly h))) h.
Proof. eapply auth_gate; [apply inner_interactive, inner_admin, inner_handler|solve_entitled]. Qed.

Lemma gate_audit h : gated AuditAccess (authMiddleware secret TokenTypeAccess (auditAccessOnly h)) h.
Proof. eapply auth_gate; [apply inner_audit, inner_handler|solve_entitled]. Qed.

Lemma gate_terminal h :
  gated TerminalAccess (authMiddleware secret TokenTypeAccess (interactiveOnly (terminalAccessOnly h))) h.
Proof.
  eapply auth_gate; [apply inner_interactive, inner_terminal|].
  intros tok w w' ctx Ht Hn Hid _ (Hi & u & Hu & Hrest). destruct (touched_users _ _ Ht) as [Hus _].
  rewrite Hus in Hu. simpl. eauto 6.
Qed.

Lemma gate_public h : gated Public h h.
Proof. intros r ctx w _ _. right. exists ctx, w. by split_and!; [|apply bystander_refl|]. Qed.

Lemma gate_logging (a : audience) c h : gated a c h → gated a (loggingMiddleware c) h.
Proof. done. Qed.

End gates.
#[export] Hint Resolve gate_signed_in gate_setup gate_interactive gate_admin gate_interactive_admin
  gate_audit gate_terminal gate_public gate_logging : veyport.

Section limited.
Context `{E : Env} {A : Type}.
Variable secret : string.
Variable redirectStatus : Z.
Variable range : nat → gmap string (list Z) → list (string * list Z).
Hypothesis range_perm : ∀ i m, range i m ≡ₚ map_to_list m.
Implicit Types (c h : HandlerFunc A).

Lemma allow_cases (l ip : string) (w : World) :
  l ∈ [loginLimiter; totpLimiter; refreshLimiter; fileOpsLimiter; terminalLimiter] →
  limiters_ok w → ip ≠ "" → ∃ b w', allow range l ip w = (Ok b, w') ∧ quiet w w'.
Proof.
  intros Hl [Hall Hok] Hip. destruct (Hall l Hl) as [rl Hrl]. unfold allow. rewrite Hrl.
  destruct (RateLimiter.allow_ok (RateLimiter.MkCall (w_now w) ip (range (w_draws w))) rl)
    as (b & rl' & Ha & Hrl' & _); [intros m; apply range_perm|done|by apply (Hok l)|].
  simpl in Ha. rewrite Ha. do 2 eexists. split; [done|]. split.
  - do 3 eexists. by destruct w.
  - intros _. split; simpl.
    + intros l' Hl'. apply lookup_insert_is_Some'. right. by apply Hall.
    + by apply map_Forall_insert_2.
Qed.

Lemma gate_limiter (a : audience) (l : string) c h :
  l ∈ [loginLimiter; totpLimiter; refreshLimiter; fileOpsLimiter; terminalLimiter] →
  gated secret redirectStatus a c h →
  gated secret redirectStatus a (middleware range l c) h.
Proof.
  intros Hl Hc r ctx w Hok Hip. unfold middleware, bind.
  destruct (allow_cases l (clientIP r) w Hl Hok Hip) as (b & w1 & -> & Hq). destruct b; simpl.
  - destruct (Hc r ctx w1 (proj2 Hq Hok) Hip) as [Hta|(ctx' & w' & -> & Hw & He)].
    + left. apply (turned_away_by _ w w1); auto with veyport.
    + right. exists ctx', w'. split_and!; [done|by eapply bystander_trans; [apply quiet_bystander|]|].
      by eapply entitled_quiet.
  - left. apply turned_away_intro; [set_solver|]. eapply bystander_trans; [by apply quiet_bystander|].
    apply quiet_bystander, quiet_header.
Qed.

End limited.
#[export] Hint Extern 2 (gated _ _ _ (middleware _ _ _) _) => (apply gate_limiter; [done|set_solver|]) : veyport.

(** ** Which row a request reaches *)

Fixpoint matches (ps : list segment) (segs : list string) : bool :=
  match ps, segs with
  | [], [] => true
  | Lit s :: ps', seg :: segs' => String.eqb s seg && matches ps' segs'
  | Wild _ :: ps', seg :: segs' => negb (String.eqb seg "/") && matches ps' segs'
  | Multi :: _, _ :: _ => true
  | _, _ => false
  end.

(** The pattern names the method (or [GET] of a [HEAD], or none) and matches the path. *)
Definition pattern_serves (p method path : string) : Prop :=
  (parse_pattern p).1 ∈ [method; ""] ++ (if String.eqb method "HEAD" then ["GET"] else []) ∧
  matches (parse_pattern p).2 (segments path) = true.

Lemma matchPath_sound {V : Type} (segs : list string) (cs : list (list segment * list (string * string) * V))
    (vs : list (string * string)) (v : V) :
  matchPath segs cs = Some (vs, v) → ∃ ps vs0, (ps, vs0, v) ∈ cs ∧ matches ps segs = true.
Proof.
  revert cs. induction segs as [|seg segs IH]; intros cs; simpl.
  { intros ([[ps vs0] v'] & Hin & Ht)%head_Some_elem_of%list_elem_of_omap.
    destruct ps; [|done]. simplify_eq/=. by exists [], vs. }
  destruct (matchPath segs (omap (take_lit seg) cs)) as [[vs' v']|] eqn:Hlit.
  { intros [= <- <-]. apply IH in Hlit as (ps & vs0 & ([[ps1 vs1] v1] & Hin & Ht)%list_elem_of_omap & Hm).
    destruct ps1 as [|[s|n|] ps1]; simpl in Ht; try done.
    destruct (String.eqb_spec s seg) as [->|]; simplify_eq. exists (Lit seg :: ps), vs0.
    split; [done|]. simpl. by rewrite String.eqb_refl. }
  clear Hlit. destruct (String.eqb seg "/") eqn:Hs.
  2: destruct (matchPath segs (omap (take_wild seg) cs)) as [[vs' v']|] eqn:Hwild.
  2:{ intros [= <- <-]. apply IH in Hwild as (ps & vs0 & ([[ps1 vs1] v1] & Hin & Ht)%list_elem_of_omap & Hm).
    destruct ps1 as [|[s|n|] ps1]; simpl in Ht; try done. simplify_eq. exists (Wild n :: ps), vs1.
    split; [done|]. simpl. by rewrite Hs. }
  all: intros ([[ps1 vs1] v1] & Hin & Ht)%head_Some_elem_of%list_elem_of_omap;
    destruct ps1 as [|[s|n|] ps1]; simpl in Ht; try done; simplify_eq; by exists (Multi :: ps1), vs.
Qed.

Lemma Match_sound {V : Type} (method path : string) (table : list (string * V))
    (vs : list (string * string)) (v : V) :
  Match method path table = Some (vs, v) → ∃ p, (p, v) ∈ table ∧ pattern_serves p method path.
Proof.
  assert (H : ∀ m, matchPath (segments path) (for_method m table) = Some (vs, v) →
    ∃ p, (p, v) ∈ table ∧ (parse_pattern p).1 = m ∧ matches (parse_pattern p).2 (segments path) = true).
  { intros m (ps & vs0 & ([p v'] & Hin & Ht)%list_elem_of_omap & Hm)%matchPath_sound.
    destruct (parse_pattern p) as [m' ps'] eqn:Hp.
    destruct (String.eqb_spec m' m) as [->|]; simplify_eq. exists p. by rewrite Hp. }
  unfold Match, pattern_serves. destruct (matchPath _ (for_method method table)) as [[vs' v']|] eqn:H1.
  { intros [= -> ->]. apply H in H1 as (p & Hin & <- & Hm). exists p. set_solver. }
  destruct (String.eqb_spec method "HEAD") as [->|].
  - destruct (matchPath _ (for_method "GET" table)) as [[vs' v']|] eqn:H2.
    { intros [= -> ->]. apply H in H2 as (p & Hin & Hg & Hm). exists p. rewrite Hg. set_solver. }
    intros (p & Hin & Hg & Hm)%H. exists p. rewrite Hg. set_solver.
  - intros (p & Hin & Hg & Hm)%H. exists p. rewrite Hg. set_solver.
Qed.

(** ** The table serves what is documented *)

(** What the cross-site check has established about a request it lets through. *)
Definition csrf_ok `{NetEnv} (isDev : bool) (r : Request) : Prop :=
  isMutationMethod (r_Method r) = false ∨ isUsingBearerAuth r = true ∨ isCSRFExemptPath (r_Path r) = true ∨
  readAccessToken r = "" ∨
  csrf_proof r ∧ (header r "Origin" = "" ∨ isValidOrigin r (header r "Origin") (requestScheme isDev r) = true).

Section served.
Context `{E : Env} `{N : NetEnv} {A : Type}.
Variable isDev : bool.
Variable secret : string.
Variable EscapedPath : Request → string.
Variable redirectStatus : Z.
Variable range : nat → gmap string (list Z) → list (string * list Z).
Variable I : handler → HandlerFunc A.
Hypothesis range_perm : ∀ i m, range i m ≡ₚ map_to_list m.

Lemma routes_gated : Forall2 (λ row doc,
  row.1 = doc.1.1 ∧ gated secret redirectStatus doc.2 row.2 (I doc.1.2)) (routes secret range I) documented.
Proof.
  unfold routes, documented.
  repeat (apply Forall2_cons_2; [split; [done|]; cbn [fst snd]; auto with veyport|]). apply Forall2_nil_2.
Qed.

Lemma setHeader_passes {B : Type} (key value : string) (k : unit → M B) (P : result B * World → Prop)
    (w0 w : World) :
  (∀ w', quiet w0 w' → P (k tt w')) → quiet w0 w → P (bind (setHeader key value) k w).
Proof.
  intros Hk Hq. apply (Hk (w <| w_header ::= <[key := value]> |>)).
  eapply quiet_trans; [exact Hq|]. apply quiet_header.
Qed.

(** Runs the header settings of a middleware. *)
Ltac set_headers := repeat (eapply setHeader_passes; [|eassumption]; let w := fresh "w" in intros w ?).

Lemma securityHeaders_passes (next : HandlerFunc A) (r : Request) (ctx : Ctx) (w0 w : World) :
  quiet w0 w → ∃ w', securityHeaders next r ctx w = next r ctx w' ∧ quiet w0 w'.
Proof.
  intros Hq. set (P := λ res, ∃ w', res = next r ctx w' ∧ quiet w0 w').
  change (P (securityHeaders next r ctx w)). unfold securityHeaders. set_headers.
  destruct (_ || _); cbn iota; [set_headers|]; by eexists.
Qed.

Lemma apiCacheControl_passes (next : HandlerFunc A) (r : Request) (ctx : Ctx) (w0 w : World) :
  quiet w0 w → ∃ w', apiCacheControl next r ctx w = next r ctx w' ∧ quiet w0 w'.
Proof.
  intros Hq. set (P := λ res, ∃ w', res = next r ctx w' ∧ quiet w0 w').
  change (P (apiCacheControl next r ctx w)). unfold apiCacheControl.
  destruct (HasPrefix _ _); [|by eexists].
  change (P (bind (setHeader "Cache-Control" "no-store, no-cache, must-revalidate")
    (λ _, bind (setHeader "Pragma" "no-cache") (λ _, next r ctx)) w)).
  set_headers. by eexists.
Qed.

Lemma requestID_passes (next : HandlerFunc A) (r : Request) (ctx : Ctx) (w0 w : World) :
  quiet w0 w → ∃ ctx' w', requestIDMiddleware next r ctx w = next r ctx' w' ∧ quiet w0 w'.
Proof.
  intros Hq. set (P := λ res, ∃ ctx' w', res = next r ctx' w' ∧ quiet w0 w').
  change (P (requestIDMiddleware next r ctx w)). unfold requestIDMiddleware, request_id.
  destruct (negb _).
  - assert (Hd : quiet w0 (w <| w_draws ::= S |>)).
    { eapply quiet_trans; [exact Hq|]. split; [|done].
      exists (w_limiters w), (w_header w), (S (w_draws w)). by destruct w. }
    apply (setHeader_passes "X-Request-ID" (uuid (w_draws w))
      (λ _, next r (ctx <| RequestIDFromContext := uuid (w_draws w) |>)) P w0); [|exact Hd].
    intros w' Hq'. by do 2 eexists.
  - apply (setHeader_passes "X-Request-ID" (header r "X-Request-ID")
      (λ _, next r (ctx <| RequestIDFromContext := header r "X-Request-ID" |>)) P w0); [|exact Hq].
    intros w' Hq'. by do 2 eexists.
Qed.

Lemma cors_passes (next : HandlerFunc A) (r : Request) (ctx : Ctx) (w0 w : World) :
  quiet w0 w → ∃ w', quiet w0 w' ∧ (corsMiddleware isDev next r ctx w = (Ok (RespondError 204 ""), w') ∨
    corsMiddleware isDev next r ctx w = next r ctx w').
Proof.
  intros Hq. set (P := λ res, ∃ w', quiet w0 w' ∧ (res = (Ok (RespondError 204 ""), w') ∨ res = next r ctx w')).
  change (P (corsMiddleware isDev next r ctx w)). unfold corsMiddleware.
  destruct isDev; [|exists w; auto]. set_headers.
  destruct (String.eqb (r_Method r) "OPTIONS"); eexists; (split; [|(by left) || (by right)]); done.
Qed.

Lemma csrf_passes (next : HandlerFunc A) (r : Request) (ctx : Ctx) (w : World) :
  (∃ msg, csrfMiddleware isDev next r ctx w = (Ok (RespondError 403 msg), w)) ∨
  csrfMiddleware isDev next r ctx w = next r ctx w ∧ csrf_ok isDev r.
Proof.
  unfold csrfMiddleware, csrf_ok.
  destruct (isMutationMethod (r_Method r)); [|right; split; [done|auto]].
  destruct (isUsingBearerAuth r); [right; split; [done|auto]|].
  destruct (isCSRFExemptPath (r_Path r)); [right; split; [done|auto]|]. cbn [negb orb].
  destruct (negb _ && negb _) eqn:Ho; [left; by eexists|].
  destruct (String.eqb (readCSRFCookie r) "" && _) eqn:Hc; [bool_hyps; right; split; [done|auto 6]|].
  destruct (csrfTokensMatch r) eqn:Hm; [|left; by eexists]. apply csrfTokensMatch_iff in Hm.
  right. split; [done|]. do 4 right. split; [done|].
  apply andb_false_iff in Ho as [Ho|Ho]; bool_hyps; auto.
Qed.

Lemma mux_cases (r : Request) (ctx : Ctx) (w : World) :
  limiters_ok w → clientIP r ≠ "" →
  turned_away redirectStatus w (mux secret EscapedPath redirectStatus range I r ctx w) ∨
  ∃ p h a values ctx' w', (p, h, a) ∈ documented ∧ pattern_serves p (r_Method r) (EscapedPath r) ∧
    mux secret EscapedPath redirectStatus range I r ctx w = I h (r <| PathValue := values |>) ctx' w' ∧
    bystander w w' ∧ entitled a secret (readAccessToken r) w ctx'.
Proof.
  intros Hl Hip. unfold mux. cbv zeta.
  match goal with |- context [negb (String.eqb ?p (EscapedPath r))] => destruct (String.eqb_spec p (EscapedPath r)) as [->|] end;
    cbn [negb]; [|left; apply turned_away_intro; [set_solver|apply bystander_refl]].
  destruct (Match _ _ _) as [[vs next]|] eqn:Hm; [|left; apply turned_away_intro; [set_solver|apply bystander_refl]].
  apply Match_sound in Hm as (p & Hin & Hp).
  apply list_elem_of_lookup in Hin as [i Hi].
  destruct (Forall2_lookup_l _ _ _ _ _ routes_gated Hi) as ([[p' h] a] & Hd & Heq & Hg). simpl in *. subst p'.
  match goal with |- context [next ?x ctx w] => set (r' := x) end.
  destruct (Hg r' ctx w Hl Hip) as [Ht|(ctx' & w' & He & Hw & Hent)]; [by left|right].
  exists p, h, a, (PathValue r'), ctx', w'. split_and!; [by eapply list_elem_of_lookup_2|done|by rewrite He|done|done].
Qed.

Lemma ServeHTTP_cases (r : Request) (w : World) :
  limiters_ok w → clientIP r ≠ "" →
  let res := ServeHTTP isDev secret EscapedPath redirectStatus range I r w in
  turned_away redirectStatus w res ∨
  ∃ p h a values ctx w', (p, h, a) ∈ documented ∧ pattern_serves p (r_Method r) (EscapedPath r) ∧
    res = I h (r <| PathValue := values |>) ctx w' ∧ bystander w w' ∧
    entitled a secret (readAccessToken r) w ctx ∧ csrf_ok isDev r.
Proof.
  intros Hl Hip res. unfold res, ServeHTTP. set (w0 := w <| w_header := ∅ |>).
  assert (Q0 : quiet w w0) by apply quiet_header.
  edestruct securityHeaders_passes as (w1 & -> & Q1); [exact Q0|].
  edestruct apiCacheControl_passes as (w2 & -> & Q2); [exact Q1|].
  edestruct cors_passes as (w3 & Q & Hcors); [exact Q2|].
  destruct Hcors as [-> | ->]; [left; apply turned_away_intro; [set_solver|auto with veyport]|].
  edestruct csrf_passes as [[msg ->]|[-> Hcsrf]].
  { left. apply turned_away_intro; [set_solver|auto with veyport]. }
  edestruct requestID_passes as (ctx & w4 & -> & Q'); [exact Q|].
  destruct (mux_cases r ctx w4 (proj2 Q' Hl) Hip) as [Ht|(p & h & a & values & ctx' & w' & H1 & H2 & H3 & H4 & H5)].
  - left. apply (turned_away_by _ w w4); auto with veyport.
  - right. exists p, h, a, values, ctx', w'. split_and!; [done|done|done| |by eapply entitled_quiet|done].
    by eapply bystander_trans; [apply quiet_bystander|].
Qed.
End served.

(** ** The paths exempt from the cross-site check *)

(** [r.URL]: the escaped path starts with a slash and unescapes to the path. *)
Definition url_ok (EscapedPath : Request → string) (r : Request) : Prop :=
  ∃ s, EscapedPath r = String "/" s ∧ path_unescape (EscapedPath r) = Some (r_Path r).

(** The text of a pattern up to its first wildcard, and whether it has none. *)
Fixpoint lit_prefix (ps : list segment) : string :=
  match ps with
  | [Lit s] => s
  | Lit s :: ps' => s +:+ "/" +:+ lit_prefix ps'
  | _ => ""
  end.
Definition is_lit (s : segment) : bool := match s with Lit _ => true | _ => false end.
Definition could_serve (p path : string) : bool :=
  let ps := (parse_pattern p).2 in
  if forallb is_lit ps then String.eqb ("/" +:+ lit_prefix ps) path
  else HasPrefix path ("/" +:+ lit_prefix ps).

Lemma Join_cons (sep u : string) (a : ascii) (l : list string) :
  Join sep (String a u :: l) = String a (Join sep (u :: l)).
Proof. by destruct l. Qed.

(** Unescaping does not cross a slash. *)
Definition splits (s p : string) : Prop :=
  Forall (λ x, is_Some (path_unescape x)) (Split "/" s) ∧ p = Join "/" (map pathUnescape (Split "/" s)).

Lemma splits_cons (esc s p : string) (c : ascii) :
  (∀ w, path_unescape (esc +:+ w) = String c <$> path_unescape w) →
  (∀ w ws, Split "/" s = w :: ws → Split "/" (esc +:+ s) = (esc +:+ w) :: ws) →
  splits s p → splits (esc +:+ s) (String c p).
Proof.
  intros Hu Hs [Hall ->]. unfold splits.
  destruct (Split "/" s) as [|w ws] eqn:E; [by destruct (Split_ne "/" s)|].
  rewrite (Hs w ws eq_refl). apply Forall_cons in Hall as [[u Hw] Hall].
  unfold pathUnescape. cbn [map]. rewrite !Hu, Hw. simpl default. split.
  - constructor; [rewrite Hu, Hw; by eexists|done].
  - by rewrite Join_cons.
Qed.

Lemma hex_val_slash (a : ascii) (x : Z) : Secrets.hex_val a = Some x → Ascii.eqb a "/" = false.
Proof. by destruct (Ascii.eqb_spec a "/") as [->|]. Qed.

Lemma path_unescape_splits (n : nat) (s p : string) :
  (String.length s <= n)%nat → path_unescape s = Some p → splits s p.
Proof.
  revert s p. induction n as [|n IH]; intros s p Hn.
  { destruct s; [|simpl in Hn; lia]. intros [= <-]. split; [by repeat constructor|done]. }
  destruct s as [|c s]; [intros [= <-]; split; [by repeat constructor|done]|]. simpl in Hn.
  cbn [path_unescape]. destruct (Ascii.eqb_spec c "%") as [->|Hc].
  - destruct s as [|a [|b s]]; [done|done|].
    destruct (Secrets.hex_val a) as [x|] eqn:Ha; [|done]. destruct (Secrets.hex_val b) as [y|] eqn:Hb; [|done].
    intros (p' & Hp & ->)%fmap_Some. simpl in Hn.
    apply (splits_cons (String "%" (String a (String b ""))) s p'); [| |apply IH; [lia|done]].
    + intros w. simpl. by rewrite Ha, Hb.
    + intros w ws Hw. simpl. by rewrite (hex_val_slash a x Ha), (hex_val_slash b y Hb), Hw.
  - intros (p' & Hp & ->)%fmap_Some. apply IH in Hp; [|lia].
    destruct (Ascii.eqb_spec c "/") as [->|Hs].
    + destruct Hp as [Hall ->]. split; simpl; [by constructor|].
      destruct (Split "/" s) eqn:E; [by destruct (Split_ne "/" s)|done].
    + apply (splits_cons (String c "") s p'); [| |done].
      * intros w. simpl. by destruct (Ascii.eqb_spec c "%").
      * intros w ws Hw. simpl. rewrite Hw. by destruct (Ascii.eqb_spec c "/").
Qed.

Definition no_slash_lit (ps : list segment) : bool :=
  forallb (λ s, match s with Lit l => negb (String.eqb l "/") | _ => true end) ps.

Lemma HasPrefix_app (u s pre : string) : HasPrefix s pre = true → HasPrefix (u +:+ s) (u +:+ pre) = true.
Proof. intros H. induction u as [|a u IH]; [done|]. simpl. by destruct (ascii_dec a a). Qed.

Lemma HasPrefix_nil (s : string) : HasPrefix s "" = true.
Proof. by destruct s. Qed.

Lemma HasPrefix_refl (s : string) : HasPrefix s s = true.
Proof. induction s as [|a s IH]; [done|]. unfold HasPrefix in *. simpl. by destruct (ascii_dec a a). Qed.

Lemma matches_literal (L : list string) (ps : list segment) :
  L ≠ [] → no_slash_lit ps = true → matches ps (mark_trailing L) = true →
  HasPrefix (Join "/" (map pathUnescape L)) (lit_prefix ps) = true ∧
  (forallb is_lit ps = true → Join "/" (map pathUnescape L) = lit_prefix ps).
Proof.
  revert ps. induction L as [|x L IH]; intros ps Hne Hns Hm; [done|].
  destruct L as [|y L].
  - destruct ps as [|[s|n|] ps]; simpl in Hm, Hns; try done;
      try (split; [apply HasPrefix_nil|done]).
    bool_hyps. destruct ps as [|[] ps]; try done. destruct (String.eqb_spec x "") as [->|]; [congruence|].
    subst s. simpl. split; [|done]. apply HasPrefix_refl.
  - change (mark_trailing (x :: y :: L)) with (pathUnescape x :: mark_trailing (y :: L)) in Hm.
    destruct ps as [|[s|n|] ps]; cbn [matches] in Hm; try done;
      try (split; [apply HasPrefix_nil|done]).
    bool_hyps. subst s. simpl in Hns. bool_hyps.
    destruct (IH ps ltac:(done)) as [Hpre Hfull]; [done|done|].
    destruct ps as [|s' ps]; [by destruct L|].
    change (Join "/" (map pathUnescape (x :: y :: L))) with
      (pathUnescape x +:+ "/" +:+ Join "/" (map pathUnescape (y :: L))).
    change (lit_prefix (Lit ?u :: ?a :: ?l)) with (u +:+ "/" +:+ lit_prefix (a :: l)).
    split; [by do 2 apply HasPrefix_app|]. intros Hl. by rewrite Hfull.
Qed.

Lemma served_could (EscapedPath : Request → string) (p : string) (r : Request) (method : string) :
  url_ok EscapedPath r → no_slash_lit (parse_pattern p).2 = true →
  pattern_serves p method (EscapedPath r) → could_serve p (r_Path r) = true.
Proof.
  intros (s & Hs & Hu) Hns [_ Hm]. rewrite Hs in Hu, Hm. cbn [path_unescape Ascii.eqb] in Hu.
  apply fmap_Some in Hu as (p' & Hp & ->). apply (path_unescape_splits _ _ _ (le_n _)) in Hp as [_ ->].
  change (segments (String "/" s)) with (mark_trailing (Split "/" s)) in Hm.
  destruct (matches_literal _ _ (Split_ne "/" s) Hns Hm) as [H1 H2].
  unfold could_serve. cbv zeta. destruct (forallb is_lit _).
  - apply String.eqb_eq. by rewrite (H2 eq_refl).
  - by apply (HasPrefix_app "/").
Qed.

Lemma exempt_public (EscapedPath : Request → string) (p method : string) (h : handler) (a : audience) (r : Request) :
  url_ok EscapedPath r → (p, h, a) ∈ documented → pattern_serves p method (EscapedPath r) →
  isCSRFExemptPath (r_Path r) = true → a = Public.
Proof.
  intros Hu Hd Hp He.
  assert (Hall : forallb (λ d, no_slash_lit (parse_pattern d.1.1).2 &&
    match d.2 with Public => true | _ => forallb (λ e, negb (could_serve d.1.1 e)) csrfExemptPaths end)
    documented = true) by by vm_compute.
  rewrite forallb_forall in Hall. specialize (Hall (p, h, a) ltac:(by apply list_elem_of_In)). cbn [fst snd] in Hall.
  bool_hyps. apply (served_could _ p r method Hu) in Hp; [|done].
  unfold isCSRFExemptPath in He. apply existsb_exists in He as (e & Hin & <-%String.eqb_eq).
  destruct a; [done|..]; exfalso;
    match goal with H : forallb _ _ = true |- _ => rewrite forallb_forall in H; specialize (H _ Hin); by rewrite Hp in H end.
Qed.

(** ** The order of registration *)

Inductive shape := SLit (s : string) | SWild | SMulti.
#[export] Instance shape_eq_dec : EqDecision shape.
Proof. solve_decision. Defined.
Definition shape_of (s : segment) : shape :=
  match s with Lit l => SLit l | Wild _ => SWild | Multi => SMulti end.

Section order.
Context {V : Type}.
Notation candidate := (list segment * list (string * string) * V)%type.
Implicit Types (cs : list candidate).

Definition shapes cs : list (list shape) := map (λ c, map shape_of c.1.1) cs.
(** The rest of the path is only matched at the end of a pattern. *)
Fixpoint multi_last (ps : list segment) : bool :=
  match ps with [] => true | [_] => true | Multi :: _ => false | _ :: ps' => multi_last ps' end.
Definition distinct cs : Prop := NoDup (shapes cs) ∧ Forall (λ c, multi_last c.1.1 = true) cs.

Lemma distinct_perm cs cs' : cs ≡ₚ cs' → distinct cs → distinct cs'.
Proof. intros Hp [H1 H2]. split; [unfold shapes; by rewrite <- Hp|by rewrite <- Hp]. Qed.

Lemma distinct_cons c cs : distinct (c :: cs) → distinct cs.
Proof. intros [[_ H1]%NoDup_cons [_ H2]%Forall_cons]. done. Qed.

Lemma multi_last_tail (s : segment) (ps : list segment) : multi_last (s :: ps) = true → multi_last ps = true.
Proof. destruct ps; [done|]. by destruct s. Qed.

(** A step that strips the same shape from the candidates it keeps. *)
Lemma distinct_omap (f : candidate → option candidate) (sh : shape) cs :
  (∀ c c', f c = Some c' → ∃ s, c.1.1 = s :: c'.1.1 ∧ shape_of s = sh) → distinct cs → distinct (omap f cs).
Proof.
  intros Hf. induction cs as [|c cs IH]; intros Hd; simpl; [done|].
  specialize (IH (distinct_cons _ _ Hd)). destruct (f c) as [c'|] eqn:Hc; [|done].
  destruct Hd as [[Hn _]%NoDup_cons [Hm _]%Forall_cons], IH as [I1 I2].
  destruct (Hf c c' Hc) as (s & Hs & Hsh). split; simpl.
  - constructor; [|done]. intros (d' & Hd & (d & Hin & Hfd)%list_elem_of_omap)%list_elem_of_fmap.
    apply Hn. apply list_elem_of_fmap. exists d. split; [|done].
    destruct (Hf d d' Hfd) as (s' & Hs' & Hsh'). rewrite Hs, Hs'. simpl. congruence.
  - constructor; [|done]. rewrite Hs in Hm. by eapply multi_last_tail.
Qed.

(** At most one candidate ends here, and at most one takes the rest of the path. *)
Lemma at_most_one (f : candidate → option (list (string * string) * V)) (sh : list shape) cs :
  (∀ c r, c ∈ cs → f c = Some r → map shape_of c.1.1 = sh) → NoDup (shapes cs) →
  (length (omap f cs) <= 1)%nat.
Proof.
  induction cs as [|c cs IH]; intros Hf Hn; simpl; [lia|]. apply NoDup_cons in Hn as [Hc Hn].
  destruct (f c) as [r|] eqn:Hr; [|apply IH; [set_solver|done]].
  assert (Hno : ∀ r', r' ∉ omap f cs); [|apply elem_of_nil_inv in Hno; change (length (r :: omap f cs) <= 1)%nat; rewrite Hno; simpl; lia].
  intros r' (d & Hin & Hd)%list_elem_of_omap.
  apply Hc. apply list_elem_of_fmap. exists d. split; [|done].
  rewrite (Hf d r') by (done || by right). symmetry. rewrite (Hf c r) by (done || by left). done.
Qed.

Lemma head_perm {B : Type} (l l' : list B) : (length l <= 1)%nat → l ≡ₚ l' → head l = head l'.
Proof.
  intros Hl Hp. assert (Hlen := Permutation_length Hp). destruct l as [|x [|]]; simpl in *; [|..|lia].
  - by destruct l'.
  - destruct l' as [|y [|]]; simpl in *; [lia| |lia]. apply Permutation_singleton_inj in Hp. by subst.
Qed.

Lemma omap_perm {B C : Type} (f : B → option C) (l l' : list B) : l ≡ₚ l' → omap f l ≡ₚ omap f l'.
Proof.
  induction 1 as [|x l l' _ IH|x y l|l l' l'' _ IH1 _ IH2]; simpl; [done| | |by etrans].
  - destruct (f x); [by constructor|done].
  - destruct (f x), (f y); try done. constructor.
Qed.

Lemma matchPath_perm (segs : list string) cs cs' :
  distinct cs → cs ≡ₚ cs' → matchPath segs cs = matchPath segs cs'.
Proof.
  revert cs cs'. induction segs as [|seg segs IH]; intros cs cs' Hd Hp; simpl.
  - apply head_perm; [|by apply omap_perm]. apply (at_most_one take_end []); [|apply Hd].
    intros [[ps vs] v] r _. by destruct ps.
  - rewrite <- (IH (omap (take_lit seg) cs) (omap (take_lit seg) cs')); [| |by apply omap_perm].
    2:{ apply (distinct_omap _ (SLit seg)); [|done]. intros [[ps vs] v] c'. destruct ps as [|[s| |] ps]; simpl; try done.
        destruct (String.eqb_spec s seg) as [->|]; [|done]. intros [= <-]. by exists (Lit seg). }
    rewrite <- (IH (omap (take_wild seg) cs) (omap (take_wild seg) cs')); [| |by apply omap_perm].
    2:{ apply (distinct_omap _ SWild); [|done]. intros [[ps vs] v] c'. destruct ps as [|[|n|] ps]; simpl; try done.
        intros [= <-]. by exists (Wild n). }
    replace (head (omap take_multi cs')) with (head (omap take_multi cs)); [done|].
    apply head_perm; [|by apply omap_perm]. apply (at_most_one take_multi [SMulti]); [|apply Hd].
    intros [[ps vs] v] r Hin. destruct Hd as [_ Hd]. rewrite Forall_forall in Hd. specialize (Hd _ Hin).
    destruct ps as [|[| |] [|]]; simpl in *; try done.
Qed.
End order.

(** The rows of a method, without what they run. *)
Definition method_shapes (m : string) (ps : list string) : list (list segment) :=
  omap (λ p, let '(m', segs) := parse_pattern p in if String.eqb m' m then Some segs else None) ps.

Lemma for_method_patterns {V : Type} (m : string) (table : list (string * V)) :
  map (λ c, c.1.1) (for_method m table) = method_shapes m (map fst table).
Proof.
  induction table as [|[p v] table IH]; simpl; [done|]. destruct (parse_pattern p) as [m' ps].
  destruct (String.eqb m' m); simpl; by rewrite IH.
Qed.

Definition table_distinct (m : string) (ps : list string) : bool :=
  bool_decide (NoDup (map (map shape_of) (method_shapes m ps))) && forallb multi_last (method_shapes m ps).

Lemma table_distinct_ok {V : Type} (m : string) (table : list (string * V)) :
  table_distinct m (map fst table) = true → distinct (for_method m table).
Proof.
  unfold table_distinct, distinct, shapes. rewrite <- for_method_patterns. intros H. bool_hyps. split.
  - rewrite map_map in *. by apply bool_decide_eq_true in H.
  - apply Forall_forall. intros c Hc. rewrite forallb_forall in *.
    match goal with H : ∀ x, _ |- _ => apply H end. apply list_elem_of_In, list_elem_of_fmap. by exists c.
Qed.

Definition methods : list string := ["GET"; "POST"; "PUT"; "DELETE"; ""].

Lemma other_method {V : Type} (m : string) (table : list (string * V)) (cs : list string) :
  Forall (λ row, (parse_pattern row.1).1 ∈ cs) table → m ∉ cs → for_method m table = [].
Proof.
  intros Hall Hm. induction Hall as [|[p v] table Hp _ IH]; simpl; [done|]. simpl in Hp.
  destruct (parse_pattern p) as [m' ps]. destruct (String.eqb_spec m' m) as [->|]; [by destruct Hm|done].
Qed.

(** ** What the hub serves *)

Section claims.
Context `{E : Env} `{N : NetEnv} {A : Type}.
Variable isDev : bool.
Variable secret : string.
Variable EscapedPath : Request → string.
Variable redirectStatus : Z.
Variable range : nat → gmap string (list Z) → list (string * list Z).
Variable I : handler → HandlerFunc A.
#[local] Notation ServeHTTP := (ServeHTTP isDev secret EscapedPath redirectStatus range I).

(** C6: The whole hub serves what its API reference documents.  Every request, with whatever
    method, path, headers and cookies, is either turned away (redirected to a clean path, refused
    by the cross-site check, a limiter or a gate), and then nothing of the hub changed but counters,
    cached revocations and the time an API token was used; or it runs the handler of a documented
    pattern that names its method and matches its path, and the caller has proved what the reference
    demands there: nothing, a setup token, a session or API token, an interactive session, the role
    admin or auditor, or the right to open terminals. *)
Theorem requests_served_as_documented (Hrange : ∀ i m, range i m ≡ₚ map_to_list m) (r : Request) (w : World)
    (Hlimiters : limiters_ok w) (Hip : clientIP r ≠ "") :
  turned_away redirectStatus w (ServeHTTP r w) ∨
  ∃ p h a values ctx w', (p, h, a) ∈ documented ∧ pattern_serves p (r_Method r) (EscapedPath r) ∧
    ServeHTTP r w = I h (r <| PathValue := values |>) ctx w' ∧ bystander w w' ∧
    entitled a secret (readAccessToken r) w ctx.
Proof.
  destruct (ServeHTTP_cases isDev secret EscapedPath redirectStatus range I Hrange r w Hlimiters Hip)
    as [Ht|(p & h & a & values & ctx & w' & H1 & H2 & H3 & H4 & H5 & _)]; [by left|right].
  by exists p, h, a, values, ctx, w'.
Qed.

(** C7: No state-changing request rides on a browser's cookies unchecked.  When such a request
    carries no bearer header, every handler behind a gate that it reaches was reached with the CSRF
    cookie repeated in the header and, if the browser named an origin, from the hub's own; the paths
    exempt from the check, compared unescaped, lead to no route behind a gate, however the path is
    escaped. *)
Theorem cookie_mutations_checked (Hrange : ∀ i m, range i m ≡ₚ map_to_list m) (r : Request) (w : World)
    (Hlimiters : limiters_ok w) (Hip : clientIP r ≠ "") (Hurl : url_ok EscapedPath r)
    (Hmut : isMutationMethod (r_Method r) = true) (Hbearer : isUsingBearerAuth r = false) :
  turned_away redirectStatus w (ServeHTTP r w) ∨
  ∃ p h a values ctx w', (p, h, a) ∈ documented ∧
    ServeHTTP r w = I h (r <| PathValue := values |>) ctx w' ∧ bystander w w' ∧
    (a = Public ∨
     csrf_proof r ∧ (header r "Origin" = "" ∨
                     isValidOrigin r (header r "Origin") (requestScheme isDev r) = true)).
Proof.
  destruct (ServeHTTP_cases isDev secret EscapedPath redirectStatus range I Hrange r w Hlimiters Hip)
    as [Ht|(p & h & a & values & ctx & w' & H1 & H2 & H3 & H4 & H5 & H6)]; [by left|right].
  exists p, h, a, values, ctx, w'. split_and!; [done|done|done|].
  destruct H6 as [H6|[H6|[H6|[H6|H6]]]]; [congruence|congruence| | |by right].
  - left. by eapply exempt_public.
  - left. destruct a; [done|..]; simpl in H5; naive_solver.
Qed.

(** The order of the registrations does not matter: any table with the same rows matches every
    request with the same row and the same path values, because literal segments are tried before
    wildcards and no two rows of a method have the same shape. *)
Theorem registration_order_irrelevant (table : list (string * HandlerFunc A)) (method path : string)
    (Htable : table ≡ₚ routes secret range I) :
  Match method path table = Match method path (routes secret range I).
Proof.
  assert (Hm : ∀ m, matchPath (segments path) (for_method m table) =
                    matchPath (segments path) (for_method m (routes secret range I))).
  { intros m. symmetry. apply matchPath_perm; [|by apply omap_perm; symmetry].
    destruct (decide (m ∈ methods)) as [Hin|Hout].
    - apply table_distinct_ok. change (map fst _) with (map (λ d, d.1.1) documented).
      assert (Hall : forallb (λ m, table_distinct m (map (λ d, d.1.1) documented)) methods = true) by by vm_compute.
      rewrite forallb_forall in Hall. by apply Hall, list_elem_of_In.
    - rewrite (other_method m _ methods); [by split; constructor| |done].
      apply Forall_forall. intros [p v] Hp.
      assert (p ∈ map (λ d, d.1.1) documented) as Hd.
      { change (p ∈ map fst (routes secret range I)). apply list_elem_of_fmap. by exists (p, v). }
      assert (Hall : forallb (λ p, bool_decide ((parse_pattern p).1 ∈ methods)) (map (λ d, d.1.1) documented) = true)
        by by vm_compute.
      rewrite forallb_forall in Hall. apply list_elem_of_In in Hd. specialize (Hall p Hd).
      by apply bool_decide_eq_true in Hall. }
  unfold Match. by rewrite !Hm.
Qed.
End claims.

(** ** Concrete requests *)

Section witnesses.
#[local] Existing Instance demoEnv.
#[local] Existing Instance demo_net.

Definition ranged (_ : nat) (m : gmap string (list Z)) : list (string * list Z) := map_to_list m.
Lemma ranged_perm (i : nat) (m : gmap string (list Z)) : ranged i m ≡ₚ map_to_list m.
Proof. done. Qed.

(** The user list as the hub computes it; the other handlers answer with an empty list. *)
Definition demo_handlers (h : handler) : HandlerFunc (list User) :=
  match h with
  | handleListUsers => UserHandlers.handleListUsers
  | _ => λ _ _, ret (RespondJSON 200 [])
  end.
Definition demo_served : World := AuthHandlers.demo_accounts <| w_limiters := new_limiters |>.
Definition demo_session : string :=
  AuthHandlers.token_of (let* p := GenerateTokenPair "s" "u1" RoleAdmin 4 in ret p.1).
Definition demo_get (token : string) : Request :=
  MkRequest "GET" "/api/users" "hub.example" "10.0.0.1:4242" true (λ _, "") (λ _, "")
    (λ h, if String.eqb h "Authorization" then "Bearer " +:+ token else "") (λ _, None).
Definition demo_post (csrf : string) : Request :=
  MkRequest "POST" "/api/servers" "hub.example" "10.0.0.1:4242" true (λ _, "") (λ _, "")
    (λ h, if String.eqb h "X-CSRF-Token" then csrf else "")
    (λ c, if String.eqb c cookieAccess then Some demo_session
          else if String.eqb c cookieCSRF then Some "secret" else None).

Lemma demo_limiters : limiters_ok demo_served.
Proof.
  split.
  - intros l Hl. repeat (apply elem_of_cons in Hl as [->|Hl]; [vm_compute; by eexists|]). by apply elem_of_nil in Hl.
  - cbn [demo_served w_limiters new_limiters list_to_map foldr fst snd].
    repeat (apply map_Forall_insert_2; [by split|]). apply map_Forall_empty.
Qed.

Lemma requests_served_as_documented_witness :
  ∃ p h a values ctx w', (p, h, a) ∈ documented ∧ pattern_serves p "GET" "/api/users" ∧
    ServeHTTP false "s" r_Path 307 ranged demo_handlers (demo_get demo_session) demo_served =
      demo_handlers h (demo_get demo_session <| PathValue := values |>) ctx w' ∧
    bystander demo_served w' ∧ entitled a "s" demo_session demo_served ctx.
Proof.
  destruct (requests_served_as_documented false "s" r_Path 307 ranged demo_handlers ranged_perm
    (demo_get demo_session) demo_served demo_limiters ltac:(done)) as [(st & msg & H & _)|H]; [by vm_compute in H|].
  exact H.
Defined.

Example users_listed : fst <$> (match (ServeHTTP false "s" r_Path 307 ranged demo_handlers
    (demo_get demo_session) demo_served).1 with Ok (RespondJSON 200 us) => Some (length us, us) | _ => None end) = Some 2%nat.
Proof. by vm_compute. Qed.

Example guess_turned_away : (ServeHTTP false "s" r_Path 307 ranged demo_handlers (demo_get "guess") demo_served).1 =
  Ok (RespondError 401 "invalid token").
Proof. by vm_compute. Qed.

Lemma cookie_mutations_checked_witness :
  ∃ p h a values ctx w', (p, h, a) ∈ documented ∧
    ServeHTTP false "s" r_Path 307 ranged demo_handlers (demo_post "secret") demo_served =
      demo_handlers h (demo_post "secret" <| PathValue := values |>) ctx w' ∧ bystander demo_served w' ∧
    (a = Public ∨ csrf_proof (demo_post "secret") ∧ (header (demo_post "secret") "Origin" = "" ∨
       isValidOrigin (demo_post "secret") (header (demo_post "secret") "Origin")
         (requestScheme false (demo_post "secret")) = true)).
Proof.
  assert (Hu : url_ok r_Path (demo_post "secret")) by by eexists.
  destruct (cookie_mutations_checked false "s" r_Path 307 ranged demo_handlers ranged_perm (demo_post "secret")
    demo_served demo_limiters ltac:(done) Hu eq_refl eq_refl) as [(st & msg & H & _)|H]; [by vm_compute in H|].
  exact H.
Defined.

Example forged_post_refused :
  (ServeHTTP false "s" r_Path 307 ranged demo_handlers (demo_post "guess") demo_served).1 =
  Ok (RespondError 403 "CSRF validation failed").
Proof. by vm_compute. Qed.

Lemma registration_order_irrelevant_witness :
  Match "POST" "/api/servers/batch-delete" (rev (routes "s" ranged demo_handlers)) =
  Match "POST" "/api/servers/batch-delete" (routes "s" ranged demo_handlers).
Proof. apply (registration_order_irrelevant "s" ranged demo_handlers). apply Permutation_sym, Permutation_rev. Defined.
End witnesses.
