(* ===== verification/WebServer.v ===== *)
(** * The hub's web server (hub/internal/server/server.go): its construction, the observers it gives
    the audit log, and the pages of the frontend.

    The frontend is files embedded by the build: [sub_open] tells which paths of web/dist open, and
    [index_html] is the index, if it is there. *)

From S2P Require Import Prelude GoStr GoTime Model Proto Db Demo StoreConfig StoreUsers StoreAudit StoreTokens.
From S2P Require Import Auth AgentHandler Http Secrets Ldap AuthHandlers Notifier NotificationHandlers.
From S2P Require RateLimiter Router.

(** ** New *)

Record Config := MkConfig {
  cf_Addr : string;
  cf_JWTSecret : string;
  cf_IsDev : bool;
  cf_AgentBinDir : string;
  cf_GRPCAddr : string;
  cf_GRPCExternalAddr : string;
  cf_GRPCCACertSHA256 : string;
  cf_Notifier : bool
}.

(** The limits of [http.Server], in nanoseconds and bytes. *)
Record HttpServer := MkHttpServer {
  hs_Addr : string;
  ReadTimeout : Z; ReadHeaderTimeout : Z; WriteTimeout : Z; IdleTimeout : Z; MaxHeaderBytes : Z
}.

(** The fields that do not change; the maps of the server are in the world. *)
Record Server := MkServer { sv_config : Config; sv_http : HttpServer }.

Section server.
Context `{E : Env}.

(** store.go: both observers are set. *)
Definition SetAuditObservers : M unit := λ w, (Ok tt, w <| w_observers := (true, true) |>).

Definition installAuditObservers : M unit := SetAuditObservers.

(** [routes()] makes the limiters. *)
Definition New (cfg : Config) : M Server :=
  let* _ := (λ w, (Ok tt, w <| w_logTail := ∅ |> <| w_totp := ∅ |>)) in
  let* _ := NewTokenBlacklist in
  let* _ := installAuditObservers in
  let* _ := (λ w, (Ok tt, w <| w_limiters := Router.new_limiters |>)) in
  ret (MkServer cfg (MkHttpServer (cf_Addr cfg) (10 * Second) (5 * Second) (30 * Second) (60 * Second)
                       (2 ^ 20))).

Definition ClearTOTPCache : M unit := λ w, (Ok tt, w <| w_totp := ∅ |>).

(** The construction never fails; of the database it reads the revoked tokens. *)
Lemma scan_entries_total (rows : list (string * Z)) (w : World) :
  ∃ rs fs, scan_entries rows w = (Ok rs, w <| w_faults := fs |>).
Proof.
  revert w. induction rows as [|r rows IH]; intros w; simpl.
  - exists [], (w_faults w). unfold ret. f_equal. apply faults_self.
  - unfold bind, try, driver. destruct (w_faults w) as [|[e|] fs]; simpl.
    + destruct (IH w) as (rs & fs & ->). simpl. eauto.
    + destruct (IH (w <| w_faults := fs |>)) as (rs & fs' & H). unfold set_field in H |- *. rewrite H. simpl. eauto.
    + destruct (IH (w <| w_faults := fs |>)) as (rs & fs' & H). unfold set_field in H |- *. rewrite H. simpl. eauto.
Qed.

Lemma NewTokenBlacklist_total (w : World) :
  ∃ m fs, NewTokenBlacklist w = (Ok tt, w <| w_blacklist := m |> <| w_faults := fs |>).
Proof.
  unfold NewTokenBlacklist, loadFromDB, bind, try, driver. simpl.
  destruct (w_faults w) as [|[e|] fs] eqn:Hf; simpl.
  - match goal with |- context [scan_entries ?l ?v] => destruct (scan_entries_total l v) as (rs & fs & ->) end. simpl. eauto.
  - eauto.
  - match goal with |- context [scan_entries ?l ?v] => destruct (scan_entries_total l v) as (rs & fs' & ->) end. simpl. eauto.
Qed.

Lemma New_total (cfg : Config) (w : World) : ∃ s w', New cfg w = (Ok s, w') ∧ sv_config s = cfg ∧
  w_observers w' = (true, true) ∧ w_db w' = w_db w ∧ w_limiters w' = Router.new_limiters.
Proof.
  unfold New, bind at 1. unfold bind at 1.
  match goal with |- context [NewTokenBlacklist ?v] => destruct (NewTokenBlacklist_total v) as (m & fs & ->) end.
  do 2 eexists. by split.
Qed.
End server.

(** ** The audit observers *)

Section observers.
Context `{E : Env, C : Crypto}.
Context (jwtSecret : string).
Context (order1 order2 : list (string * string) → list (string * string)).

(** The function an observer is: without a notifier it does nothing. *)
Definition onAudit (hasNotifier failed : bool) (health : AuditHealth) (n : Notifier) : M Notifier :=
  if negb hasNotifier then ret n else
  let '(event, context) := audit_observer failed health in
  Notify_ jwtSecret order1 order2 event context n.

Fixpoint observe_all (hasNotifier : bool) (calls : list (bool * AuditHealth)) (n : Notifier) : M Notifier :=
  match calls with
  | [] => ret n
  | (failed, health) :: calls' =>
      let* n := onAudit hasNotifier failed health n in observe_all hasNotifier calls' n
  end.

(** [LogAudit] with the observers it calls, last of all: its result and the notifier. *)
Definition LogAudit_observed (hasNotifier : bool) (entry : AuditEntry) (n : Notifier)
  : M (result unit * Notifier) := λ w,
  let '(r, w1) := LogAudit entry w in
  (let* n := observe_all hasNotifier (drop (length (w_observed w)) (w_observed w1)) n in ret (r, n)) w1.
End observers.

(** ** Audit failures reach the inboxes *)

Section alerts.
Context `{E : Env, C : Crypto}.
Context (jwtSecret : string).
Context (order1 order2 : list (string * string) → list (string * string)).

(** The jobs of a notification: one for each recipient with an address. *)
Definition jobs_of (event subject body : string) (recipients : list (string * string)) : list emailJob :=
  map (λ r, MkJob r.2 r.1 event subject body)
    (List.filter (λ r, negb (String.eqb r.2 "")) recipients).

Lemma enqueue_all_room (event subject body : string) (rs : list (string * string)) (n : Notifier) :
  n_closed n = false → (length (n_queue n) + length (jobs_of event subject body rs) <= queueSize)%nat →
  enqueue_all event subject body rs n = Ret (n <| n_queue ::= λ q, q ++ jobs_of event subject body rs |>).
Proof.
  revert n. induction rs as [|[id email] rs IH]; intros n Hc Hl; cbn [enqueue_all].
  - unfold jobs_of. simpl. rewrite app_nil_r. by destruct n.
  - unfold jobs_of in *. cbn [List.filter snd] in *. destruct (String.eqb email ""); cbn [negb] in *; [by apply IH|].
    unfold enqueueJob. rewrite Hc. cbn [map length fst snd] in *.
    assert (Hlt : (length (n_queue n) <? queueSize)%nat = true) by (apply Nat.ltb_lt; lia).
    rewrite Hlt. cbn [obind]. rewrite IH; [|done|simpl; rewrite length_app; simpl; lia]. simpl.
    by rewrite <- app_assoc.
Qed.

(** E-mail is set up in the settings. *)
Definition mail_enabled (d : Db) : Prop :=
  truthy (default "" (d_config d !! "smtp_enabled")) = true ∧ default "" (d_config d !! "smtp_host") ≠ "".

Lemma enqueueNotification_ok (event : string) (context : list (string * string)) (n : Notifier) (w : World)
    (rs : list (string * string)) :
  no_faults w → mail_enabled (w_db w) → GetEnabledRecipients event w = (Ok rs, w) → n_closed n = false →
  let '(subject, body) := RenderEmail order1 order2 event context in
  (length (n_queue n) + length (jobs_of event subject body rs) <= queueSize)%nat →
  enqueueNotification jwtSecret order1 order2 event context n w =
    (Ok (n <| n_queue ::= λ q, q ++ jobs_of event subject body rs |>), w).
Proof.
  intros Hf [He Hh] Hrs Hc. destruct (RenderEmail _ _ _ _) as [subject body] eqn:Hm. intros Hl.
  unfold enqueueNotification, bind, try. rewrite LoadSMTPConfig_ok by done. cbn [Enabled Host]. rewrite He.
  apply String.eqb_neq in Hh. rewrite Hh. cbn [negb orb]. rewrite Hrs, Hm, enqueue_all_room by done. done.
Qed.

Definition audit_event (failed : bool) : string := if failed then NotifyAuditDegraded else NotifyAuditRecovered.

Lemma onAudit_ok (failed : bool) (h : AuditHealth) (n : Notifier) :
  onAudit jwtSecret order1 order2 true failed h n =
  enqueueNotification jwtSecret order1 order2 (audit_event failed) (audit_observer failed h).2 n.
Proof. by destruct failed. Qed.

End alerts.

(** ** spaHandler *)

Inductive page := Static (path : string) | Index (html : string).

Section spa.
Context (isDev embedded : bool) (sub_open : string → bool) (index_html : option string).

(** [None]: the panic of a production server whose index is missing.  A file that opens is served by
    the library's file server. *)
Definition spaHandler : option (HandlerFunc page) :=
  if isDev || negb embedded then
    Some (λ _ _, ret (RespondError 503 "frontend not embedded — run Vite dev server on :5173"))
  else match index_html with
  | None => None
  | Some indexHTML => Some (λ r _,
      match r_Path r with
      | "" => fail panicked
      | String _ path =>
          if sub_open path then ret (RespondJSON 200 (Static path)) else
          let* _ := Router.setHeader "Content-Type" "text/html; charset=utf-8" in
          ret (RespondJSON 200 (Index indexHTML))
      end)
  end.

(** In production every path below the root has an answer: a file, or the index for the client's own
    routes. *)
Lemma client_routes_served (h : HandlerFunc page) (r : Request) (ctx : Ctx) (w : World) (path html : string) :
  isDev = false → embedded = true → index_html = Some html → spaHandler = Some h → r_Path r = String "/" path →
  ∃ w', h r ctx w = (Ok (RespondJSON 200 (if sub_open path then Static path else Index html)), w') ∧ w_db w' = w_db w.
Proof.
  unfold spaHandler. intros -> -> -> [= <-] Hp. simpl. rewrite Hp. destruct (sub_open path); by eexists.
Qed.
End spa.

(** ** A concrete alert *)

Section witnesses.
#[local] Existing Instance demoEnv.
#[local] Existing Instance Secrets.demo_crypto.

(** Mail is set up, and the disk is full for one statement. *)
Definition demo_alert : World :=
  (let '(_, w) := New (MkConfig ":8080" "s" false "./bin" ":9090" "" "" true)
     (demo_world (empty_db <| d_users := [demo_account "u1" "ann" 4; demo_account "u2" "bob" 0] |>
        <| d_config := <["smtp_enabled" := "true"]> (<["smtp_host" := "mail"]> ∅) |>)) in w)
  <| w_faults := [Some "disk is full"] |>.
Definition demo_logged : AuditEntry := audit_entry "user.login" (Some "u1") None None None AuditActorTypeUser.

End witnesses.
