(* ===== verification/FileBrowser.v ===== *)
(** * The agent's file browser (agent/internal/filebrowser/filebrowser.go).

    The operating system is a class of answers: symbolic links, directories and files are whatever
    it says.  Logging and the buffer pool are left out. *)

From S2P Require Import Prelude GoStr GoTime Proto.
From S2P Require Ldap.

Record DirEntry := MkDirEntry {
  de_Name : string;
  de_IsDir : bool;
  de_Info : option (bool * bool * Z)      (* Info: regular, directory, size *)
}.
(** An open file: [Stat] (directory, size), [Seek] and [io.ReadFull] at an offset, which reads up to
    a limit. *)
Record Handle := MkHandle {
  h_Stat : option (bool * Z);
  h_Seek : Z → bool;
  h_ReadFull : Z → Z → option bytes
}.

Class Os := {
  EvalSymlinks : string → result string;
  ReadDir : string → result (list DirEntry);
  OpenFile : string → result Handle;
  Access_R_OK : string → bool;
  isRoot : bool
}.

Definition MaxReadSize : Z := 1048576.
Definition errCannotReadFile : string := "cannot read file".
Definition errPathRestricted : string := "access to this path is restricted".

Definition blockedPaths : list string :=
  ["/etc/shadow"; "/etc/gshadow"; "/etc/sudoers"; "/etc/sudoers.d"; "/etc/veyport"; "/root/.ssh";
   "/proc/self"; "/proc/kcore"; "/sys/firmware"].
Definition blockedPrefixes : list string := ["/proc/"; "/sys/kernel/"].

(** [p] is [dir] or, as text, starts with it and a slash. *)
Definition at_or_below (dir p : string) : bool := String.eqb p dir || HasPrefix p (dir +:+ "/").

Definition restricted (cleaned : string) : bool :=
  existsb (λ blocked, at_or_below blocked cleaned) blockedPaths ||
  existsb (λ prefix, HasPrefix cleaned prefix) blockedPrefixes.

Definition validatePath (path : string) : result unit :=
  if Contains path ".." then Err "path traversal not allowed" else
  let cleaned := Clean path in
  if negb (IsAbs cleaned) then Err "path must be absolute" else
  if restricted cleaned then Err errPathRestricted else Ok tt.

Section filebrowser.
Context `{O : Os}.

Definition resolveAndValidateSymlink (path : string) : result string :=
  match EvalSymlinks path with
  | Err _ => Err "cannot access path"
  | Ok resolved =>
      if negb (is_ok (validatePath resolved)) then Err errPathRestricted else
      let cleanPath := Clean path in
      if negb (String.eqb resolved cleanPath) && negb (HasPrefix resolved (cleanPath +:+ "/"))
      then Err "path resolves outside requested directory" else Ok resolved
  end.

Definition buildFileNode (e : DirEntry) (basePath resolvedPath : string) : option FileNode :=
  match de_Info e with
  | None => None
  | Some (regular, dir, size) =>
      if negb regular && negb dir then None else
      Some (MkFileNode (de_Name e) (JoinPath basePath (de_Name e)) (de_IsDir e) size
              (isRoot || Access_R_OK (JoinPath resolvedPath (de_Name e))))
  end.

(** [sort.Slice] by name: the names of a directory's entries are distinct. *)
Definition by_name (a b : FileNode) : Prop := text_le (fn_name a) (fn_name b) = true.
#[global] Instance by_name_dec : RelDecision by_name := λ a b, decide (text_le _ _ = true).

(** The response's files and error. *)
Definition ListDir (path : string) : list FileNode * string :=
  match validatePath path with
  | Err e => ([], e)
  | Ok _ =>
      match resolveAndValidateSymlink path with
      | Err e => ([], e)
      | Ok resolved =>
          match ReadDir resolved with
          | Err _ => ([], "cannot read directory")
          | Ok entries =>
              let nodes dir := omap (λ e, if Bool.eqb (de_IsDir e) dir
                                          then buildFileNode e path resolved else None) entries in
              (merge_sort by_name (nodes true) ++ merge_sort by_name (nodes false), "")
          end
      end
  end.

Definition clampLimit (limit : Z) : Z :=
  if (limit <=? 0) || (MaxReadSize <? limit) then MaxReadSize else limit.

Definition computeTailOffset (offset limit totalSize : Z) : Z :=
  if 0 <=? offset then offset else if limit <? totalSize then totalSize - limit else 0.

Definition readFileData (f : Handle) (offset limit : Z) : result bytes :=
  match h_ReadFull f offset limit with None => Err errCannotReadFile | Some data => Ok data end.

(** filepath.Ext of a name without slashes: from its last dot. *)
Fixpoint Ext (name : string) : string :=
  match name with
  | EmptyString => ""
  | String a name' =>
      if String.eqb (Ext name') "" && Ascii.eqb a "." then name else Ext name'
  end.

Definition mime_types : list (list string * string) :=
  [([".txt"; ".conf"; ".cfg"; ".ini"; ".log"; ".env"], "text/plain");
   ([".json"], "application/json"); ([".md"; ".markdown"], "text/markdown");
   ([".yaml"; ".yml"], "text/yaml"); ([".xml"], "text/xml"); ([".html"; ".htm"], "text/html");
   ([".css"], "text/css"); ([".js"], "text/javascript"); ([".go"], "text/x-go");
   ([".py"], "text/x-python"); ([".rs"], "text/x-rust"); ([".sh"; ".bash"], "text/x-sh");
   ([".toml"], "text/x-toml"); ([".sql"], "text/x-sql")].
Definition detectMIME (filename : string) : string :=
  let ext := Ldap.ToLower (Ext filename) in
  match List.find (λ m, existsb (String.eqb ext) m.1) mime_types with
  | Some m => m.2
  | None => "application/octet-stream"
  end.

(** The response: data, total size, MIME type, or an error. *)
Definition ReadFile (path : string) (offset limit : Z) : result (bytes * Z * string) :=
  match validatePath path with
  | Err e => Err e
  | Ok _ =>
      let limit := clampLimit limit in
      match resolveAndValidateSymlink path with
      | Err e => Err e
      | Ok resolved =>
          match OpenFile resolved with
          | Err _ => Err errCannotReadFile
          | Ok f =>
              match h_Stat f with
              | None => Err errCannotReadFile
              | Some (true, _) => Err "path is a directory"
              | Some (false, totalSize) =>
                  let offset := computeTailOffset offset limit totalSize in
                  if (0 <? offset) && negb (h_Seek f offset) then Err errCannotReadFile else
                  match readFileData f offset limit with
                  | Err e => Err e
                  | Ok data => Ok (data, totalSize, detectMIME (Base path))
                  end
              end
          end
      end
  end.

End filebrowser.

Example detectMIME_log : detectMIME "app.LOG" = "text/plain". Proof. reflexivity. Qed.
Example Ext_none : Ext "Makefile" = "". Proof. reflexivity. Qed.

(** ** Paths as text and as elements *)

Lemma Split_rooted (s : string) : Split "/" ("/" +:+ s) = "" :: Split "/" s.
Proof. done. Qed.

(** The elements of a text that continues a joined list. *)
Lemma Split_Join_app (es : list string) (t : string) :
  Forall (λ w, no_byte "/" w = true) es → es ≠ [] →
  Split "/" (Join "/" es +:+ "/" +:+ t) = es ++ Split "/" t.
Proof.
  intros HF Hne. induction HF as [|w es Hw HF IH]; [done|].
  destruct es as [|w2 es].
  - change (Join "/" [w] +:+ "/" +:+ t) with (w +:+ String "/" t). by rewrite Split_app.
  - change (Join "/" (w :: w2 :: es)) with (w +:+ "/" +:+ Join "/" (w2 :: es)).
    rewrite !app_assoc_str. change ("/" +:+ Join "/" (w2 :: es) +:+ "/" +:+ t)
      with (String "/" (Join "/" (w2 :: es) +:+ "/" +:+ t)).
    rewrite Split_app by done. by rewrite IH.
Qed.

Lemma Join_app (es ks : list string) :
  es ≠ [] → ks ≠ [] → Join "/" (es ++ ks) = Join "/" es +:+ "/" +:+ Join "/" ks.
Proof.
  intros Hne Hk. induction es as [|w es IH]; [done|]. destruct es as [|w2 es].
  - simpl. by destruct ks.
  - change (Join "/" ((w :: w2 :: es) ++ ks)) with (w +:+ "/" +:+ Join "/" ((w2 :: es) ++ ks)).
    change (Join "/" (w :: w2 :: es)) with (w +:+ "/" +:+ Join "/" (w2 :: es)).
    by rewrite IH, !app_assoc_str.
Qed.

Lemma clean_render (p : string) :
  is_rooted p = true → Clean p = p → p = "/" +:+ Join "/" (clean_elems p).
Proof. intros Hr Hc. rewrite <- Hc at 1. unfold Clean, render. by rewrite Hr. Qed.

(** For cleaned absolute paths, the textual test is the element-wise one. *)
Lemma at_or_below_under (dir p : string) :
  is_rooted dir = true → Clean dir = dir → is_rooted p = true → Clean p = p →
  at_or_below dir p = true → under dir p.
Proof.
  intros Hd Hcd Hp Hcp. unfold at_or_below, under. intros [He%String.eqb_eq|Hpre]%orb_true_iff.
  { by subst. }
  split; [done|]. apply prefix_iff in Hpre as [t Ht].
  assert (HF := clean_elems_plain dir Hd).
  assert (He : clean_elems p = elems p) by (rewrite <- (elems_Clean p), Hcp by done; done).
  assert (Hdir := clean_render dir Hd Hcd). remember (clean_elems dir) as es eqn:Hes.
  rewrite He, Ht, Hdir, !app_assoc_str. unfold elems. rewrite Split_rooted.
  rewrite filter_cons_False by (by intros []).
  destruct (decide (es = [])) as [->|Hne]; [apply prefix_nil|].
  rewrite Split_Join_app by (done || by apply plain_no_byte).
  rewrite filter_app, filter_plain by done. by eexists.
Qed.

Lemma under_at_or_below (dir p : string) :
  is_rooted dir = true → Clean dir = dir → is_rooted p = true → Clean p = p →
  clean_elems dir ≠ [] → under dir p → at_or_below dir p = true.
Proof.
  intros Hd Hcd Hp Hcp Hne [_ [ks Hk]]. unfold at_or_below. apply orb_true_iff.
  assert (Hp' := clean_render p Hp Hcp). assert (Hd' := clean_render dir Hd Hcd). rewrite Hk in Hp'.
  remember (clean_elems dir) as es eqn:Hes. destruct (decide (ks = [])) as [->|Hks].
  - left. rewrite app_nil_r in Hp'. apply String.eqb_eq. congruence.
  - right. apply prefix_iff. exists (Join "/" ks).
    by rewrite Hp', Hd', Join_app, !app_assoc_str.
Qed.

(** ** What the browser can reach *)

(** filepath.EvalSymlinks returns a cleaned path; stated for absolute ones. *)
Class OsLaws (O : Os) := {
  resolved_clean : ∀ p q, is_rooted p = true → EvalSymlinks p = Ok q → Clean q = q
}.

(** The sensitive paths, by path elements. *)
Definition protected (p : string) : Prop :=
  (∃ b, b ∈ blockedPaths ∧ under b p) ∨
  (∃ b, b ∈ ["/proc"; "/sys/kernel"] ∧ under b p ∧ Clean p ≠ b).

Lemma under_refl (p : string) : is_rooted p = true → under p p.
Proof. done. Qed.

Lemma under_trans (p q r : string) : under p q → under q r → under p r.
Proof. intros [Hp H1] [_ H2]. split; [done|]. by trans (clean_elems q). Qed.

Lemma under_Clean (dir p : string) : is_rooted p = true → under dir (Clean p) ↔ under dir p.
Proof.
  intros Hp. unfold under. rewrite <- (elems_Clean (Clean p)) by by apply rooted_Clean.
  by rewrite clean_idem, elems_Clean.
Qed.

Lemma Clean_under_l (dir p : string) : is_rooted dir = true → under (Clean dir) p ↔ under dir p.
Proof.
  intros Hd. unfold under. rewrite rooted_Clean, Hd by done.
  rewrite <- (elems_Clean (Clean dir)) by by apply rooted_Clean. by rewrite clean_idem, elems_Clean.
Qed.

Lemma below_prefix (b p : string) :
  is_rooted b = true → Clean b = b → clean_elems b ≠ [] → is_rooted p = true → Clean p = p →
  under b p → p ≠ b → HasPrefix p (b +:+ "/") = true.
Proof.
  intros Hb Hcb Hne Hp Hcp Hu Hpb. apply under_at_or_below in Hu; [|done..].
  unfold at_or_below in Hu. by rewrite (proj2 (String.eqb_neq _ _) Hpb) in Hu.
Qed.

Lemma restricted_protected (p : string) :
  is_rooted p = true → Clean p = p → protected p → restricted p = true.
Proof.
  intros Hp Hcp. unfold restricted. rewrite orb_true_iff, !existsb_exists.
  intros [(b & Hb & Hu)|(b & Hb & Hu & Hne)].
  - left. exists b. split; [by apply list_elem_of_In|]. unfold blockedPaths in Hb.
    repeat (apply elem_of_cons in Hb as [->|Hb];
      [apply under_at_or_below; [done|done|done|done|by vm_compute|done]|]).
    by inversion Hb.
  - right. rewrite Hcp in Hne. exists (b +:+ "/"). split.
    { apply elem_of_cons in Hb as [->|Hb]; [by left|]. apply elem_of_cons in Hb as [->|Hb];
        [right; by left|by inversion Hb]. }
    apply elem_of_cons in Hb as [->|Hb]; [|apply elem_of_cons in Hb as [->|Hb]; [|by inversion Hb]];
      by apply below_prefix; [..|vm_compute| | | |].
Qed.

Lemma rooted_of_Clean (p : string) : is_rooted (Clean p) = true → is_rooted p = true.
Proof. intros H. destruct (is_rooted p) eqn:Hp; [done|]. by rewrite unrooted_Clean in H. Qed.

Lemma protected_Clean (p : string) : is_rooted p = true → protected (Clean p) ↔ protected p.
Proof.
  intros Hp. unfold protected. rewrite clean_idem by done. by setoid_rewrite under_Clean; [|done..].
Qed.

Lemma validatePath_safe (p : string) : validatePath p = Ok tt → is_rooted p = true ∧ ¬ protected p.
Proof.
  unfold validatePath, IsAbs. destruct (Contains p ".."); [done|].
  destruct (is_rooted (Clean p)) eqn:Hr; cbn [negb]; [|done].
  destruct (restricted (Clean p)) eqn:Hb; [done|]. intros _. apply rooted_of_Clean in Hr as Hp.
  split; [done|]. rewrite <- protected_Clean by done. intros Hpr.
  rewrite restricted_protected in Hb; [done|done|by apply clean_idem|done].
Qed.

(** The path [resolved] may be opened for a request for [path]. *)
Record reachable `{Os} (path resolved : string) : Prop := {
  rc_resolved : EvalSymlinks path = Ok resolved;
  rc_rooted : is_rooted resolved = true;
  rc_valid : validatePath path = Ok tt;
  rc_under : under path resolved;
  rc_open : ¬ protected resolved;
  rc_path : ¬ protected path
}.

Lemma validate_reachable `{O : Os, !OsLaws O} (path resolved : string) :
  validatePath path = Ok tt → resolveAndValidateSymlink path = Ok resolved → reachable path resolved.
Proof.
  intros Hv. unfold resolveAndValidateSymlink. destruct (EvalSymlinks path) as [q|] eqn:Hq; [|done].
  destruct (validatePath q) as [[]|] eqn:Hvq; cbn [is_ok negb]; [|done].
  destruct (negb (String.eqb q (Clean path)) && negb (HasPrefix q (Clean path +:+ "/"))) eqn:Hin; [done|].
  intros [= <-]. assert (Hv' := Hv). apply validatePath_safe in Hv' as [Hp Hnp], Hvq as [Hqr Hnq]. split; try done.
  rewrite <- (Clean_under_l path) by done.
  apply at_or_below_under; [by apply rooted_Clean|by apply clean_idem|done|by eapply (resolved_clean path)|].
  unfold at_or_below. by destruct (String.eqb q _), (HasPrefix q _).
Qed.

Section reach.
Context `{O : Os, !OsLaws O}.

Lemma ListDir_reach (path : string) (files : list FileNode) :
  ListDir path = (files, "") →
  ∃ resolved entries, reachable path resolved ∧ ReadDir resolved = Ok entries ∧
    Forall (λ n, ∃ e, e ∈ entries ∧ fn_name n = de_Name e ∧ fn_path n = JoinPath path (de_Name e)) files ∧
    ∀ grant, under grant path → under grant resolved.
Proof.
  unfold ListDir. destruct (validatePath path) as [[]|e] eqn:Hv.
  2:{ intros [= <- ->]. unfold validatePath in Hv. by repeat case_match; simplify_eq. }
  destruct (resolveAndValidateSymlink path) as [q|e] eqn:Hq.
  2:{ intros [= <- ->]. unfold resolveAndValidateSymlink in Hq. by repeat case_match; simplify_eq. }
  destruct (ReadDir q) as [entries|e] eqn:Hr; [|done]. intros [= <-].
  assert (Hrc := validate_reachable path q Hv Hq). exists q, entries. split; [done|].
  split; [done|]. split; [|intros g Hg; eapply under_trans; [done|apply Hrc]].
  assert (Hn : ∀ dir, Forall (λ n, ∃ e, e ∈ entries ∧ fn_name n = de_Name e ∧
      fn_path n = JoinPath path (de_Name e)) (merge_sort by_name (omap (λ e,
      if Bool.eqb (de_IsDir e) dir then buildFileNode e path q else None) entries))).
  { intros dir. rewrite merge_sort_Permutation. apply Forall_forall.
    intros n (e & He & Hb)%list_elem_of_omap. exists e. split; [done|].
    destruct (Bool.eqb _ _); [|done]. unfold buildFileNode in Hb.
    destruct (de_Info e) as [[[reg d] sz]|]; [|done]. destruct (negb reg && negb d); [done|].
    by injection Hb as <-. }
  apply Forall_app. by split.
Qed.

Lemma ReadFile_reach (path : string) (offset limit : Z) (data : bytes) (total : Z) (mime : string) :
  ReadFile path offset limit = Ok (data, total, mime) →
  ∃ resolved f from, reachable path resolved ∧ OpenFile resolved = Ok f ∧
    h_ReadFull f from (clampLimit limit) = Some data ∧
    ∀ grant, under grant path → under grant resolved.
Proof.
  unfold ReadFile.
  destruct (validatePath path) as [[]|e] eqn:Hv; [|done].
  destruct (resolveAndValidateSymlink path) as [q|e] eqn:Hq; [|done].
  destruct (OpenFile q) as [f|e] eqn:Ho; [|done]. destruct (h_Stat f) as [[[|] size]|]; [done| |done].
  destruct (_ && _); [done|]. unfold readFileData.
  destruct (h_ReadFull f _ _) as [d|] eqn:Hd; [|done]. intros [= <- <- <-].
  assert (Hrc := validate_reachable path q Hv Hq).
  exists q, f. eexists. split; [done|]. split; [done|]. split; [exact Hd|].
  intros g Hg. eapply under_trans; [done|apply Hrc].
Qed.
End reach.

(** the agent serves nothing outside the path asked for and nothing sensitive.  Whatever the
    symbolic links on the machine, what a listing or a read returns comes from one directory or file
    at or below the requested path, element by element, and neither the request nor what was opened
    is a protected path.  So a request the hub allowed under a granted directory stays in it. *)
Theorem browser_confined `{O : Os, !OsLaws O} (path : string) :
  (∀ files, ListDir path = (files, "") →
     ∃ resolved entries, reachable path resolved ∧ ReadDir resolved = Ok entries ∧
       Forall (λ n, ∃ e, e ∈ entries ∧ fn_name n = de_Name e ∧ fn_path n = JoinPath path (de_Name e)) files ∧
       ∀ grant, under grant path → under grant resolved) ∧
  (∀ offset limit data total mime, ReadFile path offset limit = Ok (data, total, mime) →
     ∃ resolved f from, reachable path resolved ∧ OpenFile resolved = Ok f ∧
       h_ReadFull f from (clampLimit limit) = Some data ∧
       ∀ grant, under grant path → under grant resolved).
Proof. split; [intros files; apply ListDir_reach|intros offset limit data total mime; apply ReadFile_reach]. Qed.

(** [f] is an open file with contents [c]. *)
Record opens (f : Handle) (c : bytes) : Prop := {
  op_stat : h_Stat f = Some (false, Z.of_nat (String.length c));
  op_seek : ∀ n, 0 <= n → h_Seek f n = true;
  op_read : ∀ n k, 0 <= n → 0 <= k →
    h_ReadFull f n k = Some (String.substring (Z.to_nat n) (Z.to_nat k) c)
}.

(** C30: reads are bounded and a tail is the end of the file.  A read of a file returns its size and
    at most a megabyte, the part of the contents at the offset; with a negative offset, the longest
    end of the contents within the limit. *)
Theorem read_bounds `{O : Os} (path resolved : string) (f : Handle) (c data : bytes)
    (offset limit total : Z) (mime : string) :
  EvalSymlinks path = Ok resolved → OpenFile resolved = Ok f → opens f c →
  ReadFile path offset limit = Ok (data, total, mime) →
  let n := Z.of_nat (String.length c) in
  total = n ∧ Z.of_nat (String.length data) <= clampLimit limit <= MaxReadSize ∧
  (0 <= offset → data = String.substring (Z.to_nat offset) (Z.to_nat (clampLimit limit)) c) ∧
  (offset < 0 → Z.of_nat (String.length data) = Z.min (clampLimit limit) n ∧
     ∃ front, c = front +:+ data).
Proof.
  intros He Ho [Hst Hsk Hrd]. unfold ReadFile.
  destruct (validatePath path) as [[]|e]; [|done].
  unfold resolveAndValidateSymlink. rewrite He.
  destruct (negb (is_ok _)); [done|]. destruct (_ && negb (HasPrefix _ _)); [done|].
  rewrite Ho, Hst. set (n := Z.of_nat (String.length c)). unfold readFileData.
  assert (Hl : 0 < clampLimit limit <= MaxReadSize).
  { unfold clampLimit, MaxReadSize. destruct (Z.leb_spec limit 0), (Z.ltb_spec 1048576 limit); simpl; lia. }
  unfold computeTailOffset. set (at_ := if 0 <=? offset then _ else _).
  assert (Hat : 0 <= at_) by (unfold at_; repeat case_match; lia).
  assert (Hs : (0 <? at_) && negb (h_Seek f at_) = false)
    by (rewrite Hsk by done; apply andb_false_r).
  rewrite Hs, Hrd by lia. intros [= <- <- <-]. split; [done|].
  rewrite length_substring. split; [lia|]. subst at_.
  destruct (Z.leb_spec 0 offset); [split; [done|lia]|]. split; [lia|]. intros _.
  destruct (Z.ltb_spec (clampLimit limit) n); (split; [lia|]).
  - exists (String.substring 0 (Z.to_nat (n - clampLimit limit)) c).
    rewrite (substring_suffix (Z.to_nat (n - clampLimit limit)) c) at 1 by lia. do 2 f_equal. lia.
  - exists "". change (Z.to_nat 0) with 0%nat.
    rewrite substring_all; [done|lia].
Qed.

Section witnesses.
(** A machine with one log file and a link to a password file. *)
#[local] Instance demo_os : Os := {|
  EvalSymlinks := λ p, if String.eqb p "/var/log/link" then Ok "/etc/shadow" else Ok (Clean p);
  ReadDir := λ p, if String.eqb p "/var/log"
                  then Ok [MkDirEntry "b.log" false (Some (true, false, 3));
                           MkDirEntry "a.log" false (Some (true, false, 5));
                           MkDirEntry "old" true (Some (false, true, 0))]
                  else Err "not a directory";
  OpenFile := λ p, Ok (MkHandle (Some (false, 5)) (λ _, true)
                     (λ n k, Some (String.substring (Z.to_nat n) (Z.to_nat k) "hello")));
  Access_R_OK := λ _, true;
  isRoot := false
|}.

#[local] Instance demo_os_laws : OsLaws demo_os.
Proof.
  split. simpl. intros p q Hp. destruct (String.eqb p "/var/log/link"); intros [= <-]; [done|by apply clean_idem].
Qed.

Example demo_list : ListDir "/var/log/" =
  ([MkFileNode "old" "/var/log/old" true 0 true; MkFileNode "a.log" "/var/log/a.log" false 5 true;
    MkFileNode "b.log" "/var/log/b.log" false 3 true], "").
Proof. by vm_compute. Qed.
Example demo_link : ReadFile "/var/log/link" 0 10 = Err errPathRestricted.
Proof. by vm_compute. Qed.

Lemma browser_confined_witness :
  ∃ resolved entries, reachable "/var/log/" resolved ∧ ReadDir resolved = Ok entries ∧
    (∀ grant, under grant "/var/log/" → under grant resolved).
Proof.
  destruct (ListDir "/var/log/") as [files e] eqn:H.
  assert (e = "") as -> by (vm_compute in H; congruence).
  apply (browser_confined "/var/log/") in H as (q & es & H1 & H2 & _ & H3). by exists q, es.
Defined.

Lemma read_bounds_witness :
  Z.of_nat (String.length "llo") = Z.min (clampLimit 3) 5 ∧ ∃ front, "hello" = front +:+ "llo".
Proof.
  assert (H : ReadFile "/var/log/a.log" (-1) 3 = Ok ("llo", 5, "text/plain")) by by vm_compute.
  destruct (read_bounds "/var/log/a.log" "/var/log/a.log"
    (MkHandle (Some (false, 5)) (λ _, true) (λ n k, Some (String.substring (Z.to_nat n) (Z.to_nat k) "hello")))
    "hello" "llo" (-1) 3 5 "text/plain") as (_ & _ & _ & Ht); [done|done|by split|exact H|].
  by apply Ht.
Defined.
End witnesses.
