(* ===== verification/LogTailer.v ===== *)
(** * The agent's log tailer (agent/internal/logtailer/tailer.go).

    A poll is a value of [Snapshot]: what the operating system answers while it runs.  The ticker is
    the list of polls; the stop channel ends it.  A seek and the read after it are one answer. *)

From S2P Require Import Prelude GoStr Proto FileBrowser.
From S2P Require Ldap.

Definition blockedPaths : list string :=
  ["/etc/shadow"; "/etc/gshadow"; "/etc/sudoers"; "/etc/sudoers.d"; "/etc/veyport"; "/root/.ssh";
   "/proc/self"; "/proc/kcore"; "/sys/firmware"].
Definition blockedPrefixes : list string := ["/proc/"; "/sys/kernel/"].

Definition isBlockedPath (path : string) : bool :=
  existsb (λ blocked, String.eqb path blocked || HasPrefix path (blocked +:+ "/")) blockedPaths ||
  existsb (λ prefix, HasPrefix path prefix) blockedPrefixes.

Definition validateLogPath `{O : Os} (path : string) : result string :=
  if Contains path ".." then Err "path traversal not allowed" else
  let cleaned := Clean path in
  if negb (IsAbs cleaned) then Err "path must be absolute" else
  if isBlockedPath cleaned then Err errPathRestricted else
  match EvalSymlinks cleaned with
  | Err _ => Err "cannot resolve path"
  | Ok resolved =>
      if isBlockedPath resolved then Err errPathRestricted else
      if negb (String.eqb resolved cleaned) && negb (HasPrefix resolved (cleaned +:+ "/"))
      then Err "path resolves outside requested directory" else Ok resolved
  end.

(** ** Lines *)

Definition MaxScanTokenSize : nat := 64 * 1024.

Definition drop_cr (line : bytes) : bytes :=
  if HasSuffix line (String "013"%char "")
  then String.substring 0 (String.length line - 1) line else line.

(** The lines [bufio.Scanner] yields: it stops at the first that does not fit its buffer. *)
Fixpoint scan_lines (lines : list bytes) : list bytes :=
  match lines with
  | [] => []
  | [last] => if String.eqb last "" || (MaxScanTokenSize <=? String.length last)%nat
              then [] else [drop_cr last]
  | line :: lines' => if (MaxScanTokenSize <=? String.length line)%nat then []
                      else drop_cr line :: scan_lines lines'
  end.

Definition newline : bytes := String "010"%char "".

Record LogChunk := MkLogChunk { lc_RequestId : string; lc_Data : bytes; lc_Offset : Z }.

Definition grep_lines (grepLower : string) (data : bytes) : bytes :=
  foldr String.append "" (map (λ line, line +:+ newline)
    (List.filter (λ line, Contains (Ldap.ToLower line) grepLower) (scan_lines (Split "010" data)))).

Definition sendFiltered (data : bytes) (offset : Z) (grepLower requestID : string) : list LogChunk :=
  let outData := if String.eqb grepLower "" then data else grep_lines grepLower data in
  if String.eqb outData "" then [] else [MkLogChunk requestID outData offset].

(** ** Polls *)

Definition limit : Z := 1048576.

Record Snapshot := {
  sn_Stat : string → option Z;
  sn_Open : string → option nat;
  sn_SeekEnd : nat → option Z;
  sn_SeekStart : nat → Z → bool;
  sn_ReadAll : nat → Z → option bytes;        (* of a new handle, up to a limit *)
  sn_Read : nat → Z → Z → option bytes        (* at an offset, up to a size *)
}.

Definition len (s : bytes) : Z := Z.of_nat (String.length s).

Definition readNewData (sn : Snapshot) (f : nat) (path : string) (lastOffset : Z)
    (grepLower requestID : string) : option nat * Z * list LogChunk :=
  match sn_Stat sn path with
  | None => (None, lastOffset, [])
  | Some currentSize =>
      if currentSize <? lastOffset then
        match sn_Open sn path with
        | None => (None, lastOffset, [])
        | Some newF =>
            match sn_ReadAll sn newF limit with
            | None => (None, lastOffset, [])
            | Some data => (Some newF, currentSize, sendFiltered data currentSize grepLower requestID)
            end
        end
      else if currentSize =? lastOffset then (None, lastOffset, []) else
      let readSize := currentSize - lastOffset in
      let readSize := if limit <? readSize then limit else readSize in
      match sn_Read sn f lastOffset readSize with
      | None | Some "" => (None, lastOffset, [])
      | Some data =>
          let newOffset := lastOffset + len data in
          (None, newOffset, sendFiltered data newOffset grepLower requestID)
      end
  end.

Fixpoint poll_loop (polls : list Snapshot) (f : nat) (path : string) (offset : Z)
    (grepLower requestID : string) : list LogChunk * (nat * Z) :=
  match polls with
  | [] => ([], (f, offset))
  | sn :: polls' =>
      let '(newF, offset, out) := readNewData sn f path offset grepLower requestID in
      let '(rest, last) := poll_loop polls' (default f newF) path offset grepLower requestID in
      (out ++ rest, last)
  end.

(** From the opening of the file on; [start] is what the system answers then. *)
Definition tail_file (start : Snapshot) (polls : list Snapshot) (resolved grep : string)
    (offset : Z) (requestID : string) : list LogChunk :=
  match sn_Open start resolved with
  | None => []
  | Some f =>
      let offset := if offset <=? 0 then sn_SeekEnd start f
                    else if sn_SeekStart start f offset then Some offset else None in
      match offset with
      | None => []
      | Some offset => (poll_loop polls f resolved offset (Ldap.ToLower grep) requestID).1
      end
  end.

Definition StartTail `{O : Os} (start : Snapshot) (polls : list Snapshot) (path grep : string)
    (offset : Z) (requestID : string) : list LogChunk :=
  match validateLogPath path with
  | Err e => [MkLogChunk requestID ("error: " +:+ e) 0]
  | Ok resolved => tail_file start polls resolved grep offset requestID
  end.

(** ** A file that only grows *)

(** While [sn] lasts, the path and the handle are of a file with contents [c]; reads may be short. *)
Record follows (path : string) (f : nat) (c : bytes) (sn : Snapshot) : Prop := {
  fl_stat : sn_Stat sn path = Some (len c);
  fl_read : ∀ off n, 0 <= off → 0 <= n →
    ∃ k, (k <= Z.to_nat n)%nat ∧ sn_Read sn f off n = Some (String.substring (Z.to_nat off) k c)
}.

Definition reads_fully (f : nat) (c : bytes) (sn : Snapshot) : Prop :=
  ∀ off n, 0 <= off → 0 <= n →
    sn_Read sn f off n = Some (String.substring (Z.to_nat off) (Z.to_nat n) c).

Definition grows (a b : bytes) : Prop := ∃ t, b = a +:+ t.

(** The contents the polls see, each an extension of the one before. *)
Inductive growing (path : string) (f : nat) : bytes → list Snapshot → bytes → Prop :=
  | growing_nil c : growing path f c [] c
  | growing_cons c c' c'' sn polls : grows c c' → follows path f c' sn →
      growing path f c' polls c'' → growing path f c (sn :: polls) c''.

Definition data_of (cs : list LogChunk) : bytes := foldr String.append "" (map lc_Data cs).

(** The part of [c] from [a] to [b]. *)
Definition part (a b : Z) (c : bytes) : bytes := String.substring (Z.to_nat a) (Z.to_nat (b - a)) c.

Lemma part_self (a : Z) (c : bytes) : part a a c = "".
Proof. unfold part. rewrite Z.sub_diag. apply substring_0. Qed.

Lemma part_join (a b d : Z) (c : bytes) : 0 <= a <= b → b <= d → part a b c +:+ part b d c = part a d c.
Proof.
  intros H1 H2. unfold part. replace (Z.to_nat b) with (Z.to_nat a + Z.to_nat (b - a))%nat by lia.
  rewrite substring_extend. f_equal. lia.
Qed.

Lemma part_grows (a b : Z) (c c' : bytes) : grows c c' → 0 <= a <= b → b <= len c → part a b c' = part a b c.
Proof. intros [t ->] H1 H2. apply substring_app_l. unfold len in H2. lia. Qed.

Lemma grows_len (a b : bytes) : grows a b → len a <= len b.
Proof. intros [t ->]. unfold len. rewrite length_app_str. lia. Qed.

Lemma grows_trans (a b c : bytes) : grows a b → grows b c → grows a c.
Proof. intros [t ->] [u ->]. exists (t +:+ u). by rewrite app_assoc_str. Qed.

Lemma growing_grows (path : string) (f : nat) (c c' : bytes) (polls : list Snapshot) :
  growing path f c polls c' → grows c c'.
Proof.
  induction 1 as [c|c c1 c2 sn polls Hg _ _ IH]; [exists ""; by rewrite app_empty_r|].
  by eapply grows_trans.
Qed.

Lemma data_of_app (a b : list LogChunk) : data_of (a ++ b) = data_of a +:+ data_of b.
Proof.
  induction a as [|x a IH]; [done|]. unfold data_of in *. simpl. by rewrite IH, app_assoc_str.
Qed.

Lemma sendFiltered_all (data requestID : string) (offset : Z) :
  data ≠ "" → sendFiltered data offset "" requestID = [MkLogChunk requestID data offset].
Proof. intros H. unfold sendFiltered. change (String.eqb "" "") with true. cbv zeta iota. by rewrite (proj2 (String.eqb_neq data "") H). Qed.

(** One poll of a growing file. *)
Lemma poll_follows (path requestID : string) (f : nat) (c : bytes) (sn : Snapshot) (o : Z) :
  follows path f c sn → 0 <= o <= len c →
  ∃ o' out, readNewData sn f path o "" requestID = (None, o', out) ∧
    o <= o' <= Z.min (len c) (o + limit) ∧ data_of out = part o o' c ∧
    Forall (λ x, len (lc_Data x) <= limit ∧ lc_RequestId x = requestID) out ∧
    (reads_fully f c sn → o' = Z.min (len c) (o + limit)).
Proof.
  intros [Hst Hrd] Ho. unfold readNewData. rewrite Hst.
  destruct (Z.ltb_spec (len c) o); [lia|]. destruct (Z.eqb_spec (len c) o) as [He|Hne].
  { exists o, []. rewrite part_self. unfold limit. repeat split; try done; lia. }
  set (n := if limit <? len c - o then limit else len c - o).
  assert (Hn : n = Z.min limit (len c - o)) by (unfold n; destruct (Z.ltb_spec limit (len c - o)); lia).
  destruct (Hrd o n) as (k & Hk & Hr); [lia|unfold limit in *; lia|]. rewrite Hr.
  set (d := String.substring (Z.to_nat o) k c) in *.
  assert (Hd : String.length d = Nat.min k (String.length c - Z.to_nat o)) by apply length_substring.
  assert (Hdl : len d <= n) by (unfold len, limit in *; lia).
  assert (Hd' : d = part o (o + len d) c).
  { assert (Hdk : String.length d = k) by (unfold len, limit in *; lia).
    unfold part, len. rewrite Hdk. unfold d. f_equal. lia. }
  assert (Hfull : reads_fully f c sn → len d = n).
  { intros Hf. rewrite Hf in Hr by (unfold limit in *; lia). injection Hr as Hr.
    apply (f_equal String.length) in Hr. rewrite length_substring in Hr. fold d in Hr.
    unfold len, limit in *. lia. }
  assert (Hpos : d = "" → len d = 0) by by intros ->.
  exists (o + len d), (if String.eqb d "" then [] else [MkLogChunk requestID d (o + len d)]).
  split.
  - destruct d as [|a d0] eqn:Ed; [simpl; by rewrite Z.add_0_r|]. by rewrite sendFiltered_all.
  - split; [unfold len in *; lia|]. split_and!.
    + destruct (String.eqb_spec d "") as [->|]; [simpl; by rewrite Z.add_0_r, part_self|].
      unfold data_of. simpl. by rewrite app_empty_r.
    + destruct (String.eqb d ""); repeat constructor; simpl. lia.
    + intros Hf%Hfull. lia.
Qed.

Lemma polls_follow (path requestID : string) (f : nat) (c c' : bytes) (polls : list Snapshot) (o : Z) :
  growing path f c polls c' → 0 <= o <= len c →
  ∃ out o', poll_loop polls f path o "" requestID = (out, (f, o')) ∧
    o <= o' <= len c' ∧ data_of out = part o o' c' ∧
    Forall (λ x, len (lc_Data x) <= limit ∧ lc_RequestId x = requestID) out.
Proof.
  intros Hg. revert o. induction Hg as [c|c c1 c2 sn polls Hc Hsn Hg IH]; intros o Ho.
  - exists [], o. simpl. rewrite part_self. by repeat split; try lia.
  - assert (Hlen := grows_len _ _ Hc). assert (Hc2 := growing_grows _ _ _ _ _ Hg).
    assert (Hlen2 := grows_len _ _ Hc2).
    destruct (poll_follows path requestID f c1 sn o Hsn) as (o1 & out1 & H1 & Ho1 & Hd1 & Hf1 & _); [lia|].
    destruct (IH o1) as (out2 & o2 & H2 & Ho2 & Hd2 & Hf2); [lia|].
    exists (out1 ++ out2), o2. simpl. rewrite H1. simpl. rewrite H2. split; [done|]. split; [lia|].
    rewrite data_of_app, Hd1, Hd2. split; [|by apply Forall_app].
    rewrite <- (part_grows o o1 c1 c2) by (done || lia). apply part_join; lia.
Qed.

(** With whole reads of a file that no longer grows, every poll advances by a megabyte. *)
Lemma polls_catch_up (path requestID : string) (f n : nat) (c : bytes) (sn : Snapshot) (o : Z) :
  follows path f c sn → reads_fully f c sn → 0 <= o <= len c →
  (poll_loop (replicate n sn) f path o "" requestID).2 = (f, Z.min (len c) (o + limit * Z.of_nat n)).
Proof.
  intros Hsn Hf. revert o. induction n as [|n IH]; intros o Ho; [simpl; f_equal; lia|].
  destruct (poll_follows path requestID f c sn o Hsn Ho) as (o1 & out & H1 & Ho1 & _ & _ & Hfull).
  specialize (Hfull Hf). simpl. rewrite H1. simpl. specialize (IH o1 ltac:(unfold limit in *; lia)).
  destruct (poll_loop (replicate n sn) f path o1 "" requestID) as [rest last]. simpl in *. subst last.
  f_equal. unfold limit in *. lia.
Qed.

Lemma poll_loop_app (a b : list Snapshot) (f : nat) (path : string) (o : Z) (g id : string) :
  poll_loop (a ++ b) f path o g id =
  let '(out, (f', o')) := poll_loop a f path o g id in
  let '(out', last) := poll_loop b f' path o' g id in (out ++ out', last).
Proof.
  revert f o. induction a as [|sn a IH]; intros f o; simpl; [by destruct (poll_loop b f path o g id)|].
  destruct (readNewData sn f path o g id) as [[newF o1] out1]. rewrite IH.
  destruct (poll_loop a (default f newF) path o1 g id) as [out2 [f2 o2]].
  destruct (poll_loop b f2 path o2 g id) as [out3 last]. by rewrite app_assoc.
Qed.

Lemma growing_still (path : string) (f : nat) (c c' : bytes) (polls : list Snapshot) (n : nat) (sn : Snapshot) :
  growing path f c polls c' → follows path f c' sn → growing path f c (polls ++ replicate n sn) c'.
Proof.
  intros Hg Hsn. induction Hg as [c|c c1 c2 s polls Hc Hs Hg IH]; simpl; [|by econstructor; eauto].
  induction n as [|n IH]; [constructor|]. econstructor; [|exact Hsn|exact IH].
  exists "". by rewrite app_empty_r.
Qed.

(** When a tail starts, the path is of a file with contents [c]. *)
Record starts (path : string) (f : nat) (c : bytes) (start : Snapshot) : Prop := {
  st_open : sn_Open start path = Some f;
  st_end : sn_SeekEnd start f = Some (len c);
  st_seek : ∀ o, 0 <= o → sn_SeekStart start f o = true
}.

(** C31: a tail follows its file.  Of a file that only grows, read in pieces of any size, a tail
    without a search sends, in order and without a gap or a repetition, the part of the contents from
    the offset it started at, in chunks of at most a megabyte.  Once the file stops growing and is
    read in full, a poll for every megabyte left sends all of it. *)
Theorem tail_follows (start : Snapshot) (path requestID : string) (f : nat) (offset : Z) (c0 c : bytes)
    (polls : list Snapshot) :
  starts path f c0 start → offset <= len c0 → growing path f c0 polls c →
  let o := if offset <=? 0 then len c0 else offset in
  let sent polls := tail_file start polls path "" offset requestID in
  (∃ o', o <= o' <= len c ∧ data_of (sent polls) = part o o' c) ∧
  Forall (λ x, len (lc_Data x) <= limit ∧ lc_RequestId x = requestID) (sent polls) ∧
  ∀ n sn, follows path f c sn → reads_fully f c sn → len c - o <= limit * Z.of_nat n →
    data_of (sent (polls ++ replicate n sn)) = part o (len c) c.
Proof.
  intros [Ho Hend Hsk] Hoff Hg. simpl. set (o := if offset <=? 0 then len c0 else offset).
  assert (Hsent : ∀ ps, tail_file start ps path "" offset requestID =
      (poll_loop ps f path o "" requestID).1).
  { intros ps. unfold tail_file, o. rewrite Ho, Hend. destruct (Z.leb_spec offset 0); [done|].
    by rewrite Hsk by lia. }
  assert (Hc0 : 0 <= len c0) by (unfold len; lia).
  assert (Hor : 0 <= o <= len c0) by (unfold o; destruct (Z.leb_spec offset 0); lia).
  destruct (polls_follow path requestID f c0 c polls o Hg Hor) as (out & o' & Hp & Ho' & Hd & Hf).
  rewrite Hsent, Hp. split; [by exists o'|]. split; [done|]. intros n sn Hsn Hfull Hn.
  rewrite Hsent. assert (Hg' := growing_still _ _ _ _ _ n sn Hg Hsn).
  destruct (polls_follow path requestID f c0 c _ o Hg' Hor) as (out2 & o2 & Hp2 & _ & Hd2 & _).
  rewrite Hp2. simpl. rewrite Hd2. f_equal.
  rewrite poll_loop_app, Hp in Hp2.
  assert (Hc := polls_catch_up path requestID f n c sn o' Hsn Hfull ltac:(lia)).
  destruct (poll_loop (replicate n sn) f path o' "" requestID) as [out3 last]. simpl in Hc. subst last.
  injection Hp2 as _ <-. unfold limit in *. lia.
Qed.

(** ** What a tail can reach *)

Lemma validateLogPath_Ok `{O : Os} (path resolved : string) :
  validateLogPath path = Ok resolved →
  is_rooted path = true ∧ EvalSymlinks (Clean path) = Ok resolved ∧ is_rooted resolved = true ∧
  at_or_below (Clean path) resolved = true ∧ restricted resolved = false.
Proof.
  unfold validateLogPath. destruct (Contains path ".."); [done|].
  destruct (IsAbs (Clean path)) eqn:Hr; simpl; [|done].
  destruct (isBlockedPath (Clean path)); [done|]. destruct (EvalSymlinks (Clean path)) as [q|e]; [|done].
  destruct (isBlockedPath q) eqn:Hbq; [done|].
  destruct (negb (String.eqb q (Clean path)) && _) eqn:Hu; [done|]. intros [= <-].
  assert (Hin : at_or_below (Clean path) q = true).
  { unfold at_or_below. by destruct (String.eqb q (Clean path)), (HasPrefix q _). }
  split; [by apply rooted_of_Clean|]. split; [done|]. split; [|done].
  unfold at_or_below in Hin. apply orb_true_iff in Hin as [->%String.eqb_eq|Hpre]; [done|].
  apply prefix_iff in Hpre as [t ->]. unfold IsAbs, is_rooted in Hr. apply prefix_iff in Hr as [u ->].
  rewrite !app_assoc_str. apply prefix_app.
Qed.

(** a tail reads what a browser may.  A tail answers with one error or reads the file its path
    resolves to, which lies at or below the path, hence below every directory that grants it, and is
    none of the sensitive files. *)
Theorem tail_confined `{O : Os, !OsLaws O} (start : Snapshot) (polls : list Snapshot)
    (path grep : string) (offset : Z) (requestID : string) :
  (∃ e, StartTail start polls path grep offset requestID = [MkLogChunk requestID ("error: " +:+ e) 0]) ∨
  ∃ resolved, EvalSymlinks (Clean path) = Ok resolved ∧
    StartTail start polls path grep offset requestID = tail_file start polls resolved grep offset requestID ∧
    ¬ protected resolved ∧ ∀ grant, under grant path → under grant resolved.
Proof.
  unfold StartTail. destruct (validateLogPath path) as [q|e] eqn:Hv; [|left; by eexists]. right.
  apply validateLogPath_Ok in Hv as (Hp & He & Hq & Hin & Hb). exists q. split; [done|]. split; [done|].
  assert (Hcq := resolved_clean _ _ (rooted_Clean _ Hp) He).
  split; [intros Hpr; by rewrite (restricted_protected q) in Hb|].
  intros g Hg. eapply under_trans; [exact Hg|]. apply (Clean_under_l path q Hp).
  apply at_or_below_under; [by apply rooted_Clean|by apply clean_idem|done..].
Qed.

(** After a rotation the tail reads a megabyte of the new file and goes on at its end. *)
Lemma rotation_skips (sn : Snapshot) (f f' : nat) (path grepLower requestID : string) (o size : Z) (data : bytes) :
  sn_Stat sn path = Some size → size < o → sn_Open sn path = Some f' →
  sn_ReadAll sn f' limit = Some data → len data <= limit → limit < size →
  ∃ out, readNewData sn f path o grepLower requestID = (Some f', size, out) ∧ len data < size.
Proof.
  intros Hst Hlt Hop Hrd Hd Hsz. unfold readNewData. rewrite Hst, Hop, Hrd.
  destruct (Z.ltb_spec size o); [|lia]. eexists. split; [done|]. lia.
Qed.

(** ** A file that grows by a word *)

#[local] Notation demo_file c := (Build_Snapshot (λ _, Some (len c)) (λ _, Some 3%nat) (λ _, Some (len c))
  (λ _ _, true) (λ _ n, Some (String.substring 0 (Z.to_nat n) c))
  (λ _ o n, Some (String.substring (Z.to_nat o) (Z.to_nat n) c))).

Lemma demo_follows (path : string) (c : bytes) : follows path 3%nat c (demo_file c).
Proof. split; [done|]. intros off n H1 H2. exists (Z.to_nat n). split; [lia|done]. Qed.

Lemma tail_follows_witness :
  data_of (tail_file (demo_file "hello") ([demo_file "hello world"] ++ replicate 1 (demo_file "hello world"))
    "/var/log/a.log" "" 0 "r1") = " world".
Proof.
  refine (proj2 (proj2 (tail_follows (demo_file "hello") "/var/log/a.log" "r1" 3 0 "hello" "hello world"
    [demo_file "hello world"] _ _ _)) 1%nat (demo_file "hello world") _ _ _).
  - by split.
  - by vm_compute.
  - econstructor; [by exists " world"|apply demo_follows|constructor].
  - apply demo_follows.
  - done.
  - by vm_compute.
Defined.

Lemma tail_confined_witness :
  StartTail (O := demo_os) (demo_file "x") [] "/var/log/link" "" 0 "r1" =
    [MkLogChunk "r1" ("error: " +:+ errPathRestricted) 0] ∨ ¬ protected "/etc/shadow".
Proof.
  destruct (tail_confined (OsLaws0 := demo_os_laws) (demo_file "x") [] "/var/log/link" "" 0 "r1")
    as [_|(q & Hq & _ & Hp & _)]; [left; by vm_compute|right].
  vm_compute in Hq. congruence.
Defined.

(** A line that two polls split is searched in halves. *)
Example split_line_missed :
  (poll_loop [demo_file "ab"; demo_file ("abcd" +:+ newline)] 3 "/f" 0 "bc" "r1").1 = [].
Proof. by vm_compute. Qed.
