(* ===== verification/Dropzone.v ===== *)
(** * The agent's dropzone (agent/internal/dropzone/dropzone.go).

    Files are inodes with names, as an open file survives the removal and the replacement of its
    name.  The operating system's failures are an oracle: one answer for every open, write and
    rename.  Logging is left out; [HandleChunk] holds the mutex throughout. *)

From S2P Require Import Prelude GoStr Proto.
From S2P Require FileBrowser Streams.

Definition errFileOperation : string := "file operation failed".
Definition MaxUploadSize : Z := 100 * 1024 * 1024.
Definition MaxConcurrentUploads : nat := 10.

(** ** Files *)

Record Fs := MkFs { names : gmap string nat; inodes : gmap nat bytes; fresh_inode : nat }.

Definition read_file (path : string) (fs : Fs) : option bytes := names fs !! path ≫= λ i, inodes fs !! i.

(** os.OpenFile with O_CREATE and O_TRUNC *)
Definition open_trunc (path : string) (fs : Fs) : nat * Fs :=
  match names fs !! path with
  | Some i => (i, MkFs (names fs) (<[i := ""]> (inodes fs)) (fresh_inode fs))
  | None => let i := fresh_inode fs in
            (i, MkFs (<[path := i]> (names fs)) (<[i := ""]> (inodes fs)) (S i))
  end.
Definition append_file (i : nat) (data : bytes) (fs : Fs) : Fs :=
  MkFs (names fs) (alter (λ c, c +:+ data) i (inodes fs)) (fresh_inode fs).
Definition remove_file (path : string) (fs : Fs) : Fs :=
  MkFs (delete path (names fs)) (inodes fs) (fresh_inode fs).
(** os.RemoveAll of a directory; names are absolute paths. *)
Definition below (dir path : string) : bool :=
  is_rooted path && FileBrowser.at_or_below (Clean dir) (Clean path).
Definition remove_all (dir : string) (fs : Fs) : Fs :=
  MkFs (filter (λ n, below dir n.1 = false) (names fs)) (inodes fs) (fresh_inode fs).
(** os.Rename; [None] when there is nothing to rename. *)
Definition rename_file (from to : string) (fs : Fs) : option Fs :=
  i ← names fs !! from; Some (MkFs (<[to := i]> (delete from (names fs))) (inodes fs) (fresh_inode fs)).

(** ** Uploads *)

Record uploadState := MkUpload { up_file : nat; up_name : string; up_bytes : Z; up_finalName : string }.

(** [None] for success; a failing write writes some bytes first. *)
Definition os_answer : Type := option nat.

Record Dropzone := MkDropzone {
  dz_dir : string;
  dz_uploads : gmap string uploadState;
  dz_fs : Fs;
  dz_answers : list os_answer
}.
#[export] Instance eta_Dropzone : Eta Dropzone := λ r, MkDropzone (dz_dir r) (dz_uploads r) (dz_fs r)
  (dz_answers r).

Definition answer (d : Dropzone) : os_answer * Dropzone :=
  match dz_answers d with
  | [] => (None, d)
  | a :: l => (a, d <| dz_answers := l |>)
  end.

Definition New (dir : string) (fs : Fs) (answers : list os_answer) : Dropzone := MkDropzone dir ∅ fs answers.

Definition sanitizeFilename (name : string) : string :=
  let base := Base name in
  if String.eqb base "." || String.eqb base ".." || String.eqb base "/" then "" else base.

Definition refuse (requestID error : string) : Response := FileUploadAck requestID false error.

Definition openNewUpload (requestID filename : string) (d : Dropzone)
  : (uploadState + Response) * Dropzone :=
  if (MaxConcurrentUploads <=? size (dz_uploads d))%nat
  then (inr (refuse requestID "too many concurrent uploads"), d) else
  if String.eqb filename "" then (inr (refuse requestID "no filename provided"), d) else
  let safe := sanitizeFilename filename in
  if String.eqb safe "" then (inr (refuse requestID "invalid filename"), d) else
  let tmpPath := JoinPath (dz_dir d) (".upload-" +:+ requestID) in
  let '(a, d) := answer d in
  match a with
  | Some _ => (inr (refuse requestID errFileOperation), d)
  | None => let '(i, fs) := open_trunc tmpPath (dz_fs d) in
            (inl (MkUpload i tmpPath 0 safe), d <| dz_fs := fs |>)
  end.

Definition forget (requestID : string) (d : Dropzone) : Dropzone :=
  d <| dz_uploads ::= delete requestID |>.

(** The part of [HandleChunk] that writes: the new state, or the refusal. *)
Definition write_chunk (requestID : string) (data : bytes) (state : uploadState) (d : Dropzone)
  : (uploadState + Response) * Dropzone :=
  let n := Z.of_nat (String.length data) in
  if n =? 0 then (inl state, d) else
  if MaxUploadSize <? up_bytes state + n then
    (inr (refuse requestID "file size limit exceeded"),
     forget requestID (d <| dz_fs ::= remove_file (up_name state) |>)) else
  let '(a, d) := answer d in
  match a with
  | Some k =>
      (inr (refuse requestID errFileOperation),
       forget requestID (d <| dz_fs ::= append_file (up_file state) (String.substring 0 k data) |>))
  | None =>
      let state := MkUpload (up_file state) (up_name state) (up_bytes state + n) (up_finalName state) in
      (inl state, d <| dz_fs ::= append_file (up_file state) data |>
                    <| dz_uploads ::= <[requestID := state]> |>)
  end.

(** The part of the final chunk. *)
Definition finish (requestID : string) (state : uploadState) (d : Dropzone) : Response * Dropzone :=
  let finalPath := JoinPath (dz_dir d) (up_finalName state) in
  let '(a, d) := answer d in
  match a, rename_file (up_name state) finalPath (dz_fs d) with
  | None, Some fs => (FileUploadAck requestID true "", forget requestID (d <| dz_fs := fs |>))
  | _, _ => (refuse requestID errFileOperation,
             forget requestID (d <| dz_fs ::= remove_file (up_name state) |>))
  end.

Definition HandleChunk (requestID filename : string) (data : bytes) (done : bool) (d : Dropzone)
  : option Response * Dropzone :=
  let '(state, d) :=
    match dz_uploads d !! requestID with
    | Some state => (inl state, d)
    | None => let '(r, d) := openNewUpload requestID filename d in
              match r with
              | inl state => (inl state, d <| dz_uploads ::= <[requestID := state]> |>)
              | inr ack => (inr ack, d)
              end
    end in
  match state with
  | inr ack => (Some ack, d)
  | inl state =>
      let '(r, d) := write_chunk requestID data state d in
      match r with
      | inr ack => (Some ack, d)
      | inl state => if done then let '(ack, d) := finish requestID state d in (Some ack, d)
                     else (None, d)
      end
  end.

(** Every upload in progress loses its temporary file. *)
Definition Cleanup (d : Dropzone) : Dropzone :=
  d <| dz_fs ::= λ fs, foldr (λ u fs, remove_file (up_name u) fs) fs (map_to_list (dz_uploads d)).*2 |>
    <| dz_uploads := ∅ |>.

(** ** Delivering the hub's messages *)

Fixpoint deliver (ms : list HubMessage) (d : Dropzone) : list Response * Dropzone :=
  match ms with
  | [] => ([], d)
  | FileUploadRequest id filename chunk done :: ms' =>
      let '(ack, d1) := HandleChunk id filename chunk done d in
      let '(acks, d2) := deliver ms' d1 in
      (match ack with Some a => a :: acks | None => acks end, d2)
  | _ :: ms' => deliver ms' d
  end.

Definition whole (ds : list bytes) : bytes := foldr String.append "" ds.

(** Every inode has one name at most, and new inodes are new. *)
Record fs_ok (fs : Fs) : Prop := {
  fo_inj : ∀ p q i, names fs !! p = Some i → names fs !! q = Some i → p = q;
  fo_fresh : ∀ p i, names fs !! p = Some i → (i < fresh_inode fs)%nat
}.

(** An upload in progress: its temporary file holds [c], and other names are as in [fs0]. *)
Record uploading (id : string) (c : bytes) (d0 d : Dropzone) (s : uploadState) : Prop := {
  ug_state : dz_uploads d !! id = Some s;
  ug_others : delete id (dz_uploads d) = dz_uploads d0;
  ug_dir : dz_dir d = dz_dir d0;
  ug_answers : dz_answers d = [];
  ug_name : names (dz_fs d) !! up_name s = Some (up_file s);
  ug_data : inodes (dz_fs d) !! up_file s = Some c;
  ug_bytes : up_bytes s = Z.of_nat (String.length c);
  ug_names : ∀ p, p ≠ up_name s → names (dz_fs d) !! p = names (dz_fs d0) !! p;
  ug_inodes : ∀ i, i ≠ up_file s → inodes (dz_fs d) !! i = inodes (dz_fs d0) !! i;
  ug_unshared : ∀ p, p ≠ up_name s → names (dz_fs d0) !! p ≠ Some (up_file s)
}.

Lemma write_chunk_uploading (id : string) (c data : bytes) (d0 d : Dropzone) (s : uploadState) :
  uploading id c d0 d s → up_bytes s + Z.of_nat (String.length data) <= MaxUploadSize →
  ∃ s' d', write_chunk id data s d = (inl s', d') ∧ uploading id (c +:+ data) d0 d' s' ∧
    up_name s' = up_name s ∧ up_finalName s' = up_finalName s.
Proof.
  intros [H1 H2 H3 H4 H5 H6 H7 H8 H9 H10] Hs. unfold write_chunk.
  destruct (Z.eqb_spec (Z.of_nat (String.length data)) 0) as [Hz|Hz].
  { destruct data; [|simpl in Hz; lia]. rewrite app_empty_r. exists s, d. by repeat split. }
  destruct (Z.ltb_spec MaxUploadSize (up_bytes s + Z.of_nat (String.length data))); [lia|].
  unfold answer. rewrite H4. simpl. do 2 eexists. split; [done|]. split; [|done].
  split; simpl; try done.
  - by rewrite lookup_insert_eq.
  - by rewrite delete_insert_eq.
  - by rewrite lookup_alter_eq, H6.
  - rewrite length_app_str. lia.
  - intros i Hi. rewrite lookup_alter_ne by done. by apply H9.
Qed.

Lemma finish_uploading (id : string) (c : bytes) (d0 d : Dropzone) (s : uploadState) :
  uploading id c d0 d s →
  let final := JoinPath (dz_dir d0) (up_finalName s) in
  ∃ d', finish id s d = (FileUploadAck id true "", d') ∧
    read_file final (dz_fs d') = Some c ∧ dz_uploads d' = dz_uploads d0 ∧
    (up_name s ≠ final → read_file (up_name s) (dz_fs d') = None) ∧
    ∀ p, p ≠ final → p ≠ up_name s → read_file p (dz_fs d') = read_file p (dz_fs d0).
Proof.
  intros [H1 H2 H3 H4 H5 H6 H7 H8 H9 H10]. simpl. unfold finish, answer. rewrite H4, H3. simpl.
  unfold rename_file. rewrite H5. simpl. eexists. split; [done|]. simpl. unfold read_file. simpl.
  split_and!.
  - by rewrite lookup_insert_eq.
  - done.
  - intros Hne. by rewrite lookup_insert_ne, lookup_delete_eq.
  - intros p Hp Hn. rewrite lookup_insert_ne, lookup_delete_ne, H8 by done.
    destruct (names (dz_fs d0) !! p) as [i|] eqn:Hi; [|done]. simpl. apply H9. intros ->.
    by apply (H10 p).
Qed.

Lemma open_uploading (id filename : string) (d : Dropzone) :
  dz_answers d = [] → dz_uploads d !! id = None → (size (dz_uploads d) < MaxConcurrentUploads)%nat →
  filename ≠ "" → sanitizeFilename filename ≠ "" → fs_ok (dz_fs d) →
  ∃ s d1, openNewUpload id filename d = (inl s, d1) ∧
    uploading id "" d (d1 <| dz_uploads ::= <[id := s]> |>) s ∧
    up_name s = JoinPath (dz_dir d) (".upload-" +:+ id) ∧ up_finalName s = sanitizeFilename filename.
Proof.
  intros Ha Hu Hsz Hf Hs [Hinj Hfr]. unfold openNewUpload.
  destruct (Nat.leb_spec MaxConcurrentUploads (size (dz_uploads d))); [lia|].
  rewrite (proj2 (String.eqb_neq _ _) Hf), (proj2 (String.eqb_neq _ _) Hs).
  unfold answer. rewrite Ha. set (tmp := JoinPath _ _).
  unfold open_trunc. destruct (names (dz_fs d) !! tmp) as [i|] eqn:Ht.
  - do 2 eexists. split; [done|]. split; [|done]. split; simpl; try done.
    + by rewrite lookup_insert_eq.
    + by rewrite delete_insert_eq, delete_id.
    + by rewrite lookup_insert_eq.
    + intros j Hj. by rewrite lookup_insert_ne.
    + intros p Hp Hpi. apply Hp. by eapply Hinj.
  - do 2 eexists. split; [done|]. split; [|done]. split; simpl; try done.
    + by rewrite lookup_insert_eq.
    + by rewrite delete_insert_eq, delete_id.
    + by rewrite lookup_insert_eq.
    + by rewrite lookup_insert_eq.
    + intros p Hp. by rewrite lookup_insert_ne.
    + intros j Hj. by rewrite lookup_insert_ne.
    + intros p _ Hp. apply Hfr in Hp. lia.
Qed.

Lemma deliver_rest (id filename : string) (ds : list bytes) (c : bytes) (d0 d : Dropzone)
    (s : uploadState) :
  uploading id c d0 d s → Z.of_nat (String.length c) + Streams.total_size ds <= MaxUploadSize →
  let final := JoinPath (dz_dir d0) (up_finalName s) in
  ∃ d', deliver (Streams.chunk_messages id filename false ds ++ [Streams.done_message id]) d =
          ([FileUploadAck id true ""], d') ∧
    read_file final (dz_fs d') = Some (c +:+ whole ds) ∧ dz_uploads d' = dz_uploads d0 ∧
    (up_name s ≠ final → read_file (up_name s) (dz_fs d') = None) ∧
    ∀ p, p ≠ final → p ≠ up_name s → read_file p (dz_fs d') = read_file p (dz_fs d0).
Proof.
  revert c d s. induction ds as [|x ds IH]; intros c d s Hu Hsz.
  - simpl. unfold Streams.done_message. simpl. unfold HandleChunk. rewrite (ug_state _ _ _ _ _ Hu).
    unfold write_chunk. simpl. destruct (finish_uploading _ _ _ _ _ Hu) as (d' & -> & H).
    exists d'. rewrite app_empty_r. by split.
  - simpl in Hsz. assert (Hn := Streams.total_size_nonneg ds). unfold Streams.len in Hsz.
    destruct (write_chunk_uploading id c x d0 d s Hu) as (s' & d1 & Hw & Hu1 & Hnm & Hfn).
    { rewrite (ug_bytes _ _ _ _ _ Hu). lia. }
    rewrite Streams.chunk_messages_cons. cbn [app deliver]. unfold HandleChunk.
    rewrite (ug_state _ _ _ _ _ Hu), Hw.
    destruct (IH (c +:+ x) d1 s' Hu1) as (d' & Hd & H).
    { rewrite length_app_str. lia. }
    change (Streams.chunkFilename filename false) with "" in *.
    rewrite Hd. exists d'. rewrite Hnm, Hfn in H. rewrite app_assoc_str in H. by split.
Qed.


(** A file, two pieces, and another upload's name in the directory. *)
#[local] Notation fs1 := (MkFs {["/tmp/dz/old" := 0%nat]} {[0%nat := "o"]} 1).

Lemma fs1_ok : fs_ok fs1.
Proof.
  split.
  - intros p q i Hp Hq. simpl in Hp, Hq. apply lookup_singleton_Some in Hp as [<- _], Hq as [<- _]. done.
  - intros p i Hp. simpl in Hp. apply lookup_singleton_Some in Hp as [_ <-]. simpl. lia.
Qed.


(** ** Every sequence of chunks and disconnections *)

Inductive dz_op :=
| OpChunk (requestID filename : string) (data : bytes) (done : bool)
| OpCleanup.

Definition dz_step (d : Dropzone) (o : dz_op) : Dropzone :=
  match o with
  | OpChunk id filename data done => (HandleChunk id filename data done d).2
  | OpCleanup => Cleanup d
  end.

(** The hub's request identifiers are UUIDs. *)
Definition op_ok (o : dz_op) : bool :=
  match o with OpChunk id _ _ _ => no_byte "/" id | OpCleanup => true end.

(** A file directly in the directory. *)
Definition inside (dir p : string) : Prop := ∃ b, plain_elem b ∧ p = JoinPath dir b.

Section confined.
Context (dir : string) (fs0 : Fs).
(** The files that may change: those directly in the directory, and perhaps others. *)
Context (region : string → Prop) (region_inside : ∀ p, inside dir p → region p).

(** Files elsewhere are as they were. *)
Record fs_inv (fs : Fs) : Prop := {
  fi_ok : fs_ok fs;
  fi_names : ∀ p, ¬ region p → names fs !! p = names fs0 !! p;
  fi_data : ∀ p i, ¬ region p → names fs0 !! p = Some i → inodes fs !! i = inodes fs0 !! i
}.

Definition named_inside (fs : Fs) (i : nat) : Prop := ∀ p, names fs !! p = Some i → region p.

Lemma open_trunc_inv (p : string) (fs : Fs) :
  region p → fs_inv fs →
  let '(i, fs') := open_trunc p fs in
  fs_inv fs' ∧ named_inside fs' i ∧ ∀ j, named_inside fs j → named_inside fs' j.
Proof.
  intros Hp [[Hinj Hfr] Hn Hd]. unfold open_trunc. destruct (names fs !! p) as [i|] eqn:Hi.
  - assert (Hone : ∀ q, names fs !! q = Some i → q = p) by eauto.
    split_and!; [split; simpl; [by split| done|]| |done].
    + intros q j Hq Hj. rewrite lookup_insert_ne; [by eapply Hd|]. intros ->.
      rewrite <- Hn in Hj by done. apply Hone in Hj. by subst.
    + intros q Hq. by rewrite (Hone q Hq).
  - assert (Hlook : ∀ q j, <[p := fresh_inode fs]> (names fs) !! q = Some j →
        q = p ∧ j = fresh_inode fs ∨ names fs !! q = Some j).
    { intros q j. rewrite lookup_insert_Some. naive_solver. }
    split_and!; [split; simpl; [split; simpl| |]| |]; simpl.
    + intros q r j [[-> ->]|Hq]%Hlook [[-> Hj]|Hr]%Hlook; [done| | |by eapply Hinj].
      * apply Hfr in Hr. lia.
      * subst. apply Hfr in Hq. lia.
    + intros q j [[-> ->]|Hq]%Hlook; [lia|]. apply Hfr in Hq. lia.
    + intros q Hq. rewrite lookup_insert_ne; [by apply Hn|]. by intros ->.
    + intros q j Hq Hj. rewrite lookup_insert_ne; [by eapply Hd|]. intros <-.
      rewrite <- Hn in Hj by done. apply Hfr in Hj. lia.
    + intros q [[-> _]|Hq]%Hlook; [done|]. apply Hfr in Hq. lia.
    + intros j Hj q [[-> _]|Hq]%Hlook; [done|]. by apply Hj.
Qed.

Lemma append_inv (i : nat) (data : bytes) (fs : Fs) :
  named_inside fs i → fs_inv fs → fs_inv (append_file i data fs).
Proof.
  intros Hi [Hok Hn Hd]. split; simpl; [by destruct Hok| done|]. intros q j Hq Hj.
  rewrite lookup_alter_ne; [by eapply Hd|]. intros ->. rewrite <- Hn in Hj by done. by apply Hi in Hj.
Qed.

Lemma remove_inv (p : string) (fs : Fs) :
  region p → fs_inv fs →
  fs_inv (remove_file p fs) ∧ ∀ j, named_inside fs j → named_inside (remove_file p fs) j.
Proof.
  intros Hp [[Hinj Hfr] Hn Hd]. unfold remove_file.
  assert (Hlook : ∀ q j, delete p (names fs) !! q = Some j → names fs !! q = Some j).
  { by intros q j [_ Hq]%lookup_delete_Some. }
  split; [split; simpl; [split; simpl| |]|]; simpl; eauto.
  - intros q Hq. rewrite lookup_delete_ne; [by apply Hn|]. by intros ->.
  - intros j Hj q Hq%Hlook. by apply Hj.
Qed.

Lemma remove_all_inv (root : string) (fs : Fs) :
  (∀ p, below root p = true → region p) → fs_inv fs →
  fs_inv (remove_all root fs) ∧ ∀ j, named_inside fs j → named_inside (remove_all root fs) j.
Proof.
  intros Hp [[Hinj Hfr] Hn Hd]. unfold remove_all.
  assert (Hlook : ∀ q j, filter (λ n, below root n.1 = false) (names fs) !! q = Some j → names fs !! q = Some j).
  { by intros q j [Hq _]%map_lookup_filter_Some. }
  split; [split; simpl; [split; simpl| |]|]; simpl; eauto.
  - intros q Hq. rewrite <- Hn by done. rewrite map_lookup_filter. destruct (names fs !! q) as [j|]; [|done]. simpl.
    rewrite option_guard_True; [done|]. simpl. destruct (below root q) eqn:Hb; [|done]. by apply Hp in Hb.
  - intros j Hj q Hq%Hlook. by apply Hj.
Qed.

Lemma rename_inv (from to : string) (fs fs' : Fs) :
  region from → region to → rename_file from to fs = Some fs' → fs_inv fs →
  fs_inv fs' ∧ ∀ j, named_inside fs j → named_inside fs' j.
Proof.
  intros Hf Ht Hr [[Hinj Hfr] Hn Hd]. unfold rename_file in Hr.
  destruct (names fs !! from) as [i|] eqn:Hi; [|done]. simpl in Hr. injection Hr as <-.
  assert (Hlook : ∀ q j, <[to := i]> (delete from (names fs)) !! q = Some j →
      q = to ∧ j = i ∨ q ≠ from ∧ names fs !! q = Some j).
  { intros q j. rewrite lookup_insert_Some, lookup_delete_Some. naive_solver. }
  split; [split; simpl; [split; simpl| |]|]; simpl.
  - intros q r j [[-> ->]|[Hq1 Hq]]%Hlook [[-> Hj]|[Hr1 Hr]]%Hlook; [done| | |by eapply Hinj].
    + destruct Hr1. by eapply Hinj.
    + subst. destruct Hq1. by eapply Hinj.
  - intros q j [[-> ->]|[_ Hq]]%Hlook; by eapply Hfr.
  - intros q Hq. rewrite lookup_insert_ne, lookup_delete_ne; [by apply Hn|by intros ->..].
  - intros q j Hq Hj. by eapply Hd.
  - intros j Hj q [[-> _]|[_ Hq]]%Hlook; [done|]. by apply Hj.
Qed.

Record upload_inv (fs : Fs) (s : uploadState) : Prop := {
  ui_name : region (up_name s);
  ui_final : plain_elem (up_finalName s);
  ui_bytes : 0 <= up_bytes s <= MaxUploadSize;
  ui_file : named_inside fs (up_file s)
}.

Record dz_inv (d : Dropzone) : Prop := {
  di_dir : dz_dir d = dir;
  di_fs : fs_inv (dz_fs d);
  di_size : (size (dz_uploads d) <= MaxConcurrentUploads)%nat;
  di_uploads : ∀ id s, dz_uploads d !! id = Some s → upload_inv (dz_fs d) s
}.

Lemma upload_inv_mono (fs fs' : Fs) (s : uploadState) :
  (∀ j, named_inside fs j → named_inside fs' j) → upload_inv fs s → upload_inv fs' s.
Proof. intros H []. by split; auto. Qed.

(** A change of the files that keeps them, with the upload forgotten. *)
Lemma forget_inv (id : string) (d : Dropzone) (fs : Fs) :
  dz_inv d → fs_inv fs → (∀ j, named_inside (dz_fs d) j → named_inside fs j) →
  dz_inv (forget id (d <| dz_fs := fs |>)).
Proof.
  intros [H1 H2 H3 H4] Hfs Hm. split; simpl; try done.
  - rewrite map_size_delete. destruct (dz_uploads d !! id); simpl; lia.
  - intros id' s [_ Hs]%lookup_delete_Some. eapply upload_inv_mono; [exact Hm|by eapply H4].
Qed.

Lemma files_inv (d : Dropzone) (fs : Fs) (l : list os_answer) :
  dz_inv d → fs_inv fs → (∀ j, named_inside (dz_fs d) j → named_inside fs j) →
  dz_inv (d <| dz_answers := l |> <| dz_fs := fs |>).
Proof.
  intros [H1 H2 H3 H4] Hfs Hm. split; simpl; [done..|]. intros id s Hs.
  eapply upload_inv_mono; [exact Hm|by eapply H4].
Qed.

Lemma tmp_plain (id : string) : no_byte "/" id = true → plain_elem (".upload-" +:+ id).
Proof. intros H. by split_and!. Qed.

Lemma last_Forall {A} (P : A → Prop) (l : list A) (x : A) : Forall P l → last l = Some x → P x.
Proof. rewrite Forall_forall. intros H Hl. apply H. by apply last_Some_elem_of. Qed.

Lemma sanitize_plain (name : string) : sanitizeFilename name ≠ "" → plain_elem (sanitizeFilename name).
Proof.
  unfold sanitizeFilename. destruct (String.eqb_spec (Base name) "."), (String.eqb_spec (Base name) ".."),
    (String.eqb_spec (Base name) "/"); simpl; try done. intros Hne. split_and!; [done..|].
  unfold Base in *. destruct (String.eqb name ""); [done|].
  destruct (last (Split "/" (trim_right_slash name))) as [w|] eqn:Hl; [|done].
  destruct (String.eqb w ""); [done|]. by eapply (last_Forall _ _ _ (Split_no_byte _ _) Hl).
Qed.

Lemma write_chunk_inv (id : string) (data : bytes) (s : uploadState) (d : Dropzone) :
  dz_inv d → dz_uploads d !! id = Some s →
  let '(r, d') := write_chunk id data s d in
  dz_inv d' ∧ match r with inl s' => dz_uploads d' !! id = Some s' | inr _ => True end.
Proof.
  intros Hd Hs. assert (Hu := di_uploads _ Hd _ _ Hs). unfold write_chunk.
  destruct (Z.eqb_spec (Z.of_nat (String.length data)) 0) as [|Hz]; [done|].
  destruct (Z.ltb_spec MaxUploadSize (up_bytes s + Z.of_nat (String.length data))) as [|Hm].
  { destruct (remove_inv (up_name s) _ (ui_name _ _ Hu) (di_fs _ Hd)).
    split; [by apply (forget_inv id d)|done]. }
  unfold answer. assert (Happ : ∀ data, fs_inv (append_file (up_file s) data (dz_fs d))).
  { intros data'. apply append_inv; [apply Hu|apply Hd]. }
  assert (Hgo : ∀ l, dz_inv (d <| dz_answers := l |> <| dz_fs ::= append_file (up_file s) data |>
    <| dz_uploads ::= <[id := MkUpload (up_file s) (up_name s)
         (up_bytes s + Z.of_nat (String.length data)) (up_finalName s)]> |>)).
  { intros l. destruct Hd as [H1 H2 H3 H4]. split; simpl; [done|apply Happ| |].
    - rewrite map_size_insert, Hs. done.
    - intros id' s' [[<- <-]|[_ Hs']]%lookup_insert_Some; [|by destruct (H4 _ _ Hs'); split].
      destruct Hu. split; simpl; try done. lia. }
  assert (Hbad : ∀ l k, dz_inv (forget id
    (d <| dz_answers := l |> <| dz_fs ::= append_file (up_file s) (String.substring 0 k data) |>))).
  { intros l k. destruct (forget_inv id d _ Hd (Happ (String.substring 0 k data))) as [? ? ? ?]; [done|].
    by split. }
  destruct (dz_answers d) as [|[k|] l] eqn:Ha; simpl.
  - split; [|by rewrite lookup_insert_eq]. specialize (Hgo []). rewrite <- Ha in Hgo. by destruct d.
  - split; [apply (Hbad l k)|done].
  - split; [apply (Hgo l)|by rewrite lookup_insert_eq].
Qed.

Lemma finish_inv (id : string) (s : uploadState) (d : Dropzone) :
  dz_inv d → dz_uploads d !! id = Some s → dz_inv (finish id s d).2.
Proof.
  intros Hd Hs. assert (Hu := di_uploads _ Hd _ _ Hs). unfold finish, answer.
  assert (Hbad : ∀ l, dz_inv (forget id (d <| dz_answers := l |> <| dz_fs ::= remove_file (up_name s) |>))).
  { intros l. destruct (remove_inv (up_name s) _ (ui_name _ _ Hu) (di_fs _ Hd)) as [Hr Hm].
    by destruct (forget_inv id d _ Hd Hr Hm). }
  assert (Hgood : ∀ fs l, rename_file (up_name s) (JoinPath (dz_dir d) (up_finalName s)) (dz_fs d) = Some fs →
    dz_inv (forget id (d <| dz_answers := l |> <| dz_fs := fs |>))).
  { intros fs l Hr. rewrite (di_dir _ Hd) in Hr.
    eapply rename_inv in Hr as [Hf Hm]; [|apply Hu|apply region_inside; eexists; split; [apply Hu|done]|apply Hd].
    by destruct (forget_inv id d _ Hd Hf Hm). }
  destruct (dz_answers d) as [|[k|] l] eqn:Ha; simpl.
  - destruct (rename_file _ _ _) eqn:Hr; simpl.
    + specialize (Hgood _ [] eq_refl). rewrite <- Ha in Hgood. by destruct d.
    + specialize (Hbad []). rewrite <- Ha in Hbad. by destruct d.
  - apply (Hbad l).
  - destruct (rename_file _ _ _) eqn:Hr; simpl; [by apply (Hgood _ l eq_refl)|apply (Hbad l)].
Qed.

Lemma openNewUpload_inv (id filename : string) (d : Dropzone) :
  no_byte "/" id = true → dz_inv d → dz_uploads d !! id = None →
  let '(r, d') := openNewUpload id filename d in
  dz_inv match r with inl s => d' <| dz_uploads ::= <[id := s]> |> | inr _ => d' end.
Proof.
  intros Hid Hd Hn. unfold openNewUpload.
  destruct (Nat.leb_spec MaxConcurrentUploads (size (dz_uploads d))) as [|Hsz]; [done|].
  destruct (String.eqb filename ""); [done|].
  destruct (String.eqb_spec (sanitizeFilename filename) "") as [|Hs]; [done|]. apply sanitize_plain in Hs.
  rewrite (di_dir _ Hd). set (tmp := JoinPath dir (".upload-" +:+ id)).
  assert (Htmp : region tmp) by (apply region_inside; eexists; split; [by apply tmp_plain|done]).
  assert (Hop : ∀ l d0, d0 = d <| dz_answers := l |> →
    let '(i, fs) := open_trunc tmp (dz_fs d0) in
    dz_inv (d0 <| dz_fs := fs |> <| dz_uploads ::= <[id := MkUpload i tmp 0 (sanitizeFilename filename)]> |>)).
  { intros l d0 ->. assert (H := open_trunc_inv tmp _ Htmp (di_fs _ Hd)). simpl.
    destruct (open_trunc tmp (dz_fs d)) as [i fs]. destruct H as (Hf & Hi & Hm). destruct Hd as [H1 _ H3 H4].
    split; simpl; try done.
    - rewrite map_size_insert, Hn. simpl. lia.
    - intros id' s' [[<- <-]|[_ Hs']]%lookup_insert_Some.
      + by split.
      + eapply upload_inv_mono; [exact Hm|by eapply H4]. }
  unfold answer. destruct (dz_answers d) as [|[k|] l] eqn:Ha; simpl.
  - specialize (Hop [] d). destruct (open_trunc tmp (dz_fs d)). simpl. apply Hop. rewrite <- Ha. by destruct d.
  - destruct Hd. by split.
  - specialize (Hop l _ eq_refl). simpl in Hop. by destruct (open_trunc tmp (dz_fs d)).
Qed.

Lemma HandleChunk_inv (id filename : string) (data : bytes) (done : bool) (d : Dropzone) :
  no_byte "/" id = true → dz_inv d → dz_inv (HandleChunk id filename data done d).2.
Proof.
  intros Hid Hd. unfold HandleChunk.
  assert (Hrest : ∀ s d, dz_inv d → dz_uploads d !! id = Some s →
    dz_inv (let '(r, d') := write_chunk id data s d in
      match r with
      | inr ack => (Some ack, d')
      | inl s' => if done then let '(ack, d'') := finish id s' d' in (Some ack, d'') else (None, d')
      end).2).
  { intros s d1 Hd1 Hs. assert (H := write_chunk_inv id data s d1 Hd1 Hs).
    destruct (write_chunk id data s d1) as [[s'|ack] d2]; destruct H as [H2 Hs']; [|done].
    destruct done; [|done]. apply (finish_inv id s' d2 H2) in Hs'. by destruct (finish id s' d2). }
  destruct (dz_uploads d !! id) as [s|] eqn:Hs; [by apply Hrest|].
  assert (H := openNewUpload_inv id filename d Hid Hd Hs).
  destruct (openNewUpload id filename d) as [[s|ack] d1]; [|done].
  apply Hrest; [done|]. simpl. by rewrite lookup_insert_eq.
Qed.

Lemma Cleanup_inv (d : Dropzone) : dz_inv d → dz_inv (Cleanup d).
Proof.
  intros [H1 H2 H3 H4]. split; simpl; [done| |unfold MaxConcurrentUploads; rewrite map_size_empty; lia|done].
  assert (HF : Forall (λ s, region (up_name s)) (map_to_list (dz_uploads d)).*2).
  { apply Forall_forall. intros s [[id s'] [-> Hs]]%list_elem_of_fmap. simpl.
    apply elem_of_map_to_list in Hs. by apply (H4 id). }
  clear H4. induction HF as [|s l Hs HF IH]; [done|]. simpl. by apply remove_inv.
Qed.

Lemma dz_step_inv (d : Dropzone) (o : dz_op) : op_ok o = true → dz_inv d → dz_inv (dz_step d o).
Proof. destruct o; simpl; [apply HandleChunk_inv|intros _; apply Cleanup_inv]. Qed.

Lemma New_inv (answers : list os_answer) : fs_ok fs0 → dz_inv (New dir fs0 answers).
Proof.
  intros H. split; simpl; [done|by split| |done]. rewrite map_size_empty. unfold MaxConcurrentUploads. lia.
Qed.
End confined.

(** uploads stay in the dropzone.  After any sequence of chunks, of any contents, order and
    file name, and of disconnections, with file operations failing at will, every file that is not
    directly inside the dropzone is as it was; at most ten uploads are open and none of them has
    written more than 100 MB.  The request identifiers are assumed free of slashes, as the hub's
    are: they are part of the temporary file's name. *)
Theorem dropzone_confined (dir : string) (fs : Fs) (answers : list os_answer) (ops : list dz_op) :
  fs_ok fs → forallb op_ok ops = true →
  let d := foldl dz_step (New dir fs answers) ops in
  (∀ p, ¬ inside dir p → read_file p (dz_fs d) = read_file p fs) ∧
  (size (dz_uploads d) <= MaxConcurrentUploads)%nat ∧
  ∀ id s, dz_uploads d !! id = Some s → 0 <= up_bytes s <= MaxUploadSize.
Proof.
  intros Hok Hops. assert (Hinv := New_inv dir fs (inside dir) answers Hok). simpl. revert Hinv Hops.
  generalize (New dir fs answers). induction ops as [|o ops IH]; intros d Hinv Hops.
  - destruct Hinv as [_ [_ Hn Hd] H3 H4]. split_and!; [|done|intros id s Hs; by apply (H4 id)].
    intros p Hp. unfold read_file. simpl. rewrite Hn by done.
    destruct (names fs !! p) as [i|] eqn:Hi; [|done]. simpl. by eapply Hd.
  - apply andb_prop in Hops as [Ho Hops]. simpl. apply IH; [|done]. by apply dz_step_inv.
Qed.

Lemma dropzone_confined_witness :
  let d := foldl dz_step (New "/tmp/dz" {| names := {["/etc/passwd" := 0%nat]}; inodes := {[0%nat := "root"]};
    fresh_inode := 1 |} [None; Some 1%nat]) [OpChunk "r1" "../../etc/passwd" "xyz" true; OpCleanup] in
  (size (dz_uploads d) <= MaxConcurrentUploads)%nat.
Proof.
  apply (dropzone_confined "/tmp/dz" {| names := {["/etc/passwd" := 0%nat]}; inodes := {[0%nat := "root"]};
    fresh_inode := 1 |}); [|done].
  split; simpl; intros p; intros; simplify_map_eq; try done; lia.
Defined.
