(* ===== verification/AgentTerminal.v ===== *)
(** * The agent's terminal manager (agent/internal/terminal/manager.go).

    The machine is a class of answers, one instance per call.  Shells are processes on a heap, as a
    session that left the registry still has its process.  [Open] checks, starts the shell and then
    registers it, with other goroutines running in between: its two halves are two steps. *)

From S2P Require Import Prelude GoStr Proto Model Db Http.
From S2P Require Ldap TerminalHandlers.

Definition defaultCols : Z := 120.
Definition defaultRows : Z := 36.
Definition maxCols : Z := 300.
Definition maxRows : Z := 120.
Definition maxSessions : nat := 8.
Definition terminalBufferSize : nat := 4096.
Definition terminalPath : string := "/usr/local/sbin:/usr/local/bin:/usr/sbin:/usr/bin:/sbin:/bin".
Definition errManagerStopped : string := "terminal manager unavailable".
Definition ErrSessionNotFound : string := "terminal session not found".

(** os/user.User *)
Record OsUser := MkOsUser { Username : string; Uid : string; Gid : string; Name : string; HomeDir : string }.

Record executionIdentity := MkIdentity {
  credential : Z * Z * list Z;               (* user, group and further groups *)
  username : string;
  homeDir : string
}.

(** exec.Cmd; no credential: the agent's own. *)
Record Cmd := MkCmd {
  Path : string;
  Env : list string;
  Credential : option (Z * Z * list Z);
  Dir : string
}.

Class Host := {
  Getenv : string → string;
  Stat : string → option bool;               (* a directory? *)
  lookupOSUser : string → result OsUser;
  lookupOSUserGroups : OsUser → result (list string);
  getent_passwd : string → result string;    (* the outputs of the commands *)
  id_G : string → result string;
  CurrentUser : result OsUser;
  StartWithSize : Cmd → Z * Z → result unit
}.

(** ** Parsing *)

(** strings.Fields over the runes and their bytes. *)
Fixpoint fields (cur : string) (l : list (Z * string)) : list string :=
  match l with
  | [] => if String.eqb cur "" then [] else [cur]
  | (r, b) :: l' =>
      if Ldap.IsSpace r then (if String.eqb cur "" then fields "" l' else cur :: fields "" l')
      else fields (cur +:+ b) l'
  end.
Definition Fields (s : string) : list string := fields "" (Ldap.segments (String.length s) s).

(** strconv.ParseUint(s, 10, 32) *)
Definition ParseUint32 (s : string) : option Z :=
  if String.eqb s "" then None else
  n ← parse_digits 0 s; if 2 ^ 32 - 1 <? n then None else Some n.

Definition parseGetentPasswdLine (line : string) : result OsUser :=
  match Split ":" line with
  | f0 :: f1 :: f2 :: f3 :: f4 :: f5 :: _ :: _ =>
      if String.eqb f0 "" || String.eqb f2 "" || String.eqb f3 "" then Err "invalid passwd entry"
      else Ok (MkOsUser f0 f2 f3 f4 f5)
  | _ => Err "invalid passwd entry"
  end.

Definition parseGroupIDs (output : string) : result (list string) :=
  let groupIDs := Fields output in
  match groupIDs with [] => Err "no groups found" | _ => Ok groupIDs end.

Definition username_byte (r : ascii) : bool :=
  is_lower r || is_upper r || is_digit r || Ascii.eqb r "_" || Ascii.eqb r "-" || Ascii.eqb r "." ||
  Ascii.eqb r "@".

Definition validateRunAsUsername (username : string) : result unit :=
  if String.eqb username "" || (128 <? String.length username)%nat || HasPrefix username "-"
  then Err "invalid terminal execution user" else
  if negb (all_bytes username_byte username) then Err "invalid terminal execution user" else Ok tt.

(** The arguments are 32-bit; the results fit 16. *)
Definition normalizedSize (cols rows : Z) : Z * Z :=
  let cols := if cols =? 0 then defaultCols else cols in
  let rows := if rows =? 0 then defaultRows else rows in
  let cols := if maxCols <? cols then maxCols else cols in
  let rows := if maxRows <? rows then maxRows else rows in
  (cols mod 2 ^ 16, rows mod 2 ^ 16).

(** ** The shell to start *)

Section shell.
Context `{H : Host}.

Definition resolveShell : result string :=
  match List.find (λ candidate, negb (String.eqb candidate "") &&
                                match Stat candidate with Some dir => negb dir | None => false end)
          [Getenv "SHELL"; "/bin/bash"; "/usr/bin/bash"; "/bin/sh"; "/usr/bin/sh"] with
  | Some shell => Ok shell
  | None => Err "no supported shell found on agent"
  end.

Definition lookupUserWithGetent (username : string) : result OsUser :=
  match getent_passwd username with
  | Err e => Err e
  | Ok output => parseGetentPasswdLine (default "" (head (Split "010" (Ldap.TrimSpace output))))
  end.

Definition lookupGroupIDsWithID (username : string) : result (list string) :=
  match id_G username with Err e => Err e | Ok output => parseGroupIDs output end.

Definition errGroups : string := "terminal execution user groups not available".

Definition lookupRunAsIdentity (runAsUser : string) : result (OsUser * list string) :=
  match lookupOSUser runAsUser with
  | Ok u =>
      match lookupOSUserGroups u with
      | Ok groupIDs => Ok (u, groupIDs)
      | Err _ => match lookupGroupIDsWithID runAsUser with
                 | Ok groupIDs => Ok (u, groupIDs)
                 | Err _ => Err errGroups
                 end
      end
  | Err _ =>
      match lookupUserWithGetent runAsUser with
      | Err e => Err e
      | Ok u => match lookupGroupIDsWithID runAsUser with
                | Ok groupIDs => Ok (u, groupIDs)
                | Err _ => Err errGroups
                end
      end
  end.

Definition executionIdentityForRunAs (runAsUser : string) : result (option executionIdentity) :=
  if String.eqb runAsUser "" then Ok None else
  match validateRunAsUsername runAsUser with
  | Err e => Err e
  | Ok _ =>
      match lookupRunAsIdentity runAsUser with
      | Err _ => Err "terminal execution user not available"
      | Ok (u, groupIDs) =>
          match ParseUint32 (Uid u), ParseUint32 (Gid u), mapM ParseUint32 groupIDs with
          | None, _, _ => Err "terminal execution user has invalid uid"
          | _, None, _ => Err "terminal execution user has invalid gid"
          | _, _, None => Err "terminal execution user has invalid group"
          | Some uid, Some gid, Some groups =>
              Ok (Some (MkIdentity (uid, gid, groups) (Username u) (HomeDir u)))
          end
      end
  end.

Definition user_env (username homeDir : string) : list string :=
  ["USER=" +:+ username; "LOGNAME=" +:+ username] ++
  (if String.eqb homeDir "" then [] else ["HOME=" +:+ homeDir]).

Definition buildTerminalEnv (shell : string) (identity : option executionIdentity) : list string :=
  ["TERM=xterm-256color"; "COLORTERM=truecolor"; "PATH=" +:+ terminalPath; "SHELL=" +:+ shell;
   "LANG=C.UTF-8"] ++
  match identity with
  | Some identity => user_env (username identity) (homeDir identity)
  | None => match CurrentUser with
            | Ok current => user_env (Username current) (HomeDir current)
            | Err _ => []
            end
  end.

Definition applyExecutionIdentity (cmd : Cmd) (identity : option executionIdentity) (cwd : string) : Cmd :=
  match identity with
  | None => cmd
  | Some identity =>
      MkCmd (Path cmd) (Env cmd) (Some (credential identity))
        (if negb (String.eqb (homeDir identity) "") && String.eqb cwd "" then homeDir identity else Dir cmd)
  end.

Definition applyWorkingDirectory (cmd : Cmd) (cwd : string) : result Cmd :=
  if String.eqb cwd "" then Ok cmd else
  let cleaned := Clean cwd in
  if negb (IsAbs cleaned) then Err "terminal cwd must be absolute" else
  match Stat cleaned with
  | None => Err "terminal cwd not available"
  | Some false => Err "terminal cwd must be a directory"
  | Some true => Ok (MkCmd (Path cmd) (Env cmd) (Credential cmd) cleaned)
  end.

(** The part of [Open] between its check and the start. *)
Definition shell_command (cwd runAsUser : string) : result Cmd :=
  match resolveShell with
  | Err e => Err e
  | Ok shell =>
      match executionIdentityForRunAs runAsUser with
      | Err e => Err e
      | Ok identity =>
          let cmd := MkCmd shell (buildTerminalEnv shell identity) None "" in
          applyWorkingDirectory (applyExecutionIdentity cmd identity cwd) cwd
      end
  end.
End shell.

(** ** Sessions *)

Record session := MkSession {
  s_id : string;
  s_cmd : Cmd;
  s_size : Z * Z;
  s_input : list bytes;        (* what was written to the terminal *)
  s_closed : bool;             (* closeOnce is done: the terminal is closed *)
  s_signalled : bool;          (* SIGHUP was sent, and SIGKILL follows *)
  s_exited : bool
}.
#[export] Instance eta_session : Eta session := λ r,
  MkSession (s_id r) (s_cmd r) (s_size r) (s_input r) (s_closed r) (s_signalled r) (s_exited r).

Record Manager := MkManager {
  sessions : gmap string nat;
  procs : gmap nat session;
  next_proc : nat;
  stopped : bool;
  sent : list AgentMessage
}.
#[export] Instance eta_Manager : Eta Manager := λ r,
  MkManager (sessions r) (procs r) (next_proc r) (stopped r) (sent r).

Definition NewManager : Manager := MkManager ∅ ∅ 0 false [].

(** The check both [validateOpenSlot] and [register] make, under the mutex. *)
Definition slot_free (sessionID : string) (m : Manager) : result unit :=
  if stopped m then Err errManagerStopped else
  if decide (is_Some (sessions m !! sessionID)) then Err "terminal session already exists" else
  if (maxSessions <=? size (sessions m))%nat then Err "too many active terminal sessions" else Ok tt.

Definition validateOpenSlot : string → Manager → result unit := slot_free.

Definition register (sessionID : string) (p : nat) (m : Manager) : result unit * Manager :=
  match slot_free sessionID m with
  | Err e => (Err e, m)
  | Ok _ => (Ok tt, m <| sessions ::= <[sessionID := p]> |>)
  end.

Definition closeSession (p : nat) (signalProcess : bool) (m : Manager) : Manager :=
  match procs m !! p with
  | None => m
  | Some s =>
      if s_closed s then m
      else m <| sessions ::= delete (s_id s) |>
             <| procs ::= <[p := s <| s_closed := true |> <| s_signalled := signalProcess |>]> |>
  end.

(** [Open] up to the start of the shell. *)
Definition Open_start `{H : Host} (sessionID : string) (cols rows : Z) (cwd runAsUser : string)
    (m : Manager) : result nat * Manager :=
  if String.eqb sessionID "" then (Err "session id is required", m) else
  if stopped m then (Err errManagerStopped, m) else
  match validateOpenSlot sessionID m with
  | Err e => (Err e, m)
  | Ok _ =>
      match shell_command cwd runAsUser with
      | Err e => (Err e, m)
      | Ok cmd =>
          match StartWithSize cmd (normalizedSize cols rows) with
          | Err e => (Err ("start terminal: " +:+ e), m)
          | Ok _ =>
              let p := next_proc m in
              (Ok p, m <| procs ::= <[p := MkSession sessionID cmd (normalizedSize cols rows) []
                                             false false false]> |>
                       <| next_proc := S p |>)
          end
      end
  end.

(** The rest of [Open]. *)
Definition Open_finish (sessionID : string) (p : nat) (m : Manager) : result unit * Manager :=
  let '(r, m) := register sessionID p m in
  match r with
  | Err e => (Err e, closeSession p true m)
  | Ok _ => (Ok tt, m)
  end.

Definition Open `{H : Host} (meanwhile : Manager → Manager) (sessionID : string) (cols rows : Z)
    (cwd runAsUser : string) (m : Manager) : result unit * Manager :=
  let '(r, m) := Open_start sessionID cols rows cwd runAsUser m in
  match r with
  | Err e => (Err e, m)
  | Ok p => Open_finish sessionID p (meanwhile m)
  end.

Definition get (sessionID : string) (m : Manager) : result nat :=
  match sessions m !! sessionID with Some p => Ok p | None => Err ErrSessionNotFound end.

(** [failure] is the write's. *)
Definition Input (sessionID : string) (data : bytes) (failure : option string) (m : Manager)
  : result unit * Manager :=
  match get sessionID m with
  | Err e => (Err e, m)
  | Ok p =>
      if String.eqb data "" then (Ok tt, m) else
      match failure with
      | Some e => (Err ("write terminal input: " +:+ e), m)
      | None => (Ok tt, m <| procs ::= alter (λ s, s <| s_input ::= λ l, l ++ [data] |>) p |>)
      end
  end.

Definition Resize (sessionID : string) (cols rows : Z) (failure : option string) (m : Manager)
  : result unit * Manager :=
  match get sessionID m with
  | Err e => (Err e, m)
  | Ok p =>
      match failure with
      | Some e => (Err ("resize terminal: " +:+ e), m)
      | None => (Ok tt, m <| procs ::= alter (λ s, s <| s_size := normalizedSize cols rows |>) p |>)
      end
  end.

Definition Close (sessionID : string) (m : Manager) : result unit * Manager :=
  match get sessionID m with
  | Err e => (Err e, m)
  | Ok p => (Ok tt, closeSession p true m)
  end.

Definition stop (m : Manager) : Manager := m <| stopped := true |>.

Definition close_each (ps : list nat) (m : Manager) : Manager :=
  foldl (λ m p, closeSession p true m) m ps.

Definition CloseAll (m : Manager) : Manager :=
  let m := stop m in close_each (map_to_list (sessions m)).*2 m.

(** The select of a stopped manager may still send. *)
Definition Send (msg : AgentMessage) (may_send : bool) (m : Manager) : bool * Manager :=
  if stopped m && negb may_send then (false, m) else (true, m <| sent ::= λ l, l ++ [msg] |>).

(** One turn of [readLoop], which reads [data]. *)
Definition readLoop (p : nat) (data : bytes) (may_send : bool) (m : Manager) : bool * Manager :=
  match procs m !! p with
  | Some s => if String.eqb data "" then (true, m) else Send (TerminalData (s_id s) data) may_send m
  | None => (false, m)
  end.

(** Why [Wait] returned. *)
Inductive exit_status := Exited (code : Z) | WaitFailed (e : string).

Definition waitLoop (p : nat) (why : exit_status) (may_send : bool) (m : Manager) : Manager :=
  match procs m !! p with
  | None => m
  | Some s =>
      let m := m <| procs ::= <[p := s <| s_exited := true |>]> |> in
      let '(code, e) := match why with Exited code => (code, "") | WaitFailed e => (-1, e) end in
      let '(_, m) := Send (TerminalExit (s_id s) code e) may_send m in
      closeSession p false m
  end.

(** ** Steps of the manager's goroutines *)

Record Sys := MkSys { mgr : Manager; opening : gset nat }.

Inductive step : Sys → Sys → Prop :=
  | step_start (H : Host) id cols rows cwd runAs m o p m' :
      (∀ q s, procs m !! q = Some s → s_id s ≠ id) →
      Open_start id cols rows cwd runAs m = (Ok p, m') → step (MkSys m o) (MkSys m' ({[p]} ∪ o))
  | step_finish p s m o : p ∈ o → procs m !! p = Some s →
      step (MkSys m o) (MkSys (Open_finish (s_id s) p m).2 (o ∖ {[p]}))
  | step_input id data e m o : step (MkSys m o) (MkSys (Input id data e m).2 o)
  | step_resize id cols rows e m o : step (MkSys m o) (MkSys (Resize id cols rows e m).2 o)
  | step_close id m o : step (MkSys m o) (MkSys (Close id m).2 o)
  | step_stop m o : step (MkSys m o) (MkSys (stop m) o)
  | step_close_each ps m o : (∀ p, p ∈ ps → p ∉ o) → step (MkSys m o) (MkSys (close_each ps m) o)
  | step_read p data ok m o : step (MkSys m o) (MkSys (readLoop p data ok m).2 o)
  | step_wait p why ok m o : p ∉ o → step (MkSys m o) (MkSys (waitLoop p why ok m) o).

Record sys_inv (x : Sys) : Prop := {
  si_registered : ∀ id p, sessions (mgr x) !! id = Some p →
    p ∉ opening x ∧ ∃ s, procs (mgr x) !! p = Some s ∧ s_id s = id ∧ s_closed s = false;
  si_accounted : ∀ p s, procs (mgr x) !! p = Some s → s_closed s = false →
    p ∈ opening x ∨ sessions (mgr x) !! s_id s = Some p;
  si_opening : ∀ p, p ∈ opening x → ∃ s, procs (mgr x) !! p = Some s ∧ s_closed s = false;
  si_ended : ∀ p s, procs (mgr x) !! p = Some s → s_closed s = true → s_signalled s || s_exited s = true;
  si_unique : ∀ p q s t, procs (mgr x) !! p = Some s → procs (mgr x) !! q = Some t → s_id s = s_id t → p = q;
  si_next : ∀ p s, procs (mgr x) !! p = Some s → (p < next_proc (mgr x))%nat;
  si_size : (size (sessions (mgr x)) <= maxSessions)%nat
}.

Lemma alter_as_insert {A} (f : A → A) (i : nat) (m : gmap nat A) (x : A) :
  m !! i = Some x → alter f i m = <[i := f x]> m.
Proof.
  intros Hx. apply map_eq. intros j. destruct (decide (i = j)) as [->|Hne].
  - by rewrite lookup_alter_eq, lookup_insert_eq, Hx.
  - by rewrite lookup_alter_ne, lookup_insert_ne.
Qed.

(** A change of a process that neither opens, closes nor renames it. *)
Definition same_session (s s' : session) : Prop :=
  s_id s' = s_id s ∧ s_closed s' = s_closed s ∧
  (s_signalled s || s_exited s = true → s_signalled s' || s_exited s' = true).

Lemma update_inv (m : Manager) (o : gset nat) (p : nat) (s s' : session) :
  procs m !! p = Some s → same_session s s' → sys_inv (MkSys m o) →
  sys_inv (MkSys (m <| procs ::= <[p := s']> |>) o).
Proof.
  intros Hp (Hid & Hcl & Hend) [I1 I2 I3 I4 I5 I6 I7]. simpl in *.
  assert (Hlook : ∀ q t, <[p := s']> (procs m) !! q = Some t →
    ∃ t0, procs m !! q = Some t0 ∧ s_id t = s_id t0 ∧ s_closed t = s_closed t0 ∧
          (s_signalled t0 || s_exited t0 = true → s_signalled t || s_exited t = true)).
  { intros q t [[<- <-]|[_ Hq]]%lookup_insert_Some; eauto 6. }
  assert (Hback : ∀ q t0, procs m !! q = Some t0 →
    ∃ t, <[p := s']> (procs m) !! q = Some t ∧ s_id t = s_id t0 ∧ s_closed t = s_closed t0).
  { intros q t0 Hq. destruct (decide (p = q)) as [<-|Hne].
    - rewrite lookup_insert_eq. simplify_eq. eauto.
    - rewrite lookup_insert_ne by done. eauto. }
  split; simpl; [| | | | | |done].
  - intros id q Hq. destruct (I1 id q Hq) as (Ho & t & Ht & Hi & Hc). split; [done|].
    destruct (Hback q t Ht) as (t' & ? & ? & ?). exists t'. by split_and!; [|congruence..].
  - intros q t Hq Hc. destruct (Hlook q t Hq) as (t0 & Ht & Hi & Hc0 & _). rewrite Hi.
    apply (I2 q t0 Ht). congruence.
  - intros q Hq. destruct (I3 q Hq) as (t & Ht & Hc). destruct (Hback q t Ht) as (t' & ? & _ & ?).
    exists t'. split; [done|congruence].
  - intros q t Hq Hc. destruct (Hlook q t Hq) as (t0 & Ht & _ & Hc0 & He). apply He, (I4 q t0 Ht). congruence.
  - intros q r t u Hq Hr He. destruct (Hlook q t Hq) as (t0 & Ht & Hi & _), (Hlook r u Hr) as (u0 & Hu & Hj & _).
    apply (I5 q r t0 u0 Ht Hu). congruence.
  - intros q t Hq. destruct (Hlook q t Hq) as (t0 & Ht & _). by eapply I6.
Qed.

(** Closing a session that is not being opened, or is no longer. *)
Lemma closeSession_inv (m : Manager) (o : gset nat) (p : nat) (signal : bool) :
  (∀ s, procs m !! p = Some s → signal || s_exited s = true) →
  sys_inv (MkSys m o) → sys_inv (MkSys (closeSession p signal m) (o ∖ {[p]})).
Proof.
  intros Hend [I1 I2 I3 I4 I5 I6 I7]. simpl in *. unfold closeSession.
  destruct (procs m !! p) as [s|] eqn:Hp.
  2: { assert (o ∖ {[p]} = o) as ->; [|by split].
       apply set_eq. intros q. rewrite elem_of_difference, elem_of_singleton. split; [tauto|].
       intros Hq. split; [done|]. intros ->. destruct (I3 p Hq) as (s & Hs & _). congruence. }
  destruct (s_closed s) eqn:Hcl.
  { assert (o ∖ {[p]} = o) as ->; [|by split].
    apply set_eq. intros q. rewrite elem_of_difference, elem_of_singleton. split; [tauto|].
    intros Hq. split; [done|]. intros ->. destruct (I3 p Hq) as (t & Ht & Hc). congruence. }
  specialize (Hend s eq_refl).
  assert (Hlook : ∀ q t, <[p := s <| s_closed := true |> <| s_signalled := signal |>]> (procs m) !! q = Some t →
    q = p ∧ t = s <| s_closed := true |> <| s_signalled := signal |> ∨ q ≠ p ∧ procs m !! q = Some t).
  { intros q t [[<- <-]|[Hne Hq]]%lookup_insert_Some; eauto. }
  split; simpl.
  - intros id q [Hne Hq]%lookup_delete_Some. destruct (I1 id q Hq) as (Ho & t & Ht & Hi & Hc).
    assert (q ≠ p) by (intros ->; simplify_eq). split; [set_solver|]. exists t. by rewrite lookup_insert_ne.
  - intros q t [[-> ->]|[Hne Hq]]%Hlook Hc; [done|]. destruct (I2 q t Hq Hc) as [Ho|Hs]; [left; set_solver|right].
    rewrite lookup_delete_ne; [done|]. intros He. apply Hne. by eapply I5.
  - intros q [Hq Hne]%elem_of_difference. destruct (I3 q Hq) as (t & Ht & Hc). exists t.
    rewrite lookup_insert_ne by set_solver. done.
  - intros q t [[-> ->]|[Hne Hq]]%Hlook Hc; [done|by eapply I4].
  - intros q r t u [[-> ->]|[_ Hq]]%Hlook [[-> ->]|[_ Hr]]%Hlook; simpl; [done| | |by apply I5].
    + intros He. by apply (I5 p r s u).
    + intros He. by apply (I5 q p t s).
  - intros q t [[-> ->]|[_ Hq]]%Hlook; by eapply I6.
  - rewrite map_size_delete. destruct (sessions m !! s_id s); simpl; lia.
Qed.

Lemma not_opening (o : gset nat) (p : nat) : p ∉ o → o ∖ {[p]} = o.
Proof. set_solver. Qed.

Lemma close_each_inv (ps : list nat) (m : Manager) (o : gset nat) :
  (∀ p, p ∈ ps → p ∉ o) → sys_inv (MkSys m o) → sys_inv (MkSys (close_each ps m) o).
Proof.
  revert m. induction ps as [|p ps IH]; intros m Hps Hi; [done|]. simpl. apply IH; [set_solver|].
  rewrite <- (not_opening o p) by set_solver. by apply closeSession_inv.
Qed.

Lemma Send_mgr (msg : AgentMessage) (ok : bool) (m : Manager) :
  let m' := (Send msg ok m).2 in
  sessions m' = sessions m ∧ procs m' = procs m ∧ next_proc m' = next_proc m ∧ stopped m' = stopped m.
Proof. unfold Send. by destruct (stopped m && negb ok). Qed.

Lemma sys_inv_ext (m m' : Manager) (o : gset nat) :
  sessions m' = sessions m → procs m' = procs m → next_proc m' = next_proc m →
  sys_inv (MkSys m o) → sys_inv (MkSys m' o).
Proof. intros H1 H2 H3 []. split; simpl in *; by rewrite ?H1, ?H2, ?H3. Qed.

Lemma Open_start_Ok `{H : Host} (id : string) (cols rows : Z) (cwd runAs : string) (m m' : Manager) (p : nat) :
  Open_start id cols rows cwd runAs m = (Ok p, m') →
  ∃ cmd, shell_command cwd runAs = Ok cmd ∧ stopped m = false ∧ p = next_proc m ∧
    m' = m <| procs ::= <[p := MkSession id cmd (normalizedSize cols rows) [] false false false]> |>
           <| next_proc := S p |>.
Proof.
  unfold Open_start. destruct (String.eqb id ""); [done|]. destruct (stopped m) eqn:Hs; [done|].
  destruct (validateOpenSlot id m); [|done]. destruct (shell_command cwd runAs) as [cmd|]; [|done].
  destruct (StartWithSize cmd _); [|done]. intros [= <- <-]. by exists cmd.
Qed.

Lemma start_inv `{H : Host} (id : string) (cols rows : Z) (cwd runAs : string) (m m' : Manager) (p : nat)
    (o : gset nat) :
  (∀ q s, procs m !! q = Some s → s_id s ≠ id) →
  Open_start id cols rows cwd runAs m = (Ok p, m') → sys_inv (MkSys m o) → sys_inv (MkSys m' ({[p]} ∪ o)).
Proof.
  intros Hnew (cmd & _ & _ & -> & ->)%Open_start_Ok [I1 I2 I3 I4 I5 I6 I7]. simpl in *.
  assert (Hne : ∀ q s, procs m !! q = Some s → next_proc m ≠ q).
  { intros q s Hq%I6. lia. }
  split; simpl; [| | | | | |done].
  - intros i q Hq. destruct (I1 i q Hq) as (Ho & t & Ht & Hi & Hc). assert (Hq' := Hne q t Ht).
    split; [set_solver|]. exists t. by rewrite lookup_insert_ne.
  - intros q t [[<- <-]|[_ Hq]]%lookup_insert_Some Hc; [left; set_solver|].
    destruct (I2 q t Hq Hc); [left; set_solver|by right].
  - intros q [->%elem_of_singleton|Hq]%elem_of_union.
    + eexists. by rewrite lookup_insert_eq.
    + destruct (I3 q Hq) as (t & Ht & Hc). exists t. by rewrite lookup_insert_ne by by eapply Hne.
  - intros q t [[<- <-]|[_ Hq]]%lookup_insert_Some Hc; [done|by eapply I4].
  - intros q r t u [[<- <-]|[_ Hq]]%lookup_insert_Some [[<- <-]|[_ Hr]]%lookup_insert_Some; simpl; intros He; try done.
    + by destruct (Hnew r u Hr).
    + by destruct (Hnew q t Hq).
    + by eapply I5.
  - intros q t [[<- <-]|[_ Hq]]%lookup_insert_Some; [lia|]. apply I6 in Hq. lia.
Qed.

Lemma open_finish_inv (p : nat) (s : session) (m : Manager) (o : gset nat) :
  p ∈ o → procs m !! p = Some s → sys_inv (MkSys m o) →
  sys_inv (MkSys (Open_finish (s_id s) p m).2 (o ∖ {[p]})).
Proof.
  intros Ho Hp Hi. unfold Open_finish, register, slot_free.
  destruct (stopped m); [by apply closeSession_inv|].
  destruct (decide (is_Some (sessions m !! s_id s))) as [|Hn]; [by apply closeSession_inv|].
  destruct (Nat.leb_spec maxSessions (size (sessions m))) as [|Hsz]; [by apply closeSession_inv|].
  destruct Hi as [I1 I2 I3 I4 I5 I6 I7]. simpl in *. rewrite <- eq_None_not_Some in Hn.
  split; simpl; [| | |done..|].
  - intros id q [[<- <-]|[Hne Hq]]%lookup_insert_Some.
    + split; [set_solver|]. destruct (I3 p Ho) as (t & Ht & Hc). exists t. simplify_eq. done.
    + destruct (I1 id q Hq) as (Hqo & Hs). split; [set_solver|done].
  - intros q t Hq Hc. destruct (decide (q = p)) as [->|Hne].
    + right. simplify_eq. apply lookup_insert_eq.
    + destruct (I2 q t Hq Hc) as [|Hs]; [left; set_solver|right].
      rewrite lookup_insert_ne; [done|]. intros He. rewrite He in Hn. congruence.
  - intros q Hq. apply I3. set_solver.
  - rewrite map_size_insert, Hn. simpl. lia.
Qed.

Lemma wait_inv (p : nat) (why : exit_status) (ok : bool) (m : Manager) (o : gset nat) :
  p ∉ o → sys_inv (MkSys m o) → sys_inv (MkSys (waitLoop p why ok m) o).
Proof.
  intros Hpo Hi. unfold waitLoop. destruct (procs m !! p) as [s|] eqn:Hp; [|done].
  set (m1 := m <| procs ::= <[p := s <| s_exited := true |>]> |>).
  assert (H1 : sys_inv (MkSys m1 o)).
  { apply (update_inv m o p s); [done| |done]. split_and!; simpl; [done..|]. intros _. apply orb_true_r. }
  destruct (match why with Exited code => _ | WaitFailed e => _ end) as [code e].
  assert (Hs := Send_mgr (TerminalExit (s_id s) code e) ok m1).
  destruct (Send (TerminalExit (s_id s) code e) ok m1) as [b m2]. destruct Hs as (Hs1 & Hs2 & Hs3 & _).
  cbn [snd] in *. rewrite <- (not_opening o p Hpo). apply closeSession_inv; [|by apply (sys_inv_ext m1)].
  intros t Ht. rewrite Hs2 in Ht. unfold m1 in Ht. simpl in Ht. rewrite lookup_insert_eq in Ht. by injection Ht as <-.
Qed.

Lemma registered_update_inv (id : string) (p : nat) (f : session → session) (m : Manager) (o : gset nat) :
  sessions m !! id = Some p → (∀ s, same_session s (f s)) → sys_inv (MkSys m o) →
  sys_inv (MkSys (m <| procs ::= alter f p |>) o).
Proof.
  intros Hs Hf Hi. destruct (si_registered _ Hi id p Hs) as (_ & s & Hp & _).
  assert (m <| procs ::= alter f p |> = m <| procs ::= <[p := f s]> |>) as ->; [|by eapply update_inv].
  cbn. f_equal. by apply alter_as_insert.
Qed.

Lemma step_inv (x y : Sys) : step x y → sys_inv x → sys_inv y.
Proof.
  destruct 1 as [H id cols rows cwd runAs m o p m' Hnew Ho|p s m o Hp Hs|id data e m o|id cols rows e m o
    |id m o|m o|ps m o Hps|p data ok m o|p why ok m o Hp]; intros Hi.
  - by eapply start_inv.
  - by apply open_finish_inv.
  - unfold Input, get. destruct (sessions m !! id) eqn:Hs; [|done]. destruct (String.eqb data ""); [done|].
    destruct e; [done|]. by apply (registered_update_inv id).
  - unfold Resize, get. destruct (sessions m !! id) eqn:Hs; [|done].
    destruct e; [done|]. by apply (registered_update_inv id).
  - unfold Close, get. destruct (sessions m !! id) as [p|] eqn:Hs; [|done]. simpl.
    destruct (si_registered _ Hi id p Hs) as [Ho _]. rewrite <- (not_opening o p Ho).
    by apply closeSession_inv.
  - by apply (sys_inv_ext m).
  - by apply close_each_inv.
  - unfold readLoop. destruct (procs m !! p) as [s|]; [|done]. destruct (String.eqb data ""); [done|].
    destruct (Send_mgr (TerminalData (s_id s) data) ok m) as (H1 & H2 & H3 & _). by eapply sys_inv_ext.
  - by apply wait_inv.
Qed.

(** ** Results *)

Definition initial : Sys := MkSys NewManager ∅.

Lemma initial_inv : sys_inv initial.
Proof. split; simpl; try done. rewrite map_size_empty. unfold maxSessions. lia. Qed.

Lemma rtc_inv (x y : Sys) : rtc step x y → sys_inv x → sys_inv y.
Proof. induction 1; eauto using step_inv. Qed.

(** C32: every shell is accounted for.  However the manager's goroutines interleave, with session
    identifiers that are not used twice, a shell that was started and not closed is either being
    opened or in the registry under its own identifier, where it can be closed; a closed one was sent
    the hangup signal or had ended.  The registry holds at most eight. *)
Theorem shells_accounted (x : Sys) :
  rtc step initial x →
  (size (sessions (mgr x)) <= maxSessions)%nat ∧
  ∀ p s, procs (mgr x) !! p = Some s →
    if s_closed s then s_signalled s || s_exited s = true
    else p ∈ opening x ∨ sessions (mgr x) !! s_id s = Some p.
Proof.
  intros Hx. assert (Hi := rtc_inv _ _ Hx initial_inv). split; [apply Hi|]. intros p s Hp.
  destruct (s_closed s) eqn:Hc; [by eapply si_ended|by eapply si_accounted].
Qed.

(** The registry after a close. *)
Lemma closeSession_entry (m : Manager) (o : gset nat) (p q : nat) (id : string) :
  sys_inv (MkSys m o) → sessions (closeSession p true m) !! id = Some q → q ≠ p ∧ sessions m !! id = Some q.
Proof.
  intros Hi. unfold closeSession. destruct (procs m !! p) as [s|] eqn:Hp.
  - destruct (s_closed s) eqn:Hc; simpl.
    + intros Hq. split; [|done]. intros ->. destruct (si_registered _ Hi id p Hq) as (_ & t & Ht & _ & Hc').
      simpl in Ht. congruence.
    + intros [Hne Hq]%lookup_delete_Some. split; [|done]. intros ->.
      destruct (si_registered _ Hi id p Hq) as (_ & t & Ht & Hid & _). simpl in Ht. congruence.
  - intros Hq. split; [|done]. intros ->. destruct (si_registered _ Hi id p Hq) as (_ & t & Ht & _).
    simpl in Ht. congruence.
Qed.

Lemma close_each_entry (ps : list nat) (m : Manager) (o : gset nat) (id : string) (q : nat) :
  (∀ p, p ∈ ps → p ∉ o) → sys_inv (MkSys m o) → sessions (close_each ps m) !! id = Some q →
  q ∉ ps ∧ sessions m !! id = Some q.
Proof.
  revert m. induction ps as [|p ps IH]; intros m Hps Hi Hq; [split; [by apply not_elem_of_nil|done]|].
  simpl in Hq. apply IH in Hq as [Hn Hq]; [|set_solver|].
  - destruct (closeSession_entry m o p q id Hi Hq) as [Hne Hq']. split; [|done]. by apply not_elem_of_cons.
  - rewrite <- (not_opening o p) by set_solver. by apply closeSession_inv.
Qed.

Lemma closeSession_stopped (p : nat) (b : bool) (m : Manager) : stopped (closeSession p b m) = stopped m.
Proof. unfold closeSession. destruct (procs m !! p) as [s|]; [|done]. by destruct (s_closed s). Qed.

Lemma close_each_stopped (ps : list nat) (m : Manager) : stopped (close_each ps m) = stopped m.
Proof. revert m. induction ps as [|p ps IH]; intros m; [done|]. simpl. by rewrite IH, closeSession_stopped. Qed.

(** The manager is stopped and its registry is empty; only the sessions of [o] are being opened. *)
Record shut (o : gset nat) (x : Sys) : Prop := {
  sh_stopped : stopped (mgr x) = true;
  sh_empty : sessions (mgr x) = ∅;
  sh_opening : opening x ⊆ o
}.

Lemma CloseAll_shut (m : Manager) (o : gset nat) :
  sys_inv (MkSys m o) → sys_inv (MkSys (CloseAll m) o) ∧ shut o (MkSys (CloseAll m) o).
Proof.
  intros Hi. unfold CloseAll. simpl. set (ps := (map_to_list (sessions m)).*2).
  assert (Hst : sys_inv (MkSys (stop m) o)) by by apply (sys_inv_ext m).
  assert (Hps : ∀ p, p ∈ ps → p ∉ o).
  { intros p [[id q] [-> Hq]]%list_elem_of_fmap. apply elem_of_map_to_list in Hq.
    by destruct (si_registered _ Hi id q Hq). }
  split; [by apply close_each_inv|]. split; simpl; [by rewrite close_each_stopped| |done].
  apply map_eq. intros id. rewrite lookup_empty. apply eq_None_not_Some. intros [q Hq].
  apply (close_each_entry _ _ o) in Hq as [Hn Hq]; [|done..]. apply Hn.
  apply list_elem_of_fmap. exists (id, q). split; [done|]. by apply elem_of_map_to_list.
Qed.

Lemma closeSession_empty (p : nat) (b : bool) (m : Manager) :
  sessions m = ∅ → sessions (closeSession p b m) = ∅.
Proof.
  intros H. unfold closeSession. destruct (procs m !! p) as [s|]; [|done]. destruct (s_closed s); [done|].
  simpl. by rewrite H, delete_empty.
Qed.

Lemma shut_step (o : gset nat) (x y : Sys) : step x y → shut o x → shut o y.
Proof.
  destruct 1 as [H id cols rows cwd runAs m o' p m' Hnew Ho|p s m o' Hp Hs|id data e m o'|id cols rows e m o'
    |id m o'|m o'|ps m o' Hps|p data ok m o'|p why ok m o' Hp]; intros [H1 H2 H3]; simpl in *.
  - apply Open_start_Ok in Ho as (_ & _ & Hs & _). congruence.
  - unfold Open_finish, register, slot_free. rewrite H1. split; simpl; [|by apply closeSession_empty|set_solver].
    by rewrite closeSession_stopped.
  - unfold Input, get. rewrite H2, lookup_empty. by split.
  - unfold Resize, get. rewrite H2, lookup_empty. by split.
  - unfold Close, get. rewrite H2, lookup_empty. by split.
  - by split.
  - split; simpl; [by rewrite close_each_stopped| |done]. clear Hps H1. revert m H2.
    induction ps as [|p ps IH]; intros m H2; [done|]. simpl. apply IH. by apply closeSession_empty.
  - unfold readLoop. destruct (procs m !! p) as [s|]; [|by split]. destruct (String.eqb data ""); [by split|].
    destruct (Send_mgr (TerminalData (s_id s) data) ok m) as (Hs1 & _ & _ & Hs2).
    split; simpl in *; [congruence|congruence|done].
  - unfold waitLoop. destruct (procs m !! p) as [s|]; [|by split].
    destruct (match why with Exited code => _ | WaitFailed e => _ end) as [code e].
    set (m1 := m <| procs ::= _ |>).
    destruct (Send_mgr (TerminalExit (s_id s) code e) ok m1) as (Hs1 & _ & _ & Hs2).
    destruct (Send (TerminalExit (s_id s) code e) ok m1) as [b m2]. cbn [snd] in *. subst m1. simpl in *.
    split; simpl; [rewrite closeSession_stopped; congruence|apply closeSession_empty; congruence|done].
Qed.

(** no shell outlives the connection.  When the connection ends, all terminals are closed.  From
    then on, whatever the manager's goroutines still do, no shell starts and nothing is registered:
    every shell was sent the hangup signal or had ended, but for those whose opening was under way,
    and these are closed by the end of it. *)
Theorem close_all_ends_shells (m : Manager) (o : gset nat) (y : Sys) :
  rtc step initial (MkSys m o) → rtc step (MkSys (CloseAll m) o) y →
  sessions (mgr y) = ∅ ∧ opening y ⊆ o ∧
  (∀ p s, procs (mgr y) !! p = Some s → p ∉ opening y → s_closed s = true ∧ s_signalled s || s_exited s = true) ∧
  ∀ p s, p ∈ opening y → procs (mgr y) !! p = Some s →
    ∃ s', procs (Open_finish (s_id s) p (mgr y)).2 !! p = Some s' ∧
      s_closed s' = true ∧ s_signalled s' = true.
Proof.
  intros Hm%rtc_inv Hy; [|apply initial_inv]. destruct (CloseAll_shut m o Hm) as [Hi Hs].
  assert (Hiy := rtc_inv _ _ Hy Hi).
  assert (Hsy : shut o y).
  { clear Hiy Hi. revert Hs. induction Hy; eauto using shut_step. }
  destruct Hsy as [H1 H2 H3]. split_and!; [done|done| |].
  - intros p s Hp Hno. destruct (s_closed s) eqn:Hc; [split; [done|by eapply si_ended]|].
    destruct (si_accounted _ Hiy p s Hp Hc) as [Ho|Hr]; [done|]. by rewrite H2, lookup_empty in Hr.
  - intros p s Hp Hs'. unfold Open_finish, register, slot_free. rewrite H1. simpl.
    unfold closeSession. rewrite Hs'. destruct (si_opening _ Hiy p Hp) as (t & Ht & Hc). simplify_eq.
    rewrite Hc. simpl. eexists. by rewrite lookup_insert_eq.
Qed.

(** ** Whose shell it is *)

Lemma normalizedSize_bounds (cols rows : Z) :
  0 <= cols → 0 <= rows →
  1 <= (normalizedSize cols rows).1 <= maxCols ∧ 1 <= (normalizedSize cols rows).2 <= maxRows.
Proof.
  intros Hc Hr. unfold normalizedSize, maxCols, maxRows, defaultCols, defaultRows. cbv zeta. simpl.
  destruct (Z.eqb_spec cols 0), (Z.eqb_spec rows 0);
    repeat match goal with |- context [?a <? ?b] => destruct (Z.ltb_spec a b) end;
    rewrite !Z.mod_small by lia; lia.
Qed.

(** The credential of the user of that name on this machine. *)
Definition credential_of `{H : Host} (name : string) (c : Z * Z * list Z) : Prop :=
  ∃ u groupIDs uid gid groups, lookupRunAsIdentity name = Ok (u, groupIDs) ∧
    ParseUint32 (Uid u) = Some uid ∧ ParseUint32 (Gid u) = Some gid ∧
    mapM ParseUint32 groupIDs = Some groups ∧ c = (uid, gid, groups).

Lemma executionIdentityForRunAs_Ok `{H : Host} (name : string) (i : option executionIdentity) :
  executionIdentityForRunAs name = Ok i →
  match i with
  | None => name = ""
  | Some i => name ≠ "" ∧ all_bytes username_byte name = true ∧ HasPrefix name "-" = false ∧
              credential_of name (credential i)
  end.
Proof.
  unfold executionIdentityForRunAs. destruct (String.eqb_spec name ""); [by intros [= <-]|].
  unfold validateRunAsUsername. destruct (_ || _ || _) eqn:Hv; [done|]. bool_hyps.
  destruct (all_bytes username_byte name) eqn:Hb; simpl; [|done].
  destruct (lookupRunAsIdentity name) as [[u gs]|] eqn:Hl; [|done].
  destruct (ParseUint32 (Uid u)) eqn:Hu; [|done]. destruct (ParseUint32 (Gid u)) eqn:Hg; [|done].
  destruct (mapM ParseUint32 gs) eqn:Hgs; [|done]. intros [= <-]. split_and!; [done..|].
  by repeat eexists.
Qed.

Lemma shell_command_Ok `{H : Host} (cwd name : string) (cmd : Cmd) :
  shell_command cwd name = Ok cmd →
  (cwd ≠ "" → IsAbs (Clean cwd) = true ∧ Stat (Clean cwd) = Some true ∧ Dir cmd = Clean cwd) ∧
  match Credential cmd with
  | None => name = ""
  | Some c => name ≠ "" ∧ all_bytes username_byte name = true ∧ HasPrefix name "-" = false ∧ credential_of name c
  end.
Proof.
  unfold shell_command. destruct resolveShell as [shell|]; [|done].
  destruct (executionIdentityForRunAs name) as [i|] eqn:Hi; [|done]. apply executionIdentityForRunAs_Ok in Hi.
  cbv zeta. set (cmd0 := applyExecutionIdentity _ _ _).
  assert (Hc : Credential cmd0 = credential <$> i) by by destruct i. intros Hw.
  assert (Hsame : Credential cmd = credential <$> i ∧
    (cwd ≠ "" → IsAbs (Clean cwd) = true ∧ Stat (Clean cwd) = Some true ∧ Dir cmd = Clean cwd)).
  { unfold applyWorkingDirectory in Hw. destruct (String.eqb_spec cwd ""); [by injection Hw as <-|].
    destruct (IsAbs (Clean cwd)); simpl in Hw; [|done].
    destruct (Stat (Clean cwd)) as [[|]|]; [|done..]. injection Hw as <-. simpl. by split. }
  destruct Hsame as [-> Hd]. split; [done|]. by destruct i.
Qed.


(** ** A machine with one user *)

#[local] Notation demo_passwd := (MkOsUser "alice" "1001" "1001" "Alice" "/home/alice").
#[local] Instance demo_host : Host := {|
  Getenv := λ _, "";
  Stat := λ p, if String.eqb p "/bin/bash" then Some false else if String.eqb p "/srv" then Some true else None;
  lookupOSUser := λ _, Err "unknown";
  lookupOSUserGroups := λ _, Err "none";
  getent_passwd := λ n, if String.eqb n "alice" then Ok ("alice:x:1001:1001:Alice:/home/alice:/bin/sh" +:+ String "010" "")
                        else if String.eqb n "0" then Ok "root:x:0:0:root:/root:/bin/sh" else Err "no entry";
  id_G := λ n, if String.eqb n "alice" then Ok "1001 27" else Ok "0";
  CurrentUser := Err "none";
  StartWithSize := λ _ _, Ok tt
|}.

Example demo_identity : executionIdentityForRunAs "alice" =
  Ok (Some (MkIdentity (1001, 1001, [1001; 27]) "alice" "/home/alice")).
Proof. by vm_compute. Qed.

(** A directory account named by a number is looked up as that user identifier. *)
Example numeric_name_is_root : executionIdentityForRunAs "0" = Ok (Some (MkIdentity (0, 0, [0]) "root" "/root")).
Proof. by vm_compute. Qed.

(** Two openings of one session, against the assumption above: the loser's clean-up takes the winner
    out of the registry, and its shell is left to itself. *)
Example same_id_leaks :
  let m := (Open_start "s" 80 24 "" "" NewManager).2 in
  let m := (Open_start "s" 80 24 "" "" m).2 in
  let m := (Open_finish "s" 0 m).2 in
  let m := CloseAll (Open_finish "s" 1 m).2 in
  map_to_list (sessions m) = [] ∧ s_closed <$> procs m !! 0%nat = Some false.
Proof. by vm_compute. Qed.

Definition started : Manager := Eval vm_compute in (Open_start "s" 80 24 "/srv" "alice" NewManager).2.

Lemma demo_started : rtc step initial (MkSys started {[0%nat]}).
Proof.
  assert (H : Open_start "s" 80 24 "/srv" "alice" NewManager = (Ok 0%nat, started)) by by vm_compute.
  eapply rtc_l; [|assert ({[0%nat]} ∪ ∅ = ({[0%nat]} : gset nat)) as <- by set_solver; apply rtc_refl].
  eapply step_start; [|exact H]. intros q s Hq. by inversion Hq.
Qed.

Lemma shells_accounted_witness :
  (size (sessions (Open_finish "s" 0 started).2) <= maxSessions)%nat.
Proof.
  refine (proj1 (shells_accounted (MkSys (Open_finish "s" 0 started).2 ({[0%nat]} ∖ {[0%nat]})) _)).
  eapply rtc_r; [apply demo_started|].
  by apply (step_finish 0 (MkSession "s" (MkCmd "/bin/bash"
    (buildTerminalEnv "/bin/bash" (Some (MkIdentity (1001, 1001, [1001; 27]) "alice" "/home/alice")))
    (Some (1001, 1001, [1001; 27])) "/srv") (80, 24) [] false false false)); [set_solver|vm_compute].
Defined.

Lemma close_all_ends_shells_witness : sessions (CloseAll started) = ∅.
Proof. refine (proj1 (close_all_ends_shells started {[0%nat]} (MkSys (CloseAll started) {[0%nat]}) demo_started _)). apply rtc_refl. Defined.

