(* ===== verification/AgentCerts.v ===== *)
(** * The agent's certificates (agent/internal/certs/certs.go).

    X.509, ECDSA and PEM are a class of functions; private keys are strings.  The disk is a map from
    paths to contents, with one answer for every directory and file it is asked to write. *)

From S2P Require Import Prelude GoStr Proto.

Record Certificate := MkCertificate {
  Raw : bytes;
  NotAfter : Z;
  cert_public : result bytes           (* MarshalPKIXPublicKey of the certificate's key *)
}.

Class Pki := {
  GenerateKey : nat → result string;
  key_public : string → result bytes;  (* MarshalPKIXPublicKey of the key's public key *)
  CreateCertificateRequest : nat → string → string → result bytes;   (* common name, key *)
  ParseCertificate : bytes → result Certificate;
  CheckSignatureFrom : Certificate → Certificate → result unit;
  MarshalECPrivateKey : string → result bytes;
  ParseECPrivateKey : bytes → result string;
  ParsePKCS8PrivateKey : bytes → result (option string);             (* [None]: no ECDSA key *)
  pem_encode : string → bytes → bytes;
  pem_decode : bytes → option bytes;
  X509KeyPair : bytes → bytes → bool;
  AppendCertsFromPEM : bytes → bool
}.
(** What was encoded decodes to itself. *)
Class PkiLaws (P : Pki) := {
  pem_roundtrip : ∀ ty b, pem_decode (pem_encode ty b) = Some b;
  key_roundtrip : ∀ k b, MarshalECPrivateKey k = Ok b → ParseECPrivateKey b = Ok k
}.

Record Store := MkStore {
  st_dir : string;
  st_key : option string;
  st_cert : option Certificate;
  st_caCert : option Certificate;
  st_certPEM : option bytes;
  st_keyPEM : option bytes;
  st_caPEM : option bytes
}.
#[export] Instance eta_Store : Eta Store := λ r, MkStore (st_dir r) (st_key r) (st_cert r)
  (st_caCert r) (st_certPEM r) (st_keyPEM r) (st_caPEM r).

(** The files and the answers to come: [Some e] for a failure. *)
Record Disk := MkDisk { files : gmap string bytes; answers : list (option string) }.

Definition answer (d : Disk) : option string * Disk :=
  match answers d with [] => (None, d) | a :: l => (a, MkDisk (files d) l) end.

Definition WriteFile (path : string) (data : bytes) (d : Disk) : option string * Disk :=
  let '(e, d) := answer d in
  match e with
  | Some _ => (e, d)
  | None => (None, MkDisk (<[path := data]> (files d)) (answers d))
  end.

Definition rbind {A B : Type} (m : result A) (f : A → result B) : result B :=
  match m with Ok a => f a | Err e => Err e end.
Notation "'let?' x ':=' m 'in' k" := (rbind m (λ x, k))
  (at level 10, x pattern, m at level 100, k at level 200) : veyport_scope.
Definition or_err {A : Type} (m : option A) (e : string) : result A :=
  match m with Some a => Ok a | None => Err e end.
Definition errorf {A : Type} (prefix : string) (m : result A) : result A :=
  match m with Ok a => Ok a | Err e => Err (prefix +:+ ": " +:+ e) end.

Section certs.
Context `{P : Pki}.

Definition parsePrivateKey (keyDER : bytes) : result string :=
  match ParseECPrivateKey keyDER with
  | Ok key => Ok key
  | Err e =>
      match ParsePKCS8PrivateKey keyDER with
      | Err _ => Err ("parse client key: " +:+ e)
      | Ok None => Err "client key is not ECDSA"
      | Ok (Some key) => Ok key
      end
  end.

Definition verifyCertMatchesKey (cert : Certificate) (key : string) : result unit :=
  let? certPubDER := errorf "marshal cert public key" (cert_public cert) in
  let? keyPubDER := errorf "marshal private key public key" (key_public key) in
  if String.eqb certPubDER keyPubDER then Ok tt
  else Err "client certificate does not match generated private key".

Definition read_file (dir name : string) (d : Disk) : result bytes :=
  or_err (files d !! JoinPath dir name) "no such file or directory".

Definition loadFromDisk (s : Store) (d : Disk) : result Store :=
  let? certPEM := read_file (st_dir s) "client.crt" d in
  let? keyPEM := read_file (st_dir s) "client.key" d in
  let? caPEM := read_file (st_dir s) "ca.crt" d in
  let? certBlock := or_err (pem_decode certPEM) "decode client certificate" in
  let? cert := errorf "parse client cert" (ParseCertificate certBlock) in
  let? keyBlock := or_err (pem_decode keyPEM) "decode client key" in
  let? key := parsePrivateKey keyBlock in
  let? caBlock := or_err (pem_decode caPEM) "decode CA certificate" in
  let? caCert := errorf "parse CA cert" (ParseCertificate caBlock) in
  let? _ := errorf "verify client cert signature" (CheckSignatureFrom cert caCert) in
  let? _ := verifyCertMatchesKey cert key in
  Ok (s <| st_cert := Some cert |> <| st_key := Some key |> <| st_caCert := Some caCert |>
        <| st_certPEM := Some certPEM |> <| st_keyPEM := Some keyPEM |> <| st_caPEM := Some caPEM |>).

Definition NewMemoryStore : Store := MkStore "" None None None None None None.

Definition NewStore (dir : string) (d : Disk) : Store :=
  let s := MkStore dir None None None None None None in
  if String.eqb dir "" then s else
  match loadFromDisk s d with Ok s' => s' | Err _ => s end.

(** [draw] names the random numbers of this call. *)
Definition GenerateCSR (draw : nat) (serverID : string) (s : Store) : result bytes * Store :=
  match errorf "generate key" (GenerateKey draw) with
  | Err e => (Err e, s)
  | Ok key =>
      match errorf "create CSR" (CreateCertificateRequest draw serverID key) with
      | Err e => (Err e, s)
      | Ok csrDER => (Ok csrDER, s <| st_key := Some key |>)
      end
  end.

(** The part of [StoreCert] before anything changes. *)
Definition check_cert (certDER caCertDER : bytes) (s : Store)
  : result (Certificate * Certificate * bytes) :=
  let? cert := errorf "parse client cert" (ParseCertificate certDER) in
  let? caCert := errorf "parse CA cert" (ParseCertificate caCertDER) in
  let? key := or_err (st_key s) "no private key available (call GenerateCSR first)" in
  let? _ := errorf "verify client cert signature" (CheckSignatureFrom cert caCert) in
  let? _ := verifyCertMatchesKey cert key in
  let? keyDER := errorf "marshal private key" (MarshalECPrivateKey key) in
  Ok (cert, caCert, pem_encode "EC PRIVATE KEY" keyDER).

Fixpoint write_files (dir : string) (fs : list (string * bytes)) (d : Disk) : result unit * Disk :=
  match fs with
  | [] => (Ok tt, d)
  | (name, data) :: fs' =>
      let '(e, d) := WriteFile (JoinPath dir name) data d in
      match e with
      | Some e => (Err ("write " +:+ name +:+ ": " +:+ e), d)
      | None => write_files dir fs' d
      end
  end.

(** [order] is the order the map of files is ranged over in. *)
Definition StoreCert (order : list (string * bytes) → list (string * bytes)) (certDER caCertDER : bytes)
    (s : Store) (d : Disk) : result unit * Store * Disk :=
  match check_cert certDER caCertDER s with
  | Err e => (Err e, s, d)
  | Ok (cert, caCert, keyPEM) =>
      let certPEM := pem_encode "CERTIFICATE" certDER in
      let caPEM := pem_encode "CERTIFICATE" caCertDER in
      let s := s <| st_cert := Some cert |> <| st_caCert := Some caCert |>
                 <| st_certPEM := Some certPEM |> <| st_keyPEM := Some keyPEM |>
                 <| st_caPEM := Some caPEM |> in
      if String.eqb (st_dir s) "" then (Ok tt, s, d) else
      let '(e, d) := answer d in
      match e with
      | Some e => (Err ("create cert dir: " +:+ e), s, d)
      | None =>
          let '(r, d) := write_files (st_dir s)
            (order [("client.crt", certPEM); ("client.key", keyPEM); ("ca.crt", caPEM)]) d in
          (r, s, d)
      end
  end.

(** (client certificate, its key, the roots), all PEM *)
Definition TLSConfig (s : Store) : option (bytes * bytes * bytes) :=
  match st_certPEM s, st_keyPEM s, st_caPEM s with
  | Some certPEM, Some keyPEM, Some caPEM =>
      if X509KeyPair certPEM keyPEM && AppendCertsFromPEM caPEM then Some (certPEM, keyPEM, caPEM) else None
  | _, _, _ => None
  end.

Definition NeedsRenewal (now threshold : Z) (s : Store) : bool :=
  match st_cert s with
  | None => false
  | Some cert => NotAfter cert - now <? threshold
  end.

Definition HasCert (s : Store) : bool :=
  match st_cert s, st_key s with Some _, Some _ => true | _, _ => false end.

(** ** What the store holds *)

(** A certificate signed by the authority, with its own key, as PEM. *)
Record credentials (certPEM keyPEM caPEM : bytes) (cert ca : Certificate) : Prop := {
  cr_cert : ∃ b, pem_decode certPEM = Some b ∧ ParseCertificate b = Ok cert;
  cr_ca : ∃ b, pem_decode caPEM = Some b ∧ ParseCertificate b = Ok ca;
  cr_signed : CheckSignatureFrom cert ca = Ok tt;
  cr_key : ∃ b key pub, pem_decode keyPEM = Some b ∧ parsePrivateKey b = Ok key ∧
    cert_public cert = Ok pub ∧ key_public key = Ok pub
}.

Definition store_ok (s : Store) : Prop :=
  match st_certPEM s, st_keyPEM s, st_caPEM s, st_cert s, st_caCert s with
  | None, None, None, None, None => True
  | Some certPEM, Some keyPEM, Some caPEM, Some cert, Some ca => credentials certPEM keyPEM caPEM cert ca
  | _, _, _, _, _ => False
  end.

Lemma rbind_Ok {A B} (m : result A) (f : A → result B) (b : B) :
  rbind m f = Ok b → ∃ a, m = Ok a ∧ f a = Ok b.
Proof. destruct m; [eauto|done]. Qed.

Lemma errorf_Ok {A} (p : string) (m : result A) (a : A) : errorf p m = Ok a → m = Ok a.
Proof. by destruct m. Qed.

Lemma or_err_Ok {A} (m : option A) (e : string) (a : A) : or_err m e = Ok a → m = Some a.
Proof. destruct m; [by intros [= ->]|done]. Qed.
End certs.

(** Takes a sequence of checks that succeeded apart. *)
Ltac all_ok := repeat match goal with
  | H : rbind _ _ = Ok _ |- _ => apply rbind_Ok in H as (? & ? & ?)
  | H : errorf _ _ = Ok _ |- _ => apply errorf_Ok in H
  | H : or_err _ _ = Ok _ |- _ => apply or_err_Ok in H
  | H : Ok _ = Ok _ |- _ => injection H as ?
  | x : unit |- _ => destruct x
  end.

Section certs_ok.
Context `{P : Pki}.

Lemma verifyCertMatchesKey_Ok (cert : Certificate) (key : string) :
  verifyCertMatchesKey cert key = Ok tt → ∃ pub, cert_public cert = Ok pub ∧ key_public key = Ok pub.
Proof.
  unfold verifyCertMatchesKey. intros H. all_ok. case_tests; [|done]. eauto.
Qed.

Lemma loadFromDisk_ok (s s' : Store) (d : Disk) : loadFromDisk s d = Ok s' → store_ok s'.
Proof.
  unfold loadFromDisk, read_file. intros H. all_ok. subst s'.
  unfold store_ok. simpl. match goal with H : verifyCertMatchesKey _ _ = _ |- _ => apply verifyCertMatchesKey_Ok in H as (? & ? & ?) end.
  split; eauto 8.
Qed.

Lemma NewStore_ok (dir : string) (d : Disk) : store_ok (NewStore dir d).
Proof.
  unfold NewStore. destruct (String.eqb dir ""); [done|].
  destruct (loadFromDisk _ d) eqn:H; [by apply loadFromDisk_ok in H|done].
Qed.

Lemma GenerateCSR_ok (draw : nat) (serverID : string) (s : Store) :
  store_ok s → store_ok (GenerateCSR draw serverID s).2.
Proof.
  intros Hs. unfold GenerateCSR. destruct (errorf _ (GenerateKey draw)); [|done].
  by destruct (errorf _ (CreateCertificateRequest _ _ _)).
Qed.

Lemma check_cert_ok `{!PkiLaws P} (certDER caCertDER keyPEM : bytes) (s : Store) (cert ca : Certificate) :
  check_cert certDER caCertDER s = Ok (cert, ca, keyPEM) →
  credentials (pem_encode "CERTIFICATE" certDER) keyPEM (pem_encode "CERTIFICATE" caCertDER) cert ca ∧
  ∃ key b, st_key s = Some key ∧ keyPEM = pem_encode "EC PRIVATE KEY" b ∧ MarshalECPrivateKey key = Ok b ∧
    ParseCertificate certDER = Ok cert ∧ ParseCertificate caCertDER = Ok ca ∧ verifyCertMatchesKey cert key = Ok tt.
Proof.
  unfold check_cert. intros H. all_ok. subst. split; [|by repeat eexists].
  match goal with H : verifyCertMatchesKey _ _ = _ |- _ => apply verifyCertMatchesKey_Ok in H as (? & ? & ?) end.
  split; [by eexists; split; [apply pem_roundtrip|]..|done|].
  do 3 eexists. split; [apply pem_roundtrip|]. split; [|by eauto].
  unfold parsePrivateKey. by erewrite key_roundtrip.
Qed.
End certs_ok.

(** ** Paths of different names differ *)

Lemma JoinPath_name (dir : string) : ∃ pre, ∀ name, plain_elem name → JoinPath dir name = pre +:+ name.
Proof.
  set (r := is_rooted (dir +:+ "/")).
  set (es := rev (fold_left (clean_step r) (Split "/" dir) [])).
  assert (Hj : ∃ pre, ∀ name, Join "/" (es ++ [name]) = pre +:+ name).
  { generalize es. clear. intros es. induction es as [|e es [pre IH]]; [by exists ""|].
    exists (e +:+ "/" +:+ pre). intros name. rewrite !app_assoc_str, <- IH.
    destruct es as [|e' es]; reflexivity. }
  destruct Hj as [pre Hpre].
  exists (if r then "/" +:+ pre else pre). intros name (H1 & H2 & H3 & H4).
  unfold JoinPath, Clean.
  assert (Hr : is_rooted (dir +:+ "/" +:+ name) = r).
  { unfold r, is_rooted, HasPrefix. destruct dir as [|a dir]; [by destruct name|]. cbn [String.append String.prefix].
    destruct (ascii_dec "/" a); [by destruct dir|done]. }
  assert (He : clean_elems (dir +:+ "/" +:+ name) = es ++ [name]).
  { unfold clean_elems. rewrite Hr. change ("/" +:+ name) with (String "/" name). rewrite Split_snoc, fold_left_app.
    rewrite (Split_no_sep "/" name) by done. cbn [fold_left]. unfold clean_step at 1.
    rewrite !(proj2 (String.eqb_neq name _)) by done. simpl. by unfold es. }
  rewrite He, Hr. unfold render. rewrite Hpre. destruct r; [by rewrite app_assoc_str|].
  by destruct (es ++ [name]) eqn:Hn; [destruct es|].
Qed.

Lemma app_cancel_l (a b c : string) : a +:+ b = a +:+ c → b = c.
Proof. induction a as [|x a IH]; [done|]. simpl. intros [= H]. by apply IH. Qed.

Lemma JoinPath_inj (dir a b : string) : plain_elem a → plain_elem b → JoinPath dir a = JoinPath dir b → a = b.
Proof.
  intros Ha Hb. destruct (JoinPath_name dir) as [pre H]. rewrite !H by done. apply app_cancel_l.
Qed.

Lemma write_files_other (dir path : string) (fs : list (string * bytes)) (d d' : Disk) (r : result unit) :
  write_files dir fs d = (r, d') → (∀ n, n ∈ fs.*1 → JoinPath dir n ≠ path) → files d' !! path = files d !! path.
Proof.
  revert d. induction fs as [|[n x] fs IH]; intros d; simpl; [by intros [= _ <-]|].
  unfold WriteFile, answer. intros H Hn.
  assert (Hrest : ∀ n, n ∈ fs.*1 → JoinPath dir n ≠ path) by (intros; apply Hn; by right).
  assert (Hne : JoinPath dir n ≠ path) by (apply Hn; by left).
  destruct (answers d) as [|[e|] l].
  - apply IH in H; [|done]. rewrite H. simpl. by rewrite lookup_insert_ne.
  - by injection H as _ <-.
  - apply IH in H; [|done]. rewrite H. simpl. by rewrite lookup_insert_ne.
Qed.

Lemma write_files_read (dir : string) (fs : list (string * bytes)) (d d' : Disk) :
  write_files dir fs d = (Ok tt, d') → NoDup fs.*1 → Forall plain_elem fs.*1 →
  ∀ n x, (n, x) ∈ fs → files d' !! JoinPath dir n = Some x.
Proof.
  revert d. induction fs as [|[n x] fs IH]; intros d H Hnd Hp m y Hin; [by apply not_elem_of_nil in Hin|].
  simpl in *. apply NoDup_cons in Hnd as [Hn Hnd]. apply Forall_cons in Hp as [Hpn Hp].
  unfold WriteFile in H. destruct (answer d) as [[e|] d1]; [done|].
  apply elem_of_cons in Hin as [[= -> ->]|Hin]; [|by eapply IH].
  rewrite (write_files_other _ (JoinPath dir n) _ _ _ _ H).
  - simpl. apply lookup_insert_eq.
  - intros k Hk He. apply JoinPath_inj in He; [by subst| |done].
    rewrite Forall_forall in Hp. by apply Hp.
Qed.

(** ** Results *)

Section results.
Context `{P : Pki, L : !PkiLaws P}.
Context (order : list (string * bytes) → list (string * bytes)).

Inductive cert_op :=
| OpGenerateCSR (draw : nat) (serverID : string)
| OpStoreCert (certDER caCertDER : bytes).

Definition cert_step (x : Store * Disk) (o : cert_op) : Store * Disk :=
  match o with
  | OpGenerateCSR draw serverID => ((GenerateCSR draw serverID x.1).2, x.2)
  | OpStoreCert certDER caCertDER => let '(_, s, d) := StoreCert order certDER caCertDER x.1 x.2 in (s, d)
  end.

Lemma StoreCert_ok (certDER caCertDER : bytes) (s : Store) (d : Disk) :
  store_ok s → let '(_, s', _) := StoreCert order certDER caCertDER s d in store_ok s'.
Proof.
  intros Hs. unfold StoreCert. destruct (check_cert certDER caCertDER s) as [[[cert ca] keyPEM]|] eqn:Hc; [|done].
  apply check_cert_ok in Hc as [Hc _].
  destruct (String.eqb _ ""); [done|]. destruct (answer d) as [[e|] d1]; [done|].
  by destruct (write_files _ _ _).
Qed.

(** Goes on to the next check. *)
Ltac go := cbn [or_err errorf rbind].

(** C34: the client certificate an agent presents is always one it can use.  From whatever is on the
    disk, through any requests for certificates, answers of the hub and failing writes, a TLS
    configuration is a certificate signed by the authority it is stored with, and the private key is
    the certificate's, though the key of a pending request may be another. *)
Theorem certs_consistent (dir : string) (d : Disk) (ops : list cert_op) (certPEM keyPEM caPEM : bytes) :
  let s := (foldl cert_step (NewStore dir d, d) ops).1 in
  TLSConfig s = Some (certPEM, keyPEM, caPEM) →
  ∃ cert ca, st_cert s = Some cert ∧ st_caCert s = Some ca ∧ credentials certPEM keyPEM caPEM cert ca.
Proof.
  assert (H : ∀ x, store_ok x.1 → store_ok (foldl cert_step x ops).1).
  { induction ops as [|o ops IH]; intros [s d'] Hs; [done|]. simpl. apply IH. destruct o as [draw id|c ca]; simpl.
    - by apply GenerateCSR_ok.
    - assert (Hk := StoreCert_ok c ca s d' Hs). by destruct (StoreCert order c ca s d') as [[r s2] d2]. }
  specialize (H (NewStore dir d, d) (NewStore_ok dir d)). simpl. revert H.
  set (s := (foldl cert_step _ ops).1). unfold store_ok, TLSConfig.
  destruct (st_certPEM s), (st_keyPEM s), (st_caPEM s), (st_cert s), (st_caCert s); try done.
  intros Hc. destruct (_ && _); [|done]. intros [= <- <- <-]. eauto.
Qed.

(** a stored certificate survives a restart.  When a certificate was stored without a failure,
    in whatever order its files were written, a new process loads the very same store. *)
Theorem stored_cert_roundtrip (certDER caCertDER : bytes) (s s' : Store) (d d' : Disk) :
  (∀ l, order l ≡ₚ l) → st_dir s ≠ "" →
  StoreCert order certDER caCertDER s d = (Ok tt, s', d') →
  NewStore (st_dir s) d' = s' ∧ HasCert s' = true.
Proof.
  intros Ho Hdir. unfold StoreCert.
  destruct (check_cert certDER caCertDER s) as [[[cert ca] keyPEM]|] eqn:Hc; [|done].
  apply check_cert_ok in Hc as [[_ _ Hsig _] (key & b & Hkey & -> & Hb & Hcert & Hca & Hv)].
  cbv zeta. simpl. rewrite (proj2 (String.eqb_neq _ "") Hdir). destruct (answer d) as [[e|] d1]; [done|].
  set (fs := [("client.crt", _); ("client.key", _); ("ca.crt", _)]).
  destruct (write_files (st_dir s) (order fs) d1) as [r d2] eqn:Hw. intros [= -> <- ->].
  assert (Hread : ∀ n x, (n, x) ∈ fs → files d' !! JoinPath (st_dir s) n = Some x).
  { intros n x Hin. eapply write_files_read; [exact Hw| | |by rewrite Ho].
    - rewrite Ho. apply (bool_decide_unpack _). by vm_compute.
    - rewrite Ho. by repeat constructor. }
  split; [|by unfold HasCert; simpl; rewrite Hkey].
  unfold NewStore. rewrite (proj2 (String.eqb_neq _ "") Hdir). unfold loadFromDisk, read_file.
  cbn [st_dir]. unfold fs in Hread.
  rewrite (Hread "client.crt" _ ltac:(by left)), (Hread "client.key" _ ltac:(by right; left)),
    (Hread "ca.crt" _ ltac:(by right; right; left)).
  go. rewrite !pem_roundtrip. go. rewrite Hcert. go. unfold parsePrivateKey. rewrite (key_roundtrip key b Hb).
  go. rewrite Hca. go. rewrite Hsig. go. rewrite Hv. simpl. destruct s. simpl in *. by subst.
Qed.

(** A restart after a renewal whose key could not be written finds a certificate without its key, and
    the agent is without one. *)
Lemma partial_write_loses_cert (dir : string) (certPEM keyPEM caPEM b kb cb : bytes) (cert ca : Certificate)
    (key pub pub' : string) (d : Disk) :
  files d !! JoinPath dir "client.crt" = Some certPEM → files d !! JoinPath dir "client.key" = Some keyPEM →
  pem_decode certPEM = Some b → ParseCertificate b = Ok cert → cert_public cert = Ok pub →
  pem_decode keyPEM = Some kb → parsePrivateKey kb = Ok key → key_public key = Ok pub' → pub ≠ pub' →
  HasCert (NewStore dir d) = false.
Proof.
  intros H1 H2 H3 H4 H5 H6 H7 H8 Hne. unfold NewStore. destruct (String.eqb dir ""); [done|].
  destruct (loadFromDisk _ d) as [s|e] eqn:Hl; [|done]. exfalso.
  unfold loadFromDisk, read_file in Hl. cbn [st_dir] in Hl. rewrite H1, H2 in Hl. cbn [or_err rbind] in Hl.
  destruct (or_err (files d !! JoinPath dir "ca.crt") _) as [caP|]; [|done]. cbn [rbind] in Hl.
  rewrite H3 in Hl. cbn [or_err rbind] in Hl. rewrite H4 in Hl. cbn [errorf rbind] in Hl.
  rewrite H6 in Hl. cbn [or_err rbind] in Hl. rewrite H7 in Hl. cbn [rbind] in Hl.
  all_ok. match goal with H : verifyCertMatchesKey _ _ = _ |- _ => apply verifyCertMatchesKey_Ok in H as (? & ? & ?) end.
  congruence.
Qed.
End results.

(** ** One key, one certificate *)

#[local] Instance demo_pki : Pki := {|
  GenerateKey := λ _, Ok "K"; key_public := λ k, Ok k; CreateCertificateRequest := λ _ _ _, Ok "csr";
  ParseCertificate := λ b, Ok (MkCertificate b 100 (Ok "K")); CheckSignatureFrom := λ _ _, Ok tt;
  MarshalECPrivateKey := λ k, Ok k; ParseECPrivateKey := λ b, Ok b; ParsePKCS8PrivateKey := λ _, Ok None;
  pem_encode := λ _ b, b; pem_decode := λ p, Some p; X509KeyPair := λ _ _, true;
  AppendCertsFromPEM := λ _, true
|}.
#[local] Instance demo_pki_laws : PkiLaws demo_pki.
Proof. split; [done|]. by intros k b [= <-]. Qed.

#[local] Notation demo_disk := (MkDisk ∅ []).
#[local] Notation demo_ops := [OpGenerateCSR 0 "s1"; OpStoreCert "crt" "ca"; OpGenerateCSR 1 "s1"].

Lemma certs_consistent_witness :
  ∃ cert ca, credentials "crt" "K" "ca" cert ca.
Proof.
  destruct (certs_consistent id "/tls" demo_disk demo_ops "crt" "K" "ca") as (cert & ca & _ & _ & H); [done|].
  by exists cert, ca.
Defined.

Lemma stored_cert_roundtrip_witness :
  let s := (GenerateCSR 0 "s1" (NewStore "/tls" demo_disk)).2 in
  HasCert (StoreCert (@rev _) "crt" "ca" s demo_disk).1.2 = true.
Proof.
  set (s := (GenerateCSR 0 "s1" (NewStore "/tls" demo_disk)).2). cbv zeta.
  destruct (StoreCert (@rev _) "crt" "ca" s demo_disk) as [[r s'] d'] eqn:H.
  assert (r = Ok tt) as -> by (vm_compute in H; congruence).
  apply (stored_cert_roundtrip (@rev _) "crt" "ca" s s' demo_disk d'); [|done|done].
  intros l. symmetry. apply Permutation_rev.
Defined.
