(* ===== verification/AgentClient.v ===== *)
(** * The agent's client (agent/internal/client/client.go, BuildMessage of
    agent/internal/heartbeat/heartbeat.go).

    The channel to the stream is the list of messages sent on it, which the terminal manager shares.
    A tailer is a goroutine with its stop channel; closing that twice would panic.  The hub of one
    connection attempt is a value of [Hub].  Logging is left out. *)

From S2P Require Import Prelude GoStr GoTime Proto.
From S2P Require Secrets Http Files FileBrowser LogTailer Dropzone AgentTerminal AgentCerts.

#[local] Existing Instance AgentTerminal.eta_Manager.
#[local] Existing Instance Dropzone.eta_Dropzone.

Definition maxTailSessions : nat := 50.
Definition dropzonePathAlias : string := "veyport://dropzone".

Record Config := MkConfig {
  HubAddr : string; Token : string; Hostname : string; IPAddress : string; OS : string;
  AgentVersion : string; UnregisterToken : string; Insecure : bool; AllowedPaths : list string;
  HubCAPin : string
}.

(** A call of [logtailer.StartTail] and whether its stop channel is closed. *)
Record Tailer := MkTailer { tl_path : string; tl_grep : string; tl_offset : Z; tl_request : string; tl_stopped : bool }.

Record Client := MkClient {
  cl_cfg : Config;
  cl_serverID : string;
  cl_backoff : Z;
  cl_tailSessions : gmap string nat;
  cl_tailers : gmap nat Tailer;
  cl_next : nat;
  cl_dropzone : Dropzone.Dropzone;
  cl_certStore : AgentCerts.Store;
  cl_disk : AgentCerts.Disk;
  cl_terminal : AgentTerminal.Manager;
  cl_registered : list string;       (* the calls of OnRegistered *)
  cl_cleanups : nat                  (* the self-cleanups started *)
}.
#[export] Instance eta_Client : Eta Client := λ r, MkClient (cl_cfg r) (cl_serverID r) (cl_backoff r)
  (cl_tailSessions r) (cl_tailers r) (cl_next r) (cl_dropzone r) (cl_certStore r) (cl_disk r)
  (cl_terminal r) (cl_registered r) (cl_cleanups r).

Definition maxBackoff : Z := 60 * Second.

Definition New (cfg : Config) (serverID certDir dropzoneDir : string) (fs : Dropzone.Fs)
    (answers : list Dropzone.os_answer) (disk : AgentCerts.Disk) `{P : AgentCerts.Pki} : Client :=
  let certDir := if String.eqb certDir "" then "/etc/veyport/tls/" else certDir in
  let dropzoneDir := if String.eqb dropzoneDir "" then "/tmp/veyport-dropzone" else dropzoneDir in
  MkClient cfg serverID (1 * Second) ∅ ∅ 0 (Dropzone.New dropzoneDir fs answers)
    (AgentCerts.NewStore certDir disk) disk AgentTerminal.NewManager [] 0.

(** [sendCh <- msg] *)
Definition send (msg : AgentMessage) (c : Client) : Client :=
  c <| cl_terminal ::= λ m, m <| AgentTerminal.sent ::= λ l, l ++ [msg] |> |>.

(** ** Paths *)

Section paths.
Context `{O : FileBrowser.Os}.

Definition pathWithinRoot (path root : string) : bool :=
  match Rel root path with
  | Err _ => false
  | Ok rel => String.eqb rel "." || (negb (HasPrefix rel "../") && negb (String.eqb rel ".."))
  end.

Definition candidateAllowedRoots (root : string) : list string :=
  let cleaned := Clean root in
  cleaned :: match FileBrowser.EvalSymlinks cleaned with
             | Ok resolved => let resolved := Clean resolved in
                              if String.eqb resolved cleaned then [] else [resolved]
             | Err _ => []
             end.

Definition pathWithinAllowedRoots (path : string) (allowedPaths : list string) : bool :=
  existsb (λ allowed, existsb (pathWithinRoot path) (candidateAllowedRoots allowed)) allowedPaths.

Definition isPathAllowed (path : string) (allowedPaths : list string) : bool :=
  match allowedPaths with
  | [] => true
  | _ =>
      let cleaned := Clean path in
      if negb (pathWithinAllowedRoots cleaned allowedPaths) then false else
      match FileBrowser.EvalSymlinks cleaned with
      | Err _ => true
      | Ok resolved => pathWithinAllowedRoots (Clean resolved) allowedPaths
      end
  end.

Definition resolveAgentPath (c : Client) (path : string) : string :=
  if String.eqb path dropzonePathAlias then Dropzone.dz_dir (cl_dropzone c) else
  let prefix := dropzonePathAlias +:+ "/" in
  if HasPrefix path prefix
  then JoinPath (Dropzone.dz_dir (cl_dropzone c)) (Clean (drop_str (String.length prefix) path))
  else path.

(** ** Handlers *)

Definition errNotAllowed : string := "path not in allowed list".

Definition handleFileListRequest (requestID path : string) (c : Client) : Client :=
  let resolvedPath := resolveAgentPath c path in
  if negb (isPathAllowed resolvedPath (AllowedPaths (cl_cfg c)))
  then send (Reply (FileListResponse requestID [] errNotAllowed)) c else
  let '(files, error) := FileBrowser.ListDir resolvedPath in
  send (Reply (FileListResponse requestID files error)) c.

Definition handleFileReadRequest (requestID path : string) (offset limit : Z) (c : Client) : Client :=
  let resolvedPath := resolveAgentPath c path in
  if negb (isPathAllowed resolvedPath (AllowedPaths (cl_cfg c)))
  then send (Reply (FileReadResponse requestID "" 0 "" errNotAllowed)) c else
  match FileBrowser.ReadFile resolvedPath offset limit with
  | Ok (data, total, mime) => send (Reply (FileReadResponse requestID data total mime "")) c
  | Err e => send (Reply (FileReadResponse requestID "" 0 "" e)) c
  end.

Definition handleLogStreamRequest (requestID path : string) (offset : Z) (grep : string) (c : Client) : Client :=
  let resolvedPath := resolveAgentPath c path in
  if negb (isPathAllowed resolvedPath (AllowedPaths (cl_cfg c)))
  then send (LogStreamChunk requestID ("error: " +:+ errNotAllowed)) c else
  if (maxTailSessions <=? size (cl_tailSessions c))%nat
  then send (LogStreamChunk requestID "error: too many active tail sessions") c else
  let stop := cl_next c in
  c <| cl_tailSessions ::= <[requestID := stop]> |>
    <| cl_tailers ::= <[stop := MkTailer resolvedPath grep offset requestID false]> |>
    <| cl_next := S stop |>.
End paths.

(** [close(stop)] *)
Definition close_stop (stop : nat) (c : Client) : outcome Client :=
  match cl_tailers c !! stop with
  | Some t => if tl_stopped t then Panic else
              Ret (c <| cl_tailers ::= <[stop := MkTailer (tl_path t) (tl_grep t) (tl_offset t)
                                                   (tl_request t) true]> |>)
  | None => Panic
  end.

Definition handleLogStreamStop (requestID : string) (c : Client) : outcome Client :=
  match cl_tailSessions c !! requestID with
  | None => Ret c
  | Some stop => close_stop stop (c <| cl_tailSessions ::= delete requestID |>)
  end.

Definition handleFileUploadRequest (requestID filename : string) (chunk : bytes) (done : bool)
    (c : Client) : Client :=
  let '(ack, d) := Dropzone.HandleChunk requestID filename chunk done (cl_dropzone c) in
  let c := c <| cl_dropzone := d |> in
  match ack with Some ack => send (Reply ack) c | None => c end.

(** os.Remove, with its answer *)
Definition Remove (path : string) (c : Client) : bool * Client :=
  let '(a, d) := Dropzone.answer (cl_dropzone c) in
  match a, Dropzone.names (Dropzone.dz_fs d) !! path with
  | None, Some _ => (true, c <| cl_dropzone := d <| Dropzone.dz_fs ::= Dropzone.remove_file path |> |>)
  | _, _ => (false, c <| cl_dropzone := d |>)
  end.

Definition handleFileDeleteRequest (requestID path : string) (c : Client) : Client :=
  let cleanPath := Clean (resolveAgentPath c path) in
  let dropzonePrefix := Clean (Dropzone.dz_dir (cl_dropzone c)) +:+ "/" in
  if negb (HasPrefix cleanPath dropzonePrefix)
  then send (Reply (FileDeleteResponse requestID false "deletion only allowed from dropzone directory")) c else
  let '(ok, c) := Remove cleanPath c in
  send (Reply (if ok then FileDeleteResponse requestID true ""
               else FileDeleteResponse requestID false "file operation failed")) c.

Definition handleUnregisterRequest (requestID : string) (c : Client) : Client :=
  if negb (AgentCerts.HasCert (cl_certStore c))
  then send (Reply (UnregisterAck requestID false "")) c else
  send (Reply (UnregisterAck requestID true "")) c <| cl_cleanups ::= S |>.

Definition binaryPath : string := "/usr/local/bin/veyport-agent".
Definition configDir : string := "/etc/veyport/".
Definition servicePath : string := "/etc/systemd/system/veyport-agent.service".

(** Stopping the service may end the process before the last removal. *)
Definition selfCleanup (stopped : bool) (c : Client) : Client :=
  c <| cl_dropzone ::= λ d, d <| Dropzone.dz_fs ::= λ fs,
    let fs := Dropzone.remove_file binaryPath fs in
    let fs := Dropzone.remove_all configDir fs in
    let fs := Dropzone.remove_all (Dropzone.dz_dir d) fs in
    if stopped then fs else Dropzone.remove_file servicePath fs |> |>.

Section terminal.
Context `{T : AgentTerminal.Host}.
(** What other goroutines do while a shell starts, and the answers of a stopped manager's select. *)
Context (meanwhile : AgentTerminal.Manager → AgentTerminal.Manager) (may_send : bool).
Context (failure : option string).

Definition handleTerminalOpenRequest (sessionID : string) (cols rows : Z) (cwd runAsUser : string)
    (c : Client) : Client :=
  let '(r, m) := AgentTerminal.Open meanwhile sessionID cols rows cwd runAsUser (cl_terminal c) in
  let ack := match r with
             | Ok _ => TerminalOpenAck sessionID true ""
             | Err e => TerminalOpenAck sessionID false e
             end in
  c <| cl_terminal := (AgentTerminal.Send (Reply ack) may_send m).2 |>.

Definition handleTerminalInput (sessionID : string) (data : bytes) (c : Client) : Client :=
  c <| cl_terminal ::= λ m, (AgentTerminal.Input sessionID data failure m).2 |>.
Definition handleTerminalResize (sessionID : string) (cols rows : Z) (c : Client) : Client :=
  c <| cl_terminal ::= λ m, (AgentTerminal.Resize sessionID cols rows failure m).2 |>.
End terminal.

Definition handleTerminalClose (sessionID : string) (c : Client) : Client :=
  c <| cl_terminal ::= λ m, (AgentTerminal.Close sessionID m).2 |>.

Section certificates.
Context `{P : AgentCerts.Pki}.
Context (order : list (string * bytes) → list (string * bytes)).

Definition StoreCert (clientCert caCert : bytes) (c : Client) : Client :=
  let '(_, s, d) := AgentCerts.StoreCert order clientCert caCert (cl_certStore c) (cl_disk c) in
  c <| cl_certStore := s |> <| cl_disk := d |>.

Definition handleCertRenewResponse (clientCert caCert : bytes) (error : string) (c : Client) : Client :=
  if negb (String.eqb error "") then c else
  if String.eqb clientCert "" || String.eqb caCert "" then c else
  StoreCert clientCert caCert c.

(** One tick of [startCertRenewalTicker]. *)
Definition renewal_tick (now : Z) (draw : nat) (c : Client) : Client :=
  if negb (AgentCerts.HasCert (cl_certStore c)) ||
     negb (AgentCerts.NeedsRenewal now (6 * Hour) (cl_certStore c)) then c else
  let '(csr, s) := AgentCerts.GenerateCSR draw (cl_serverID c) (cl_certStore c) in
  let c := c <| cl_certStore := s |> in
  match csr with
  | Err _ => c
  | Ok csrDER => send (CertRenewRequest csrDER) c
  end.

(** heartbeat.BuildMessage and one tick of its ticker; [ip] is sysinfo.OutboundIP(). *)
Definition BuildMessage (serverID ip : string) : AgentMessage := Heartbeat serverID ip.
Definition heartbeat_tick (ip : string) (c : Client) : Client := send (BuildMessage (cl_serverID c) ip) c.
End certificates.

(** ** Dispatch *)

(** Everything outside the process that one message may meet. *)
Record Machine := MkMachine {
  mc_os : FileBrowser.Os;
  mc_host : AgentTerminal.Host;
  mc_pki : AgentCerts.Pki;
  mc_meanwhile : AgentTerminal.Manager → AgentTerminal.Manager;
  mc_may_send : bool;
  mc_failure : option string;
  mc_order : list (string * bytes) → list (string * bytes)
}.

Definition handleMessage (mc : Machine) (msg : HubMessage) (c : Client) : outcome Client :=
  let O := mc_os mc in let T := mc_host mc in let P := mc_pki mc in
  match msg with
  | FileListRequest id path => Ret (handleFileListRequest id path c)
  | FileReadRequest id path offset limit => Ret (handleFileReadRequest id path offset limit c)
  | LogStreamRequest id path offset grep => Ret (handleLogStreamRequest id path offset grep c)
  | LogStreamStop id => handleLogStreamStop id c
  | FileUploadRequest id filename chunk done => Ret (handleFileUploadRequest id filename chunk done c)
  | FileDeleteRequest id path => Ret (handleFileDeleteRequest id path c)
  | UnregisterRequest id => Ret (handleUnregisterRequest id c)
  | CertRenewResponse cert ca error => Ret (handleCertRenewResponse (mc_order mc) cert ca error c)
  | TerminalOpenRequest id cols rows cwd user =>
      Ret (handleTerminalOpenRequest (mc_meanwhile mc) (mc_may_send mc) id cols rows cwd user c)
  | TerminalInput id data => Ret (handleTerminalInput (mc_failure mc) id data c)
  | TerminalResize id cols rows => Ret (handleTerminalResize (mc_failure mc) id cols rows c)
  | TerminalClose id => Ret (handleTerminalClose id c)
  | HeartbeatAck _ | RegisterAck _ _ _ _ _ => Ret c
  end.

(** ** Connections *)

Definition nextBackoff (c : Client) : Z * Client :=
  let current := cl_backoff c in
  let next := current * 2 in
  (current, c <| cl_backoff := if maxBackoff <? next then maxBackoff else next |>).

Definition resetBackoff (c : Client) : Client := c <| cl_backoff := 1 * Second |>.

(** crypto/x509 and crypto/sha256 for the pinned certificate: [Verify] takes the leaf, the roots, the
    intermediates and the host name to check. *)
Class Tls := {
  sha256_raw : bytes → bytes;
  Verify : AgentCerts.Certificate → list AgentCerts.Certificate → list AgentCerts.Certificate →
           option string → result unit;
  is_ip : string → bool                    (* net.ParseIP(s) != nil *)
}.

(** How a connection is secured. *)
Inductive transport :=
  | MutualTLS (certPEM keyPEM caPEM : bytes)
  | Plain
  | Pinned (pin : bytes) (host : string).

Section connection.
Context `{P : AgentCerts.Pki, X : Tls}.

Definition bootstrapTLSConfig (c : Client) : result transport :=
  if String.eqb (HubCAPin (cl_cfg c)) "" then Err "missing hub CA pin for bootstrap TLS" else
  match Secrets.hex_decode (HubCAPin (cl_cfg c)) with
  | None => Err "decode hub CA pin"
  | Some pin => Ok (Pinned pin (match Http.SplitHostPort (HubAddr (cl_cfg c)) with
                                    | Some (host, _) => host
                                    | None => HubAddr (cl_cfg c)
                                    end))
  end.

Definition useTLS (c : Client) : bool := negb (Insecure (cl_cfg c)).

(** The credentials [dialHub] gives the connection. *)
Definition dialHub (c : Client) : result transport :=
  match AgentCerts.TLSConfig (cl_certStore c) with
  | Some (certPEM, keyPEM, caPEM) => Ok (MutualTLS certPEM keyPEM caPEM)
  | None => if negb (useTLS c) then Ok Plain else bootstrapTLSConfig c
  end.

(** The certificates of the chain after the leaf: the last with the pin, and the others. *)
Fixpoint sort_chain (expectedPin : bytes) (certs : list AgentCerts.Certificate)
    (pinnedCA : option AgentCerts.Certificate) (intermediates : list AgentCerts.Certificate)
  : option AgentCerts.Certificate * list AgentCerts.Certificate :=
  match certs with
  | [] => (pinnedCA, intermediates)
  | cert :: certs' =>
      if String.eqb (sha256_raw (AgentCerts.Raw cert)) expectedPin
      then sort_chain expectedPin certs' (Some cert) intermediates
      else sort_chain expectedPin certs' pinnedCA (intermediates ++ [cert])
  end.

Definition parse_chain (rawCerts : list bytes) : result (list AgentCerts.Certificate) :=
  foldr (λ raw rest, AgentCerts.rbind (AgentCerts.errorf "parse hub certificate" (AgentCerts.ParseCertificate raw))
    (λ cert, AgentCerts.rbind rest (λ certs, Ok (cert :: certs)))) (Ok []) rawCerts.

Definition verifyPinnedHubCertificate (rawCerts : list bytes) (expectedPin : bytes) (host : string) : result unit :=
  match rawCerts with
  | [] => Err "hub did not present a certificate chain"
  | _ =>
      match parse_chain rawCerts with
      | Err e => Err e
      | Ok [] => Err "hub did not present a certificate chain"
      | Ok (leaf :: certs) =>
          match sort_chain expectedPin certs None [] with
          | (None, _) => Err "hub TLS chain did not include the expected CA pin"
          | (Some pinnedCA, intermediates) =>
              let dnsName := if negb (is_ip host) && negb (String.eqb host "") then Some host else None in
              AgentCerts.errorf "verify hub certificate" (Verify leaf [pinnedCA] intermediates dnsName)
          end
      end
  end.

(** The hub as one connection attempt meets it. *)
Record Hub := MkHub {
  hb_connect : option string;            (* why the stream does not open *)
  hb_send : option string;               (* why the handshake is not sent *)
  hb_recv : result HubMessage;           (* the answer to it *)
  hb_end : string                        (* how the stream ends *)
}.

Definition storeMTLSCerts (order : list (string * bytes) → list (string * bytes))
    (clientCert caCert : bytes) (c : Client) : Client :=
  if String.eqb clientCert "" || String.eqb caCert "" then c else StoreCert order clientCert caCert c.

(** The random numbers of the request are named [draw].  A failure to make one is no obstacle. *)
Definition generateCSRForRegistration (draw : nat) (c : Client) : bytes * Client :=
  let '(csr, s) := AgentCerts.GenerateCSR draw "pending" (cl_certStore c) in
  (match csr with Ok csr => csr | Err _ => "" end, c <| cl_certStore := s |>).

(** The messages sent and the result. *)
Definition sendRegister (order : list (string * bytes) → list (string * bytes)) (draw : nat) (h : Hub)
    (c : Client) : result unit * list AgentMessage * Client :=
  let '(csrDER, c) := generateCSRForRegistration draw c in
  let cfg := cl_cfg c in
  let msg := Register (MkRegisterAgent (Token cfg) (Hostname cfg) (IPAddress cfg) (OS cfg)
                         (AgentVersion cfg) csrDER) in
  match hb_send h with
  | Some e => (Err ("send register: " +:+ e), [], c)
  | None =>
      match hb_recv h with
      | Err e => (Err ("recv register ack: " +:+ e), [msg], c)
      | Ok (RegisterAck success serverId error clientCert caCert) =>
          if negb success then (Err ("registration rejected: " +:+ error), [msg], c) else
          let c := storeMTLSCerts order clientCert caCert (c <| cl_serverID := serverId |>) in
          (Ok tt, [msg], c <| cl_registered ::= λ l, l ++ [serverId] |>)
      | Ok _ => (Err "expected RegisterAck", [msg], c)
      end
  end.

Definition sendHeartbeatHandshake (ip : string) (h : Hub) (c : Client) : result unit * list AgentMessage :=
  let msg := BuildMessage (cl_serverID c) ip in
  match hb_send h with
  | Some e => (Err ("send heartbeat: " +:+ e), [])
  | None =>
      match hb_recv h with
      | Err e => (Err ("recv heartbeat ack: " +:+ e), [msg])
      | Ok (HeartbeatAck _) => (Ok tt, [msg])
      | Ok _ => (Err "expected HeartbeatAck", [msg])
      end
  end.

(** Whether it registered. *)
Definition registerOrHandshake (order : list (string * bytes) → list (string * bytes)) (draw : nat)
    (ip : string) (h : Hub) (c : Client) : result bool * list AgentMessage * Client :=
  if String.eqb (cl_serverID c) "" then
    let '(r, out, c) := sendRegister order draw h c in
    (match r with Ok _ => Ok true | Err e => Err e end, out, c)
  else
    let '(r, out) := sendHeartbeatHandshake ip h c in
    (match r with Ok _ => Ok false | Err e => Err e end, out, c).

(** ** Runs *)

(** How a connection ended: [Reconnect] is errReconnectWithMTLS. *)
Inductive conn_end := Reconnect | Ended (e : string).

Definition close_tails (c : Client) : outcome Client :=
  foldl (λ r e, obind r (close_stop e.2)) (Ret (c <| cl_tailSessions := ∅ |>)) (map_to_list (cl_tailSessions c)).

(** The deferred clean-up of [connectAndStream]. *)
Definition cleanup (c : Client) : outcome Client :=
  let! c := close_tails c in
  Ret (c <| cl_terminal ::= AgentTerminal.CloseAll |> <| cl_dropzone ::= Dropzone.Cleanup |>).

(** One attempt: the hub it meets, its random numbers, its address, and what goes on while connected. *)
Record Attempt := MkAttempt {
  at_hub : Hub;
  at_draw : nat;
  at_ip : string;
  at_order : list (string * bytes) → list (string * bytes);
  at_during : Client → outcome Client
}.

Definition connectAndStream (a : Attempt) (c : Client) : outcome (conn_end * Client) :=
  match dialHub c with
  | Err e => Ret (Ended e, c)
  | Ok _ =>
      match hb_connect (at_hub a) with
      | Some e => Ret (Ended ("open stream: " +:+ e), c)
      | None =>
          match registerOrHandshake (at_order a) (at_draw a) (at_ip a) (at_hub a) c with
          | (Err e, _, c) => Ret (Ended e, c)
          | (Ok true, _, c) => Ret (Reconnect, c)
          | (Ok false, _, c) =>
              let c := resetBackoff c in
              let c := c <| cl_terminal := AgentTerminal.NewManager |> in
              let! c := at_during a c in
              let! c := cleanup c in
              Ret (Ended (hb_end (at_hub a)), c)
          end
      end
  end.

(** Why [Run] returned; [Cancelled] when the attempts given ran out first. *)
Inductive run_end := Cancelled | Unregistered (e : string).

Definition is_registration (e : string) : bool := Contains e "registration".

(** The waits between attempts, and the end. *)
Fixpoint run_loop (attempts : list Attempt) (regFailures : nat) (c : Client)
  : outcome (list Z * run_end * Client) :=
  match attempts with
  | [] => Ret ([], Cancelled, c)
  | a :: attempts' =>
      let! (err, c) := connectAndStream a c in
      match err with
      | Reconnect => run_loop attempts' 0 (resetBackoff c)
      | Ended e =>
          let regFailures := if is_registration e then S regFailures else 0%nat in
          if (3 <=? regFailures)%nat then Ret ([], Unregistered ("server unregistered: " +:+ e), c) else
          let '(wait, c) := nextBackoff c in
          let! (waits, last, c) := run_loop attempts' regFailures c in
          Ret (wait :: waits, last, c)
      end
  end.
Definition Run (attempts : list Attempt) (c : Client) : outcome (list Z * run_end * Client) :=
  run_loop attempts 0 c.
End connection.

(** ** The receive loop

    An upload is handled before the next message is received, any other message by a goroutine of its
    own, which may run at any later time. *)

Record Loop := MkLoop { lp_client : Client; lp_running : list HubMessage; lp_received : list HubMessage }.

Definition is_upload (m : HubMessage) : bool := match m with FileUploadRequest _ _ _ _ => true | _ => false end.
Definition is_delete (m : HubMessage) : bool := match m with FileDeleteRequest _ _ => true | _ => false end.

Inductive loop_step : Loop → Loop → Prop :=
  | loop_upload mc m c c' run rcv : is_upload m = true → handleMessage mc m c = Ret c' →
      loop_step (MkLoop c run rcv) (MkLoop c' run (rcv ++ [m]))
  | loop_spawn m c run rcv : is_upload m = false →
      loop_step (MkLoop c run rcv) (MkLoop c (run ++ [m]) (rcv ++ [m]))
  | loop_run mc m c c' run1 run2 rcv : handleMessage mc m c = Ret c' →
      loop_step (MkLoop c (run1 ++ m :: run2) rcv) (MkLoop c' (run1 ++ run2) rcv).

Lemma close_stop_dropzone (stop : nat) (c c' : Client) : close_stop stop c = Ret c' → cl_dropzone c' = cl_dropzone c.
Proof.
  unfold close_stop. destruct (cl_tailers c !! stop) as [t|]; [|done]. destruct (tl_stopped t); [done|].
  by intros [= <-].
Qed.

Lemma handleMessage_dropzone (mc : Machine) (m : HubMessage) (c c' : Client) :
  handleMessage mc m c = Ret c' → is_upload m = false → is_delete m = false → cl_dropzone c' = cl_dropzone c.
Proof.
  destruct m; simpl; try done; intros Hm _ _; try by injection Hm as <-.
  - injection Hm as <-. unfold handleFileListRequest. destruct (negb _); [done|]. by destruct (FileBrowser.ListDir _).
  - injection Hm as <-. unfold handleLogStreamRequest. destruct (negb _); [done|]. by destruct (_ <=? _)%nat.
  - injection Hm as <-. unfold handleFileReadRequest. destruct (negb _); [done|].
    by destruct (FileBrowser.ReadFile _ _ _) as [[[? ?] ?]|].
  - unfold handleLogStreamStop in Hm. destruct (cl_tailSessions c !! request_id); [|by injection Hm as <-].
    by apply close_stop_dropzone in Hm.
  - injection Hm as <-. unfold handleUnregisterRequest. by destruct (negb _).
  - injection Hm as <-. unfold handleCertRenewResponse. destruct (negb _); [done|]. destruct (_ || _); [done|].
    unfold StoreCert. by destruct (AgentCerts.StoreCert _ _ _ _ _) as [[? ?] ?].
  - injection Hm as <-. unfold handleTerminalOpenRequest.
    by destruct (AgentTerminal.Open _ _ _ _ _ _ _).
Qed.

Lemma deliver_snoc (ms : list HubMessage) (m : HubMessage) (d : Dropzone.Dropzone) :
  (Dropzone.deliver (ms ++ [m]) d).2 = (Dropzone.deliver [m] (Dropzone.deliver ms d).2).2.
Proof.
  revert d. induction ms as [|m' ms IH]; intros d; [done|].
  destruct m'; try apply IH. cbn [app Dropzone.deliver].
  destruct (Dropzone.HandleChunk _ _ _ _ d) as [ack d1]. specialize (IH d1).
  destruct (Dropzone.deliver (ms ++ [m]) d1) as [acks d2], (Dropzone.deliver ms d1) as [acks' d3].
  simpl in *. exact IH.
Qed.


(** ** Log tails *)

Record same_tails (c c' : Client) : Prop := {
  sm_sessions : cl_tailSessions c' = cl_tailSessions c;
  sm_tailers : cl_tailers c' = cl_tailers c;
  sm_next : cl_next c' = cl_next c
}.

Definition is_tail (m : HubMessage) : bool :=
  match m with LogStreamRequest _ _ _ _ | LogStreamStop _ => true | _ => false end.

Lemma handleMessage_same_tails (mc : Machine) (m : HubMessage) (c : Client) :
  is_tail m = false → ∃ c', handleMessage mc m c = Ret c' ∧ same_tails c c'.
Proof.
  destruct m; simpl; try done; intros _; eexists; (split; [done|]); try by split.
  - unfold handleFileListRequest. destruct (negb _); [by split|]. by destruct (FileBrowser.ListDir _).
  - unfold handleFileUploadRequest. by destruct (Dropzone.HandleChunk _ _ _ _ _) as [[ack|] d].
  - unfold handleFileReadRequest. destruct (negb _); [by split|].
    by destruct (FileBrowser.ReadFile _ _ _) as [[[? ?] ?]|].
  - unfold handleFileDeleteRequest. destruct (negb _); [by split|]. unfold Remove.
    destruct (Dropzone.answer _) as [[a|] d]; [by split|].
    by destruct (Dropzone.names _ !! _).
  - unfold handleUnregisterRequest. by destruct (negb _).
  - unfold handleCertRenewResponse. destruct (negb _); [by split|]. destruct (_ || _); [by split|].
    unfold StoreCert. by destruct (AgentCerts.StoreCert _ _ _ _ _) as [[? ?] ?].
  - unfold handleTerminalOpenRequest. by destruct (AgentTerminal.Open _ _ _ _ _ _ _).
Qed.

Record tails_inv (c : Client) : Prop := {
  ti_sessions : ∀ id stop, cl_tailSessions c !! id = Some stop →
    ∃ t, cl_tailers c !! stop = Some t ∧ tl_stopped t = false ∧ tl_request t = id;
  ti_running : ∀ stop t, cl_tailers c !! stop = Some t → tl_stopped t = false →
    cl_tailSessions c !! tl_request t = Some stop;
  ti_next : ∀ stop t, cl_tailers c !! stop = Some t → (stop < cl_next c)%nat;
  ti_size : (size (cl_tailSessions c) <= maxTailSessions)%nat
}.

Lemma same_tails_inv (c c' : Client) : same_tails c c' → tails_inv c → tails_inv c'.
Proof. intros [H1 H2 H3] []. split; by rewrite ?H1, ?H2, ?H3. Qed.

(** Stopping the tail of one identifier. *)
Lemma stop_inv (id : string) (stop : nat) (c : Client) :
  tails_inv c → cl_tailSessions c !! id = Some stop →
  ∃ c', close_stop stop (c <| cl_tailSessions ::= delete id |>) = Ret c' ∧ tails_inv c' ∧
    cl_tailSessions c' = delete id (cl_tailSessions c) ∧ (dom (cl_tailers c') = dom (cl_tailers c)).
Proof.
  intros [I1 I2 I3 I4] Hs. destruct (I1 id stop Hs) as (t & Ht & Hst & Hid).
  unfold close_stop. simpl. rewrite Ht, Hst. eexists. split; [done|]. split; [split; simpl|split; [done|simpl]].
  - intros i s [Hne Hi]%lookup_delete_Some. destruct (I1 i s Hi) as (t' & Ht' & H1 & H2).
    exists t'. rewrite lookup_insert_ne; [done|]. intros ->. simplify_eq.
  - intros s t' [[<- <-]|[Hne Ht']]%lookup_insert_Some Hf; [done|].
    rewrite lookup_delete_ne; [by apply I2|]. intros He. apply Hne. apply (I2 s t' Ht') in Hf. congruence.
  - intros s t' [[<- <-]|[Hne Ht']]%lookup_insert_Some; by eapply I3.
  - rewrite map_size_delete. destruct (cl_tailSessions c !! id); simpl; lia.
  - rewrite dom_insert_L. assert (stop ∈ dom (cl_tailers c)) by (apply elem_of_dom; eauto). set_solver.
Qed.

Definition stream_id (m : HubMessage) : list string :=
  match m with LogStreamRequest id _ _ _ => [id] | _ => [] end.

Lemma handleMessage_tails (mc : Machine) (m : HubMessage) (c : Client) :
  tails_inv c → (∀ s t, cl_tailers c !! s = Some t → tl_request t ∉ stream_id m) →
  ∃ c', handleMessage mc m c = Ret c' ∧ tails_inv c' ∧
    ∀ s t, cl_tailers c' !! s = Some t → tl_request t ∈ stream_id m ∨
      ∃ t0, cl_tailers c !! s = Some t0 ∧ tl_request t0 = tl_request t.
Proof.
  intros Hi Hnew. destruct (is_tail m) eqn:Ht.
  2: { destruct (handleMessage_same_tails mc m c Ht) as (c' & Hm & Hs). exists c'. split; [done|].
       split; [by eapply same_tails_inv|]. intros s t. rewrite (sm_tailers _ _ Hs). eauto. }
  destruct m; try done; simpl in *.
  - eexists. split; [done|]. unfold handleLogStreamRequest.
    destruct (negb _); [split; [by eapply same_tails_inv; [|exact Hi]|by eauto]|].
    destruct (Nat.leb_spec maxTailSessions (size (cl_tailSessions c)));
      [split; [by eapply same_tails_inv; [|exact Hi]|by eauto]|].
    destruct Hi as [I1 I2 I3 I4]. split; [split; simpl|simpl].
    + intros id stop [[<- <-]|[Hne Hs]]%lookup_insert_Some.
      * eexists. by rewrite lookup_insert_eq.
      * destruct (I1 id stop Hs) as (t & Hl & Hst & Hid). exists t.
        rewrite lookup_insert_ne; [done|]. apply I3 in Hl. lia.
    + intros stop t [[<- <-]|[Hne Hl]]%lookup_insert_Some Hst; [by rewrite lookup_insert_eq|].
      rewrite lookup_insert_ne; [by apply I2|]. intros He. apply (Hnew stop t Hl). rewrite He; by left.
    + intros stop t [[<- <-]|[Hne Hl]]%lookup_insert_Some; [lia|]. apply I3 in Hl. lia.
    + rewrite map_size_insert. destruct (cl_tailSessions c !! request_id); simpl; lia.
    + intros s t [[<- <-]|[_ Hl]]%lookup_insert_Some; [left; by left|eauto].
  - unfold handleLogStreamStop. destruct (cl_tailSessions c !! request_id) as [stop|] eqn:Hs; [|by exists c; split_and!; eauto].
    destruct (stop_inv request_id stop c Hi Hs) as (c' & Hc & Hi' & _ & Hd). exists c'. split; [done|].
    split; [done|]. intros s t Hl. right. unfold close_stop in Hc. simpl in Hc.
    destruct (cl_tailers c !! stop) as [t0|] eqn:Ht0; [|done]. destruct (tl_stopped t0); [done|].
    injection Hc as <-. simpl in Hl. apply lookup_insert_Some in Hl as [[<- <-]|[_ Hl]]; eauto.
Qed.

Fixpoint handle_all (ms : list (Machine * HubMessage)) (c : Client) : outcome Client :=
  match ms with
  | [] => Ret c
  | (mc, m) :: ms' => obind (handleMessage mc m c) (handle_all ms')
  end.

Lemma handle_all_tails (ms : list (Machine * HubMessage)) (c : Client) :
  tails_inv c → NoDup (concat (map (λ x, stream_id x.2) ms)) →
  (∀ s t, cl_tailers c !! s = Some t → tl_request t ∉ concat (map (λ x, stream_id x.2) ms)) →
  ∃ c', handle_all ms c = Ret c' ∧ tails_inv c'.
Proof.
  revert c. induction ms as [|[mc m] ms IH]; intros c Hi Hnd Hnew; [by exists c|].
  simpl in *. apply NoDup_app in Hnd as (_ & Hd & Hnd).
  destruct (handleMessage_tails mc m c Hi) as (c1 & Hm & Hi1 & Ht).
  { intros s t Hl Hin. apply (Hnew s t Hl), elem_of_app. by left. }
  rewrite Hm. simpl.
  apply IH; [done|done|]. intros s t Hl. destruct (Ht s t Hl) as [Hin|(t0 & Hl0 & He)]; [by apply Hd|].
  rewrite <- He. intros Hin. apply (Hnew s t0 Hl0), elem_of_app. by right.
Qed.

Lemma close_tails_run (l : list (string * nat)) (c : Client) :
  NoDup l.*2 → (∀ id stop, (id, stop) ∈ l → ∃ t, cl_tailers c !! stop = Some t ∧ tl_stopped t = false) →
  ∃ c', foldl (λ r e, obind r (close_stop e.2)) (Ret c) l = Ret c' ∧
    cl_tailSessions c' = cl_tailSessions c ∧
    ∀ stop t, cl_tailers c' !! stop = Some t → tl_stopped t = false →
      cl_tailers c !! stop = Some t ∧ stop ∉ l.*2.
Proof.
  revert c. induction l as [|[id stop] l IH]; intros c Hnd Hl.
  - exists c. split; [done|]. split; [done|]. intros stop t Ht _. split; [done|]. by apply not_elem_of_nil.
  - simpl in *. apply NoDup_cons in Hnd as [Hn Hnd].
    destruct (Hl id stop ltac:(by left)) as (t & Ht & Hst).
    unfold close_stop at 2. rewrite Ht, Hst.
    match goal with |- context [Ret ?x] => destruct (IH x) as (c' & Hc & Hs & H) end; [done| |].
    + intros i s Hin. destruct (Hl i s ltac:(by right)) as (u & Hu & Hsu). exists u. simpl.
      rewrite lookup_insert_ne; [done|]. intros ->. apply Hn. apply list_elem_of_fmap. by exists (i, s).
    + exists c'. split; [exact Hc|]. split; [by rewrite Hs|]. intros s u Hu Hsu.
      destruct (H s u Hu Hsu) as [Hl' Hn']. simpl in Hl'. apply lookup_insert_Some in Hl' as [[<- <-]|[Hne Hl']]; [done|].
      split; [done|]. apply not_elem_of_cons. split; [by apply not_eq_sym|done].
Qed.


(** ** What the agent serves *)

(** Cleaning an absolute path without a dot-dot element leaves what it names. *)
Class CleanLaws (O : FileBrowser.Os) := {
  eval_clean : ∀ p, is_rooted p = true → Contains p ".." = false →
    FileBrowser.EvalSymlinks (Clean p) = FileBrowser.EvalSymlinks p
}.

(** The file lies under one of the directories the agent's own configuration allows, or under what
    one of them resolves to; without any configured, everything does. *)
Definition permitted `{O : FileBrowser.Os} (allowed : list string) (resolved : string) : Prop :=
  allowed = [] ∨ ∃ a root, a ∈ allowed ∧ root ∈ candidateAllowedRoots a ∧ under root resolved.

Section serving.
Context `{O : FileBrowser.Os, !FileBrowser.OsLaws O, !CleanLaws O}.

Lemma candidate_clean (a root : string) :
  root ∈ candidateAllowedRoots a → is_rooted root = true → Clean root = root.
Proof.
  intros Hin Hr.
  assert (Hc : ∃ q, root = Clean q).
  { unfold candidateAllowedRoots in Hin. apply elem_of_cons in Hin as [->|Hin]; [by eexists|].
    destruct (FileBrowser.EvalSymlinks (Clean a)) as [q|]; [|by apply not_elem_of_nil in Hin].
    destruct (String.eqb _ _); [by apply not_elem_of_nil in Hin|].
    apply list_elem_of_singleton in Hin as ->. by eexists. }
  destruct Hc as [q ->]. apply clean_idem. by apply FileBrowser.rooted_of_Clean.
Qed.

Lemma pathWithinRoot_rooted (path root : string) :
  is_rooted path = true → Clean path = path → pathWithinRoot path root = true → under (Clean root) path.
Proof.
  intros Hp Hcp Hw.
  unfold pathWithinRoot in Hw. destruct (Rel root path) as [rel|] eqn:Hrel; [|done].
  assert (Hrel' : Rel (Clean root) (Clean path) = Ok rel).
  { rewrite Hcp. unfold Rel in *. destruct (is_rooted root) eqn:Hr; [by rewrite clean_idem|].
    exfalso. rewrite (rooted_Clean _ Hp), (unrooted_Clean _ Hr) in Hrel. simpl in Hrel.
    destruct (String.eqb_spec (Clean path) (Clean root)) as [He|]; [|done].
    assert (H1 := rooted_Clean _ Hp). assert (H2 := unrooted_Clean _ Hr). congruence. }
  assert (Hru := Rel_under root path Hp). rewrite Hrel' in Hru. apply Hru in Hw.
  destruct Hw as [Hr Hu]. by apply FileBrowser.Clean_under_l.
Qed.

Lemma pathWithinAllowedRoots_permitted (allowed : list string) (path : string) :
  is_rooted path = true → Clean path = path → pathWithinAllowedRoots path allowed = true →
  ∃ a root, a ∈ allowed ∧ root ∈ candidateAllowedRoots a ∧ under root path.
Proof.
  intros Hp Hcp. unfold pathWithinAllowedRoots. rewrite existsb_exists.
  intros (a & Ha & (root & Hr & Hw)%existsb_exists). exists a, root.
  apply list_elem_of_In in Ha, Hr. split; [done|]. split; [done|].
  apply pathWithinRoot_rooted in Hw; [|done..]. destruct Hw as [Hc Hu].
  rewrite <- (candidate_clean a root Hr); [by split|]. by apply FileBrowser.rooted_of_Clean.
Qed.

Lemma isPathAllowed_permitted (allowed : list string) (path resolved : string) :
  is_rooted path = true → FileBrowser.EvalSymlinks (Clean path) = Ok resolved → is_rooted resolved = true →
  isPathAllowed path allowed = true → permitted allowed resolved.
Proof.
  intros Hp He Hr. unfold isPathAllowed. destruct allowed as [|a l]; [by left|]. rewrite He.
  destruct (pathWithinAllowedRoots (Clean path) (a :: l)); simpl; [|done]. intros Hw. right.
  assert (Hc := FileBrowser.resolved_clean _ _ (rooted_Clean _ Hp) He). rewrite Hc in Hw.
  by apply pathWithinAllowedRoots_permitted.
Qed.

Lemma reachable_permitted (allowed : list string) (path resolved : string) :
  FileBrowser.reachable path resolved → isPathAllowed path allowed = true → permitted allowed resolved.
Proof.
  intros [He Hr Hv Hu _ _] Ha. apply FileBrowser.validatePath_safe in Hv as Hs. destruct Hs as [Hp _].
  assert (Hd : Contains path ".." = false).
  { unfold FileBrowser.validatePath in Hv. by destruct (Contains path ".."). }
  rewrite <- eval_clean in He by done. by apply (isPathAllowed_permitted allowed path resolved).
Qed.
End serving.


(** ** What the hub can change *)

(** The agent's own files: binary, configuration and unit. *)
Definition own_file (p : string) : bool :=
  String.eqb p binaryPath || String.eqb p servicePath || Dropzone.below configDir p.

Lemma own_config (p : string) : Dropzone.below configDir p = true → own_file p = true.
Proof. unfold own_file. intros ->. by rewrite !orb_true_r. Qed.

Section changes.
Context (dir : string) (fs0 : Dropzone.Fs) (Hdir : is_rooted dir = true).
(** Where changes are allowed. *)
Context (T : string → Prop) (HT : ∀ p, under dir p → T p).

Lemma inside_under (p : string) : Dropzone.inside dir p → T p.
Proof. intros (b & Hb & ->). by apply HT, JoinPath_under. Qed.

Definition message_ok (m : HubMessage) : bool :=
  match m with FileUploadRequest id _ _ _ => no_byte "/" id | _ => true end.

Definition files_ok (c : Client) : Prop := Dropzone.dz_inv dir fs0 T (cl_dropzone c).

(** The test of a deletion. *)
Lemma delete_below (p : string) :
  HasPrefix (Clean p) (Clean dir +:+ "/") = true → under dir (Clean p) ∧ Clean p ≠ Clean dir.
Proof.
  intros Hpre. assert (Hr : is_rooted (Clean p) = true).
  { apply prefix_iff in Hpre as [t Ht]. rewrite Ht. assert (H := rooted_Clean _ Hdir).
    unfold is_rooted, HasPrefix in *. apply prefix_iff in H as [u ->]. rewrite !app_assoc_str. apply prefix_app. }
  split.
  - apply FileBrowser.Clean_under_l; [done|]. apply FileBrowser.at_or_below_under.
    + by apply rooted_Clean.
    + by apply clean_idem.
    + done.
    + apply clean_idem. by apply FileBrowser.rooted_of_Clean.
    + unfold FileBrowser.at_or_below. rewrite Hpre. apply orb_true_r.
  - intros He. rewrite He in Hpre. apply prefix_iff in Hpre as [t Ht].
    apply (f_equal String.length) in Ht. rewrite !length_app_str in Ht. simpl in Ht. lia.
Qed.

Lemma Remove_ok (p : string) (c : Client) :
  files_ok c → T p → files_ok (Remove p c).2.
Proof.
  unfold files_ok. intros Hi Hp. unfold Remove, Dropzone.answer.
  assert (Hr := Dropzone.remove_inv fs0 T p _ Hp (Dropzone.di_fs _ _ _ _ Hi)). destruct Hr as [Hf Hm].
  assert (Hsame : ∀ l, Dropzone.dz_inv dir fs0 T (cl_dropzone c <| Dropzone.dz_answers := l |>)).
  { intros l. by destruct Hi. }
  assert (Hgo : ∀ l, Dropzone.dz_inv dir fs0 T
    (cl_dropzone c <| Dropzone.dz_answers := l |> <| Dropzone.dz_fs ::= Dropzone.remove_file p |>)).
  { intros l. by apply (Dropzone.files_inv dir fs0 T (cl_dropzone c) _ l Hi). }
  destruct (Dropzone.dz_answers (cl_dropzone c)) as [|[k|] l] eqn:Ha; simpl.
  - destruct (Dropzone.names (Dropzone.dz_fs (cl_dropzone c)) !! p); simpl; [|done].
    specialize (Hgo []). rewrite <- Ha in Hgo. by destruct (cl_dropzone c).
  - apply (Hsame l).
  - destruct (Dropzone.names (Dropzone.dz_fs (cl_dropzone c)) !! p); simpl; [apply (Hgo l)|apply (Hsame l)].
Qed.

Lemma handleMessage_files (mc : Machine) (m : HubMessage) (c c' : Client) :
  handleMessage mc m c = Ret c' → message_ok m = true → files_ok c → files_ok c'.
Proof.
  intros Hm Hok Hi. destruct (is_upload m) eqn:Hu; [|destruct (is_delete m) eqn:Hd].
  - destruct m; try done. simpl in *. injection Hm as <-. unfold handleFileUploadRequest, files_ok.
    assert (H := Dropzone.HandleChunk_inv dir fs0 T inside_under request_id filename chunk done _ Hok Hi).
    by destruct (Dropzone.HandleChunk _ _ _ _ _) as [[ack|] d].
  - destruct m; try done. simpl in *. injection Hm as <-. unfold handleFileDeleteRequest.
    rewrite (Dropzone.di_dir _ _ _ _ Hi).
    destruct (HasPrefix _ _) eqn:Hp; cbn [negb]; [|done]. apply delete_below in Hp as [Hp%HT _].
    apply (Remove_ok _ c Hi) in Hp. by destruct (Remove _ c).
  - unfold files_ok. by rewrite (handleMessage_dropzone mc m c c' Hm Hu Hd).
Qed.

Lemma below_under (root p : string) : is_rooted root = true → Dropzone.below root p = true → under root p.
Proof.
  intros Hr [Hp Hb]%andb_prop. apply FileBrowser.under_Clean; [done|]. apply FileBrowser.Clean_under_l; [done|].
  apply FileBrowser.at_or_below_under; [by apply rooted_Clean|by apply clean_idem|by apply rooted_Clean|by apply clean_idem|done].
Qed.

Lemma selfCleanup_files (stopped : bool) (c : Client) :
  (∀ p, own_file p = true → T p) → files_ok c → files_ok (selfCleanup stopped c).
Proof.
  intros Hown Hi. unfold files_ok, selfCleanup. cbn [set_field cl_dropzone].
  assert (Hdd := Dropzone.di_dir _ _ _ _ Hi). assert (Hfs := Dropzone.di_fs _ _ _ _ Hi).
  destruct (Dropzone.remove_inv fs0 T binaryPath _ (Hown binaryPath eq_refl) Hfs) as [H1 M1].
  destruct (Dropzone.remove_all_inv fs0 T configDir _ (λ p Hp, Hown p (own_config p Hp)) H1) as [H2 M2].
  destruct (Dropzone.remove_all_inv fs0 T dir _ (λ p Hp, HT p (below_under dir p Hdir Hp)) H2) as [H3 M3].
  destruct (Dropzone.remove_inv fs0 T servicePath _ (Hown servicePath eq_refl) H3) as [H4 M4].
  assert (Hgo := λ fs, Dropzone.files_inv dir fs0 T (cl_dropzone c) fs (Dropzone.dz_answers (cl_dropzone c)) Hi).
  destruct stopped.
  - assert (H := Hgo _ H3 (λ j Hj, M3 j (M2 j (M1 j Hj)))). destruct (cl_dropzone c). simpl in Hdd. subst. exact H.
  - assert (H := Hgo _ H4 (λ j Hj, M4 j (M3 j (M2 j (M1 j Hj))))). destruct (cl_dropzone c). simpl in Hdd. subst. exact H.
Qed.
End changes.

(** What an agent does on its own: the receive loop's steps, the end of a connection, and a
    self-cleanup that was started. *)
Inductive agent_step : Client → Client → Prop :=
  | agent_message mc m c c' : message_ok m = true → handleMessage mc m c = Ret c' → agent_step c c'
  | agent_disconnect c c' : cleanup c = Ret c' → agent_step c c'
  | agent_self_cleanup stopped c : (0 < cl_cleanups c)%nat → agent_step c (selfCleanup stopped c).

Lemma close_tails_keeps (c c' : Client) : close_tails c = Ret c' →
  cl_dropzone c' = cl_dropzone c ∧ cl_cleanups c' = cl_cleanups c ∧ cl_certStore c' = cl_certStore c.
Proof.
  unfold close_tails. set (c3 := c <| cl_tailSessions := ∅ |>). intros Ht.
  change (cl_dropzone c) with (cl_dropzone c3). change (cl_cleanups c) with (cl_cleanups c3).
  change (cl_certStore c) with (cl_certStore c3). revert Ht.
  generalize c3. generalize (map_to_list (cl_tailSessions c)).
  intros es. induction es as [|e es IHe]; intros c4; simpl; [by intros [= <-]|].
  destruct (close_stop e.2 c4) as [c5|] eqn:Hcs; simpl.
  - intros (H1 & H2 & H3)%IHe. rewrite H1, H2, H3. unfold close_stop in Hcs.
    destruct (cl_tailers c4 !! e.2) as [t|]; [|done]. destruct (tl_stopped t); [done|]. by injection Hcs as <-.
  - intros Hf. exfalso. clear -Hf. induction es; [done|by apply IHes].
Qed.

(** Only an unregister request starts a self-cleanup, and only of an agent that has a certificate. *)
Lemma handleMessage_cleanups (mc : Machine) (m : HubMessage) (c c' : Client) :
  handleMessage mc m c = Ret c' →
  cl_cleanups c' = cl_cleanups c ∨
  (∃ id, m = UnregisterRequest id) ∧ AgentCerts.HasCert (cl_certStore c) = true ∧ cl_cleanups c' = S (cl_cleanups c).
Proof.
  destruct m; simpl; intros Hm; try (injection Hm as <-); try (by left).
  - left. unfold handleFileListRequest. destruct (negb _); [done|]. by destruct (FileBrowser.ListDir _).
  - left. unfold handleLogStreamRequest. destruct (negb _); [done|]. by destruct (_ <=? _)%nat.
  - left. unfold handleFileUploadRequest. by destruct (Dropzone.HandleChunk _ _ _ _ _) as [[ack|] d].
  - left. unfold handleFileReadRequest. destruct (negb _); [done|].
    by destruct (FileBrowser.ReadFile _ _ _) as [[[? ?] ?]|].
  - left. unfold handleLogStreamStop in Hm. destruct (cl_tailSessions c !! request_id); [|by injection Hm as <-].
    unfold close_stop in Hm. simpl in Hm. destruct (cl_tailers c !! _) as [t|]; [|done].
    destruct (tl_stopped t); [done|]. by injection Hm as <-.
  - left. unfold handleFileDeleteRequest. destruct (negb _); [done|]. unfold Remove.
    destruct (Dropzone.answer _) as [[a|] d]; [done|]. by destruct (Dropzone.names _ !! _).
  - unfold handleUnregisterRequest. destruct (AgentCerts.HasCert _) eqn:Hc; [right|by left]. by split; [eexists|].
  - left. unfold handleCertRenewResponse. destruct (negb _); [done|]. destruct (_ || _); [done|].
    unfold StoreCert. by destruct (AgentCerts.StoreCert _ _ _ _ _) as [[? ?] ?].
  - left. unfold handleTerminalOpenRequest. by destruct (AgentTerminal.Open _ _ _ _ _ _ _).
Qed.

Lemma agent_step_cleanups (c c' : Client) : agent_step c c' → (cl_cleanups c <= cl_cleanups c')%nat.
Proof.
  intros [mc m c1 c2 _ Hm|c1 c2 Hcl|stopped c1 _]; [|unfold cleanup in Hcl|done].
  - apply handleMessage_cleanups in Hm as [->|(_ & _ & ->)]; lia.
  - destruct (close_tails c1) as [c3|] eqn:Ht; [|done]. simpl in Hcl. injection Hcl as <-.
    apply close_tails_keeps in Ht as (_ & H & _). simpl. by rewrite H.
Qed.

Lemma agent_run_cleanups (c c' : Client) : rtc agent_step c c' → (cl_cleanups c <= cl_cleanups c')%nat.
Proof. induction 1 as [|c1 c2 c3 H%agent_step_cleanups _ IH]; lia. Qed.


(** ** Whom the agent talks to *)

Section authenticity.
Context `{P : AgentCerts.Pki, X : Tls}.

Lemma sort_chain_pinned (pin : bytes) (certs inter inter' : list AgentCerts.Certificate)
    (ca : AgentCerts.Certificate) (pinned : option AgentCerts.Certificate) :
  sort_chain pin certs pinned inter = (Some ca, inter') →
  pinned = Some ca ∨ (ca ∈ certs ∧ sha256_raw (AgentCerts.Raw ca) = pin).
Proof.
  revert pinned inter. induction certs as [|cert certs IH]; intros pinned inter; simpl.
  - intros [= -> _]. by left.
  - destruct (String.eqb_spec (sha256_raw (AgentCerts.Raw cert)) pin) as [He|Hne]; intros Hs%IH.
    + destruct Hs as [[= <-]|[Hin Hp]]; right; (split; [|done]); [by left|by right].
    + destruct Hs as [|[Hin Hp]]; [by left|right]. split; [by right|done].
Qed.

Lemma parse_chain_elem (raws : list bytes) (certs : list AgentCerts.Certificate) :
  parse_chain raws = Ok certs → Forall2 (λ raw cert, AgentCerts.ParseCertificate raw = Ok cert) raws certs.
Proof.
  revert certs. induction raws as [|raw raws IH]; intros certs; simpl; [by intros [= <-]|].
  destruct (AgentCerts.ParseCertificate raw) as [cert|] eqn:Hp; simpl; [|done].
  fold (parse_chain raws). destruct (parse_chain raws) as [l|]; simpl; [|done]. intros [= <-].
  constructor; [done|by apply IH].
Qed.

(** C40: the agent talks to its own hub.  Unless it was told to do without TLS, a connection is made
    with the agent's client certificate and the stored authority, or, before there is one, only to a
    hub whose leaf certificate verifies against a certificate of its chain that has the configured
    fingerprint, and for the name the agent dialled when it is a name. *)
Theorem hub_authenticated (c : Client) (t : transport) :
  Insecure (cl_cfg c) = false → dialHub c = Ok t →
  match t with
  | Plain => False
  | MutualTLS certPEM keyPEM caPEM => AgentCerts.TLSConfig (cl_certStore c) = Some (certPEM, keyPEM, caPEM)
  | Pinned pin host =>
      AgentCerts.TLSConfig (cl_certStore c) = None ∧ Secrets.hex_decode (HubCAPin (cl_cfg c)) = Some pin ∧
      ∀ rawCerts, verifyPinnedHubCertificate rawCerts pin host = Ok tt →
        ∃ raw raws leaf raw' ca inter dns, rawCerts = raw :: raws ∧ AgentCerts.ParseCertificate raw = Ok leaf ∧
          raw' ∈ raws ∧ AgentCerts.ParseCertificate raw' = Ok ca ∧ sha256_raw (AgentCerts.Raw ca) = pin ∧
          Verify leaf [ca] inter dns = Ok tt ∧ (is_ip host = false → host ≠ "" → dns = Some host)
  end.
Proof.
  intros Hi. unfold dialHub, useTLS. rewrite Hi.
  destruct (AgentCerts.TLSConfig (cl_certStore c)) as [[[cert key] ca]|]; [by intros [= <-]|]. simpl.
  unfold bootstrapTLSConfig. destruct (String.eqb _ ""); [done|].
  destruct (Secrets.hex_decode _) as [pin|]; [|done]. intros [= <-]. split; [done|]. split; [done|].
  intros rawCerts. set (host := match _ with Some _ => _ | None => _ end). unfold verifyPinnedHubCertificate.
  destruct rawCerts as [|raw raws]; [done|]. destruct (parse_chain (raw :: raws)) as [certs|] eqn:Hc; [|done].
  apply parse_chain_elem in Hc. inversion Hc as [|? leaf ? rest Hleaf Hrest]; subst.
  destruct (sort_chain pin rest None []) as [[ca|] inter] eqn:Hs; [|done]. intros Hv.
  apply AgentCerts.errorf_Ok in Hv. apply sort_chain_pinned in Hs as [|[Hin Hp]]; [done|].
  assert (Hraw : ∃ raw', raw' ∈ raws ∧ AgentCerts.ParseCertificate raw' = Ok ca).
  { apply list_elem_of_lookup in Hin as [i Hi']. destruct (Forall2_lookup_r _ _ _ _ _ Hrest Hi') as (r & Hr & Hpr).
    exists r. split; [by eapply list_elem_of_lookup_2|done]. }
  destruct Hraw as (raw' & Hr1 & Hr2). exists raw, raws, leaf, raw', ca, inter. eexists.
  split; [done|]. split; [done|]. split; [done|]. split; [done|]. split; [done|]. split; [exact Hv|].
  intros -> Hne. by rewrite (proj2 (String.eqb_neq host "") Hne).
Qed.
End authenticity.

(** ** When the agent gives up *)

Lemma Contains_app (a s sub : string) : Contains s sub = true → Contains (a +:+ s) sub = true.
Proof.
  intros H. induction a as [|x a IH]; [done|].
  cbn [String.append Contains]. rewrite IH. apply orb_true_r.
Qed.

Lemma prefix_Contains (p s : string) : Contains (p +:+ s) p = true.
Proof. assert (H := prefix_app p s). destruct (p +:+ s); simpl in *; by rewrite H. Qed.

Section runs.
Context `{P : AgentCerts.Pki, X : Tls}.

(** The hub refuses the registration, or ends the call with an error that names it. *)
Definition refuses (h : Hub) : Prop :=
  hb_connect h = None ∧ hb_send h = None ∧
  match hb_recv h with
  | Ok (RegisterAck success _ _ _ _) => success = false
  | Err e => is_registration e = true
  | Ok _ => False
  end.

Lemma GenerateCSR_TLSConfig (draw : nat) (id : string) (s : AgentCerts.Store) :
  AgentCerts.TLSConfig (AgentCerts.GenerateCSR draw id s).2 = AgentCerts.TLSConfig s.
Proof.
  unfold AgentCerts.GenerateCSR. destruct (AgentCerts.errorf _ (AgentCerts.GenerateKey draw)); [|done].
  by destruct (AgentCerts.errorf _ (AgentCerts.CreateCertificateRequest _ _ _)).
Qed.

(** Nothing the agent needs for another attempt has changed. *)
Record unregistered_still (c c' : Client) : Prop := {
  us_server : cl_serverID c' = cl_serverID c;
  us_dial : dialHub c' = dialHub c;
  us_backoff : cl_backoff c' = cl_backoff c
}.

Lemma connect_refused (a : Attempt) (c : Client) (t : transport) :
  cl_serverID c = "" → dialHub c = Ok t → refuses (at_hub a) →
  ∃ e c', connectAndStream a c = Ret (Ended e, c') ∧ is_registration e = true ∧ unregistered_still c c'.
Proof.
  intros Hid Hd (Hc & Hs & Hr). unfold connectAndStream. rewrite Hd, Hc. unfold registerOrHandshake.
  rewrite Hid. cbn [String.eqb]. unfold sendRegister, generateCSRForRegistration.
  assert (Ht := GenerateCSR_TLSConfig (at_draw a) "pending" (cl_certStore c)).
  destruct (AgentCerts.GenerateCSR _ _ _) as [csr s]. simpl in Ht.
  assert (Hstill : unregistered_still c (c <| cl_certStore := s |>)).
  { split; [done| |done]. unfold dialHub, useTLS, bootstrapTLSConfig. simpl. by rewrite Ht. }
  rewrite Hs. destruct (hb_recv (at_hub a)) as [m|e].
  - destruct m; try done. simpl in Hr. subst success.
    do 2 eexists. split; [done|]. split; [|done]. apply (prefix_Contains "registration").
  - do 2 eexists. split; [done|]. split; [|done]. by apply Contains_app.
Qed.

Lemma nextBackoff_still (c : Client) :
  let '(w, c') := nextBackoff c in
  w = cl_backoff c ∧ cl_serverID c' = cl_serverID c ∧ dialHub c' = dialHub c.
Proof. done. Qed.

(** an agent whose registration is refused gives up.  A machine that is not registered and is
    refused three times in a row stops, after two waits, whatever could have come next. *)
Theorem refused_agent_stops (c : Client) (t : transport) (a1 a2 a3 : Attempt) (rest : list Attempt) :
  cl_serverID c = "" → dialHub c = Ok t →
  refuses (at_hub a1) → refuses (at_hub a2) → refuses (at_hub a3) →
  ∃ e c', Run (a1 :: a2 :: a3 :: rest) c =
    Ret ([cl_backoff c; Z.min (cl_backoff c * 2) maxBackoff], Unregistered e, c') ∧ cl_serverID c' = "".
Proof.
  intros Hid Hd H1 H2 H3. unfold Run. cbn [run_loop].
  destruct (connect_refused a1 c t Hid Hd H1) as (e1 & c1 & -> & He1 & [S1 D1 B1]). cbn [obind]. rewrite He1.
  cbn [Nat.leb]. unfold nextBackoff at 1.
  set (c1' := c1 <| cl_backoff := _ |>).
  assert (Hid1 : cl_serverID c1' = "") by (simpl; congruence).
  assert (Hd1 : dialHub c1' = Ok t) by (transitivity (dialHub c1); [done|congruence]).
  destruct (connect_refused a2 c1' t Hid1 Hd1 H2) as (e2 & c2 & -> & He2 & [S2 D2 B2]). cbn [obind]. rewrite He2.
  cbn [Nat.leb]. unfold nextBackoff at 1.
  set (c2' := c2 <| cl_backoff := _ |>).
  assert (Hid2 : cl_serverID c2' = "") by (simpl; congruence).
  assert (Hd2 : dialHub c2' = Ok t) by (transitivity (dialHub c2); [done|congruence]).
  destruct (connect_refused a3 c2' t Hid2 Hd2 H3) as (e3 & c3 & -> & He3 & [S3 _ _]). cbn [obind]. rewrite He3.
  cbn [Nat.leb]. exists ("server unregistered: " +:+ e3), c3. split; [|congruence]. rewrite B2, B1. simpl. rewrite B1.
  do 4 f_equal. destruct (Z.ltb_spec maxBackoff (cl_backoff c * 2)); f_equal; lia.
Qed.

(** The hub answers a reconnecting agent whose server was deleted. *)
Definition rejects_heartbeat (h : Hub) : Prop :=
  hb_connect h = None ∧ hb_send h = None ∧
  match hb_recv h with Err e => is_registration ("recv heartbeat ack: " +:+ e) = false | Ok _ => False end.

(** A registered agent that is turned away tries for ever. *)
Lemma deleted_agent_retries (c : Client) (t : transport) (attempts : list Attempt) :
  cl_serverID c ≠ "" → dialHub c = Ok t → Forall (λ a, rejects_heartbeat (at_hub a)) attempts →
  ∃ waits c', Run attempts c = Ret (waits, Cancelled, c') ∧ length waits = length attempts.
Proof.
  intros Hid Hd HF. unfold Run. revert c Hid Hd. induction HF as [|a l (H1 & H2 & H3) HF IH]; intros c Hid Hd.
  - by exists [], c.
  - cbn [run_loop].
    assert (Hc : ∃ e, connectAndStream a c = Ret (Ended e, c) ∧ is_registration e = false).
    { unfold connectAndStream, registerOrHandshake, sendHeartbeatHandshake.
      rewrite Hd, H1, (proj2 (String.eqb_neq _ "") Hid), H2. destruct (hb_recv (at_hub a)) as [|e]; [done|]. eauto. }
    destruct Hc as (e & -> & He). cbn [obind]. rewrite He. cbn [Nat.leb]. unfold nextBackoff.
    set (c' := c <| cl_backoff := _ |>). destruct (IH c' Hid Hd) as (ws & c2 & Hr & Hl).
    rewrite Hr. cbn [obind]. do 2 eexists. split; [done|]. simpl. by rewrite Hl.
Qed.

(** The waits from a backoff on: each is the next one or, after a connection, a second. *)
Fixpoint backoff_chain (b : Z) (waits : list Z) : Prop :=
  match waits with
  | [] => True
  | w :: waits' => (w = b ∨ w = Second) ∧ backoff_chain (Z.min (2 * w) maxBackoff) waits'
  end.

Definition keeps_backoff (a : Attempt) : Prop :=
  ∀ c c', at_during a c = Ret c' → cl_backoff c' = cl_backoff c.

Lemma close_stop_backoff (stop : nat) (c c' : Client) : close_stop stop c = Ret c' → cl_backoff c' = cl_backoff c.
Proof.
  unfold close_stop. destruct (cl_tailers c !! stop) as [t|]; [|done]. destruct (tl_stopped t); [done|].
  by intros [= <-].
Qed.

Lemma foldl_close_backoff (l : list (string * nat)) (r : outcome Client) (b : Z) :
  (∀ c, r = Ret c → cl_backoff c = b) →
  ∀ c', foldl (λ r e, obind r (close_stop e.2)) r l = Ret c' → cl_backoff c' = b.
Proof.
  revert r. induction l as [|e l IH]; intros r Hr c'; simpl; [apply Hr|]. apply IH.
  intros c. destruct r as [c0|]; simpl; [|done]. intros Hc%close_stop_backoff. rewrite Hc. by apply Hr.
Qed.

Lemma cleanup_backoff (c c' : Client) : cleanup c = Ret c' → cl_backoff c' = cl_backoff c.
Proof.
  unfold cleanup, close_tails. set (c0 := c <| cl_tailSessions := ∅ |>).
  destruct (foldl _ _ _) as [c1|] eqn:Hf; simpl; [|done]. intros [= <-]. simpl.
  eapply (foldl_close_backoff _ _ (cl_backoff c)); [|exact Hf]. by intros ? [= <-].
Qed.

Lemma storeMTLSCerts_backoff (order : list (string * bytes) → list (string * bytes)) (cert ca : bytes) (c : Client) :
  cl_backoff (storeMTLSCerts order cert ca c) = cl_backoff c.
Proof.
  unfold storeMTLSCerts. destruct (_ || _); [done|]. unfold StoreCert.
  by destruct (AgentCerts.StoreCert _ _ _ _ _) as [[? ?] ?].
Qed.

Lemma registerOrHandshake_backoff (order : list (string * bytes) → list (string * bytes)) (draw : nat)
    (ip : string) (h : Hub) (c : Client) :
  cl_backoff (registerOrHandshake order draw ip h c).2 = cl_backoff c.
Proof.
  unfold registerOrHandshake. destruct (String.eqb _ "").
  - unfold sendRegister, generateCSRForRegistration. destruct (AgentCerts.GenerateCSR _ _ _) as [csr s].
    destruct (hb_send h); [done|]. destruct (hb_recv h) as [m|e]; [|done]. destruct m; try done.
    destruct success; [|done]. simpl. by rewrite storeMTLSCerts_backoff.
  - by destruct (sendHeartbeatHandshake ip h c).
Qed.

Lemma connect_backoff (a : Attempt) (c c' : Client) (e : conn_end) :
  keeps_backoff a → connectAndStream a c = Ret (e, c') → cl_backoff c' = cl_backoff c ∨ cl_backoff c' = Second.
Proof.
  intros Hk. unfold connectAndStream. destruct (dialHub c); [|intros [= _ <-]; by left].
  destruct (hb_connect _); [intros [= _ <-]; by left|].
  assert (Hb := registerOrHandshake_backoff (at_order a) (at_draw a) (at_ip a) (at_hub a) c).
  destruct (registerOrHandshake _ _ _ _ _) as [[[[|]|e1] out] c1]; simpl in Hb; [intros [= _ <-]; by left| |intros [= _ <-]; by left].
  set (c2 := resetBackoff c1 <| cl_terminal := _ |>).
  destruct (at_during a c2) as [c3|] eqn:Hd; simpl; [|done]. apply Hk in Hd.
  destruct (cleanup c3) as [c4|] eqn:Hc; simpl; [|done]. apply cleanup_backoff in Hc. intros [= _ <-].
  right. rewrite Hc, Hd. done.
Qed.

Lemma chain_from_second (b : Z) (ws : list Z) : backoff_chain Second ws → backoff_chain b ws.
Proof. destruct ws as [|w ws]; [done|]. simpl. intros [[->| ->] H]; (split; [by right|done]). Qed.

Lemma chain_range (b : Z) (ws : list Z) :
  Second <= b <= maxBackoff → backoff_chain b ws → Forall (λ w, Second <= w <= maxBackoff) ws.
Proof.
  revert b. induction ws as [|w ws IH]; intros b Hb; [constructor|]. simpl. intros [Hw H].
  assert (Hr : Second <= w <= maxBackoff) by (unfold maxBackoff, Second, NS in *; lia).
  constructor; [done|]. eapply IH; [|exact H]. unfold maxBackoff, Second, NS in *; lia.
Qed.

(** the agent backs off.  Between two attempts it waits the next of a doubling sequence that stops
    at a minute, or a second again once it was connected; so it never waits less than a second nor
    more than a minute. *)
Theorem run_backs_off (c c' : Client) (attempts : list Attempt) (waits : list Z) (e : run_end) :
  Forall keeps_backoff attempts → Run attempts c = Ret (waits, e, c') →
  backoff_chain (cl_backoff c) waits ∧
  (Second <= cl_backoff c <= maxBackoff → Forall (λ w, Second <= w <= maxBackoff) waits).
Proof.
  intros HF Hr.
  assert (Hch : backoff_chain (cl_backoff c) waits); [|split; [done|intros Hb; by eapply chain_range]].
  unfold Run in Hr. revert Hr. generalize 0%nat. revert c waits.
  induction HF as [|a l Ha HF IH]; intros c waits n; cbn [run_loop]; [by intros [= <- _ _]|].
  destruct (connectAndStream a c) as [[err c1]|] eqn:Hc; cbn [obind]; [|done].
  apply (connect_backoff a c c1 err Ha) in Hc. destruct err as [|e1].
  - intros H%IH. by apply chain_from_second.
  - set (k := if is_registration e1 then S n else 0%nat). destruct (3 <=? k)%nat; [by intros [= <- _ _]|].
    unfold nextBackoff. set (c2 := c1 <| cl_backoff := _ |>).
    destruct (run_loop l k c2) as [[[ws last] c3]|] eqn:Hl; cbn [obind]; [|done]. intros [= <- -> ->].
    apply IH in Hl. cbn [backoff_chain]. split; [done|].
    replace (Z.min (2 * cl_backoff c1) maxBackoff) with (cl_backoff c2); [done|].
    unfold c2. simpl. destruct (Z.ltb_spec maxBackoff (cl_backoff c1 * 2)); lia.
Qed.
End runs.

(** ** A machine without links *)

Section witnesses.
#[local] Instance demo_os : FileBrowser.Os := {|
  FileBrowser.EvalSymlinks := λ p, Ok (Clean p);
  FileBrowser.ReadDir := λ p, Ok [FileBrowser.MkDirEntry "a.log" false (Some (true, false, 5))];
  FileBrowser.OpenFile := λ p, Ok (FileBrowser.MkHandle (Some (false, 5)) (λ _, true)
                                 (λ n k, Some (String.substring (Z.to_nat n) (Z.to_nat k) "hello")));
  FileBrowser.Access_R_OK := λ _, true;
  FileBrowser.isRoot := true
|}.
#[local] Instance demo_os_laws : FileBrowser.OsLaws demo_os.
Proof. split. simpl. intros p q Hp [= <-]. by apply clean_idem. Qed.
#[local] Instance demo_clean_laws : CleanLaws demo_os.
Proof. split. simpl. intros p Hp _. f_equal. by apply clean_idem. Qed.
#[local] Instance demo_tls : Tls := {| sha256_raw := λ b, b; Verify := λ _ _ _ _, Ok tt; is_ip := λ _, false |}.
#[local] Existing Instance AgentCerts.demo_pki.

Definition demo_machine : Machine :=
  MkMachine demo_os AgentTerminal.demo_host AgentCerts.demo_pki (λ m, m) true None (λ l, l).
Definition demo_config : Config := MkConfig "hub.example:9443" "tok" "h" "" "linux" "1" "" false ["/var/log"] "6361".
Definition demo_fs : Dropzone.Fs := Dropzone.MkFs {["/etc/passwd" := 0%nat]} {[0%nat := "root"]} 1.
Definition demo_client (serverID : string) : Client :=
  New demo_config serverID "" "/tmp/dz" demo_fs [] (AgentCerts.MkDisk ∅ []).

Lemma demo_fs_ok : Dropzone.fs_ok demo_fs.
Proof.
  split; simpl.
  - intros p q i Hp Hq. apply lookup_singleton_Some in Hp as [<- _], Hq as [<- _]. done.
  - intros p i Hp. apply lookup_singleton_Some in Hp as [_ <-]. lia.
Qed.

#[local] Notation up d fin := (FileUploadRequest "r1" "a.txt" d fin).
#[local] Notation c0 := (demo_client "s1").

(** Two keystrokes, which run in the other order. *)
Example inputs_reordered :
  let m := (AgentTerminal.Open (H := AgentTerminal.demo_host) id "t" 80 24 "" "" AgentTerminal.NewManager).2 in
  let c := c0 <| cl_terminal := m |> in
  ∃ c', rtc loop_step (MkLoop c [] []) (MkLoop c' [] [TerminalInput "t" "l"; TerminalInput "t" "s"]) ∧
    AgentTerminal.s_input <$> AgentTerminal.procs (cl_terminal c') !! 0%nat = Some ["s"; "l"].
Proof.
  intros m c. eexists. split.
  - eapply rtc_l; [by apply (loop_spawn (TerminalInput "t" "l"))|].
    eapply rtc_l; [by apply (loop_spawn (TerminalInput "t" "s"))|]. simpl.
    eapply rtc_l; [eapply (loop_run demo_machine (TerminalInput "t" "s") _ _ [TerminalInput "t" "l"] []); reflexivity|].
    eapply rtc_l; [eapply (loop_run demo_machine (TerminalInput "t" "l") _ _ [] []); reflexivity|]. apply rtc_refl.
  - by vm_compute.
Qed.





Lemma hub_authenticated_witness :
  ∃ pin, Secrets.hex_decode "6361" = Some pin.
Proof.
  assert (H : dialHub c0 = Ok (Pinned "ca" "hub.example")) by by vm_compute.
  destruct (hub_authenticated c0 _ eq_refl H) as (_ & Hp & _). by exists "ca".
Defined.

#[local] Notation attempt h := (MkAttempt h 0 "" (λ l, l) (λ c, Ret c)).
#[local] Notation refusing := (attempt (MkHub None None (Err "rpc error: code = Unauthenticated desc = registration failed") "")).

Lemma refused_agent_stops_witness :
  ∃ e c', Run [refusing; refusing; refusing; refusing] (demo_client "") = Ret ([Second; 2 * Second], Unregistered e, c').
Proof.
  destruct (refused_agent_stops (demo_client "") (Pinned "ca" "hub.example") refusing refusing refusing [refusing])
    as (e & c' & H & _); [done|by vm_compute|done..|]. by exists e, c'.
Defined.

Lemma run_backs_off_witness :
  ∃ waits e c', Run [refusing; refusing] (demo_client "s1") = Ret (waits, e, c') ∧ backoff_chain Second waits.
Proof.
  destruct (Run [refusing; refusing] (demo_client "s1")) as [[[waits e] c']|] eqn:H; [|by vm_compute in H].
  exists waits, e, c'. split; [done|].
  refine (proj1 (run_backs_off (demo_client "s1") c' [refusing; refusing] waits e _ H)).
  repeat constructor; by intros c c1 [= <-].
Defined.

(** What the hub tells an agent whose server was deleted does not end the agent. *)
Example deleted_server_message :
  is_registration ("recv heartbeat ack: rpc error: code = NotFound desc = heartbeat failed: unknown server: " +:+
                   "5b2c6a3e-8f1d-4c6e-9a77-0d5f3e1b2c4d") = false.
Proof. by vm_compute. Qed.
End witnesses.
