(* ===== verification/Hub.v ===== *)
(** * Starting the hub: its signing key, its certificate authority, the certificate and TLS settings
    of the agents' port (hub/cmd/veyport/main.go, hub/internal/ca/ca.go, InitJWTSecret of
    hub/internal/server/server.go, New of hub/internal/grpcserver/server.go).

    X.509 and ECDSA are the class of functions the agent's certificates use, with the creation of
    certificates; the database file is the world.  The goroutines that serve are not modelled. *)

From S2P Require Import Prelude GoStr GoTime Model Db Demo StoreConfig AgentHandler.
From S2P Require Migrate Store.
From S2P Require Proto Secrets Http AgentCerts AgentClient ServerHandlers WebServer.

(** ** Certificates *)

Record Template := MkTemplate {
  t_CommonName : string;
  t_DNSNames : list string;
  t_IPAddresses : list string;
  t_NotBefore : Z;
  t_NotAfter : Z;
  t_IsCA : bool;
  t_KeyUsage : list string;
  t_ExtKeyUsage : list string
}.

(** [CreateCertificate] takes the randomness drawn, the serial number, the template, the parent
    ([None] for a certificate that is its own), the public key and the signing key.  A certificate's
    names are read from it. *)
Class X509 := {
  rand_serial : nat → result Z;
  CreateCertificate : nat → Z → Template → option AgentCerts.Certificate → Proto.bytes → string → result Proto.bytes;
  cert_DNSNames : AgentCerts.Certificate → list string
}.

(** What crypto/x509 documents: a parsed certificate has the bytes, key and names it was created
    with, and a certificate signed by an authority with its own key verifies for the names it has
    when it is meant for servers, and for no other name. *)
Class X509Laws (P : AgentCerts.Pki) (T : AgentClient.Tls) (X : X509) := {
  parse_raw : ∀ b c, AgentCerts.ParseCertificate b = Ok c → AgentCerts.Raw c = b ∧ b ≠ "";
  create_names : ∀ i n t parent pub key der c, CreateCertificate i n t parent pub key = Ok der →
    AgentCerts.ParseCertificate der = Ok c → cert_DNSNames c = t_DNSNames t ∧ AgentCerts.cert_public c = Ok pub;
  verify_signed : ∀ i n t ca pub key der leaf dns, CreateCertificate i n t (Some ca) pub key = Ok der →
    AgentCerts.ParseCertificate der = Ok leaf → AgentCerts.key_public key = AgentCerts.cert_public ca →
    "ServerAuth" ∈ t_ExtKeyUsage t → (∀ d, dns = Some d → d ∈ t_DNSNames t) →
    AgentClient.Verify leaf [ca] [] dns = Ok tt;
  verify_names : ∀ leaf roots inter d, AgentClient.Verify leaf roots inter (Some d) = Ok tt → d ∈ cert_DNSNames leaf
}.

Definition Year : Z := 365 * 24 * Hour.

Section hub.
Context `{E : Env} `{C : Secrets.Crypto} `{P : AgentCerts.Pki} `{T : AgentClient.Tls} `{X : X509}.
(** The database driver and the migration scripts, as in [Store]. *)
Context `{SQ : Migrate.Sqlite Db} (sql_open : string → option string) (enforces : string → bool).
Context (files : list (string * string)).

Definition lift {A : Type} (r : result A) : M A := match r with Ok a => ret a | Err e => fail e end.

(** ** server.go: the signing key *)

Definition InitJWTSecret : M string :=
  let* secret := try (GetConfig "jwt_signing_key") in
  let secret := match secret with Ok s => s | Err _ => "" end in
  if negb (String.eqb secret "") then ret secret else
  let* key := draw (λ i, Secrets.rand_bytes i 32) in
  let* key := wrap "generate random key" (lift key) in
  let* _ := wrap "store jwt key" (SetConfig "jwt_signing_key" (Secrets.hex_encode key)) in
  wrap "re-read jwt key" (GetConfig "jwt_signing_key").

(** ** ca.go *)

Notation authority := (AgentCerts.Certificate * string)%type.

Definition randomSerial : M Z :=
  let* serial := draw rand_serial in wrap "generate serial number" (lift serial).

Definition GenerateCA : M authority :=
  let* key := draw AgentCerts.GenerateKey in
  let* key := wrap "generate CA key" (lift key) in
  let* serial := randomSerial in
  let* now := get_now in
  let template := MkTemplate "Veyport CA" [] [] now (now + 10 * Year) true ["CertSign"; "CRLSign"] [] in
  let* pub := lift (AgentCerts.key_public key) in
  let* certDER := draw (λ i, CreateCertificate i serial template None pub key) in
  let* certDER := wrap "create CA certificate" (lift certDER) in
  let* cert := wrap "parse CA certificate" (lift (AgentCerts.ParseCertificate certDER)) in
  ret (cert, key).

(** The names a server certificate is asked for: addresses apart, empty ones dropped. *)
Definition san_ips (hosts : list string) : list string :=
  List.filter (λ h, negb (String.eqb h "") && AgentClient.is_ip h) hosts.
Definition san_names (hosts : list string) : list string :=
  List.filter (λ h, negb (String.eqb h "") && negb (AgentClient.is_ip h)) hosts.

Definition GenerateServerCert (ca : authority) (cn : string) (sanHosts : list string) : M authority :=
  let* key := draw AgentCerts.GenerateKey in
  let* key := wrap "generate server key" (lift key) in
  let* serial := randomSerial in
  let* now := get_now in
  let template := MkTemplate cn (san_names sanHosts) (san_ips sanHosts) now (now + Year) false
    ["DigitalSignature"] ["ServerAuth"] in
  let* pub := lift (AgentCerts.key_public key) in
  let* certDER := draw (λ i, CreateCertificate i serial template (Some ca.1) pub ca.2) in
  let* certDER := wrap "create server certificate" (lift certDER) in
  let* cert := wrap "parse server certificate" (lift (AgentCerts.ParseCertificate certDER)) in
  ret (cert, key).

Definition hex_decode (what s : string) : M string :=
  match Secrets.hex_decode s with Some b => ret b | None => fail (what +:+ ": encoding/hex: invalid byte") end.

(** A key stored before keys were encrypted is re-saved encrypted, if that succeeds. *)
Definition loadExistingCA (certHex keyHex encKey : string) : M authority :=
  let* certDER := hex_decode "decode CA cert hex" certHex in
  let* cert := wrap "parse CA cert" (lift (AgentCerts.ParseCertificate certDER)) in
  let* keyDER := hex_decode "decode CA key hex" keyHex in
  let decrypted := match Secrets.Decrypt keyDER encKey with
                   | Ok d => match AgentCerts.ParseECPrivateKey d with Ok pk => Some pk | Err _ => None end
                   | Err _ => None
                   end in
  match decrypted with
  | Some key => ret (cert, key)
  | None =>
      let* pk := wrap "parse CA key" (lift (AgentCerts.ParseECPrivateKey keyDER)) in
      let* encrypted := try (Secrets.Encrypt keyDER encKey) in
      let* _ := match encrypted with
                | Ok e => ignore (SetConfig "ca_key" (Secrets.hex_encode e))
                | Err _ => ret tt
                end in
      ret (cert, pk)
  end.

Definition generateAndSaveCA (encKey : string) : M authority :=
  let* ca := wrap "generate CA" GenerateCA in
  let* _ := wrap "store CA cert" (SetConfig "ca_cert" (Secrets.hex_encode (AgentCerts.Raw ca.1))) in
  let* keyDER := wrap "marshal CA key" (lift (AgentCerts.MarshalECPrivateKey ca.2)) in
  let* encrypted := wrap "encrypt CA key" (Secrets.Encrypt keyDER encKey) in
  let* _ := wrap "store CA key" (SetConfig "ca_key" (Secrets.hex_encode encrypted)) in
  ret ca.

Definition InitCA (jwtSecret : string) : M authority :=
  let encKey := Secrets.DeriveKey jwtSecret in
  let* certHex := try (GetConfig "ca_cert") in
  let* keyHex := try (GetConfig "ca_key") in
  match certHex, keyHex with
  | Ok certHex, Ok keyHex =>
      if negb (String.eqb certHex "") && negb (String.eqb keyHex "")
      then loadExistingCA certHex keyHex encKey else generateAndSaveCA encKey
  | _, _ => generateAndSaveCA encKey
  end.

(** ** main.go and grpcserver/server.go *)

Record Flags := MkFlags {
  f_addr : string; f_dbPath : string; f_dev : bool; f_grpcAddr : string; f_grpcExternalAddr : string;
  f_agentBinDir : string
}.

Definition legacyDBName : string := "aerodocs.db".

(** [filepath.Dir]. *)
Definition Dir (p : string) : string :=
  match Split "/" p with
  | [_] => Clean ""
  | parts => Clean (Join "/" (removelast parts ++ [""]))
  end.

(** [stat path] is whether the file exists; other answers of [os.Stat] are neither. *)
Definition check_legacy (stat : string → option bool) (dbPath : string) : M unit :=
  match stat dbPath with
  | Some false =>
      let legacy := JoinPath (Dir dbPath) legacyDBName in
      if negb (String.eqb (Base dbPath) legacyDBName) then
        match stat legacy with
        | Some true => fail ("legacy database " +:+ legacy +:+ " detected but --db points at " +:+ dbPath +:+
                           "; rename " +:+ legacy +:+ " to " +:+ dbPath +:+ " or pass --db " +:+ legacy +:+
                           " to preserve data")
        | _ => ret tt
        end
      else ret tt
  | _ => ret tt
  end.

(** The host of [--grpc-external-addr]. *)
Definition grpcExternalHost (grpcExternalAddr : string) : string :=
  if String.eqb grpcExternalAddr "" then "" else
  match Http.SplitHostPort grpcExternalAddr with Some (h, _) => h | None => grpcExternalAddr end.

Definition sanHosts (externalHost addr : string) : list string :=
  (if String.eqb externalHost "" then [] else [externalHost]) ++
  (match Http.SplitHostPort addr with
   | Some (host, _) => if String.eqb host "" then [] else [host]
   | None => []
   end) ++ ["veyport-hub"; "localhost"].

Inductive clientAuth := NoClientCert | VerifyClientCertIfGiven.

(** The TLS settings of the agents' port: the chain presented, and what client certificates are
    checked against. *)
Record TlsConfig := MkTlsConfig {
  tls_chain : list Proto.bytes;
  tls_clientAuth : clientAuth;
  tls_clientCAs : list AgentCerts.Certificate
}.

(** [grpcserver.New] with an authority; a failure is fatal. *)
Definition server_tls (externalHostname addr : string) (ca : authority) : M TlsConfig :=
  let* server := wrap "grpc: generate server TLS cert"
    (GenerateServerCert ca "veyport-hub" (sanHosts externalHostname addr)) in
  ret (MkTlsConfig [AgentCerts.Raw server.1; AgentCerts.Raw ca.1] VerifyClientCertIfGiven [ca.1]).

(** ** grpcserver.New *)

Record GrpcConfig := MkGrpcConfig {
  gc_Addr : string;
  gc_ExternalHostname : string;
  gc_HeartbeatFlushInterval : Z;
  gc_CA : option authority;          (* CACert and CAKey, both or neither *)
  gc_Notifier : bool
}.

(** The options of the server are the largest message, the pings it sends (period and timeout), the
    shortest period of the pings it accepts, whether it accepts them without a stream, and TLS. *)
Record GrpcServer := MkGrpcServer {
  gs_addr : string;
  gs_MaxRecvMsgSize : Z;
  gs_Keepalive : Z * Z;
  gs_MinPing : Z * bool;
  gs_tls : option TlsConfig;
  gs_handler : Handler
}.

(** The tables of the sessions are those of the world, made empty when the process starts. *)
Definition grpc_New (cfg : GrpcConfig) : M GrpcServer :=
  let flushInterval := if gc_HeartbeatFlushInterval cfg <=? 0 then 30 * Second
                       else gc_HeartbeatFlushInterval cfg in
  let* tls := match gc_CA cfg with
              | None => ret None
              | Some ca => let* t := server_tls (gc_ExternalHostname cfg) (gc_Addr cfg) ca in ret (Some t)
              end in
  ret (MkGrpcServer (gc_Addr cfg) (256 * 1024) (30 * Second, 10 * Second) (10 * Second, true) tls
         (MkHandler (AgentCerts.Raw ∘ fst <$> gc_CA cfg) (gc_Notifier cfg) flushInterval)).

(** What the hub runs with. *)
Record Running := MkRunning {
  rn_jwtSecret : string;
  rn_ca : authority;
  rn_pin : string;
  rn_web : WebServer.Server;
  rn_grpc : GrpcServer
}.
Definition rn_chain (run : Running) : list Proto.bytes :=
  match gs_tls (rn_grpc run) with Some t => tls_chain t | None => [] end.

Definition init_identity : M (string * authority) :=
  let* jwtSecret := wrap "init JWT secret" InitJWTSecret in
  let* ca := wrap "init CA" (InitCA jwtSecret) in
  ret (jwtSecret, ca).

Definition runServer (stat : string → option bool) (f : Flags) : M Running :=
  let* _ := check_legacy stat (f_dbPath f) in
  let* _ := wrap "open database" (Store.New sql_open enforces files (f_dbPath f)) in
  let* (jwtSecret, ca) := init_identity in
  let grpcCAPin := Secrets.hex_encode (AgentClient.sha256_raw (AgentCerts.Raw ca.1)) in
  let* srv := WebServer.New (WebServer.MkConfig (f_addr f) jwtSecret (f_dev f) (f_agentBinDir f) (f_grpcAddr f)
                               (f_grpcExternalAddr f) grpcCAPin true) in
  let* grpc := grpc_New (MkGrpcConfig (f_grpcAddr f) (grpcExternalHost (f_grpcExternalAddr f)) 0 (Some ca) true) in
  ret (MkRunning jwtSecret ca grpcCAPin srv grpc).

(** ** The hub keeps its identity *)

Context `{L : !Secrets.CryptoLaws C, KL : !AgentCerts.PkiLaws P, XL : !X509Laws P T X}.

Lemma hub_GetConfig_wp (key : string) (Q : result string → World → Prop) (w : World) :
  (∀ e fs, Q (Err e) (w <| w_faults := fs |>)) →
  (∀ v fs, d_config (w_db w) !! key = Some v → Q (Ok v) (w <| w_faults := fs |>)) → wp (GetConfig key) Q w.
Proof.
  intros H1 H2. unfold GetConfig, LookupConfig. do 3 wp_step; [apply H1|]. simpl.
  destruct (d_config (w_db w) !! key) as [v|] eqn:E1; [|apply wp_fail, H1]. apply wp_ret. by apply H2.
Qed.

Lemma hub_SetConfig_wp (key value : string) (Q : result unit → World → Prop) (w : World) :
  (∀ e fs, Q (Err e) (w <| w_faults := fs |>)) →
  (∀ fs, Q (Ok tt) (w <| w_faults := fs |> <| w_db ::= λ d, d <| d_config ::= <[key := value]> |> |>)) →
  wp (SetConfig key value) Q w.
Proof. intros H1 H2. unfold SetConfig. do 3 wp_step; [apply H1|]. wp_step. apply H2. Qed.

Lemma GetConfig_now (key v : string) (w : World) :
  w_faults w = [] → d_config (w_db w) !! key = Some v → GetConfig key w = (Ok v, w).
Proof.
  intros Hf Hv. unfold GetConfig, LookupConfig, wrap, bind at 1, query_row.
  assert (driver w = (Ok tt, w)) as Hd by (unfold driver; by rewrite Hf).
  unfold bind. rewrite Hd. by rewrite Hv.
Qed.

(** The key that decrypts, or else the bytes themselves, as [loadExistingCA] reads them. *)
Definition load_key (encKey keyDER : string) : result string :=
  match Secrets.Decrypt keyDER encKey with
  | Ok d => match AgentCerts.ParseECPrivateKey d with Ok pk => Ok pk | Err _ => AgentCerts.ParseECPrivateKey keyDER end
  | Err _ => AgentCerts.ParseECPrivateKey keyDER
  end.

(** The configuration holds the signing key and the authority. *)
Definition stored_identity (d : gmap string string) (jwtSecret : string) (ca : authority) : Prop :=
  d !! "jwt_signing_key" = Some jwtSecret ∧ jwtSecret ≠ "" ∧
  ∃ certHex keyHex certDER keyDER, d !! "ca_cert" = Some certHex ∧ certHex ≠ "" ∧
    d !! "ca_key" = Some keyHex ∧ keyHex ≠ "" ∧
    Secrets.hex_decode certHex = Some certDER ∧ AgentCerts.ParseCertificate certDER = Ok ca.1 ∧
    Secrets.hex_decode keyHex = Some keyDER ∧ load_key (Secrets.DeriveKey jwtSecret) keyDER = Ok ca.2.

Lemma InitJWTSecret_wp (w : World) :
  wp InitJWTSecret (λ r w', match r with
    | Ok s => s ≠ "" ∧ d_config (w_db w') !! "jwt_signing_key" = Some s
    | Err _ => True end) w.
Proof.
  assert (Hnew : ∀ w, wp (let* key := draw (λ i, Secrets.rand_bytes i 32) in
    let* key := wrap "generate random key" (lift key) in
    let* _ := wrap "store jwt key" (SetConfig "jwt_signing_key" (Secrets.hex_encode key)) in
    wrap "re-read jwt key" (GetConfig "jwt_signing_key")) (λ r w', match r with
    | Ok s => s ≠ "" ∧ d_config (w_db w') !! "jwt_signing_key" = Some s | Err _ => True end) w).
  { clear w. intros w. wp_step. unfold wp at 1, draw. simpl.
    destruct (Secrets.rand_bytes (w_draws w) 32) as [key|e] eqn:Hk; do 2 wp_step; [|by apply wp_fail].
    apply wp_ret. do 2 wp_step. apply hub_SetConfig_wp; [done|]. intros fs. wp_step.
    apply hub_GetConfig_wp; [done|]. intros v fs' Hv. simpl in *. split; [|done].
    rewrite lookup_insert_eq in Hv. injection Hv as <-. apply Secrets.rand_bytes_length in Hk.
    by destruct key. }
  unfold InitJWTSecret. do 2 wp_step. apply hub_GetConfig_wp; [intros e fs; apply Hnew|].
  intros v fs Hv. destruct (String.eqb_spec v "") as [->|Hne]; [apply Hnew|]. by apply wp_ret.
Qed.

Lemma hex_encode_ne (s : string) : s ≠ "" → Secrets.hex_encode s ≠ "".
Proof. by destruct s. Qed.

Lemma Encrypt_wp (p key : string) (Q : result string → World → Prop) (w : World) :
  (∀ e, Q (Err e) (w <| w_draws ::= S |>)) →
  (∀ c, c ≠ "" → Secrets.Decrypt c key = Ok p → Q (Ok c) (w <| w_draws ::= S |>)) →
  wp (Secrets.Encrypt p key) Q w.
Proof.
  intros H1 H2. unfold Secrets.Encrypt. wp_step. unfold wp at 1, draw. simpl.
  destruct (Secrets.rand_bytes (w_draws w) Secrets.NonceSize) as [n|e] eqn:Hr; [|by apply wp_fail].
  apply Secrets.rand_bytes_length in Hr. apply wp_ret, H2.
  - by destruct n.
  - by apply Secrets.Decrypt_sealed.
Qed.

(** Creating certificates reads the clock and the random source only. *)
Definition config_kept (w w' : World) : Prop := d_config (w_db w') = d_config (w_db w).

Lemma wp_draw {A : Type} (f : nat → A) (Q : result A → World → Prop) (w : World) :
  Q (Ok (f (w_draws w))) (w <| w_draws ::= S |>) → wp (draw f) Q w.
Proof. done. Qed.

(** A pure step that may fail, when failing is fine. *)
Lemma wp_try_lift {A B : Type} (r : result A) (what : string) (k : A → M B) (Q : result B → World → Prop) (w : World) :
  (∀ e s, r = Err s → Q (Err e) w) → (∀ a, r = Ok a → wp (k a) Q w) → wp (let* x := wrap what (lift r) in k x) Q w.
Proof. intros H1 H2. do 2 wp_step. destruct r as [a|e]; [by apply wp_ret, H2|by eapply wp_fail, H1]. Qed.

(** What a signed certificate is, whoever signs it. *)
Definition signed (parent : option AgentCerts.Certificate) (key : string) (cn : string) (names : list string)
    (ext : list string) (c : AgentCerts.Certificate) (k : string) : Prop :=
  ∃ i n t pub der, CreateCertificate i n t parent pub key = Ok der ∧ AgentCerts.ParseCertificate der = Ok c ∧
    AgentCerts.key_public k = Ok pub ∧ t_CommonName t = cn ∧ t_DNSNames t = names ∧ t_ExtKeyUsage t = ext.

Lemma randomSerial_wp (Q : result Z → World → Prop) (w : World) :
  (∀ r, Q r (w <| w_draws ::= S |>)) → wp randomSerial Q w.
Proof.
  intros HQ. unfold randomSerial. wp_step. apply wp_draw. wp_step.
  destruct (rand_serial _); [apply wp_ret|apply wp_fail]; apply HQ.
Qed.

(** The body the two creations share. *)
Lemma create_wp (what_key what_create what_parse cn : string) (template : Z → Template) (names ext : list string)
    (parent : option AgentCerts.Certificate) (signer : string → string) (Q : result authority → World → Prop) (w : World) :
  (∀ now, t_CommonName (template now) = cn ∧ t_DNSNames (template now) = names ∧ t_ExtKeyUsage (template now) = ext) →
  (∀ r w', config_kept w w' → match r with Ok (c, k) => signed parent (signer k) cn names ext c k | Err _ => True end →
     Q r w') →
  wp (let* key := draw AgentCerts.GenerateKey in
      let* key := wrap what_key (lift key) in
      let* serial := randomSerial in
      let* now := get_now in
      let* pub := lift (AgentCerts.key_public key) in
      let* certDER := draw (λ i, CreateCertificate i serial (template now) parent pub (signer key)) in
      let* certDER := wrap what_create (lift certDER) in
      let* cert := wrap what_parse (lift (AgentCerts.ParseCertificate certDER)) in
      ret (cert, key)) Q w.
Proof.
  intros Ht HQ. wp_step. apply wp_draw. apply wp_try_lift; [by intros; apply HQ|]. intros key Hkey.
  wp_step. apply randomSerial_wp. intros [serial|e]; [|by apply HQ].
  do 3 wp_step. destruct (AgentCerts.key_public key) as [pub|e] eqn:Hpub; [apply wp_ret|by apply wp_fail, HQ].
  wp_step. apply wp_draw. apply wp_try_lift; [by intros; apply HQ|]. intros der Hder.
  apply wp_try_lift; [by intros; apply HQ|]. intros cert Hcert. apply wp_ret, HQ; [done|].
  destruct (Ht (w_now w)) as (H1 & H2 & H3). by do 5 eexists.
Qed.

Lemma GenerateServerCert_wp (ca : authority) (cn : string) (hosts : list string)
    (Q : result authority → World → Prop) (w : World) :
  (∀ r w', config_kept w w' → match r with
     | Ok (c, k) => signed (Some ca.1) ca.2 cn (san_names hosts) ["ServerAuth"] c k | Err _ => True end → Q r w') →
  wp (GenerateServerCert ca cn hosts) Q w.
Proof.
  apply (create_wp _ _ _ cn (λ now, MkTemplate cn (san_names hosts) (san_ips hosts) now (now + Year) false
    ["DigitalSignature"] ["ServerAuth"]) (san_names hosts) ["ServerAuth"] (Some ca.1) (λ _, ca.2)). done.
Qed.

Lemma GenerateCA_wp (Q : result authority → World → Prop) (w : World) :
  (∀ r w', config_kept w w' → match r with
     | Ok (c, k) => signed None k "Veyport CA" [] [] c k | Err _ => True end → Q r w') → wp GenerateCA Q w.
Proof.
  apply (create_wp _ _ _ "Veyport CA" (λ now, MkTemplate "Veyport CA" [] [] now (now + 10 * Year) true
    ["CertSign"; "CRLSign"] []) [] [] None (λ k, k)). done.
Qed.

Lemma generateAndSaveCA_wp (jwt : string) (w : World) :
  d_config (w_db w) !! "jwt_signing_key" = Some jwt → jwt ≠ "" →
  wp (generateAndSaveCA (Secrets.DeriveKey jwt)) (λ r w', match r with
    | Ok ca => stored_identity (d_config (w_db w')) jwt ca ∧ AgentCerts.key_public ca.2 = AgentCerts.cert_public ca.1
    | Err _ => True end) w.
Proof.
  intros Hj Hne. unfold generateAndSaveCA. do 2 wp_step. apply GenerateCA_wp. intros [[cert key]|e] w1 Hk Hs; [|done].
  do 2 wp_step. apply hub_SetConfig_wp; [done|]. intros fs. apply wp_try_lift; [done|]. intros keyDER Hder.
  do 2 wp_step. apply Encrypt_wp; [done|]. intros enc Hen Hdec. do 2 wp_step. apply hub_SetConfig_wp; [done|].
  intros fs'. apply wp_ret. destruct Hs as (i & n & t & pub & der & Hc & Hp & Hpub & _).
  destruct (parse_raw der cert Hp) as [Hraw Hrne]. simpl. split.
  - unfold stored_identity. simpl. rewrite Hk.
    split; [by rewrite !lookup_insert_ne|]. split; [done|].
    exists (Secrets.hex_encode der), (Secrets.hex_encode enc), der, enc. rewrite Hraw.
    rewrite lookup_insert_ne, !lookup_insert_eq by done. rewrite !Secrets.hex_roundtrip.
    split_and!; try done; [by apply hex_encode_ne|by apply hex_encode_ne|].
    unfold load_key. rewrite Hdec. by rewrite (AgentCerts.key_roundtrip _ _ Hder).
  - rewrite Hpub. by destruct (create_names _ _ _ _ _ _ _ _ Hc Hp) as [_ ->].
Qed.

Lemma stored_identity_inj (d : gmap string string) (jwt jwt' : string) (ca ca' : authority) :
  stored_identity d jwt ca → stored_identity d jwt' ca' → jwt' = jwt ∧ ca' = ca.
Proof.
  intros (H1 & _ & c & k & cd & kd & H2 & _ & H3 & _ & H4 & H5 & H6 & H7)
    (H1' & _ & c' & k' & cd' & kd' & H2' & _ & H3' & _ & H4' & H5' & H6' & H7').
  simplify_eq. split; [done|]. destruct ca, ca'. simpl in *. congruence.
Qed.

(** What the stored strings stand for. *)
Definition loads (jwt certHex keyHex : string) (ca : authority) : Prop :=
  ∃ certDER keyDER, Secrets.hex_decode certHex = Some certDER ∧ AgentCerts.ParseCertificate certDER = Ok ca.1 ∧
    Secrets.hex_decode keyHex = Some keyDER ∧ load_key (Secrets.DeriveKey jwt) keyDER = Ok ca.2.

Lemma stored_loads (d : gmap string string) (jwt certHex keyHex : string) (ca : authority) :
  d !! "jwt_signing_key" = Some jwt → jwt ≠ "" → d !! "ca_cert" = Some certHex → certHex ≠ "" →
  d !! "ca_key" = Some keyHex → keyHex ≠ "" →
  stored_identity d jwt ca ↔ loads jwt certHex keyHex ca.
Proof.
  intros. unfold stored_identity, loads. split; [intros (_ & _ & ? & ? & ? & ? & ?); naive_solver|].
  intros (? & ? & ?). naive_solver.
Qed.

(** Loading either gives the authority the stored strings stand for, and what is stored still stands
    for it, or they stand for none. *)
Lemma loadExistingCA_wp (jwt certHex keyHex : string) (w : World) :
  d_config (w_db w) !! "jwt_signing_key" = Some jwt → jwt ≠ "" →
  d_config (w_db w) !! "ca_cert" = Some certHex → certHex ≠ "" →
  d_config (w_db w) !! "ca_key" = Some keyHex → keyHex ≠ "" →
  wp (loadExistingCA certHex keyHex (Secrets.DeriveKey jwt)) (λ r w', match r with
    | Ok ca => loads jwt certHex keyHex ca ∧ stored_identity (d_config (w_db w')) jwt ca
    | Err _ => ∀ ca, ¬ loads jwt certHex keyHex ca end) w.
Proof.
  intros Hj Hjne Hc Hcne Hk Hkne.
  assert (Hsl : ∀ ca, loads jwt certHex keyHex ca → stored_identity (d_config (w_db w)) jwt ca).
  { intros ca. by apply stored_loads. }
  assert (Hno : ∀ cd, ((Secrets.hex_decode certHex = None ∨ Secrets.hex_decode keyHex = None) ∨
    Secrets.hex_decode certHex = Some cd ∧ (∃ e, AgentCerts.ParseCertificate cd = Err e ∨
      ∃ kd, Secrets.hex_decode keyHex = Some kd ∧ load_key (Secrets.DeriveKey jwt) kd = Err e)) →
    ∀ ca, ¬ loads jwt certHex keyHex ca).
  { intros cd Hn ca (cd' & kd' & H1 & H2 & H3 & H4). rewrite H1, H3 in Hn.
    destruct Hn as [[|]|([= ->] & e & [|(kd & [= ->] & ?)])]; congruence. }
  unfold loadExistingCA, hex_decode.
  destruct (Secrets.hex_decode certHex) as [certDER|] eqn:Hcd; wp_step; [apply wp_ret|apply wp_fail, (Hno ""); auto].
  apply wp_try_lift; [intros _ s Hs; apply (Hno certDER); right; split; [done|]; exists s; by left|]. intros cert Hcert.
  destruct (Secrets.hex_decode keyHex) as [keyDER|] eqn:Hkd; wp_step; [apply wp_ret|apply wp_fail, (Hno ""); auto].
  assert (Hyes : ∀ pk, load_key (Secrets.DeriveKey jwt) keyDER = Ok pk → loads jwt certHex keyHex (cert, pk)).
  { intros pk Hpk. by exists certDER, keyDER. }
  assert (Hsame : ∀ pk, load_key (Secrets.DeriveKey jwt) keyDER = Ok pk →
    stored_identity (d_config (w_db w)) jwt (cert, pk)).
  { intros pk Hpk. by apply (stored_loads _ jwt certHex keyHex), Hyes. }
  assert (Hraw : load_key (Secrets.DeriveKey jwt) keyDER = AgentCerts.ParseECPrivateKey keyDER → wp
    (let* pk := wrap "parse CA key" (lift (AgentCerts.ParseECPrivateKey keyDER)) in
     let* encrypted := try (Secrets.Encrypt keyDER (Secrets.DeriveKey jwt)) in
     let* _ := match encrypted with
               | Ok e => ignore (SetConfig "ca_key" (Secrets.hex_encode e)) | Err _ => ret tt end in
     ret (cert, pk)) (λ r w', match r with
       | Ok ca => loads jwt certHex keyHex ca ∧ stored_identity (d_config (w_db w')) jwt ca
       | Err _ => ∀ ca, ¬ loads jwt certHex keyHex ca end) w).
  { intros Hl. rewrite Hl in Hyes, Hsame. apply wp_try_lift.
    { intros _ s Hs. apply (Hno certDER). right. split; [done|]. exists s. right. exists keyDER. by rewrite Hl. }
    intros pk Hpk.
    do 2 wp_step. apply Encrypt_wp.
    { intros e. wp_step. apply wp_ret, wp_ret. auto. }
    intros enc Hen Hdec. do 2 wp_step. apply hub_SetConfig_wp; [intros e fs; apply wp_ret; auto|].
    intros fs. apply wp_ret. split; [by apply Hyes|]. simpl.
    apply (stored_loads _ jwt certHex (Secrets.hex_encode enc)); rewrite ?lookup_insert_ne, ?lookup_insert_eq by done;
      [done|done|done|done|done|by apply hex_encode_ne|].
    exists certDER, enc. rewrite Secrets.hex_roundtrip. split_and!; [done|done|done|].
    unfold load_key. rewrite Hdec. by rewrite Hpk. }
  unfold load_key in *. destruct (Secrets.Decrypt keyDER _) as [d|]; [|by apply Hraw].
  destruct (AgentCerts.ParseECPrivateKey d) as [key|]; [|by apply Hraw]. apply wp_ret. auto.
Qed.

(** The first part of the hub's start leaves a stored identity, whatever the driver does. *)
Lemma InitCA_wp (jwt : string) (w : World) :
  d_config (w_db w) !! "jwt_signing_key" = Some jwt → jwt ≠ "" →
  wp (InitCA jwt) (λ r w', match r with
    | Ok ca => stored_identity (d_config (w_db w')) jwt ca | Err _ => True end) w.
Proof.
  intros Hj Hne.
  assert (Hnew : ∀ fs, wp (generateAndSaveCA (Secrets.DeriveKey jwt)) (λ r w', match r with
    | Ok ca => stored_identity (d_config (w_db w')) jwt ca | Err _ => True end) (w <| w_faults := fs |>)).
  { intros fs. eapply wp_mono; [by apply generateAndSaveCA_wp|]. by intros [ca|e] w' H; [destruct H|]. }
  unfold InitCA. do 2 wp_step. apply hub_GetConfig_wp.
  { intros e fs. do 2 wp_step. apply hub_GetConfig_wp; intros; apply Hnew. }
  intros certHex fs Hc. do 2 wp_step. apply hub_GetConfig_wp; [intros; apply Hnew|]. intros keyHex fs' Hk.
  destruct (String.eqb_spec certHex "") as [|Hcne]; [apply Hnew|].
  destruct (String.eqb_spec keyHex "") as [|Hkne]; [apply Hnew|]. simpl negb. cbn [andb].
  eapply wp_mono; [by apply loadExistingCA_wp|]. by intros [ca|e] w' H; [destruct H|].
Qed.

Lemma init_identity_wp (w : World) :
  wp init_identity (λ r w', match r with
    | Ok (jwt, ca) => stored_identity (d_config (w_db w')) jwt ca | Err _ => True end) w.
Proof.
  unfold init_identity. do 2 wp_step. eapply wp_mono; [apply InitJWTSecret_wp|].
  intros [jwt|e] w' H; [|done]. destruct H as [Hne Hj]. do 2 wp_step.
  eapply wp_mono; [by apply InitCA_wp|]. by intros [ca|e] w'' H''; [apply wp_ret|].
Qed.

Lemma InitCA_now (jwt : string) (ca : authority) (w : World) :
  w_faults w = [] → stored_identity (d_config (w_db w)) jwt ca →
  ∃ w', InitCA jwt w = (Ok ca, w') ∧ stored_identity (d_config (w_db w')) jwt ca.
Proof.
  intros Hf Hs. assert (Hs' := Hs).
  destruct Hs as (Hj & Hne & c & k & cd & kd & Hc & Hcne & Hk & Hkne & _).
  assert (Hl : loads jwt c k ca) by by apply (stored_loads (d_config (w_db w))).
  assert (H := loadExistingCA_wp jwt c k w Hj Hne Hc Hcne Hk Hkne).
  unfold InitCA, bind, try. rewrite (GetConfig_now _ c w Hf Hc), (GetConfig_now _ k w Hf Hk).
  destruct (String.eqb_spec c ""); [done|]. destruct (String.eqb_spec k ""); [done|]. cbn [negb andb].
  unfold wp in H. destruct (loadExistingCA c k _ w) as [[ca'|e] w']; simpl in H; [|by destruct (H ca)].
  destruct H as [Hl' Hsw]. exists w'.
  assert (ca' = ca) as -> by (by eapply stored_identity_inj; [exact Hs'|apply (stored_loads _ jwt c k)]).
  done.
Qed.

Lemma init_identity_now (jwt : string) (ca : authority) (w : World) :
  w_faults w = [] → stored_identity (d_config (w_db w)) jwt ca →
  ∃ w', init_identity w = (Ok (jwt, ca), w') ∧ stored_identity (d_config (w_db w')) jwt ca.
Proof.
  intros Hf Hs. destruct (InitCA_now jwt ca w Hf Hs) as (w' & H & Hs'). destruct Hs as (Hj & Hne & _).
  exists w'. split; [|done]. unfold init_identity, InitJWTSecret, bind, wrap, try.
  rewrite (GetConfig_now _ jwt w Hf Hj). destruct (String.eqb_spec jwt ""); [done|]. unfold ret. cbn [negb]. by rewrite H.
Qed.

(** What a running hub is made of. *)
Lemma runServer_inv (stat : string → option bool) (f : Flags) (w w' : World) (run : Running) :
  runServer stat f w = (Ok run, w') →
  ∃ w0 w1 server key, Store.New sql_open enforces files (f_dbPath f) w = (Ok tt, w0) ∧
    init_identity w0 = (Ok (rn_jwtSecret run, rn_ca run), w1) ∧ d_config (w_db w') = d_config (w_db w1) ∧
    stored_identity (d_config (w_db w')) (rn_jwtSecret run) (rn_ca run) ∧
    rn_pin run = Secrets.hex_encode (AgentClient.sha256_raw (AgentCerts.Raw (rn_ca run).1)) ∧
    rn_chain run = [AgentCerts.Raw server; AgentCerts.Raw (rn_ca run).1] ∧
    signed (Some (rn_ca run).1) (rn_ca run).2 "veyport-hub"
      (san_names (sanHosts (grpcExternalHost (f_grpcExternalAddr f)) (f_grpcAddr f))) ["ServerAuth"] server key.
Proof.
  unfold runServer, bind at 1. destruct (check_legacy stat (f_dbPath f) w) as [[u|e] w00] eqn:Hl; [|done].
  assert (w00 = w) as ->.
  { unfold check_legacy in Hl. destruct (stat (f_dbPath f)) as [[]|]; try by injection Hl.
    destruct (negb _); [|by injection Hl]. destruct (stat (JoinPath _ _)) as [[]|]; by injection Hl. }
  unfold bind at 1, wrap at 1. destruct (Store.New _ _ _ _ w) as [[[]|e] w0] eqn:Hn; [|done].
  assert (Hid := init_identity_wp w0). unfold wp in Hid. unfold bind at 1.
  destruct (init_identity w0) as [[[jwt ca]|e] w1] eqn:Hi; [|done]. simpl in Hid. unfold bind at 1.
  match goal with |- context [WebServer.New ?c w1] => destruct (WebServer.New_total c w1) as (srv & w1' & Hnew & _ & _ & Hdb & _) end.
  rewrite Hnew. unfold grpc_New, server_tls, bind, wrap. cbn [gc_CA gc_ExternalHostname gc_Addr].
  assert (Hc := GenerateServerCert_wp ca "veyport-hub" (sanHosts (grpcExternalHost (f_grpcExternalAddr f)) (f_grpcAddr f))
    (λ r w2, config_kept w1' w2 ∧ match r with Ok (c, k) => signed (Some ca.1) ca.2 "veyport-hub" (san_names
      (sanHosts (grpcExternalHost (f_grpcExternalAddr f)) (f_grpcAddr f))) ["ServerAuth"] c k | Err _ => True end) w1' (λ r w H1 H2, conj H1 H2)).
  unfold wp in Hc. destruct (GenerateServerCert ca _ _ w1') as [[[server key]|e] w2]; [|done]. simpl in Hc.
  destruct Hc as [Hk Hs]. unfold ret. intros [= <- <-]. simpl. exists w0, w1, server, key. split; [done|].
  unfold config_kept in Hk. rewrite Hk, Hdb. done.
Qed.

(** Both servers are given the identity: the web server the signing key and the fingerprint, the agents'
    port the authority, with the default interval of the coalescer. *)
Lemma runServer_servers (stat : string → option bool) (f : Flags) (w w' : World) (run : Running) :
  runServer stat f w = (Ok run, w') →
  gs_handler (rn_grpc run) = MkHandler (Some (AgentCerts.Raw (rn_ca run).1)) true (30 * Second) ∧
  WebServer.sv_config (rn_web run) = WebServer.MkConfig (f_addr f) (rn_jwtSecret run) (f_dev f) (f_agentBinDir f)
    (f_grpcAddr f) (f_grpcExternalAddr f) (rn_pin run) true.
Proof.
  unfold runServer. intros Hrun. apply bind_Ok in Hrun as (u & w0 & _ & Hrun). apply bind_Ok in Hrun as (u1 & w1 & _ & Hrun).
  apply bind_Ok in Hrun as ([jwt ca] & w2 & _ & Hrun).
  apply bind_Ok in Hrun as (srv & w3 & Hsrv & Hrun). apply bind_Ok in Hrun as (grpc & w4 & Hg & Hrun).
  injection Hrun as <- _. unfold WebServer.New in Hsrv. ok_inv. unfold grpc_New in Hg. ok_inv. split; reflexivity.
Qed.

Lemma agent_verdict (stat : string → option bool) (f : Flags) (w w' : World) (run : Running) (pin : Proto.bytes) (host : string) :
  runServer stat f w = (Ok run, w') →
  AgentCerts.key_public (rn_ca run).2 = AgentCerts.cert_public (rn_ca run).1 →
  Secrets.hex_decode (rn_pin run) = Some pin →
  AgentClient.verifyPinnedHubCertificate (rn_chain run) pin host = Ok tt ↔
  AgentClient.is_ip host = true ∨ host = "" ∨ host ∈ sanHosts (grpcExternalHost (f_grpcExternalAddr f)) (f_grpcAddr f).
Proof.
  intros Hrun Hkey Hpin. destruct (runServer_inv _ _ _ _ _ Hrun) as (w0 & w1 & server & key & _ & _ & _ & Hst & Hp & Hch & Hs).
  destruct Hst as (_ & _ & c & k & cd & kd & _ & _ & _ & _ & _ & Hca & _).
  destruct Hs as (i & n & t & pub & der & Hcr & Hparse & _ & _ & Hnames & Hext).
  destruct (parse_raw _ _ Hca) as [Hraw _]. destruct (parse_raw _ _ Hparse) as [Hraw' _].
  destruct (create_names _ _ _ _ _ _ _ _ Hcr Hparse) as [Hcn _].
  rewrite Hp, Secrets.hex_roundtrip in Hpin. injection Hpin as <-. rewrite Hch.
  unfold AgentClient.verifyPinnedHubCertificate, AgentClient.parse_chain. cbn [foldr].
  rewrite Hraw', Hparse, Hraw, Hca. cbn [AgentCerts.errorf AgentCerts.rbind AgentClient.sort_chain].
  rewrite Hraw, String.eqb_refl. cbn [AgentClient.sort_chain].
  set (hosts := sanHosts _ _) in *.
  assert (Hin : AgentClient.is_ip host = false → host ≠ "" → host ∈ t_DNSNames t ↔ host ∈ hosts).
  { intros Hip Hne. rewrite Hnames. unfold san_names. rewrite !list_elem_of_In, List.filter_In.
    rewrite Hip. apply String.eqb_neq in Hne. rewrite Hne. tauto. }
  assert (Hsv : "ServerAuth" ∈ t_ExtKeyUsage t) by (rewrite Hext; by left).
  assert (Hnone : AgentClient.Verify server [(rn_ca run).1] [] None = Ok tt)
    by (by eapply verify_signed).
  destruct (AgentClient.is_ip host) eqn:Hip; cbn [negb andb]; [rewrite Hnone; naive_solver|].
  destruct (String.eqb_spec host "") as [->|Hne]; cbn [negb]; [rewrite Hnone; naive_solver|].
  specialize (Hin eq_refl Hne). rewrite <- Hin. split.
  - intros Hv%AgentCerts.errorf_Ok. apply verify_names in Hv. rewrite Hcn in Hv. auto.
  - intros [|[|Hd]]; [done|done|].
    rewrite (verify_signed i n t (rn_ca run).1 pub (rn_ca run).2 der server (Some host)); try done.
    by intros d [= <-].
Qed.

(** The configuration keys the hub's identity is kept under. *)
Definition identity_keys : list string := ["jwt_signing_key"; "ca_cert"; "ca_key"].



(** An authority that was just generated has the key of its certificate. *)
Lemma fresh_authority_matches (jwt : string) (w w' : World) (ca : authority) :
  d_config (w_db w) !! "jwt_signing_key" = Some jwt → jwt ≠ "" →
  generateAndSaveCA (Secrets.DeriveKey jwt) w = (Ok ca, w') →
  AgentCerts.key_public ca.2 = AgentCerts.cert_public ca.1.
Proof.
  intros Hj Hne Hg. assert (H := generateAndSaveCA_wp jwt w Hj Hne). unfold wp in H. rewrite Hg in H. by destruct H.
Qed.

(** The address set in the settings goes into install commands but not into the certificate: an agent
    enrolled with it by name refuses the hub. *)
Lemma settings_address_refused (stat : string → option bool) (w w' : World) (run : Running) (pin : Proto.bytes)
    (dev : bool) (db bin host port : string) :
  runServer stat (MkFlags ":8080" db dev ":9090" "" bin) w = (Ok run, w') →
  AgentCerts.key_public (rn_ca run).2 = AgentCerts.cert_public (rn_ca run).1 →
  Secrets.hex_decode (rn_pin run) = Some pin →
  d_config (w_db w') !! "grpc_external_addr" = Some (host +:+ ":" +:+ port) → w_faults w' = [] →
  AgentClient.is_ip host = false → host ∉ [""; "veyport-hub"; "localhost"] →
  (ServerHandlers.resolveGRPCTarget false ":9090" "" "any" w').1 = Ok (host +:+ ":" +:+ port) ∧
  AgentClient.verifyPinnedHubCertificate (rn_chain run) pin host ≠ Ok tt.
Proof.
  intros Hrun Hkey Hpin Hdb Hf Hip Hno. split.
  - unfold ServerHandlers.resolveGRPCTarget, ServerHandlers.stored_config, bind, try.
    rewrite (GetConfig_now _ _ _ Hf Hdb). unfold ret. cbn [fst negb].
    destruct (String.eqb_spec (host +:+ ":" +:+ port) ""); [|done]. by destruct host.
  - intros Hv. eapply agent_verdict in Hv; [|exact Hrun|exact Hkey|exact Hpin].
    rewrite Hip in Hv. change (sanHosts _ _) with ["veyport-hub"; "localhost"] in Hv. set_solver.
Qed.
End hub.

(** ** A concrete hub *)

Section witnesses.
#[local] Existing Instance demoEnv.
#[local] Existing Instance Secrets.demo_crypto.
#[local] Existing Instance Secrets.demo_crypto_laws.

(** A certificate is its key and its names, separated by commas. *)
#[local] Instance demo_hub_pki : AgentCerts.Pki := {|
  AgentCerts.GenerateKey := λ i, Ok (rep "k" (S i)); AgentCerts.key_public := λ k, Ok k;
  AgentCerts.CreateCertificateRequest := λ _ _ _, Ok "csr";
  AgentCerts.ParseCertificate := λ b, if String.eqb b "" then Err "asn1: syntax error"
    else Ok (AgentCerts.MkCertificate b 100 (Ok (hd "" (Split "," b))));
  AgentCerts.CheckSignatureFrom := λ _ _, Ok tt;
  AgentCerts.MarshalECPrivateKey := λ k, Ok k; AgentCerts.ParseECPrivateKey := λ b, Ok b;
  AgentCerts.ParsePKCS8PrivateKey := λ _, Ok None;
  AgentCerts.pem_encode := λ _ b, b; AgentCerts.pem_decode := λ p, Some p; AgentCerts.X509KeyPair := λ _ _, true;
  AgentCerts.AppendCertsFromPEM := λ _, true
|}.
#[local] Instance demo_x509 : X509 := {|
  rand_serial := λ i, Ok (Z.of_nat i);
  CreateCertificate := λ _ _ t _ pub _,
    if forallb (no_byte ",") (pub :: t_DNSNames t) && negb (String.eqb pub "")
    then Ok (Join "," (pub :: t_DNSNames t)) else Err "invalid name";
  cert_DNSNames := λ c, tl (Split "," (AgentCerts.Raw c))
|}.
#[local] Instance demo_hub_tls : AgentClient.Tls := {|
  AgentClient.sha256_raw := λ b, b;
  AgentClient.Verify := λ leaf _ _ dns,
    match dns with
    | None => Ok tt
    | Some d => if bool_decide (d ∈ tl (Split "," (AgentCerts.Raw leaf))) then Ok tt else Err "x509: certificate is not valid for this name"
    end;
  AgentClient.is_ip := λ h, all_bytes (λ c, is_digit c || Ascii.eqb c ".") h && negb (String.eqb h "")
|}.
#[local] Instance demo_hub_pki_laws : AgentCerts.PkiLaws demo_hub_pki.
Proof. split; [done|]. by intros k b [= <-]. Qed.

Lemma demo_create (t : Template) (pub der : string) (c : AgentCerts.Certificate) i n parent key :
  CreateCertificate i n t parent pub key = Ok der → AgentCerts.ParseCertificate der = Ok c →
  AgentCerts.Raw c = der ∧ Split "," der = pub :: t_DNSNames t ∧ AgentCerts.cert_public c = Ok pub.
Proof.
  cbn [CreateCertificate demo_x509 AgentCerts.ParseCertificate demo_hub_pki].
  destruct (forallb _ _ && _) eqn:Hb; [|done]. apply andb_prop in Hb as [Hb _].
  assert (Hs : Split "," (Join "," (pub :: t_DNSNames t)) = pub :: t_DNSNames t).
  { apply (Split_Join ","); [done|]. rewrite forallb_forall in Hb. apply Forall_forall. intros x Hx.
    by apply Hb, list_elem_of_In. }
  intros Hd. assert (Hd' : Join "," (pub :: t_DNSNames t) = der) by (by injection Hd). rewrite Hd' in Hs.
  rewrite Hs. destruct (String.eqb der ""); [done|]. by intros [= <-].
Qed.

#[local] Instance demo_x509_laws : X509Laws demo_hub_pki demo_hub_tls demo_x509.
Proof.
  split.
  - intros b c. simpl. destruct (String.eqb_spec b ""); [done|]. by intros [= <-].
  - intros i n t parent pub key der c Hc Hp. destruct (demo_create _ _ _ _ _ _ _ _ Hc Hp) as (H1 & H2 & H3).
    split; [|done]. cbn [cert_DNSNames demo_x509]. by rewrite H1, H2.
  - intros i n t ca pub key der leaf dns Hc Hp _ _ Hd. destruct (demo_create _ _ _ _ _ _ _ _ Hc Hp) as (H1 & H2 & _).
    destruct dns as [d|]; [|done]. cbn [AgentClient.Verify demo_hub_tls]. rewrite H1, H2. simpl.
    by rewrite bool_decide_true by auto.
  - intros leaf roots inter d. cbn [AgentClient.Verify demo_hub_tls cert_DNSNames demo_x509].
    by case_bool_decide.
Qed.

#[local] Notation demo_flags := (MkFlags ":8080" "/data/veyport.db" false ":9090" "hub.example:9443" "./bin").
#[local] Notation no_files := (λ _ : string, Some false).
(** An engine on which every script succeeds. *)
#[local] Instance demo_engine : Migrate.Sqlite Db := λ _ d, (d, None).
#[local] Notation running := (runServer (λ _, None) (λ _, true) [("001_init.sql", "CREATE TABLE users")]).
#[local] Notation first_start := (running no_files demo_flags (demo_world empty_db)).
#[local] Notation reopened w := (Store.New (λ _, None) (λ _, true) [("001_init.sql", "CREATE TABLE users")] "/data/veyport.db" w).
Definition demo_run : Running := Eval vm_compute in
  match first_start with (Ok r, _) => r | _ => MkRunning "" (AgentCerts.MkCertificate "" 0 (Ok ""), "") ""
    (WebServer.MkServer (WebServer.MkConfig "" "" false "" "" "" "" false) (WebServer.MkHttpServer "" 0 0 0 0 0))
    (MkGrpcServer "" 0 (0, 0) (0, false) None (MkHandler None false 0)) end.
#[local] Notation started := (first_start.2).



(** A read that fails once when the hub starts makes it replace its authority, which every enrolled
    agent's certificate depends on: the error of [GetConfig] is taken for a missing authority. *)
Example failed_read_replaces_authority :
  let w2 := started <| w_faults := [None; Some "database is locked"] |> in
  match init_identity w2 with
  | (Ok (jwt, ca), w3) => jwt = rn_jwtSecret demo_run ∧ ca ≠ rn_ca demo_run ∧
      d_config (w_db w3) !! "ca_cert" ≠ d_config (w_db w2) !! "ca_cert"
  | _ => False
  end.
Proof. vm_compute. split; [done|]. by split. Qed.

(** So does one for the signing key, after which stored secrets do not decrypt. *)
Example failed_read_replaces_key :
  let w2 := started <| w_faults := [Some "database is locked"] |> in
  match InitJWTSecret w2 with
  | (Ok jwt, w3) => d_config (w_db w3) !! "jwt_signing_key" = Some jwt
  | _ => False
  end.
Proof. by vm_compute. Qed.
End witnesses.
