(* ===== verification/Monitor.v ===== *)
(** * The heartbeat monitor and the shutdown of the agents' port (StartHeartbeatMonitor and Stop of
    hub/internal/grpcserver/server.go, FlushAll of heartbeat_coalescer.go).

    A history of the hub is the ticks of the monitor's ticker, at their times, between steps of the
    other goroutines, which are arbitrary functions on the world. *)

From S2P Require Import Prelude GoStr GoTime Model Proto ConnMgr Db Demo StoreConfig.
From S2P Require Import StoreServers AgentHandler.

(** The database answers and its constraints hold. *)
Definition healthy (w : World) : Prop := no_faults w ∧ db_violation (w_fk w) (w_db w) = None.

Definition shown_online (id : string) (d : Db) : Prop :=
  ∃ s, s ∈ d_servers d ∧ s_ID s = id ∧ s_Status s = "online".

(** Neither connected nor shown online. *)
Definition gone (id : string) (w : World) : Prop :=
  w_conns w !! id = None ∧ ¬ shown_online id (w_db w).

(** ** StartHeartbeatMonitor *)

Definition monitorPeriod : Z := 15 * Second.

Inductive event :=
  | Tick (t : Z)                     (* <-ticker.C, handled at [t] *)
  | StopClosed                       (* <-stop *)
  | Other (f : World → World).       (* a step of another goroutine *)

Fixpoint StartHeartbeatMonitor `{Env} (running : bool) (es : list event) (w : World) : World :=
  match es with
  | [] => w
  | Tick t :: es' =>
      let w := w <| w_now := t |> in
      StartHeartbeatMonitor running es' (if running then (sweepStaleConnections w).2 else w)
  | StopClosed :: es' => StartHeartbeatMonitor false es' w
  | Other f :: es' => StartHeartbeatMonitor running es' (f w)
  end.

Definition ticks (es : list event) : list Z :=
  omap (λ e, match e with Tick t => Some t | _ => None end) es.

(** A step during which nothing is heard of a server: its connection is not renewed and nothing shows
    it online.  The step leaves the database healthy. *)
Definition silent (id : string) (w w' : World) : Prop :=
  healthy w' ∧
  (∀ c, w_conns w' !! id = Some c → w_conns w !! id = Some c) ∧
  (shown_online id (w_db w') → shown_online id (w_db w)).

Definition quiet_event (id : string) (e : event) : Prop :=
  match e with Other f => ∀ w, healthy w → silent id w (f w) | Tick _ => True | StopClosed => False end.

Section monitor.
Context `{E : Env}.
Implicit Types (w : World).

(** What a sweep leaves: no connection older than thirty seconds, and no server shown online that is
    not connected. *)
Lemma sweep_wp (w : World) :
  healthy w →
  let w' := (sweepStaleConnections w).2 in
  healthy w' ∧
  (∀ id c, w_conns w' !! id = Some c → w_conns w !! id = Some c ∧ w_now w - 30 * Second <= LastSeen c) ∧
  (∀ id, shown_online id (w_db w') → shown_online id (w_db w) ∧ is_Some (w_conns w' !! id)).
Proof.
  intros [Hf Hv]. rewrite sweep_run by done. cbn [snd].
  set (stale := StaleConnections (w_now w) (30 * Second) (w_conns w)).
  set (conns := foldl _ _ _). set (d := offline_all (w_now w) stale (w_db w)). cbn.
  split; [|split].
  - split; [done|]. by apply offline_all_ok, offline_all_ok.
  - intros id c. unfold conns. rewrite foldl_Unregister. case_decide as Hs; [done|]. intros Hc. split; [done|].
    apply Z.nlt_ge. intros Hl. apply Hs, Stale_iff. eauto.
  - intros id (s & Hs & <- & Hst). apply offline_all_row in Hs. case_decide as Ho; [congruence|]. split.
    + apply offline_all_row in Hs. case_decide; [congruence|]. by exists s.
    + destruct (conns !! s_ID s) eqn:Hc; [done|]. destruct Ho. apply orphans_iff.
      split; [by eauto|]. rewrite Hc. by intros [].
Qed.

(** The world between two events: healthy, the last word of the server not later than [t0]. *)
Definition waiting (id : string) (t0 : Z) (w : World) : Prop :=
  healthy w ∧ ∀ c, w_conns w !! id = Some c → LastSeen c <= t0.

Lemma silent_gone (id : string) (w w' : World) : silent id w w' → gone id w → gone id w'.
Proof.
  intros (_ & Hc & Ho) [H1 H2]. split; [|tauto]. destruct (w_conns w' !! id) as [c|]; [|done].
  specialize (Hc c eq_refl). congruence.
Qed.

Lemma silent_waiting (id : string) (t0 : Z) (w w' : World) : silent id w w' → waiting id t0 w → waiting id t0 w'.
Proof. intros (Hh & Hc & _) [H1 H2]. split; [done|]. auto. Qed.

Lemma sweep_gone (id : string) (w : World) :
  healthy w → gone id w → healthy (sweepStaleConnections w).2 ∧ gone id (sweepStaleConnections w).2.
Proof.
  intros Hh [H1 H2]. destruct (sweep_wp w Hh) as (Hh' & Hc & Ho). split; [done|]. split.
  - destruct (w_conns (sweepStaleConnections w).2 !! id) as [c|] eqn:H; [|done]. apply Hc in H as [H _]. congruence.
  - intros [H _]%Ho. done.
Qed.

Lemma tick_detects (id : string) (t0 : Z) (w : World) :
  waiting id t0 w → t0 + 30 * Second < w_now w →
  healthy (sweepStaleConnections w).2 ∧ gone id (sweepStaleConnections w).2.
Proof.
  intros [Hh Hw] Ht. destruct (sweep_wp w Hh) as (Hh' & Hc & Ho). split; [done|].
  assert (Hn : w_conns (sweepStaleConnections w).2 !! id = None).
  { destruct (w_conns (sweepStaleConnections w).2 !! id) as [c|] eqn:H; [|done]. apply Hc in H as [H Hl]. apply Hw in H. lia. }
  split; [done|]. intros [_ [c Hi]]%Ho. congruence.
Qed.

Lemma sweep_waiting (id : string) (t0 : Z) (w : World) :
  waiting id t0 w → waiting id t0 (sweepStaleConnections w).2.
Proof.
  intros [Hh Hw]. destruct (sweep_wp w Hh) as (Hh' & Hc & _). split; [done|]. intros c [H _]%Hc. auto.
Qed.

Lemma monitor_gone (id : string) (es : list event) (w : World) :
  healthy w → gone id w → Forall (quiet_event id) es → gone id (StartHeartbeatMonitor true es w).
Proof.
  intros Hh Hg Hq. revert w Hh Hg. induction Hq as [|[t| |f] es He Hq IH]; intros w Hh Hg; [done| |done|].
  - cbn [StartHeartbeatMonitor]. pose (w1 := w <| w_now := t |>).
    destruct (sweep_gone id w1 Hh Hg) as [H1 H2]. exact (IH _ H1 H2).
  - cbn [StartHeartbeatMonitor]. destruct (He w Hh) as [Hh' Hs]. apply IH; [done|]. by apply (silent_gone id w).
Qed.

Lemma monitor_detects (id : string) (t0 t : Z) (es : list event) (w : World) :
  waiting id t0 w → Forall (quiet_event id) es → t ∈ ticks es → t0 + 30 * Second < t →
  gone id (StartHeartbeatMonitor true es w).
Proof.
  intros Hw Hq Ht Hl. revert w Hw Ht. induction Hq as [|[t'| |f] es He Hq IH]; intros w Hw Ht; [by inversion Ht| |done|].
  - change (ticks (Tick t' :: es)) with (t' :: ticks es) in Ht. cbn [StartHeartbeatMonitor].
    pose (w1 := w <| w_now := t' |>). apply elem_of_cons in Ht as [->|Ht].
    + destruct (tick_detects id t0 w1 Hw Hl) as [H1 H2]. exact (monitor_gone id es _ H1 H2 Hq).
    + apply IH; [exact (sweep_waiting id t0 w1 Hw)|done].
  - cbn [StartHeartbeatMonitor]. apply IH; [|done]. apply (silent_waiting id t0 w); [|done]. by apply He, Hw.
Qed.

(** C13: A silent agent is noticed within forty-five seconds.  Let the ticker fire every fifteen
    seconds after its start, the other goroutines do anything but hear from the server, and [t0] be
    the time of the last word from it.  Once the ticks of the first forty-five seconds after it have
    been handled the server is not connected, nor shown online, and it stays so. *)
Theorem silent_agent_detected (id : string) (t0 start : Z) (n : nat) (es : list event) (w : World)
    (Hw : healthy w) (Hlast : ∀ c, w_conns w !! id = Some c → LastSeen c <= t0) (Hstart : start <= t0 + 30 * Second)
    (Hq : Forall (quiet_event id) es)
    (Hticks : ticks es = map (λ k, start + monitorPeriod * Z.of_nat k) (seq 1 n))
    (Hn : t0 + 45 * Second < start + monitorPeriod * (Z.of_nat n + 1)) :
  gone id (StartHeartbeatMonitor true es w).
Proof.
  assert (HS : Second = 1000000000) by done. unfold monitorPeriod in *.
  apply (monitor_detects id t0 (start + 15 * Second * Z.of_nat n)); [done|done| |lia].
  rewrite Hticks. apply list_elem_of_fmap. exists n. split; [done|]. apply list_elem_of_In, in_seq. lia.
Qed.

(** A stopped monitor does nothing. *)
Lemma monitor_stopped (es : list event) (w : World) :
  (∀ f, Other f ∉ es) → w_conns (StartHeartbeatMonitor false es w) = w_conns w ∧
  w_db (StartHeartbeatMonitor false es w) = w_db w.
Proof.
  revert w. induction es as [|[t| |f] es IH]; intros w Hn; cbn [StartHeartbeatMonitor]; [done| | |by destruct (Hn f); left].
  - pose (w1 := w <| w_now := t |>). assert (H := IH w1). apply H. intros f Hf. apply (Hn f). by right.
  - apply IH. intros f Hf. apply (Hn f). by right.
Qed.

(** ** What is heard of a server *)

Definition seen_at (now : Z) (s : Server) : Server :=
  s <| s_LastSeenAt := Some (sqlite_time now) |> <| s_UpdatedAt := sqlite_time now |>.
Definition set_seen (now : Z) (id : string) (d : Db) : Db :=
  d <| d_servers := update_rows (server_is id) (seen_at now) (d_servers d) |>.

Lemma set_seen_ok (fk : bool) (now : Z) (id : string) (d : Db) :
  db_violation fk d = None → db_violation fk (set_seen now id d) = None.
Proof. intros Hd. by apply update_servers_ok. Qed.

Lemma seen_run (id : string) (w : World) :
  healthy w → ignore (UpdateServerLastSeen id) w = (Ok tt, w <| w_db ::= set_seen (w_now w) id |>).
Proof.
  intros [Hf Hv]. unfold ignore, UpdateServerLastSeen, get_now, bind, wrap. rewrite exec_ok; [|done|].
  - simpl. unfold require_row, RowsAffected, bind, try. rewrite driver_ok by done. simpl.
    destruct (_ =? 0); reflexivity.
  - by apply (set_seen_ok _ (w_now w) id).
Qed.

Lemma set_seen_row (now : Z) (id : string) (d : Db) (s : Server) :
  s ∈ d_servers (set_seen now id d) → ∃ s', s' ∈ d_servers d ∧
    s = (if server_is id s' then seen_at now s' else s').
Proof. intros [(y & Hy & Hp & ->)|[Hs Hp]]%elem_of_update_rows; eexists; (split; [done|]); by rewrite Hp. Qed.

Lemma set_seen_online (now : Z) (id i : string) (d : Db) :
  shown_online i (set_seen now id d) → shown_online i d.
Proof.
  intros (s & (s' & Hs & ->)%set_seen_row & Hi & Ho). exists s'. by destruct (server_is id s').
Qed.

Lemma RecordHeartbeat_run (interval : Z) (id : string) (w : World) :
  healthy w → ∃ b w', RecordHeartbeat interval id w = (Ok b, w') ∧ healthy w' ∧ w_conns w' = w_conns w ∧
    w_now w' = w_now w ∧ ∀ i, shown_online i (w_db w') → shown_online i (w_db w).
Proof.
  intros Hh. unfold RecordHeartbeat, get_now, get_lastWritten, set_lastWritten, bind.
  destruct (negb (match _ with Some _ => _ | None => _ end)); [by exists false, w|].
  pose (w1 := w <| w_lastWritten ::= <[id := w_now w]> |>).
  assert (H := seen_run id w1 Hh).
  change (ignore _ _) with (ignore (UpdateServerLastSeen id) w1). rewrite H. do 2 eexists. split; [done|].
  split; [destruct Hh as [Hf Hv]; split; [done|by apply set_seen_ok]|]. split; [done|]. split; [done|].
  intros i. apply set_seen_online.
Qed.

Lemma frame_RecordHeartbeat_sent (interval : Z) (id : string) : frame w_sent (RecordHeartbeat interval id).
Proof. unfold RecordHeartbeat. frames; by intros w. Qed.

(** A heartbeat of one server is not a word from another. *)
Lemma heartbeat_silent (h : Handler) (id other : string) (s : stream) (w : World) :
  other ≠ id → healthy w → silent id w (handleStreamHeartbeat h other s w).2.
Proof.
  intros Hne Hh. unfold handleStreamHeartbeat, on_conns, get_conn, bind.
  pose (w0 := w <| w_conns ::= UpdateHeartbeat (w_now w) other |>).
  destruct (RecordHeartbeat_run (h_interval h) other w0 Hh) as (b & w1 & Hr & Hh1 & Hc & Hn & Ho).
  change (RecordHeartbeat _ _ _) with (RecordHeartbeat (h_interval h) other w0). rewrite Hr.
  assert (Hs : silent id w w1).
  { split; [done|]. rewrite Hc. split; [|apply Ho]. intros c. simpl. unfold UpdateHeartbeat.
    by rewrite lookup_alter_ne. }
  destruct (GetConn other (w_conns w1)); [|done]. unfold get_now, Send, bind. rewrite driver_ok by apply Hh1. exact Hs.
Qed.

(** A heartbeat of a server that is not connected, on a stream the monitor has given up, is not
    answered and changes nothing that is shown: the agent's stream lives on, the server stays
    offline until the agent reconnects by itself. *)
Lemma unanswered_heartbeat (h : Handler) (id : string) (s : stream) (w : World) :
  healthy w → gone id w →
  let '(r, w') := handleStreamHeartbeat h id s w in
  r = Ok tt ∧ healthy w' ∧ gone id w' ∧ w_sent w' = w_sent w.
Proof.
  intros Hh [Hg1 Hg2]. unfold handleStreamHeartbeat, on_conns, get_conn, bind.
  pose (w0 := w <| w_conns ::= UpdateHeartbeat (w_now w) id |>).
  assert (Hs0 := frame_RecordHeartbeat_sent (h_interval h) id w0).
  destruct (RecordHeartbeat_run (h_interval h) id w0 Hh) as (b & w1 & Hr & Hh1 & Hc & Hn & Ho).
  change (RecordHeartbeat _ _ _) with (RecordHeartbeat (h_interval h) id w0). rewrite Hr in Hs0 |- *.
  assert (Hn1 : w_conns w1 !! id = None)
    by (rewrite Hc; simpl; unfold UpdateHeartbeat; by rewrite lookup_alter_eq, Hg1).
  unfold GetConn. rewrite Hn1. split; [done|]. split; [done|]. split; [split; [done|auto]|exact Hs0].
Qed.

(** ** Flushing *)

(** The rows after the servers of [ids] have been seen. *)
Definition seen_all (now : Z) (ids : list string) (d : Db) : Db :=
  d <| d_servers := map (λ s, if decide (s_ID s ∈ ids) then seen_at now s else s) (d_servers d) |>.

Lemma seen_all_nil (now : Z) (d : Db) : seen_all now [] d = d.
Proof. unfold seen_all. destruct d. simpl. f_equal. apply map_id. Qed.

Lemma seen_all_cons (now : Z) (id : string) (ids : list string) (d : Db) :
  seen_all now ids (set_seen now id d) = seen_all now (id :: ids) d.
Proof.
  unfold seen_all, set_seen, update_rows. simpl. f_equal. rewrite map_map. apply map_ext. intros s.
  unfold server_is. destruct (String.eqb_spec (s_ID s) id) as [<-|Hne].
  - simpl. rewrite (decide_True (P := s_ID s ∈ s_ID s :: ids)) by by left.
    destruct (decide (s_ID s ∈ ids)); reflexivity.
  - simpl. destruct (decide (s_ID s ∈ ids)) as [Hin|Hin].
    + by rewrite decide_True by by right.
    + rewrite decide_False; [done|]. by intros [?|?]%elem_of_cons.
Qed.

Lemma flush_ids_run (ids : list string) (w : World) :
  healthy w → flush_ids ids w = (Ok tt, w <| w_db ::= seen_all (w_now w) ids |>) ∧
    db_violation (w_fk w) (seen_all (w_now w) ids (w_db w)) = None.
Proof.
  revert w. induction ids as [|id ids IH]; intros w [Hf Hv].
  - cbn [flush_ids]. unfold set_field. rewrite seen_all_nil. by destruct w.
  - cbn [flush_ids]. erewrite bind_run by (by apply seen_run). cbn iota beta.
    pose (w1 := w <| w_db ::= set_seen (w_now w) id |>).
    destruct (IH w1) as [H1 H2]; [split; [done|by apply set_seen_ok]|].
    unfold w1 in H1, H2. simpl in H1, H2. simpl. rewrite H1, seen_all_cons in *. done.
Qed.

(** A graceful stop of the agents' port writes what the coalescer had held back, once.  Every
    server it tracks is marked seen now, no other row and no other table changes, the constraints
    still hold, and nothing is left to be written. *)
Theorem stop_flushes (w : World) (Hh : healthy w) :
  let '(r, w') := FlushAll w in
  r = Ok tt ∧ w_lastWritten w' = ∅ ∧ healthy w' ∧
  w_db w' = w_db w <| d_servers := map (λ s, if decide (is_Some (w_lastWritten w !! s_ID s))
                                             then seen_at (w_now w) s else s) (d_servers (w_db w)) |>.
Proof.
  unfold FlushAll, get_lastWritten, set_lastWritten, bind.
  pose (w0 := w <| w_lastWritten ::= λ _, ∅ |>).
  destruct (flush_ids_run (map_to_list (w_lastWritten w)).*1 w0 Hh) as [H Hv].
  change (flush_ids _ _) with (flush_ids (map_to_list (w_lastWritten w)).*1 w0). rewrite H. split; [done|]. split; [done|]. split; [split; [apply Hh|done]|]. simpl. unfold seen_all, set_field.
  f_equal. apply map_ext. intros s. destruct (decide (_ ∈ _)) as [Hin|Hin], (decide (is_Some _)) as [Hs|Hs]; try done.
  - destruct Hs. apply list_elem_of_fmap in Hin as ([i t] & -> & Hi). apply elem_of_map_to_list in Hi. by exists t.
  - destruct Hin. destruct Hs as [t Ht]. apply list_elem_of_fmap. exists (s_ID s, t). by rewrite elem_of_map_to_list.
Qed.
End monitor.

(** ** Concrete histories *)

Section witnesses.
#[local] Existing Instance demoEnv.

(** The agent of [s2] was last heard at 990 s; that of [s3], silent since 900 s, is already late. *)
Definition demo_history : list event :=
  let beat id f := Other (λ w, (handleStreamHeartbeat demo_handler id (demo_stream f id) w).2) in
  [beat "s3" 8%nat; Tick (1000 * NS); beat "s3" 8%nat; Tick (1015 * NS); Tick (1030 * NS); beat "s3" 8%nat].

Lemma silent_agent_detected_witness :
  gone "s2" (StartHeartbeatMonitor true demo_history demo_agents) ∧
  is_Some (w_conns (StartHeartbeatMonitor true demo_history demo_agents) !! "s3").
Proof.
  split; [|vm_compute; by eexists].
  apply (silent_agent_detected "s2" (990 * NS) (985 * NS) 3).
  - by vm_compute.
  - intros c Hc. vm_compute in Hc. by injection Hc as <-.
  - by vm_compute.
  - repeat apply Forall_cons_2; try exact I; try apply Forall_nil_2; intros w Hw; by apply heartbeat_silent.
  - by vm_compute.
  - by vm_compute.
Defined.

Lemma stop_flushes_witness :
  let w := demo_agents <| w_lastWritten := <["s2" := 5]> ∅ |> in
  map (λ s, (s_ID s, s_LastSeenAt s)) (d_servers (w_db (FlushAll w).2)) =
    [("s1", None); ("s2", Some (1000 * NS)); ("s3", None)].
Proof.
  pose (w := demo_agents <| w_lastWritten := <["s2" := 5]> ∅ |>). change (map (λ s, (s_ID s, s_LastSeenAt s)) (d_servers (w_db (FlushAll w).2)) =
    [("s1", None); ("s2", Some (1000 * NS)); ("s3", None)]).
  assert (H := stop_flushes w ltac:(by vm_compute)). destruct (FlushAll w) as [r w']. destruct H as (_ & _ & _ & H).
  cbn [snd]. rewrite H. by vm_compute.
Defined.

(** A server whose agent fell silent is shown as seen at the moment the hub stops: the monitor drops
    its connection but not its entry in the coalescer. *)
Example silent_server_seen_at_shutdown :
  let w := demo_agents <| w_lastWritten := <["s3" := 900 * NS]> ∅ |> in
  let w1 := (sweepStaleConnections w).2 in
  let w2 := (FlushAll (w1 <| w_now := 5000 * NS |>)).2 in
  gone "s3" w1 ∧ map s_LastSeenAt (List.filter (server_is "s3") (d_servers (w_db w2))) = [Some (5000 * NS)].
Proof.
  split; [|by vm_compute]. split; [by vm_compute|]. intros (s & Hs & Hi & Ho). vm_compute in Hs.
  repeat (apply elem_of_cons in Hs as [->|Hs]; [by vm_compute in Hi, Ho|]). by apply elem_of_nil in Hs.
Qed.
End witnesses.
