(* ===== verification/Lifecycle.v ===== *)
(** * The life of the hub's process: serving, the signal, the shutdown (runServer of
    hub/cmd/veyport/main.go, Start and Stop of hub/internal/grpcserver/server.go, Shutdown of
    hub/internal/server/server.go).

    The goroutines are components of one state, and a step is one of them going on.  What handlers do
    to the world between the steps is an arbitrary relation; the monitor and the flush are those of
    [Monitor].  The deferred calls of runServer are part of its last step. *)

From stdpp Require Import relations.
From S2P Require Import Prelude GoStr GoTime Model Proto Db Demo AgentHandler Monitor.

(** [GracefulStop] returns when [rpcs_finished] of the streams being served. *)
Class GrpcLib := { rpcs_finished : list nat → bool }.

(** What the library documents: it blocks until all the pending RPCs are finished. *)
Class GrpcLaws (G : GrpcLib) := { rpcs_finished_iff : ∀ l, rpcs_finished l = true ↔ l = [] }.

(** The agents' port: accepting streams, told to stop, or never opened since listening failed. *)
Inductive grpc_phase := Accepting | Stopping | Failed.
Inductive http_phase := Listening | ShutDown.

(** The goroutine that waits for the signal, by what it does next. *)
Inductive stopper := OnSignal | OnFlush | OnGracefulStop | OnShutdown (deadline : Z) | Finished.

(** runServer: in [srv.Start], or returned, with [None] for http.ErrServerClosed. *)
Inductive main_phase := Serving | Returned (err : option string).

Record Proc := MkProc {
  p_world : World;
  p_signalled : bool;
  p_stopHeartbeat : bool;             (* the channel is closed *)
  p_monitor : bool;                   (* its goroutine runs *)
  p_grpc : grpc_phase;
  p_grpcErr : option string;          (* grpcErrCh *)
  p_streams : list nat;               (* streams of agents *)
  p_http : http_phase;
  p_requests : nat;                   (* HTTP requests being served *)
  p_stopper : stopper;
  p_main : main_phase
}.
#[export] Instance eta_Proc : Eta Proc := λ r, MkProc (p_world r) (p_signalled r) (p_stopHeartbeat r)
  (p_monitor r) (p_grpc r) (p_grpcErr r) (p_streams r) (p_http r) (p_requests r) (p_stopper r) (p_main r).

(** All goroutines have been started. *)
Definition started (w : World) : Proc :=
  MkProc w false false true Accepting None [] Listening 0 OnSignal Serving.

Section lifecycle.
Context `{E : Env} `{G : GrpcLib}.
Context (other : World → World → Prop).

(** What the outside does, and the handlers. *)
Inductive outside_step : Proc → Proc → Prop :=
  | O_signal p : outside_step p (p <| p_signalled := true |>)
  | O_work p w : other (p_world p) w → outside_step p (p <| p_world := w |>)
  | O_stream p s : p_grpc p = Accepting → outside_step p (p <| p_streams ::= cons s |>)
  | O_stream_end p l s l' : p_streams p = l ++ s :: l' → outside_step p (p <| p_streams := l ++ l' |>)
  | O_request p : p_http p = Listening → outside_step p (p <| p_requests ::= S |>)
  | O_request_end p n : p_requests p = S n → outside_step p (p <| p_requests := n |>)
  | O_listen_fails p e : p_grpc p = Accepting → p_streams p = [] →
      outside_step p (p <| p_grpc := Failed |> <| p_grpcErr := Some e |>)
  | O_serve_fails p e : p_http p = Listening → outside_step p (p <| p_main := Returned (Some e) |>)
  | O_tick p : p_monitor p = true →
      outside_step p (p <| p_world := (sweepStaleConnections (p_world p)).2 |>).

(** [s.Stop()], up to the return of [GracefulStop]. *)
Definition Stop (p : Proc) : Proc :=
  p <| p_world := (FlushAll (p_world p)).2 |> <| p_grpc := Stopping |>.

(** The hub's own steps towards its end. *)
Inductive own_step : Proc → Proc → Prop :=
  | S_wake p : p_stopper p = OnSignal → p_signalled p = true →
      own_step p (p <| p_stopHeartbeat := true |> <| p_stopper := OnFlush |>)
  | S_monitor p : p_monitor p = true → p_stopHeartbeat p = true → own_step p (p <| p_monitor := false |>)
  | S_flush p : p_stopper p = OnFlush →
      own_step p (Stop p <| p_stopper := OnGracefulStop |>)
  | S_stopped p : p_stopper p = OnGracefulStop → rpcs_finished (p_streams p) = true →
      own_step p (p <| p_http := ShutDown |> <| p_stopper := OnShutdown (w_now (p_world p) + 10 * Second) |>)
  | S_drained p d : p_stopper p = OnShutdown d → p_requests p = 0%nat ∨ d <= w_now (p_world p) →
      own_step p (p <| p_stopper := Finished |>)
  | S_return p : p_http p = ShutDown → own_step p (p <| p_main := Returned None |>).

(** Nothing runs once runServer has returned. *)
Definition running {A : Type} (R : A → A → Prop) (main : A → main_phase) (p q : A) : Prop :=
  main p = Serving ∧ R p q.
Definition own := running own_step p_main.
Definition step (p q : Proc) : Prop := p_main p = Serving ∧ (outside_step p q ∨ own_step p q).
Definition reachable (w : World) (p : Proc) : Prop := rtc step (started w) p.

(** ** What holds in every reachable state *)

Definition past_stop (s : stopper) : bool :=
  match s with OnShutdown _ | Finished => true | _ => false end.

(** HTTP is shut down by the goroutine that first saw the agents' port stop. *)
Definition ordered (p : Proc) : Prop :=
  (past_stop (p_stopper p) = true ↔ p_http p = ShutDown) ∧
  (p_main p = Returned None → p_http p = ShutDown) ∧
  (p_http p = ShutDown → p_streams p = [] ∧ p_grpc p = Stopping) ∧
  (p_stopper p = OnGracefulStop → p_grpc p = Stopping) ∧
  (p_stopHeartbeat p = false ↔ p_stopper p = OnSignal).

Context `{GL : !GrpcLaws G}.

Lemma step_ordered (p q : Proc) : step p q → ordered p → ordered q.
Proof.
  intros [Hm Hs] (H1 & H2 & H3 & H4 & H5). unfold ordered.
  destruct Hs as [Hs|Hs]; inversion Hs; clear Hs; subst; simpl in *;
    try (rename select (p_stopper p = _) into Hst; rewrite Hst in *; simpl in *);
    try solve [clear Hm; intuition congruence].
  - rename select (p_streams p = _) into Hl. split; [done|]. split; [done|]. split; [|done].
    intros [Hn _]%H3. rewrite Hn in Hl. by destruct l.
  - rename select (rpcs_finished _ = true) into Hf. apply rpcs_finished_iff in Hf. intuition congruence.
Qed.

Lemma reachable_ordered (w : World) (p : Proc) : reachable w p → ordered p.
Proof.
  revert p. apply (rtc_ind_r ordered); [by repeat split|]. intros p q _ Hs Hp. by apply (step_ordered p q).
Qed.

(** C14: Nothing is shut down under the agents, and the hub does not end while one is connected.  In
    every state the process can reach, HTTP is still served, the monitor may already have been told to
    stop, and runServer has not returned by itself, as long as one agent's stream is open; so after a
    signal the process lives until the last agent hangs up. *)
Theorem hub_outlives_agents (w : World) (p : Proc) (Hr : reachable w p) (Hopen : p_streams p ≠ []) :
  p_http p = Listening ∧ p_main p ≠ Returned None ∧
  (p_stopper p = OnSignal ∨ p_stopper p = OnFlush ∨ p_stopper p = OnGracefulStop).
Proof.
  destruct (reachable_ordered w p Hr) as (H1 & H2 & H3 & _).
  destruct (p_http p) eqn:Hh; [|by destruct (H3 eq_refl)].
  split; [done|]. split; [by intros H%H2|]. destruct (p_stopper p); simpl in H1; intuition congruence.
Qed.

(** ** The shutdown ends *)

Definition stopper_rank (s : stopper) : nat :=
  match s with OnSignal => 4 | OnFlush => 3 | OnGracefulStop => 2 | OnShutdown _ => 1 | Finished => 0 end.
Definition left_to_do (p : Proc) : nat :=
  stopper_rank (p_stopper p) + (if p_monitor p then 1 else 0) +
  match p_main p with Serving => 1 | Returned _ => 0 end.

Lemma own_decreases (p q : Proc) : own p q → (left_to_do q < left_to_do p)%nat.
Proof.
  intros [Hm Hs]. unfold left_to_do. inversion Hs; subst; simpl;
    repeat match goal with H : p_stopper p = _ |- _ => rewrite H | H : p_monitor p = _ |- _ => rewrite H end;
    rewrite ?Hm; simpl; lia.
Qed.

Lemma own_sn (p : Proc) : sn own p.
Proof.
  remember (left_to_do p) as n eqn:Hn. revert p Hn. induction n as [n IH] using lt_wf_ind. intros p ->.
  constructor. intros q Hq. apply (IH (left_to_do q)); [|done]. by apply own_decreases.
Qed.

Lemma own_keeps (p q : Proc) : rtc own p q → p_signalled q = p_signalled p ∧ p_streams q = p_streams p ∧
  rtc step p q ∧ (p_main q = Serving ∨ p_main q = Returned None ∨ q = p).
Proof.
  induction 1 as [p|p q r [Hm Hs] Hr (H1 & H2 & H3 & H4)]; [by auto 7 using rtc_refl|].
  assert (Hk : p_signalled q = p_signalled p ∧ p_streams q = p_streams p ∧
    (p_main q = Serving ∨ p_main q = Returned None)) by (inversion Hs; subst; simpl; auto).
  destruct Hk as (K1 & K2 & K3). rewrite H1, H2, K1, K2. split; [done|]. split; [done|]. split.
  - eapply rtc_l; [|exact H3]. split; [done|]. by right.
  - destruct H4 as [H4|[H4|H4]]; [auto|auto|]. rewrite H4. tauto.
Qed.

(** A signalled hub that cannot go on waits for the streams of agents. *)
Lemma stuck (w : World) (p : Proc) :
  reachable w p → p_signalled p = true → p_main p = Serving → nf own p →
  p_stopper p = OnGracefulStop ∧ p_streams p ≠ [].
Proof.
  intros Hr Hs Hm Hn. destruct (reachable_ordered w p Hr) as (H1 & _).
  assert (Hno : ∀ q, ¬ own_step p q) by (intros q Hq; apply Hn; by exists q).
  assert (Hh : p_http p = Listening) by (destruct (p_http p) eqn:Hh; [done|]; by destruct (Hno _ (S_return p Hh))).
  destruct (p_stopper p) eqn:Hst; simpl in H1.
  - by destruct (Hno _ (S_wake p Hst Hs)).
  - by destruct (Hno _ (S_flush p Hst)).
  - split; [done|]. intros Hl. apply (Hno _ (S_stopped p Hst (proj2 (rpcs_finished_iff _) Hl))).
  - intuition congruence.
  - intuition congruence.
Qed.

(** C15: Without agents the shutdown ends.  Once the signal has arrived the hub takes only finitely many
    steps of its own, whatever their order, and where it cannot take another one it has returned
    without an error, if no stream of an agent was open, and otherwise waits for one. *)
Theorem shutdown_completes (w : World) (p : Proc) (Hr : reachable w p)
    (Hs : p_signalled p = true) (Hm : p_main p = Serving) :
  sn own p ∧ ∀ q, rtc own p q → nf own q →
    if decide (p_streams p = []) then p_main q = Returned None
    else p_main q = Serving ∧ p_stopper q = OnGracefulStop.
Proof.
  split; [apply own_sn|]. intros q Hq Hn. destruct (own_keeps p q Hq) as (K1 & K2 & K3 & K4).
  assert (Hrq : reachable w q) by (unfold reachable in *; by transitivity p).
  assert (Hstuck := stuck w q Hrq). rewrite K1, K2 in Hstuck.
  assert (Hret : p_main q = Returned None → p_streams p = []).
  { intros H. rewrite <- K2. destruct (reachable_ordered w q Hrq) as (_ & H2 & H3 & _). by apply H3, H2. }
  assert (Hmq : p_main q = Serving ∨ p_main q = Returned None) by (destruct K4 as [?|[?| ->]]; auto).
  case_decide as Hl; destruct Hmq as [H|H]; try done; [|by split; [|apply Hstuck]|by destruct Hl; apply Hret].
  by destruct (Hstuck Hs H Hn).
Qed.
End lifecycle.

(** ** Concrete runs *)

Section witnesses.
#[local] Existing Instance demoEnv.
#[local] Instance demo_grpc : GrpcLib := {| rpcs_finished := λ l, bool_decide (l = []) |}.
#[local] Instance demo_grpc_laws : GrpcLaws demo_grpc.
Proof. split. intros l. exact (bool_decide_eq_true (l = [])). Qed.
#[local] Notation idle := (λ _ _ : World, False).

Ltac outside c := eapply rtc_l; [split; [done|left; apply c; done]|].
Ltac own_ c := eapply rtc_l; [split; [done|right; apply c; done]|].

(** A hub with one agent, signalled. *)
Definition demo_stopping : Proc :=
  started demo_agents <| p_streams := [7%nat] |> <| p_signalled := true |> <| p_stopHeartbeat := true |>
    <| p_stopper := OnFlush |>.

Lemma demo_stopping_reachable : reachable idle demo_agents demo_stopping.
Proof.
  outside (O_stream idle (started demo_agents) 7). outside O_signal. own_ S_wake. apply rtc_refl.
Qed.

Lemma hub_outlives_agents_witness : p_http demo_stopping = Listening ∧ p_main demo_stopping ≠ Returned None.
Proof.
  destruct (hub_outlives_agents idle demo_agents demo_stopping demo_stopping_reachable) as (H1 & H2 & _); [done|].
  by split.
Defined.

Lemma shutdown_completes_witness :
  let p := started demo_agents <| p_signalled := true |> in
  sn own p ∧ ∀ q, rtc own p q → nf own q → p_main q = Returned None.
Proof.
  intros p. destruct (shutdown_completes idle demo_agents p) as [H1 H2]; [|done|done|].
  - outside O_signal. apply rtc_refl.
  - by split.
Defined.

(** runServer returns as soon as HTTP refuses new connections: the requests being served, which
    [Shutdown] would wait ten seconds for, are cut off when the process ends. *)
Example requests_cut_off : ∃ p, reachable idle demo_agents p ∧
  p_main p = Returned None ∧ p_requests p = 1%nat ∧ p_stopper p ≠ Finished.
Proof.
  eexists. split.
  { outside (O_request idle (started demo_agents)). outside O_signal. own_ S_wake. own_ S_flush. own_ S_stopped. own_ S_return.
    apply rtc_refl. }
  by repeat split.
Qed.

(** If the agents' port cannot be opened nobody is told: the error stays in its channel, and the hub
    serves HTTP with nothing more to do. *)
Example failed_port_unnoticed : ∃ p, reachable idle demo_agents p ∧
  p_grpc p = Failed ∧ p_main p = Serving ∧ p_http p = Listening ∧ nf own p.
Proof.
  eexists. split.
  { outside (O_listen_fails idle (started demo_agents) "address already in use"). apply rtc_refl. }
  repeat split. intros [q [_ Hq]]. by inversion Hq.
Qed.
End witnesses.
