(* ===== verification/AgentMain.v ===== *)
(** * The agent's command (agent/cmd/veyport-agent/main.go, SelfUnregister of
    agent/internal/client/client.go).

    A start of the agent reads its configuration file, runs its client and, when it registers, writes
    the file.  The disk is the client's; [encoding/json] is the class [Json] with the one law the
    command relies on.  Logging is left out. *)

From S2P Require Import Prelude GoStr GoTime Flag.
From S2P Require Proto Http Files Hub Ldap Dropzone AgentCerts AgentClient Router Model StoreServers ServerHandlers Db.

Definition version : string := "0.1.0".
Definition defaultConfigPath : string := "/etc/veyport/agent.conf".
Definition defaultCertDir : string := "/etc/veyport/tls/".
Definition defaultDropzoneDir : string := "/tmp/veyport-dropzone".

Record agentConfig := MkAgentConfig {
  ac_ServerID : string;
  ac_HubURL : string;
  ac_HubCAPin : string;
  ac_UnregisterToken : string;
  ac_AllowedPaths : list string
}.

(** [json.MarshalIndent] and [json.Unmarshal] of an [agentConfig]. *)
Class Json := {
  marshal : agentConfig → result Proto.bytes;
  unmarshal : Proto.bytes → result agentConfig
}.

Definition ascii_text (s : string) : bool := all_bytes (λ a, (nat_of_ascii a <? 128)%nat) s.
Definition ascii_config (cfg : agentConfig) : bool :=
  forallb ascii_text ([ac_ServerID cfg; ac_HubURL cfg; ac_HubCAPin cfg; ac_UnregisterToken cfg] ++ ac_AllowedPaths cfg).

(** A configuration of valid text is read back as it was written. *)
Class JsonLaws (J : Json) := {
  json_roundtrip : ∀ cfg, ascii_config cfg = true → ∃ data, marshal cfg = Ok data ∧ unmarshal data = Ok cfg
}.

(** ** Paths and flags *)

Definition resolveCertDir (configPath certDirFlag : string) : string :=
  if negb (String.eqb certDirFlag "") then certDirFlag else
  if negb (String.eqb configPath defaultConfigPath) then JoinPath (Hub.Dir configPath) "tls" else defaultCertDir.

Definition resolveDropzoneDir (configPath dropzoneDirFlag : string) : string :=
  if negb (String.eqb dropzoneDirFlag "") then dropzoneDirFlag else
  if negb (String.eqb configPath defaultConfigPath) then JoinPath (Hub.Dir configPath) "dropzone"
  else defaultDropzoneDir.

Definition parseAllowedPaths (s : string) : list string :=
  if String.eqb s "" then [] else
  List.filter (λ p, negb (String.eqb p "")) (map Ldap.TrimSpace (Split "," s)).

Record Flags := MkFlags {
  f_hub : string; f_token : string; f_caPin : string; f_config : string; f_certDir : string;
  f_dropzoneDir : string; f_selfUnregister : bool; f_insecure : bool; f_allowedPaths : string
}.

Definition agent_flags : list (string * kind) :=
  [("hub", StringFlag); ("token", StringFlag); ("ca-pin", StringFlag); ("config", StringFlag);
   ("cert-dir", StringFlag); ("dropzone-dir", StringFlag); ("self-unregister", BoolFlag);
   ("insecure", BoolFlag); ("allowed-paths", StringFlag)].

(** The flags, or the status [flag.Parse] exits with. *)
Definition parse_flags (is_print : Z → bool) (args : list string) : Flags + Z :=
  match Parse is_print agent_flags args with
  | Err e => inr (if String.eqb e "flag: help requested" then 0 else 2)
  | Ok g => inl (MkFlags (String_ g "hub" "") (String_ g "token" "") (String_ g "ca-pin" "")
      (String_ g "config" defaultConfigPath) (String_ g "cert-dir" "") (String_ g "dropzone-dir" "")
      (Bool g "self-unregister") (Bool g "insecure") (String_ g "allowed-paths" ""))
  end.

(** ** The configuration file *)

Section main.
Context `{J : Json} `{P : AgentCerts.Pki} `{X : AgentClient.Tls}.

Definition loadConfig (path : string) (d : AgentCerts.Disk) : result agentConfig * AgentCerts.Disk :=
  let '(e, d) := AgentCerts.answer d in
  match e with
  | Some e => (Err e, d)
  | None => (match AgentCerts.files d !! path with
             | None => Err ("open " +:+ path +:+ ": no such file or directory")
             | Some data => unmarshal data
             end, d)
  end.

Definition saveConfig (path : string) (cfg : agentConfig) (d : AgentCerts.Disk) : result unit * AgentCerts.Disk :=
  match marshal cfg with
  | Err e => (Err e, d)
  | Ok data =>
      let '(e, d) := AgentCerts.answer d in   (* os.MkdirAll *)
      match e with
      | Some e => (Err e, d)
      | None => let '(e, d) := AgentCerts.WriteFile path data d in
                (match e with Some e => Err e | None => Ok tt end, d)
      end
  end.

Definition saveNewConfig (configPath hubAddr serverID hubCAPin unregisterToken : string) (d : AgentCerts.Disk)
  : AgentCerts.Disk :=
  (saveConfig configPath (MkAgentConfig serverID hubAddr hubCAPin unregisterToken []) d).2.

(** What a start goes on with, or the status it exits with. *)
Inductive resolved :=
  | Exit (code : Z)
  | Start (cfg : option agentConfig) (hubAddr serverID regToken hubCAPin : string).

Definition resolveConfig (configPath hubFlag tokenFlag caPinFlag : string) (d : AgentCerts.Disk)
  : resolved * AgentCerts.Disk :=
  let '(loaded, d) := loadConfig configPath d in
  (match loaded with
   | Ok cfg => Start (Some cfg) (ac_HubURL cfg) (ac_ServerID cfg) "" (ac_HubCAPin cfg)
   | Err _ =>
       if String.eqb tokenFlag "" then Exit 1 else
       if String.eqb hubFlag "" then Exit 1 else
       if String.eqb caPinFlag "" then Exit 1 else
       Start None hubFlag "" tokenFlag caPinFlag
   end, d).

(** ** main *)

(** The machine a start finds: what [sysinfo] says of it, the environment and the dropzone's files. *)
Record Surroundings := MkSurroundings {
  su_hostname : string; su_os : string; su_unregister_token : string;
  su_fs : Dropzone.Fs; su_answers : list Dropzone.os_answer
}.

Definition new_client (f : Flags) (su : Surroundings) (cfg : option agentConfig)
    (hubAddr serverID regToken hubCAPin : string) (d : AgentCerts.Disk) : AgentClient.Client :=
  let allowedPaths := parseAllowedPaths (f_allowedPaths f) in
  let allowedPaths := match cfg, allowedPaths with Some cfg, [] => ac_AllowedPaths cfg | _, _ => allowedPaths end in
  AgentClient.New
    (AgentClient.MkConfig hubAddr regToken (su_hostname su) "" (su_os su) version "" (f_insecure f) allowedPaths hubCAPin)
    serverID (resolveCertDir (f_config f) (f_certDir f)) (resolveDropzoneDir (f_config f) (f_dropzoneDir f))
    (su_fs su) (su_answers su) d.

(** The callback [OnRegistered]. *)
Definition onRegistered (f : Flags) (su : Surroundings) (cfg : option agentConfig) (hubAddr hubCAPin : string)
    (d : AgentCerts.Disk) (serverID : string) : AgentCerts.Disk :=
  match cfg with
  | Some _ => d
  | None => if String.eqb serverID "" then d
            else saveNewConfig (f_config f) hubAddr serverID hubCAPin (su_unregister_token su) d
  end.

(** A run of the agent to its end: the exit status, the client and the disk.  The writes of the
    callback, which are to another file than the client's, are put after the client's. *)
Definition start (f : Flags) (su : Surroundings) (attempts : list AgentClient.Attempt) (d : AgentCerts.Disk)
  : outcome (Z * option AgentClient.Client * AgentCerts.Disk) :=
  match resolveConfig (f_config f) (f_hub f) (f_token f) (f_caPin f) d with
  | (Exit code, d) => Ret (code, None, d)
  | (Start cfg hubAddr serverID regToken hubCAPin, d) =>
      let! (_, last, c) := AgentClient.Run attempts (new_client f su cfg hubAddr serverID regToken hubCAPin d) in
      let d := foldl (onRegistered f su cfg hubAddr hubCAPin) (AgentClient.cl_disk c) (AgentClient.cl_registered c) in
      match last with
      | AgentClient.Unregistered _ => Ret (1, Some c, d)
      | AgentClient.Cancelled => Ret (0, Some c, onRegistered f su cfg hubAddr hubCAPin d (AgentClient.cl_serverID c))
      end
  end.

(** ** Self-unregistration *)

(** The request the agent makes of the hub: the base URL, the path and the token's header. *)
Record HubRequest := MkHubRequest { hr_base : string; hr_path : string; hr_token : option string }.

Definition selfUnregister_request (hubAddr serverID unregisterToken : string) : HubRequest :=
  let '(host, port) := match Http.SplitHostPort hubAddr with Some (h, p) => (h, p) | None => (hubAddr, "") end in
  let baseURL := if String.eqb port "443" || (negb (AgentClient.is_ip host) && Contains host ".")
                 then "https://" +:+ host else "http://" +:+ host +:+ ":8081" in
  MkHubRequest baseURL ("/api/servers/" +:+ serverID +:+ "/self-unregister")
    (if String.eqb unregisterToken "" then None else Some unregisterToken).

(** [do_request] answers with a status code, or fails before there is one. *)
Definition SelfUnregister (do_request : HubRequest → result Z) (hubAddr serverID unregisterToken : string) : result unit :=
  match do_request (selfUnregister_request hubAddr serverID unregisterToken) with
  | Err e => Err e
  | Ok status => if (status =? 200) || (status =? 204) || (status =? 404) then Ok tt
                 else Err ("unexpected status: " +:+ Itoa status)
  end.

(** What happened to the registration, and the disk; the exit status is always 0. *)
Definition runSelfUnregister (do_request : HubRequest → result Z) (configPath : string) (d : AgentCerts.Disk)
  : option (result unit) * AgentCerts.Disk :=
  match loadConfig configPath d with
  | (Err _, d) => (None, d)
  | (Ok cfg, d) =>
      let r := SelfUnregister do_request (ac_HubURL cfg) (ac_ServerID cfg) (ac_UnregisterToken cfg) in
      let '(e, d) := AgentCerts.answer d in   (* os.Remove *)
      (Some r, match e with
               | Some _ => d
               | None => AgentCerts.MkDisk (delete configPath (AgentCerts.files d)) (AgentCerts.answers d)
               end)
  end.
End main.

(** ** A registered agent resumes *)

Section identity.
Import AgentClient.

(** The server an agent is, and the registrations it reported. *)
Definition identity (c : Client) : string * list string := (cl_serverID c, cl_registered c).

Definition keeps_identity (a : Attempt) : Prop :=
  ∀ c c', at_during a c = Ret c' → identity c' = identity c.

Lemma close_stop_identity (stop : nat) (c c' : Client) : close_stop stop c = Ret c' → identity c' = identity c.
Proof.
  unfold close_stop. destruct (cl_tailers c !! stop) as [t|]; [|done]. destruct (tl_stopped t); [done|].
  by intros [= <-].
Qed.

Lemma foldl_close_identity (l : list (string * nat)) (r : outcome Client) (i : string * list string) :
  (∀ c, r = Ret c → identity c = i) →
  ∀ c', foldl (λ r e, obind r (close_stop e.2)) r l = Ret c' → identity c' = i.
Proof.
  revert r. induction l as [|e l IH]; intros r Hr c'; simpl; [apply Hr|]. apply IH.
  intros c. destruct r as [c0|]; simpl; [|done]. intros Hc%close_stop_identity. rewrite Hc. by apply Hr.
Qed.

Lemma cleanup_identity (c c' : Client) : cleanup c = Ret c' → identity c' = identity c.
Proof.
  unfold cleanup, close_tails. set (c0 := c <| cl_tailSessions := ∅ |>).
  destruct (foldl _ _ _) as [c1|] eqn:Hf; simpl; [|done]. intros [= <-].
  eapply (foldl_close_identity _ _ (identity c)) in Hf; [exact Hf|]. by intros ? [= <-].
Qed.

Lemma StoreCert_identity `{P : AgentCerts.Pki} (order : list (string * Proto.bytes) → list (string * Proto.bytes)) (cert ca : Proto.bytes)
    (c : Client) : identity (StoreCert order cert ca c) = identity c.
Proof. unfold StoreCert. by destruct (AgentCerts.StoreCert _ _ _ _ _) as [[? ?] ?]. Qed.

Lemma storeMTLSCerts_identity `{P : AgentCerts.Pki} (order : list (string * Proto.bytes) → list (string * Proto.bytes))
    (cert ca : Proto.bytes) (c : Client) : identity (storeMTLSCerts order cert ca c) = identity c.
Proof. unfold storeMTLSCerts. destruct (_ || _); [done|]. apply StoreCert_identity. Qed.

Lemma registered_identity (f : list string → list string) (c : Client) :
  identity (c <| cl_registered ::= f |>) = ((identity c).1, f (identity c).2).
Proof. done. Qed.

(** No message of the hub makes the agent another server. *)
Lemma handleMessage_identity (mc : Machine) (m : Proto.HubMessage) (c c' : Client) :
  handleMessage mc m c = Ret c' → identity c' = identity c.
Proof.
  destruct m; simpl;
    unfold handleFileListRequest, handleFileReadRequest, handleLogStreamRequest, handleFileUploadRequest,
      handleFileDeleteRequest, handleUnregisterRequest, handleCertRenewResponse, handleTerminalOpenRequest,
      handleTerminalInput, handleTerminalResize, handleTerminalClose, Remove;
    try (repeat case_match; intros; simplify_eq; rewrite ?StoreCert_identity; done).
  unfold handleLogStreamStop. destruct (_ !! _); [|by intros [= <-]]. by intros H%close_stop_identity.
Qed.

(** It is a server once it has registered, and then the one of its last registration. *)
Definition enrolled (i : string * list string) : Prop :=
  ∃ l, Forall (λ s, s = "") l ∧ (i.1 = "" ∧ i.2 = l ∨ i.1 ≠ "" ∧ i.2 = l ++ [i.1]).

Context `{P : AgentCerts.Pki} `{X : AgentClient.Tls}.

Lemma register_enrolled (order : list (string * Proto.bytes) → list (string * Proto.bytes)) (draw : nat)
    (ip : string) (h : Hub) (c : Client) :
  enrolled (identity c) → enrolled (identity (registerOrHandshake order draw ip h c).2).
Proof.
  intros He. unfold registerOrHandshake. destruct (String.eqb_spec (cl_serverID c) "") as [Hs|Hs].
  - unfold sendRegister, generateCSRForRegistration. destruct (AgentCerts.GenerateCSR _ _ _) as [csr s].
    destruct (hb_send h); [done|]. destruct (hb_recv h) as [m|e]; [|done]. destruct m; try done.
    destruct success; [|done]. destruct He as (l & Hl & [[_ Hr]|[Hn _]]); [|by simpl in Hn].
    cbn [snd negb]. rewrite registered_identity, storeMTLSCerts_identity. unfold enrolled. cbn.
    simpl in Hr. rewrite Hr. match goal with |- context [l ++ [?id]] => destruct (decide (id = "")) as [->|Hne] end.
    + exists (l ++ [""]). split; [apply Forall_app; by split; [|constructor]|]. by left.
    + exists l. auto.
  - by destruct (sendHeartbeatHandshake ip h c).
Qed.

Lemma connect_enrolled (a : Attempt) (c c' : Client) (e : conn_end) :
  keeps_identity a → enrolled (identity c) → connectAndStream a c = Ret (e, c') → enrolled (identity c').
Proof.
  intros Hk He. unfold connectAndStream. destruct (dialHub c); [|by intros [= _ <-]].
  destruct (hb_connect _); [by intros [= _ <-]|].
  assert (Hr := register_enrolled (at_order a) (at_draw a) (at_ip a) (at_hub a) c He).
  destruct (registerOrHandshake _ _ _ _ _) as [[[[|]|e1] out] c1]; simpl in Hr; [by intros [= _ <-]| |by intros [= _ <-]].
  set (c2 := resetBackoff c1 <| cl_terminal := _ |>).
  destruct (at_during a c2) as [c3|] eqn:Hd; simpl; [|done]. apply Hk in Hd.
  destruct (cleanup c3) as [c4|] eqn:Hc; simpl; [|done]. apply cleanup_identity in Hc. intros [= _ <-].
  by rewrite Hc, Hd.
Qed.

Lemma run_enrolled (attempts : list Attempt) (n : nat) (c c' : Client) (waits : list Z) (last : run_end) :
  Forall keeps_identity attempts → enrolled (identity c) →
  run_loop attempts n c = Ret (waits, last, c') → enrolled (identity c').
Proof.
  intros HF. revert n c waits. induction HF as [|a l Ha HF IH]; intros n c waits He; cbn [run_loop]; [by intros [= _ _ <-]|].
  destruct (connectAndStream a c) as [[err c1]|] eqn:Hc; cbn [obind]; [|done].
  apply (connect_enrolled a c c1 err Ha He) in Hc. destruct err as [|e1].
  - by apply IH.
  - destruct (3 <=? _)%nat; [by intros [= _ _ <-]|]. unfold nextBackoff. set (c2 := c1 <| cl_backoff := _ |>).
    destruct (run_loop l _ c2) as [[[ws r] c3]|] eqn:Hl; cbn [obind]; [|done]. intros [= _ -> ->].
    by apply IH in Hl.
Qed.

Lemma connect_registered (a : Attempt) (c c' : Client) (e : conn_end) :
  keeps_identity a → cl_serverID c ≠ "" → connectAndStream a c = Ret (e, c') → identity c' = identity c.
Proof.
  intros Hk Hs. unfold connectAndStream. destruct (dialHub c); [|by intros [= _ <-]].
  destruct (hb_connect _); [by intros [= _ <-]|]. unfold registerOrHandshake.
  destruct (String.eqb_spec (cl_serverID c) ""); [done|].
  destruct (sendHeartbeatHandshake _ _ _) as [[|] out]; [|by intros [= _ <-]].
  set (c2 := resetBackoff c <| cl_terminal := _ |>).
  destruct (at_during a c2) as [c3|] eqn:Hd; simpl; [|done]. apply Hk in Hd.
  destruct (cleanup c3) as [c4|] eqn:Hc; simpl; [|done]. apply cleanup_identity in Hc. intros [= _ <-].
  by rewrite Hc, Hd.
Qed.

(** An agent that is a server stays it, and registers no more. *)
Lemma run_registered (attempts : list Attempt) (n : nat) (c c' : Client) (waits : list Z) (last : run_end) :
  Forall keeps_identity attempts → cl_serverID c ≠ "" →
  run_loop attempts n c = Ret (waits, last, c') → identity c' = identity c.
Proof.
  intros HF. revert n c waits. induction HF as [|a l Ha HF IH]; intros n c waits Hs; cbn [run_loop]; [by intros [= _ _ <-]|].
  destruct (connectAndStream a c) as [[err c1]|] eqn:Hc; cbn [obind]; [|done].
  apply (connect_registered a c c1 err Ha Hs) in Hc.
  assert (Hs1 : cl_serverID c1 ≠ "") by (change (cl_serverID c1) with (identity c1).1; by rewrite Hc).
  destruct err as [|e1]; [by intros ->%IH|].
  destruct (3 <=? _)%nat; [by intros [= _ _ <-]|]. unfold nextBackoff. set (c2 := c1 <| cl_backoff := _ |>).
  destruct (run_loop l _ c2) as [[[ws r] c3]|] eqn:Hl; cbn [obind]; [|done]. intros [= _ -> ->].
  by apply IH in Hl as ->.
Qed.
End identity.

Section resumption.
Context `{J : Json} `{P : AgentCerts.Pki} `{X : AgentClient.Tls} `{!JsonLaws J}.

Lemma loadConfig_now (path : string) (cfg : agentConfig) (data : Proto.bytes) (d : AgentCerts.Disk) :
  AgentCerts.answers d = [] → AgentCerts.files d !! path = Some data → unmarshal data = Ok cfg →
  loadConfig path d = (Ok cfg, d).
Proof. intros Ha Hf Hu. unfold loadConfig, AgentCerts.answer. by rewrite Ha, Hf, Hu. Qed.

Lemma saveConfig_now (path : string) (cfg : agentConfig) (data : Proto.bytes) (d : AgentCerts.Disk) :
  AgentCerts.answers d = [] → marshal cfg = Ok data →
  saveConfig path cfg d = (Ok tt, AgentCerts.MkDisk (<[path := data]> (AgentCerts.files d)) []).
Proof. destruct d as [fs l]. simpl. intros -> Hm. unfold saveConfig. by rewrite Hm. Qed.

(** The configuration a first start of server [serverID] leaves. *)
Definition new_config (f : Flags) (su : Surroundings) (serverID : string) : agentConfig :=
  MkAgentConfig serverID (f_hub f) (f_caPin f) (su_unregister_token su) [].

Lemma onRegistered_now (f : Flags) (su : Surroundings) (id : string) (data : Proto.bytes) (d : AgentCerts.Disk) :
  id ≠ "" → AgentCerts.answers d = [] → marshal (new_config f su id) = Ok data →
  onRegistered f su None (f_hub f) (f_caPin f) d id = AgentCerts.MkDisk (<[f_config f := data]> (AgentCerts.files d)) [].
Proof.
  intros Hid Ha Hm. unfold onRegistered. rewrite (proj2 (String.eqb_neq id "") Hid). unfold saveNewConfig.
  by rewrite (saveConfig_now _ _ data).
Qed.

Lemma onRegistered_blank (f : Flags) (su : Surroundings) (l : list string) (d : AgentCerts.Disk) :
  Forall (λ s, s = "") l → foldl (onRegistered f su None (f_hub f) (f_caPin f)) d l = d.
Proof. intros HF. revert d. induction HF as [|s l -> _ IH]; [done|]. intros d. simpl. apply IH. Qed.

(** C35: A registered agent resumes as the server it is.  When a first start with a token registered
    as some server and its disk did not fail, the file it leaves is what every later start on it
    goes by: whatever flags that start is given, a token included, it is that server of that hub
    with that fingerprint, it never registers again and never becomes another server. *)
Theorem registered_agent_resumes (f : Flags) (su : Surroundings) (attempts : list AgentClient.Attempt)
    (d d' : AgentCerts.Disk) (code : Z) (c : AgentClient.Client)
    (Hstart : start f su attempts d = Ret (code, Some c, d'))
    (Hfirst : is_ok (loadConfig (f_config f) d).1 = false) (Hkeeps : Forall keeps_identity attempts)
    (Hid : AgentClient.cl_serverID c ≠ "") (Hdisk : AgentCerts.answers (AgentClient.cl_disk c) = [])
    (Htext : ascii_config (new_config f su (AgentClient.cl_serverID c)) = true) :
  ∀ d2 f2 su2, AgentCerts.files d2 !! f_config f = AgentCerts.files d' !! f_config f → AgentCerts.answers d2 = [] →
    f_config f2 = f_config f →
    resolveConfig (f_config f2) (f_hub f2) (f_token f2) (f_caPin f2) d2
      = (Start (Some (new_config f su (AgentClient.cl_serverID c))) (f_hub f) (AgentClient.cl_serverID c) "" (f_caPin f), d2) ∧
    ∀ attempts2 code2 c2 d3, start f2 su2 attempts2 d2 = Ret (code2, Some c2, d3) → Forall keeps_identity attempts2 →
      AgentClient.cl_serverID c2 = AgentClient.cl_serverID c ∧ AgentClient.cl_registered c2 = [].
Proof.
  assert (Hfile : ∃ data, AgentCerts.files d' !! f_config f = Some data ∧
    unmarshal data = Ok (new_config f su (AgentClient.cl_serverID c))).
  { destruct (json_roundtrip _ Htext) as (data & Hm & Hu). exists data. split; [|done].
    unfold start, resolveConfig in Hstart. destruct (loadConfig _ d) as [[cfg|e] d0]; [done|]. 
    destruct (String.eqb (f_token f) ""), (String.eqb (f_hub f) ""), (String.eqb (f_caPin f) ""); try done.
    destruct (AgentClient.Run _ _) as [[[ws last] c1]|] eqn:Hr; cbn [obind] in Hstart; [|done].
    assert (He : enrolled (identity c1)) by (eapply run_enrolled; [done| |exact Hr]; exists []; split; [constructor|by left]).
    assert (Hc : c1 = c) by (destruct last; congruence). subst c1.
    destruct He as (l & Hl & [[Hs _]|[_ Hreg]]); [done|]. change ((identity c).2) with (AgentClient.cl_registered c) in Hreg.
    rewrite Hreg, foldl_app, (onRegistered_blank _ _ l) in Hstart by done. cbn [foldl] in Hstart.
    change ((identity c).1) with (AgentClient.cl_serverID c) in Hstart.
    rewrite (onRegistered_now _ _ _ data (AgentClient.cl_disk c)), (onRegistered_now _ _ _ data (AgentCerts.MkDisk _ _))
      in Hstart by done.
    destruct last; injection Hstart as _ <-; simpl; by rewrite lookup_insert_eq. }
  intros d2 f2 su2 Hd2 Ha2 Hf2. destruct Hfile as (data & Hdata & Hu). rewrite Hdata in Hd2.
  assert (Hres : resolveConfig (f_config f2) (f_hub f2) (f_token f2) (f_caPin f2) d2 =
    (Start (Some (new_config f su (AgentClient.cl_serverID c))) (f_hub f) (AgentClient.cl_serverID c) "" (f_caPin f), d2)).
  { unfold resolveConfig. rewrite Hf2. by rewrite (loadConfig_now _ _ _ _ Ha2 Hd2 Hu). }
  split; [exact Hres|]. intros attempts2 code2 c2 d3 H2 Hk2. unfold start in H2. rewrite Hres in H2.
  destruct (AgentClient.Run _ _) as [[[ws last] c1]|] eqn:Hr; simpl in H2; [|done].
  apply run_registered in Hr; [|done|done].
  assert (Hc : c1 = c2) by (destruct last; congruence). subst c1. unfold identity in Hr. simpl in Hr. by injection Hr.
Qed.
End resumption.

(** ** A concrete agent *)

Section witnesses.
(** A configuration is its fields, separated by a byte no text has. *)
#[local] Notation sep := (ascii_of_nat 255).
#[local] Instance demo_json : Json := {|
  marshal := λ cfg, Ok (Join (String sep "") ([ac_ServerID cfg; ac_HubURL cfg; ac_HubCAPin cfg; ac_UnregisterToken cfg]
                                                ++ ac_AllowedPaths cfg));
  unmarshal := λ data, match Split sep data with
                       | a :: b :: c :: t :: ps => Ok (MkAgentConfig a b c t ps)
                       | _ => Err "unexpected end of JSON input"
                       end
|}.
#[local] Instance demo_json_laws : JsonLaws demo_json.
Proof.
  split. intros cfg Ha. eexists. split; [done|]. cbn [unmarshal demo_json].
  rewrite Split_Join; [by destruct cfg|done|].
  unfold ascii_config in Ha. rewrite forallb_forall in Ha. apply Forall_forall. intros s Hs.
  apply all_bytes_no_byte with (p := λ a, (nat_of_ascii a <? 128)%nat); [done|]. by apply Ha, list_elem_of_In.
Qed.
#[local] Instance demo_pki : AgentCerts.Pki := {|
  AgentCerts.GenerateKey := λ _, Err "no entropy"; AgentCerts.key_public := λ k, Ok k;
  AgentCerts.CreateCertificateRequest := λ _ _ _, Ok "csr"; AgentCerts.ParseCertificate := λ b, Err "x509: malformed";
  AgentCerts.CheckSignatureFrom := λ _ _, Ok tt;
  AgentCerts.MarshalECPrivateKey := λ k, Ok k; AgentCerts.ParseECPrivateKey := λ b, Ok b;
  AgentCerts.ParsePKCS8PrivateKey := λ _, Ok None;
  AgentCerts.pem_encode := λ _ b, b; AgentCerts.pem_decode := λ p, Some p; AgentCerts.X509KeyPair := λ _ _, true;
  AgentCerts.AppendCertsFromPEM := λ _, true
|}.
#[local] Instance demo_tls : AgentClient.Tls := {|
  AgentClient.sha256_raw := λ b, b; AgentClient.Verify := λ _ _ _ _, Err "x509: unknown authority";
  AgentClient.is_ip := λ _, false
|}.

(** The first start of a development agent, which registers as [srv-1] and is stopped. *)
#[local] Notation first_flags := (MkFlags "hub.example:9090" "tok" "ab12" "/opt/agent.conf" "" "" false true "/var/log").
#[local] Notation demo_machine := (MkSurroundings "web-1" "linux/amd64" "f00d" (Dropzone.MkFs ∅ ∅ 0) []).
#[local] Notation enrolling := (AgentClient.MkAttempt
  (AgentClient.MkHub None None (Ok (Proto.RegisterAck true "srv-1" "" "" "")) "EOF") 0 "10.0.0.7" id (λ c, Ret c)).
#[local] Notation no_disk := (AgentCerts.MkDisk ∅ []).
Definition demo_first : Z * option AgentClient.Client * AgentCerts.Disk := Eval vm_compute in
  match start first_flags demo_machine [enrolling] no_disk with Ret x => x | Panic => (0, None, no_disk) end.
#[local] Notation demo_client := (default (AgentClient.New (AgentClient.MkConfig "" "" "" "" "" "" "" false [] "") "" "" ""
  (Dropzone.MkFs ∅ ∅ 0) [] no_disk) demo_first.1.2).

Lemma registered_agent_resumes_witness :
  (resolveConfig "/opt/agent.conf" "other.example:1" "tok2" "cd34" demo_first.2).1
    = Start (Some (MkAgentConfig "srv-1" "hub.example:9090" "ab12" "f00d" [])) "hub.example:9090" "srv-1" "" "ab12".
Proof.
  assert (Hkeeps : Forall keeps_identity [enrolling]) by (repeat constructor; by intros c c' [= <-]).
  assert (H1 : start first_flags demo_machine [enrolling] no_disk = Ret (0, Some demo_client, demo_first.2)) by (vm_compute; reflexivity).
  assert (H2 : is_ok (loadConfig (f_config first_flags) no_disk).1 = false) by (vm_compute; reflexivity).
  assert (H3 : AgentClient.cl_serverID demo_client ≠ "") by (vm_compute; discriminate).
  assert (H4 : AgentCerts.answers (AgentClient.cl_disk demo_client) = []) by (vm_compute; reflexivity).
  assert (H5 : ascii_config (new_config first_flags demo_machine (AgentClient.cl_serverID demo_client)) = true) by (vm_compute; reflexivity).
  assert (H6 : AgentCerts.answers demo_first.2 = []) by (vm_compute; reflexivity).
  destruct (registered_agent_resumes first_flags demo_machine [enrolling] no_disk demo_first.2 0 demo_client
    H1 H2 Hkeeps H3 H4 H5 demo_first.2
    (MkFlags "other.example:1" "tok2" "cd34" "/opt/agent.conf" "" "" false false "") demo_machine
    eq_refl H6 eq_refl) as [H _].
  change (resolveConfig "/opt/agent.conf" "other.example:1" "tok2" "cd34" demo_first.2 =
    (Start (Some (MkAgentConfig "srv-1" "hub.example:9090" "ab12" "f00d" [])) "hub.example:9090" "srv-1" "" "ab12", demo_first.2)) in H.
  by rewrite H.
Defined.

(** The paths the first start was confined to are not in the file: a later start without the flag is
    confined to none. *)
Example allowed_paths_forgotten :
  match start (MkFlags "" "" "" "/opt/agent.conf" "" "" false true "") demo_machine [] demo_first.2 with
  | Ret (_, Some c, _) => AgentClient.AllowedPaths (AgentClient.cl_cfg c) = []
  | _ => False
  end ∧ AgentClient.AllowedPaths (AgentClient.cl_cfg demo_client) = ["/var/log"].
Proof. by vm_compute. Qed.
End witnesses.
