(* ===== verification/Unregister.v ===== *)
(** * Self-unregistration, from the agent's request to the hub's tables.

    The request of [AgentMain.SelfUnregister] is served by the routes of [Router] with the handler of
    [Files] (hub/internal/server/handlers_unregister.go). *)

From S2P Require Import Prelude GoStr GoTime Model Proto ConnMgr Db Demo StoreServers StoreAudit Http Files Router AgentMain.
From S2P Require AgentCerts AgentClient Auth Secrets.

(** ** The hub's side *)

(** What the agent's HTTP client makes of its request: no cookies, no origin, no bearer token. *)
Record carries (EscapedPath : Request → string) (hr : HubRequest) (r : Request) : Prop := {
  cr_method : r_Method r = "DELETE";
  cr_path : r_Path r = hr_path hr;
  cr_escaped : EscapedPath r = hr_path hr;
  cr_token : header r "X-Unregister-Token" = default "" (hr_token hr);
  cr_origin : header r "Origin" = "";
  cr_bearer : header r "Authorization" = "";
  cr_cookies : ∀ name, cookie r name = None
}.

(** An identifier that is a path element and needs no escaping. *)
Definition plain_id (id : string) : Prop := plain_elem id ∧ path_unescape id = Some id.

Definition self_path (id : string) : string := "/api/servers/" +:+ id +:+ "/self-unregister".

Lemma self_path_Join (id : string) : self_path id = "/" +:+ Join "/" ["api"; "servers"; id; "self-unregister"].
Proof. done. Qed.

Lemma self_path_segments (id : string) : plain_id id → Router.segments (self_path id) = ["api"; "servers"; id; "self-unregister"].
Proof.
  intros [(H1 & H2 & H3 & H4) Hu]. unfold Router.segments. rewrite self_path_Join.
  replace (String.eqb _ "") with false by done.
  change (drop_str 1 ("/" +:+ Join "/" ["api"; "servers"; id; "self-unregister"]))
    with (Join "/" ["api"; "servers"; id; "self-unregister"]).
  rewrite (Split_Join "/") by (try done; repeat constructor; done). cbn -[Join]. unfold pathUnescape. by rewrite Hu.
Qed.

Lemma Clean_plain (es : list string) :
  es ≠ [] → Forall plain_elem es → Clean ("/" +:+ Join "/" es) = "/" +:+ Join "/" es.
Proof.
  intros Hne HF. unfold Clean, clean_elems.
  assert (is_rooted ("/" +:+ Join "/" es) = true) as -> by apply (prefix_app "/").
  change (Split "/" ("/" +:+ Join "/" es)) with ("" :: Split "/" (Join "/" es)).
  rewrite Split_Join by (done || by apply plain_no_byte).
  change (fold_left (clean_step true) ("" :: es) []) with (fold_left (clean_step true) es []).
  rewrite fold_clean_plain by done. by rewrite app_nil_r, rev_involutive.
Qed.

Lemma HasSuffix_long (s t : string) (a b c : ascii) :
  HasSuffix (s +:+ String a (String b t)) (String c "") = HasSuffix (String a (String b t)) (String c "").
Proof.
  induction s as [|x s IH]; [done|]. cbn [String.append HasSuffix]. rewrite IH.
  destruct (String.eqb_spec (String x (s +:+ String a (String b t))) (String c "")) as [He|]; [|done].
  injection He as _ He. by destruct s.
Qed.

Lemma self_path_clean (id : string) : plain_id id → cleanPath (self_path id) = self_path id.
Proof.
  intros [Hid _]. unfold cleanPath.
  assert (Hc : Clean (self_path id) = self_path id).
  { rewrite self_path_Join. apply Clean_plain; [done|]. repeat constructor; try done; apply Hid. }
  change (String.eqb (self_path id) "") with false. 
  assert (HasPrefix (self_path id) "/" = true) as -> by apply (prefix_app "/"). cbn iota.
  rewrite Hc. replace (HasSuffix (self_path id) "/") with false; [done|].
  unfold self_path. rewrite <- app_assoc_str. by rewrite HasSuffix_long.
Qed.

(** ** Routing by patterns alone *)

Section by_pattern.
Context {V W : Type}.
#[local] Notation candidate V := (list segment * list (string * string) * V)%type.

Definition on_value (g : V → W) (c : candidate V) : candidate W := (c.1, g c.2).
Definition on_result (g : V → W) (r : list (string * string) * V) : list (string * string) * W := (r.1, g r.2).

Lemma omap_on_value (g : V → W) (f : candidate V → option (candidate V)) (f' : candidate W → option (candidate W)) cs :
  (∀ c, f' (on_value g c) = on_value g <$> f c) → omap f' (map (on_value g) cs) = map (on_value g) (omap f cs).
Proof. intros Hf. induction cs as [|c cs IH]; [done|]. cbn. rewrite Hf. destruct (f c); cbn; by rewrite IH. Qed.

Lemma head_on_value (g : V → W) (f : candidate V → option (list (string * string) * V))
    (f' : candidate W → option (list (string * string) * W)) cs :
  (∀ c, f' (on_value g c) = on_result g <$> f c) →
  head (omap f' (map (on_value g) cs)) = on_result g <$> head (omap f cs).
Proof. intros Hf. induction cs as [|c cs IH]; [done|]. cbn. rewrite Hf. by destruct (f c). Qed.

(** The route taken does not depend on what the routes lead to. *)
Lemma matchPath_natural (g : V → W) (segs : list string) (cs : list (candidate V)) :
  matchPath segs (map (on_value g) cs) = on_result g <$> matchPath segs cs.
Proof.
  revert cs. induction segs as [|seg segs IH]; intros cs.
  - apply head_on_value. by intros [[[|? ?] ?] ?].
  - cbn [matchPath]. rewrite (omap_on_value g (take_lit seg)), (omap_on_value g (take_wild seg)), !IH.
    + destruct (matchPath segs _); [done|]. cbn. destruct (String.eqb seg "/"); cbn.
      * apply head_on_value. by intros [[[|[] ?] ?] ?].
      * destruct (matchPath segs _); [done|]. apply head_on_value. by intros [[[|[] ?] ?] ?].
    + by intros [[[|[] ?] ?] ?].
    + intros [[[|[] ?] ?] ?]; try done. cbn. by destruct (String.eqb _ _).
Qed.

Lemma for_method_natural (g : V → W) (m : string) (table : list (string * V)) :
  for_method m (map (λ x, (x.1, g x.2)) table) = map (on_value g) (for_method m table).
Proof.
  unfold for_method. induction table as [|[p v] table IH]; [done|]. cbn -[parse_pattern].
  destruct (parse_pattern p) as [m' ps]. destruct (String.eqb m' m); cbn; by rewrite IH.
Qed.

Lemma Match_natural (g : V → W) (m path : string) (table : list (string * V)) :
  Match m path (map (λ x, (x.1, g x.2)) table) = on_result g <$> Match m path table.
Proof.
  unfold Match. rewrite !for_method_natural, !matchPath_natural.
  destruct (matchPath _ (for_method m table)); [done|]. cbn. destruct (String.eqb m "HEAD"); cbn.
  - by destruct (matchPath _ (for_method "GET" table)).
  - done.
Qed.
End by_pattern.

(** Each route as its place in the table. *)
Fixpoint numbered {V : Type} (i : nat) (table : list (string * V)) : list (string * nat) :=
  match table with [] => [] | (p, _) :: table' => (p, i) :: numbered (S i) table' end.

(** [matchPath] with the tests for a trailing slash given. *)
Fixpoint match_slashes {V : Type} (slashes : list bool) (segs : list string)
    (cs : list (list segment * list (string * string) * V)) : option (list (string * string) * V) :=
  match segs, slashes with
  | seg :: segs', slash :: slashes' =>
      match match_slashes slashes' segs' (omap (take_lit seg) cs) with
      | Some r => Some r
      | None =>
          match (if slash then None else match_slashes slashes' segs' (omap (take_wild seg) cs)) with
          | Some r => Some r
          | None => head (omap take_multi cs)
          end
      end
  | _, _ => head (omap take_end cs)
  end.

Lemma matchPath_slashes {V : Type} (segs : list string) (cs : list (list segment * list (string * string) * V)) :
  matchPath segs cs = match_slashes (map (λ s, String.eqb s "/") segs) segs cs.
Proof.
  revert cs. induction segs as [|seg segs IH]; intros cs; [done|]. cbn [map matchPath match_slashes]. by rewrite !IH.
Qed.

(** What the routes for [DELETE] ask of a path. *)
Definition self_candidates : list (list segment * list (string * string) * nat) := Eval vm_compute in
  for_method "DELETE" (numbered 0 (map (λ x, (x.1.1, tt)) documented)).

Section served.
Context `{E : Env} `{N : NetEnv}.
Context (isDev : bool) (secret : string) (EscapedPath : Request → string) (redirectStatus : Z).
Context (range : nat → gmap string (list Z) → list (string * list Z)) (I : handler → HandlerFunc unit).

Lemma self_route (id : string) : plain_id id →
  Match "DELETE" (self_path id) (routes secret range I) = Some ([("id", id)], loggingMiddleware (I handleSelfUnregister)).
Proof.
  intros Hid. pose (table := routes secret range I). pose (g := λ i, (nth i table ("", I handleHealth)).2).
  transitivity (on_result g <$> Match "DELETE" (self_path id) (numbered 0 table)).
  { rewrite <- Match_natural. f_equal. }
  assert (Hm : for_method "DELETE" (numbered 0 table) = self_candidates) by (vm_compute; reflexivity).
  unfold Match. rewrite Hm, self_path_segments, matchPath_slashes by done. cbn [map].
  assert (Hs : String.eqb id "/" = false) by (destruct Hid as [(_ & _ & _ & Hn) _]; apply String.eqb_neq; by intros ->).
  rewrite Hs. by vm_compute.
Qed.

(** A request of the agent's client meets no gate on its way. *)
Lemma self_served (hr : HubRequest) (id : string) (r : Request) (w : World) :
  carries EscapedPath hr r → hr_path hr = self_path id → plain_id id →
  ∃ values ctx w', values "id" = id ∧ quiet w w' ∧
    ServeHTTP isDev secret EscapedPath redirectStatus range I r w
      = I handleSelfUnregister (r <| PathValue := values |>) ctx w'.
Proof.
  intros [Hm Hp He Ht Ho Hb Hc] Hpath Hid. rewrite Hpath in *. unfold ServeHTTP.
  set (w0 := w <| w_header := ∅ |>). assert (Q0 : quiet w w0) by apply quiet_header.
  edestruct (securityHeaders_passes (A := unit)) as (w1 & -> & Q1); [exact Q0|].
  edestruct (apiCacheControl_passes (A := unit)) as (w2 & -> & Q2); [exact Q1|].
  match goal with |- context [corsMiddleware isDev ?n r ?c w2] =>
    assert (Hcors : ∃ w3, quiet w w3 ∧ corsMiddleware isDev n r c w2 = n r c w3) end.
  { match goal with |- context [corsMiddleware isDev ?n r ?c w2] =>
      set (next := n); set (P := λ res, ∃ w3, quiet w w3 ∧ res = next r c w3); change (P (corsMiddleware isDev next r c w2)) end.
    unfold corsMiddleware. rewrite Hm. destruct isDev; [|exists w2; auto].
    repeat (eapply setHeader_passes; [|eassumption]; let v := fresh "v" in intros v ?). eexists. by split. }
  destruct Hcors as (w3 & Q3 & ->). unfold csrfMiddleware.
  assert (Hbear : isUsingBearerAuth r = false) by (unfold isUsingBearerAuth; by rewrite Hb).
  assert (Hcookie : readCSRFCookie r = "") by (unfold readCSRFCookie; by rewrite Hc).
  assert (Htok : readAccessToken r = "") by (unfold readAccessToken; by rewrite Hc, Hb).
  rewrite Ho, Hbear, Hcookie, Htok. cbn [String.eqb negb andb].
  match goal with |- context [if ?b then ?m r ?c else ?m r ?c] => replace (if b then m r c else m r c) with (m r c) by by destruct b end.
  edestruct (requestID_passes (A := unit)) as (ctx & w4 & -> & Q4); [exact Q3|]. unfold mux. rewrite Hm, He.
  change (String.eqb "DELETE" "CONNECT") with false. cbn iota. rewrite self_path_clean, String.eqb_refl, self_route by done.
  cbn [negb]. do 3 eexists. split; [|split; [exact Q4|]]; [|unfold loggingMiddleware; done]. done.
Qed.
End served.

(** ** The handler *)

Section handler.
Context `{E : Env} `{N : NetEnv} (hmac_sha256 : string → string → string) (jwtSecret : string).

(** A server's row goes, with its connection. *)
Definition unregistered (id : string) (w w' : World) : Prop :=
  d_servers (w_db w') = List.filter (λ s, negb (server_is id s)) (d_servers (w_db w)) ∧
  w_conns w' = Unregister id (w_conns w).

Definition undisturbed (w w' : World) : Prop := w_db w' = w_db w ∧ w_conns w' = w_conns w.

Lemma GetServerByID_now (id : string) (w : World) : no_faults w →
  GetServerByID id w = (match List.find (server_is id) (d_servers (w_db w)) with
                        | Some s => Ok s | None => Err errServerNotFound end, w).
Proof.
  intros Hf. unfold GetServerByID, scanServer. erewrite bind_run by (unfold wrap; rewrite query_row_ok by done; done).
  unfold find_server. by destruct (List.find _ _).
Qed.

Lemma DeleteServer_now (id : string) (s : Server) (w : World) : no_faults w →
  db_violation (w_fk w) (w_db w) = None → List.find (server_is id) (d_servers (w_db w)) = Some s →
  DeleteServer id w = (Ok tt, w <| w_db := delete_servers (w_fk w) (server_is id) (w_db w) |>).
Proof.
  intros Hf Hv Hs. unfold DeleteServer.
  erewrite bind_run by (unfold wrap; rewrite exec_ok by (done || by apply delete_servers_consistent); done).
  cbn iota beta. unfold require_row. erewrite bind_run by (unfold try, RowsAffected; erewrite bind_run by (by apply driver_ok); done).
  cbn [fst snd].
  assert (count_rows (server_is id) (d_servers (w_db w)) =? 0 = false) as ->; [|done]. apply Z.eqb_neq.
  apply elem_of_find in Hs as [Hin Hid]. unfold count_rows.
  destruct (List.filter (server_is id) (d_servers (w_db w))) as [|x l] eqn:Hl; [|done]. exfalso.
  assert (Hin' : In s (List.filter (server_is id) (d_servers (w_db w)))) by (apply filter_In; by rewrite <- list_elem_of_In).
  by rewrite Hl in Hin'.
Qed.

Lemma auditLogRequest_ok (ctx : Ctx) (e : AuditEntry) (w : World) : (auditLogRequest ctx e w).1 = Ok tt.
Proof.
  unfold auditLogRequest, bind. destruct (String.eqb (ae_ID e) ""); unfold NewString, draw, bind, ret, ignore;
    by destruct (LogAudit _ _).
Qed.

Lemma handleSelfUnregister_cases (r : Request) (ctx : Ctx) (w : World) :
  no_faults w → db_violation (w_fk w) (w_db w) = None →
  let id := PathValue r "id" in
  let answer := Files.handleSelfUnregister hmac_sha256 jwtSecret r ctx w in
  match List.find (server_is id) (d_servers (w_db w)) with
  | None => answer = (Ok (RespondJSON 204 tt), w)
  | Some _ =>
      if String.eqb (header r "X-Unregister-Token") (selfUnregisterToken hmac_sha256 jwtSecret id)
      then answer.1 = Ok (RespondJSON 204 tt) ∧ unregistered id w answer.2
      else answer = (Ok (RespondError 403 "unauthorized"), w)
  end.
Proof.
  intros Hf Hv id answer. unfold answer, Files.handleSelfUnregister. fold id.
  erewrite bind_run by (unfold try; rewrite GetServerByID_now by done; done). cbn iota beta.
  destruct (List.find _ _) as [s|] eqn:Hs; [|done].
  destruct (String.eqb _ _); [|done]. cbn [negb].
  erewrite bind_run by done. cbn iota beta. set (w1 := w <| w_conns ::= _ |>).
  erewrite bind_run by (unfold try; rewrite (DeleteServer_now id s w1) by done; done). cbn iota beta.
  set (w2 := w1 <| w_db := _ |>). erewrite bind_run by done. cbn iota beta. set (w3 := w2 <| w_draws ::= S |>).
  match goal with |- context [auditLogRequest ctx ?e] => set (entry := e) end.
  assert (Hl := auditLogRequest_ok ctx entry w3).
  assert (Hs3 := frame_auditLogRequest (tables d_servers) ctx entry w3).
  assert (Hc3 := frame_auditLogRequest w_conns ctx entry w3).
  destruct (auditLogRequest ctx entry w3) as [res w4] eqn:Ha. simpl in Hl. subst res.
  erewrite (bind_run (auditLogRequest ctx entry)) by exact Ha. split; [done|].
  split; [transitivity (d_servers (w_db w3)); [exact Hs3|]|exact Hc3].
  simpl. unfold delete_servers. by destruct (w_fk w).
Qed.
End handler.

(** ** From the agent to the tables *)

Section end_to_end.
Context `{E : Env} `{N : NetEnv} `{J : Json} `{X : AgentClient.Tls}.
Context (hmac_sha256 : string → string → string) (jwtSecret : string).
Context (isDev : bool) (EscapedPath : Request → string) (redirectStatus : Z).
Context (range : nat → gmap string (list Z) → list (string * list Z)) (I : handler → HandlerFunc unit).
Context (HI : I handleSelfUnregister = Files.handleSelfUnregister hmac_sha256 jwtSecret).

(** The status line a client reads. *)
Definition status_of (res : result (response unit)) : result Z :=
  match res with Ok (RespondJSON st _) | Ok (RespondError st _) => Ok st | Err e => Err e end.

End end_to_end.

Section witnesses.
#[local] Existing Instance demoEnv.
#[local] Existing Instance Http.demo_net.
(** A configuration is its server, its hub and its token. *)
#[local] Instance demo_json : Json := {|
  marshal := λ cfg, Ok (Join "," [ac_ServerID cfg; ac_HubURL cfg; ac_UnregisterToken cfg]);
  unmarshal := λ data, match Split "," data with [a; b; t] => Ok (MkAgentConfig a b "" t []) | _ => Err "bad JSON" end
|}.
#[local] Instance demo_tls : AgentClient.Tls := {|
  AgentClient.sha256_raw := λ b, b; AgentClient.Verify := λ _ _ _ _, Err "x509: unknown authority";
  AgentClient.is_ip := λ _, false
|}.
Definition demo_hmac (key text : string) : string := key +:+ "/" +:+ text.
Definition demo_routes (h : handler) : HandlerFunc unit :=
  match h with
  | handleSelfUnregister => Files.handleSelfUnregister demo_hmac "s"
  | _ => λ _ _, ret (RespondError 501 "")
  end.
Definition demo_hub_world : World := demo_world (empty_db <| d_servers :=
  [zeroServer <| s_ID := "srv-1" |> <| s_Name := "web-1" |> <| s_Status := "online" |>;
   zeroServer <| s_ID := "srv-2" |> <| s_Name := "web-2" |> <| s_Status := "online" |>] |>).
Definition demo_request (token : string) : Request :=
  MkRequest "DELETE" (self_path "srv-1") "hub.example" "10.0.0.7:4242" true (λ _, "") (λ _, "")
    (λ k, if String.eqb k "X-Unregister-Token" then token else "") (λ _, None).
#[local] Notation disk_of token := (AgentCerts.MkDisk {["/opt/agent.conf" := "srv-1,hub.example:443," +:+ token]} []).
#[local] Notation config_of token := (MkAgentConfig "srv-1" "hub.example:443" "" token []).
#[local] Notation serve r w := (ServeHTTP false "s" r_Path 301 (λ _ m, map_to_list m) demo_routes r w).

Lemma demo_carries (token : string) : token ≠ "" →
  carries r_Path (selfUnregister_request "hub.example:443" "srv-1" token) (demo_request token).
Proof.
  intros Ht. unfold selfUnregister_request. change (Http.SplitHostPort "hub.example:443") with (Some ("hub.example", "443")).
  cbn iota beta. rewrite (proj2 (String.eqb_neq token "") Ht). by split.
Qed.


(** A server the hub failed to read is answered for as one that is gone. *)
Example unread_server_reported_gone :
  let w := demo_hub_world <| w_faults := [Some "database is locked"] |> in
  (serve (demo_request "guess") w).1 = Ok (RespondJSON 204 tt) ∧
  map s_ID (d_servers (w_db (serve (demo_request "guess") w).2)) = ["srv-1"; "srv-2"].
Proof. by vm_compute. Qed.
End witnesses.
